(* ===== verification/_CoqProject ===== *)
-Q . S2P
Prelude.v
PyStr.v
IpAddress.v
Errors.v
PyJson.v
ArgParse.v
ArgProps.v
Types.v
Issues.v
RuntimeProfile.v
RuntimeProps.v
RulesValidation.v
TopologyValidation.v
TopologySpec.v
TopologyProps.v
State.v
DpdkModels.v
Framing.v
DpdkClient.v
ClientProps.v
Clock.v
Supervisor.v
SupervisorProps.v
SupervisorPayloads.v
IpcClient.v
Netns.v
SimWorld.v
SupervisorClaims.v
Topology.v
Manager.v
TopologyWiring.v
ManagerProps.v
SupervisorMoves.v
ManagerMoves.v
App.v
AppProps.v
SimController.v
AppInvariant.v
AppClaims.v
Launch.v
ConfigLoader.v
ApiModels.v
Api.v
ApiProps.v
ApiSpec.v
ApiClaims.v
ApiLife.v
CtlClient.v
CtlOutput.v
CtlCommands.v
CtlProps.v
CtlServed.v
CtlSpec.v
SimHttp.v
CtlClaims.v
CtlMain.v
CtrldMain.v
EndToEnd.v
Interference.v
Interleaving.v
ConcurrentRecord.v
Locks.v
