(* ===== verification/Prelude.v ===== *)
(** * pktlab controller: verification library

    pktlab is a packet laboratory: a datapath process (C, DPDK) forwards
    packets between network namespaces, a controller (Python,
    [src/ctrld/pktlab_ctrld]) validates lab topologies, builds them with the
    [ip] command, starts and supervises the datapath and talks to it over a
    Unix socket, and a tool (Python, [src/ctl/pktlabctl]) talks to the
    controller over HTTP.  This library models both Python programs and proves
    what makes them correct.

    ** The parts, from the inside out

    Base.  [Prelude]: results with exceptions, computations over a state
    ([pym]) with try, except and finally, and the lemmas and hints on them.
    [PyStr], [IpAddress], [PyJson], [ArgParse]: the string methods, the
    [ipaddress] module, [str], [int], [json.dumps] and [argparse] of the Python
    standard library as the sources use them; [ArgProps] is about command
    lines.

    Configuration.  [Errors] ([error.py]), [Types] ([types.py]), [Issues],
    [RuntimeProfile], [RulesValidation], [TopologyValidation]
    ([config/validation.py]), [ConfigLoader] ([config/topology.py],
    [config/rules.py]).  [TopologySpec] states on the configuration alone
    what a valid topology is; [TopologyProps] and [RuntimeProps] show that the
    validators accept exactly that.

    State.  [State]: [state/desired.py], [state/observed.py] and
    [state/reconcile.py].

    Datapath IPC.  [DpdkModels] ([dpdk_client/models.py]), [Framing]
    ([dpdk_client/protocol.py]), [DpdkClient] ([dpdk_client/client.py]),
    [ClientProps].

    Supervision.  [Clock] ([util/time.py]), [Supervisor]
    ([process/supervisor.py]) over the interfaces [Processes] and [Ipc], with
    [SupervisorProps], [SupervisorPayloads], [SupervisorMoves] and
    [SupervisorClaims]; [IpcClient] discharges [Ipc] with the client of
    [DpdkClient].

    Topology.  [Netns] ([util/subprocess.py], [util/netns.py]), [Topology]
    ([topology/namespaces.py], [links.py], [taps.py], [routes.py]), [Manager]
    ([topology/manager.py]); [TopologyWiring] says which network a topology
    asks for, [ManagerMoves] and [ManagerProps] what applying and destroying
    do to the host.

    Controller.  [App] ([app.py]): the runtime, whose callbacks the manager is
    given.  [AppProps], [AppInvariant], [AppClaims], [Launch] (the datapath's
    command line).  [CtrldMain] ([main.py]): from its own command line to the
    service.

    Several requests at once.  [Interference]: the manager while others act
    between its calls.  [Interleaving]: requests as sections under the locks,
    of which those that need no lock of the manager also run between its
    calls.  [ConcurrentRecord], [Locks].

    HTTP.  [ApiModels] ([api/models.py]), [Api] ([api/routes_*.py],
    [api/app.py]), [ApiProps], [ApiSpec] (the documented answers), [ApiClaims],
    [ApiLife] (start to shutdown).

    Tool.  [CtlClient] ([client.py]), [CtlOutput] ([output.py]), [CtlCommands]
    ([commands/*.py] and the dispatch of [cli.py]), [CtlProps], [CtlServed]
    (the tool in front of the API), [CtlSpec] (what is to be printed),
    [CtlClaims], [CtlMain] ([cli.py] and [main.py] on a command line),
    [EndToEnd] (from the shell to the network).

    [SimWorld], [SimController] and [SimHttp] are small concrete worlds that
    implement the interfaces: they show that the laws can hold, and the
    witnesses of the theorems evaluate on them.

    ** How state and operations correspond

    An object's attributes are a record, the rest of the machine is a type [W]
    with interfaces, and a method is a computation [pym E S A = S → res E A *
    S] over both, so that what was done before an exception is kept.  The
    topology manager and the controller nest: [S] is [option AppliedTopology *
    (controller * W)], and [on_snd] runs a callback on its part.  Validators
    append to a list of issues and may raise ([chk]).  A pydantic or dataclass
    model is a record, its constraints are the boolean [*_ok] or the guards of
    [new_*].

    ** What the theorems show

    - Controller ([AppClaims], [AppInvariant]): what applying and destroying
      mean for host and attributes, on success and failure; the invariant of
      every reachable state; when the record and the observed state agree;
      when the controller is healthy.
    - Concurrency ([Interference], [Interleaving], [ConcurrentRecord],
      [Locks]): the invariant survives every interleaving of the requests'
      sections, also between the calls of a manager at work; what others do in
      between cannot spoil an apply or a destroy as long as they leave the
      topology's network alone, so the recorded topology is the one on the
      host, as long as taking a topology down never raised; the agreement of
      record and observed state does not survive: whenever the last sections
      of an apply or a destroy run after the whole of the other, what is shown
      is not what is recorded, and a late stop ends the other's datapath;
      requests never deadlock, while [ControllerRuntime.stop] can block with
      an apply.
    - Entry points ([CtlMain], [CtrldMain], [EndToEnd]): every command line is
      refused or dispatched, the words of a command are read back as its
      arguments, options win over the environment; what is served satisfies
      what the theorems on the controller require; an exit status of 0 tells
      the truth about the host, under the conditions on the network below.
    - HTTP and tool ([ApiClaims], [ApiLife], [CtlClaims]): every endpoint
      answers with what its operation did, in the documents and statuses of
      [ApiSpec], documents that cannot be used are 422, an orderly shutdown
      leaves nothing; the tool reads every document and prints the text of
      [CtlSpec], unless it gives up waiting.
    - Manager ([ManagerProps]): what is built, removed and cleaned up, as facts
      about the network under the laws of [ip].
    - Supervisor ([SupervisorClaims]): process and client come and go
      together, a failed start has ended its child unless ending it raised,
      stopping ends it, a status says what a poll says, readiness is waited
      for until the deadline and no longer.
    - IPC ([Framing], [ClientProps], [IpcClient]): round trip and bounds of
      frames, outcomes of commands, and that the client is what the supervisor
      is verified against.
    - Validation ([TopologyProps], [RuntimeProps]): equivalence with the
      specification, exhaustive lists of the exceptions, limits of the derived
      profile, round trip of core lists, what acceptance guarantees later.
    - Reconcile plan ([State]): empty exactly when converged, otherwise what
      is called for, in order.  Nothing in the sources carries a plan out.

    ** The conditions on the network

    Validation accepts topologies the code does not build as asked, and the
    theorems say so.  That the network of a topology is on the host is claimed
    when no port is named like the kernel interface of the other side
    ([ports_uncrossed]), no link or bridge like an interface of the datapath
    ([wired]), and no namespace of the host has white space in its name
    ([plain_host]); and for the facts outside the datapath's own interfaces
    ([tap_fact]), which the datapath creates and removes.  That nothing is left
    of a topology is claimed of its namespaces whose names are [plain]: not
    empty, no white space ([below]).  The code finds the others in no listing
    and does not delete them ([Netns.delete_namespace_keeps]).

    ** Assumptions, bounds and fuel

    - Polling loops carry fuel; [Clock.turns] is timeout over interval plus
      one, which [turns_enough] shows to suffice when sleeping lasts as long
      as asked.  Reading a frame carries the number of missing bytes, as every
      turn that does not raise receives one.
    - Strings are Latin-1; integers are unbounded, as in Python, and have
      fewer than the 4300 digits at which CPython refuses to convert; memory
      does not run out; times are integers, a tick being a millisecond where a
      default of the source is used.
    - Libraries and the system are interfaces, with their documented
      behaviour as laws: sockets ([Socket]), JSON with pydantic ([Codec],
      [Schemas]), YAML and files ([Yaml], [Files]), processes ([Processes]),
      [subprocess.run] and [ip] ([Host], [IpLaws]), the clock, UUIDs, the text
      of an exception ([ExnText]), httpx ([Http]), FastAPI in front of the
      handlers ([Served]), the environment ([Environ]), [float] on a text
      ([FloatLiteral]), the texts of usage and help ([ParserTexts]).
    - [IpLaws] says that a successful [ip] command has added what it says, or
      has removed a namespace or a link and added nothing; it does not say
      that a link is gone for good, which its owner may create again.  Of
      [ip netns list] it gives the format of the output, a line per namespace
      with an optional id after the name ([netns_listing]), and not the result
      of the program's parser, which is proved from it.
    - [json.loads] may raise other exceptions than [JSONDecodeError] (an
      integer of too many digits, nesting too deep), which the client does not
      catch: they are outcomes of [Codec], and [ClientProps] says so of a command.
    - [Served]: a request gets the answer of its handler, or the client gives
      up when it did not come within its timeout; then nothing is said of the
      state that is left.
    - [argparse] is that of CPython 3.11; of the parts it has, only those are
      in [ArgParse] that the two parsers use.
    - [QuietHost]: a running system, apart from the controller, leaves the
      topology's network alone; the datapath creates and removes its own tap
      devices.  [CalmHost] asks the same of every call of the datapath, for
      requests that run while the manager works.
    - [App] runs one call at a time; [Interleaving] splits the calls at their
      locks.  A section under the controller's lock stays one step, as every
      access to what it touches takes the lock; an operation of the manager is
      split at its calls of the host, between which sections of other requests
      run that take the controller's lock only.
    - Constructors are given their default arguments where the sources give
      them (client factory, runner, standard streams).

    ** Not modelled

    uvicorn, which serves the application of [Api]; the datapath [dpdkd],
    which is C and appears as [Processes] and [Ipc]; the packages [capture],
    [logging], [metrics], [scenario] and the traffic scenarios, which hold a
    doc string; tests, schemas and documents. *)

From stdpp Require Export base tactics option list gmap strings.
From Stdlib Require Export ZArith Lia.

(** ** Results with exceptions *)

(** A Python computation either returns a value or raises an exception. *)
Inductive res (E A : Type) : Type :=
| Ok (a : A)
| Err (e : E).
Arguments Ok {_ _} _.
Arguments Err {_ _} _.

#[export] Instance res_mret {E} : MRet (res E) := λ A a, Ok a.
#[export] Instance res_mbind {E} : MBind (res E) := λ A B k m,
  match m with
  | Ok a => k a
  | Err e => Err e
  end.

(** ** Checks: exceptions plus an append-only list of issues

    The validators of [config/validation.py] take an [issues] list, append to
    it and never read it; the list is local to the public entry point, so it
    is lost when an exception escapes.  [chk E I A] is such a computation: it
    raises, or returns a value with the issues it appended, in order. *)
Definition chk (E I A : Type) : Type := res E (A * list I).

Section chk.
Context {E I : Type}.

#[export] Instance chk_mret : MRet (chk E I) := λ A a, Ok (a, []).
#[export] Instance chk_mbind : MBind (chk E I) := λ A B k m,
  match m with
  | Ok (a, l1) =>
      match k a with
      | Ok (b, l2) => Ok (b, l1 ++ l2)
      | Err e => Err e
      end
  | Err e => Err e
  end.

(** [issues.append(i)] *)
Definition emit (i : I) : chk E I unit := Ok ((), [i]).
(** [if c: issues.append(i)] *)
Definition emit_if (c : bool) (i : I) : chk E I unit :=
  if c then emit i else mret ().
(** [raise e] *)
Definition chk_raise {A} (e : E) : chk E I A := Err e.
(** A computation that raises or returns and appends nothing. *)
Definition chk_lift {A} (m : res E A) : chk E I A :=
  match m with Ok a => Ok (a, []) | Err e => Err e end.

(** [for index, item in enumerate(items): acc = body(index, item, acc)] *)
Fixpoint chk_foldi {A T} (body : nat → A → T → chk E I T)
    (index : nat) (items : list A) (acc : T) : chk E I T :=
  match items with
  | [] => mret acc
  | item :: items' =>
      acc' ← body index item acc;
      chk_foldi body (S index) items' acc'
  end.

(** The computation returns [a] and appends no issue. *)
Definition clean {A} (m : chk E I A) (a : A) : Prop := m = Ok (a, []).
End chk.
#[global] Typeclasses Opaque chk.
Arguments clean : simpl never.
Arguments emit : simpl never.
Arguments emit_if : simpl never.
Arguments chk_raise : simpl never.
Arguments chk_lift : simpl never.
Arguments mret : simpl never.
Arguments mbind : simpl never.

(** ** Stateful computations with exceptions

    Unlike [chk], the state survives a raise: an attribute assigned before an
    exception keeps its value after it. *)
Definition pym (E S A : Type) : Type := S → res E A * S.

Section pym.
Context {E S : Type}.

#[export] Instance pym_mret : MRet (pym E S) := λ A a s, (Ok a, s).
#[export] Instance pym_mbind : MBind (pym E S) := λ A B k m s,
  match m s with
  | (Ok a, s') => k a s'
  | (Err e, s') => (Err e, s')
  end.

Definition raise {A} (e : E) : pym E S A := λ s, (Err e, s).
Definition gets {A} (f : S → A) : pym E S A := λ s, (Ok (f s), s).
Definition modify (f : S → S) : pym E S unit := λ s, (Ok (), f s).
Definition pym_lift {A} (m : res E A) : pym E S A := λ s, (m, s).
(** [try: m] / [except ...: handler exc], the handler choosing what it
    catches by re-raising the rest. *)
Definition try_except {A} (m : pym E S A) (handler : E → pym E S A) : pym E S A :=
  λ s, match m s with
       | (Err e, s') => handler e s'
       | r => r
       end.
(** [try: m] / [finally: cleanup] *)
Definition finally {A} (m : pym E S A) (cleanup : pym E S unit) : pym E S A :=
  λ s, let '(r, s1) := m s in
       match cleanup s1 with
       | (Ok _, s2) => (r, s2)
       | (Err e, s2) => (Err e, s2)
       end.
Fixpoint pym_iter {A} (body : A → pym E S unit) (items : list A) : pym E S unit :=
  match items with
  | [] => mret ()
  | item :: items' => body item;; pym_iter body items'
  end.
End pym.
#[global] Typeclasses Opaque pym.

(** Run a computation on one component of a pair of states. *)
Definition on_snd {E S T A} (m : pym E T A) : pym E (S * T) A := λ '(s, t),
  let '(r, t') := m t in (r, (s, t')).
Definition on_fst {E S T A} (m : pym E S A) : pym E (S * T) A := λ '(s, t),
  let '(r, s') := m s in (r, (s', t)).

(** ** Python's [x or d] on optional integers and strings: [None], [0] and
    the empty string are false. *)
Definition or_int (o : option Z) (d : Z) : Z :=
  match o with
  | Some z => if (z =? 0)%Z then d else z
  | None => d
  end.
Definition or_str (o : option string) (d : string) : string :=
  match o with
  | Some s => if decide (s = "") then d else s
  | None => d
  end.

(** [d.setdefault(k, v)]: the value now at [k], and the dict after the call. *)
Definition setdefault {V} `{Countable K} (m : gmap K V) (k : K) (v : V) : V * gmap K V :=
  match m !! k with
  | Some v' => (v', m)
  | None => (v, <[k := v]> m)
  end.

(** ** Facts about checks *)

Create HintDb pk.
Create Rewrite HintDb clean.

Section chk_facts.
Context {E I : Type}.
Implicit Types A B : Type.

Lemma clean_mret {A} (a b : A) :
  clean (mret a : chk E I A) b ↔ a = b.
Proof. unfold clean, mret, chk_mret. naive_solver. Qed.

Lemma clean_bind {A B} (m : chk E I A) (k : A → chk E I B) b :
  clean (m ≫= k) b ↔ ∃ a, clean m a ∧ clean (k a) b.
Proof.
  unfold clean, mbind, chk_mbind. split.
  - destruct m as [[a l1]|e]; [|done].
    destruct (k a) as [[b' l2]|e] eqn:Hk; [|done].
    intros [= -> Happ]. apply app_nil in Happ as [-> ->]. eauto.
  - intros (a & -> & ->). done.
Qed.

Lemma clean_emit (i : I) u : clean (emit i : chk E I unit) u ↔ False.
Proof. unfold clean, emit. naive_solver. Qed.

(** Whatever follows an emitted issue, the computation is not clean. *)
Lemma clean_emit_bind {A} (i : I) (k : unit → chk E I A) a :
  clean (emit i ≫= k) a ↔ False.
Proof. rewrite clean_bind. split; [|done]. intros (u & Hu & _). by apply clean_emit in Hu. Qed.

Lemma clean_emit_if (c : bool) (i : I) u :
  clean (emit_if c i : chk E I unit) u ↔ c = false.
Proof. destruct u, c; unfold clean, emit_if, emit; naive_solver. Qed.

Lemma clean_emit_if_bind {A} (c : bool) (i : I) (k : unit → chk E I A) a :
  clean (emit_if c i ≫= k) a ↔ c = false ∧ clean (k ()) a.
Proof.
  rewrite clean_bind. split.
  - intros ([] & Hc & ?). by apply clean_emit_if in Hc.
  - intros (Hc & ?). exists (). split; [by apply clean_emit_if|done].
Qed.

(** A statement whose value is discarded. *)
Lemma clean_seq {A B} (m : chk E I A) (k : chk E I B) b :
  clean (m ≫= λ _, k) b ↔ (∃ a, clean m a) ∧ clean k b.
Proof. rewrite clean_bind. naive_solver. Qed.

Lemma clean_raise {A} (e : E) (a : A) : clean (chk_raise e : chk E I A) a ↔ False.
Proof. unfold clean, chk_raise. naive_solver. Qed.

Lemma clean_lift {A} (m : res E A) a : clean (chk_lift m : chk E I A) a ↔ m = Ok a.
Proof. unfold clean, chk_lift. destruct m; naive_solver. Qed.

Lemma clean_det {A} (m : chk E I A) a b : clean m a → clean m b → a = b.
Proof. unfold clean. naive_solver. Qed.

Lemma clean_foldi_nil {A T} (body : nat → A → T → chk E I T) i s s' :
  clean (chk_foldi body i [] s) s' ↔ s = s'.
Proof. apply clean_mret. Qed.

Lemma clean_foldi_cons {A T} (body : nat → A → T → chk E I T) i x l s s' :
  clean (chk_foldi body i (x :: l) s) s' ↔
  ∃ s1, clean (body i x s) s1 ∧ clean (chk_foldi body (S i) l s1) s'.
Proof. apply clean_bind. Qed.

(** A loop whose body threads no accumulator is clean iff every turn is. *)
Lemma clean_foldi_unit {A} (body : nat → A → unit → chk E I unit) i l u :
  clean (chk_foldi body i l ()) u ↔
  ∀ j x, l !! j = Some x → clean (body (i + j) x ()) ().
Proof.
  destruct u. revert i. induction l as [|x l IH]; intros i.
  - rewrite clean_foldi_nil. naive_solver.
  - rewrite clean_foldi_cons. split.
    + intros ([] & Hx & Hl) [|j] y Hj; simplify_eq/=.
      * by rewrite Nat.add_0_r.
      * rewrite <- Nat.add_succ_comm. by eapply IH.
    + intros H. exists (). split.
      * specialize (H 0 x eq_refl). by rewrite Nat.add_0_r in H.
      * apply IH. intros j y Hj. rewrite Nat.add_succ_comm. by apply (H (S j)).
Qed.
End chk_facts.
#[export] Hint Rewrite @clean_emit_bind @clean_emit_if_bind @clean_mret @clean_emit @clean_emit_if
  @clean_raise @clean_lift @clean_foldi_nil @clean_foldi_cons : clean.

(** ** Loops that look for a repeated key

    [first_index = seen.setdefault(key, index); if first_index != index: ...]
    in a loop over [enumerate(items)] reports nothing exactly when no two
    items have the same key. *)
Section distinct.
Context {E I A : Type} `{Countable K}.
Context (key : A → K) (report : nat → A → nat → I) (turn : nat → A → chk E I unit).

Definition distinct_body (index : nat) (item : A) (seen : gmap K nat)
    : chk E I (gmap K nat) :=
  let '(first_index, seen') := setdefault seen (key item) index in
  emit_if (negb (first_index =? index)) (report index item first_index);;
  turn index item;;
  mret seen'.

(** [seen] holds keys of earlier turns. *)
Definition seen_before (index : nat) (seen : gmap K nat) : Prop :=
  map_Forall (λ _ i, i < index) seen.

Lemma seen_before_insert index seen k :
  seen_before index seen → seen_before (S index) (<[k := index]> seen).
Proof.
  intros Hs. apply map_Forall_insert_2; [lia|].
  eapply map_Forall_impl; [done|]. simpl. lia.
Qed.

Lemma clean_distinct_body index item seen seen' :
  seen_before index seen →
  clean (distinct_body index item seen) seen' ↔
  seen !! key item = None ∧ clean (turn index item) () ∧ seen' = <[key item := index]> seen.
Proof.
  intros Hs. unfold distinct_body, setdefault.
  destruct (seen !! key item) as [i|] eqn:Hi.
  - assert ((i =? index) = false) as ->.
    { apply Nat.eqb_neq. pose proof (map_Forall_lookup_1 _ _ _ _ Hs Hi). simpl in *. lia. }
    rewrite clean_emit_if_bind. split; by intros [? _].
  - rewrite Nat.eqb_refl, clean_emit_if_bind, clean_bind. setoid_rewrite clean_mret. split.
    + by intros (_ & [] & ? & <-).
    + intros (_ & ? & ->). split; [done|]. by exists ().
Qed.

Lemma clean_distinct_loop_aux index items seen :
  seen_before index seen →
  (∃ seen', clean (chk_foldi distinct_body index items seen) seen') ↔
  (∀ x, x ∈ items → seen !! key x = None) ∧ NoDup (key <$> items) ∧
  ∀ j x, items !! j = Some x → clean (turn (index + j) x) ().
Proof.
  revert index seen. induction items as [|y items IH]; intros index seen Hs.
  { setoid_rewrite clean_foldi_nil. split; [|by eauto]. intros _.
    split; [by intros ? ?%not_elem_of_nil|]. by split; [constructor|]. }
  setoid_rewrite clean_foldi_cons. rewrite fmap_cons, NoDup_cons. split.
  - intros (seen' & s1 & (Hy & Hturn & ->)%clean_distinct_body & Hc); [|done].
    destruct (proj1 (IH (S index) _ (seen_before_insert _ _ _ Hs)) (ex_intro _ _ Hc))
      as (Hnew & Hnd & Hts).
    split_and!; [|..|done|].
    + intros x [->|Hx]%elem_of_cons; [done|]. specialize (Hnew x Hx).
      by apply lookup_insert_None in Hnew as [? _].
    + intros (x & Heq & Hx)%list_elem_of_fmap. specialize (Hnew x Hx).
      rewrite <- Heq, lookup_insert_eq in Hnew. done.
    + intros [|j] x Hj; simplify_eq/=; [by rewrite Nat.add_0_r|].
      rewrite <- Nat.add_succ_comm. eauto.
  - intros (Hnew & [Hy Hnd] & Hts).
    destruct (proj2 (IH (S index) (<[key y := index]> seen) (seen_before_insert _ _ _ Hs)))
      as [seen' Hc].
    + split_and!; [|done|].
      * intros x Hx. rewrite lookup_insert_ne; [set_solver|]. intros Heq. apply Hy.
        rewrite Heq. by apply list_elem_of_fmap_2.
      * intros j x Hj. rewrite Nat.add_succ_comm. by apply (Hts (S j)).
    + exists seen', (<[key y := index]> seen). split; [|done].
      apply clean_distinct_body; [done|]. split_and!; [set_solver| |done].
      specialize (Hts 0 y eq_refl). by rewrite Nat.add_0_r in Hts.
Qed.

Lemma clean_distinct_loop items :
  (∃ seen, clean (chk_foldi distinct_body 0 items ∅) seen) ↔
  NoDup (key <$> items) ∧ ∀ j x, items !! j = Some x → clean (turn j x) ().
Proof.
  rewrite clean_distinct_loop_aux by apply map_Forall_empty.
  setoid_rewrite lookup_empty. naive_solver.
Qed.
End distinct.

(** ** Which issues a check can append *)

(** Every issue [m] appends satisfies [P]. *)
Definition emits {E I A} (P : I → Prop) (m : chk E I A) : Prop :=
  ∀ a l, m = Ok (a, l) → Forall P l.

Section emits_facts.
Context {E I : Type} (P : I → Prop).

Lemma emits_mret {A} (a : A) : emits P (mret a : chk E I A).
Proof. intros b l [= <- <-]. constructor. Qed.

Lemma emits_bind {A B} (m : chk E I A) (k : A → chk E I B) :
  emits P m → (∀ a, emits P (k a)) → emits P (m ≫= k).
Proof.
  intros Hm Hk b l. unfold mbind, chk_mbind.
  destruct m as [[a l1]|e]; [|done]. destruct (k a) as [[b' l2]|e] eqn:Hka; [|done].
  intros [= <- <-]. apply Forall_app. split; [by eapply Hm|by eapply Hk].
Qed.

Lemma emits_emit (i : I) : P i → emits P (emit i : chk E I unit).
Proof. intros Hi a l [= <- <-]. by constructor. Qed.

Lemma emits_emit_if (c : bool) (i : I) :
  (c = true → P i) → emits P (emit_if c i : chk E I unit).
Proof. intros Hi. destruct c; [apply emits_emit; auto|apply emits_mret]. Qed.

Lemma emits_raise {A} (e : E) : emits P (chk_raise e : chk E I A).
Proof. by intros a l. Qed.

Lemma emits_lift {A} (m : res E A) : emits P (chk_lift m : chk E I A).
Proof. intros a l. unfold chk_lift. destruct m; [|done]. intros [= <- <-]. constructor. Qed.

Lemma emits_foldi {A T} (body : nat → A → T → chk E I T) i l t :
  (∀ j x s, emits P (body j x s)) → emits P (chk_foldi body i l t).
Proof.
  intros Hb. revert i t. induction l as [|x l IH]; intros i t; [apply emits_mret|].
  by apply emits_bind.
Qed.
End emits_facts.

Create HintDb emits.
#[export] Hint Resolve emits_mret emits_bind emits_emit emits_emit_if emits_raise
  emits_lift emits_foldi : emits.

(** ** What a check returns, whatever it appends *)

Definition returns {E I A} (m : chk E I A) (a : A) : Prop := ∃ l, m = Ok (a, l).

Section returns_facts.
Context {E I : Type}.

Lemma returns_mret {A} (a : A) : returns (mret a : chk E I A) a.
Proof. by eexists. Qed.

Lemma returns_emit_if (c : bool) (i : I) : returns (emit_if c i : chk E I unit) ().
Proof. destruct c; by eexists. Qed.

Lemma returns_lift {A} (m : res E A) a : m = Ok a → returns (chk_lift m : chk E I A) a.
Proof. intros ->. by eexists. Qed.

Lemma returns_bind {A B} (m : chk E I A) (k : A → chk E I B) a b :
  returns m a → returns (k a) b → returns (m ≫= k) b.
Proof. intros [l1 ->] [l2 H]. unfold mbind, chk_mbind. rewrite H. by eexists. Qed.

(** An exception escapes the rest of the computation. *)
Lemma raise_bind_l {A B} (m : chk E I A) (k : A → chk E I B) e :
  m = Err e → m ≫= k = Err e.
Proof. by intros ->. Qed.

Lemma raise_bind_r {A B} (m : chk E I A) (k : A → chk E I B) a e :
  returns m a → k a = Err e → m ≫= k = Err e.
Proof. intros [l ->] H. unfold mbind, chk_mbind. by rewrite H. Qed.

Lemma clean_returns {A} (m : chk E I A) a : clean m a → returns m a.
Proof. intros H. by exists []. Qed.
End returns_facts.

Create HintDb returns.
#[export] Hint Resolve returns_mret returns_emit_if returns_lift returns_bind : returns.

(** ** Which exceptions a check can raise

    [safe P Q m]: an exception [m] raises satisfies [P], a value it returns
    satisfies [Q], whatever it appends. *)
Definition safe {E I A} (P : E → Prop) (Q : A → Prop) (m : chk E I A) : Prop :=
  match m with
  | Ok (a, _) => Q a
  | Err e => P e
  end.

Section safe_facts.
Context {E I : Type} (P : E → Prop).

Lemma safe_mret {A} (Q : A → Prop) a : Q a → safe P Q (mret a : chk E I A).
Proof. done. Qed.

Lemma safe_bind {A B} (Q : A → Prop) (R : B → Prop) (m : chk E I A) (k : A → chk E I B) :
  safe P Q m → (∀ a, Q a → safe P R (k a)) → safe P R (m ≫= k).
Proof.
  unfold safe, mbind, chk_mbind. intros Hm Hk. destruct m as [[a l]|e]; [|done].
  specialize (Hk a Hm). by destruct (k a) as [[b l']|e].
Qed.

(** A statement whose value is discarded. *)
Lemma safe_seq {A B} (R : B → Prop) (m : chk E I A) (k : chk E I B) :
  safe P (λ _, True) m → safe P R k → safe P R (m ≫= λ _, k).
Proof. intros Hm Hk. by eapply safe_bind. Qed.

Lemma safe_emit (i : I) : safe P (λ _, True) (emit i : chk E I unit).
Proof. done. Qed.

Lemma safe_emit_if (c : bool) (i : I) : safe P (λ _, True) (emit_if c i : chk E I unit).
Proof. by destruct c. Qed.

Lemma safe_lift {A} (Q : A → Prop) (m : res E A) :
  (∀ a, m = Ok a → Q a) → (∀ e, m = Err e → P e) → safe P Q (chk_lift m : chk E I A).
Proof. intros HQ HP. destruct m; [by apply HQ|by apply HP]. Qed.

Lemma safe_raise {A} (Q : A → Prop) e : P e → safe P Q (chk_raise e : chk E I A).
Proof. done. Qed.

(** A loop with an invariant on the accumulator. *)
Lemma safe_foldi {A T} (J : T → Prop) (body : nat → A → T → chk E I T) i l t :
  (∀ j x t, J t → safe P J (body j x t)) → J t → safe P J (chk_foldi body i l t).
Proof.
  intros Hb. revert i t. induction l as [|x l IH]; intros i t Ht; [done|].
  eapply safe_bind; [by apply Hb|]. intros t' Ht'. by apply IH.
Qed.

Lemma safe_impl {A} (Q R : A → Prop) (m : chk E I A) :
  safe P Q m → (∀ a, Q a → R a) → safe P R m.
Proof. unfold safe. destruct m as [[a l]|e]; auto. Qed.
End safe_facts.

Create HintDb safe.
#[export] Hint Resolve safe_mret safe_emit safe_emit_if safe_seq safe_raise : safe.

(** ** Reasoning about stateful computations *)

(** [hoare P m Q R]: from a state in [P], [m] returns a value and a state in
    [Q], or raises an exception in a state in [R]. *)
Definition hoare {E S A} (P : S → Prop) (m : pym E S A) (Q : A → S → Prop) (R : E → S → Prop) : Prop :=
  ∀ s, P s → match m s with
             | (Ok a, s') => Q a s'
             | (Err e, s') => R e s'
             end.

(** An exception [m] raises satisfies [P]. *)
Abbreviation raises_only P m := (hoare (λ _, True) m (λ _ _, True) (λ e _, P e)).

Section hoare_facts.
Context {E S : Type}.

Lemma pym_bind_ok {A B} (m : pym E S A) (k : A → pym E S B) s a s' :
  m s = (Ok a, s') → (m ≫= k) s = k a s'.
Proof. unfold mbind, pym_mbind. by intros ->. Qed.

Lemma pym_bind_err {A B} (m : pym E S A) (k : A → pym E S B) s e s' :
  m s = (Err e, s') → (m ≫= k) s = (Err e, s').
Proof. unfold mbind, pym_mbind. by intros ->. Qed.

Lemma pym_ret_bind {A B} (a : A) (k : A → pym E S B) s : (mret a ≫= k) s = k a s.
Proof. done. Qed.

Lemma hoare_conseq {A} (P P' : S → Prop) (m : pym E S A) (Q Q' : A → S → Prop) (R R' : E → S → Prop) :
  hoare P m Q R → (∀ s, P' s → P s) → (∀ a s, Q a s → Q' a s) → (∀ e s, R e s → R' e s) →
  hoare P' m Q' R'.
Proof.
  intros Hm HP HQ HR s Hs. specialize (Hm s (HP s Hs)). destruct (m s) as [[a|e] s']; auto.
Qed.

Lemma hoare_mret {A} (P : S → Prop) (a : A) (Q : A → S → Prop) (R : E → S → Prop) :
  (∀ s, P s → Q a s) → hoare P (mret a) Q R.
Proof. intros H s Hs. apply H, Hs. Qed.

Lemma hoare_bind {A B} (P : S → Prop) (m : pym E S A) (k : A → pym E S B) Q' Q R :
  hoare P m Q' R → (∀ a, hoare (Q' a) (k a) Q R) → hoare P (m ≫= k) Q R.
Proof.
  intros Hm Hk s Hs. specialize (Hm s Hs). unfold mbind, pym_mbind.
  destruct (m s) as [[a|e] s']; [by apply Hk|done].
Qed.

Lemma hoare_raise {A} (P : S → Prop) e (Q : A → S → Prop) (R : E → S → Prop) :
  (∀ s, P s → R e s) → hoare P (raise e) Q R.
Proof. intros H s Hs. apply H, Hs. Qed.

Lemma hoare_gets {A} (P : S → Prop) (f : S → A) (Q : A → S → Prop) (R : E → S → Prop) :
  (∀ s, P s → Q (f s) s) → hoare P (gets f) Q R.
Proof. intros H s Hs. apply H, Hs. Qed.

Lemma hoare_modify (P : S → Prop) f (Q : unit → S → Prop) (R : E → S → Prop) :
  (∀ s, P s → Q () (f s)) → hoare P (modify f) Q R.
Proof. intros H s Hs. apply H, Hs. Qed.

Lemma hoare_lift {A} (P : S → Prop) (m : res E A) (Q : A → S → Prop) (R : E → S → Prop) :
  (∀ s a, P s → m = Ok a → Q a s) → (∀ s e, P s → m = Err e → R e s) → hoare P (pym_lift m) Q R.
Proof. intros HQ HR s Hs. unfold pym_lift. destruct m; auto. Qed.

Lemma hoare_try {A} (P : S → Prop) (m : pym E S A) h (Q : A → S → Prop) R' R :
  hoare P m Q R' → (∀ e, hoare (R' e) (h e) Q R) → hoare P (try_except m h) Q R.
Proof.
  intros Hm Hh s Hs. specialize (Hm s Hs). unfold try_except.
  destruct (m s) as [[a|e] s']; [done|by apply Hh].
Qed.

Lemma hoare_finally {A} (P : S → Prop) (m : pym E S A) c (Q' Q : A → S → Prop) R' (R : E → S → Prop) :
  hoare P m Q' R' → (∀ a, hoare (Q' a) c (λ _, Q a) R) → (∀ e, hoare (R' e) c (λ _, R e) R) →
  hoare P (finally m c) Q R.
Proof.
  intros Hm HQ HR s Hs. specialize (Hm s Hs). unfold finally.
  destruct (m s) as [[a|e] s1].
  - specialize (HQ a s1 Hm). by destruct (c s1) as [[[]|e'] s2].
  - specialize (HR e s1 Hm). by destruct (c s1) as [[[]|e'] s2].
Qed.

Lemma hoare_iter {A} (J : S → Prop) (body : A → pym E S unit) l (R : E → S → Prop) :
  (∀ x, x ∈ l → hoare J (body x) (λ _, J) R) → hoare J (pym_iter body l) (λ _, J) R.
Proof.
  intros Hb. induction l as [|x l IH]; [by apply hoare_mret|].
  eapply hoare_bind; [apply Hb; left|]. intros u. apply IH. intros y Hy. apply Hb. by right.
Qed.

(** A pure part of the precondition becomes a hypothesis. *)
Lemma hoare_pure {A} (φ : Prop) P (m : pym E S A) Q R :
  (φ → hoare P m Q R) → hoare (λ s, φ ∧ P s) m Q R.
Proof. intros Hm s [Hφ Hs]. by apply Hm. Qed.

Lemma hoare_weaken_err {A} P (m : pym E S A) Q (R R' : E → S → Prop) :
  hoare P m Q R → (∀ e s, R e s → R' e s) → hoare P m Q R'.
Proof. intros Hm HR. by eapply hoare_conseq. Qed.

(** What a run from one state gives. *)
Lemma hoare_ok {A} P (m : pym E S A) Q R s a s' :
  hoare P m Q R → P s → m s = (Ok a, s') → Q a s'.
Proof. intros Hm Hs He. specialize (Hm s Hs). by rewrite He in Hm. Qed.

Lemma hoare_err {A} P (m : pym E S A) Q R s e s' :
  hoare P m Q R → P s → m s = (Err e, s') → R e s'.
Proof. intros Hm Hs He. specialize (Hm s Hs). by rewrite He in Hm. Qed.
End hoare_facts.

(** ** Running a bind backwards *)

Lemma pym_bind_inv {E S A B} (m : pym E S A) (k : A → pym E S B) s b s' :
  (m ≫= k) s = (Ok b, s') → ∃ a s1, m s = (Ok a, s1) ∧ k a s1 = (Ok b, s').
Proof. unfold mbind, pym_mbind. destruct (m s) as [[a|e] s1]; [eauto|done]. Qed.

Lemma on_snd_inv {E S T A} (m : pym E T A) (s : S) t r s' t' :
  on_snd m (s, t) = (r, (s', t')) ↔ s' = s ∧ m t = (r, t').
Proof. unfold on_snd. destruct (m t) as [r1 t1]. naive_solver. Qed.

(** ** How a computation moves its state *)

(** From any state, [m] goes to a state [R] relates it to, whatever it returns
    or raises. *)
Definition respects {E S A} (R : relation S) (m : pym E S A) : Prop :=
  ∀ s r s', m s = (r, s') → R s s'.

Section respects_facts.
Context {E S : Type} (R : relation S) `{!PreOrder R}.

Lemma respects_mret {A} (a : A) : respects R (mret a : pym E S A).
Proof. by intros s r s' [= _ <-]. Qed.

Lemma respects_raise {A} (e : E) : respects R (raise e : pym E S A).
Proof. by intros s r s' [= _ <-]. Qed.

Lemma respects_gets {A} (f : S → A) : respects R (gets f : pym E S A).
Proof. by intros s r s' [= _ <-]. Qed.

Lemma respects_lift {A} (m : res E A) : respects R (pym_lift m : pym E S A).
Proof. by intros s r s' [= _ <-]. Qed.

Lemma respects_modify (f : S → S) : (∀ s, R s (f s)) → respects R (modify f : pym E S unit).
Proof. by intros Hf s r s' [= _ <-]. Qed.

Lemma respects_bind {A B} (m : pym E S A) (k : A → pym E S B) :
  respects R m → (∀ a, respects R (k a)) → respects R (m ≫= k).
Proof.
  intros Hm Hk s r s'. unfold mbind, pym_mbind. destruct (m s) as [[a|e] s1] eqn:Hs; apply Hm in Hs.
  - intros Hr%Hk. by transitivity s1.
  - by intros [= _ <-].
Qed.

Lemma respects_try {A} (m : pym E S A) h :
  respects R m → (∀ e, respects R (h e)) → respects R (try_except m h).
Proof.
  intros Hm Hh s r s'. unfold try_except. destruct (m s) as [[a|e] s1] eqn:Hs; apply Hm in Hs.
  - by intros [= _ <-].
  - intros Hr%Hh. by transitivity s1.
Qed.

Lemma respects_finally {A} (m : pym E S A) c :
  respects R m → respects R c → respects R (finally m c).
Proof.
  intros Hm Hc s r s'. unfold finally. destruct (m s) as [r1 s1] eqn:Hs. apply Hm in Hs.
  destruct (c s1) as [[u|e] s2] eqn:Hcs; apply Hc in Hcs; intros [= _ <-]; by transitivity s1.
Qed.

Lemma respects_iter {A} (body : A → pym E S unit) l :
  (∀ x, respects R (body x)) → respects R (pym_iter body l).
Proof.
  intros Hb. induction l as [|x l IH]; [apply respects_mret|]. by apply respects_bind.
Qed.
End respects_facts.

Lemma respects_on_snd {E S T A} (R : relation T) (R' : relation (S * T)) (m : pym E T A) :
  (∀ s t t', R t t' → R' (s, t) (s, t')) → respects R m → respects R' (on_snd m).
Proof.
  intros HR Hm [s t] r [s' t']. unfold on_snd. destruct (m t) as [r1 t1] eqn:Ht. apply Hm in Ht.
  intros [= _ <- <-]. by apply HR.
Qed.

Create HintDb respects.
#[export] Hint Extern 1 (respects _ (mret _)) => apply respects_mret; apply _ : respects.
#[export] Hint Extern 1 (respects _ (raise _)) => apply respects_raise; apply _ : respects.
#[export] Hint Extern 1 (respects _ (gets _)) => apply respects_gets; apply _ : respects.
#[export] Hint Extern 1 (respects _ (pym_lift _)) => apply respects_lift; apply _ : respects.

(** Decompose a computation into calls that respect the relation by a hint or
    a hypothesis. *)
Ltac moves :=
  repeat (first
    [ solve [auto with respects]
    | match goal with |- respects _ (pym_iter _ _) => apply respects_iter; [apply _|intros ?] end
    | apply respects_bind; [apply _| |intros ?]
    | apply respects_try; [apply _| |intros ?]
    | apply respects_finally; [apply _| |]
    | progress cbn beta
    | case_match ]).

(** ** Invariants with results

    [keeping P φ m]: [m] keeps [P], whatever it returns or raises, and a value
    it returns satisfies [φ]. *)
Definition keeping {E S A} (P : S → Prop) (φ : A → Prop) (m : pym E S A) : Prop :=
  hoare P m (λ a s, φ a ∧ P s) (λ _, P).

Section keeping_facts.
Context {E S : Type} (P : S → Prop).

Lemma keeping_impl {A} (φ ψ : A → Prop) (m : pym E S A) :
  keeping P φ m → (∀ a, φ a → ψ a) → keeping P ψ m.
Proof. intros Hm Hφ. eapply hoare_conseq; [exact Hm|done| |done]. intros a s []. auto. Qed.

Lemma keeping_mret {A} (φ : A → Prop) a : φ a → keeping P φ (mret a : pym E S A).
Proof. intros Ha. by apply hoare_mret. Qed.

Lemma keeping_raise {A} (φ : A → Prop) e : keeping P φ (raise e : pym E S A).
Proof. by apply hoare_raise. Qed.

Lemma keeping_gets {A} (φ : A → Prop) f : (∀ s, P s → φ (f s)) → keeping P φ (gets f : pym E S A).
Proof. intros Hf. apply hoare_gets. auto. Qed.

Lemma keeping_modify f : (∀ s, P s → P (f s)) → keeping P (λ _, True) (modify f : pym E S unit).
Proof. intros Hf. apply hoare_modify. auto. Qed.

Lemma keeping_lift {A} (φ : A → Prop) (m : res E A) :
  (∀ a, m = Ok a → φ a) → keeping P φ (pym_lift m : pym E S A).
Proof. intros Hm. apply hoare_lift; auto. Qed.

Lemma keeping_bind {A B} (φ : A → Prop) (ψ : B → Prop) (m : pym E S A) k :
  keeping P φ m → (∀ a, φ a → keeping P ψ (k a)) → keeping P ψ (m ≫= k).
Proof.
  intros Hm Hk. eapply hoare_bind; [exact Hm|]. intros a. apply hoare_pure. intros Ha.
  by apply Hk.
Qed.

(** A statement whose value is discarded. *)
Lemma keeping_seq {A B} (φ : A → Prop) (ψ : B → Prop) (m : pym E S A) k :
  keeping P φ m → (∀ a, keeping P ψ (k a)) → keeping P ψ (m ≫= k).
Proof. intros Hm Hk. by eapply keeping_bind. Qed.

Lemma keeping_try {A} (φ : A → Prop) (m : pym E S A) h :
  keeping P φ m → (∀ e, keeping P φ (h e)) → keeping P φ (try_except m h).
Proof. intros Hm Hh. by eapply hoare_try. Qed.

Lemma keeping_finally {A} (φ : A → Prop) (m : pym E S A) c :
  keeping P φ m → keeping P (λ _, True) c → keeping P φ (finally m c).
Proof.
  intros Hm Hc. apply (hoare_finally _ _ _ (λ a s, φ a ∧ P s) _ (λ _, P)); [exact Hm| |].
  - intros a. apply hoare_pure. intros Ha. eapply hoare_conseq; [exact Hc|done| |done].
    by intros u s [_ Hs].
  - intros e. eapply hoare_conseq; [exact Hc|done| |done]. by intros u s [_ Hs].
Qed.

Lemma keeping_run {A} (φ : A → Prop) (m : pym E S A) s r s' :
  keeping P φ m → P s → m s = (r, s') → P s' ∧ ∀ a, r = Ok a → φ a.
Proof.
  intros Hm Hs Hr. specialize (Hm s Hs). rewrite Hr in Hm.
  destruct r as [a|e]; [destruct Hm; naive_solver|done].
Qed.
End keeping_facts.

Create HintDb keeping.
#[export] Hint Resolve keeping_raise : keeping.

(** Both directions of an equivalence between an equation and its
    existential reading. *)
Ltac iff_solve :=
  split; intros;
  repeat match goal with
         | H : ∃ _, _ |- _ => destruct H
         | H : _ ∧ _ |- _ => destruct H
         | H : False |- _ => destruct H
         end; simplify_eq/=; eauto.

(** Simplify the [clean] statements of the goal with the equations above. *)
Ltac clean_simpl := autorewrite with clean.

