(* ===== verification/PyStr.v ===== *)
(** * Python strings

    The [str] operations the controller uses, on strings whose code points are
    below 256: an [ascii] is one code point, so the predicates below follow
    the Unicode tables of CPython on the whole Latin-1 range ([str.isdigit]
    accepts the superscripts one, two and three, [int] does not). *)

From Stdlib Require Export Ascii.
From stdpp Require Import sorting.
From Stdlib Require Import DecimalString DecimalN DecimalZ.
From S2P Require Import Prelude.
#[local] Open Scope string_scope.

Arguments String.append !_ _ / : simpl nomatch.

(** ** Characters *)

Definition between (lo hi c : N) : bool := (lo <=? c)%N && (c <=? hi)%N.

(** [chr.isspace()] *)
Definition py_isspace (c : ascii) : bool :=
  let n := N_of_ascii c in
  between 9 13 n || between 28 32 n || (n =? 133)%N || (n =? 160)%N.

Definition is_decimal (c : ascii) : bool := between 48 57 (N_of_ascii c).

(** [chr.isdigit()] *)
Definition is_digit (c : ascii) : bool :=
  is_decimal c ||
  let n := N_of_ascii c in (n =? 178)%N || (n =? 179)%N || (n =? 185)%N.

Definition is_ascii (c : ascii) : bool := (N_of_ascii c <? 128)%N.

Definition is_hex (c : ascii) : bool :=
  let n := N_of_ascii c in
  between 48 57 n || between 65 70 n || between 97 102 n.

(** ** Strings *)

Fixpoint str_all (p : ascii → bool) (s : string) : bool :=
  match s with
  | "" => true
  | String c s' => p c && str_all p s'
  end.

(** [c in s] for a one-character string [c]. *)
Definition str_has (c : ascii) (s : string) : bool :=
  negb (str_all (λ d, negb (Ascii.eqb d c)) s).

(** [not s] *)
Definition str_empty (s : string) : bool :=
  match s with "" => true | _ => false end.

(** [s.isdigit()] and [s.isascii()] *)
Definition py_isdigit (s : string) : bool := negb (str_empty s) && str_all is_digit s.
Definition py_isascii (s : string) : bool := str_all is_ascii s.

(** [s.strip()] *)
Fixpoint py_lstrip (s : string) : string :=
  match s with
  | "" => ""
  | String c s' => if py_isspace c then py_lstrip s' else s
  end.
Fixpoint py_rstrip (s : string) : string :=
  match s with
  | "" => ""
  | String c s' =>
      let r := py_rstrip s' in
      if str_empty r && py_isspace c then "" else String c r
  end.
Definition py_strip (s : string) : string := py_rstrip (py_lstrip s).

(** [s.split(sep)] for a one-character separator. *)
Fixpoint py_split (sep : ascii) (s : string) : list string :=
  match s with
  | "" => [""]
  | String c s' =>
      if Ascii.eqb c sep then "" :: py_split sep s'
      else match py_split sep s' with
           | w :: ws => String c w :: ws
           | [] => [String c ""]
           end
  end.

(** [s.partition(sep)]: the middle component says whether [sep] was found. *)
Fixpoint py_partition (sep : ascii) (s : string) : string * bool * string :=
  match s with
  | "" => ("", false, "")
  | String c s' =>
      if Ascii.eqb c sep then ("", true, s')
      else let '(a, found, b) := py_partition sep s' in (String c a, found, b)
  end.

(** [sep.join(words)] *)
Fixpoint py_join (sep : string) (words : list string) : string :=
  match words with
  | [] => ""
  | [w] => w
  | w :: ws => w +:+ sep +:+ py_join sep ws
  end.

(** [s.splitlines()]: the Latin-1 line boundaries; a carriage return and the
    line feed after it are one. *)
Definition py_islinebreak (c : ascii) : bool :=
  let n := N_of_ascii c in
  between 10 13 n || between 28 30 n || (n =? 133)%N.
Fixpoint py_splitlines (s : string) : list string :=
  match s with
  | "" => []
  | String c s' =>
      let rest :=
        match s' with
        | String d s'' =>
            if (N_of_ascii c =? 13)%N && (N_of_ascii d =? 10)%N then py_splitlines s''
            else py_splitlines s'
        | "" => []
        end in
      if py_islinebreak c then "" :: rest
      else match s', rest with
           | String _ _, w :: ws => String c w :: ws
           | _, _ => [String c ""]
           end
  end.

(** [s.split()]: the words between runs of white space. *)
Fixpoint py_take_word (s : string) : string :=
  match s with
  | "" => ""
  | String c s' => if py_isspace c then "" else String c (py_take_word s')
  end.
(** [s.split()[0]] when there is a word. *)
Definition py_first_word (s : string) : option string :=
  match py_take_word (py_lstrip s) with "" => None | w => Some w end.

(** CPython's default limit on the digits of a decimal conversion. *)
Definition MAX_STR_DIGITS : nat := 4300.

(** [int(s)] for a string [s] that passed [isdigit]; [None] is [ValueError],
    raised for a digit that is not a decimal one and above the limit. *)
Definition py_int (s : string) : option Z :=
  if (String.length s <=? MAX_STR_DIGITS)%nat then
    d ← NilZero.uint_of_string s; Some (Z.of_N (N.of_uint d))
  else None.

(** [str(n)] *)
Definition str_of_Z (z : Z) : string := NilZero.string_of_int (Z.to_int z).
Definition str_of_nat (n : nat) : string := str_of_Z (Z.of_nat n).

(** Code-point order, and [sorted(words)]. *)
Definition str_le (a b : string) : Prop := String.leb a b = true.
#[export] Instance str_le_dec a b : Decision (str_le a b).
Proof. unfold str_le. apply _. Defined.
#[export] Instance str_le_total : Total str_le.
Proof. intros a b. apply String.leb_total. Qed.

Definition py_sorted (words : list string) : list string := merge_sort str_le words.

(** ** Facts *)

Lemma str_all_app p a b : str_all p (a +:+ b) = str_all p a && str_all p b.
Proof. induction a; simpl; [done|]. by rewrite IHa, andb_assoc. Qed.

Lemma str_all_mono (p q : ascii → bool) s :
  (∀ c, p c = true → q c = true) → str_all p s = true → str_all q s = true.
Proof. intros Hpq. induction s as [|c s IH]; simpl; [done|].
  rewrite !andb_true_iff. intros [Hc Hs]. auto. Qed.

Lemma str_has_false c s :
  str_has c s = false ↔ str_all (λ d, negb (Ascii.eqb d c)) s = true.
Proof. unfold str_has. by rewrite negb_false_iff. Qed.

Lemma str_has_app c a b : str_has c (a +:+ b) = str_has c a || str_has c b.
Proof. unfold str_has. by rewrite str_all_app, negb_andb. Qed.

Lemma str_has_String c d s : str_has c (String d s) = Ascii.eqb d c || str_has c s.
Proof. unfold str_has; cbn [str_all]. by rewrite negb_andb, negb_involutive. Qed.

(** A character a predicate refuses does not occur in a string it accepts. *)
Lemma str_all_has p c s : str_all p s = true → p c = false → str_has c s = false.
Proof.
  intros Hp Hc. apply str_has_false. revert Hp. apply str_all_mono.
  intros d Hd. destruct (Ascii.eqb_spec d c); [congruence|done].
Qed.

Lemma str_app_nil_r (s : string) : s +:+ "" = s.
Proof. induction s; simpl; congruence. Qed.

Lemma str_app_assoc (a b c : string) : (a +:+ b) +:+ c = a +:+ (b +:+ c).
Proof. induction a; simpl; congruence. Qed.

Lemma py_split_ne sep s : py_split sep s ≠ [].
Proof. destruct s; simpl; [done|]. case_match; [done|]. by case_match. Qed.

Lemma py_split_no_sep sep s : str_has sep s = false → py_split sep s = [s].
Proof.
  induction s as [|c s IH]; simpl; [done|]. rewrite str_has_String, orb_false_iff.
  intros [-> Hs]. by rewrite IH.
Qed.

Lemma py_split_app sep a s :
  str_has sep a = false → py_split sep (a +:+ String sep s) = a :: py_split sep s.
Proof.
  induction a as [|c a IH]; simpl.
  - by rewrite Ascii.eqb_refl.
  - rewrite str_has_String, orb_false_iff. intros [-> Ha]. by rewrite IH.
Qed.

(** Splitting what was joined gives the words back. *)
Lemma py_split_join sep ws :
  ws ≠ [] → Forall (λ w, str_has sep w = false) ws →
  py_split sep (py_join (String sep "") ws) = ws.
Proof.
  intros Hne Hws. induction Hws as [|w ws Hw Hws IH]; [done|].
  destruct ws as [|w' ws]; simpl.
  - by apply py_split_no_sep.
  - rewrite py_split_app by done. f_equal. by apply IH.
Qed.

Lemma py_partition_app sep a b :
  str_has sep a = false → py_partition sep (a +:+ String sep b) = (a, true, b).
Proof.
  induction a as [|c a IH]; simpl.
  - by rewrite Ascii.eqb_refl.
  - rewrite str_has_String, orb_false_iff. intros [-> Ha]. by rewrite IH.
Qed.

Lemma py_partition_true sep s a b :
  py_partition sep s = (a, true, b) ↔ s = a +:+ String sep b ∧ str_has sep a = false.
Proof.
  split; [|intros [-> ?]; by apply py_partition_app].
  revert a. induction s as [|c s IH]; simpl; intros a; [done|].
  destruct (Ascii.eqb_spec c sep) as [->|Hc].
  - intros [= <- <-]. done.
  - destruct (py_partition sep s) as [[a' f] b'] eqn:Hp. intros [= <- -> ->].
    destruct (IH a' eq_refl) as [-> Ha']. split; [done|].
    rewrite str_has_String, Ha'. by destruct (Ascii.eqb_spec c sep).
Qed.

Lemma py_partition_found sep s a f b : py_partition sep s = (a, f, b) → f = str_has sep s.
Proof.
  revert a f b. induction s as [|c s IH]; simpl; intros a f b.
  - by intros [= <- <- <-].
  - rewrite str_has_String. case_match; [by intros [= <- <- <-]|].
    destruct (py_partition sep s) as [[a' f'] b'] eqn:Hp. intros [= <- <- <-]. eauto.
Qed.

Lemma py_lstrip_id s : str_all (λ c, negb (py_isspace c)) s = true → py_lstrip s = s.
Proof. destruct s; simpl; [done|]. by destruct (py_isspace a). Qed.

Lemma py_rstrip_id s : str_all (λ c, negb (py_isspace c)) s = true → py_rstrip s = s.
Proof.
  induction s as [|c s IH]; simpl; [done|]. rewrite andb_true_iff, negb_true_iff.
  intros [-> Hs]. rewrite IH by done. by rewrite andb_false_r.
Qed.

Lemma py_strip_id s : str_all (λ c, negb (py_isspace c)) s = true → py_strip s = s.
Proof. intros H. unfold py_strip. by rewrite (py_lstrip_id s), py_rstrip_id. Qed.

(** ** Decimal numerals *)

Lemma is_decimal_digit c : is_decimal c = true → is_digit c = true.
Proof. unfold is_digit. by intros ->. Qed.

Lemma is_decimal_not_space c : is_decimal c = true → negb (py_isspace c) = true.
Proof.
  unfold is_decimal, py_isspace, between. rewrite !andb_true_iff, !N.leb_le.
  intros [? ?]. rewrite negb_true_iff, !orb_false_iff, !andb_false_iff, !N.leb_gt, !N.eqb_neq.
  lia.
Qed.

Lemma uint_decimal (d : Decimal.uint) : str_all is_decimal (NilEmpty.string_of_uint d) = true.
Proof. by induction d. Qed.

Lemma str_of_Z_nonneg z :
  (0 ≤ z)%Z → str_of_Z z = NilZero.string_of_uint (N.to_uint (Z.to_N z)).
Proof. destruct z; try done; lia. Qed.

Lemma str_of_Z_decimal z : (0 ≤ z)%Z → str_all is_decimal (str_of_Z z) = true.
Proof.
  intros Hz. rewrite str_of_Z_nonneg by done. unfold NilZero.string_of_uint.
  case_match; [done|..]; apply (uint_decimal (_ _)).
Qed.

Lemma to_uint_not_Nil n : N.to_uint n ≠ Decimal.Nil.
Proof.
  intros H. pose proof (DecimalN.Unsigned.to_of (N.to_uint n)) as Hto.
  rewrite DecimalN.Unsigned.of_to, H in Hto. done.
Qed.

Lemma str_of_Z_not_empty z : (0 ≤ z)%Z → str_empty (str_of_Z z) = false.
Proof.
  intros Hz. rewrite str_of_Z_nonneg by done. unfold NilZero.string_of_uint.
  by case_match.
Qed.

Lemma str_of_Z_isdigit z : (0 ≤ z)%Z → py_isdigit (str_of_Z z) = true.
Proof.
  intros Hz. unfold py_isdigit. rewrite str_of_Z_not_empty by done. simpl.
  eapply str_all_mono; [apply is_decimal_digit|]. by apply str_of_Z_decimal.
Qed.

Lemma str_of_Z_strip z : (0 ≤ z)%Z → py_strip (str_of_Z z) = str_of_Z z.
Proof.
  intros Hz. apply py_strip_id. eapply str_all_mono; [apply is_decimal_not_space|].
  by apply str_of_Z_decimal.
Qed.

Lemma str_of_Z_no_char z c : (0 ≤ z)%Z → is_decimal c = false → str_has c (str_of_Z z) = false.
Proof. intros Hz. eapply str_all_has. by apply str_of_Z_decimal. Qed.

(** [int(str(n)) == n] within the conversion limit. *)
Lemma py_int_str_of_Z z :
  (0 ≤ z)%Z → (String.length (str_of_Z z) ≤ MAX_STR_DIGITS)%nat →
  py_int (str_of_Z z) = Some z.
Proof.
  intros Hz Hlen. unfold py_int. rewrite (proj2 (Nat.leb_le _ _) Hlen).
  rewrite str_of_Z_nonneg by done. rewrite NilZero.usu by apply to_uint_not_Nil.
  unfold mbind, option_bind. by rewrite DecimalN.Unsigned.of_to, Z2N.id.
Qed.

Lemma py_int_nonneg s z : py_int s = Some z → (0 ≤ z)%Z.
Proof.
  unfold py_int, mbind, option_bind. repeat (case_match; [|done]). intros [= <-]. lia.
Qed.

(** ** Lines and words *)

Definition newline : string := String "010"%char "".

(** No line boundary, no white space. *)
Definition one_line (s : string) : bool := str_all (λ c, negb (py_islinebreak c)) s.
Definition unbroken (s : string) : bool := str_all (λ c, negb (py_isspace c)) s.

Lemma islinebreak_isspace c : py_islinebreak c = true → py_isspace c = true.
Proof.
  unfold py_islinebreak, py_isspace, between.
  rewrite !orb_true_iff, !andb_true_iff, !N.leb_le, !N.eqb_eq. lia.
Qed.

Lemma unbroken_one_line s : unbroken s = true → one_line s = true.
Proof.
  apply str_all_mono. intros c. rewrite !negb_true_iff. destruct (py_islinebreak c) eqn:Hb; [|done].
  by rewrite islinebreak_isspace.
Qed.

Lemma py_splitlines_String c d s :
  py_splitlines (String c (String d s)) =
    if (N_of_ascii c =? 13)%N && (N_of_ascii d =? 10)%N then ([""] ++ py_splitlines s)%list
    else if py_islinebreak c then ([""] ++ py_splitlines (String d s))%list
    else match py_splitlines (String d s) with
         | w :: ws => String c w :: ws
         | [] => [String c ""]
         end.
Proof.
  cbn [py_splitlines]. destruct (_ && _) eqn:Hcr; [|done].
  apply andb_true_iff in Hcr as [Hc%N.eqb_eq _]. unfold py_islinebreak. by rewrite Hc.
Qed.

Lemma py_splitlines_ne c s : py_splitlines (String c s) ≠ [].
Proof. cbn [py_splitlines]. destruct (py_islinebreak c); [done|]. destruct s; [done|]. by case_match. Qed.

(** A line feed ends a line whatever is before it. *)
Lemma py_splitlines_newline a b :
  py_splitlines (a +:+ newline +:+ b) = (py_splitlines (a +:+ newline) ++ py_splitlines b)%list.
Proof.
  remember (String.length a) as n eqn:Hn. revert a Hn.
  induction n as [n IH] using lt_wf_ind. intros [|c [|d a]] ->; [by destruct b| |].
  - change (String c "" +:+ newline +:+ b) with (String c (String "010" b)).
    change (String c "" +:+ newline) with (String c (String "010" "")).
    rewrite !py_splitlines_String. destruct (_ && _); [done|].
    destruct (py_islinebreak c); by destruct b.
  - pose proof (IH (String.length (String d a)) ltac:(simpl; lia) (String d a) eq_refl) as Hda.
    pose proof (IH (String.length a) ltac:(simpl; lia) a eq_refl) as Ha.
    change (String c (String d a) +:+ newline +:+ b) with (String c (String d (a +:+ newline +:+ b))).
    change (String c (String d a) +:+ newline) with (String c (String d (a +:+ newline))).
    change (String d a +:+ newline +:+ b) with (String d (a +:+ newline +:+ b)) in Hda.
    change (String d a +:+ newline) with (String d (a +:+ newline)) in Hda.
    rewrite !py_splitlines_String, Ha, Hda. destruct (_ && _); [done|].
    destruct (py_islinebreak c); [done|].
    pose proof (py_splitlines_ne d (a +:+ newline)) as Hne.
    by destruct (py_splitlines (String d (a +:+ newline))).
Qed.

Lemma py_splitlines_one l : one_line l = true → py_splitlines (l +:+ newline) = [l].
Proof.
  unfold one_line. induction l as [|c [|d l] IH]; [done|..]; cbn [str_all].
  - rewrite andb_true_iff, negb_true_iff. intros [Hc _].
    change (String c "" +:+ newline) with (String c (String "010" "")).
    rewrite py_splitlines_String, Hc. destruct ((N_of_ascii c =? 13)%N && _) eqn:Hcr; [|done].
    apply andb_true_iff in Hcr as [H13%N.eqb_eq _]. unfold py_islinebreak in Hc. by rewrite H13 in Hc.
  - rewrite andb_true_iff, negb_true_iff. intros [Hc Hl]. specialize (IH Hl).
    change (String c (String d l) +:+ newline) with (String c (String d l +:+ newline)).
    change (String d l +:+ newline) with (String d (l +:+ newline)) in *.
    rewrite py_splitlines_String, IH, Hc. destruct ((N_of_ascii c =? 13)%N && _) eqn:Hcr; [|done].
    apply andb_true_iff in Hcr as [H13%N.eqb_eq _]. unfold py_islinebreak in Hc. by rewrite H13 in Hc.
Qed.

Lemma py_take_word_app a s :
  unbroken a = true → match s with "" => true | String c _ => py_isspace c end = true →
  py_take_word (a +:+ s) = a.
Proof.
  unfold unbroken. intros Ha Hs. induction a as [|c a IH]; cbn [str_all] in *.
  - destruct s; [done|]. cbn. by rewrite Hs.
  - apply andb_true_iff in Ha as [Hc%negb_true_iff Ha]. cbn. by rewrite Hc, IH.
Qed.

(** A word at the start of a line is its first word. *)
Lemma py_first_word_app a s :
  a ≠ "" → unbroken a = true → match s with "" => true | String c _ => py_isspace c end = true →
  py_first_word (a +:+ s) = Some a.
Proof.
  intros Hne Ha Hs. unfold py_first_word. assert (py_lstrip (a +:+ s) = a +:+ s) as ->.
  { destruct a as [|c a]; [done|]. unfold unbroken in Ha. cbn [str_all] in Ha.
    apply andb_true_iff in Ha as [Hc%negb_true_iff _]. cbn. by rewrite Hc. }
  rewrite py_take_word_app by done. by destruct a.
Qed.

(** Words are not empty and hold no white space. *)
Lemma py_first_word_unbroken s w : py_first_word s = Some w → w ≠ "" ∧ unbroken w = true.
Proof.
  assert (∀ t, unbroken (py_take_word t) = true) as Htake.
  { intros t. unfold unbroken. induction t as [|c t IH]; cbn; [done|].
    destruct (py_isspace c) eqn:Hc; [done|]. cbn. by rewrite Hc, IH. }
  unfold py_first_word. specialize (Htake (py_lstrip s)). destruct (py_take_word _); [done|].
  by intros [= <-].
Qed.
