(* ===== verification/IpAddress.v ===== *)
(** * The [ipaddress] module of the Python standard library

    What [config/validation.py] uses of it: [ip_address], [ip_interface] and
    [ip_network(..., strict=False)] on strings, equality of IPv4 networks and
    membership of an IPv4 address in a network.  An IPv6 value is only ever
    tested with [isinstance], so of IPv6 the model keeps which strings parse. *)

From S2P Require Import Prelude PyStr.
#[local] Open Scope Z_scope.

(** [n.bit_length()] *)
Definition bit_length (n : Z) : Z := if n =? 0 then 0 else Z.log2 (Z.abs n) + 1.

(** ** IPv4 *)

Definition IPV4_BITS : Z := 32.
Definition IPV4_ALL_ONES : Z := 2 ^ 32 - 1.

Definition parse_octet (s : string) : option Z :=
  if negb (py_isascii s && py_isdigit s) then None
  else if (3 <? String.length s)%nat then None
  else match s with
       | String "0" (String _ _) => None
       | _ => n ← py_int s; if 255 <? n then None else Some n
       end.

Definition ip4_from_string (s : string) : option Z :=
  match py_split "." s with
  | [a; b; c; d] =>
      a ← parse_octet a; b ← parse_octet b; c ← parse_octet c; d ← parse_octet d;
      Some (((a * 256 + b) * 256 + c) * 256 + d)
  | _ => None
  end.

(** [IPv4Address(s)] *)
Definition ip4_address (s : string) : option Z :=
  if str_has "/" s then None else ip4_from_string s.

Definition netmask_of_prefix (p : Z) : Z :=
  Z.lxor IPV4_ALL_ONES (Z.shiftr IPV4_ALL_ONES p).

Definition count_righthand_zero_bits (number bits : Z) : Z :=
  if number =? 0 then bits
  else Z.min bits (bit_length (Z.land (Z.lnot number) (number - 1))).

Definition prefix_from_ip_int (ip : Z) : option Z :=
  let trailing_zeroes := count_righthand_zero_bits ip IPV4_BITS in
  let prefixlen := IPV4_BITS - trailing_zeroes in
  if Z.shiftr ip trailing_zeroes =? Z.shiftl 1 prefixlen - 1 then Some prefixlen else None.

Definition prefix_from_prefix_string (bits : Z) (s : string) : option Z :=
  if negb (py_isascii s && py_isdigit s) then None
  else n ← py_int s; if bits <? n then None else Some n.

Definition prefix_from_ip_string (s : string) : option Z :=
  ip ← ip4_from_string s;
  match prefix_from_ip_int ip with
  | Some p => Some p
  | None => prefix_from_ip_int (Z.lxor ip IPV4_ALL_ONES)
  end.

(** [_make_netmask] of a mask string: the prefix length. *)
Definition mask_prefix (s : string) : option Z :=
  match prefix_from_prefix_string IPV4_BITS s with
  | Some p => Some p
  | None => prefix_from_ip_string s
  end.

Record IPv4Network : Type := mkIPv4Network { network_address : Z; netmask : Z }.
Record IPv4Interface : Type := mkIPv4Interface { interface_ip : Z; network : IPv4Network }.

#[export] Instance IPv4Network_eq_dec : EqDecision IPv4Network.
Proof. solve_decision. Defined.

(** [_split_addr_prefix] *)
Definition split_addr_prefix (s : string) : option (string * option string) :=
  match py_split "/" s with
  | [addr] => Some (addr, None)
  | [addr; mask] => Some (addr, Some mask)
  | _ => None
  end.

Definition network_of (ip p : Z) : IPv4Network :=
  mkIPv4Network (Z.land ip (netmask_of_prefix p)) (netmask_of_prefix p).

(** [IPv4Interface(s)]; its [network] is [IPv4Network((addr, mask), strict=False)]. *)
Definition ip4_interface (s : string) : option IPv4Interface :=
  '(addr, mask) ← split_addr_prefix s;
  ip ← ip4_address addr;
  p ← match mask with None => Some IPV4_BITS | Some m => mask_prefix m end;
  Some (mkIPv4Interface ip (network_of ip p)).

(** [IPv4Network(s, strict=False)] *)
Definition ip4_network (s : string) : option IPv4Network :=
  network <$> ip4_interface s.

(** [ip in net] *)
Definition ip4_in (ip : Z) (net : IPv4Network) : bool :=
  Z.land ip (netmask net) =? network_address net.

(** ** IPv6: which strings parse *)

Definition hextet_ok (s : string) : bool :=
  str_all is_hex s && negb (str_empty s) && (String.length s <=? 4)%nat.

(** The positions of the empty parts, the first and the last one excepted. *)
Definition inner_empty (parts : list string) : list nat :=
  filter (λ i, str_empty (default "" (parts !! i)) = true) (seq 1 (length parts - 2)).

(** An IPv4-style suffix stands for two hextets. *)
Definition expand_ip4_suffix (parts : list string) : option (list string) :=
  let suffix := default "" (last parts) in
  if str_has "." suffix then
    _ ← ip4_address suffix; Some (take (length parts - 1) parts ++ ["0"; "0"])
  else Some parts.

Definition ip6_parts_ok (parts : list string) : bool :=
  let n := length parts in
  let first_empty := str_empty (default "" (head parts)) in
  let last_empty := str_empty (default "" (last parts)) in
  if (9 <? n)%nat then false
  else match inner_empty parts with
  | [] => (n =? 8)%nat && forallb hextet_ok parts
  | [skip] =>
      let hi := if first_empty then (skip - 1)%nat else skip in
      let lo := if last_empty then (n - skip - 2)%nat else (n - skip - 1)%nat in
      (negb first_empty || (hi =? 0)%nat)
      && (negb last_empty || (lo =? 0)%nat)
      && (hi + lo <? 8)%nat
      && forallb hextet_ok (take hi parts)
      && forallb hextet_ok (drop (n - lo) parts)
  | _ => false
  end.

Definition ip6_from_string_ok (s : string) : bool :=
  let parts := py_split ":" s in
  if (length parts <? 3)%nat then false
  else match expand_ip4_suffix parts with
       | Some parts' => ip6_parts_ok parts'
       | None => false
       end.

(** [IPv6Address(s)] succeeds. *)
Definition ip6_address_ok (s : string) : bool :=
  if str_has "/" s then false
  else let '(addr, found, scope) := py_partition "%" s in
       if found && (str_empty scope || str_has "%" scope) then false
       else ip6_from_string_ok addr.

(** [IPv6Interface(s)] and [IPv6Network(s, strict=False)] succeed. *)
Definition ip6_interface_ok (s : string) : bool :=
  match split_addr_prefix s with
  | Some (addr, None) => ip6_address_ok addr
  | Some (addr, Some mask) =>
      ip6_address_ok addr && bool_decide (is_Some (prefix_from_prefix_string 128 mask))
  | None => false
  end.

(** ** The three factories

    [IpError] is the [ValueError] the factory raises. *)

Inductive ip_result (V4 : Type) : Type :=
| IpV4 (v : V4)
| IpV6
| IpError.
Arguments IpV4 {_} _.
Arguments IpV6 {_}.
Arguments IpError {_}.

Definition ip_factory {V4} (v4 : string → option V4) (v6_ok : string → bool)
    (s : string) : ip_result V4 :=
  match v4 s with
  | Some v => IpV4 v
  | None => if v6_ok s then IpV6 else IpError
  end.

Definition ip_address : string → ip_result Z := ip_factory ip4_address ip6_address_ok.
Definition ip_interface : string → ip_result IPv4Interface :=
  ip_factory ip4_interface ip6_interface_ok.
(** [ip_network(s, strict=False)] *)
Definition ip_network : string → ip_result IPv4Network :=
  ip_factory ip4_network ip6_interface_ok.

(** ** Facts *)

Lemma ip_factory_v4 {V4} v4 v6 s (v : V4) :
  ip_factory v4 v6 s = IpV4 v ↔ v4 s = Some v.
Proof. unfold ip_factory. destruct (v4 s), (v6 s); naive_solver. Qed.

