(* ===== verification/Errors.v ===== *)
(** * Errors

    [error.py]: the project error codes, the typed errors and the exceptions
    that can escape a modelled function. *)

From S2P Require Import Prelude.
#[local] Open Scope string_scope.

(** [class ErrorCode(StrEnum)] *)
Module ErrorCode.
Inductive t : Type :=
| DATAPATH_TRANSPORT_ERROR
| CONFIG_PARSE_ERROR
| INVALID_REQUEST
| INVALID_PAYLOAD
| UNKNOWN_COMMAND
| RULE_VALIDATION_ERROR
| TOPOLOGY_VALIDATION_ERROR
| TOPOLOGY_APPLY_ERROR
| TOPOLOGY_DESTROY_ERROR
| PROCESS_ERROR
| PORT_INIT_ERROR
| STATE_CONFLICT
| TIMEOUT
| INTERNAL_ERROR.

Definition value (c : t) : string :=
  match c with
  | DATAPATH_TRANSPORT_ERROR => "DATAPATH_TRANSPORT_ERROR"
  | CONFIG_PARSE_ERROR => "CONFIG_PARSE_ERROR"
  | INVALID_REQUEST => "INVALID_REQUEST"
  | INVALID_PAYLOAD => "INVALID_PAYLOAD"
  | UNKNOWN_COMMAND => "UNKNOWN_COMMAND"
  | RULE_VALIDATION_ERROR => "RULE_VALIDATION_ERROR"
  | TOPOLOGY_VALIDATION_ERROR => "TOPOLOGY_VALIDATION_ERROR"
  | TOPOLOGY_APPLY_ERROR => "TOPOLOGY_APPLY_ERROR"
  | TOPOLOGY_DESTROY_ERROR => "TOPOLOGY_DESTROY_ERROR"
  | PROCESS_ERROR => "PROCESS_ERROR"
  | PORT_INIT_ERROR => "PORT_INIT_ERROR"
  | STATE_CONFLICT => "STATE_CONFLICT"
  | TIMEOUT => "TIMEOUT"
  | INTERNAL_ERROR => "INTERNAL_ERROR"
  end.

#[export] Instance eq_dec : EqDecision t.
Proof. solve_decision. Defined.
End ErrorCode.
Export (hints) ErrorCode.

(** [Any], as far as error contexts and payloads hold it.  A dict keeps its
    insertion order, which is the order it is rendered in; a float is known
    by its [repr]. *)
Unset Elimination Schemes.
Inductive pyval : Type :=
| PyNone
| PyBool (b : bool)
| PyInt (z : Z)
| PyFloat (text : string)
| PyStr (s : string)
| PyList (l : list pyval)
| PyDict (d : list (string * pyval)).
Set Elimination Schemes.

Abbreviation pydict := (list (string * pyval)).

Fixpoint dict_get (k : string) (d : pydict) : option pyval :=
  match d with
  | [] => None
  | (k', v) :: d' => if decide (k' = k) then Some v else dict_get k d'
  end.

(** [d[k] = v]: an existing key keeps its place. *)
Fixpoint dict_set (k : string) (v : pyval) (d : pydict) : pydict :=
  match d with
  | [] => [(k, v)]
  | (k', v') :: d' => if decide (k' = k) then (k, v) :: d' else (k', v') :: dict_set k v d'
  end.

(** The classes of the error hierarchy. *)
Inductive error_class : Type :=
| CPktlabError
| CValidationError
| CConfigParseError
| CDatapathProtocolError
| CDatapathTransportError
| CProcessExecutionError.

#[export] Instance error_class_eq_dec : EqDecision error_class.
Proof. solve_decision. Defined.

(** [class PktlabError(Exception)] *)
Record PktlabError : Type := mkPktlabError {
  error_cls : error_class;
  error_code : ErrorCode.t;
  error_message : string;
  error_context : pydict;
}.

Definition new_PktlabError (code : ErrorCode.t) (message : string) (context : pydict) : PktlabError :=
  mkPktlabError CPktlabError code message context.

(** [PktlabError.to_dict] *)
Definition to_dict (e : PktlabError) : pydict :=
  [("code", PyStr (ErrorCode.value (error_code e))); ("message", PyStr (error_message e))]
  ++ match error_context e with
     | [] => []
     | context => [("context", PyDict context)]
     end.

(** [class ValidationError(PktlabError)]: [issues] is merged into the context
    when the list is not empty. *)
Definition new_ValidationError (message : string) (code : ErrorCode.t)
    (issues : list pyval) (context : pydict) : PktlabError :=
  mkPktlabError CValidationError code message
    (match issues with [] => context | _ => dict_set "issues" (PyList issues) context end).

(** The attribute [self.issues]. *)
Definition error_issues (e : PktlabError) : list pyval :=
  match dict_get "issues" (error_context e) with
  | Some (PyList l) => l
  | _ => []
  end.

Definition new_ConfigParseError (message : string) (context : pydict) : PktlabError :=
  mkPktlabError CConfigParseError ErrorCode.CONFIG_PARSE_ERROR message context.
Definition new_DatapathProtocolError (message : string) (context : pydict) : PktlabError :=
  mkPktlabError CDatapathProtocolError ErrorCode.INVALID_PAYLOAD message context.
Definition new_DatapathTransportError (message : string) (context : pydict) : PktlabError :=
  mkPktlabError CDatapathTransportError ErrorCode.DATAPATH_TRANSPORT_ERROR message context.
Definition new_ProcessExecutionError (message : string) (context : pydict) : PktlabError :=
  mkPktlabError CProcessExecutionError ErrorCode.PROCESS_ERROR message context.

(** ** Exceptions

    A [PktlabError], or one of the exceptions of the interpreter and of
    pydantic that the code does not wrap.  A message is kept where the
    controller wrote it; [None] stands for a text chosen by the library. *)
Inductive os_error : Type :=
| FileNotFoundError
| ConnectionRefusedError
| SocketTimeout
| OtherOSError (errno : option Z).

Inductive pyexn : Type :=
| PktlabExn (e : PktlabError)
| PydanticValidationError
| ValueError (message : option string)
| TypeError (message : option string)
| KeyError (key : string)
| OverflowError
| RuntimeError (message : string)
| TimeoutExpired
| AttributeError
| OSErr (e : os_error).

(** [type(value).__name__] *)
Definition type_name (v : pyval) : string :=
  match v with
  | PyNone => "NoneType"
  | PyBool _ => "bool"
  | PyInt _ => "int"
  | PyFloat _ => "float"
  | PyStr _ => "str"
  | PyList _ => "list"
  | PyDict _ => "dict"
  end.

(** [isinstance(exc, PktlabError)] *)
Definition is_pktlab (e : pyexn) : bool :=
  match e with PktlabExn _ => true | _ => false end.

(** [except DatapathTransportError] *)
Definition is_transport (e : pyexn) : bool :=
  match e with
  | PktlabExn e => bool_decide (error_cls e = CDatapathTransportError)
  | _ => false
  end.

(** [except DatapathProtocolError] *)
Definition is_protocol (e : pyexn) : bool :=
  match e with
  | PktlabExn e => bool_decide (error_cls e = CDatapathProtocolError)
  | _ => false
  end.

(** ** Facts *)

Lemma dict_get_set k v d : dict_get k (dict_set k v d) = Some v.
Proof.
  induction d as [|[k' v'] d IH]; simpl.
  - by rewrite decide_True.
  - destruct (decide (k' = k)) as [->|]; simpl.
    + by rewrite decide_True.
    + by rewrite decide_False.
Qed.

Lemma dict_get_set_ne k k' v d :
  k ≠ k' → dict_get k (dict_set k' v d) = dict_get k d.
Proof.
  intros Hne. induction d as [|[k1 v1] d IH]; simpl.
  - by rewrite decide_False.
  - destruct (decide (k1 = k')) as [->|]; simpl; by repeat case_decide.
Qed.

Lemma dict_set_ne_nil k v d : dict_set k v d ≠ [].
Proof. destruct d as [|[] ?]; simpl; [done|]. by case_decide. Qed.

Lemma error_issues_ValidationError m c issues :
  error_issues (new_ValidationError m c issues []) = issues.
Proof. by destruct issues. Qed.
