(* ===== verification/PyJson.v ===== *)
(** * The text of values

    [str(value)] and [json.dumps(value, indent=2, sort_keys=True)] of the
    values of [Errors], and [int(text)] of arbitrary text: what the command
    line tool prints and how it orders rule identifiers. *)

From stdpp Require Import sorting.
From Stdlib Require Import DecimalString DecimalN.
From S2P Require Import Prelude PyStr Errors.
#[local] Open Scope string_scope.
#[local] Open Scope list_scope.

Definition str1 (c : ascii) : string := String c "".
(** A character given by its code point. *)
Definition chr (n : N) : string := str1 (ascii_of_N n).
Definition newline : string := chr 10.
Definition quote : string := chr 34.

Definition hex_digit (n : N) : string := chr (if n <? 10 then 48 + n else 87 + n)%N.
(** [format(n, "02x")] of a code point below 256. *)
Definition hex2 (n : N) : string := hex_digit (n / 16) +:+ hex_digit (n mod 16).

(** [str.translate] with a table from characters to texts. *)
Fixpoint str_map (f : ascii → string) (s : string) : string :=
  match s with
  | "" => ""
  | String c s' => f c +:+ str_map f s'
  end.

(** ** Fields of models *)

(** [Field(min_length=1)] *)
Definition min_length_1 (s : string) : bool := negb (str_empty s).
(** A constraint on an optional field. *)
Definition opt_all {A} (p : A → bool) (o : option A) : bool :=
  match o with Some a => p a | None => true end.
(** An optional field of a dumped model. *)
Definition opt_val {A} (f : A → pyval) (o : option A) : pyval :=
  match o with Some a => f a | None => PyNone end.

Lemma opt_val_fmap {A B} (f : B → pyval) (g : A → B) o : opt_val f (g <$> o) = opt_val (f ∘ g) o.
Proof. by destruct o. Qed.

Lemma min_length_1_ne s : s ≠ "" → min_length_1 s = true.
Proof. by destruct s. Qed.

(** ** [repr] and [str] *)

(** [chr.isprintable()] on Latin-1. *)
Definition py_isprintable (c : ascii) : bool :=
  let n := N_of_ascii c in
  between 32 126 n || between 161 172 n || between 174 255 n.

Definition repr_char (delimiter : ascii) (c : ascii) : string :=
  let n := N_of_ascii c in
  if Ascii.eqb c delimiter || (n =? 92)%N then chr 92 +:+ str1 c
  else if (n =? 10)%N then chr 92 +:+ "n"
  else if (n =? 13)%N then chr 92 +:+ "r"
  else if (n =? 9)%N then chr 92 +:+ "t"
  else if py_isprintable c then str1 c
  else chr 92 +:+ "x" +:+ hex2 n.

(** [repr(s)]: single quotes, unless only double quotes avoid escaping. *)
Definition py_repr_str (s : string) : string :=
  let delimiter := ascii_of_N (if str_has (ascii_of_N 39) s && negb (str_has (ascii_of_N 34) s)
                               then 34 else 39) in
  str1 delimiter +:+ str_map (repr_char delimiter) s +:+ str1 delimiter.

Fixpoint py_repr (v : pyval) : string :=
  match v with
  | PyNone => "None"
  | PyBool b => if b then "True" else "False"
  | PyInt z => str_of_Z z
  | PyFloat text => text
  | PyStr s => py_repr_str s
  | PyList l => "[" +:+ py_join ", " (List.map py_repr l) +:+ "]"
  | PyDict d =>
      "{" +:+ py_join ", " (List.map (λ kv, py_repr_str (fst kv) +:+ ": " +:+ py_repr (snd kv)) d)
      +:+ "}"
  end.

(** [str(value)] *)
Definition py_str (v : pyval) : string :=
  match v with PyStr s => s | _ => py_repr v end.

(** ** [json.dumps] *)

(** [ensure_ascii]: everything but printable ASCII is escaped. *)
Definition json_char (c : ascii) : string :=
  let n := N_of_ascii c in
  if (n =? 34)%N || (n =? 92)%N then chr 92 +:+ str1 c
  else if (n =? 10)%N then chr 92 +:+ "n"
  else if (n =? 13)%N then chr 92 +:+ "r"
  else if (n =? 9)%N then chr 92 +:+ "t"
  else if (n =? 8)%N then chr 92 +:+ "b"
  else if (n =? 12)%N then chr 92 +:+ "f"
  else if between 32 126 n then str1 c
  else chr 92 +:+ "u00" +:+ hex2 n.

Definition json_string (s : string) : string := quote +:+ str_map json_char s +:+ quote.

Fixpoint spaces (n : nat) : string :=
  match n with O => "" | S n => " " +:+ spaces n end.
(** The line break before an item at a nesting level, with [indent=2]. *)
Definition break (level : nat) : string := newline +:+ spaces (2 * level).

(** Items between brackets, one per line; none at all are [[]] and [{}]. *)
Definition json_block (left right : string) (level : nat) (items : list string) : string :=
  match items with
  | [] => left +:+ right
  | _ => left +:+ break (S level) +:+ py_join ("," +:+ break (S level)) items
         +:+ break level +:+ right
  end.

Definition key_le {A} (a b : string * A) : Prop := str_le (fst a) (fst b).
#[export] Instance key_le_dec {A} (a b : string * A) : Decision (key_le a b).
Proof. unfold key_le. apply _. Defined.

(** [sorted(d.items())] of a dict, whose keys are distinct. *)
Definition sort_keys {A} (d : list (string * A)) : list (string * A) := merge_sort key_le d.

(** [json.dumps(v, indent=2, sort_keys=True)] of a value at a nesting level. *)
Fixpoint json_dumps (level : nat) (v : pyval) : string :=
  match v with
  | PyNone => "null"
  | PyBool b => if b then "true" else "false"
  | PyInt z => str_of_Z z
  | PyFloat text => text
  | PyStr s => json_string s
  | PyList l => json_block "[" "]" level (List.map (json_dumps (S level)) l)
  | PyDict d =>
      json_block "{" "}" level
        ((λ kv, json_string (fst kv) +:+ ": " +:+ snd kv) <$>
         sort_keys (List.map (λ kv, (fst kv, json_dumps (S level) (snd kv))) d))
  end.

(** ** [int(text)] *)

(** Decimal digits with single underscores between them. *)
Fixpoint digits_of (after_digit : bool) (s : string) : option string :=
  match s with
  | "" => if after_digit then Some "" else None
  | String c s' =>
      if is_decimal c then String c <$> digits_of true s'
      else if (N_of_ascii c =? 95)%N && after_digit then digits_of false s'
      else None
  end.

(** [int(s)]: white space around, a sign, digits; [None] is [ValueError]. *)
Definition py_int_text (s : string) : option Z :=
  let unsigned s := digits ← digits_of false s; py_int digits in
  match py_strip s with
  | String c s' =>
      if (N_of_ascii c =? 45)%N then Z.opp <$> unsigned s'
      else if (N_of_ascii c =? 43)%N then unsigned s'
      else unsigned (String c s')
  | "" => None
  end.
