(* ===== verification/ArgParse.v ===== *)
(** * Command lines

    [argparse] of the Python standard library (CPython 3.11), as far as the two
    entry points use it: options with one argument, with a type and choices,
    flags, [-h], and required subparsers.  A parser's result is the attributes
    of the namespace and the arguments it did not recognise; it exits with a
    help text or with an error.  Abbreviated options, [--option=value], joined
    short options, [--], negative numbers and defaults converted at the end
    are the library's. *)

From stdpp Require Import gmap.
From S2P Require Import Prelude PyStr Errors PyJson.
#[local] Open Scope string_scope.
#[local] Open Scope list_scope.

(** ** Values and parsers *)

(** An attribute of a namespace; a duration is in ticks of a millisecond.  The
    text [--] given as [--option=--] is read as an empty list. *)
Inductive arg_value : Type :=
| VNone
| VBool (b : bool)
| VStr (s : string)
| VInt (z : Z)
| VSeconds (ticks : Z)
| VEmptyList.

#[export] Instance arg_value_eq_dec : EqDecision arg_value.
Proof. solve_decision. Defined.

(** The [type] of an option, [None] being [ValueError]. *)
Inductive arg_type : Type :=
| TypeStr
| TypeInt
| TypeFloat.

(** [action]: the default, [store_true] and [help]. *)
Inductive action_kind : Type :=
| Store (type : arg_type) (choices : option (list string))
| StoreTrue
| Help.

Record action : Type := mkAction {
  option_strings : list string;
  dest : string;
  kind : action_kind;
  required : bool;
  default_value : arg_value;
}.

(** A parser; with [add_subparsers(dest=..., required=True)], the attribute and
    the parsers by name, and otherwise no parsers. *)
Inductive parser : Type :=
  Parser (prog : string) (actions : list action) (sub_dest : string) (subparsers : list (string * parser)).

(** [ArgumentParser(prog=...)] *)
Definition help_action : action := mkAction ["-h"; "--help"] "help" Help false VNone.

(** The attributes of a namespace. *)
Abbreviation attributes := (gmap string arg_value).

(** ** What goes wrong *)

Inductive arg_error : Type :=
| ExpectedOneArgument (name : string)
| IgnoredExplicitArgument (name explicit : string)
| InvalidValue (name type text : string)
| InvalidChoice (name text : string) (choices : list string)
| AmbiguousOption (text : string) (matches : list string)
| MissingArguments (names : list string)
| Unrecognized (args : list string).

(** The message of [parser.error]. *)
Definition arg_error_text (e : arg_error) : string :=
  let about name := "argument " +:+ name +:+ ": " in
  match e with
  | ExpectedOneArgument name => about name +:+ "expected one argument"
  | IgnoredExplicitArgument name explicit =>
      about name +:+ "ignored explicit argument " +:+ py_repr_str explicit
  | InvalidValue name type text =>
      about name +:+ "invalid " +:+ type +:+ " value: " +:+ py_repr_str text
  | InvalidChoice name text choices =>
      about name +:+ "invalid choice: " +:+ py_repr_str text +:+
      " (choose from " +:+ py_join ", " (py_repr_str <$> choices) +:+ ")"
  | AmbiguousOption text matches =>
      "ambiguous option: " +:+ text +:+ " could match " +:+ py_join ", " matches
  | MissingArguments names =>
      "the following arguments are required: " +:+ py_join ", " names
  | Unrecognized args => "unrecognized arguments: " +:+ py_join " " args
  end.

(** [SystemExit]: after the help of a parser, or after an error of it. *)
Inductive parse_exit : Type :=
| ExitHelp (prog : string)
| ExitError (prog : string) (e : arg_error).

Definition exit_status (e : parse_exit) : Z :=
  match e with ExitHelp _ => 0 | ExitError _ _ => 2 end.

(** ** Conversion *)

(** [_get_action_name] *)
Definition action_name (a : action) : string := py_join "/" (option_strings a).

(** The white space that [int] skips. *)
Definition int_space (ascii_text : bool) (c : ascii) : bool :=
  if ascii_text then between 9 13 (N_of_ascii c) || Ascii.eqb c " " else py_isspace c.

Fixpoint lstrip_by (p : ascii → bool) (s : string) : string :=
  match s with String c s' => if p c then lstrip_by p s' else s | "" => "" end.
Fixpoint rstrip_by (p : ascii → bool) (s : string) : string :=
  match s with
  | String c s' => let r := rstrip_by p s' in if p c && str_empty r then "" else String c r
  | "" => ""
  end.
Definition strip_by (p : ascii → bool) (s : string) : string := rstrip_by p (lstrip_by p s).

(** Digits, with single underscores between them. *)
Fixpoint plain_digits (after_digit : bool) (s : string) : option string :=
  match s with
  | "" => if after_digit then Some "" else None
  | String c s' =>
      if is_decimal c then String c <$> plain_digits true s'
      else if Ascii.eqb c "_" && after_digit then plain_digits false s'
      else None
  end.

(** [int(text)]; [None] is [ValueError]. *)
Definition int_literal (text : string) : option Z :=
  let t := strip_by (int_space (py_isascii text)) text in
  let '(sign, digits) :=
    match t with
    | String c t' => if Ascii.eqb c "-" then ((-1)%Z, t') else if Ascii.eqb c "+" then (1%Z, t') else (1%Z, t)
    | "" => (1%Z, t)
    end in
  plain ← plain_digits false digits;
  n ← py_int plain;
  Some (sign * n)%Z.

(** [float(text)]; [None] is [ValueError].  The standard library's reading of
    decimal notation, in ticks. *)
Class FloatLiteral := float_literal : string → option Z.

Section argparse.
Context `{FloatLiteral}.

Definition convert (t : arg_type) (text : string) : option arg_value :=
  match t with
  | TypeStr => Some (VStr text)
  | TypeInt => VInt <$> int_literal text
  | TypeFloat => VSeconds <$> float_literal text
  end.

Definition type_text (t : arg_type) : string :=
  match t with TypeStr => "str" | TypeInt => "int" | TypeFloat => "float" end.

(** [_get_value] and [_check_value] *)
Definition get_value (a : action) (t : arg_type) (text : string) : res arg_error arg_value :=
  match convert t text with
  | Some v => Ok v
  | None => Err (InvalidValue (action_name a) (type_text t) text)
  end.

Definition check_choice (name : string) (choices : option (list string)) (text : string) : res arg_error () :=
  match choices with
  | Some l => if decide (text ∈ l) then Ok () else Err (InvalidChoice name text l)
  | None => Ok ()
  end.

(** [_get_values] of an option with one argument: a [--] among the arguments is
    dropped, and what is left is no single argument then. *)
Definition get_values (a : action) (t : arg_type) (choices : option (list string)) (text : string)
    : res arg_error arg_value :=
  if decide (text = "--") then Ok VEmptyList
  else v ← get_value a t text; check_choice (action_name a) choices text;; Ok v.

(** ** Which arguments are options *)

Definition starts_dash (text : string) : bool :=
  match text with String c _ => Ascii.eqb c "-" | "" => false end.

(** [_option_string_actions] *)
Definition option_string_actions (actions : list action) : list (string * action) :=
  a ← actions; (λ o, (o, a)) <$> option_strings a.

Fixpoint find_option (l : list (string * action)) (o : string) : option action :=
  match l with
  | [] => None
  | (o', a) :: l' => if decide (o' = o) then Some a else find_option l' o
  end.

(** An option of this parser or an unknown one, as it was meant, and the
    argument in the same word. *)
Definition option_tuple : Type := option action * string * option string.

(** [_get_option_tuples] *)
Definition get_option_tuples (actions : list action) (text : string) : list (action * string * option string) :=
  match text with
  | String c0 (String c1 rest) =>
      if Ascii.eqb c1 "-" then
        let '(prefix, found, rest) := py_partition "=" text in
        (λ '(o, a), (a, o, if found then Some rest else None)) <$>
          filter (λ '(o, a), String.prefix prefix o = true) (option_string_actions actions)
      else
        omap (λ '(o, a),
          if decide (o = String c0 (String c1 "")) then Some (a, o, Some rest)
          else if String.prefix text o then Some (a, o, None) else None) (option_string_actions actions)
  | _ => []
  end.

(** [^-\d+$|^-\d*\.\d+$], where [$] also matches before a last newline. *)
Definition drop_newline (s : string) : string :=
  let t := rstrip_by (λ c, Ascii.eqb c "010") s in
  if decide (s = t +:+ String "010" "") then t else s.
Definition negative_number (text : string) : bool :=
  match text with
  | String c digits =>
      let d := drop_newline digits in
      let '(whole, dot, fraction) := py_partition "." d in
      Ascii.eqb c "-" &&
      if dot then str_all is_decimal whole && negb (str_empty fraction) && str_all is_decimal fraction
      else negb (str_empty d) && str_all is_decimal d
  | "" => false
  end.

(** [_parse_optional]: [None] for an argument that is no option. *)
Definition parse_optional (actions : list action) (text : string) : res arg_error (option option_tuple) :=
  let known := find_option (option_string_actions actions) in
  let '(o, found, explicit) := py_partition "=" text in
  if negb (starts_dash text) then Ok None
  else
    match known text, (if found then known o else None) with
    | Some a, _ => Ok (Some (Some a, text, None))
    | None, Some a => Ok (Some (Some a, o, Some explicit))
    | None, None =>
        if decide (text = "-") then Ok None
        else
          match get_option_tuples actions text with
          | [(a, o, e)] => Ok (Some (Some a, o, e))
          | [] =>
              if negative_number text || str_has " " text then Ok None
              else Ok (Some (None, text, None))
          | tuples => Err (AmbiguousOption text ((λ '(a, o, e), o) <$> tuples))
          end
    end.

(** The arguments with their letter of [arg_strings_pattern]. *)
Inductive arg_class : Type :=
| ClassDashes
| ClassArgument
| ClassOption (t : option_tuple).

Fixpoint classify (actions : list action) (args : list string) : res arg_error (list (string * arg_class)) :=
  match args with
  | [] => Ok []
  | text :: args' =>
      if decide (text = "--") then
        Ok ((text, ClassDashes) :: ((λ t, (t, ClassArgument)) <$> args'))
      else
        o ← parse_optional actions text;
        rest ← classify actions args';
        Ok ((text, match o with Some t => ClassOption t | None => ClassArgument end) :: rest)
  end.

(** ** Actions *)

(** Where a run of a parser is: the attributes, the actions seen (by their
    option strings, which no two actions of a parser share), whether the
    subparsers are still to come, and what was not recognised, here and by a
    subparser. *)
Record progress : Type := mkProgress {
  attrs : attributes;
  seen : list (list string);
  pending : bool;
  extras : list string;
  sub_extras : list string;
}.

Definition set_attr (k : string) (v : arg_value) (p : progress) : progress :=
  mkProgress (<[k := v]> (attrs p)) (seen p) (pending p) (extras p) (sub_extras p).
Definition see (a : action) (p : progress) : progress :=
  mkProgress (attrs p) (option_strings a :: seen p) (pending p) (extras p) (sub_extras p).
Definition add_extras (l : list string) (p : progress) : progress :=
  mkProgress (attrs p) (seen p) (pending p) (extras p ++ l) (sub_extras p).

(** [take_action]: an option with its argument, or a flag. *)
Definition take_action (prog : string) (p : progress) (t : action * option string) : res parse_exit progress :=
  let '(a, text) := t in
  let p := see a p in
  match kind a, text with
  | Store t choices, Some text =>
      match get_values a t choices text with
      | Ok v => Ok (set_attr (dest a) v p)
      | Err e => Err (ExitError prog e)
      end
  | Store _ _, None => Err (ExitError prog (ExpectedOneArgument (action_name a)))
  | StoreTrue, _ => Ok (set_attr (dest a) (VBool true) p)
  | Help, _ => Err (ExitHelp prog)
  end.

Definition takes_argument (a : action) : bool := match kind a with Store _ _ => true | _ => false end.

(** The loop of [consume_optional] over a word with an explicit argument: the
    flags in it, and the last action with its argument or with none. *)
Fixpoint joined_options (actions : list action) (a : action) (o explicit : string)
    : res arg_error (list (action * option string) * (action * option string)) :=
  let ignored := Err (IgnoredExplicitArgument (action_name a) explicit) in
  if takes_argument a then Ok ([], (a, Some explicit))
  else
    match o, explicit with
    | String c0 (String c1 _), String c explicit' =>
        if Ascii.eqb c1 "-" then ignored
        else
          let o' := String c0 (String c "") in
          match find_option (option_string_actions actions) o' with
          | None => ignored
          | Some a' =>
              '(flags, last) ←
                (if str_empty explicit' then Ok ([], (a', None)) else joined_options actions a' o' explicit');
              Ok ((a, None) :: flags, last)
          end
    | _, _ => ignored
    end.

Fixpoint take_actions (prog : string) (p : progress) (l : list (action * option string)) : res parse_exit progress :=
  match l with
  | [] => Ok p
  | t :: l' => p' ← take_action prog p t; take_actions prog p' l'
  end.

(** ** A run of a parser *)

(** What a parser does with its arguments: its attributes and what it did not
    recognise. *)
Definition outcome : Type := res parse_exit (attributes * list string).

(** The subparsers' action: the first argument names a parser, which reads all
    the others; its attributes are set over those of this parser. *)
Definition take_subparser (prog sub_dest : string) (names : list string)
    (sub : string → option (list string → outcome)) (args : list string) (p : progress)
    : res parse_exit progress :=
  match args with
  | [] => Ok p
  | word :: rest =>
      match sub word with
      | None => Err (ExitError prog (InvalidChoice sub_dest word names))
      | Some parse =>
          '(values, unknown) ← parse rest;
          Ok (mkProgress (values ∪ <[sub_dest := VStr word]> (attrs p)) (seen p) false (extras p)
                         (sub_extras p ++ unknown))
      end
  end.

(** An argument, maybe after [--], where the subparsers' action takes the rest. *)
Fixpoint starts_argument (items : list (string * arg_class)) : bool :=
  match items with
  | (_, ClassDashes) :: items' => starts_argument items'
  | (_, ClassArgument) :: _ => true
  | _ => false
  end.

Section run.
Context (prog : string) (actions : list action) (sub_dest : string) (names : list string).
Context (sub : string → option (list string → outcome)).

(** [consume_positionals] and [consume_optional] in turn.  The subparsers'
    action is the only positional there is, and takes all there is. *)
Fixpoint consume (items : list (string * arg_class)) (p : progress) : res parse_exit progress :=
  if pending p && starts_argument items then take_subparser prog sub_dest names sub (fst <$> items) p
  else
    match items with
    | [] => Ok p
    | (text, ClassOption (Some a, o, explicit)) :: items' =>
        '(flags, (last, text)) ←
          match explicit with
          | Some e =>
              match joined_options actions a o e with
              | Ok r => Ok r
              | Err e => Err (ExitError prog e)
              end
          | None => Ok ([], (a, None))
          end;
        match text, takes_argument last, items' with
        | None, true, (text, ClassArgument) :: items'' =>
            p' ← take_actions prog p (flags ++ [(last, Some text)]); consume items'' p'
        | None, true, _ => Err (ExitError prog (ExpectedOneArgument (action_name last)))
        | _, _, _ => p' ← take_actions prog p (flags ++ [(last, text)]); consume items' p'
        end
    | (text, _) :: items' => consume items' (add_extras [text] p)
    end.

(** The defaults of the actions, before any argument; a help action has none. *)
Definition defaults : attributes :=
  foldr (λ a m, match kind a with Help => m | _ => <[dest a := default_value a]> m end)
    (if decide (names = []) then ∅ else <[sub_dest := VNone]> ∅) actions.

(** The end of [_parse_known_args]: the required arguments that were not seen,
    and the defaults given as text converted. *)
Fixpoint finish (actions : list action) (missing : list string) (p : progress) : outcome :=
  match actions with
  | [] =>
      match missing ++ (if pending p then [sub_dest] else []) with
      | [] => Ok (attrs p, extras p ++ sub_extras p)
      | names => Err (ExitError prog (MissingArguments names))
      end
  | a :: actions' =>
      if decide (option_strings a ∈ seen p) then finish actions' missing p
      else if required a then finish actions' (missing ++ [action_name a]) p
      else
        match kind a, default_value a with
        | Store t _, VStr text =>
            if decide (attrs p !! dest a = Some (VStr text)) then
              match get_value a t text with
              | Ok v => finish actions' missing (set_attr (dest a) v p)
              | Err e => Err (ExitError prog e)
              end
            else finish actions' missing p
        | _, _ => finish actions' missing p
        end
  end.

Definition reading (args : list string) (p : progress) : res parse_exit progress :=
  match classify actions args with
  | Err e => Err (ExitError prog e)
  | Ok items => consume items p
  end.

Definition parse_with (args : list string) : outcome :=
  p ← reading args (mkProgress defaults [] (negb (bool_decide (names = []))) [] []);
  finish actions [] p.
End run.

(** [parse_known_args] *)
Fixpoint parse_known_args (p : parser) (args : list string) : outcome :=
  match p with
  | Parser prog actions sub_dest subparsers =>
      let fix find (l : list (string * parser)) (name : string) : option (list string → outcome) :=
        match l with
        | [] => None
        | (n, q) :: l' => if decide (n = name) then Some (parse_known_args q) else find l' name
        end in
      parse_with prog actions sub_dest (fst <$> subparsers) (find subparsers) args
  end.

(** [parse_args] *)
Definition parse_args (p : parser) (args : list string) : res parse_exit attributes :=
  '(values, unknown) ← parse_known_args p args;
  match unknown with
  | [] => Ok values
  | _ => let 'Parser prog _ _ _ := p in Err (ExitError prog (Unrecognized unknown))
  end.
End argparse.
