(* ===== verification/ArgProps.v ===== *)
(** * Facts about command lines

    What a word of the command line does to a run of a parser, and what a run
    that succeeds leaves: the attributes of the options have values of their
    types, and a parser with subparsers has succeeded through one of them. *)

From stdpp Require Import gmap.
From S2P Require Import Prelude PyStr Errors PyJson ArgParse.
#[local] Open Scope string_scope.
#[local] Open Scope list_scope.

Section facts.
Context `{FloatLiteral}.

(** ** Options with their argument in one word *)

(** The option strings of a parser: they start with a dash and have no [=]. *)
Definition plain_options (actions : list action) : bool :=
  forallb (λ '(o, _), negb (str_has "=" o) && starts_dash o) (option_string_actions actions).

Lemma find_option_in l o a : find_option l o = Some a → (o, a) ∈ l.
Proof.
  induction l as [|[o' a'] l IH]; cbn; [done|]. case_decide as Ho.
  - intros [= ->]. rewrite Ho. by left.
  - intros Hf. right. by apply IH.
Qed.

Lemma find_option_none l o : (∀ o' a, (o', a) ∈ l → o' ≠ o) → find_option l o = None.
Proof.
  induction l as [|[o' a] l IH]; cbn; [done|]. intros Hl.
  rewrite decide_False by (apply (Hl o' a); by left). apply IH. intros o2 a2 Hin. apply (Hl o2 a2). by right.
Qed.

Lemma option_string_in actions o a : (o, a) ∈ option_string_actions actions → a ∈ actions ∧ o ∈ option_strings a.
Proof.
  intros (a' & Ho & Ha)%list_elem_of_bind. apply list_elem_of_fmap in Ho as (o' & [= -> ->] & Ho). done.
Qed.

Lemma plain_option actions o a :
  plain_options actions = true → (o, a) ∈ option_string_actions actions →
  str_has "=" o = false ∧ ∃ o', o = String "-" o'.
Proof.
  unfold plain_options. rewrite forallb_forall. intros Hp Hin%list_elem_of_In. specialize (Hp _ Hin).
  apply andb_true_iff in Hp as [Hh%negb_true_iff Hd]. split; [done|]. cbn in Hd.
  destruct o as [|c o]; [done|]. apply Ascii.eqb_eq in Hd as ->. by exists o.
Qed.

Lemma parse_optional_explicit actions o a text :
  plain_options actions = true → find_option (option_string_actions actions) o = Some a →
  parse_optional actions (o +:+ "=" +:+ text) = Ok (Some (Some a, o, Some text)).
Proof.
  intros Hp Hf. pose proof (find_option_in _ _ _ Hf) as Hin.
  destruct (plain_option _ _ _ Hp Hin) as [Hh [o' Ho]].
  assert (find_option (option_string_actions actions) (o +:+ "=" +:+ text) = None) as Hnone.
  { apply find_option_none. intros o2 a2 Hin2 ->. destruct (plain_option _ _ _ Hp Hin2) as [Hh2 _].
    rewrite !str_has_app in Hh2. cbn in Hh2. by rewrite orb_true_r in Hh2. }
  assert (py_partition "=" (o +:+ "=" +:+ text) = (o, true, text)) as Hpart
    by (by apply py_partition_app).
  assert (starts_dash (o +:+ "=" +:+ text) = true) as Hd by (by subst o).
  unfold parse_optional. by rewrite Hpart, Hd, Hnone, Hf.
Qed.

Lemma classify_words actions args items : classify actions args = Ok items → fst <$> items = args.
Proof.
  revert items. induction args as [|text args IH]; intros items; cbn [classify]; [by intros [= <-]|].
  case_decide as Hd.
  - intros [= <-]. cbn. f_equal. rewrite <- list_fmap_compose. by apply list_fmap_id.
  - destruct (parse_optional actions text) as [o|e]; [|done]. cbn.
    destruct (classify actions args) as [rest|e]; [|done]. intros [= <-]. cbn. by rewrite (IH rest).
Qed.

Section steps.
Context (prog : string) (actions : list action) (sub_dest : string) (names : list string).
Context (sub : string → option (list string → outcome)).

Abbreviation consume := (consume prog actions sub_dest names sub).
Abbreviation reading := (reading prog actions sub_dest names sub).

Lemma reading_nil p : reading [] p = Ok p.
Proof. unfold ArgParse.reading. cbn. by destruct (pending p). Qed.

(** [--option=value] *)
Lemma reading_explicit o a t choices text v args p :
  plain_options actions = true → find_option (option_string_actions actions) o = Some a →
  kind a = Store t choices → get_values a t choices text = Ok v →
  reading ((o +:+ "=" +:+ text) :: args) p = reading args (set_attr (dest a) v (see a p)).
Proof.
  intros Hp Hf Hk Hv. unfold ArgParse.reading. cbn [classify].
  rewrite decide_False; [|intros Heq]; cycle 1.
  { assert (str_has "=" "--" = true) as Hs by (rewrite <- Heq, !str_has_app; cbn; by rewrite orb_true_r).
    discriminate Hs. }
  rewrite (parse_optional_explicit _ _ _ _ Hp Hf). unfold mbind, res_mbind.
  destruct (classify actions args) as [items|e]; [|done]. cbn [ArgParse.consume starts_argument].
  rewrite andb_false_r.
  assert (takes_argument a = true) as Ha by (unfold takes_argument; by rewrite Hk).
  assert (joined_options actions a o text = Ok ([], (a, Some text))) as ->
    by (destruct text; cbn; by rewrite Ha).
  unfold take_actions, take_action, mbind, res_mbind. cbn. by rewrite Hk, Hv.
Qed.

(** A flag. *)
Lemma reading_flag o a args p :
  o ≠ "--" → starts_dash o = true → find_option (option_string_actions actions) o = Some a → kind a = StoreTrue →
  reading (o :: args) p = reading args (set_attr (dest a) (VBool true) (see a p)).
Proof.
  intros Ho Hd Hf Hk. unfold ArgParse.reading. cbn [classify]. rewrite decide_False by done.
  assert (parse_optional actions o = Ok (Some (Some a, o, None))) as ->.
  { unfold parse_optional. destruct (py_partition "=" o) as [[? ?] ?]. by rewrite Hd, Hf. }
  unfold mbind, res_mbind. destruct (classify actions args) as [items|e]; [|done].
  cbn [ArgParse.consume starts_argument]. rewrite andb_false_r.
  unfold takes_argument, take_actions, take_action, mbind, res_mbind. rewrite Hk. cbn. by rewrite Hk.
Qed.

(** The name of a subparser, which reads the rest. *)
Lemma reading_sub word args items p :
  word ≠ "--" → parse_optional actions word = Ok None → classify actions args = Ok items →
  pending p = true → reading (word :: args) p = take_subparser prog sub_dest names sub (word :: args) p.
Proof.
  intros Hw Hn Hi Hp. unfold ArgParse.reading. cbn [classify]. rewrite decide_False by done.
  rewrite Hn, Hi. unfold mbind, res_mbind. cbn [ArgParse.consume starts_argument fst fmap list_fmap].
  rewrite Hp. cbn. by rewrite (classify_words _ _ _ Hi).
Qed.
End steps.

(** ** What a run comes to *)

Lemma option_tuples_in actions text a o e :
  (a, o, e) ∈ get_option_tuples actions text → a ∈ actions.
Proof.
  assert (∀ o a, (o, a) ∈ option_string_actions actions → a ∈ actions) as Hin
    by (intros o1 a1 [Ho _]%option_string_in; exact Ho).
  unfold get_option_tuples. destruct text as [|c0 [|c1 rest]]; [by intros []%elem_of_nil..|].
  destruct (Ascii.eqb c1 "-").
  - destruct (py_partition _ _) as [[prefix found] r].
    intros ([o1 a1] & [= -> -> ->] & [_ Ho]%list_elem_of_filter)%list_elem_of_fmap. by eapply Hin.
  - intros ([o1 a1] & Ho & Hf)%list_elem_of_omap. apply Hin in Ho.
    by repeat case_match; simplify_eq.
Qed.

Lemma find_option_action actions o a : find_option (option_string_actions actions) o = Some a → a ∈ actions.
Proof. intros Ho%find_option_in%option_string_in. exact (proj1 Ho). Qed.

Lemma parse_optional_in actions text a o e :
  parse_optional actions text = Ok (Some (Some a, o, e)) → a ∈ actions.
Proof.
  unfold parse_optional. destruct (py_partition "=" text) as [[o1 found] explicit].
  destruct (starts_dash text); cbn; [|done].
  destruct (find_option _ text) as [a1|] eqn:Hk; [intros [= <- _ _]; by eapply find_option_action|].
  destruct (if found then _ else _) as [a1|] eqn:Hk2.
  { intros [= <- _ _]. destruct found; [by eapply find_option_action|done]. }
  case_decide; [done|].
  destruct (get_option_tuples actions text) as [|[[a1 o2] e1] [|]] eqn:Ht;
    [by destruct (negative_number text || str_has " " text)| |done].
  intros [= -> -> ->]. apply (option_tuples_in _ text a o e). rewrite Ht. by left.
Qed.

(** The options among classified arguments are actions of the parser. *)
Definition known_options (actions : list action) (items : list (string * arg_class)) : Prop :=
  Forall (λ i, ∀ a o e, snd i = ClassOption (Some a, o, e) → a ∈ actions) items.

Lemma classify_known actions args items : classify actions args = Ok items → known_options actions items.
Proof.
  revert items. induction args as [|text args IH]; intros items; cbn [classify].
  { intros [= <-]. apply Forall_nil_2. }
  case_decide.
  - intros [= <-]. apply Forall_cons. split; [done|]. apply Forall_fmap, Forall_true. by intros.
  - destruct (parse_optional actions text) as [o|e] eqn:Ho; [|done]. unfold mbind, res_mbind.
    destruct (classify actions args) as [rest|e]; [|done]. intros [= <-].
    apply Forall_cons. split; [|by apply IH]. intros a o1 e. cbn. destruct o as [t|]; [|done].
    intros [= ->]. by eapply parse_optional_in.
Qed.

Lemma joined_in actions a o e flags last :
  a ∈ actions → joined_options actions a o e = Ok (flags, last) →
  Forall (λ t, fst t ∈ actions) (flags ++ [last]).
Proof.
  revert a o flags last. induction e as [|c e IH]; intros a o flags last Ha; cbn [joined_options].
  { destruct (takes_argument a).
    - intros [= <- <-]. by apply Forall_singleton.
    - by destruct o as [|? [|? ?]]. }
  destruct (takes_argument a); [intros [= <- <-]; by apply Forall_singleton|].
  destruct o as [|c0 [|c1 o]]; [done..|]. destruct (Ascii.eqb c1 "-"); [done|].
  destruct (find_option _ _) as [a'|] eqn:Hf; [|done]. apply find_option_action in Hf.
  unfold mbind, res_mbind. destruct (str_empty e).
  - intros [= <- <-]. by repeat constructor.
  - destruct (joined_options actions a' _ e) as [[flags' last']|] eqn:Hj; [|done].
    intros [= <- <-]. cbn. constructor; [done|]. by eapply IH.
Qed.

Section runs.
Context (prog : string) (actions : list action) (sub_dest : string) (names : list string).
Context (sub : string → option (list string → outcome)).
Context (R : relation progress) `{!PreOrder R}.
Context (Hact : ∀ p a text p', a ∈ actions → take_action prog p (a, text) = Ok p' → R p p').
Context (Hextras : ∀ p l, R p (add_extras l p)).

Lemma take_actions_respect l p p' :
  Forall (λ t, fst t ∈ actions) l → take_actions prog p l = Ok p' → R p p'.
Proof.
  intros Hl. revert p. induction Hl as [|[a text] l Ha _ IH]; intros p; cbn [take_actions].
  { by intros [= <-]. }
  unfold mbind, res_mbind. destruct (take_action prog p (a, text)) as [p1|] eqn:Hp; [|done].
  intros Hr%IH. etransitivity; [by eapply Hact|done].
Qed.

(** Where a run stops: at the end, or where a subparser reads the rest. *)
Definition stops (p p' : progress) : Prop :=
  R p p' ∨ ∃ p1 args, R p p1 ∧ pending p1 = true ∧
    take_subparser prog sub_dest names sub args p1 = Ok p' ∧ args ≠ [].

(** What every action respects a run respects up to there. *)
Lemma consume_respects items p p' :
  known_options actions items → consume prog actions sub_dest names sub items p = Ok p' →
  stops p p'.
Proof.
  remember (length items) as n eqn:Hn. revert items Hn p.
  induction (lt_wf n) as [n _ IH]. intros items -> p Hin.
  destruct (pending p && starts_argument items) eqn:Hsub.
  { destruct items as [|[text c] items]; [by rewrite andb_false_r in Hsub|].
    cbn [consume]. rewrite Hsub. apply andb_true_iff in Hsub as [Hp _]. intros Hr. right.
    exists p, (fst <$> (text, c) :: items). by split_and!. }
  assert (∀ items' p1, R p p1 → known_options actions items' → length items' < length items →
    consume prog actions sub_dest names sub items' p1 = Ok p' → stops p p') as Hgo.
  { intros items' p1 Hp Hk Hlen Hr. destruct (IH _ Hlen items' eq_refl p1 Hk Hr) as [Hr1|(p2 & args & Hr1 & Hrest)].
    - left. by etransitivity.
    - right. exists p2, args. split; [by etransitivity|done]. }
  assert (∀ l items', Forall (λ t, fst t ∈ actions) l → known_options actions items' →
    length items' < length items →
    (p1 ← take_actions prog p l; consume prog actions sub_dest names sub items' p1) = Ok p' →
    stops p p') as Htake.
  { intros l items' Hl Hk Hlen. unfold mbind, res_mbind.
    destruct (take_actions prog p l) as [p1|] eqn:Hp; [|done]. apply (take_actions_respect _ _ _ Hl) in Hp.
    by apply Hgo. }
  destruct items as [|[text c] items]; [cbn; destruct (pending p); intros [= <-]; by left|].
  apply Forall_cons in Hin as [Ha Hin]. cbn [consume]. rewrite Hsub.
  destruct c as [| |[[[a|] o] explicit]]; try (apply Hgo; [apply Hextras|done|cbn; lia]).
  specialize (Ha a o explicit eq_refl).
  assert (∀ flags last text', Forall (λ t, fst t ∈ actions) (flags ++ [(last, text')]) →
    match text', takes_argument last, items with
    | None, true, (text, ClassArgument) :: items'' =>
        p' ← take_actions prog p (flags ++ [(last, Some text)]);
        consume prog actions sub_dest names sub items'' p'
    | None, true, _ => Err (ExitError prog (ExpectedOneArgument (action_name last)))
    | _, _, _ => p' ← take_actions prog p (flags ++ [(last, text')]); consume prog actions sub_dest names sub items p'
    end = Ok p' → stops p p') as Hlast.
  { intros flags last text' Hl. destruct text' as [t|]; [by apply Htake; [..|cbn; lia]|].
    destruct (takes_argument last); [|by apply Htake; [..|cbn; lia]].
    destruct items as [|[t []] items'']; [done..| |done]. apply Forall_cons in Hin as [_ Hin].
    apply Htake; [|done|cbn; lia]. apply Forall_app in Hl as [Hf Hl]. apply Forall_app. split; [done|].
    apply Forall_cons in Hl as [Hl _]. by apply Forall_cons. }
  destruct explicit as [e|]; unfold mbind at 1, res_mbind at 1.
  - destruct (joined_options actions a o e) as [[flags [last t]]|] eqn:Hj; [|done].
    apply Hlast. by eapply joined_in.
  - apply (Hlast [] a None). by apply Forall_singleton.
Qed.
End runs.

(** Attributes that no option sets. *)
Definition other_attrs (actions : list action) (p p' : progress) : Prop :=
  pending p' = pending p ∧ ∀ k, k ∉ dest <$> actions → attrs p' !! k = attrs p !! k.

#[local] Instance other_attrs_preorder actions : PreOrder (other_attrs actions).
Proof.
  split; [by intros p|]. intros p1 p2 p3 [H12 H12'] [H23 H23']. split; [congruence|].
  intros k Hk. by rewrite H23', H12'.
Qed.

Lemma take_action_others prog actions p a text p' :
  a ∈ actions → take_action prog p (a, text) = Ok p' → other_attrs actions p p'.
Proof.
  intros Ha Hr. assert (∀ v, other_attrs actions p (set_attr (dest a) v (see a p))) as Hset.
  { intros v. split; [done|]. intros k Hk. apply lookup_insert_ne. intros <-. apply Hk.
    by apply list_elem_of_fmap_2. }
  unfold take_action in Hr. destruct (kind a), text; repeat case_match; simplify_eq; done.
Qed.

Lemma finish_others prog actions sub_dest acts missing p m unknown :
  acts ⊆ actions → finish prog sub_dest acts missing p = Ok (m, unknown) →
  pending p = false ∧ ∀ k, k ∉ dest <$> actions → m !! k = attrs p !! k.
Proof.
  revert missing p. induction acts as [|a acts IH]; intros missing p Hin; cbn [finish].
  { destruct (pending p); [by destruct missing|]. destruct (missing ++ []); [|done]. by intros [= <- _]. }
  assert (acts ⊆ actions) as Hin' by (intros x Hx; apply Hin; by right).
  repeat case_match; intros Hf; try done; try by eapply IH.
  apply IH in Hf as [Hp Hf]; [|done]. split; [done|]. intros k Hk. rewrite Hf by done.
  apply lookup_insert_ne. intros <-. apply Hk, list_elem_of_fmap_2, Hin. by left.
Qed.

Lemma defaults_others actions sub_dest names k :
  k ∉ dest <$> actions →
  defaults actions sub_dest names !! k =
    if decide (names = []) then None else if decide (sub_dest = k) then Some VNone else None.
Proof.
  unfold defaults. induction actions as [|a actions IH]; cbn [foldr fmap list_fmap].
  - intros _. case_decide; [done|]. case_decide as Hs; [by rewrite Hs, lookup_insert_eq|].
    by rewrite lookup_insert_ne, lookup_empty.
  - intros [Ha Hk]%not_elem_of_cons. destruct (kind a); try rewrite lookup_insert_ne by done; by apply IH.
Qed.

(** A parser with subparsers succeeds through one of them, and has its
    attributes besides those of the options. *)
Lemma parse_with_sub prog actions sub_dest names sub args m unknown :
  names ≠ [] → parse_with prog actions sub_dest names sub args = Ok (m, unknown) →
  ∃ word rest parse values unknown', sub word = Some parse ∧ parse rest = Ok (values, unknown') ∧
    ∀ k, k ∉ dest <$> actions → m !! k = (values ∪ {[sub_dest := VStr word]} : attributes) !! k.
Proof.
  intros Hn. unfold parse_with, reading, mbind at 1, res_mbind.
  destruct (classify actions args) as [items|] eqn:Hc; [|done]. apply classify_known in Hc.
  destruct (consume _ _ _ _ _ _ _) as [p|] eqn:Hr; [|done]. intros [Hpend Hf]%(finish_others _ actions); [|done].
  apply (consume_respects _ _ _ _ _ (other_attrs actions)) in Hr as [[Hp _]|(p1 & l & [_ Hk] & _ & Hs & Hl)];
    [| |intros; by eapply take_action_others|by intros p0 l|done].
  - cbn in Hp. rewrite bool_decide_false in Hp by done. cbn in Hp. congruence.
  - destruct l as [|word rest]; [done|]. cbn in Hs. destruct (sub word) as [parse|] eqn:Hw; [|done].
    unfold mbind, res_mbind in Hs. destruct (parse rest) as [[values unknown']|] eqn:Hv; [|done].
    injection Hs as <-. exists word, rest, parse, values, unknown'. split; [done|]. split; [done|].
    intros k Hkd. rewrite Hf by done. cbn [attrs]. rewrite !lookup_union.
    destruct (values !! k); [by destruct (<[_:=_]> (attrs p1) !! k), ({[_:=_]} !! k)|].
    rewrite !(left_id None _). destruct (decide (sub_dest = k)) as [<-|Hd].
    { by rewrite lookup_insert_eq, lookup_singleton_eq. }
    rewrite lookup_insert_ne, lookup_singleton_ne by done. rewrite Hk by done. cbn [attrs].
    rewrite defaults_others by done. by rewrite !decide_False.
Qed.

(** A parser without subparsers has no attributes but those of its options. *)
Lemma parse_with_none prog actions sub_dest sub args m unknown k :
  parse_with prog actions sub_dest [] sub args = Ok (m, unknown) → k ∉ dest <$> actions → m !! k = None.
Proof.
  unfold parse_with, reading, mbind at 1, res_mbind.
  destruct (classify actions args) as [items|] eqn:Hc; [|done]. apply classify_known in Hc.
  destruct (consume _ _ _ _ _ _ _) as [p|] eqn:Hr; [|done]. intros [Hpend Hf]%(finish_others _ actions) Hk; [|done].
  rewrite Hf by done.
  apply (consume_respects _ _ _ _ _ (other_attrs actions)) in Hr as [[_ Hp]|(p1 & l & [Hp _] & Ht & _)];
    [| |intros; by eapply take_action_others|by intros p0 l|done].
  - rewrite Hp by done. cbn [attrs]. rewrite defaults_others by done. by rewrite decide_True.
  - cbn in Hp. congruence.
Qed.

(** The values an option's attribute can have: the default, converted if it is
    a text, or what the command line gives. *)
Definition fits (a : action) (v : arg_value) : Prop :=
  v = default_value a ∨
  match kind a with
  | Store t choices =>
      v = VEmptyList ∨ (∃ text, default_value a = VStr text ∧ convert t text = Some v) ∨
      ∃ text, convert t text = Some v ∧ ∀ l, choices = Some l → text ∈ l
  | StoreTrue => v = VBool true
  | Help => False
  end.

Section typed.
Context (actions : list action) (Hdest : NoDup (dest <$> actions)).

Definition typed (p : progress) : Prop :=
  ∀ a, a ∈ actions → kind a ≠ Help → ∃ v, attrs p !! dest a = Some v ∧ fits a v.

Lemma dest_inj a b : a ∈ actions → b ∈ actions → dest a = dest b → a = b.
Proof.
  clear - Hdest. revert Hdest. induction actions as [|c l IH]; cbn; [by intros _ []%elem_of_nil|].
  intros [Hc Hl]%NoDup_cons. intros [->|Ha]%elem_of_cons [->|Hb]%elem_of_cons Heq; [done| | |by apply IH].
  - destruct Hc. rewrite Heq. by apply list_elem_of_fmap_2.
  - destruct Hc. rewrite <- Heq. by apply list_elem_of_fmap_2.
Qed.

Lemma set_typed a v p : a ∈ actions → fits a v → typed p → typed (set_attr (dest a) v p).
Proof.
  intros Ha Hv Hp b Hb Hk. cbn [attrs set_attr]. destruct (decide (dest a = dest b)) as [Heq|Hne].
  - rewrite (dest_inj _ _ Ha Hb Heq) in Hv. rewrite Heq, lookup_insert_eq. by exists v.
  - rewrite lookup_insert_ne by done. by apply Hp.
Qed.

Lemma get_values_fits a t choices text v :
  kind a = Store t choices → get_values a t choices text = Ok v → fits a v.
Proof.
  intros Hk. unfold get_values, get_value, check_choice, mbind, res_mbind, fits. rewrite Hk.
  case_decide; [intros [= <-]; auto|]. destruct (convert t text) as [v'|] eqn:Hc; [|done].
  destruct choices as [l|]; [case_decide as Hl; [|done]|]; intros [= <-]; right; right; right;
    exists text; (split; [done|]); [by intros ? [= <-]|done].
Qed.

Lemma take_action_typed prog p a text p' :
  a ∈ actions → take_action prog p (a, text) = Ok p' → typed p → typed p'.
Proof.
  intros Ha Hr Hp. assert (typed (see a p)) as Hs by exact Hp.
  unfold take_action in Hr. destruct (kind a) as [t choices| |] eqn:Hk; [|injection Hr as <-|done].
  - destruct text as [text|]; [|done]. destruct (get_values a t choices text) as [v|] eqn:Hv; [|done].
    injection Hr as <-. apply set_typed; [done| |done]. by eapply get_values_fits.
  - apply set_typed; [done| |done]. unfold fits. rewrite Hk. by right.
Qed.

Lemma finish_typed prog sub_dest acts missing p m unknown :
  acts ⊆ actions → typed p → finish prog sub_dest acts missing p = Ok (m, unknown) →
  typed (mkProgress m [] false [] []).
Proof.
  revert missing p. induction acts as [|a acts IH]; intros missing p Hin Hp; cbn [finish].
  { destruct (missing ++ _); [|done]. by intros [= <- _]. }
  assert (acts ⊆ actions) as Hin' by (intros x Hx; apply Hin; by right).
  assert (a ∈ actions) as Ha by (apply Hin; by left).
  case_decide; [by apply IH|]. destruct (required a); [by apply IH|].
  destruct (kind a) as [t choices| |] eqn:Hk; [|by apply IH..].
  destruct (default_value a) as [| |text| | |] eqn:Hd; try by apply IH.
  case_decide; [|by apply IH]. unfold get_value.
  destruct (convert t text) as [v|] eqn:Hc; [|done]. apply IH; [done|]. apply set_typed; [done| |done].
  unfold fits. rewrite Hk. right. right. left. by exists text.
Qed.

(** The attributes of a parser without subparsers. *)
Lemma parse_with_typed prog sub_dest sub args m unknown a :
  parse_with prog actions sub_dest [] sub args = Ok (m, unknown) → a ∈ actions → kind a ≠ Help →
  ∃ v, m !! dest a = Some v ∧ fits a v.
Proof.
  unfold parse_with, reading, mbind at 1, res_mbind.
  destruct (classify actions args) as [items|] eqn:Hc; [|done]. apply classify_known in Hc.
  destruct (consume _ _ _ _ _ _ _) as [p|] eqn:Hr; [|done]. intros Hf Ha Hk.
  assert (typed (mkProgress (defaults actions sub_dest []) [] false [] [])) as Hstart.
  { clear - Hdest. intros a Ha Hk. exists (default_value a). split; [|by left]. cbn [attrs]. unfold defaults.
    revert Hdest Ha. induction actions as [|b l IH]; cbn [foldr fmap list_fmap]; [by intros _ []%elem_of_nil|].
    intros [Hb Hl]%NoDup_cons [->|Ha]%elem_of_cons.
    - destruct (kind b); [by rewrite lookup_insert_eq..|done].
    - destruct (decide (dest b = dest a)) as [Heq|]; [|destruct (kind b); try rewrite lookup_insert_ne by done; by apply IH].
      destruct Hb. rewrite Heq. by apply list_elem_of_fmap_2. }
  set (R := λ p p' : progress, (typed p → typed p') ∧ pending p' = pending p).
  assert (PreOrder R) as Hpre.
  { split; [by intros p0|]. intros p1 p2 p3 [] []. split; [auto|congruence]. }
  assert (∀ q a text q', a ∈ actions → take_action prog q (a, text) = Ok q' → R q q') as Hact.
  { intros q b text q' Hb Hq. split; [by eapply take_action_typed|].
    exact (proj1 (take_action_others _ _ _ _ _ _ Hb Hq)). }
  apply (consume_respects _ _ _ _ _ R) in Hr as [[Hp _]|(p1 & l & [_ Hp] & Ht & _)];
    [|cbn in Hp; congruence|done|by intros q l|done].
  eapply finish_typed in Hf; [|done|by apply Hp]. by apply Hf.
Qed.
End typed.

(** ** Parsers *)

Fixpoint find_parser (l : list (string * parser)) (name : string) : option parser :=
  match l with
  | [] => None
  | (n, q) :: l' => if decide (n = name) then Some q else find_parser l' name
  end.

Lemma find_parser_in l name q : find_parser l name = Some q → (name, q) ∈ l.
Proof.
  induction l as [|[n q'] l IH]; cbn; [done|]. case_decide as Hn.
  - intros [= ->]. rewrite Hn. by left.
  - intros Hf%IH. by right.
Qed.

Lemma parse_known_unfold prog actions sub_dest subparsers args :
  ∃ sub, parse_known_args (Parser prog actions sub_dest subparsers) args =
      parse_with prog actions sub_dest (fst <$> subparsers) sub args ∧
    ∀ word, sub word = parse_known_args <$> find_parser subparsers word.
Proof.
  eexists. split; [reflexivity|]. induction subparsers as [|[n q] l IH]; [done|].
  intros word. cbn. case_decide; [done|apply IH].
Qed.

Lemma parse_known_sub prog actions sub_dest subparsers args m unknown :
  subparsers ≠ [] → parse_known_args (Parser prog actions sub_dest subparsers) args = Ok (m, unknown) →
  ∃ word q rest values unknown', (word, q) ∈ subparsers ∧ parse_known_args q rest = Ok (values, unknown') ∧
    ∀ k, k ∉ dest <$> actions → m !! k = (values ∪ {[sub_dest := VStr word]} : attributes) !! k.
Proof.
  intros Hn. destruct (parse_known_unfold prog actions sub_dest subparsers args) as (sub & -> & Hsub).
  intros Hr. apply parse_with_sub in Hr as (word & rest & parse & values & u & Hw & Hr & Hk); [|by destruct subparsers].
  rewrite Hsub in Hw. apply fmap_Some in Hw as (q & Hin%find_parser_in & ->).
  by exists word, q, rest, values, u.
Qed.

Lemma parse_known_none prog actions sub_dest args m unknown k :
  parse_known_args (Parser prog actions sub_dest []) args = Ok (m, unknown) → k ∉ dest <$> actions → m !! k = None.
Proof.
  destruct (parse_known_unfold prog actions sub_dest [] args) as (sub & -> & _). apply parse_with_none.
Qed.

Lemma parse_known_typed prog actions sub_dest args m unknown a :
  NoDup (dest <$> actions) → parse_known_args (Parser prog actions sub_dest []) args = Ok (m, unknown) →
  a ∈ actions → kind a ≠ Help → ∃ v, m !! dest a = Some v ∧ fits a v.
Proof.
  intros Hd. destruct (parse_known_unfold prog actions sub_dest [] args) as (sub & -> & _).
  by apply parse_with_typed.
Qed.

Lemma parse_args_ok p args m : parse_args p args = Ok m → parse_known_args p args = Ok (m, []).
Proof.
  unfold parse_args, mbind, res_mbind. destruct (parse_known_args p args) as [[m' [|u unknown]]|]; [|by destruct p|done].
  by intros [= <-].
Qed.

(** An argument that could be no option of the parser is not refused there. *)
Lemma classify_other actions text :
  get_option_tuples actions text = [] → ∃ items, classify actions [text] = Ok items.
Proof.
  intros Ht. cbn [classify]. case_decide; [by eexists|]. unfold mbind, res_mbind, parse_optional.
  destruct (py_partition "=" text) as [[o found] explicit].
  destruct (starts_dash text); cbn; [|by eexists]. rewrite Ht.
  repeat case_match; simplify_eq; by eexists.
Qed.
End facts.

(** ** A parser of options with defaults *)

Section options.
Context `{FloatLiteral}.

(** What an option that may be given does to the run. *)
Definition if_given (a : action) (v : option arg_value) (p : progress) : progress :=
  match v with Some v => set_attr (dest a) v (see a p) | None => p end.

Lemma attrs_given_same a v p k :
  dest a = k → attrs (if_given a v p) !! k = match v with Some v => Some v | None => attrs p !! k end.
Proof. intros <-. destruct v as [v|]; [|done]. cbn. by rewrite lookup_insert_eq. Qed.

Lemma attrs_given_other a v p k : dest a ≠ k → attrs (if_given a v p) !! k = attrs p !! k.
Proof. intros Hk. destruct v as [v|]; [|done]. cbn. by rewrite lookup_insert_ne. Qed.

Lemma pending_if_given a v p : pending (if_given a v p) = pending p.
Proof. by destruct v. Qed.
(** The words of such an option. *)
Definition given_words {A} (o : string) (text : A → string) (given : option A) : list string :=
  option_list ((λ x, o +:+ "=" +:+ text x) <$> given).

Lemma reading_given {A} prog actions sub_dest names sub o a t choices (text : A → string)
    (value : A → arg_value) given args p :
  plain_options actions = true → find_option (option_string_actions actions) o = Some a →
  kind a = Store t choices → (∀ x, given = Some x → get_values a t choices (text x) = Ok (value x)) →
  reading prog actions sub_dest names sub (given_words o text given ++ args) p =
    reading prog actions sub_dest names sub args (if_given a (value <$> given) p).
Proof.
  intros Hp Hf Hk Hv. destruct given as [x|]; [|done]. cbn.
  by apply (reading_explicit _ _ _ _ _ _ _ t choices); [..|apply Hv].
Qed.

(** At the end nothing is missing and no default changes. *)
Lemma finish_keeps prog sub_dest actions p :
  Forall (λ a, required a = false ∧ ∀ t choices text, kind a = Store t choices → default_value a = VStr text →
                 t = TypeStr) actions →
  pending p = false →
  ∃ m, finish prog sub_dest actions [] p = Ok (m, extras p ++ sub_extras p) ∧ ∀ k, m !! k = attrs p !! k.
Proof.
  intros Hall. revert p. induction Hall as [|a actions [Hr Ht] _ IH]; intros p Hp; cbn [finish].
  { rewrite Hp. by exists (attrs p). }
  case_decide; [by apply IH|]. rewrite Hr.
  destruct (kind a) as [t choices| |] eqn:Hk; [|by apply IH..].
  destruct (default_value a) as [| |text| | |] eqn:Hd; try by apply IH.
  case_decide as Hdef; [|by apply IH]. rewrite (Ht t choices text eq_refl eq_refl). cbn.
  destruct (IH (set_attr (dest a) (VStr text) p) Hp) as (m & -> & Hm). exists m. split; [done|].
  intros k. rewrite Hm. cbn. rewrite lookup_insert. case_decide as Hd2; [|done]. by rewrite <- Hd2.
Qed.
End options.
