(* ===== verification/Types.v ===== *)
(** * Configuration models

    [types.py]: the external-facing pydantic models.  A record holds the
    fields; the [Field(...)] constraints and the [model_validator] of a class
    are the boolean [*_ok], which pydantic evaluates when an instance is
    built. *)

From S2P Require Import Prelude PyStr Errors.
#[local] Open Scope Z_scope.

Inductive ControllerState : Type :=
| CS_stopped | CS_starting | CS_running | CS_degraded | CS_reconciling | CS_stopping | CS_failed.

Inductive DatapathState : Type :=
| DS_starting | DS_running | DS_paused | DS_degraded | DS_stopping | DS_failed.

Inductive RuleProtocol : Type := proto_tcp | proto_udp | proto_icmp | proto_any.
Inductive RuleActionType : Type := act_forward | act_drop | act_count | act_mirror.
Inductive PortRole : Type := ingress | egress.

#[export] Instance ControllerState_eq_dec : EqDecision ControllerState.
Proof. solve_decision. Defined.
#[export] Instance DatapathState_eq_dec : EqDecision DatapathState.
Proof. solve_decision. Defined.
#[export] Instance RuleProtocol_eq_dec : EqDecision RuleProtocol.
Proof. solve_decision. Defined.
#[export] Instance RuleActionType_eq_dec : EqDecision RuleActionType.
Proof. solve_decision. Defined.
#[export] Instance PortRole_eq_dec : EqDecision PortRole.
Proof. solve_decision. Defined.

Record RuleMatchModel : Type := mkRuleMatch {
  match_proto : option RuleProtocol;
  match_src_ip : option string;
  match_dst_ip : option string;
  match_src_cidr : option string;
  match_dst_cidr : option string;
  match_src_port : option Z;
  match_dst_port : option Z;
}.

Record RuleActionModel : Type := mkRuleAction {
  action_type : RuleActionType;
  action_port : option string;
}.

(** [RuleActionModel.validate_port_requirement] *)
Definition validate_port_requirement (a : RuleActionModel) : res pyexn RuleActionModel :=
  if bool_decide (action_type a ∈ [act_forward; act_mirror])
     && match action_port a with None => true | Some p => str_empty p end
  then Err PydanticValidationError
  else if bool_decide (action_type a ∈ [act_drop; act_count]) && bool_decide (is_Some (action_port a))
  then Err PydanticValidationError
  else Ok a.

Definition RuleActionModel_ok (a : RuleActionModel) : bool :=
  match validate_port_requirement a with Ok _ => true | Err _ => false end.

(** [Field(default=None, ge=lo)] and [Field(default=None, ge=lo, le=hi)] *)
Definition ge_opt (lo : Z) (o : option Z) : bool :=
  match o with None => true | Some z => lo <=? z end.
Definition in_range_opt (lo hi : Z) (o : option Z) : bool :=
  match o with None => true | Some z => (lo <=? z) && (z <=? hi) end.

Definition RuleMatchModel_ok (m : RuleMatchModel) : bool :=
  in_range_opt 0 65535 (match_src_port m) && in_range_opt 0 65535 (match_dst_port m).

Record RuleModel : Type := mkRule {
  rule_id : Z;
  rule_priority : Z;
  rule_match : RuleMatchModel;
  rule_action : RuleActionModel;
}.

Definition RuleModel_ok (r : RuleModel) : bool :=
  (0 <=? rule_id r) && (0 <=? rule_priority r)
  && RuleMatchModel_ok (rule_match r) && RuleActionModel_ok (rule_action r).

Record RulesetModel : Type := mkRuleset {
  ruleset_version : Z;
  ruleset_default_action : RuleActionModel;
  ruleset_entries : list RuleModel;
}.

Definition RulesetModel_ok (r : RulesetModel) : bool :=
  (0 <=? ruleset_version r) && RuleActionModel_ok (ruleset_default_action r)
  && forallb RuleModel_ok (ruleset_entries r).

Record CapturePointModel : Type := mkCapturePoint {
  capture_name : string;
  capture_namespace : string;
  capture_interface : string;
}.

Definition CapturePointModel_ok (c : CapturePointModel) : bool :=
  negb (str_empty (capture_name c)) && negb (str_empty (capture_namespace c))
  && negb (str_empty (capture_interface c)).

Record LabModel : Type := mkLab { lab_name : string }.
Record NamespaceModel : Type := mkNamespace { namespace_name : string }.

Definition LabModel_ok (l : LabModel) : bool := negb (str_empty (lab_name l)).
Definition NamespaceModel_ok (n : NamespaceModel) : bool := negb (str_empty (namespace_name n)).

Record LinkModel : Type := mkLink {
  link_name : string;
  link_a : string;
  link_b : string;
  link_ip_a : option string;
  link_ip_b : option string;
}.

Definition LinkModel_ok (l : LinkModel) : bool :=
  negb (str_empty (link_name l)) && negb (str_empty (link_a l)) && negb (str_empty (link_b l)).

Record DpdkPortModel : Type := mkDpdkPort {
  port_name : string;
  port_namespace : string;
  port_role : PortRole;
}.

Definition DpdkPortModel_ok (p : DpdkPortModel) : bool :=
  negb (str_empty (port_name p)) && negb (str_empty (port_namespace p)).

Record RouteModel : Type := mkRoute {
  route_namespace : string;
  route_dst : string;
  route_via : string;
}.

Definition RouteModel_ok (r : RouteModel) : bool :=
  negb (str_empty (route_namespace r)) && negb (str_empty (route_dst r))
  && negb (str_empty (route_via r)).

Record DpdkProcessConfigModel : Type := mkDpdkProcessConfig {
  req_namespace : string;
  req_lcores : option string;
  req_hugepages_mb : option Z;
  req_burst_size : option Z;
  req_rx_queue_size : option Z;
  req_tx_queue_size : option Z;
  req_mempool_size : option Z;
}.

(** The constraints [DpdkProcessConfigModel] declares. *)
Definition DpdkProcessConfigModel_ok (m : DpdkProcessConfigModel) : bool :=
  negb (str_empty (req_namespace m))
  && ge_opt 2 (req_hugepages_mb m)
  && ge_opt 1 (req_burst_size m)
  && ge_opt 1 (req_rx_queue_size m)
  && ge_opt 1 (req_tx_queue_size m)
  && ge_opt 1 (req_mempool_size m).

(** [hugepage_size_mb] is the literal 2 and carries no information. *)
Record EffectiveDpdkRuntimeModel : Type := mkEffective {
  eff_lcores : string;
  eff_lcore_count : Z;
  eff_hugepages_mb : Z;
  eff_burst_size : Z;
  eff_rx_queue_size : Z;
  eff_tx_queue_size : Z;
  eff_mempool_size : Z;
  eff_port_count : Z;
}.

(** The constraints [EffectiveDpdkRuntimeModel] declares. *)
Definition EffectiveDpdkRuntimeModel_ok (m : EffectiveDpdkRuntimeModel) : bool :=
  negb (str_empty (eff_lcores m))
  && (1 <=? eff_lcore_count m)
  && (2 <=? eff_hugepages_mb m) && (eff_hugepages_mb m mod 2 =? 0)
  && (1 <=? eff_burst_size m)
  && (1 <=? eff_rx_queue_size m)
  && (1 <=? eff_tx_queue_size m)
  && (1 <=? eff_mempool_size m)
  && (1 <=? eff_port_count m).

(** [EffectiveDpdkRuntimeModel(...)] *)
Definition new_EffectiveDpdkRuntimeModel (m : EffectiveDpdkRuntimeModel)
    : res pyexn EffectiveDpdkRuntimeModel :=
  if EffectiveDpdkRuntimeModel_ok m then Ok m else Err PydanticValidationError.

Record ControllerProcessConfigModel : Type := mkControllerProcessConfig {
  rest_listen : option string;
  metrics_listen : option string;
}.

Record ProcessesModel : Type := mkProcesses {
  processes_dpdkd : DpdkProcessConfigModel;
  processes_ctrld : option ControllerProcessConfigModel;
}.

Record TopologyConfigModel : Type := mkTopologyConfig {
  config_lab : LabModel;
  config_processes : ProcessesModel;
  config_namespaces : list NamespaceModel;
  config_links : list LinkModel;
  config_dpdk_ports : list DpdkPortModel;
  config_routes : list RouteModel;
  config_rules : RulesetModel;
  config_capture_points : list CapturePointModel;
}.

Definition TopologyConfigModel_ok (c : TopologyConfigModel) : bool :=
  LabModel_ok (config_lab c)
  && DpdkProcessConfigModel_ok (processes_dpdkd (config_processes c))
  && forallb NamespaceModel_ok (config_namespaces c)
  && forallb LinkModel_ok (config_links c)
  && forallb DpdkPortModel_ok (config_dpdk_ports c)
  && forallb RouteModel_ok (config_routes c)
  && RulesetModel_ok (config_rules c)
  && forallb CapturePointModel_ok (config_capture_points c).

#[export] Instance DpdkProcessConfigModel_eq_dec : EqDecision DpdkProcessConfigModel.
Proof. solve_decision. Defined.
#[export] Instance EffectiveDpdkRuntimeModel_eq_dec : EqDecision EffectiveDpdkRuntimeModel.
Proof. solve_decision. Defined.
