(* ===== verification/Issues.v ===== *)
(** * Validation issues

    The part of [config/validation.py] every validator shares: the structured
    issue, the address parsers that report through it and the duplicate-name
    check. *)

From S2P Require Import Prelude PyStr IpAddress Errors Types.
#[local] Open Scope string_scope.

(** [class ValidationIssue] *)
Record ValidationIssue : Type := mkIssue {
  issue_path : string;
  issue_code : string;
  issue_message : string;
}.

#[export] Instance ValidationIssue_eq_dec : EqDecision ValidationIssue.
Proof. solve_decision. Defined.

(** [ValidationIssue.to_dict] *)
Definition issue_to_dict (i : ValidationIssue) : pyval :=
  PyDict [("path", PyStr (issue_path i)); ("code", PyStr (issue_code i));
          ("message", PyStr (issue_message i))].

(** A validator: it may raise, and it appends to [issues]. *)
Abbreviation check := (chk pyexn ValidationIssue).

(** [if issues: raise ValidationError(...)], then [return value]. *)
Definition raise_if_issues {A} (message : string) (code : ErrorCode.t) (m : check A)
    : res pyexn A :=
  match m with
  | Err e => Err e
  | Ok (a, []) => Ok a
  | Ok (_, issues) =>
      Err (PktlabExn (new_ValidationError message code (issue_to_dict <$> issues) []))
  end.

(** [f"{prefix}[{index}]"] *)
Definition at_index (prefix : string) (index : nat) : string :=
  prefix +:+ "[" +:+ str_of_nat index +:+ "]".

(** [_path_with_prefix] *)
Definition _path_with_prefix (path_prefix : option string) (suffix : string) : string :=
  match path_prefix with
  | None | Some "" => suffix
  | Some p => p +:+ "." +:+ suffix
  end.

(** [_collect_duplicate_names]: the loop reports, the set of names is returned
    whatever it reported. *)
Definition duplicate_name_issue {A} (get_name : A → string) (path_prefix : string)
    (index : nat) (item : A) (first_index : nat) : ValidationIssue :=
  mkIssue (at_index path_prefix index +:+ ".name") "duplicate_name"
    (path_prefix +:+ " name '" +:+ get_name item +:+ "' duplicates the entry at index "
     +:+ str_of_nat first_index).

Definition _collect_duplicate_names {A} (get_name : A → string) (items : list A)
    (path_prefix : string) : check (gset string) :=
  chk_foldi
    (distinct_body get_name (duplicate_name_issue get_name path_prefix) (λ _ _, mret ()))
    0 items ∅;;
  mret (list_to_set (get_name <$> items)).

(** ** The parsers *)

(** [_missing_value_issue] *)
Definition _missing_value_issue {A} (path label : string) : check (option A) :=
  emit (mkIssue path "missing_value" (label +:+ " is required"));; mret None.

(** [_parse_interface_ref] *)
Definition _parse_interface_ref (value path : string) : check (option (string * string)) :=
  let '(namespace_name, separator, interface_name) := py_partition ":" value in
  if negb separator || str_empty namespace_name || str_empty interface_name then
    emit (mkIssue path "invalid_interface_ref"
            "interface references must use the '<namespace>:<interface>' form");;
    mret None
  else mret (Some (namespace_name, interface_name)).

(** The common tail of the three address parsers: [ValueError], the
    [isinstance] test, the value. *)
Definition report_ip {V4} (r : ip_result V4) (value path : string)
    (code kind family : string) : check (option V4) :=
  match r with
  | IpError =>
      emit (mkIssue path code ("'" +:+ value +:+ "' is not a valid IPv4 " +:+ kind));; mret None
  | IpV6 =>
      emit (mkIssue path "invalid_address_family"
              ("only IPv4 " +:+ family +:+ " are supported in the MVP"));;
      mret None
  | IpV4 v => mret (Some v)
  end.

(** [_parse_interface_address] *)
Definition _parse_interface_address (value : option string) (path : string)
    : check (option IPv4Interface) :=
  match value with
  | None => mret None
  | Some value =>
      report_ip (ip_interface value) value path
        "invalid_ipv4_interface" "interface with prefix length" "addresses"
  end.

(** [_parse_address] *)
Definition _parse_address (value : option string) (path : string) (optional : bool)
    : check (option Z) :=
  match value with
  | None => if optional then mret None else _missing_value_issue path "IPv4 address"
  | Some value =>
      report_ip (ip_address value) value path "invalid_ipv4_address" "address" "addresses"
  end.

(** [_parse_network] *)
Definition _parse_network (value : option string) (path : string) (optional : bool)
    : check (option IPv4Network) :=
  match value with
  | None => if optional then mret None else _missing_value_issue path "IPv4 network with prefix"
  | Some value =>
      report_ip (ip_network value) value path
        "invalid_ipv4_network" "network with prefix length" "networks"
  end.

(** ** Facts *)

Lemma raise_if_issues_ok {A} msg code (m : check A) a :
  raise_if_issues msg code m = Ok a ↔ clean m a.
Proof. unfold raise_if_issues, clean. destruct m as [[b [|i l]]|e]; naive_solver. Qed.

Lemma clean_collect_duplicate_names {A} (get_name : A → string) items prefix names :
  clean (_collect_duplicate_names get_name items prefix) names ↔
  NoDup (get_name <$> items) ∧ names = list_to_set (get_name <$> items).
Proof.
  unfold _collect_duplicate_names. rewrite clean_seq, clean_distinct_loop.
  rewrite (clean_mret (list_to_set _)). split; [by intros [[? _] <-]|].
  intros [? ->]. split; [|done]. split; [done|]. intros _ _ _. by apply clean_mret.
Qed.

(** No issue has the code [c]. *)
Definition never_code (c : string) (l : list ValidationIssue) : Prop :=
  Forall (λ i, issue_code i ≠ c) l.

(** The reference grammar of an interface reference. *)
Definition is_ref (value ns ifc : string) : Prop :=
  value = ns +:+ String ":" ifc ∧ str_has ":" ns = false ∧ ns ≠ "" ∧ ifc ≠ "".

Lemma str_empty_false s : str_empty s = false ↔ s ≠ "".
Proof. by destruct s. Qed.

Lemma clean_parse_interface_ref value path o :
  clean (_parse_interface_ref value path) o ↔
  ∃ ns ifc, o = Some (ns, ifc) ∧ is_ref value ns ifc.
Proof.
  unfold _parse_interface_ref.
  destruct (py_partition ":" value) as [[ns sep] ifc] eqn:Hp. split.
  - destruct (_ || _ || _) eqn:Hc; [by clean_simpl|].
    apply orb_false_iff in Hc as [Hc Hi]. apply orb_false_iff in Hc as [Hs Hn].
    apply negb_false_iff in Hs as ->. rewrite str_empty_false in Hn, Hi.
    apply py_partition_true in Hp as [-> Hns]. clean_simpl. intros <-.
    exists ns, ifc. done.
  - intros (ns' & ifc' & -> & -> & Hns & Hne & Hie).
    rewrite py_partition_app in Hp by done. simplify_eq.
    apply str_empty_false in Hne as ->, Hie as ->. simpl. by clean_simpl.
Qed.

Lemma clean_report_ip {V4} (r : ip_result V4) value path code kind family o :
  clean (report_ip r value path code kind family) o ↔ ∃ v, o = Some v ∧ r = IpV4 v.
Proof. destruct r; unfold report_ip; clean_simpl; iff_solve. Qed.

(** An optional value parses when it is absent or an IPv4 literal. *)
Definition opt_ip {V4} (parse : string → option V4) (value : option string) (o : option V4) : Prop :=
  match value with
  | None => o = None
  | Some s => ∃ v, o = Some v ∧ parse s = Some v
  end.

Lemma clean_parse_interface_address value path o :
  clean (_parse_interface_address value path) o ↔ opt_ip ip4_interface value o.
Proof.
  destruct value; simpl; [|clean_simpl; iff_solve].
  rewrite clean_report_ip. by setoid_rewrite ip_factory_v4.
Qed.

Lemma clean_parse_address_opt value path o :
  clean (_parse_address value path true) o ↔ opt_ip ip4_address value o.
Proof.
  destruct value; simpl; [|clean_simpl; iff_solve].
  rewrite clean_report_ip. by setoid_rewrite ip_factory_v4.
Qed.

Lemma clean_parse_network_opt value path o :
  clean (_parse_network value path true) o ↔ opt_ip ip4_network value o.
Proof.
  destruct value; simpl; [|clean_simpl; iff_solve].
  rewrite clean_report_ip. by setoid_rewrite ip_factory_v4.
Qed.

Lemma clean_parse_address_req value path o :
  clean (_parse_address (Some value) path false) o ↔ ∃ v, o = Some v ∧ ip4_address value = Some v.
Proof. unfold _parse_address. rewrite clean_report_ip. by setoid_rewrite ip_factory_v4. Qed.

Lemma clean_parse_network_req value path o :
  clean (_parse_network (Some value) path false) o ↔ ∃ v, o = Some v ∧ ip4_network value = Some v.
Proof. unfold _parse_network. rewrite clean_report_ip. by setoid_rewrite ip_factory_v4. Qed.

