(* ===== verification/RuntimeProfile.v ===== *)
(** * The effective datapath runtime profile

    [config/validation.py], lines 20-34, 200-346 and 847-934: the lcore
    specification parser, the memory sizing arithmetic and the derivation of
    the resolved launch profile from the requested one. *)

From stdpp Require Import sorting.
From S2P Require Import Prelude PyStr IpAddress Errors Types Issues.
#[local] Open Scope Z_scope.

Definition DEFAULT_LCORES : string := "1".
Definition DEFAULT_BURST_SIZE : Z := 32.
Definition DEFAULT_RX_QUEUE_SIZE : Z := 256.
Definition DEFAULT_TX_QUEUE_SIZE : Z := 256.
Definition DEFAULT_HUGEPAGE_SIZE_MB : Z := 2.
Definition DEFAULT_HUGEPAGES_FLOOR_MB : Z := 256.
Definition MAX_LCORE_COUNT : Z := 8.
Definition MAX_BURST_SIZE : Z := 256.
Definition MAX_QUEUE_SIZE : Z := 4096.
Definition MAX_MEMPOOL_SIZE : Z := 65536.
Definition MAX_HUGEPAGES_MB : Z := 1024.
Definition MIN_MEMPOOL_SIZE : Z := 2048.
Definition MEMPOOL_HEADROOM_FACTOR : Z := 4.
Definition MBUF_MEMORY_ESTIMATE_BYTES : Z := 4096.
Definition FIXED_RUNTIME_OVERHEAD_MB : Z := 64.

(** ** The lcore specification *)

(** [int(text)] *)
Definition int_or_raise (text : string) : check Z :=
  match py_int text with
  | Some n => mret n
  | None => chk_raise (ValueError None)
  end.

(** [range(lo, hi)] *)
Definition py_range (lo hi : Z) : list Z := seqZ lo (hi - lo).

(** The [for token in tokens] loop; [None] is the early [return (1,)]. *)
Fixpoint parse_lcore_tokens (path : string) (tokens : list string) (parsed : list Z)
    : check (option (list Z)) :=
  match tokens with
  | [] => mret (Some parsed)
  | token :: rest =>
      let unsupported :=
        mkIssue path "invalid_lcore_spec" ("unsupported lcore token '" +:+ token +:+ "'") in
      if str_has "-" token then
        let '(start_text, _, end_text) := py_partition "-" token in
        if negb (py_isdigit start_text) || negb (py_isdigit end_text) then
          emit unsupported;; mret None
        else
          lo ← int_or_raise start_text;
          hi ← int_or_raise end_text;
          if hi <? lo then
            emit (mkIssue path "invalid_lcore_range"
                    ("lcore range '" +:+ token +:+ "' must be ascending"));;
            mret None
          else parse_lcore_tokens path rest (parsed ++ py_range lo (hi + 1))
      else if negb (py_isdigit token) then emit unsupported;; mret None
      else
        n ← int_or_raise token;
        parse_lcore_tokens path rest (parsed ++ [n])
  end.

(** [[token.strip() for token in value.split(",") if token.strip()]] *)
Definition lcore_tokens (value : string) : list string :=
  filter (λ t, t ≠ "") (py_strip <$> py_split "," value).

Definition _parse_lcore_spec (value path : string) : check (list Z) :=
  match lcore_tokens value with
  | [] =>
      emit (mkIssue path "invalid_lcore_spec"
              "lcores must contain at least one CPU identifier");;
      mret [1]
  | tokens =>
      r ← parse_lcore_tokens path tokens [];
      match r with
      | None => mret [1]
      | Some parsed =>
          if decide (length parsed = length (remove_dups parsed)) then mret parsed
          else
            emit (mkIssue path "duplicate_lcore" "lcore identifiers must not repeat");;
            mret (merge_sort Z.le (remove_dups parsed))
      end
  end.

(** ** Memory sizing *)

Definition _round_up_power_of_two (value : Z) : Z :=
  if value <=? 1 then 1 else Z.shiftl 1 (bit_length (value - 1)).

Definition _round_up_to_multiple (value multiple : Z) : Z :=
  (value + multiple - 1) / multiple * multiple.

(** A natural number rounded to the 53-bit significand of a double, ties to
    even. *)
Definition round_half_even (n d : Z) : Z :=
  let q := n / d in
  let r := n mod d in
  if 2 * r <? d then q else if d <? 2 * r then q + 1 else if Z.even q then q else q + 1.
Definition float_round (n : Z) : Z :=
  let excess := bit_length n - 53 in
  if excess <=? 0 then n else round_half_even n (2 ^ excess) * 2 ^ excess.

(** [math.ceil(n / 2 ** k)] for [n >= 0]: the true division of two integers is
    the nearest double, and raises [OverflowError] above the largest one. *)
Definition ceil_true_div (n k : Z) : res pyexn Z :=
  let x := float_round n in
  if 2 ^ (1024 + k) <=? x then Err OverflowError else Ok (- (- x / 2 ^ k)).

Definition _recommended_hugepages_mb (mempool_size : Z) : res pyexn Z :=
  estimated_mbuf_memory_mb ← ceil_true_div (mempool_size * MBUF_MEMORY_ESTIMATE_BYTES) 20;
  let recommended :=
    Z.max DEFAULT_HUGEPAGES_FLOOR_MB (FIXED_RUNTIME_OVERHEAD_MB + estimated_mbuf_memory_mb) in
  Ok (_round_up_to_multiple recommended DEFAULT_HUGEPAGE_SIZE_MB).

Definition recommended_mempool (port_count rx_queue_size tx_queue_size : Z) : Z :=
  _round_up_power_of_two
    (Z.max MIN_MEMPOOL_SIZE
       (port_count * (rx_queue_size + tx_queue_size) * MEMPOOL_HEADROOM_FACTOR)).

(** ** The derivation *)

Definition exceeds (field : string) (value limit : Z) (unit_suffix : string) : string :=
  field +:+ " " +:+ str_of_Z value +:+ " exceeds the controller limit of "
  +:+ str_of_Z limit +:+ unit_suffix.

(** Lines 230-240. *)
Definition derive_lcores (requested : DpdkProcessConfigModel) (path_prefix : string)
    : check (string * Z) :=
  let lcores := or_str (req_lcores requested) DEFAULT_LCORES in
  lcore_ids ← _parse_lcore_spec lcores (path_prefix +:+ ".lcores");
  let lcore_count := match lcore_ids with [] => 1 | _ => Z.of_nat (length lcore_ids) end in
  emit_if (MAX_LCORE_COUNT <? lcore_count)
    (mkIssue (path_prefix +:+ ".lcores") "oversized_lcore_set"
       ("lcore set resolves to " +:+ str_of_Z lcore_count
        +:+ " lcores; the controller caps this at " +:+ str_of_Z MAX_LCORE_COUNT
        +:+ " for the MVP"));;
  mret (lcores, lcore_count).

(** Lines 246-277. *)
Definition check_queues (path_prefix : string) (rx_queue_size tx_queue_size burst_size : Z)
    : check unit :=
  emit_if (MAX_QUEUE_SIZE <? rx_queue_size)
    (mkIssue (path_prefix +:+ ".rx_queue_size") "oversized_queue"
       (exceeds "rx_queue_size" rx_queue_size MAX_QUEUE_SIZE ""));;
  emit_if (MAX_QUEUE_SIZE <? tx_queue_size)
    (mkIssue (path_prefix +:+ ".tx_queue_size") "oversized_queue"
       (exceeds "tx_queue_size" tx_queue_size MAX_QUEUE_SIZE ""));;
  emit_if (MAX_BURST_SIZE <? burst_size)
    (mkIssue (path_prefix +:+ ".burst_size") "oversized_burst"
       (exceeds "burst_size" burst_size MAX_BURST_SIZE ""));;
  emit_if (Z.min rx_queue_size tx_queue_size <? burst_size)
    (mkIssue (path_prefix +:+ ".burst_size") "burst_exceeds_queue"
       "burst_size must not exceed either queue size").

(** Lines 279-304. *)
Definition derive_mempool (requested : DpdkProcessConfigModel) (path_prefix : string)
    (port_count rx_queue_size tx_queue_size : Z) : check Z :=
  let recommended_mempool_size := recommended_mempool port_count rx_queue_size tx_queue_size in
  let mempool_size := or_int (req_mempool_size requested) recommended_mempool_size in
  emit_if (mempool_size <? recommended_mempool_size)
    (mkIssue (path_prefix +:+ ".mempool_size") "undersized_mempool"
       ("mempool_size " +:+ str_of_Z mempool_size +:+ " is too small for "
        +:+ str_of_Z port_count +:+ " ports and the configured queues; "
        +:+ "minimum recommended value is " +:+ str_of_Z recommended_mempool_size));;
  emit_if (MAX_MEMPOOL_SIZE <? mempool_size)
    (mkIssue (path_prefix +:+ ".mempool_size") "oversized_mempool"
       (exceeds "mempool_size" mempool_size MAX_MEMPOOL_SIZE ""));;
  mret mempool_size.

(** Lines 306-334. *)
Definition derive_hugepages (requested : DpdkProcessConfigModel) (path_prefix : string)
    (mempool_size : Z) : check Z :=
  recommended_hugepages_mb ← chk_lift (_recommended_hugepages_mb mempool_size);
  let hugepages_mb := or_int (req_hugepages_mb requested) recommended_hugepages_mb in
  emit_if (negb (hugepages_mb mod DEFAULT_HUGEPAGE_SIZE_MB =? 0))
    (mkIssue (path_prefix +:+ ".hugepages_mb") "invalid_hugepage_multiple"
       ("hugepages_mb must be a multiple of " +:+ str_of_Z DEFAULT_HUGEPAGE_SIZE_MB +:+ " MB"));;
  emit_if (hugepages_mb <? recommended_hugepages_mb)
    (mkIssue (path_prefix +:+ ".hugepages_mb") "undersized_hugepages"
       ("hugepages_mb " +:+ str_of_Z hugepages_mb +:+ " is below the controller floor of "
        +:+ str_of_Z recommended_hugepages_mb
        +:+ " MB for the current mempool and safety margin"));;
  emit_if (MAX_HUGEPAGES_MB <? hugepages_mb)
    (mkIssue (path_prefix +:+ ".hugepages_mb") "oversized_hugepages"
       (exceeds "hugepages_mb" hugepages_mb MAX_HUGEPAGES_MB " MB"));;
  mret hugepages_mb.

Definition _derive_effective_dpdk_runtime (requested : DpdkProcessConfigModel)
    (port_count : Z) (path_prefix : string) : check EffectiveDpdkRuntimeModel :=
  '(lcores, lcore_count) ← derive_lcores requested path_prefix;
  let rx_queue_size := or_int (req_rx_queue_size requested) DEFAULT_RX_QUEUE_SIZE in
  let tx_queue_size := or_int (req_tx_queue_size requested) DEFAULT_TX_QUEUE_SIZE in
  let burst_size := or_int (req_burst_size requested) DEFAULT_BURST_SIZE in
  check_queues path_prefix rx_queue_size tx_queue_size burst_size;;
  mempool_size ← derive_mempool requested path_prefix port_count rx_queue_size tx_queue_size;
  hugepages_mb ← derive_hugepages requested path_prefix mempool_size;
  chk_lift (new_EffectiveDpdkRuntimeModel
    (mkEffective lcores lcore_count hugepages_mb burst_size rx_queue_size tx_queue_size
       mempool_size port_count)).

Definition derive_effective_dpdk_runtime (requested : DpdkProcessConfigModel) (port_count : Z)
    : res pyexn EffectiveDpdkRuntimeModel :=
  raise_if_issues "effective datapath runtime config is invalid"
    ErrorCode.TOPOLOGY_VALIDATION_ERROR
    (_derive_effective_dpdk_runtime requested port_count "processes.dpdkd").

(** ** The reference grammar of an lcore specification *)

Inductive lcore_token : string → list Z → Prop :=
| lcore_single token n :
    py_isdigit token = true → py_int token = Some n → lcore_token token [n]
| lcore_range start_text end_text lo hi :
    py_isdigit start_text = true → py_isdigit end_text = true →
    py_int start_text = Some lo → py_int end_text = Some hi → lo ≤ hi →
    lcore_token (start_text +:+ String "-" end_text) (py_range lo (hi + 1)).

(** [ids] is what [value] denotes: one group per token, no identifier twice. *)
Definition lcore_spec (value : string) (ids : list Z) : Prop :=
  lcore_tokens value ≠ [] ∧ NoDup ids ∧
  ∃ groups, Forall2 lcore_token (lcore_tokens value) groups ∧ ids = concat groups.

(** ** Facts: lcores *)

Lemma clean_int_or_raise text n : clean (int_or_raise text) n ↔ py_int text = Some n.
Proof. unfold int_or_raise. destruct (py_int text); clean_simpl; iff_solve. Qed.
#[export] Hint Rewrite clean_int_or_raise : clean.

Lemma isdigit_no_dash s : py_isdigit s = true → str_has "-" s = false.
Proof. unfold py_isdigit. intros [_ H]%andb_true_iff. by eapply str_all_has. Qed.

(** What the two shapes of a token denote. *)
Lemma lcore_token_dash a b g :
  str_has "-" a = false →
  lcore_token (a +:+ String "-" b) g ↔
  py_isdigit a = true ∧ py_isdigit b = true ∧
  ∃ lo hi, py_int a = Some lo ∧ py_int b = Some hi ∧ lo ≤ hi ∧ g = py_range lo (hi + 1).
Proof.
  intros Ha. split.
  - inversion 1 as [? ? Hdig|a' b' ? ? Ha' Hb' ? ? ? Heq]; subst.
    + apply isdigit_no_dash in Hdig. by rewrite str_has_app, str_has_String, orb_true_r in Hdig.
    + pose proof (py_partition_app "-" a' b' (isdigit_no_dash _ Ha')) as Hp.
      rewrite Heq, py_partition_app in Hp by done. naive_solver.
  - intros (? & ? & lo & hi & ? & ? & ? & ->). by econstructor.
Qed.

Lemma lcore_token_no_dash token g :
  str_has "-" token = false →
  lcore_token token g ↔ py_isdigit token = true ∧ ∃ n, py_int token = Some n ∧ g = [n].
Proof.
  intros Htok. split.
  - inversion 1; subst; [by eauto|]. by rewrite str_has_app, str_has_String, orb_true_r in Htok.
  - intros (? & n & ? & ->). by constructor.
Qed.

(** One more group in front. *)
Lemma lcore_groups_cons token rest parsed (o : option (list Z)) :
  (∃ groups, Forall2 lcore_token (token :: rest) groups ∧ o = Some (parsed ++ concat groups)) ↔
  ∃ g, lcore_token token g ∧
    ∃ groups, Forall2 lcore_token rest groups ∧ o = Some ((parsed ++ g) ++ concat groups).
Proof.
  setoid_rewrite <- app_assoc. split.
  - intros (groups & Hg & ->). inversion Hg; subst. eauto.
  - intros (g & Ht & gs & Hg & ->). exists (g :: gs). eauto.
Qed.

Lemma clean_parse_lcore_tokens path tokens parsed o :
  clean (parse_lcore_tokens path tokens parsed) o ↔
  ∃ groups, Forall2 lcore_token tokens groups ∧ o = Some (parsed ++ concat groups).
Proof.
  revert parsed. induction tokens as [|token rest IH]; intros parsed; simpl.
  { clean_simpl. split.
    - intros <-. exists []. by rewrite app_nil_r.
    - intros (groups & ->%Forall2_nil_inv_l & ->). by rewrite app_nil_r. }
  rewrite lcore_groups_cons. destruct (str_has "-" token) eqn:Hdash.
  - destruct (py_partition "-" token) as [[a f] b] eqn:Hp.
    pose proof (py_partition_found _ _ _ _ _ Hp) as Hf. rewrite Hdash in Hf. subst f.
    apply py_partition_true in Hp as [-> Ha].
    setoid_rewrite (λ g, lcore_token_dash a b g Ha).
    destruct (py_isdigit a), (py_isdigit b); cbn [negb orb]; clean_simpl; [|iff_solve..].
    rewrite clean_bind. setoid_rewrite clean_bind. setoid_rewrite clean_int_or_raise.
    split.
    + intros (lo & Hlo & hi & Hhi & Hc). destruct (Z.ltb_spec hi lo).
      { revert Hc. by clean_simpl. }
      apply IH in Hc. eexists. split; [|done]. eauto 10.
    + intros (g & (_ & _ & lo & hi & Hlo & Hhi & Hle & ->) & Hg).
      exists lo. split; [done|]. exists hi. split; [done|].
      rewrite (proj2 (Z.ltb_ge _ _) Hle). by apply IH.
  - setoid_rewrite (λ g, lcore_token_no_dash token g Hdash).
    destruct (py_isdigit token); cbn [negb]; clean_simpl; [|iff_solve].
    rewrite clean_bind. setoid_rewrite clean_int_or_raise. setoid_rewrite IH.
    split.
    + intros (n & Hn & Hg). exists [n]. eauto.
    + intros (g & (_ & n & Hn & ->) & Hg). eauto.
Qed.

Lemma length_remove_dups_NoDup (l : list Z) :
  length l = length (remove_dups l) ↔ NoDup l.
Proof.
  induction l as [|x l IH]; simpl.
  - split; [constructor|done].
  - assert (length (remove_dups l) ≤ length l)%nat as Hle.
    { clear. induction l; simpl; [done|]. case_decide; simpl; lia. }
    rewrite NoDup_cons, <- IH. case_decide; simpl; split.
    + lia.
    + by intros [? _].
    + intros Hlen. split; [done|lia].
    + intros [_ Hlen]. lia.
Qed.

(** The parser accepts exactly the grammar and returns what it denotes. *)
Lemma clean_parse_lcore_spec value path ids :
  clean (_parse_lcore_spec value path) ids ↔ lcore_spec value ids.
Proof.
  unfold _parse_lcore_spec, lcore_spec.
  destruct (lcore_tokens value) as [|token rest]; [clean_simpl; iff_solve|].
  rewrite clean_bind. setoid_rewrite clean_parse_lcore_tokens. split.
  - intros (o & (groups & Hg & ->) & Hc). simpl in Hc. destruct (decide _) as [Hl|Hl].
    + apply clean_mret in Hc as <-. rewrite length_remove_dups_NoDup in Hl. eauto 10.
    + revert Hc. by clean_simpl.
  - intros (_ & Hnd & groups & Hg & ->). eexists. split; [by eauto|]. simpl.
    rewrite decide_True by by apply length_remove_dups_NoDup. by apply clean_mret.
Qed.

Lemma lcore_token_nonempty token g : lcore_token token g → g ≠ [].
Proof.
  destruct 1 as [|? ? lo hi ? ? ? ? Hle]; [done|]. unfold py_range.
  rewrite seqZ_cons by lia. done.
Qed.

Lemma lcore_spec_nonempty value ids : lcore_spec value ids → (0 < length ids)%nat.
Proof.
  intros (Hne & _ & groups & Hg & ->). destruct Hg as [|token g ts gs Ht _]; [done|].
  apply lcore_token_nonempty in Ht. destruct g; [done|]. simpl. lia.
Qed.

(** ** Facts: sizing arithmetic *)

Lemma bit_length_bounds n : 0 < n → 2 ^ (bit_length n - 1) ≤ n < 2 ^ bit_length n.
Proof.
  intros Hn. unfold bit_length. rewrite (proj2 (Z.eqb_neq n 0)) by lia.
  rewrite Z.abs_eq, Z.add_simpl_r by lia. pose proof (Z.log2_spec n Hn).
  by rewrite Z.add_1_r.
Qed.

Lemma bit_length_nonneg n : 0 ≤ bit_length n.
Proof. unfold bit_length. case_match; [done|]. pose proof (Z.log2_nonneg (Z.abs n)). lia. Qed.

Lemma round_up_power_of_two_ge value : value ≤ _round_up_power_of_two value.
Proof.
  unfold _round_up_power_of_two. destruct (Z.leb_spec value 1); [done|].
  rewrite Z.shiftl_1_l. pose proof (bit_length_bounds (value - 1)). lia.
Qed.

Lemma round_up_power_of_two_pow value :
  ∃ k, 0 ≤ k ∧ _round_up_power_of_two value = 2 ^ k.
Proof.
  unfold _round_up_power_of_two. destruct (Z.leb_spec value 1).
  - by exists 0.
  - rewrite Z.shiftl_1_l. eexists. split; [|done]. apply bit_length_nonneg.
Qed.

(** It is the least power of two that is not below [value]. *)
Lemma round_up_power_of_two_least value k :
  0 ≤ k → value ≤ 2 ^ k → _round_up_power_of_two value ≤ 2 ^ k.
Proof.
  intros Hk Hv. unfold _round_up_power_of_two. destruct (Z.leb_spec value 1).
  - pose proof (Z.pow_pos_nonneg 2 k). lia.
  - rewrite Z.shiftl_1_l. apply Z.pow_le_mono_r; [lia|].
    pose proof (bit_length_bounds (value - 1)) as [Hlo _]; [lia|].
    assert (2 ^ (bit_length (value - 1) - 1) < 2 ^ k) as Hlt by lia.
    apply Z.pow_lt_mono_r_iff in Hlt; lia.
Qed.

Lemma round_up_to_multiple_spec value m :
  0 < m →
  let r := _round_up_to_multiple value m in
  r mod m = 0 ∧ value ≤ r < value + m.
Proof.
  intros Hm. unfold _round_up_to_multiple. cbv zeta. rewrite Z.mod_mul by lia.
  pose proof (Z.div_mod (value + m - 1) m). pose proof (Z.mod_pos_bound (value + m - 1) m). lia.
Qed.

Lemma float_round_exact n : 0 ≤ n < 2 ^ 53 → float_round n = n.
Proof.
  intros Hn. unfold float_round. destruct (Z.leb_spec (bit_length n - 53) 0) as [|Hb]; [done|].
  exfalso. destruct (decide (n = 0)) as [->|]; [done|].
  pose proof (bit_length_bounds n) as [Hlo _]; [lia|].
  assert (2 ^ 53 ≤ 2 ^ (bit_length n - 1)) by (apply Z.pow_le_mono_r; lia). lia.
Qed.

(** The memory the controller sizes for, in exact arithmetic. *)
Definition hugepages_needed (mempool_size : Z) : Z :=
  _round_up_to_multiple (Z.max 256 (64 + (mempool_size + 255) / 256)) 2.

Lemma recommended_hugepages_exact mempool_size :
  0 ≤ mempool_size < 2 ^ 41 →
  _recommended_hugepages_mb mempool_size = Ok (hugepages_needed mempool_size).
Proof.
  intros Hm. unfold _recommended_hugepages_mb, ceil_true_div, MBUF_MEMORY_ESTIMATE_BYTES.
  rewrite float_round_exact by lia.
  rewrite (proj2 (Z.leb_gt _ _)).
  2:{ apply Z.lt_le_trans with (2 ^ 53); [lia|]. apply Z.pow_le_mono_r; lia. }
  assert (- (- (mempool_size * 4096) / 2 ^ 20) = (mempool_size + 255) / 256) as Heq.
  { Z.div_mod_to_equations. lia. }
  rewrite Heq. done.
Qed.

(** ** Specification of the derivation *)

Section profile.
Context (requested : DpdkProcessConfigModel) (port_count : Z).

Definition rx_of : Z := or_int (req_rx_queue_size requested) DEFAULT_RX_QUEUE_SIZE.
Definition tx_of : Z := or_int (req_tx_queue_size requested) DEFAULT_TX_QUEUE_SIZE.
Definition burst_of : Z := or_int (req_burst_size requested) DEFAULT_BURST_SIZE.
Definition mempool_of : Z :=
  or_int (req_mempool_size requested) (recommended_mempool port_count rx_of tx_of).
Definition hugepages_of : Z :=
  or_int (req_hugepages_mb requested) (hugepages_needed mempool_of).
Definition lcores_of : string := or_str (req_lcores requested) DEFAULT_LCORES.

(** The profile a request resolves to when it names [ids]. *)
Definition profile_of (ids : list Z) : EffectiveDpdkRuntimeModel :=
  mkEffective lcores_of (Z.of_nat (length ids)) hugepages_of burst_of rx_of tx_of
    mempool_of port_count.

Record request_ok (ids : list Z) : Prop := {
  ro_lcores : lcore_spec lcores_of ids;
  ro_lcore_count : Z.of_nat (length ids) ≤ MAX_LCORE_COUNT;
  ro_rx : 1 ≤ rx_of ≤ MAX_QUEUE_SIZE;
  ro_tx : 1 ≤ tx_of ≤ MAX_QUEUE_SIZE;
  ro_burst : 1 ≤ burst_of ≤ MAX_BURST_SIZE;
  ro_burst_queue : burst_of ≤ Z.min rx_of tx_of;
  ro_mempool : recommended_mempool port_count rx_of tx_of ≤ mempool_of ≤ MAX_MEMPOOL_SIZE;
  ro_hugepages_even : hugepages_of mod 2 = 0;
  ro_hugepages : hugepages_needed mempool_of ≤ hugepages_of ≤ MAX_HUGEPAGES_MB;
  ro_ports : 1 ≤ port_count;
}.
End profile.

Lemma or_str_nonempty o d : d ≠ "" → or_str o d ≠ "".
Proof. intros. destruct o; simpl; [|done]. by case_decide. Qed.

Lemma recommended_mempool_bounds pc rx tx :
  MIN_MEMPOOL_SIZE ≤ recommended_mempool pc rx tx ∧
  pc * (rx + tx) * MEMPOOL_HEADROOM_FACTOR ≤ recommended_mempool pc rx tx.
Proof.
  unfold recommended_mempool. set (v := Z.max _ _).
  pose proof (round_up_power_of_two_ge v). lia.
Qed.

Lemma hugepages_needed_bounds m :
  let h := hugepages_needed m in
  h mod 2 = 0 ∧ 256 ≤ h ∧ 64 + (m + 255) / 256 ≤ h.
Proof.
  unfold hugepages_needed. cbv zeta.
  pose proof (round_up_to_multiple_spec (Z.max 256 (64 + (m + 255) / 256)) 2) as H.
  cbv zeta in H. lia.
Qed.

Lemma clean_check_queues prefix rx tx burst u :
  clean (check_queues prefix rx tx burst) u ↔
  rx ≤ MAX_QUEUE_SIZE ∧ tx ≤ MAX_QUEUE_SIZE ∧ burst ≤ MAX_BURST_SIZE ∧ burst ≤ Z.min rx tx.
Proof.
  unfold check_queues. rewrite !clean_bind. setoid_rewrite clean_emit_if.
  setoid_rewrite clean_bind. setoid_rewrite clean_emit_if.
  setoid_rewrite clean_bind. setoid_rewrite clean_emit_if.
  rewrite <- !Z.ltb_ge. split; [intros ([] & ? & [] & ? & [] & ? & ?)|]; naive_solver.
Qed.

Lemma clean_derive_mempool requested prefix pc rx tx m :
  clean (derive_mempool requested prefix pc rx tx) m ↔
  m = or_int (req_mempool_size requested) (recommended_mempool pc rx tx) ∧
  recommended_mempool pc rx tx ≤ m ≤ MAX_MEMPOOL_SIZE.
Proof.
  unfold derive_mempool. rewrite !clean_bind. setoid_rewrite clean_emit_if.
  setoid_rewrite clean_bind. setoid_rewrite clean_emit_if. setoid_rewrite clean_mret.
  rewrite <- !Z.ltb_ge. split; [intros ([] & ? & [] & ? & <-); done|].
  intros (-> & ? & ?). by repeat eexists.
Qed.

Lemma clean_derive_lcores requested prefix lcores count :
  clean (derive_lcores requested prefix) (lcores, count) ↔
  lcores = lcores_of requested ∧
  ∃ ids, lcore_spec lcores ids ∧ count = Z.of_nat (length ids) ∧ count ≤ MAX_LCORE_COUNT.
Proof.
  unfold derive_lcores. rewrite clean_bind. setoid_rewrite clean_parse_lcore_spec.
  setoid_rewrite clean_bind. setoid_rewrite clean_emit_if. setoid_rewrite clean_mret.
  setoid_rewrite Z.ltb_ge. split.
  - intros (ids & Hids & _ & Hc & [= <- <-]). split; [done|]. exists ids.
    apply lcore_spec_nonempty in Hids as Hlen. by destruct ids; [simpl in *; lia|].
  - intros (-> & ids & Hids & -> & Hc). exists ids. split; [done|]. exists ().
    apply lcore_spec_nonempty in Hids as Hlen. by destruct ids; [simpl in *; lia|].
Qed.

Lemma clean_derive_hugepages requested prefix m h :
  0 ≤ m ≤ MAX_MEMPOOL_SIZE →
  clean (derive_hugepages requested prefix m) h ↔
  h = or_int (req_hugepages_mb requested) (hugepages_needed m) ∧
  h mod 2 = 0 ∧ hugepages_needed m ≤ h ≤ MAX_HUGEPAGES_MB.
Proof.
  unfold MAX_MEMPOOL_SIZE. intros Hm. unfold derive_hugepages.
  rewrite recommended_hugepages_exact by lia.
  rewrite clean_bind. setoid_rewrite clean_lift.
  repeat (setoid_rewrite clean_bind; setoid_rewrite clean_emit_if). setoid_rewrite clean_mret.
  setoid_rewrite negb_false_iff. setoid_rewrite Z.eqb_eq. setoid_rewrite Z.ltb_ge. split.
  - intros (r & [= <-] & [] & ? & [] & ? & [] & ? & <-). done.
  - intros (-> & ? & ? & ?). by repeat eexists.
Qed.

Lemma effective_ok_iff e :
  new_EffectiveDpdkRuntimeModel e = Ok e ↔
  eff_lcores e ≠ "" ∧ 1 ≤ eff_lcore_count e ∧ 2 ≤ eff_hugepages_mb e ∧
  eff_hugepages_mb e mod 2 = 0 ∧ 1 ≤ eff_burst_size e ∧ 1 ≤ eff_rx_queue_size e ∧
  1 ≤ eff_tx_queue_size e ∧ 1 ≤ eff_mempool_size e ∧ 1 ≤ eff_port_count e.
Proof.
  unfold new_EffectiveDpdkRuntimeModel. rewrite <- str_empty_false, <- negb_true_iff.
  rewrite <- Z.eqb_eq, <- !Z.leb_le. rewrite <- !andb_true_iff.
  unfold EffectiveDpdkRuntimeModel_ok. rewrite <- !andb_assoc.
  split; [by case_match|]. by intros ->.
Qed.

Lemma new_effective_ok e e' :
  new_EffectiveDpdkRuntimeModel e = Ok e' ↔ e = e' ∧ new_EffectiveDpdkRuntimeModel e = Ok e.
Proof. unfold new_EffectiveDpdkRuntimeModel. case_match; naive_solver. Qed.

(** The derivation is clean exactly on the requests of the specification. *)
Lemma clean_derive requested pc prefix e :
  clean (_derive_effective_dpdk_runtime requested pc prefix) e ↔
  ∃ ids, request_ok requested pc ids ∧ e = profile_of requested pc ids.
Proof.
  unfold _derive_effective_dpdk_runtime. rewrite clean_bind.
  pose proof (recommended_mempool_bounds pc (rx_of requested) (tx_of requested)) as [Hrec _].
  unfold MIN_MEMPOOL_SIZE in Hrec. split.
  - intros ([lcores count] & (-> & ids & Hids & -> & Hcount)%clean_derive_lcores & Hk).
    apply clean_bind in Hk as ([] & (Hrx & Htx & Hb & Hbq)%clean_check_queues & Hk).
    apply clean_bind in Hk as (m & (-> & Hm)%clean_derive_mempool & Hk).
    apply clean_bind in Hk as (h & Hh & He). rewrite clean_lift in He.
    apply clean_derive_hugepages in Hh as (-> & Heven & Hh);
      [|unfold rx_of, tx_of, MAX_MEMPOOL_SIZE in *; lia].
    apply new_effective_ok in He as [<- (? & ? & ? & ? & ? & ? & ? & ? & ?)%effective_ok_iff].
    exists ids. split; [|done]. cbn [eff_burst_size eff_rx_queue_size eff_tx_queue_size eff_port_count] in *.
    split; try done.
  - intros (ids & [Hids ? ? ? ? ? ? ? ? ?] & ->).
    exists (lcores_of requested, Z.of_nat (length ids)).
    split; [by apply clean_derive_lcores; eauto|]. apply clean_bind. exists ().
    split; [apply clean_check_queues; unfold rx_of, tx_of, burst_of in *; lia|]. apply clean_bind. exists (mempool_of requested pc).
    split; [by apply clean_derive_mempool|]. apply clean_bind. exists (hugepages_of requested pc).
    split; [apply clean_derive_hugepages; [lia|done]|]. apply clean_lift, effective_ok_iff.
    pose proof (lcore_spec_nonempty _ _ Hids).
    pose proof (hugepages_needed_bounds (mempool_of requested pc)) as (_ & ? & _).
    simpl. split_and!; try lia. by apply or_str_nonempty.
Qed.
