(* ===== verification/RuntimeProps.v ===== *)
(** * Properties of the runtime profile derivation

    The claims about [RuntimeProfile]: the derivation accepts exactly the
    requests of its specification, what it accepts is within the controller's
    limits and large enough, and where exceptions escape it. *)

From stdpp Require Import sorting.
From S2P Require Import Prelude PyStr IpAddress Errors Types Issues RuntimeProfile.
#[local] Open Scope Z_scope.

(** ** Printing an lcore specification *)

Inductive lcore_item : Type :=
| LcoreSingle (n : Z)
| LcoreRange (lo hi : Z).

Definition show_item (i : lcore_item) : string :=
  match i with
  | LcoreSingle n => str_of_Z n
  | LcoreRange lo hi => str_of_Z lo +:+ String "-" (str_of_Z hi)
  end.

Definition item_ids (i : lcore_item) : list Z :=
  match i with
  | LcoreSingle n => [n]
  | LcoreRange lo hi => py_range lo (hi + 1)
  end.

(** A number [int] converts back. *)
Definition printable (z : Z) : Prop :=
  0 ≤ z ∧ (String.length (str_of_Z z) ≤ MAX_STR_DIGITS)%nat.

Definition item_ok (i : lcore_item) : Prop :=
  match i with
  | LcoreSingle n => printable n
  | LcoreRange lo hi => printable lo ∧ printable hi ∧ lo ≤ hi
  end.

Definition show_lcores (items : list lcore_item) : string :=
  py_join "," (show_item <$> items).

(** ** Lemmas *)

Lemma show_item_token i : item_ok i → lcore_token (show_item i) (item_ids i).
Proof.
  destruct i as [n|lo hi]; simpl.
  - intros [? ?]. constructor; [by apply str_of_Z_isdigit|by apply py_int_str_of_Z].
  - intros ([? ?] & [? ?] & ?).
    constructor; auto using str_of_Z_isdigit, py_int_str_of_Z.
Qed.

Lemma show_item_chars i (p : ascii → bool) :
  item_ok i → (∀ c, is_decimal c = true → p c = true) → p "-"%char = true →
  str_all p (show_item i) = true.
Proof.
  intros Hi Hp Hd.
  assert (∀ z, printable z → str_all p (str_of_Z z) = true) as Hz.
  { intros z [? _]. eapply str_all_mono; [done|]. by apply str_of_Z_decimal. }
  destruct i; simpl in *; [by apply Hz|].
  destruct Hi as (? & ? & _). rewrite str_all_app. simpl. by rewrite Hd, !Hz.
Qed.

Lemma show_item_strip i : item_ok i → py_strip (show_item i) = show_item i.
Proof.
  intros Hi. apply py_strip_id, show_item_chars; [done|apply is_decimal_not_space|done].
Qed.

Lemma show_item_ne i : item_ok i → show_item i ≠ "".
Proof.
  intros Hi. apply str_empty_false. destruct i as [n|lo hi]; simpl in *.
  - by apply str_of_Z_not_empty, Hi.
  - by destruct (str_of_Z lo).
Qed.

Lemma lcore_tokens_show items :
  items ≠ [] → Forall item_ok items → lcore_tokens (show_lcores items) = show_item <$> items.
Proof.
  intros Hne Hok. unfold lcore_tokens, show_lcores. rewrite py_split_join.
  - clear Hne. induction Hok as [|i items Hi Hok IH]; simpl; [done|].
    rewrite show_item_strip, filter_cons_True by auto using show_item_ne. by f_equal.
  - by destruct items.
  - apply Forall_fmap. eapply Forall_impl; [done|]. intros i Hi. simpl.
    apply str_has_false, show_item_chars; [done| |done].
    intros c Hc. by destruct (Ascii.eqb_spec c ","); subst.
Qed.

(** A request whose fields are those of an effective profile. *)
Definition request_of (namespace : string) (e : EffectiveDpdkRuntimeModel) : DpdkProcessConfigModel :=
  mkDpdkProcessConfig namespace (Some (eff_lcores e)) (Some (eff_hugepages_mb e))
    (Some (eff_burst_size e)) (Some (eff_rx_queue_size e)) (Some (eff_tx_queue_size e))
    (Some (eff_mempool_size e)).

Lemma or_int_pos z d : 1 ≤ z → or_int (Some z) d = z.
Proof. intros. simpl. by rewrite (proj2 (Z.eqb_neq z 0)) by lia. Qed.

Lemma or_str_ne s d : s ≠ "" → or_str (Some s) d = s.
Proof. intros. simpl. by rewrite decide_False. Qed.

Lemma derive_ok requested pc e :
  derive_effective_dpdk_runtime requested pc = Ok e ↔
  ∃ ids, request_ok requested pc ids ∧ e = profile_of requested pc ids.
Proof. unfold derive_effective_dpdk_runtime. by rewrite raise_if_issues_ok, clean_derive. Qed.

(** Resubmitting a resolved profile as the request resolves to itself. *)
Lemma request_of_ok requested pc ids ns :
  request_ok requested pc ids →
  let e := profile_of requested pc ids in
  request_ok (request_of ns e) pc ids ∧ profile_of (request_of ns e) pc ids = e.
Proof.
  intros [Hids ? ? ? ? ? Hm ? ? ?].
  pose proof (recommended_mempool_bounds pc (rx_of requested) (tx_of requested)) as [Hrec _].
  pose proof (hugepages_needed_bounds (mempool_of requested pc)) as (_ & ? & _).
  unfold MIN_MEMPOOL_SIZE in Hrec. cbv zeta. set (r := request_of ns _).
  assert (rx_of r = rx_of requested) as Hrx by (apply or_int_pos; lia).
  assert (tx_of r = tx_of requested) as Htx by (apply or_int_pos; lia).
  assert (burst_of r = burst_of requested) as Hb by (apply or_int_pos; lia).
  assert (lcores_of r = lcores_of requested) as Hl by (by apply or_str_ne, or_str_nonempty).
  assert (mempool_of r pc = mempool_of requested pc) as Hmp.
  { apply or_int_pos. change (1 ≤ mempool_of requested pc). lia. }
  assert (hugepages_of r pc = hugepages_of requested pc) as Hh.
  { apply or_int_pos. change (1 ≤ hugepages_of requested pc). lia. }
  split.
  - by split; rewrite ?Hl, ?Hrx, ?Htx, ?Hb, ?Hh, ?Hmp, ?Hrx, ?Htx.
  - unfold profile_of. by rewrite Hl, Hrx, Htx, Hb, Hh, Hmp.
Qed.

(** Two ports and queues within the limit need at most the largest mempool. *)
Lemma automatic_mempool_fits pc rx tx :
  1 ≤ pc ≤ 2 → 1 ≤ rx ≤ MAX_QUEUE_SIZE → 1 ≤ tx ≤ MAX_QUEUE_SIZE →
  recommended_mempool pc rx tx ≤ MAX_MEMPOOL_SIZE.
Proof.
  intros Hpc Hrx Htx. unfold MAX_QUEUE_SIZE in *. unfold recommended_mempool.
  change MAX_MEMPOOL_SIZE with (2 ^ 16). apply round_up_power_of_two_least; [lia|].
  unfold MIN_MEMPOOL_SIZE, MEMPOOL_HEADROOM_FACTOR. nia.
Qed.

Lemma hugepages_needed_fits m : m ≤ MAX_MEMPOOL_SIZE → hugepages_needed m ≤ MAX_HUGEPAGES_MB.
Proof.
  unfold MAX_MEMPOOL_SIZE, MAX_HUGEPAGES_MB, hugepages_needed. intros Hm.
  pose proof (round_up_to_multiple_spec (Z.max 256 (64 + (m + 255) / 256)) 2) as H.
  cbv zeta in H. assert ((m + 255) / 256 < 257) by (apply Z.div_lt_upper_bound; lia). lia.
Qed.

(** ** What the stages return, issues aside *)

Lemma returns_check_queues prefix rx tx burst : returns (check_queues prefix rx tx burst) ().
Proof. unfold check_queues. eauto 10 with returns. Qed.

Lemma returns_derive_mempool requested prefix pc rx tx :
  returns (derive_mempool requested prefix pc rx tx)
    (or_int (req_mempool_size requested) (recommended_mempool pc rx tx)).
Proof. unfold derive_mempool. eauto 10 with returns. Qed.

Lemma returns_derive_hugepages requested prefix m h :
  _recommended_hugepages_mb m = Ok h →
  returns (derive_hugepages requested prefix m) (or_int (req_hugepages_mb requested) h).
Proof. intros Hm. unfold derive_hugepages. rewrite Hm. eauto 12 with returns. Qed.

(** The lcore stage returns a count of at least one. *)
Definition lcores_resolve (requested : DpdkProcessConfigModel) : Prop :=
  ∀ path, ∃ ids, returns (_parse_lcore_spec (lcores_of requested) path) ids.

Lemma returns_derive_lcores requested prefix :
  lcores_resolve requested →
  ∃ count, returns (derive_lcores requested prefix) (lcores_of requested, count).
Proof.
  intros Hl. destruct (Hl (prefix +:+ ".lcores")) as [ids Hids].
  eexists. unfold derive_lcores. eapply returns_bind; [done|]. eauto with returns.
Qed.

Lemma derive_stages requested pc prefix :
  lcores_resolve requested → 0 ≤ mempool_of requested pc < 2 ^ 41 →
  ∃ count l,
    _derive_effective_dpdk_runtime requested pc prefix =
      match new_EffectiveDpdkRuntimeModel
              (mkEffective (lcores_of requested) count (hugepages_of requested pc)
                 (burst_of requested) (rx_of requested) (tx_of requested)
                 (mempool_of requested pc) pc) with
      | Ok e => Ok (e, l)
      | Err e => Err e
      end.
Proof.
  intros Hl Hm. destruct (returns_derive_lcores requested prefix Hl) as [count [l1 H1]].
  destruct (returns_check_queues prefix (rx_of requested) (tx_of requested) (burst_of requested))
    as [l2 H2].
  destruct (returns_derive_mempool requested prefix pc (rx_of requested) (tx_of requested))
    as [l3 H3].
  destruct (returns_derive_hugepages requested prefix _ _ (recommended_hugepages_exact _ Hm))
    as [l4 H4].
  exists count, (l1 ++ l2 ++ l3 ++ l4). unfold _derive_effective_dpdk_runtime.
  unfold mbind, chk_mbind. rewrite H1. unfold rx_of, tx_of, burst_of in *. rewrite H2, H3.
  fold (rx_of requested) (tx_of requested) (mempool_of requested pc) in *.
  rewrite H4. unfold chk_lift, burst_of, hugepages_of.
  destruct (new_EffectiveDpdkRuntimeModel _); [|done]. by rewrite app_nil_r.
Qed.

Lemma float_round_ge n k : 0 ≤ k → 2 ^ k ≤ n → 2 ^ k ≤ float_round n.
Proof.
  intros Hk Hn. unfold float_round. destruct (Z.leb_spec (bit_length n - 53) 0); [done|].
  set (e := bit_length n - 53) in *.
  assert (n / 2 ^ e ≤ round_half_even n (2 ^ e)) as Hq.
  { unfold round_half_even. repeat case_match; lia. }
  assert (0 < n) by (pose proof (Z.pow_pos_nonneg 2 k); lia).
  assert (0 < 2 ^ e) by (apply Z.pow_pos_nonneg; lia).
  destruct (bit_length_bounds n) as [_ Hhi]; [done|].
  assert (2 ^ k < 2 ^ bit_length n) as Hlt by lia.
  apply Z.pow_lt_mono_r_iff in Hlt; [|lia|apply bit_length_nonneg].
  destruct (decide (e ≤ k)) as [Hek|Hek].
  - replace (2 ^ k) with (2 ^ (k - e) * 2 ^ e) by (rewrite <- Z.pow_add_r; [f_equal|..]; lia).
    apply Z.mul_le_mono_nonneg_r; [lia|].
    assert (2 ^ (k - e) ≤ n / 2 ^ e); [|lia]. apply Z.div_le_lower_bound; [done|].
    rewrite <- Z.pow_add_r by lia. by replace (e + (k - e)) with k by lia.
  - assert (2 ^ k ≤ 2 ^ e) by (apply Z.pow_le_mono_r; lia).
    assert (1 ≤ n / 2 ^ e); [|nia]. apply Z.div_le_lower_bound; [done|].
    destruct (bit_length_bounds n) as [Hlo _]; [done|].
    assert (2 ^ e ≤ 2 ^ (bit_length n - 1)) by (apply Z.pow_le_mono_r; lia). lia.
Qed.

Lemma lcores_resolve_default requested : req_lcores requested = None → lcores_resolve requested.
Proof.
  intros Hn path. exists [1]. apply clean_returns. unfold lcores_of. rewrite Hn. done.
Qed.

Lemma parse_lcore_spec_raises value path token rest :
  lcore_tokens value = token :: rest → py_isdigit token = true → py_int token = None →
  _parse_lcore_spec value path = Err (ValueError None).
Proof.
  intros Ht Hd Hi. unfold _parse_lcore_spec. rewrite Ht. apply raise_bind_l.
  cbn [parse_lcore_tokens]. rewrite isdigit_no_dash, Hd by done. cbn [negb].
  apply raise_bind_l. unfold int_or_raise. by rewrite Hi.
Qed.

(** ** Claims *)

(** C17 [derive_effective_dpdk_runtime] returns a profile exactly when the
    request meets the specification [request_ok] for the identifiers its lcore
    specification denotes, and the profile is the one the defaults, the
    recommended mempool and the exact hugepage demand determine. *)
Theorem derive_correct requested pc e :
  derive_effective_dpdk_runtime requested pc = Ok e ↔
  ∃ ids, request_ok requested pc ids ∧ e = profile_of requested pc ids.
Proof. unfold derive_effective_dpdk_runtime. by rewrite raise_if_issues_ok, clean_derive. Qed.

(** C18 Every accepted profile is within the controller's limits: at most eight
    lcores, a burst that fits both queues, a mempool with the headroom factor
    over all queues, and enough 2 MB hugepages for every mbuf plus the fixed
    overhead. *)
Theorem derive_bounds requested pc e :
  derive_effective_dpdk_runtime requested pc = Ok e →
  1 ≤ eff_lcore_count e ≤ MAX_LCORE_COUNT ∧
  1 ≤ eff_burst_size e ≤ MAX_BURST_SIZE ∧
  eff_burst_size e ≤ eff_rx_queue_size e ≤ MAX_QUEUE_SIZE ∧
  eff_burst_size e ≤ eff_tx_queue_size e ≤ MAX_QUEUE_SIZE ∧
  MIN_MEMPOOL_SIZE ≤ eff_mempool_size e ≤ MAX_MEMPOOL_SIZE ∧
  pc * (eff_rx_queue_size e + eff_tx_queue_size e) * MEMPOOL_HEADROOM_FACTOR
    ≤ eff_mempool_size e ∧
  eff_hugepages_mb e mod DEFAULT_HUGEPAGE_SIZE_MB = 0 ∧
  DEFAULT_HUGEPAGES_FLOOR_MB ≤ eff_hugepages_mb e ≤ MAX_HUGEPAGES_MB ∧
  eff_mempool_size e * MBUF_MEMORY_ESTIMATE_BYTES + FIXED_RUNTIME_OVERHEAD_MB * 2 ^ 20
    ≤ eff_hugepages_mb e * 2 ^ 20.
Proof.
  rewrite derive_ok. intros (ids & [Hids ? ? ? ? ? ? ? ? ?] & ->).
  pose proof (lcore_spec_nonempty _ _ Hids).
  pose proof (recommended_mempool_bounds pc (rx_of requested) (tx_of requested)).
  pose proof (hugepages_needed_bounds (mempool_of requested pc)) as (_ & ? & ?).
  set (m := mempool_of requested pc) in *.
  assert (m ≤ (m + 255) / 256 * 256) by (Z.div_mod_to_equations; lia).
  unfold MBUF_MEMORY_ESTIMATE_BYTES, FIXED_RUNTIME_OVERHEAD_MB, DEFAULT_HUGEPAGES_FLOOR_MB.
  cbn [eff_lcore_count eff_burst_size eff_rx_queue_size eff_tx_queue_size eff_mempool_size
    eff_hugepages_mb profile_of]. fold m. split_and!; try done; lia.
Qed.

(** Resolution is stable: a resolved profile, resubmitted as the request,
    resolves to itself. *)
Theorem derive_stable requested pc e ns :
  derive_effective_dpdk_runtime requested pc = Ok e →
  derive_effective_dpdk_runtime (request_of ns e) pc = Ok e.
Proof.
  rewrite !derive_ok. intros (ids & Hok & ->).
  destruct (request_of_ok requested pc ids ns Hok) as [? Heq]. by exists ids.
Qed.

(** Automatic sizing never fails: with one or two ports, accepted lcores and
    queue and burst sizes within their limits, leaving the mempool and the
    hugepages to the controller always yields a profile. *)
Theorem automatic_sizing_fits requested pc ids :
  req_mempool_size requested = None → req_hugepages_mb requested = None →
  1 ≤ pc ≤ 2 → lcore_spec (lcores_of requested) ids → Z.of_nat (length ids) ≤ MAX_LCORE_COUNT →
  1 ≤ rx_of requested ≤ MAX_QUEUE_SIZE → 1 ≤ tx_of requested ≤ MAX_QUEUE_SIZE →
  1 ≤ burst_of requested ≤ MAX_BURST_SIZE →
  burst_of requested ≤ Z.min (rx_of requested) (tx_of requested) →
  derive_effective_dpdk_runtime requested pc = Ok (profile_of requested pc ids).
Proof.
  intros Hm Hh Hpc Hids Hcount Hrx Htx Hb Hbq. apply derive_ok. exists ids. split; [|done].
  pose proof (automatic_mempool_fits pc _ _ Hpc Hrx Htx) as Hfit.
  assert (mempool_of requested pc = recommended_mempool pc (rx_of requested) (tx_of requested))
    as Heq by (unfold mempool_of; by rewrite Hm).
  assert (hugepages_of requested pc = hugepages_needed (mempool_of requested pc))
    as Hheq by (unfold hugepages_of; by rewrite Hh).
  pose proof (hugepages_needed_fits _ Hfit) as Hfit2.
  rewrite Heq in Hheq. pose proof (hugepages_needed_bounds
    (recommended_mempool pc (rx_of requested) (tx_of requested))) as (? & _).
  split; rewrite ?Hheq, ?Heq; try done; lia.
Qed.

(** Printing and parsing lcores: a comma-separated list of identifiers and
    ascending ranges without a repeated identifier parses, with no issue, to
    the identifiers it lists, in order. *)
Theorem lcore_roundtrip items path :
  items ≠ [] → Forall item_ok items → NoDup (concat (item_ids <$> items)) →
  _parse_lcore_spec (show_lcores items) path = Ok (concat (item_ids <$> items), []).
Proof.
  intros Hne Hok Hnd. apply (proj2 (clean_parse_lcore_spec _ path _)).
  unfold lcore_spec. rewrite lcore_tokens_show by done. split; [by destruct items|].
  split; [done|]. eexists. split; [|done]. apply Forall2_fmap, Forall_Forall2_diag.
  eapply Forall_impl; [done|]. apply show_item_token.
Qed.

(** An odd [hugepages_mb] escapes as pydantic's own exception: the issue list
    collected so far, with its [invalid_hugepage_multiple] entry, is lost
    because [EffectiveDpdkRuntimeModel] refuses the value first. *)
Theorem odd_hugepages_escape requested pc h :
  lcores_resolve requested → 0 ≤ mempool_of requested pc < 2 ^ 41 →
  req_hugepages_mb requested = Some h → h mod 2 = 1 →
  derive_effective_dpdk_runtime requested pc = Err PydanticValidationError.
Proof.
  intros Hl Hm Hh Hodd. unfold derive_effective_dpdk_runtime.
  destruct (derive_stages requested pc "processes.dpdkd" Hl Hm) as (count & l & ->).
  assert (hugepages_of requested pc = h) as ->.
  { unfold hugepages_of. rewrite Hh. simpl. by destruct (Z.eqb_spec h 0) as [->|]. }
  unfold new_EffectiveDpdkRuntimeModel. destruct (EffectiveDpdkRuntimeModel_ok _) eqn:Hok; [|done].
  unfold EffectiveDpdkRuntimeModel_ok in Hok. cbn [eff_hugepages_mb] in Hok.
  rewrite Hodd in Hok. by rewrite !andb_false_r in Hok.
Qed.

(** Two more escapes of the derivation: a token that [str.isdigit] accepts and
    [int] refuses (a superscript digit, or more digits than the conversion
    limit) raises [ValueError], and a mempool too large for a double raises
    [OverflowError]; neither is reported as an issue. *)
Theorem unreported_exceptions requested pc :
  (∀ token rest,
    lcore_tokens (lcores_of requested) = token :: rest →
    py_isdigit token = true → py_int token = None →
    derive_effective_dpdk_runtime requested pc = Err (ValueError None)) ∧
  (lcores_resolve requested → 2 ^ 1032 ≤ mempool_of requested pc →
    derive_effective_dpdk_runtime requested pc = Err OverflowError).
Proof.
  unfold derive_effective_dpdk_runtime, raise_if_issues. split.
  - intros token rest Ht Hd Hi. unfold _derive_effective_dpdk_runtime, derive_lcores.
    fold (lcores_of requested).
    by rewrite (parse_lcore_spec_raises _ ("processes.dpdkd" +:+ ".lcores") _ _ Ht Hd Hi).
  - intros Hl Hm. unfold _derive_effective_dpdk_runtime.
    destruct (returns_derive_lcores requested "processes.dpdkd" Hl) as [count Hc].
    rewrite (raise_bind_r _ _ _ OverflowError Hc); [done|]. cbn beta iota.
    eapply raise_bind_r; [apply returns_check_queues|].
    eapply raise_bind_r; [apply returns_derive_mempool|]. apply raise_bind_l.
    fold (rx_of requested) (tx_of requested) (mempool_of requested pc).
    unfold derive_hugepages, _recommended_hugepages_mb, ceil_true_div, MBUF_MEMORY_ESTIMATE_BYTES.
    assert (2 ^ 1044 ≤ float_round (mempool_of requested pc * 4096)) as Hf.
    { apply float_round_ge; [lia|]. change (2 ^ 1044) with (2 ^ 1032 * 4096).
      by apply Z.mul_le_mono_nonneg_r. }
    by rewrite (proj2 (Z.leb_le (2 ^ (1024 + 20)) _) Hf).
Qed.

(** ** Witnesses *)

Definition default_request : DpdkProcessConfigModel :=
  mkDpdkProcessConfig "dpdk-host" None None None None None None.

Definition sized_request : DpdkProcessConfigModel :=
  mkDpdkProcessConfig "dpdk-host" (Some "1-2,7") (Some 300) (Some 64) (Some 512) (Some 512)
    (Some 8192).

Example default_profile :
  derive_effective_dpdk_runtime default_request 2 = Ok (mkEffective "1" 1 256 32 256 256 4096 2).
Proof. vm_compute. reflexivity. Qed.

Lemma derive_bounds_witness :
  ∃ e, derive_effective_dpdk_runtime sized_request 2 = Ok e ∧
    eff_mempool_size e * MBUF_MEMORY_ESTIMATE_BYTES + FIXED_RUNTIME_OVERHEAD_MB * 2 ^ 20
      ≤ eff_hugepages_mb e * 2 ^ 20.
Proof.
  eexists. split; [vm_compute; reflexivity|]. eapply (derive_bounds sized_request 2).
  vm_compute. reflexivity.
Defined.

Lemma derive_stable_witness :
  ∃ e, derive_effective_dpdk_runtime sized_request 2 = Ok e ∧
    derive_effective_dpdk_runtime (request_of "dpdk-host" e) 2 = Ok e.
Proof.
  eexists. split; [vm_compute; reflexivity|]. apply (derive_stable sized_request 2).
  vm_compute. reflexivity.
Defined.

Lemma lcore_spec_default : lcore_spec "1" [1].
Proof. apply (clean_parse_lcore_spec "1" "p"). vm_compute. reflexivity. Qed.

Lemma automatic_sizing_fits_witness :
  derive_effective_dpdk_runtime default_request 2 = Ok (profile_of default_request 2 [1]).
Proof.
  apply automatic_sizing_fits; try (vm_compute; intuition congruence).
  apply lcore_spec_default.
Defined.

Lemma lcore_roundtrip_witness :
  _parse_lcore_spec "3,5-7" "processes.dpdkd.lcores" = Ok ([3; 5; 6; 7], []).
Proof.
  apply (lcore_roundtrip [LcoreSingle 3; LcoreRange 5 7] "processes.dpdkd.lcores").
  - discriminate.
  - repeat constructor; vm_compute; intuition (congruence || lia).
  - apply (bool_decide_unpack _). vm_compute. exact I.
Defined.

Lemma odd_hugepages_escape_witness :
  derive_effective_dpdk_runtime
    (mkDpdkProcessConfig "dpdk-host" None (Some 301) None None None None) 2
  = Err PydanticValidationError.
Proof.
  apply (odd_hugepages_escape _ 2 301).
  - by apply lcores_resolve_default.
  - vm_compute. intuition congruence.
  - reflexivity.
  - reflexivity.
Defined.

(** The superscript two. *)
Definition superscript_two : string := String (ascii_of_N 178) "".

Lemma unreported_exceptions_witness :
  derive_effective_dpdk_runtime
    (mkDpdkProcessConfig "dpdk-host" (Some superscript_two) None None None None None) 2
    = Err (ValueError None) ∧
  derive_effective_dpdk_runtime
    (mkDpdkProcessConfig "dpdk-host" None None None None None (Some (2 ^ 1040))) 2
    = Err OverflowError.
Proof.
  split.
  - eapply (proj1 (unreported_exceptions _ 2)); vm_compute; reflexivity.
  - apply (proj2 (unreported_exceptions _ 2)).
    + by apply lcores_resolve_default.
    + vm_compute. intuition congruence.
Defined.
