(* ===== verification/RulesValidation.v ===== *)
(** * Ruleset validation

    [config/validation.py], lines 174-197 and 618-715: the checks on a ruleset,
    standalone or inside a topology. *)

From S2P Require Import Prelude PyStr IpAddress Errors Types Issues.
#[local] Open Scope string_scope.

(** [class ValidatedRuleset] *)
Record ValidatedRuleset : Type := mkValidatedRuleset {
  vr_ruleset : RulesetModel;
  vr_allowed_port_names : gset string;
}.

Definition is_set {A} (o : option A) : bool :=
  match o with Some _ => true | None => false end.

(** [_validate_rule_match] *)
Definition _validate_rule_match (rule : RuleModel) (path_prefix : string) : check unit :=
  let m := rule_match rule in
  emit_if (is_set (match_src_ip m) && is_set (match_src_cidr m))
    (mkIssue (path_prefix +:+ ".match") "conflicting_source_match"
       "src_ip and src_cidr cannot both be set on the same rule");;
  emit_if (is_set (match_dst_ip m) && is_set (match_dst_cidr m))
    (mkIssue (path_prefix +:+ ".match") "conflicting_destination_match"
       "dst_ip and dst_cidr cannot both be set on the same rule");;
  _parse_address (match_src_ip m) (path_prefix +:+ ".match.src_ip") true;;
  _parse_address (match_dst_ip m) (path_prefix +:+ ".match.dst_ip") true;;
  _parse_network (match_src_cidr m) (path_prefix +:+ ".match.src_cidr") true;;
  _parse_network (match_dst_cidr m) (path_prefix +:+ ".match.dst_cidr") true;;
  emit_if
    (bool_decide (match_proto m = Some proto_icmp)
     && (is_set (match_src_port m) || is_set (match_dst_port m)))
    (mkIssue (path_prefix +:+ ".match") "icmp_port_match"
       "icmp rules cannot constrain src_port or dst_port").

(** [_validate_rule_action] *)
Definition _validate_rule_action (action : RuleActionModel) (path : string)
    (allowed_port_names : option (gset string)) : check unit :=
  match action_port action, allowed_port_names with
  | Some port_name, Some allowed =>
      emit_if (bool_decide (port_name ∉ allowed))
        (mkIssue (path +:+ ".port") "unknown_port"
           ("port '" +:+ port_name +:+ "' is not declared in dpdk_ports"))
  | _, _ => mret ()
  end.

(** [_collect_ruleset_issues] *)
Definition duplicate_rule_issue (path_prefix : option string) (index : nat) (rule : RuleModel)
    (first_index : nat) : ValidationIssue :=
  mkIssue (_path_with_prefix path_prefix (at_index "entries" index) +:+ ".id") "duplicate_rule_id"
    ("rule id " +:+ str_of_Z (rule_id rule) +:+ " duplicates the entry at index "
     +:+ str_of_nat first_index).

Definition rule_turn (path_prefix : option string) (allowed_port_names : option (gset string))
    (index : nat) (rule : RuleModel) : check unit :=
  let entry_path := _path_with_prefix path_prefix (at_index "entries" index) in
  _validate_rule_match rule entry_path;;
  _validate_rule_action (rule_action rule) (entry_path +:+ ".action") allowed_port_names.

Definition _collect_ruleset_issues (ruleset : RulesetModel) (path_prefix : option string)
    (allowed_port_names : option (gset string)) : check unit :=
  _validate_rule_action (ruleset_default_action ruleset)
    (_path_with_prefix path_prefix "default_action") allowed_port_names;;
  chk_foldi
    (distinct_body rule_id (duplicate_rule_issue path_prefix)
       (rule_turn path_prefix allowed_port_names))
    0 (ruleset_entries ruleset) ∅;;
  mret ().

(** [validate_ruleset]; [allowed_port_names] is a collection or [None]. *)
Definition validate_ruleset (ruleset : RulesetModel) (allowed_port_names : option (list string))
    : res pyexn ValidatedRuleset :=
  let allowed := (list_to_set : list string → gset string) <$> allowed_port_names in
  raise_if_issues "rules config failed semantic validation" ErrorCode.RULE_VALIDATION_ERROR
    (_collect_ruleset_issues ruleset None allowed;;
     mret (mkValidatedRuleset ruleset (default ∅ allowed))).

(** ** Specification *)

(** At most one of two options is set. *)
Definition exclusive {A B} (a : option A) (b : option B) : Prop := a = None ∨ b = None.

(** An optional literal is absent or parses. *)
Definition parses {V} (parse : string → option V) (o : option string) : Prop :=
  ∀ s, o = Some s → is_Some (parse s).

Record match_ok (m : RuleMatchModel) : Prop := {
  mo_src : exclusive (match_src_ip m) (match_src_cidr m);
  mo_dst : exclusive (match_dst_ip m) (match_dst_cidr m);
  mo_src_ip : parses ip4_address (match_src_ip m);
  mo_dst_ip : parses ip4_address (match_dst_ip m);
  mo_src_cidr : parses ip4_network (match_src_cidr m);
  mo_dst_cidr : parses ip4_network (match_dst_cidr m);
  mo_icmp : match_proto m = Some proto_icmp → match_src_port m = None ∧ match_dst_port m = None;
}.

(** An action names no port, or a known one. *)
Definition action_ok (allowed : option (gset string)) (a : RuleActionModel) : Prop :=
  ∀ p s, action_port a = Some p → allowed = Some s → p ∈ s.

Record ruleset_ok (allowed : option (gset string)) (r : RulesetModel) : Prop := {
  rs_default : action_ok allowed (ruleset_default_action r);
  rs_ids : NoDup (rule_id <$> ruleset_entries r);
  rs_rules : ∀ rule, rule ∈ ruleset_entries r →
    match_ok (rule_match rule) ∧ action_ok allowed (rule_action rule);
}.

(** ** Facts *)

Lemma is_set_and {A B} (a : option A) (b : option B) :
  is_set a && is_set b = false ↔ exclusive a b.
Proof. unfold exclusive. destruct a, b; simpl; naive_solver. Qed.

Lemma parses_opt_ip {V} (parse : string → option V) o :
  (∃ v, opt_ip parse o v) ↔ parses parse o.
Proof. unfold parses, opt_ip, is_Some. destruct o; naive_solver. Qed.

Lemma clean_validate_rule_match rule prefix u :
  clean (_validate_rule_match rule prefix) u ↔ match_ok (rule_match rule).
Proof.
  unfold _validate_rule_match. rewrite !clean_emit_if_bind, !clean_seq, clean_emit_if.
  setoid_rewrite clean_parse_address_opt. setoid_rewrite clean_parse_network_opt.
  rewrite !parses_opt_ip, !is_set_and.
  assert (bool_decide (match_proto (rule_match rule) = Some proto_icmp)
     && (is_set (match_src_port (rule_match rule)) || is_set (match_dst_port (rule_match rule)))
     = false ↔ (match_proto (rule_match rule) = Some proto_icmp →
       match_src_port (rule_match rule) = None ∧ match_dst_port (rule_match rule) = None)) as ->.
  { case_bool_decide; destruct (match_src_port _), (match_dst_port _); simpl; naive_solver. }
  split; [intros (? & ? & ? & ? & ? & ? & ?)|intros []]; by split_and?.
Qed.

Lemma clean_validate_rule_action a path allowed u :
  clean (_validate_rule_action a path allowed) u ↔ action_ok allowed a.
Proof.
  destruct u. unfold _validate_rule_action, action_ok.
  destruct (action_port a) as [p|], allowed as [s|];
    [|rewrite clean_mret; naive_solver..].
  rewrite clean_emit_if, bool_decide_eq_false. split.
  - intros Hp ?? [= <-] [= <-]. by apply dec_stable.
  - intros Hp. specialize (Hp p s eq_refl eq_refl). naive_solver.
Qed.

(** The ruleset checks are clean exactly on the rulesets of the specification. *)
Lemma clean_collect_ruleset r prefix allowed u :
  clean (_collect_ruleset_issues r prefix allowed) u ↔ ruleset_ok allowed r.
Proof.
  destruct u. unfold _collect_ruleset_issues.
  rewrite !clean_seq, clean_distinct_loop, clean_mret.
  setoid_rewrite clean_validate_rule_action. unfold rule_turn.
  setoid_rewrite clean_seq. setoid_rewrite clean_validate_rule_match.
  setoid_rewrite clean_validate_rule_action. split.
  - intros ([_ Hd] & (Hids & Hr) & _). split; [done..|].
    intros rule (j & Hj)%list_elem_of_lookup. destruct (Hr j rule Hj) as [[_ ?] ?]. done.
  - intros [Hd Hids Hr]. split; [by exists ()|]. split; [|done]. split; [done|].
    intros j rule Hj. destruct (Hr rule) as [? ?]; [by eapply list_elem_of_lookup_2|].
    split; [by exists ()|done].
Qed.
