(* ===== verification/TopologyValidation.v ===== *)
(** * Topology validation

    [config/validation.py], lines 57-171 and 371-615: the semantic checks on a
    parsed topology and the entry point [validate_topology_config]. *)

From stdpp Require Import sorting.
From S2P Require Import Prelude PyStr IpAddress Errors Types Issues.
From S2P Require Import RuntimeProfile RulesValidation.
#[local] Open Scope string_scope.

Definition INGRESS_BRIDGE_KERNEL_INTERFACE : string := "veth-in-k".
Definition EGRESS_BRIDGE_KERNEL_INTERFACE : string := "veth-out-k".

(** The two dicts the collectors share and mutate. *)
Abbreviation interface_map := (gmap string (gset string)).
Abbreviation network_map := (gmap string (list IPv4Network)).

(** ** The result *)

(** [tuple(sorted(set(interfaces)))] *)
Definition py_sorted_set (interfaces : list string) : list string :=
  py_sorted (elements (list_to_set interfaces : gset string)).

(** [class ValidatedTopologyConfig] *)
Record ValidatedTopologyConfig : Type := mkValidatedTopology {
  vt_topology : TopologyConfigModel;
  vt_requested_dpdk_config : DpdkProcessConfigModel;
  vt_effective_dpdk_config : EffectiveDpdkRuntimeModel;
  vt_namespace_names : gset string;
  vt_dpdk_port_names : gset string;
  vt_namespace_interfaces : gmap string (list string);
}.

(** [ValidatedTopologyConfig.__post_init__] *)
Definition new_ValidatedTopologyConfig (v : ValidatedTopologyConfig) : ValidatedTopologyConfig :=
  mkValidatedTopology (vt_topology v) (vt_requested_dpdk_config v) (vt_effective_dpdk_config v)
    (vt_namespace_names v) (vt_dpdk_port_names v) (py_sorted_set <$> vt_namespace_interfaces v).

(** ** Links *)

Record link_state : Type := mkLinkState {
  seen_interfaces : gmap (string * string) nat;
  ls_interfaces : interface_map;
  ls_networks : network_map;
}.

(** [interface_names_by_namespace[ns].add(interface)] *)
Definition add_interface (ns interface : string) (m : interface_map) : check interface_map :=
  match m !! ns with
  | Some s => mret (<[ns := {[interface]} ∪ s]> m)
  | None => chk_raise (KeyError ns)
  end.

(** [namespace '...' is not declared in namespaces] *)
Definition unknown_namespace (path ns : string) : ValidationIssue :=
  mkIssue path "unknown_namespace"
    ("namespace '" +:+ ns +:+ "' is not declared in namespaces").

(** One turn of the loop over the two endpoints of a link. *)
Definition register_endpoint (namespace_names : gset string) (index : nat) (path : string)
    (ref : option (string * string)) (st : link_state) : check link_state :=
  match ref with
  | None => mret st
  | Some (ns, interface) =>
      if decide (ns ∈ namespace_names) then
        let '(previous_index, seen) := setdefault (seen_interfaces st) (ns, interface) index in
        emit_if (negb (previous_index =? index)%nat)
          (mkIssue path "interface_reused"
             ("interface '" +:+ ns +:+ ":" +:+ interface +:+ "' is already used by "
              +:+ at_index "links" previous_index));;
        interfaces ← add_interface ns interface (ls_interfaces st);
        mret (mkLinkState seen interfaces (ls_networks st))
      else emit (unknown_namespace path ns);; mret st
  end.

(** [if ref is not None and ref[0] in namespace_names: networks[ref[0]].append(net)] *)
Definition connect (namespace_names : gset string) (ref : option (string * string))
    (net : IPv4Network) (m : network_map) : network_map :=
  match ref with
  | Some (ns, _) =>
      if decide (ns ∈ namespace_names) then <[ns := (default [] (m !! ns) ++ [net])%list]> m else m
  | None => m
  end.

(** The addressing part of a turn, lines 422-459. *)
Definition link_addresses (namespace_names : gset string) (path : string) (link : LinkModel)
    (a_ref b_ref : option (string * string)) (st : link_state) : check link_state :=
  if negb (Bool.eqb (is_set (link_ip_a link)) (is_set (link_ip_b link))) then
    emit (mkIssue path "incomplete_link_addressing"
            "ip_a and ip_b must either both be provided or both be omitted");;
    mret st
  else if negb (is_set (link_ip_a link)) then mret st
  else
    ip_a ← _parse_interface_address (link_ip_a link) (path +:+ ".ip_a");
    ip_b ← _parse_interface_address (link_ip_b link) (path +:+ ".ip_b");
    match ip_a, ip_b with
    | Some ip_a, Some ip_b =>
        if decide (network ip_a = network ip_b) then
          mret (mkLinkState (seen_interfaces st) (ls_interfaces st)
            (connect namespace_names b_ref (network ip_b)
              (connect namespace_names a_ref (network ip_a) (ls_networks st))))
        else
          emit (mkIssue path "mismatched_subnets"
                  "link endpoint addresses must belong to the same IPv4 network");;
          mret st
    | _, _ => mret st
    end.

Definition link_turn (namespace_names : gset string) (index : nat) (link : LinkModel)
    (st : link_state) : check link_state :=
  let path := at_index "links" index in
  a_ref ← _parse_interface_ref (link_a link) (path +:+ ".a");
  b_ref ← _parse_interface_ref (link_b link) (path +:+ ".b");
  emit_if (is_set a_ref && bool_decide (a_ref = b_ref))
    (mkIssue path "self_link" "link endpoints must refer to two different interfaces");;
  st ← register_endpoint namespace_names index (path +:+ ".a") a_ref st;
  st ← register_endpoint namespace_names index (path +:+ ".b") b_ref st;
  link_addresses namespace_names path link a_ref b_ref st.

Definition _collect_link_issues (config : TopologyConfigModel) (namespace_names : gset string)
    (interfaces : interface_map) : check (interface_map * network_map) :=
  _collect_duplicate_names link_name (config_links config) "links";;
  st ← chk_foldi (link_turn namespace_names) 0 (config_links config) (mkLinkState ∅ interfaces ∅);
  mret (ls_interfaces st, ls_networks st).

(** ** Datapath ports *)

(** [roles[role]], with [roles = Counter(port.role for port in ports)]. *)
Definition role_count (role : PortRole) (ports : list DpdkPortModel) : nat :=
  length (filter (λ p, port_role p = role) ports).

Definition port_turn (namespace_names : gset string) (dpdk_namespace : string)
    (index : nat) (port : DpdkPortModel) (m : interface_map) : check interface_map :=
  let path := at_index "dpdk_ports" index in
  if decide (port_namespace port ∈ namespace_names) then
    emit_if (bool_decide (port_namespace port ≠ dpdk_namespace))
      (mkIssue (path +:+ ".namespace") "port_namespace_mismatch"
         ("dpdk port '" +:+ port_name port +:+ "' must live in the datapath namespace '"
          +:+ dpdk_namespace +:+ "', not '" +:+ port_namespace port +:+ "'"));;
    match m !! port_namespace port with
    | None => chk_raise (KeyError (port_namespace port))
    | Some s =>
        if decide (port_name port ∈ s) then
          emit (mkIssue (path +:+ ".name") "interface_name_conflict"
                  ("interface name '" +:+ port_name port +:+ "' is already used in namespace '"
                   +:+ port_namespace port +:+ "'"));;
          mret m
        else add_interface (port_namespace port) (port_name port) m
    end
  else
    emit (unknown_namespace (path +:+ ".namespace") (port_namespace port));; mret m.

Definition _collect_dpdk_port_issues (config : TopologyConfigModel) (namespace_names : gset string)
    (dpdk_namespace : string) (interfaces : interface_map)
    : check (gset string * interface_map) :=
  let ports := config_dpdk_ports config in
  port_names ← _collect_duplicate_names port_name ports "dpdk_ports";
  emit_if (negb ((role_count ingress ports =? 1)%nat && (role_count egress ports =? 1)%nat))
    (mkIssue "dpdk_ports" "invalid_port_roles"
       "dpdk_ports must declare exactly one ingress port and one egress port for the MVP");;
  interfaces ← chk_foldi (port_turn namespace_names dpdk_namespace) 0 ports interfaces;
  mret (port_names, interfaces).

(** ** Routes *)

Definition route_turn (namespace_names : gset string) (networks : network_map)
    (index : nat) (route : RouteModel) (_ : unit) : check unit :=
  let path := at_index "routes" index in
  if decide (route_namespace route ∈ namespace_names) then
    _parse_network (Some (route_dst route)) (path +:+ ".dst") false;;
    via ← _parse_address (Some (route_via route)) (path +:+ ".via") false;
    match via with
    | None => mret ()
    | Some via =>
        match default [] (networks !! route_namespace route) with
        | [] =>
            emit (mkIssue path "unreachable_gateway"
                    ("namespace '" +:+ route_namespace route
                     +:+ "' has no directly addressed links that can reach route via "
                     +:+ route_via route))
        | connected_networks =>
            emit_if (negb (existsb (ip4_in via) connected_networks))
              (mkIssue (path +:+ ".via") "unreachable_gateway"
                 ("gateway '" +:+ route_via route
                  +:+ "' is not reachable from any addressed link in namespace '"
                  +:+ route_namespace route +:+ "'"))
        end
    end
  else emit (unknown_namespace (path +:+ ".namespace") (route_namespace route)).

Definition _collect_route_issues (config : TopologyConfigModel) (namespace_names : gset string)
    (networks : network_map) : check unit :=
  chk_foldi (route_turn namespace_names networks) 0 (config_routes config) ().

(** ** Capture points and bridge-side interfaces *)

Definition capture_turn (namespace_names : gset string) (interfaces : interface_map)
    (index : nat) (cp : CapturePointModel) (_ : unit) : check unit :=
  let path := at_index "capture_points" index in
  if decide (capture_namespace cp ∈ namespace_names) then
    let known_interfaces := default ∅ (interfaces !! capture_namespace cp) in
    emit_if (bool_decide (capture_interface cp ∉ known_interfaces))
      (mkIssue (path +:+ ".interface") "unknown_interface"
         ("interface '" +:+ capture_interface cp +:+ "' is not declared in namespace '"
          +:+ capture_namespace cp +:+ "' through links or dpdk_ports"))
  else emit (unknown_namespace (path +:+ ".namespace") (capture_namespace cp)).

Definition _collect_capture_point_issues (config : TopologyConfigModel)
    (namespace_names : gset string) (interfaces : interface_map) : check unit :=
  _collect_duplicate_names capture_name (config_capture_points config) "capture_points";;
  chk_foldi (capture_turn namespace_names interfaces) 0 (config_capture_points config) ().

Definition bridge_side_turn (dpdk_namespace : string) (bridge_side_interfaces : gset string)
    (_ : nat) (interface_name : string) (_ : unit) : check unit :=
  emit_if (bool_decide (interface_name ∉ bridge_side_interfaces))
    (mkIssue "links" "missing_bridge_side_interface"
       ("dpdk namespace '" +:+ dpdk_namespace +:+ "' must define bridge-side interface '"
        +:+ interface_name +:+ "' through the topology links")).

Definition _collect_bridge_side_interface_issues (dpdk_namespace : string)
    (interfaces : interface_map) : check unit :=
  chk_foldi (bridge_side_turn dpdk_namespace (default ∅ (interfaces !! dpdk_namespace))) 0
    [INGRESS_BRIDGE_KERNEL_INTERFACE; EGRESS_BRIDGE_KERNEL_INTERFACE] ().

(** ** The entry point *)

Definition collect_topology_issues (config : TopologyConfigModel) : check ValidatedTopologyConfig :=
  let dpdkd := processes_dpdkd (config_processes config) in
  let dpdk_namespace := req_namespace dpdkd in
  namespace_names ← _collect_duplicate_names namespace_name (config_namespaces config) "namespaces";
  emit_if (bool_decide (dpdk_namespace ∉ namespace_names))
    (mkIssue "processes.dpdkd.namespace" "unknown_namespace"
       ("dpdkd namespace '" +:+ dpdk_namespace +:+ "' is not declared in namespaces"));;
  '(interfaces, networks) ←
    _collect_link_issues config namespace_names (gset_to_gmap ∅ namespace_names);
  '(dpdk_port_names, interfaces) ←
    _collect_dpdk_port_issues config namespace_names dpdk_namespace interfaces;
  _collect_route_issues config namespace_names networks;;
  _collect_capture_point_issues config namespace_names interfaces;;
  _collect_bridge_side_interface_issues dpdk_namespace interfaces;;
  _collect_ruleset_issues (config_rules config) (Some "rules") (Some dpdk_port_names);;
  effective_dpdk_config ←
    _derive_effective_dpdk_runtime dpdkd (Z.of_nat (length (config_dpdk_ports config)))
      "processes.dpdkd";
  mret (new_ValidatedTopologyConfig
    (mkValidatedTopology config dpdkd effective_dpdk_config namespace_names dpdk_port_names
       (py_sorted ∘ elements <$> interfaces))).

Definition validate_topology_config (config : TopologyConfigModel)
    : res pyexn ValidatedTopologyConfig :=
  raise_if_issues "topology config failed semantic validation"
    ErrorCode.TOPOLOGY_VALIDATION_ERROR (collect_topology_issues config).
