(* ===== verification/TopologySpec.v ===== *)
(** * What a valid topology is

    The specification of [config/validation.py]'s topology checks, stated on
    the configuration alone: no issue list, no shared dict, no loop order.
    The lemmas relate each collector to it; the loop over the links is related
    to the list of endpoints it has seen. *)

From stdpp Require Import sorting.
From S2P Require Import Prelude PyStr IpAddress Errors Types Issues.
From S2P Require Import RuntimeProfile RulesValidation TopologyValidation.
#[local] Open Scope string_scope.
#[local] Open Scope list_scope.

#[local] Arguments _parse_interface_address : simpl never.
#[local] Arguments _parse_interface_ref : simpl never.
#[local] Arguments connect : simpl never.

(** ** Declared interfaces and networks *)

Abbreviation endpoint := (string * string)%type.

(** The interface a reference [ns:interface] names. *)
Definition ref_of (value : string) : option endpoint :=
  match py_partition ":" value with
  | (ns, true, ifc) => if str_empty ns || str_empty ifc then None else Some (ns, ifc)
  | _ => None
  end.

Definition link_endpoints (l : LinkModel) : list endpoint :=
  option_list (ref_of (link_a l)) ++ option_list (ref_of (link_b l)).

Definition address_of (value : option string) : option IPv4Interface :=
  match value with Some s => ip4_interface s | None => None end.

(** The networks an addressed link connects its two namespaces to. *)
Definition link_nets (l : LinkModel) : list (string * IPv4Network) :=
  match ref_of (link_a l), ref_of (link_b l),
        address_of (link_ip_a l), address_of (link_ip_b l) with
  | Some (na, _), Some (nb, _), Some xa, Some xb => [(na, network xa); (nb, network xb)]
  | _, _, _, _ => []
  end.

Definition port_endpoint (p : DpdkPortModel) : endpoint := (port_namespace p, port_name p).

Definition linked_interfaces (c : TopologyConfigModel) : list endpoint :=
  config_links c ≫= link_endpoints.
Definition declared_interfaces (c : TopologyConfigModel) : list endpoint :=
  linked_interfaces c ++ (port_endpoint <$> config_dpdk_ports c).
Definition connected_networks (c : TopologyConfigModel) : list (string * IPv4Network) :=
  config_links c ≫= link_nets.
Definition names_of (c : TopologyConfigModel) : gset string :=
  list_to_set (namespace_name <$> config_namespaces c).
Definition dpdk_ns (c : TopologyConfigModel) : string :=
  req_namespace (processes_dpdkd (config_processes c)).

(** ** Validity *)

(** Neither end is addressed, or both are, in one network. *)
Definition addressing_ok (l : LinkModel) : Prop :=
  (link_ip_a l = None ∧ link_ip_b l = None) ∨
  ∃ sa sb xa xb, link_ip_a l = Some sa ∧ link_ip_b l = Some sb ∧
    ip4_interface sa = Some xa ∧ ip4_interface sb = Some xb ∧ network xa = network xb.

Definition link_ok (names : gset string) (l : LinkModel) : Prop :=
  ∃ a b, ref_of (link_a l) = Some a ∧ ref_of (link_b l) = Some b ∧ a ≠ b ∧
    a.1 ∈ names ∧ b.1 ∈ names ∧ addressing_ok l.

Definition route_ok (names : gset string) (nets : list (string * IPv4Network))
    (r : RouteModel) : Prop :=
  route_namespace r ∈ names ∧ is_Some (ip4_network (route_dst r)) ∧
  ∃ via net, ip4_address (route_via r) = Some via ∧
    (route_namespace r, net) ∈ nets ∧ ip4_in via net = true.

Record topology_ok (c : TopologyConfigModel) (ids : list Z) : Prop := {
  tp_names : NoDup (namespace_name <$> config_namespaces c);
  tp_dpdk : dpdk_ns c ∈ names_of c;
  tp_link_names : NoDup (link_name <$> config_links c);
  tp_links : Forall (link_ok (names_of c)) (config_links c);
  tp_interfaces : NoDup (declared_interfaces c);
  tp_roles : role_count ingress (config_dpdk_ports c) = 1 ∧
             role_count egress (config_dpdk_ports c) = 1;
  tp_ports : Forall (λ p, port_namespace p = dpdk_ns c) (config_dpdk_ports c);
  tp_routes : Forall (route_ok (names_of c) (connected_networks c)) (config_routes c);
  tp_capture_names : NoDup (capture_name <$> config_capture_points c);
  tp_captures : Forall (λ p, capture_namespace p ∈ names_of c ∧
      (capture_namespace p, capture_interface p) ∈ declared_interfaces c)
    (config_capture_points c);
  tp_bridge : (dpdk_ns c, INGRESS_BRIDGE_KERNEL_INTERFACE) ∈ declared_interfaces c ∧
              (dpdk_ns c, EGRESS_BRIDGE_KERNEL_INTERFACE) ∈ declared_interfaces c;
  tp_rules : ruleset_ok (Some (list_to_set (port_name <$> config_dpdk_ports c))) (config_rules c);
  tp_runtime : request_ok (processes_dpdkd (config_processes c))
                 (Z.of_nat (length (config_dpdk_ports c))) ids;
}.

(** ** The shared dicts as functions of the interfaces seen so far *)

Definition interfaces_in (ns : string) (eps : list endpoint) : gset string :=
  list_to_set (filter (λ e, e.1 = ns) eps).*2.
Definition interfaces_of (names : gset string) (eps : list endpoint) : interface_map :=
  map_imap (λ ns _, Some (interfaces_in ns eps)) (gset_to_gmap () names).

Definition add_net (m : network_map) (x : string * IPv4Network) : network_map :=
  <[x.1 := default [] (m !! x.1) ++ [x.2]]> m.
Definition networks_of (nets : list (string * IPv4Network)) : network_map :=
  foldl add_net ∅ nets.

(** The value a valid configuration is turned into. *)
Definition validated_of (c : TopologyConfigModel) (ids : list Z) : ValidatedTopologyConfig :=
  mkValidatedTopology c (processes_dpdkd (config_processes c))
    (profile_of (processes_dpdkd (config_processes c))
       (Z.of_nat (length (config_dpdk_ports c))) ids)
    (names_of c) (list_to_set (port_name <$> config_dpdk_ports c))
    (py_sorted ∘ elements <$> interfaces_of (names_of c) (declared_interfaces c)).

(** ** Facts *)

Lemma elem_of_interfaces_in ns eps i : i ∈ interfaces_in ns eps ↔ (ns, i) ∈ eps.
Proof.
  unfold interfaces_in. rewrite elem_of_list_to_set, list_elem_of_fmap. split.
  - intros ([n j] & -> & [Heq ?]%list_elem_of_filter). simpl in *. by subst.
  - intros H. exists (ns, i). split; [done|]. by apply list_elem_of_filter.
Qed.

Lemma lookup_interfaces_of names eps ns :
  interfaces_of names eps !! ns = if decide (ns ∈ names) then Some (interfaces_in ns eps) else None.
Proof.
  unfold interfaces_of. rewrite map_lookup_imap, lookup_gset_to_gmap.
  unfold guard. by case_decide.
Qed.

Lemma known_interfaces names eps ns i :
  i ∈ default ∅ (interfaces_of names eps !! ns) ↔ ns ∈ names ∧ (ns, i) ∈ eps.
Proof.
  rewrite lookup_interfaces_of. case_decide; simpl; [rewrite elem_of_interfaces_in; naive_solver|].
  set_solver.
Qed.

Lemma interfaces_of_nil names : gset_to_gmap ∅ names = interfaces_of names [].
Proof.
  apply map_eq. intros ns. rewrite lookup_interfaces_of, lookup_gset_to_gmap.
  unfold guard. by case_decide.
Qed.

(** Adding to a declared namespace's set appends to the endpoints. *)
Lemma clean_add_interface names eps ns i m :
  ns ∈ names →
  clean (add_interface ns i (interfaces_of names eps)) m ↔
  m = interfaces_of names (eps ++ [(ns, i)]).
Proof.
  intros Hn. unfold add_interface. rewrite lookup_interfaces_of, decide_True, clean_mret by done.
  assert (<[ns := {[i]} ∪ interfaces_in ns eps]> (interfaces_of names eps)
          = interfaces_of names (eps ++ [(ns, i)])) as ->; [|naive_solver].
  apply map_eq. intros k. rewrite lookup_interfaces_of. destruct (decide (k = ns)) as [->|Hk].
  - rewrite lookup_insert_eq, decide_True by done. f_equal. apply set_eq. intros j.
    rewrite elem_of_union, !elem_of_interfaces_in. set_solver.
  - rewrite lookup_insert_ne, lookup_interfaces_of by done. case_decide; [|done]. f_equal.
    apply set_eq. intros j. rewrite !elem_of_interfaces_in. set_solver.
Qed.

Lemma networks_of_app nets x : networks_of (nets ++ [x]) = add_net (networks_of nets) x.
Proof. unfold networks_of. by rewrite foldl_app. Qed.

Lemma networks_of_app2 nets x y :
  networks_of (nets ++ [x; y]) = add_net (add_net (networks_of nets) x) y.
Proof. unfold networks_of. by rewrite foldl_app. Qed.

Lemma lookup_networks_of nets ns :
  default [] (networks_of nets !! ns) = (filter (λ x, x.1 = ns) nets).*2.
Proof.
  induction nets as [|[n v] nets IH] using rev_ind; [done|].
  rewrite networks_of_app, filter_app, fmap_app. unfold add_net. simpl. rewrite filter_cons.
  destruct (decide (n = ns)) as [->|Hn].
  - rewrite lookup_insert_eq. simpl. rewrite decide_True by done. by rewrite IH.
  - rewrite lookup_insert_ne by done. rewrite decide_False by done. by rewrite IH, app_nil_r.
Qed.

Lemma connect_add_net names ns i net m :
  ns ∈ names → connect names (Some (ns, i)) net m = add_net m (ns, net).
Proof. intros Hn. unfold connect. by rewrite decide_True. Qed.

Lemma ref_of_is_ref value ns ifc : ref_of value = Some (ns, ifc) ↔ is_ref value ns ifc.
Proof.
  unfold ref_of. split.
  - destruct (py_partition ":" value) as [[n sep] i] eqn:Hp. destruct sep; [|done].
    destruct (str_empty n) eqn:Hn, (str_empty i) eqn:Hi; try done. simpl. intros [= -> ->].
    rewrite str_empty_false in Hn, Hi. apply py_partition_true in Hp as [-> ?]. done.
  - intros (-> & Hns & Hne & Hie). rewrite py_partition_app by done.
    apply str_empty_false in Hne as ->, Hie as ->. done.
Qed.

Lemma clean_parse_ref value path o :
  clean (_parse_interface_ref value path) o ↔ ∃ a, o = Some a ∧ ref_of value = Some a.
Proof.
  rewrite clean_parse_interface_ref. split.
  - intros (ns & i & -> & ?%ref_of_is_ref). eauto.
  - intros ([ns i] & -> & ?%ref_of_is_ref). eauto.
Qed.

(** ** The loop over the links *)

Section links.
Context (names : gset string).

(** The state of the loop after turns that registered [eps] and [nets]. *)
Definition loop_state (seen : gmap endpoint nat) (eps : list endpoint)
    (nets : list (string * IPv4Network)) : link_state :=
  mkLinkState seen (interfaces_of names eps) (networks_of nets).

(** [seen] holds the endpoints of [eps], with indices of turns up to [i]. *)
Definition seen_ok (i : nat) (seen : gmap endpoint nat) (eps : list endpoint) : Prop :=
  (∀ e, is_Some (seen !! e) ↔ e ∈ eps) ∧ map_Forall (λ _ j, (j <= i)%nat) seen.

Lemma seen_ok_insert i seen eps e :
  seen_ok i seen eps → seen_ok i (<[e := i]> seen) (eps ++ [e]).
Proof.
  intros [Hs Hi]. split; [|by apply map_Forall_insert_2].
  intros e'. rewrite lookup_insert_is_Some', Hs. set_solver.
Qed.

(** An endpoint is registered silently when its namespace is declared and no
    earlier link uses it. *)
Lemma clean_register_endpoint i path e seen eps nets st :
  seen_ok i seen eps → seen !! e ≠ Some i →
  clean (register_endpoint names i path (Some e) (loop_state seen eps nets)) st ↔
  e.1 ∈ names ∧ (e ∉ eps) ∧ st = loop_state (<[e := i]> seen) (eps ++ [e]) nets.
Proof.
  intros [Hs Hi] Hnew. destruct e as [ns ifc]. unfold register_endpoint. case_decide as Hn.
  2:{ rewrite clean_emit_bind. naive_solver. }
  unfold setdefault. simpl. rewrite <- Hs, <- eq_None_not_Some.
  destruct (seen !! (ns, ifc)) as [j|] eqn:Hj.
  - assert ((j =? i)%nat = false) as ->.
    { apply Nat.eqb_neq. intros ->. by apply Hnew. }
    rewrite clean_emit_if_bind. naive_solver.
  - rewrite Nat.eqb_refl, clean_emit_if_bind, clean_bind. cbn [ls_interfaces loop_state].
    split.
    + intros (_ & m & Hm & Hst). apply clean_add_interface in Hm as ->; [|done].
      rewrite clean_mret in Hst. naive_solver.
    + intros (_ & _ & ->). split; [done|]. eexists.
      split; [by apply clean_add_interface|]. by rewrite clean_mret.
Qed.

Lemma clean_link_addresses path l a b seen eps nets st :
  ref_of (link_a l) = Some a → ref_of (link_b l) = Some b → a.1 ∈ names → b.1 ∈ names →
  clean (link_addresses names path l (Some a) (Some b) (loop_state seen eps nets)) st ↔
  addressing_ok l ∧ st = loop_state seen eps (nets ++ link_nets l).
Proof.
  intros Ha Hb Hna Hnb. unfold link_addresses, addressing_ok, link_nets. rewrite Ha, Hb.
  destruct a as [na ia], b as [nb ib].
  destruct (link_ip_a l) as [sa|], (link_ip_b l) as [sb|]; simpl.
  2,3: rewrite clean_emit_bind; naive_solver.
  2: rewrite clean_mret, app_nil_r; naive_solver.
  split.
  - intros (oa & (xa & -> & Hxa)%clean_parse_interface_address & Hc)%clean_bind.
    apply clean_bind in Hc as (ob & (xb & -> & Hxb)%clean_parse_interface_address & Hc).
    rewrite Hxa, Hxb. simpl in *. case_decide as Heq; [|by rewrite clean_emit_bind in Hc].
    rewrite !(connect_add_net names), clean_mret in Hc by done. split; [naive_solver|].
    subst st. unfold loop_state. simpl. f_equal.
    by rewrite networks_of_app2.
  - intros [[[? ?]|(? & ? & xa & xb & [= <-] & [= <-] & Hxa & Hxb & Heq)] ->]; [done|].
    apply clean_bind. exists (Some xa). split; [apply clean_parse_interface_address; by exists xa|].
    apply clean_bind. exists (Some xb). split; [apply clean_parse_interface_address; by exists xb|].
    rewrite Hxa, Hxb, decide_True, !(connect_add_net names), clean_mret by done.
    unfold loop_state. simpl. f_equal. by rewrite networks_of_app2.
Qed.

(** The endpoints [seen] holds after a turn. *)
Definition see (i : nat) (seen : gmap endpoint nat) (eps : list endpoint) : gmap endpoint nat :=
  foldl (λ m e, <[e := i]> m) seen eps.

Lemma clean_link_turn i l seen eps nets st :
  seen_ok i seen eps → (∀ e, seen !! e ≠ Some i) →
  clean (link_turn names i l (loop_state seen eps nets)) st ↔
  link_ok names l ∧ (∀ e, e ∈ link_endpoints l → e ∉ eps) ∧
  st = loop_state (see i seen (link_endpoints l)) (eps ++ link_endpoints l)
         (nets ++ link_nets l).
Proof.
  intros Hs Hnew. unfold link_turn, link_ok. rewrite clean_bind.
  setoid_rewrite clean_parse_ref. setoid_rewrite clean_bind. setoid_rewrite clean_parse_ref.
  split.
  - intros (_ & (a & -> & Ha) & _ & (b & -> & Hb) & Hc).
    apply clean_emit_if_bind in Hc as [Hab Hc].
    apply bool_decide_eq_false in Hab. assert (a ≠ b) by naive_solver.
    apply clean_bind in Hc as (st1 & Hc1 & Hc).
    apply clean_register_endpoint in Hc1 as (Hna & Hae & ->); [|done..].
    apply clean_bind in Hc as (st2 & Hc2 & Hc).
    apply clean_register_endpoint in Hc2 as (Hnb & Hbe & ->);
      [|by apply seen_ok_insert|by rewrite lookup_insert_ne].
    apply clean_link_addresses in Hc as (Haddr & ->); [|done..].
    split; [naive_solver|]. unfold link_endpoints. rewrite Ha, Hb. simpl.
    rewrite <- app_assoc. split; [set_solver|done].
  - intros ((a & b & Ha & Hb & Hab & Hna & Hnb & Haddr) & He & ->).
    unfold link_endpoints in He. rewrite Ha, Hb in He. simpl in He.
    exists (Some a). split; [by eauto|]. exists (Some b). split; [by eauto|].
    apply clean_emit_if_bind. split; [apply bool_decide_eq_false; naive_solver|].
    apply clean_bind. eexists. split.
    { apply clean_register_endpoint; [done..|]. split_and!; [done|set_solver|done]. }
    apply clean_bind. eexists. split.
    { apply clean_register_endpoint; [by apply seen_ok_insert|by rewrite lookup_insert_ne|].
      split_and!; [done|set_solver|done]. }
    apply clean_link_addresses; [done..|]. split; [done|]. unfold link_endpoints.
    rewrite Ha, Hb. simpl. by rewrite <- app_assoc.
Qed.


Lemma lookup_see i seen eps e j :
  see i seen eps !! e = Some j → j = i ∨ seen !! e = Some j.
Proof.
  revert seen. induction eps as [|e' eps IH]; intros seen; [by right|]. simpl.
  intros [?|Hj]%IH; [by left|]. apply lookup_insert_Some in Hj. naive_solver.
Qed.

Lemma see_ok i seen eps eps' :
  seen_ok i seen eps → seen_ok i (see i seen eps') (eps ++ eps').
Proof.
  revert seen eps. induction eps' as [|e eps' IH]; intros seen eps Hs.
  { by rewrite app_nil_r. }
  simpl. change (e :: eps') with ([e] ++ eps'). rewrite app_assoc.
  by apply IH, seen_ok_insert.
Qed.

(** The loop is silent exactly when every link is valid and no interface
    is used twice, and then its state is determined by the links. *)
Lemma clean_link_loop links i seen eps nets st :
  seen_ok i seen eps → (∀ e, seen !! e ≠ Some i) →
  clean (chk_foldi (link_turn names) i links (loop_state seen eps nets)) st →
  Forall (link_ok names) links ∧ NoDup (links ≫= link_endpoints) ∧
  (∀ e, e ∈ links ≫= link_endpoints → e ∉ eps) ∧
  ∃ seen', st = loop_state seen' (eps ++ links ≫= link_endpoints) (nets ++ links ≫= link_nets).
Proof.
  revert i seen eps nets. induction links as [|l links IH]; intros i seen eps nets Hs Hnew.
  { rewrite clean_foldi_nil. intros <-. rewrite !app_nil_r. split_and!; [done|constructor|set_solver|].
    by exists seen. }
  rewrite clean_foldi_cons. intros (st1 & (Hl & He & ->)%clean_link_turn & Hc); [|done..].
  apply IH in Hc as (Hls & Hnd & Hes & seen' & ->).
  - rewrite !bind_cons. split; [by constructor|].
    split; [apply NoDup_app; split_and!; [|set_solver|done]|].
    { destruct Hl as (a & b & Ha & Hb & Hab & _). unfold link_endpoints. rewrite Ha, Hb.
      repeat constructor; set_solver. }
    split; [set_solver|]. exists seen'. by rewrite !app_assoc.
  - destruct (see_ok _ _ _ (link_endpoints l) Hs) as [? Hi]. split; [done|].
    eapply map_Forall_impl; [done|]. simpl. lia.
  - intros e Hj. destruct (see_ok _ _ _ (link_endpoints l) Hs) as [_ Hi].
    pose proof (map_Forall_lookup_1 _ _ _ _ Hi Hj). simpl in *. lia.
Qed.

Lemma clean_link_loop_2 links i seen eps nets :
  seen_ok i seen eps → (∀ e, seen !! e ≠ Some i) →
  Forall (link_ok names) links → NoDup (links ≫= link_endpoints) →
  (∀ e, e ∈ links ≫= link_endpoints → e ∉ eps) →
  ∃ st, clean (chk_foldi (link_turn names) i links (loop_state seen eps nets)) st.
Proof.
  revert i seen eps nets. induction links as [|l links IH]; intros i seen eps nets Hs Hnew.
  { setoid_rewrite clean_foldi_nil. by eexists. }
  rewrite bind_cons, NoDup_app. intros [Hl Hls]%Forall_cons (_ & Hdis & Hnd) Hes.
  destruct (see_ok _ _ _ (link_endpoints l) Hs) as [Hdom Hi].
  edestruct (IH (S i)) as [st Hst]; [split; [done|]| |done|done| |].
  - eapply map_Forall_impl; [done|]. simpl. lia.
  - intros e Hj. pose proof (map_Forall_lookup_1 _ _ _ _ Hi Hj). simpl in *. lia.
  - intros e He. rewrite elem_of_app. set_solver.
  - exists st. apply clean_foldi_cons. eexists. split; [|done].
    apply clean_link_turn; [done..|]. split; [done|]. split; [set_solver|done].
Qed.
End links.

(** ** The collectors *)

Section collectors.
Context (c : TopologyConfigModel).

Lemma clean_collect_link names r :
  clean (_collect_link_issues c names (gset_to_gmap ∅ names)) r ↔
  NoDup (link_name <$> config_links c) ∧ Forall (link_ok names) (config_links c) ∧
  NoDup (linked_interfaces c) ∧
  r = (interfaces_of names (linked_interfaces c), networks_of (connected_networks c)).
Proof.
  unfold _collect_link_issues. rewrite interfaces_of_nil.
  change (mkLinkState ∅ _ ∅) with (loop_state names ∅ [] []).
  assert (seen_ok 0 ∅ []) as Hs by (split; [|apply map_Forall_empty];
    intros e; rewrite lookup_empty; split; [intros []%is_Some_None|intros []%elem_of_nil]).
  assert (∀ e : endpoint, (∅ : gmap endpoint nat) !! e ≠ Some 0) as Hnew by done. split.
  - intros (ns & (Hnd & _)%clean_collect_duplicate_names & Hc)%clean_bind.
    apply clean_bind in Hc as (st & (? & ? & _ & seen & ->)%clean_link_loop & Hr); [|done..].
    rewrite clean_mret in Hr. done.
  - intros (Hnames & Hls & Hnd & ->). apply clean_bind. eexists.
    split; [by apply clean_collect_duplicate_names|]. apply clean_bind.
    destruct (clean_link_loop_2 names (config_links c) 0 ∅ [] [] Hs Hnew) as [st Hst];
      [done|done|set_solver|].
    exists st. split; [done|]. apply clean_link_loop in Hst as (_ & _ & _ & seen & ->); [|done..].
    by rewrite clean_mret.
Qed.

Lemma clean_port_turn names dpdk i p eps m :
  clean (port_turn names dpdk i p (interfaces_of names eps)) m ↔
  port_namespace p ∈ names ∧ port_namespace p = dpdk ∧ (port_endpoint p ∉ eps) ∧
  m = interfaces_of names (eps ++ [port_endpoint p]).
Proof.
  unfold port_turn, port_endpoint. case_decide as Hn; [|rewrite clean_emit_bind; naive_solver].
  rewrite clean_emit_if_bind, bool_decide_eq_false, lookup_interfaces_of, decide_True by done.
  case_decide as Hi; rewrite elem_of_interfaces_in in Hi.
  - rewrite clean_emit_bind. naive_solver.
  - rewrite clean_add_interface by done. split; [|naive_solver].
    intros [Hd%dec_stable ->]. done.
Qed.

Lemma clean_port_loop names dpdk i ports eps m :
  clean (chk_foldi (port_turn names dpdk) i ports (interfaces_of names eps)) m ↔
  Forall (λ p, port_namespace p ∈ names ∧ port_namespace p = dpdk) ports ∧
  NoDup (port_endpoint <$> ports) ∧ (∀ e, e ∈ port_endpoint <$> ports → e ∉ eps) ∧
  m = interfaces_of names (eps ++ (port_endpoint <$> ports)).
Proof.
  revert i eps. induction ports as [|p ports IH]; intros i eps.
  { rewrite clean_foldi_nil, app_nil_r. split; [|naive_solver]. intros <-.
    split_and!; [done|constructor|set_solver|done]. }
  rewrite clean_foldi_cons, Forall_cons, fmap_cons, NoDup_cons.
  setoid_rewrite clean_port_turn. split.
  - intros (m1 & (Hn & Hd & He & ->) & (Hps & Hnd & Hes & ->)%IH).
    setoid_rewrite not_elem_of_app in Hes. rewrite <- app_assoc.
    split_and!; [done..| |done| |done].
    + intros Hp. apply Hes in Hp as [_ Hp]. by apply Hp, list_elem_of_singleton.
    + intros e [->|He']%elem_of_cons; [done|]. by apply Hes.
  - intros ([[Hn Hd] Hps] & [Hp Hnd] & Hes & ->). eexists.
    split; [split_and!; [done|done|by apply Hes; left|done]|]. apply IH.
    rewrite <- app_assoc. split_and!; [done|done| |done].
    intros e He. apply not_elem_of_app. split; [apply Hes; by right|].
    intros ->%list_elem_of_singleton. done.
Qed.

Lemma clean_route_turn names nets i r u :
  clean (route_turn names (networks_of nets) i r u) () ↔ route_ok names nets r.
Proof.
  unfold route_turn, route_ok. case_decide as Hn; [|rewrite clean_emit; naive_solver].
  rewrite lookup_networks_of.
  assert (∀ via, existsb (ip4_in via) (filter (λ x, x.1 = route_namespace r) nets).*2 = true ↔
    ∃ net, (route_namespace r, net) ∈ nets ∧ ip4_in via net = true) as Hex.
  { intros via. rewrite existsb_exists. setoid_rewrite <- list_elem_of_In.
    setoid_rewrite list_elem_of_fmap. setoid_rewrite list_elem_of_filter. split.
    - intros (net & ([n net'] & -> & [Hn' Hin]) & Hv). simpl in *. subst. eauto.
    - intros (net & Hin & Hv). exists net. split; [|done]. by exists (route_namespace r, net). }
  destruct (filter _ nets).*2 as [|n ns] eqn:Hf.
  - split; [|intros (_ & _ & via & net & _ & Hin & Hv); exfalso;
      assert (false = true) by (apply (Hex via); eauto); done].
    intros (o & _ & Hc)%clean_bind. apply clean_bind in Hc as (v & Hv & Hc).
    apply clean_parse_address_req in Hv as (? & -> & _). by rewrite clean_emit in Hc.
  - split.
    + intros (o & (net & -> & Hnet)%clean_parse_network_req & Hc)%clean_bind.
      apply clean_bind in Hc as (v & (via & -> & Hvia)%clean_parse_address_req & Hc).
      rewrite clean_emit_if, negb_false_iff, Hex in Hc. naive_solver.
    + intros (_ & [net Hnet] & via & net' & Hvia & Hin & Hv). apply clean_bind. exists (Some net).
      split; [apply clean_parse_network_req; eauto|]. apply clean_bind. exists (Some via).
      split; [apply clean_parse_address_req; eauto|].
      rewrite clean_emit_if, negb_false_iff, Hex. eauto.
Qed.

Lemma clean_capture_turn names eps i p u :
  clean (capture_turn names (interfaces_of names eps) i p u) () ↔
  capture_namespace p ∈ names ∧ (capture_namespace p, capture_interface p) ∈ eps.
Proof.
  unfold capture_turn. case_decide as Hn; [|rewrite clean_emit; naive_solver].
  rewrite clean_emit_if, bool_decide_eq_false, known_interfaces. split; [|naive_solver].
  by intros ?%dec_stable.
Qed.
End collectors.

(** A loop of independent checks over a list. *)
Lemma clean_foldi_Forall {E I A} (P : A → Prop) (body : nat → A → unit → chk E I unit) i l u :
  (∀ j x, clean (body j x ()) () ↔ P x) →
  clean (chk_foldi body i l ()) u ↔ Forall P l.
Proof.
  intros HP. rewrite clean_foldi_unit, Forall_lookup. split; intros H j x Hj.
  - by eapply HP, H.
  - by eapply HP, H.
Qed.

Lemma clean_collect_bridge names eps dpdk u :
  clean (_collect_bridge_side_interface_issues dpdk (interfaces_of names eps)) u ↔
  dpdk ∈ names ∧ (dpdk, INGRESS_BRIDGE_KERNEL_INTERFACE) ∈ eps ∧
  (dpdk, EGRESS_BRIDGE_KERNEL_INTERFACE) ∈ eps.
Proof.
  unfold _collect_bridge_side_interface_issues.
  rewrite (clean_foldi_Forall (λ i, dpdk ∈ names ∧ (dpdk, i) ∈ eps)).
  - rewrite !Forall_cons, Forall_nil. naive_solver.
  - intros j x. unfold bridge_side_turn.
    rewrite clean_emit_if, bool_decide_eq_false, known_interfaces. split; [|naive_solver].
    by intros ?%dec_stable.
Qed.

Lemma py_sorted_set_sort (s : gset string) :
  py_sorted_set (py_sorted (elements s)) = py_sorted (elements s).
Proof.
  unfold py_sorted_set, py_sorted. f_equal. f_equal. apply set_eq. intros x.
  by rewrite elem_of_list_to_set, merge_sort_Permutation, elem_of_elements.
Qed.

(** ** The whole check *)

Lemma ports_ok_interfaces c :
  NoDup (declared_interfaces c) → Forall (λ p, port_namespace p = dpdk_ns c) (config_dpdk_ports c) →
  NoDup (port_name <$> config_dpdk_ports c).
Proof.
  intros Hnd%NoDup_app Hps. destruct Hnd as (_ & _ & Hnd). induction Hps as [|p ports Hp Hps IH].
  { constructor. }
  rewrite !fmap_cons, !NoDup_cons in *. destruct Hnd as [Hnew Hnd]. split; [|by apply IH].
  intros (q & Hq & Hin)%list_elem_of_fmap. apply Hnew. apply list_elem_of_fmap. exists q.
  split; [|done]. rewrite Forall_forall in Hps. specialize (Hps q Hin). unfold port_endpoint.
  congruence.
Qed.

Lemma clean_collect_ports c r :
  clean (_collect_dpdk_port_issues c (names_of c) (dpdk_ns c)
           (interfaces_of (names_of c) (linked_interfaces c))) r ↔
  NoDup (port_name <$> config_dpdk_ports c) ∧
  (role_count ingress (config_dpdk_ports c) = 1 ∧ role_count egress (config_dpdk_ports c) = 1) ∧
  Forall (λ p, port_namespace p ∈ names_of c ∧ port_namespace p = dpdk_ns c)
    (config_dpdk_ports c) ∧
  NoDup (port_endpoint <$> config_dpdk_ports c) ∧
  (∀ e, e ∈ port_endpoint <$> config_dpdk_ports c → e ∉ linked_interfaces c) ∧
  r = (list_to_set (port_name <$> config_dpdk_ports c),
       interfaces_of (names_of c) (declared_interfaces c)).
Proof.
  unfold _collect_dpdk_port_issues. split.
  - intros (ns & (Hnd & ->)%clean_collect_duplicate_names & Hc)%clean_bind.
    apply clean_emit_if_bind in Hc as [Hroles Hc].
    apply negb_false_iff, andb_true_iff in Hroles as [?%Nat.eqb_eq ?%Nat.eqb_eq].
    apply clean_bind in Hc as (m & (? & ? & ? & ->)%clean_port_loop & Hr).
    by rewrite clean_mret in Hr.
  - intros (Hnd & (Hi & He) & Hps & Hne & Hdis & ->). apply clean_bind. eexists.
    split; [by apply clean_collect_duplicate_names|]. apply clean_emit_if_bind.
    rewrite Hi, He. split; [done|]. apply clean_bind. eexists.
    split; [by apply clean_port_loop|]. by rewrite clean_mret.
Qed.

Lemma clean_collect_capture c u :
  clean (_collect_capture_point_issues c (names_of c)
           (interfaces_of (names_of c) (declared_interfaces c))) u ↔
  NoDup (capture_name <$> config_capture_points c) ∧
  Forall (λ p, capture_namespace p ∈ names_of c ∧
    (capture_namespace p, capture_interface p) ∈ declared_interfaces c) (config_capture_points c).
Proof.
  unfold _collect_capture_point_issues. rewrite clean_seq.
  setoid_rewrite clean_collect_duplicate_names.
  rewrite (clean_foldi_Forall (λ p, capture_namespace p ∈ names_of c ∧
    (capture_namespace p, capture_interface p) ∈ declared_interfaces c));
    [|intros; apply clean_capture_turn].
  naive_solver.
Qed.

Lemma clean_collect_routes c u :
  clean (_collect_route_issues c (names_of c) (networks_of (connected_networks c))) u ↔
  Forall (route_ok (names_of c) (connected_networks c)) (config_routes c).
Proof. apply clean_foldi_Forall. intros. apply clean_route_turn. Qed.

Lemma clean_collect_topology c v :
  clean (collect_topology_issues c) v ↔ ∃ ids, topology_ok c ids ∧ v = validated_of c ids.
Proof.
  unfold collect_topology_issues. fold (dpdk_ns c). split.
  - intros (ns & (Hnames & ->)%clean_collect_duplicate_names & Hc)%clean_bind.
    fold (names_of c) in Hc. apply clean_emit_if_bind in Hc as [Hdpdk%bool_decide_eq_false Hc].
    apply dec_stable in Hdpdk.
    apply clean_bind in Hc as (r & (Hln & Hls & Hlnd & ->)%clean_collect_link & Hc).
    apply clean_bind in Hc as (r & (Hpn & Hroles & Hps & Hpe & Hdis & ->)%clean_collect_ports & Hc).
    rewrite !clean_seq in Hc. destruct Hc as ((? & Hroutes%clean_collect_routes) &
      (? & Hcap%clean_collect_capture) & (? & Hbr%clean_collect_bridge) &
      (? & Hrules%clean_collect_ruleset) & Hc).
    apply clean_bind in Hc as (e & (ids & Hreq & ->)%clean_derive & Hv).
    rewrite clean_mret in Hv. exists ids. split; [constructor; try naive_solver|].
    + apply NoDup_app. split_and!; [done| |done]. intros e He He'. by eapply Hdis.
    + eapply Forall_impl; [apply Hps|naive_solver].
    + subst v. unfold new_ValidatedTopologyConfig, validated_of. cbn. f_equal.
      rewrite <- map_fmap_compose. apply map_fmap_ext. intros i s _. apply py_sorted_set_sort.
  - intros (ids & H & ->). destruct H.
    pose proof (ports_ok_interfaces c tp_interfaces0 tp_ports0) as Hpn.
    apply NoDup_app in tp_interfaces0 as (Hlnd & Hdis & Hpe).
    apply clean_bind. eexists. split; [by apply clean_collect_duplicate_names|].
    fold (names_of c). apply clean_emit_if_bind.
    split; [by apply bool_decide_eq_false; intros Hn|].
    apply clean_bind. eexists. split; [by apply clean_collect_link|].
    apply clean_bind. eexists. split.
    { apply clean_collect_ports. split; [done|]. split; [done|].
      split; [eapply Forall_impl; [exact tp_ports0|]; by intros p ->|].
      split; [done|]. split; [|done]. intros e He He'. by eapply Hdis. }
    rewrite !clean_seq. repeat split.
    + exists (). by apply clean_collect_routes.
    + exists (). by apply clean_collect_capture.
    + exists (). apply clean_collect_bridge. naive_solver.
    + exists (). by apply clean_collect_ruleset.
    + apply clean_bind. eexists. split; [apply clean_derive; eauto|]. rewrite clean_mret.
      unfold new_ValidatedTopologyConfig, validated_of. cbn. f_equal.
      rewrite <- map_fmap_compose. apply map_fmap_ext. intros i s _. apply py_sorted_set_sort.
Qed.
