(* ===== verification/TopologyProps.v ===== *)
(** * Properties of the topology and ruleset validation

    Acceptance is exactly the specification of [TopologySpec]; the exceptions
    that can escape are listed; and what acceptance gives the components that
    build the topology is stated. *)

From stdpp Require Import sorting.
From S2P Require Import Prelude PyStr IpAddress Errors Types Issues.
From S2P Require Import RuntimeProfile RuntimeProps RulesValidation TopologyValidation TopologySpec.
#[local] Open Scope string_scope.

(** ** Exceptions the validators let through *)

(** The exceptions that are not [ValidationError]. *)
Definition escape (e : pyexn) : Prop :=
  e = ValueError None ∨ e = PydanticValidationError ∨ e = OverflowError.

Section safe.
Context (P : pyexn → Prop).

Lemma safe_distinct_body {A K} `{Countable K} (key : A → K) report turn i (x : A)
    (seen : gmap K nat) :
  (∀ i x, safe P (λ _, True) (turn i x : check unit)) →
  safe P (λ _, True) (distinct_body key report turn i x seen).
Proof. intros Ht. unfold distinct_body. destruct (setdefault _ _ _). auto with safe. Qed.

Lemma safe_collect_duplicate_names {A} (get_name : A → string) items prefix :
  safe P (λ names, names = list_to_set (get_name <$> items))
    (_collect_duplicate_names get_name items prefix).
Proof.
  unfold _collect_duplicate_names. apply safe_seq; [|by apply safe_mret].
  apply safe_foldi; [|done]. intros. by apply safe_distinct_body.
Qed.

Lemma safe_parse_interface_ref value path :
  safe P (λ _, True) (_parse_interface_ref value path).
Proof.
  unfold _parse_interface_ref. destruct (py_partition _ _) as [[? ?] ?].
  case_match; auto with safe.
Qed.

Lemma safe_report_ip {V4} (r : ip_result V4) value path code kind family :
  safe P (λ _, True) (report_ip r value path code kind family).
Proof. destruct r; simpl; auto with safe. Qed.

Lemma safe_parse_interface_address value path :
  safe P (λ _, True) (_parse_interface_address value path).
Proof. destruct value; simpl; auto using safe_report_ip with safe. Qed.

Lemma safe_parse_address value path optional :
  safe P (λ _, True) (_parse_address value path optional).
Proof.
  destruct value, optional; simpl; auto using safe_report_ip with safe.
  all: unfold _missing_value_issue; auto with safe.
Qed.

Lemma safe_parse_network value path optional :
  safe P (λ _, True) (_parse_network value path optional).
Proof.
  destruct value, optional; simpl; auto using safe_report_ip with safe.
  all: unfold _missing_value_issue; auto with safe.
Qed.

Lemma safe_collect_ruleset ruleset prefix allowed :
  safe P (λ _, True) (_collect_ruleset_issues ruleset prefix allowed).
Proof.
  assert (∀ a path, safe P (λ _, True) (_validate_rule_action a path allowed)) as Ha.
  { intros a path. unfold _validate_rule_action. repeat case_match; auto with safe. }
  unfold _collect_ruleset_issues. apply safe_seq; [done|]. apply safe_seq; [|done].
  apply safe_foldi; [|done]. intros. apply safe_distinct_body. intros.
  unfold rule_turn, _validate_rule_match.
  repeat (apply safe_seq || apply safe_emit_if || apply safe_parse_address
          || apply safe_parse_network || apply Ha).
Qed.

(** Every declared namespace has its set of interface names. *)
Definition keyed (names : gset string) (m : interface_map) : Prop :=
  ∀ ns, ns ∈ names → is_Some (m !! ns).

Lemma safe_add_interface names ns i m :
  ns ∈ names → keyed names m → safe P (keyed names) (add_interface ns i m).
Proof.
  intros Hn Hm. unfold add_interface. destruct (Hm ns Hn) as [s ->].
  apply safe_mret. intros ns' Hn'. apply lookup_insert_is_Some'. auto.
Qed.

Lemma safe_register_endpoint names i path ref st :
  keyed names (ls_interfaces st) →
  safe P (λ st', keyed names (ls_interfaces st')) (register_endpoint names i path ref st).
Proof.
  intros Hk. unfold register_endpoint. destruct ref as [[ns ifc]|]; [|done].
  case_decide; [|by apply safe_seq]. destruct (setdefault _ _ _).
  apply safe_seq; [apply safe_emit_if|].
  eapply safe_bind; [by apply (safe_add_interface names)|]. intros m Hm. by apply safe_mret.
Qed.

Lemma safe_link_addresses names path l a b st :
  keyed names (ls_interfaces st) →
  safe P (λ st', keyed names (ls_interfaces st')) (link_addresses names path l a b st).
Proof.
  intros Hk. unfold link_addresses. repeat case_match; auto with safe.
  eapply safe_bind; [apply safe_parse_interface_address|]. intros oa _.
  eapply safe_bind; [apply safe_parse_interface_address|]. intros ob _.
  destruct oa, ob; auto with safe. case_decide; auto with safe.
Qed.

Lemma safe_collect_link c names m :
  keyed names m → safe P (λ r, keyed names r.1) (_collect_link_issues c names m).
Proof.
  intros Hm. unfold _collect_link_issues. apply safe_seq.
  { by eapply safe_impl; [apply safe_collect_duplicate_names|]. }
  eapply safe_bind;
    [apply (safe_foldi _ (λ st, keyed names (ls_interfaces st)))|by intros; apply safe_mret].
  - intros j l st Hst. unfold link_turn.
    eapply safe_bind; [apply safe_parse_interface_ref|]. intros a _.
    eapply safe_bind; [apply safe_parse_interface_ref|]. intros b _.
    apply safe_seq; [apply safe_emit_if|].
    eapply safe_bind; [by apply safe_register_endpoint|]. intros st1 H1.
    eapply safe_bind; [by apply safe_register_endpoint|]. intros st2 H2.
    by apply safe_link_addresses.
  - done.
Qed.

Lemma safe_collect_ports c names dpdk m :
  keyed names m → safe P (λ r, keyed names r.2) (_collect_dpdk_port_issues c names dpdk m).
Proof.
  intros Hm. unfold _collect_dpdk_port_issues.
  eapply safe_bind; [apply safe_collect_duplicate_names|]. intros ports _.
  apply safe_seq; [apply safe_emit_if|].
  eapply safe_bind; [apply (safe_foldi _ (keyed names))|by intros; apply safe_mret]; [|done].
  intros j p m' Hm'. unfold port_turn. case_decide as Hn; [|by apply safe_seq].
  apply safe_seq; [apply safe_emit_if|]. destruct (Hm' _ Hn) as [s Hs]. rewrite Hs.
  case_decide; [by apply safe_seq|]. by apply safe_add_interface.
Qed.

Lemma safe_collect_routes c names nets :
  safe P (λ _, True) (_collect_route_issues c names nets).
Proof.
  apply safe_foldi; [|done]. intros j r u _. unfold route_turn. case_decide; [|done].
  apply safe_seq; [apply safe_parse_network|].
  eapply safe_bind; [apply safe_parse_address|]. intros via _.
  repeat case_match; auto with safe.
Qed.

Lemma safe_collect_capture c names m :
  safe P (λ _, True) (_collect_capture_point_issues c names m).
Proof.
  unfold _collect_capture_point_issues. apply safe_seq.
  { by eapply safe_impl; [apply safe_collect_duplicate_names|]. }
  apply safe_foldi; [|done]. intros. unfold capture_turn. case_decide; auto with safe.
Qed.

Lemma safe_collect_bridge dpdk m :
  safe P (λ _, True) (_collect_bridge_side_interface_issues dpdk m).
Proof. apply safe_foldi; [|done]. intros. apply safe_emit_if. Qed.

Lemma keyed_start names : keyed names (gset_to_gmap ∅ names).
Proof. intros ns Hn. exists ∅. by apply lookup_gset_to_gmap_Some. Qed.
End safe.

Lemma safe_int_or_raise text : safe escape (λ _, True) (int_or_raise text).
Proof. unfold int_or_raise. case_match; [done|]. apply safe_raise. by left. Qed.

Lemma safe_parse_lcore_tokens path tokens parsed :
  safe escape (λ _, True) (parse_lcore_tokens path tokens parsed).
Proof.
  revert parsed. induction tokens as [|token rest IH]; intros parsed; [done|].
  cbn [parse_lcore_tokens]. destruct (str_has _ _).
  - destruct (py_partition _ _) as [[a s] b]. case_match; [by apply safe_seq|].
    eapply safe_bind; [apply safe_int_or_raise|]. intros lo _.
    eapply safe_bind; [apply safe_int_or_raise|]. intros hi _.
    case_match; [by apply safe_seq|]. apply IH.
  - case_match; [by apply safe_seq|].
    eapply safe_bind; [apply safe_int_or_raise|]. intros n _. apply IH.
Qed.

Lemma safe_parse_lcore_spec value path : safe escape (λ _, True) (_parse_lcore_spec value path).
Proof.
  unfold _parse_lcore_spec. case_match; [by apply safe_seq|].
  eapply safe_bind; [apply safe_parse_lcore_tokens|]. intros o _.
  case_match; [|done]. case_decide; [done|by apply safe_seq].
Qed.

Lemma safe_derive requested pc prefix :
  safe escape (λ _, True) (_derive_effective_dpdk_runtime requested pc prefix).
Proof.
  unfold _derive_effective_dpdk_runtime. eapply safe_bind with (Q := λ _, True).
  { unfold derive_lcores. eapply safe_bind; [apply safe_parse_lcore_spec|]. auto with safe. }
  intros [lcores count] _. apply safe_seq; [unfold check_queues; auto with safe|].
  eapply safe_bind with (Q := λ _, True); [unfold derive_mempool; auto with safe|]. intros m _.
  eapply safe_bind with (Q := λ _, True).
  { unfold derive_hugepages. eapply safe_bind with (Q := λ _, True); [|auto with safe].
    apply safe_lift; [done|]. intros e. unfold _recommended_hugepages_mb, ceil_true_div.
    case_match; [|done]. intros [= <-]. by right; right. }
  intros h _. apply safe_lift; [done|]. intros e. unfold new_EffectiveDpdkRuntimeModel.
  case_match; [done|]. intros [= <-]. by right; left.
Qed.

Lemma safe_collect_topology c : safe escape (λ _, True) (collect_topology_issues c).
Proof.
  unfold collect_topology_issues.
  eapply safe_bind; [apply safe_collect_duplicate_names|]. intros names _.
  apply safe_seq; [apply safe_emit_if|].
  eapply safe_bind; [apply safe_collect_link, keyed_start|]. intros [ifs nets] Hk.
  eapply safe_bind; [by apply safe_collect_ports|]. intros [ports ifs'] Hk'.
  apply safe_seq; [apply safe_collect_routes|]. apply safe_seq; [apply safe_collect_capture|].
  apply safe_seq; [apply safe_collect_bridge|]. apply safe_seq; [apply safe_collect_ruleset|].
  eapply safe_bind; [apply safe_derive|]. auto with safe.
Qed.

Lemma safe_returns {E I A} (Q : A → Prop) (m : chk E I A) :
  safe (λ _, False) Q m → ∃ a, Q a ∧ returns m a.
Proof. unfold safe, returns. destruct m as [[a l]|e]; [|done]. naive_solver. Qed.

(** An exception of the last stage is the exception of the whole check. *)
Lemma collect_topology_raises c e :
  _derive_effective_dpdk_runtime (processes_dpdkd (config_processes c))
    (Z.of_nat (length (config_dpdk_ports c))) "processes.dpdkd" = Err e →
  collect_topology_issues c = Err e.
Proof.
  intros He. unfold collect_topology_issues.
  destruct (safe_returns _ _ (safe_collect_duplicate_names _ namespace_name
    (config_namespaces c) "namespaces")) as (names & _ & Hr).
  eapply raise_bind_r; [exact Hr|]. eapply raise_bind_r; [apply returns_emit_if|].
  destruct (safe_returns _ _ (safe_collect_link _ c names _ (keyed_start names)))
    as ([ifs nets] & Hk & Hl).
  eapply raise_bind_r; [exact Hl|].
  destruct (safe_returns _ _ (safe_collect_ports _ c names
    (req_namespace (processes_dpdkd (config_processes c))) ifs Hk)) as ([ports ifs'] & _ & Hp).
  eapply raise_bind_r; [exact Hp|].
  destruct (safe_returns _ _ (safe_collect_routes _ c names nets)) as (? & _ & H1).
  eapply raise_bind_r; [exact H1|].
  destruct (safe_returns _ _ (safe_collect_capture _ c names ifs')) as (? & _ & H2).
  eapply raise_bind_r; [exact H2|].
  destruct (safe_returns _ _ (safe_collect_bridge _
    (req_namespace (processes_dpdkd (config_processes c))) ifs')) as (? & _ & H3).
  eapply raise_bind_r; [exact H3|].
  destruct (safe_returns _ _ (safe_collect_ruleset _ (config_rules c) (Some "rules") (Some ports)))
    as (? & _ & H4).
  eapply raise_bind_r; [exact H4|]. by apply raise_bind_l.
Qed.

Lemma raise_if_issues_err {A} msg code (m : check A) e :
  raise_if_issues msg code m = Err e →
  m = Err e ∨ ∃ issues, issues ≠ [] ∧
    e = PktlabExn (new_ValidationError msg code (issue_to_dict <$> issues) []).
Proof.
  unfold raise_if_issues. destruct m as [[a [|i l]]|e']; [done| |by intros [= ->]; left].
  intros [= <-]. right. by exists (i :: l).
Qed.

Lemma validated_ok c v :
  validate_topology_config c = Ok v ↔ ∃ ids, topology_ok c ids ∧ v = validated_of c ids.
Proof. unfold validate_topology_config. by rewrite raise_if_issues_ok, clean_collect_topology. Qed.

(** ** Permuted configurations *)

Record permuted (c c' : TopologyConfigModel) : Prop := {
  pm_processes : config_processes c = config_processes c';
  pm_namespaces : config_namespaces c ≡ₚ config_namespaces c';
  pm_links : config_links c ≡ₚ config_links c';
  pm_ports : config_dpdk_ports c ≡ₚ config_dpdk_ports c';
  pm_routes : config_routes c ≡ₚ config_routes c';
  pm_captures : config_capture_points c ≡ₚ config_capture_points c';
  pm_rules : config_rules c = config_rules c';
}.

#[export] Instance permuted_symmetric : Symmetric permuted.
Proof. intros c c' []. by constructor. Qed.

Lemma topology_ok_permuted c c' ids : permuted c c' → topology_ok c ids → topology_ok c' ids.
Proof.
  intros [Hpr Hns Hl Hp Hr Hc Hru] [].
  assert (names_of c = names_of c') as Hn by (unfold names_of; apply leibniz_equiv; by rewrite Hns).
  assert (dpdk_ns c = dpdk_ns c') as Hd by (unfold dpdk_ns; by rewrite Hpr).
  assert (declared_interfaces c ≡ₚ declared_interfaces c') as Hi.
  { unfold declared_interfaces, linked_interfaces. by rewrite Hl, Hp. }
  assert (connected_networks c ≡ₚ connected_networks c') as Hnet.
  { unfold connected_networks. by rewrite Hl. }
  rewrite Hn, Hd in *. constructor.
  - by rewrite <- Hns.
  - done.
  - by rewrite <- Hl.
  - by rewrite <- Hl.
  - by rewrite <- Hi.
  - unfold role_count in *. by rewrite <- Hp.
  - by rewrite <- Hp.
  - rewrite <- Hr. eapply Forall_impl; [done|].
    intros r (? & ? & via & net & ? & Hin & ?). rewrite Hnet in Hin. unfold route_ok. eauto 10.
  - by rewrite <- Hc.
  - rewrite <- Hc. eapply Forall_impl; [done|]. intros p [? Hin]. rewrite Hi in Hin. done.
  - by rewrite <- Hi.
  - rewrite <- Hru. replace (list_to_set (port_name <$> config_dpdk_ports c'))
      with (list_to_set (port_name <$> config_dpdk_ports c) : gset string); [done|].
    apply leibniz_equiv. by rewrite Hp.
  - by rewrite <- Hpr, <- Hp.
Qed.

(** ** Claims *)

(** C15 [validate_topology_config] returns exactly on the configurations of the
    specification [topology_ok], and then returns exactly the configuration,
    its runtime profile and the sorted interfaces of each namespace. *)
Theorem validate_topology_correct c v :
  validate_topology_config c = Ok v ↔ ∃ ids, topology_ok c ids ∧ v = validated_of c ids.
Proof. unfold validate_topology_config. by rewrite raise_if_issues_ok, clean_collect_topology. Qed.

(** C32 A rejected topology raises [ValidationError] with at least one structured
    issue, or one of the three exceptions of the runtime derivation; the
    collectors raise nothing, in particular no [KeyError] on the shared dict
    of interface names. *)
Theorem validate_topology_errors c e :
  validate_topology_config c = Err e →
  (∃ issues, issues ≠ [] ∧
    e = PktlabExn (new_ValidationError "topology config failed semantic validation"
          ErrorCode.TOPOLOGY_VALIDATION_ERROR (issue_to_dict <$> issues) [])) ∨
  escape e.
Proof.
  intros [He|He]%raise_if_issues_err; [right|by left].
  pose proof (safe_collect_topology c) as Hs. by rewrite He in Hs.
Qed.

(** The interfaces recorded for a validated topology: one entry per declared
    namespace, sorted and without repetition, listing exactly the interfaces
    the links and the datapath ports declare in it. *)
Theorem namespace_interfaces_complete c v :
  validate_topology_config c = Ok v →
  dom (vt_namespace_interfaces v) = names_of c ∧
  ∀ ns l, vt_namespace_interfaces v !! ns = Some l →
    Sorted str_le l ∧ NoDup l ∧ ∀ i, i ∈ l ↔ (ns, i) ∈ declared_interfaces c.
Proof.
  intros (ids & Hok & ->)%validated_ok. cbn [vt_namespace_interfaces validated_of]. split.
  - apply set_eq. intros ns. rewrite dom_fmap_L, elem_of_dom, lookup_interfaces_of.
    case_decide; [by split|]. by split; [intros []%is_Some_None|].
  - intros ns l. rewrite lookup_fmap, lookup_interfaces_of. case_decide; [|done].
    simpl. intros [= <-]. unfold py_sorted. split_and!.
    + apply (Sorted_merge_sort str_le).
    + rewrite merge_sort_Permutation. apply NoDup_elements.
    + intros i. rewrite merge_sort_Permutation, elem_of_elements. apply elem_of_interfaces_in.
Qed.

(** C33 Every route of a validated topology goes through a gateway on the wire:
    some link has an end in the route's namespace whose interface network
    contains the gateway's address. *)
Theorem routes_have_a_wire c v r :
  validate_topology_config c = Ok v → r ∈ config_routes c →
  ∃ via l e ifc text x,
    ip4_address (route_via r) = Some via ∧ l ∈ config_links c ∧
    ((e, text) = (link_a l, link_ip_a l) ∨ (e, text) = (link_b l, link_ip_b l)) ∧
    ref_of e = Some (route_namespace r, ifc) ∧ address_of text = Some x ∧
    ip4_in via (network x) = true.
Proof.
  intros (ids & Hok & _)%validated_ok Hr.
  destruct (proj1 (Forall_forall _ _) (tp_routes _ _ Hok) r Hr)
    as (_ & _ & via & net & Hvia & Hin & Hv).
  unfold connected_networks in Hin. apply list_elem_of_bind in Hin as (l & Hin & Hl).
  exists via, l. unfold link_nets in Hin.
  destruct (ref_of (link_a l)) as [[na ia]|] eqn:Ha; [|by apply elem_of_nil in Hin].
  destruct (ref_of (link_b l)) as [[nb ib]|] eqn:Hb; [|by apply elem_of_nil in Hin].
  destruct (address_of (link_ip_a l)) as [xa|] eqn:Hxa; [|by apply elem_of_nil in Hin].
  destruct (address_of (link_ip_b l)) as [xb|] eqn:Hxb; [|by apply elem_of_nil in Hin].
  apply elem_of_cons in Hin as [[= -> ->]|[= -> ->]%list_elem_of_singleton].
  - exists (link_a l), ia, (link_ip_a l), xa. eauto 10.
  - exists (link_b l), ib, (link_ip_b l), xb. eauto 10.
Qed.

(** Acceptance does not depend on the order in which namespaces, links,
    ports, routes or capture points are listed. *)
Theorem validation_order_irrelevant c c' :
  permuted c c' →
  (∃ v, validate_topology_config c = Ok v) ↔ (∃ v, validate_topology_config c' = Ok v).
Proof.
  intros Hp. setoid_rewrite validated_ok. split.
  - intros (_ & ids & Hok & _). eauto using topology_ok_permuted.
  - intros (_ & ids & Hok & _). symmetry in Hp. eauto using topology_ok_permuted.
Qed.

(** A topology without datapath ports escapes as pydantic's own exception: the
    [invalid_port_roles] issue is collected, but the derivation builds
    [EffectiveDpdkRuntimeModel] with a port count of zero before the issues
    are raised. *)
Theorem no_ports_escape c :
  config_dpdk_ports c = [] →
  lcores_resolve (processes_dpdkd (config_processes c)) →
  (0 <= mempool_of (processes_dpdkd (config_processes c)) 0 < 2 ^ 41)%Z →
  validate_topology_config c = Err PydanticValidationError.
Proof.
  intros Hp Hl Hm. unfold validate_topology_config, raise_if_issues.
  rewrite (collect_topology_raises c PydanticValidationError); [done|]. rewrite Hp.
  change (Z.of_nat (length [])) with 0%Z.
  destruct (derive_stages _ 0 "processes.dpdkd" Hl Hm) as (count & l & ->).
  unfold new_EffectiveDpdkRuntimeModel, EffectiveDpdkRuntimeModel_ok. cbn [eff_port_count].
  by rewrite !andb_false_r.
Qed.

(** C31 [validate_ruleset] returns exactly on the rulesets of the specification;
    any other raises [ValidationError] with at least one structured issue. *)
Theorem validate_ruleset_correct r allowed :
  let names := (list_to_set : list string → gset string) <$> allowed in
  match validate_ruleset r allowed with
  | Ok v => ruleset_ok names r ∧ v = mkValidatedRuleset r (default ∅ names)
  | Err e => ¬ ruleset_ok names r ∧ ∃ issues, issues ≠ [] ∧
      e = PktlabExn (new_ValidationError "rules config failed semantic validation"
            ErrorCode.RULE_VALIDATION_ERROR (issue_to_dict <$> issues) [])
  end.
Proof.
  intros names. unfold validate_ruleset. fold names.
  destruct (raise_if_issues _ _ _) as [v|e] eqn:Hr.
  - rewrite raise_if_issues_ok, clean_seq, clean_mret in Hr.
    destruct Hr as [(? & Hr%clean_collect_ruleset) <-]. done.
  - split.
    + intros Hok. assert (clean (_collect_ruleset_issues r None names;;
        mret (mkValidatedRuleset r (default ∅ names))) (mkValidatedRuleset r (default ∅ names)))
        as Hc.
      { rewrite clean_seq, clean_mret. split; [|done]. exists (). by apply clean_collect_ruleset. }
      rewrite <- raise_if_issues_ok, Hr in Hc. done.
    + apply raise_if_issues_err in Hr as [He|?]; [|done].
      assert (safe (λ _, False) (λ _, True) (_collect_ruleset_issues r None names;;
        mret (mkValidatedRuleset r (default ∅ names)))) as Hs.
      { apply safe_seq; [apply safe_collect_ruleset|by apply safe_mret]. }
      by rewrite He in Hs.
Qed.

(** ** Witnesses *)

(** The repository's [linear-basic] lab. *)
Definition linear_basic : TopologyConfigModel :=
  mkTopologyConfig (mkLab "linear-basic")
    (mkProcesses (mkDpdkProcessConfig "dpdk-host" None None None None None None) None)
    [mkNamespace "tg-src"; mkNamespace "dpdk-host"; mkNamespace "tg-sink"]
    [mkLink "src-to-host" "tg-src:eth0" "dpdk-host:veth-in-k"
       (Some "10.0.0.1/24") (Some "10.0.0.254/24");
     mkLink "host-to-sink" "dpdk-host:veth-out-k" "tg-sink:eth0"
       (Some "10.0.1.254/24") (Some "10.0.1.1/24")]
    [mkDpdkPort "dtap0" "dpdk-host" ingress; mkDpdkPort "dtap1" "dpdk-host" egress]
    [mkRoute "tg-src" "10.0.1.0/24" "10.0.0.254"; mkRoute "tg-sink" "10.0.0.0/24" "10.0.1.254"]
    (mkRuleset 3 (mkRuleAction act_drop None)
       [mkRule 10 10 (mkRuleMatch (Some proto_udp) None None None None None (Some 53%Z))
          (mkRuleAction act_forward (Some "dtap1"))])
    [mkCapturePoint "src-link" "tg-src" "eth0"; mkCapturePoint "dpdk-in" "dpdk-host" "dtap0"].

Definition without_ports (c : TopologyConfigModel) : TopologyConfigModel :=
  mkTopologyConfig (config_lab c) (config_processes c) (config_namespaces c) (config_links c) []
    (config_routes c) (config_rules c) (config_capture_points c).

Definition with_reversed_lists (c : TopologyConfigModel) : TopologyConfigModel :=
  mkTopologyConfig (config_lab c) (config_processes c) (reverse (config_namespaces c))
    (reverse (config_links c)) (reverse (config_dpdk_ports c)) (reverse (config_routes c))
    (config_rules c) (reverse (config_capture_points c)).

Lemma reversed_permuted c : permuted c (with_reversed_lists c).
Proof. constructor; simpl; by rewrite ?reverse_Permutation. Qed.

Definition accepted (c : TopologyConfigModel) : bool :=
  match validate_topology_config c with Ok _ => true | Err _ => false end.

Lemma accepted_some c : accepted c = true → ∃ v, validate_topology_config c = Ok v.
Proof. unfold accepted. destruct (validate_topology_config c); [by eexists|done]. Qed.

Example linear_basic_interfaces :
  (λ v, vt_namespace_interfaces v !! "dpdk-host") <$>
    match validate_topology_config linear_basic with Ok v => Some v | Err _ => None end
  = Some (Some ["dtap0"; "dtap1"; "veth-in-k"; "veth-out-k"]).
Proof. vm_compute. reflexivity. Qed.

Lemma linear_basic_accepted : accepted linear_basic = true.
Proof. vm_compute. reflexivity. Qed.

Lemma validate_topology_errors_witness :
  ∃ e, validate_topology_config (without_ports linear_basic) = Err e ∧ escape e.
Proof.
  exists PydanticValidationError.
  assert (validate_topology_config (without_ports linear_basic) = Err PydanticValidationError)
    as He by (vm_compute; reflexivity).
  split; [exact He|].
  destruct (validate_topology_errors _ _ He) as [(i & _ & H)|H]; [discriminate H|exact H].
Defined.

Lemma namespace_interfaces_complete_witness :
  ∃ v, validate_topology_config linear_basic = Ok v ∧
    dom (vt_namespace_interfaces v) = names_of linear_basic.
Proof.
  destruct (accepted_some _ linear_basic_accepted) as [v Hv]. exists v. split; [exact Hv|].
  apply (namespace_interfaces_complete _ _ Hv).
Defined.

Lemma routes_have_a_wire_witness :
  ∃ via, ip4_address "10.0.0.254" = Some via.
Proof.
  destruct (accepted_some _ linear_basic_accepted) as [v Hv].
  destruct (routes_have_a_wire _ _ (mkRoute "tg-src" "10.0.1.0/24" "10.0.0.254") Hv
              ltac:(left)) as (via & _ & _ & _ & _ & _ & Hvia & _).
  exists via. exact Hvia.
Defined.

Lemma validation_order_irrelevant_witness :
  ∃ v, validate_topology_config (with_reversed_lists linear_basic) = Ok v.
Proof.
  exact (proj1 (validation_order_irrelevant _ _ (reversed_permuted linear_basic))
           (accepted_some _ linear_basic_accepted)).
Defined.

Lemma no_ports_escape_witness :
  validate_topology_config (without_ports linear_basic) = Err PydanticValidationError.
Proof.
  apply no_ports_escape; [reflexivity|by apply lcores_resolve_default|].
  vm_compute. intuition congruence.
Defined.

(** ** The bridge-side check is satisfied by a datapath port *)

Definition ports_as_bridge_sides : TopologyConfigModel :=
  mkTopologyConfig (config_lab linear_basic) (config_processes linear_basic)
    (config_namespaces linear_basic) []
    [mkDpdkPort "veth-in-k" "dpdk-host" ingress; mkDpdkPort "veth-out-k" "dpdk-host" egress]
    [] (mkRuleset 1 (mkRuleAction act_drop None) []) [].

(** The check that the datapath namespace defines [veth-in-k] and
    [veth-out-k] "through the topology links" is also satisfied by datapath
    ports of those names: a topology without any link is accepted. *)
Theorem bridge_side_check_accepts_ports :
  ∃ v, validate_topology_config ports_as_bridge_sides = Ok v ∧
    linked_interfaces ports_as_bridge_sides = [].
Proof.
  destruct (accepted_some ports_as_bridge_sides) as [v Hv]; [by vm_compute|]. by exists v.
Qed.
