(* ===== verification/State.v ===== *)
(** * Desired and observed state, and the reconcile plan

    [state/desired.py], [state/observed.py] and [state/reconcile.py].  The
    constructors check their arguments the way [__post_init__] does; the plan
    is the list of actions [build_reconcile_plan] appends. *)

From stdpp Require Import sorting.
From S2P Require Import Prelude PyStr Errors Types.
#[local] Open Scope string_scope.
#[local] Open Scope list_scope.

(** [not value.strip()] *)
Definition blank (s : string) : bool := str_empty (py_strip s).

(** [if c: raise ValueError(message)] *)
Definition refuse_if (c : bool) (message : string) : res pyexn unit :=
  if c then Err (ValueError (Some message)) else Ok ().

Definition _validate_optional_text (field_name : string) (value : option string) : res pyexn unit :=
  refuse_if (match value with Some s => blank s | None => false end)
    (field_name +:+ " must be a non-empty string when provided").

Definition _validate_optional_non_negative (field_name : string) (value : option Z) : res pyexn unit :=
  refuse_if (match value with Some z => (z <? 0)%Z | None => false end)
    (field_name +:+ " must be non-negative").

Definition _validate_optional_positive (field_name : string) (value : option Z) : res pyexn unit :=
  refuse_if (match value with Some z => (z <=? 0)%Z | None => false end)
    (field_name +:+ " must be greater than zero when provided").

(** ** Desired state *)

Record DesiredState : Type := mkDesired {
  topology_config_path : option string;
  topology_name : option string;
  desired_rules_version : option Z;
  requested_dpdk_config : option DpdkProcessConfigModel;
  desired_controller_state : ControllerState;
  desired_datapath_running : bool;
}.

(** [DesiredState.__post_init__]; the [isinstance] test is the record's type. *)
Definition new_DesiredState (d : DesiredState) : res pyexn DesiredState :=
  _validate_optional_text "topology_config_path" (topology_config_path d);;
  _validate_optional_text "topology_name" (topology_name d);;
  refuse_if (match desired_rules_version d with Some v => (v <? 0)%Z | None => false end)
    "desired_rules_version must be non-negative";;
  mret d.

(** [DesiredState()] *)
Definition empty_desired : DesiredState := mkDesired None None None None CS_stopped false.

Definition topology_requested (d : DesiredState) : bool :=
  match topology_name d with Some _ => true | None => false end.

(** ** Observed state *)

Record CaptureObservation : Type := mkCapture {
  co_namespace : string;
  co_interface : string;
  co_pid : option Z;
}.

Definition new_CaptureObservation (c : CaptureObservation) : res pyexn CaptureObservation :=
  refuse_if (blank (co_namespace c)) "namespace must be a non-empty string";;
  refuse_if (blank (co_interface c)) "interface must be a non-empty string";;
  _validate_optional_positive "pid" (co_pid c);;
  mret c.

Record ObservedState : Type := mkObserved {
  datapath_health : option DatapathState;
  applied_rules_version : option Z;
  dpdkd_pid : option Z;
  effective_dpdk_config : option EffectiveDpdkRuntimeModel;
  active_captures : gmap string CaptureObservation;
  topology_applied : bool;
}.

Definition new_ObservedState (o : ObservedState) : res pyexn ObservedState :=
  _validate_optional_non_negative "applied_rules_version" (applied_rules_version o);;
  _validate_optional_positive "dpdkd_pid" (dpdkd_pid o);;
  mret o.

(** [ObservedState()] *)
Definition empty_observed : ObservedState := mkObserved None None None None ∅ false.

Definition datapath_running (o : ObservedState) : bool :=
  match dpdkd_pid o with Some _ => true | None => false end.

(** ** The plan *)

Inductive ReconcileActionType : Type :=
| STOP_DATAPATH
| DESTROY_TOPOLOGY
| APPLY_TOPOLOGY
| START_DATAPATH
| WAIT_FOR_DATAPATH
| REPLACE_RULES.

#[export] Instance ReconcileActionType_eq_dec : EqDecision ReconcileActionType.
Proof. solve_decision. Defined.

Record ReconcileAction : Type := mkAction {
  action : ReconcileActionType;
  reason : string;
}.

Definition ReconcilePlan : Type := list ReconcileAction.

(** [ReconcilePlan.is_noop] *)
Definition is_noop (p : ReconcilePlan) : bool :=
  match p with [] => true | _ => false end.

(** [if c: actions.append(ReconcileAction(a, reason))] *)
Definition append_if (c : bool) (a : ReconcileActionType) (why : string) : ReconcilePlan :=
  if c then [mkAction a why] else [].

Definition build_reconcile_plan (desired : DesiredState) (observed : ObservedState) : ReconcilePlan :=
  append_if (negb (desired_datapath_running desired) && datapath_running observed)
    STOP_DATAPATH "datapath is running but the desired state does not require it" ++
  append_if (negb (topology_requested desired) && topology_applied observed)
    DESTROY_TOPOLOGY "topology is applied but the desired state no longer requests one" ++
  append_if (topology_requested desired && negb (topology_applied observed))
    APPLY_TOPOLOGY "desired topology is missing from the observed state" ++
  append_if (desired_datapath_running desired && negb (datapath_running observed))
    START_DATAPATH "desired state requires the datapath process to be running" ++
  append_if (desired_datapath_running desired && datapath_running observed
             && bool_decide (datapath_health observed ≠ Some DS_running))
    WAIT_FOR_DATAPATH
    "datapath process exists but has not reported a healthy running state yet" ++
  append_if (bool_decide (desired_rules_version desired ≠ None)
             && bool_decide (desired_rules_version desired ≠ applied_rules_version observed))
    REPLACE_RULES "observed datapath rules do not match the desired rules version".

(** ** Specification *)

(** The system is where the desired state wants it. *)
Record converged (d : DesiredState) (o : ObservedState) : Prop := {
  cv_datapath : datapath_running o = desired_datapath_running d;
  cv_health : desired_datapath_running d = true → datapath_health o = Some DS_running;
  cv_topology : topology_applied o = topology_requested d;
  cv_rules : ∀ v, desired_rules_version d = Some v → applied_rules_version o = Some v;
}.

(** When an action is called for. *)
Definition called_for (d : DesiredState) (o : ObservedState) (a : ReconcileActionType) : Prop :=
  match a with
  | STOP_DATAPATH => desired_datapath_running d = false ∧ datapath_running o = true
  | DESTROY_TOPOLOGY => topology_name d = None ∧ topology_applied o = true
  | APPLY_TOPOLOGY => topology_name d ≠ None ∧ topology_applied o = false
  | START_DATAPATH => desired_datapath_running d = true ∧ datapath_running o = false
  | WAIT_FOR_DATAPATH => desired_datapath_running d = true ∧ datapath_running o = true ∧
      datapath_health o ≠ Some DS_running
  | REPLACE_RULES => ∃ v, desired_rules_version d = Some v ∧ applied_rules_version o ≠ Some v
  end.

(** The position of an action in any plan. *)
Definition phase (a : ReconcileActionType) : nat :=
  match a with
  | STOP_DATAPATH => 0 | DESTROY_TOPOLOGY => 1 | APPLY_TOPOLOGY => 2
  | START_DATAPATH => 3 | WAIT_FOR_DATAPATH => 4 | REPLACE_RULES => 5
  end.

(** ** Facts *)

Lemma append_if_in c a why x : x ∈ append_if c a why ↔ c = true ∧ x = mkAction a why.
Proof.
  unfold append_if. destruct c; rewrite ?elem_of_nil, ?list_elem_of_singleton; naive_solver.
Qed.

Lemma append_if_action c a why x :
  x ∈ action <$> append_if c a why ↔ c = true ∧ x = a.
Proof.
  rewrite list_elem_of_fmap. setoid_rewrite append_if_in. split.
  - by intros (y & -> & -> & ->).
  - intros [-> ->]. by exists (mkAction a why).
Qed.

Lemma in_plan d o a : a ∈ action <$> build_reconcile_plan d o ↔ called_for d o a.
Proof.
  unfold build_reconcile_plan. rewrite !fmap_app, !elem_of_app, !append_if_action.
  rewrite !andb_true_iff, !negb_true_iff, !bool_decide_eq_true.
  unfold called_for, topology_requested.
  destruct a, (topology_name d), (desired_rules_version d); naive_solver.
Qed.

Lemma plan_phases d o : StronglySorted lt (phase ∘ action <$> build_reconcile_plan d o).
Proof.
  unfold build_reconcile_plan, append_if.
  repeat case_match; simpl; repeat constructor.
Qed.

Lemma is_noop_nil p : is_noop p = true ↔ p = [].
Proof. by destruct p. Qed.

Lemma plan_nil d o : build_reconcile_plan d o = [] ↔ ∀ a, ¬ called_for d o a.
Proof.
  setoid_rewrite <- in_plan. destruct (build_reconcile_plan d o) as [|x l].
  - split; [intros _ a []%elem_of_nil|done].
  - split; [done|]. intros H. destruct (H (action x)). simpl. left.
Qed.

Lemma not_called_for d o : (∀ a, ¬ called_for d o a) ↔ converged d o.
Proof.
  split.
  - intros H. constructor.
    + destruct (datapath_running o) eqn:Hr, (desired_datapath_running d) eqn:Hd; try done.
      * by destruct (H STOP_DATAPATH).
      * by destruct (H START_DATAPATH).
    + intros Hd. apply dec_stable. intros Hh. destruct (datapath_running o) eqn:Hr.
      * by destruct (H WAIT_FOR_DATAPATH).
      * by destruct (H START_DATAPATH).
    + unfold topology_requested.
      destruct (topology_applied o) eqn:Ha, (topology_name d) eqn:Hn; try done.
      * by destruct (H DESTROY_TOPOLOGY).
      * by destruct (H APPLY_TOPOLOGY); split; [rewrite Hn|].
    + intros v Hv. apply dec_stable. intros Hn. destruct (H REPLACE_RULES). by exists v.
  - intros [Hd Hh Ht Hr] a Ha. unfold topology_requested in *.
    destruct a; simpl in Ha.
    + destruct Ha. congruence.
    + destruct Ha, (topology_name d); congruence.
    + destruct Ha, (topology_name d); congruence.
    + destruct Ha. congruence.
    + destruct Ha as (? & _ & Hn). by apply Hn, Hh.
    + destruct Ha as (v & Hv & Hne). by apply Hne, Hr.
Qed.

Lemma plan_nil_converged d o : build_reconcile_plan d o = [] ↔ converged d o.
Proof. by rewrite plan_nil, not_called_for. Qed.

(** When the constructors accept their arguments. *)
Definition desired_valid (d : DesiredState) : Prop :=
  (∀ s, topology_config_path d = Some s → blank s = false) ∧
  (∀ s, topology_name d = Some s → blank s = false) ∧
  (∀ v, desired_rules_version d = Some v → (0 <= v)%Z).
Definition observed_valid (o : ObservedState) : Prop :=
  (∀ v, applied_rules_version o = Some v → (0 <= v)%Z) ∧
  (∀ p, dpdkd_pid o = Some p → (0 < p)%Z).

Lemma refuse_if_bind {A} c msg (k : unit → res pyexn A) a :
  refuse_if c msg ≫= k = Ok a ↔ c = false ∧ k () = Ok a.
Proof. unfold refuse_if. destruct c; [by split; [|intros []]|]. by split; [|intros []]. Qed.

Lemma opt_test {A} (p : A → bool) (o : option A) :
  (match o with Some x => p x | None => false end) = false ↔ ∀ x, o = Some x → p x = false.
Proof. destruct o; naive_solver. Qed.

Lemma new_DesiredState_ok d d' : new_DesiredState d = Ok d' ↔ d' = d ∧ desired_valid d.
Proof.
  unfold new_DesiredState, _validate_optional_text, desired_valid.
  rewrite !refuse_if_bind, !opt_test. setoid_rewrite Z.ltb_ge.
  unfold mret, res_mret. naive_solver.
Qed.

Lemma new_ObservedState_ok o o' : new_ObservedState o = Ok o' ↔ o' = o ∧ observed_valid o.
Proof.
  unfold new_ObservedState, _validate_optional_non_negative, _validate_optional_positive,
    observed_valid.
  rewrite !refuse_if_bind, !opt_test. setoid_rewrite Z.ltb_ge. setoid_rewrite Z.leb_gt.
  unfold mret, res_mret. naive_solver.
Qed.

(** ** Claims *)

(** C38 The plan is empty exactly when the observed state is the desired one. *)
Theorem noop_iff_converged d o : is_noop (build_reconcile_plan d o) = true ↔ converged d o.
Proof. by rewrite is_noop_nil, plan_nil, not_called_for. Qed.

(** A plan holds exactly the actions the two states call for, each once and in
    the fixed order stop, destroy, apply, start, wait, replace rules. *)
Theorem plan_exact d o :
  (∀ a, a ∈ action <$> build_reconcile_plan d o ↔ called_for d o a) ∧
  StronglySorted lt (phase ∘ action <$> build_reconcile_plan d o).
Proof. split; [apply in_plan|apply plan_phases]. Qed.
