(* ===== verification/DpdkModels.v ===== *)
(** * IPC models

    [dpdk_client/models.py]: the commands and payloads of the datapath's Unix
    socket and the typed result of a command.  Building an envelope checks its
    constraints; reading a payload from JSON is pydantic's, and a parameter of
    the client. *)

From S2P Require Import Prelude PyStr Errors Types.
#[local] Open Scope string_scope.

(** [DatapathErrorCode] *)
Inductive DatapathErrorCode : Type :=
| DE_INVALID_REQUEST
| DE_INVALID_PAYLOAD
| DE_UNKNOWN_COMMAND
| DE_RULE_VALIDATION_ERROR
| DE_PORT_INIT_ERROR
| DE_STATE_CONFLICT
| DE_INTERNAL_ERROR.

#[export] Instance DatapathErrorCode_eq_dec : EqDecision DatapathErrorCode.
Proof. solve_decision. Defined.

(** [code.value] *)
Definition datapath_code_value (c : DatapathErrorCode) : string :=
  match c with
  | DE_INVALID_REQUEST => "INVALID_REQUEST"
  | DE_INVALID_PAYLOAD => "INVALID_PAYLOAD"
  | DE_UNKNOWN_COMMAND => "UNKNOWN_COMMAND"
  | DE_RULE_VALIDATION_ERROR => "RULE_VALIDATION_ERROR"
  | DE_PORT_INIT_ERROR => "PORT_INIT_ERROR"
  | DE_STATE_CONFLICT => "STATE_CONFLICT"
  | DE_INTERNAL_ERROR => "INTERNAL_ERROR"
  end.

(** ** Requests *)

(** The character class of [REQUEST_ID_PATTERN]. *)
Definition request_id_char (c : ascii) : bool :=
  let n := N_of_ascii c in
  between 65 90 n || between 97 122 n || is_decimal c
  || (n =? 46)%N || (n =? 95)%N || (n =? 58)%N || (n =? 45)%N.

(** [Field(min_length=1, pattern=REQUEST_ID_PATTERN)]; the pattern is anchored
    and pydantic's [$] matches at the very end only. *)
Definition request_id_ok (id : string) : bool :=
  negb (str_empty id) && str_all request_id_char id.

(** The union [RequestEnvelope]; every payload is the empty one. *)
Inductive RequestEnvelope : Type :=
| PingRequest (id : string)
| GetVersionRequest (id : string)
| GetHealthRequest (id : string)
| GetPortsRequest (id : string)
| GetStatsRequest (id : string)
| ResetStatsRequest (id : string)
| PauseDatapathRequest (id : string)
| ResumeDatapathRequest (id : string).

(** [request.id] *)
Definition request_id (r : RequestEnvelope) : string :=
  match r with
  | PingRequest id | GetVersionRequest id | GetHealthRequest id | GetPortsRequest id
  | GetStatsRequest id | ResetStatsRequest id | PauseDatapathRequest id
  | ResumeDatapathRequest id => id
  end.

(** [request.cmd] *)
Definition request_cmd (r : RequestEnvelope) : string :=
  match r with
  | PingRequest _ => "ping"
  | GetVersionRequest _ => "get_version"
  | GetHealthRequest _ => "get_health"
  | GetPortsRequest _ => "get_ports"
  | GetStatsRequest _ => "get_stats"
  | ResetStatsRequest _ => "reset_stats"
  | PauseDatapathRequest _ => "pause_datapath"
  | ResumeDatapathRequest _ => "resume_datapath"
  end.

(** [PingRequest(id=...)] and the others. *)
Definition new_request (mk : string → RequestEnvelope) (id : string) : res pyexn RequestEnvelope :=
  if request_id_ok id then Ok (mk id) else Err PydanticValidationError.

(** ** Responses *)

Record DatapathErrorModel : Type := mkDatapathError {
  de_code : DatapathErrorCode;
  de_message : string;
}.

(** [error.model_dump(mode="json")] *)
Definition datapath_error_dump (e : DatapathErrorModel) : pyval :=
  PyDict [("code", PyStr (datapath_code_value (de_code e))); ("message", PyStr (de_message e))].

Record RawSuccessEnvelope : Type := mkRawSuccess {
  success_id : string;
  success_payload : pydict;
}.

Record RawErrorEnvelope : Type := mkRawError {
  failure_id : string;
  failure_error : DatapathErrorModel;
}.

Inductive ResponseEnvelope : Type :=
| SuccessResponse (r : RawSuccessEnvelope)
| ErrorResponse (r : RawErrorEnvelope).

(** [response.id] *)
Definition response_id (r : ResponseEnvelope) : string :=
  match r with
  | SuccessResponse r => success_id r
  | ErrorResponse r => failure_id r
  end.

Record AckPayload : Type := mkAck { ack_message : string }.

Record VersionPayload : Type := mkVersion {
  version_service : string;
  version_version : string;
  version_dpdk_version : string;
}.

Record HealthStateModel : Type := mkHealth {
  health_state : DatapathState;
  health_message : string;
  health_applied_rule_version : Z;
  health_ports_ready : bool;
  health_paused : bool;
}.

Record HealthPayload : Type := mkHealthPayload { payload_health : HealthStateModel }.

Inductive DatapathPortStateValue : Type := port_up | port_down.

Record PortInfoModel : Type := mkPortInfo {
  info_name : string;
  info_port_id : Z;
  info_role : PortRole;
  info_state : DatapathPortStateValue;
}.

Record PortsPayload : Type := mkPortsPayload { payload_ports : list PortInfoModel }.

Record DatapathStatsModel : Type := mkStats {
  st_rx_packets : Z;
  st_tx_packets : Z;
  st_drop_packets : Z;
  st_drop_parse_errors : Z;
  st_drop_no_match : Z;
  st_rx_bursts : Z;
  st_tx_bursts : Z;
  st_unsent_packets : Z;
  st_rule_hits : list (string * Z);
}.

Record StatsPayload : Type := mkStatsPayload { payload_stats : DatapathStatsModel }.

(** [Field(ge=0)] of [HealthStateModel.applied_rule_version]. *)
Definition HealthStateModel_ok (h : HealthStateModel) : bool :=
  (0 <=? health_applied_rule_version h)%Z.

(** The other constraints of the payloads: [Field(min_length=1)],
    [Field(ge=0)] and the [Literal] of the service. *)
Definition AckPayload_ok (a : AckPayload) : bool := negb (str_empty (ack_message a)).

Definition VersionPayload_ok (v : VersionPayload) : bool :=
  bool_decide (version_service v = "pktlab-dpdkd") && negb (str_empty (version_version v))
  && negb (str_empty (version_dpdk_version v)).

Definition PortInfoModel_ok (p : PortInfoModel) : bool :=
  negb (str_empty (info_name p)) && (0 <=? info_port_id p)%Z.

Definition PortsPayload_ok (p : PortsPayload) : bool := forallb PortInfoModel_ok (payload_ports p).

Definition DatapathStatsModel_ok (s : DatapathStatsModel) : bool :=
  forallb (Z.leb 0)
    [st_rx_packets s; st_tx_packets s; st_drop_packets s; st_drop_parse_errors s;
     st_drop_no_match s; st_rx_bursts s; st_tx_bursts s; st_unsent_packets s].

(** ** Results *)

(** [CommandResult[PayloadT]] *)
Record CommandResult (A : Type) : Type := mkResult {
  result_request_id : string;
  result_payload : option A;
  result_error : option DatapathErrorModel;
}.
Arguments mkResult {A} _ _ _.
Arguments result_request_id {A} _.
Arguments result_payload {A} _.
Arguments result_error {A} _.

(** [CommandResult.ok] *)
Definition result_ok {A} (r : CommandResult A) : bool :=
  match result_error r with None => true | Some _ => false end.

(** [CommandResult.unwrap] *)
Definition unwrap {A} (r : CommandResult A) : res pyexn A :=
  match result_payload r with
  | None => Err (RuntimeError "cannot unwrap a failed command result")
  | Some p => Ok p
  end.

(** [CommandResult.success] and [CommandResult.failure] *)
Definition success {A} (id : string) (payload : A) : CommandResult A := mkResult id (Some payload) None.
Definition failure {A} (id : string) (error : DatapathErrorModel) : CommandResult A :=
  mkResult id None (Some error).

(** A result carries a payload or an error, never both nor neither. *)
Definition result_wf {A} (r : CommandResult A) : Prop :=
  (∃ p, result_payload r = Some p ∧ result_error r = None) ∨
  (∃ e, result_payload r = None ∧ result_error r = Some e).

Lemma success_wf {A} id (p : A) : result_wf (success id p).
Proof. left. by exists p. Qed.

Lemma failure_wf {A} id e : result_wf (failure id e : CommandResult A).
Proof. right. by exists e. Qed.

Lemma unwrap_ok {A} (r : CommandResult A) :
  result_wf r → result_ok r = true → ∃ p, result_payload r = Some p ∧ unwrap r = Ok p.
Proof.
  intros [(p & Hp & He)|(e & Hp & He)]; unfold result_ok, unwrap; rewrite ?He; [|done].
  intros _. rewrite Hp. by exists p.
Qed.
#[export] Hint Resolve success_wf failure_wf : pk.
