(* ===== verification/Framing.v ===== *)
(** * IPC framing

    [dpdk_client/protocol.py]: four-byte big-endian length prefixes on a
    stream socket.  The socket is an interface; a byte stream that arrives in
    arbitrary segments implements it.  JSON decoding and pydantic's validation
    are parameters, with the outcomes the code distinguishes. *)

From S2P Require Import Prelude PyStr Errors Types DpdkModels.
#[local] Open Scope string_scope.
#[local] Open Scope list_scope.
#[local] Open Scope nat_scope.

Abbreviation bytes := (list ascii).

Definition FRAME_HEADER_SIZE : nat := 4.
Definition MAX_FRAME_PAYLOAD_SIZE : nat := 16384.

(** ** The socket *)

Class Socket (W : Type) := {
  sock_open : pym pyexn W unit;
  sock_connect : string → Z → pym pyexn W unit;
  sock_sendall : bytes → pym pyexn W unit;
  sock_recv : nat → pym pyexn W bytes;
  sock_close : pym pyexn W unit;
}.

(** Every exception of [m] is an [OSError]. *)
Definition raises_os {W A} (m : pym pyexn W A) : Prop :=
  ∀ w e w', m w = (Err e, w') → ∃ o, e = OSErr o.

(** [recv(n)] returns at most [n] bytes; a socket raises [OSError]s only, and
    closing it raises nothing. *)
Class SocketLaws (W : Type) `{Socket W} := {
  recv_bound n w c w' : sock_recv n w = (Ok c, w') → length c ≤ n;
  open_raises : raises_os sock_open;
  connect_raises path t : raises_os (sock_connect path t);
  sendall_raises b : raises_os (sock_sendall b);
  recv_raises n : raises_os (sock_recv n);
  close_returns w : ∃ w', sock_close w = (Ok (), w');
}.

(** ** JSON and pydantic *)

Inductive json_outcome : Type :=
| JsonValue (v : pyval)
| JsonUnicodeError
| JsonDecodeError (line column position : Z)
| JsonRaises (e : pyexn).

(** What reads and writes the models: [model_dump_json().encode()],
    [json.loads(bytes.decode())] and [model_validate], which returns the model
    or the list of errors. *)
Class Codec := {
  json_dump : RequestEnvelope → bytes;
  json_loads : bytes → json_outcome;
  validate_success : pydict → RawSuccessEnvelope + pyval;
  validate_error : pydict → RawErrorEnvelope + pyval;
  validate_ack : pydict → AckPayload + pyval;
  validate_version : pydict → VersionPayload + pyval;
  validate_health : pydict → HealthPayload + pyval;
  validate_ports : pydict → PortsPayload + pyval;
  validate_stats : pydict → StatsPayload + pyval;
}.

(** ** The frame header: [struct.Struct(">I")] *)

Definition pack_be32 (n : N) : bytes :=
  (λ k, ascii_of_N ((n / 2 ^ k) mod 256)%N) <$> [24; 16; 8; 0]%N.

Definition unpack_be32 (b : bytes) : N :=
  fold_left (λ acc c, (acc * 256 + N_of_ascii c)%N) b 0%N.

Definition frame_context (payload_length : nat) : pydict :=
  [("payload_length", PyInt (Z.of_nat payload_length));
   ("max_payload_length", PyInt (Z.of_nat MAX_FRAME_PAYLOAD_SIZE - 1)%Z)].

Definition bad_length (payload_length : nat) : bool :=
  (payload_length =? 0)%nat || (MAX_FRAME_PAYLOAD_SIZE <=? payload_length)%nat.

(** [_frame_payload] *)
Definition _frame_payload (payload : bytes) : res pyexn bytes :=
  let payload_length := length payload in
  if bad_length payload_length then
    Err (PktlabExn (new_DatapathProtocolError
           "request payload exceeds the supported IPC frame size" (frame_context payload_length)))
  else Ok (pack_be32 (N.of_nat payload_length) ++ payload).

Section protocol.
Context {W : Type} `{Socket W} `{Codec}.

Definition encode_request (request : RequestEnvelope) : res pyexn bytes :=
  _frame_payload (json_dump request).

Definition send_request (request : RequestEnvelope) : pym pyexn W unit :=
  frame ← pym_lift (encode_request request);
  sock_sendall frame.

Definition eof_error (size remaining : nat) : pyexn :=
  PktlabExn (new_DatapathProtocolError "unexpected EOF while reading an IPC frame"
    [("expected_bytes", PyInt (Z.of_nat size)); ("remaining_bytes", PyInt (Z.of_nat remaining))]).

(** The [while remaining] loop of [_read_exact]: the bytes still to come.  A
    turn that does not raise receives at least one byte, so [remaining] turns
    are enough. *)
Fixpoint read_loop (fuel size remaining : nat) : pym pyexn W bytes :=
  if (remaining =? 0)%nat then mret []
  else
    match fuel with
    | O => mret []
    | S fuel =>
        chunk ← sock_recv remaining;
        match chunk with
        | [] => raise (eof_error size remaining)
        | _ =>
            rest ← read_loop fuel size (remaining - length chunk);
            mret (chunk ++ rest)
        end
    end.

Definition _read_exact (size : nat) : pym pyexn W bytes := read_loop size size size.

Definition recv_frame : pym pyexn W bytes :=
  header ← _read_exact FRAME_HEADER_SIZE;
  let payload_length := N.to_nat (unpack_be32 header) in
  if bad_length payload_length then
    raise (PktlabExn (new_DatapathProtocolError "received an invalid IPC frame length"
             (frame_context payload_length)))
  else _read_exact payload_length.

Definition protocol_error {A} (message : string) (context : pydict) : res pyexn A :=
  Err (PktlabExn (new_DatapathProtocolError message context)).

Definition validated_envelope {A} (r : A + pyval) (wrap : A → ResponseEnvelope)
    : res pyexn ResponseEnvelope :=
  match r with
  | inl a => Ok (wrap a)
  | inr errors =>
      protocol_error "IPC response failed basic envelope validation" [("errors", errors)]
  end.

Definition parse_response (frame_payload : bytes) : res pyexn ResponseEnvelope :=
  match json_loads frame_payload with
  | JsonUnicodeError => protocol_error "IPC response is not valid UTF-8" []
  | JsonDecodeError line column position =>
      protocol_error "IPC response is not valid JSON"
        [("line", PyInt line); ("column", PyInt column); ("position", PyInt position)]
  | JsonRaises e => Err e
  | JsonValue (PyDict raw) =>
      match dict_get "ok" raw with
      | Some (PyBool true) => validated_envelope (validate_success raw) SuccessResponse
      | Some (PyBool false) => validated_envelope (validate_error raw) ErrorResponse
      | _ =>
          protocol_error "IPC response did not contain a valid ok discriminator"
            [("keys", PyList (PyStr <$> py_sorted raw.*1))]
      end
  | JsonValue raw =>
      protocol_error "IPC response must be a JSON object"
        [("response_type", PyStr (type_name raw))]
  end.

Definition recv_response : pym pyexn W ResponseEnvelope :=
  response_bytes ← recv_frame;
  pym_lift (parse_response response_bytes).
End protocol.

(** ** A byte stream that arrives in segments *)

Inductive arrival : Type :=
| Segment (b : bytes)
| Failure (e : os_error).

Record stream : Type := mkStream {
  incoming : list arrival;
  sent : bytes;
}.

Definition stream_recv (n : nat) : pym pyexn stream bytes := λ s,
  match incoming s with
  | [] => (Ok [], s)
  | Segment b :: rest =>
      (Ok (take n b),
       mkStream (if (length b <=? n)%nat then rest else Segment (drop n b) :: rest) (sent s))
  | Failure e :: rest => (Err (OSErr e), mkStream rest (sent s))
  end.

#[export] Instance stream_socket : Socket stream := {|
  sock_open := mret ();
  sock_connect _ _ := mret ();
  sock_sendall b := modify (λ s, mkStream (incoming s) (sent s ++ b));
  sock_recv := stream_recv;
  sock_close := mret ();
|}.

#[export] Instance stream_socket_laws : SocketLaws stream.
Proof.
  constructor; try (by intros; intros ? ? ? [=]).
  - intros n w c w'. simpl. unfold stream_recv. repeat case_match; intros [= <- <-]; simpl; [lia| |].
    all: rewrite length_take; lia.
  - intros n w e w'. simpl. unfold stream_recv. repeat case_match; intros [= <- <-]. by eexists.
  - intros w. by eexists.
Qed.

(** The bytes of a stream of segments. *)
Fixpoint stream_bytes (l : list arrival) : bytes :=
  match l with
  | Segment b :: l => b ++ stream_bytes l
  | _ => []
  end.

(** The stream delivers [b]: non-empty segments whose bytes start with [b]. *)
Definition segments_ok (l : list arrival) : Prop :=
  Forall (λ a, match a with Segment b => b ≠ [] | Failure _ => False end) l.

(** ** Facts *)

Lemma unpack_pack n : (n < 2 ^ 32)%N → unpack_be32 (pack_be32 n) = n.
Proof.
  intros Hn. unfold unpack_be32, pack_be32. cbn [fmap list_fmap fold_left].
  rewrite !N_ascii_embedding by (by apply N.mod_lt).
  change (2 ^ 24)%N with 16777216%N. change (2 ^ 16)%N with 65536%N.
  change (2 ^ 8)%N with 256%N. change (2 ^ 0)%N with 1%N. change (2 ^ 32)%N with 4294967296%N in Hn.
  zify. Z.to_euclidean_division_equations. lia.
Qed.

Lemma length_pack n : length (pack_be32 n) = FRAME_HEADER_SIZE.
Proof. done. Qed.

Lemma frame_payload_ok p f :
  _frame_payload p = Ok f ↔
  (0 < length p < MAX_FRAME_PAYLOAD_SIZE) ∧ f = pack_be32 (N.of_nat (length p)) ++ p.
Proof.
  unfold _frame_payload, bad_length. destruct (_ || _) eqn:Hb.
  - split; [done|]. apply orb_true_iff in Hb as [Hb%Nat.eqb_eq|Hb%Nat.leb_le]; lia.
  - apply orb_false_iff in Hb as [Hb%Nat.eqb_neq Hc%Nat.leb_gt].
    split; [intros [= <-]; split; [lia|done]|by intros [_ ->]].
Qed.

Lemma segments_ok_cons a l :
  segments_ok (a :: l) ↔ (∃ b, a = Segment b ∧ b ≠ []) ∧ segments_ok l.
Proof. unfold segments_ok. rewrite Forall_cons. destruct a; naive_solver. Qed.

Lemma stream_recv_step n l out :
  segments_ok l → l ≠ [] → 0 < n →
  ∃ c l', stream_recv n (mkStream l out) = (Ok c, mkStream l' out) ∧ c ≠ [] ∧ length c <= n ∧
    segments_ok l' ∧ stream_bytes l = c ++ stream_bytes l'.
Proof.
  intros Hl Hne Hn. destruct l as [|a l]; [done|].
  apply segments_ok_cons in Hl as [(b & -> & Hb) Hl]. unfold stream_recv. cbn [incoming sent].
  exists (take n b). eexists. split; [done|].
  split; [by destruct b, n; [| |lia|]|]. split; [rewrite length_take; lia|].
  destruct (Nat.leb_spec (length b) n) as [Hle|Hlt].
  - split; [done|]. by rewrite take_ge.
  - cbn [stream_bytes]. rewrite app_assoc, take_drop. split; [|done].
    apply segments_ok_cons. split; [|done]. exists (drop n b). split; [done|].
    intros Hd%(f_equal length). rewrite length_drop in Hd. simpl in Hd. lia.
Qed.

(** Reading from a stream of segments: enough bytes are read exactly, whatever
    the segmentation. *)
Lemma read_loop_stream `{Codec} fuel size remaining l out :
  segments_ok l → remaining <= fuel → remaining <= length (stream_bytes l) →
  ∃ l', read_loop fuel size remaining (mkStream l out)
          = (Ok (take remaining (stream_bytes l)), mkStream l' out) ∧
        segments_ok l' ∧ stream_bytes l' = drop remaining (stream_bytes l).
Proof.
  revert remaining l. induction fuel as [|fuel IH]; intros remaining l Hl Hf Hlen.
  { assert (remaining = 0) as -> by lia. exists l. by rewrite take_0, drop_0. }
  cbn [read_loop]. destruct (Nat.eqb_spec remaining 0) as [->|Hr].
  { exists l. by rewrite take_0, drop_0. }
  assert (l ≠ []) as Hne by (by intros ->; simpl in Hlen; lia).
  destruct (stream_recv_step remaining l out) as (c & l1 & Hc & Hcne & Hcl & Hl1 & Hb);
    [done|done|lia|].
  rewrite (pym_bind_ok _ _ _ _ _ Hc), Hb.
  rewrite Hb, length_app in Hlen. destruct c as [|c0 c]; [done|].
  set (ch := c0 :: c) in *.
  destruct (IH (remaining - length ch) l1) as (l' & Hrun & Hl' & Hd); [done|simpl in *; lia|lia|].
  exists l'. rewrite (pym_bind_ok _ _ _ _ _ Hrun). split; [|split; [done|]].
  - rewrite take_app_ge by lia. done.
  - by rewrite drop_app_ge by lia.
Qed.

(** Too few bytes are an end of file. *)
Lemma read_loop_eof `{Codec} fuel size remaining l out :
  segments_ok l → remaining <= fuel → length (stream_bytes l) < remaining →
  read_loop fuel size remaining (mkStream l out)
    = (Err (eof_error size (remaining - length (stream_bytes l))), mkStream [] out).
Proof.
  revert remaining l. induction fuel as [|fuel IH]; intros remaining l Hl Hf Hlen; [lia|].
  cbn [read_loop]. destruct (Nat.eqb_spec remaining 0) as [->|Hr]; [lia|].
  destruct (decide (l = [])) as [->|Hne].
  { simpl in *. by rewrite Nat.sub_0_r. }
  destruct (stream_recv_step remaining l out) as (c & l1 & Hc & Hcne & Hcl & Hl1 & Hb);
    [done|done|lia|].
  rewrite (pym_bind_ok _ _ _ _ _ Hc), Hb in *. rewrite length_app in *.
  destruct c as [|c0 c]; [done|]. set (ch := c0 :: c) in *.
  erewrite pym_bind_err; [|apply IH; [done|simpl in *; lia|lia]]. by rewrite Nat.sub_add_distr.
Qed.

Section generic.
Context {W : Type} `{Socket W} `{!SocketLaws W} `{Codec}.

(** More fuel than bytes to read changes nothing. *)
Lemma read_loop_fuel fuel fuel' size remaining w :
  remaining <= fuel → remaining <= fuel' →
  read_loop fuel size remaining w = read_loop fuel' size remaining w.
Proof using Type.
  revert fuel' remaining w. induction fuel as [|fuel IH]; intros fuel' remaining w Hf Hf'.
  { assert (remaining = 0) as -> by lia. by destruct fuel'. }
  cbn [read_loop]. destruct (Nat.eqb_spec remaining 0) as [->|Hr]; [by destruct fuel'|].
  destruct fuel' as [|fuel']; [lia|]. cbn [read_loop].
  rewrite (proj2 (Nat.eqb_neq _ _) Hr). unfold mbind, pym_mbind.
  destruct (sock_recv remaining w) as [[[|c0 c]|e] w1]; try done. simpl length.
  by rewrite (IH fuel') by lia.
Qed.

Lemma read_loop_length fuel size remaining w b w' :
  remaining <= fuel → read_loop fuel size remaining w = (Ok b, w') → length b = remaining.
Proof.
  revert remaining w b w'. induction fuel as [|fuel IH]; intros remaining w b w' Hf; cbn [read_loop].
  { assert (remaining = 0) as -> by lia. by intros [= <- <-]. }
  destruct (Nat.eqb_spec remaining 0) as [->|Hr]; [by intros [= <- <-]|].
  unfold mbind, pym_mbind. destruct (sock_recv remaining w) as [[c|e] w1] eqn:Hc; [|done].
  apply recv_bound in Hc. destruct c as [|c0 c]; [done|].
  destruct (read_loop fuel size (remaining - length (c0 :: c)) w1) as [[rest|e] w2] eqn:Hrun;
    [|done].
  apply IH in Hrun; [|simpl in *; lia]. intros [= <- <-]. simpl in *. rewrite length_app. lia.
Qed.

(** Only a socket or a protocol error interrupts reading. *)
Lemma read_loop_raises fuel size remaining :
  raises_only (λ e, (∃ o, e = OSErr o) ∨ is_protocol e = true) (read_loop fuel size remaining).
Proof.
  revert remaining. induction fuel as [|fuel IH]; intros remaining; cbn [read_loop];
    case_match; try (by apply hoare_mret).
  eapply hoare_bind with (Q' := λ _ _, True).
  - intros w _. destruct (sock_recv remaining w) as [[c|e] w'] eqn:Hr; [done|].
    left. by eapply recv_raises.
  - intros [|c0 c]; [apply hoare_raise; intros _ _; by right|].
    eapply hoare_bind with (Q' := λ _ _, True); [apply IH|]. intros rest. by apply hoare_mret.
Qed.

Lemma recv_frame_raises : raises_only (λ e, (∃ o, e = OSErr o) ∨ is_protocol e = true) recv_frame.
Proof.
  unfold recv_frame, _read_exact.
  eapply hoare_bind with (Q' := λ _ _, True); [apply read_loop_raises|]. intros header.
  case_match; [apply hoare_raise; intros _ _; by right|apply read_loop_raises].
Qed.
End generic.

Lemma bad_length_false n : bad_length n = false ↔ 0 < n < MAX_FRAME_PAYLOAD_SIZE.
Proof.
  unfold bad_length. rewrite orb_false_iff, Nat.eqb_neq, Nat.leb_gt. lia.
Qed.

Lemma frame_length_fits n : n < MAX_FRAME_PAYLOAD_SIZE → (N.of_nat n < 2 ^ 32)%N.
Proof.
  intros Hn. eapply N.lt_trans with (N.of_nat MAX_FRAME_PAYLOAD_SIZE); [lia|by vm_compute].
Qed.

(** A frame is read back whatever the segments its bytes arrive in. *)
Lemma recv_frame_stream `{Codec} p f l out rest :
  _frame_payload p = Ok f → segments_ok l → stream_bytes l = f ++ rest →
  ∃ l', recv_frame (mkStream l out) = (Ok p, mkStream l' out) ∧
        segments_ok l' ∧ stream_bytes l' = rest.
Proof.
  intros (Hlen & ->)%frame_payload_ok Hl Hb. rewrite <- app_assoc in Hb.
  destruct (read_loop_stream FRAME_HEADER_SIZE FRAME_HEADER_SIZE FRAME_HEADER_SIZE l out)
    as (l1 & Hhd & Hl1 & Hb1); [done|done|rewrite Hb, length_app, length_pack; lia|].
  rewrite Hb, take_app_length' in Hhd by done.
  rewrite Hb, drop_app_length' in Hb1 by done.
  destruct (read_loop_stream (length p) (length p) (length p) l1 out)
    as (l2 & Hp & Hl2 & Hb2); [done|done|rewrite Hb1, length_app; lia|].
  rewrite Hb1, take_app_length in Hp. rewrite Hb1, drop_app_length in Hb2.
  exists l2. split; [|done]. unfold recv_frame, _read_exact.
  rewrite (pym_bind_ok _ _ _ _ _ Hhd), unpack_pack.
  - rewrite Nat2N.id, (proj2 (bad_length_false _)) by done. exact Hp.
  - apply frame_length_fits, Hlen.
Qed.

(** ** Claims *)

(** C30 A frame sent by one side is read back by the other whatever the segments
    the bytes arrive in, and the bytes that follow stay in the stream. *)
Theorem frame_roundtrip `{Codec} p f l out rest :
  _frame_payload p = Ok f → segments_ok l → stream_bytes l = f ++ rest →
  ∃ l', recv_frame (mkStream l out) = (Ok p, mkStream l' out) ∧
        segments_ok l' ∧ stream_bytes l' = rest.
Proof. apply recv_frame_stream. Qed.

(** A frame cut short by the peer is reported as a protocol error, never
    returned. *)
Theorem truncated_frame `{Codec} p f l out tail :
  _frame_payload p = Ok f → segments_ok l → stream_bytes l ++ tail = f → tail ≠ [] →
  ∃ e s', recv_frame (mkStream l out) = (Err e, s') ∧ is_protocol e = true.
Proof.
  intros (Hlen & ->)%frame_payload_ok Hl Hb Ht. unfold recv_frame, _read_exact.
  destruct (decide (length (stream_bytes l) < FRAME_HEADER_SIZE)) as [Hs|Hs].
  { erewrite pym_bind_err by (by apply read_loop_eof). by repeat eexists. }
  destruct (read_loop_stream FRAME_HEADER_SIZE FRAME_HEADER_SIZE FRAME_HEADER_SIZE l out)
    as (l1 & Hhd & Hl1 & Hb1); [done|done|lia|].
  assert (take FRAME_HEADER_SIZE (stream_bytes l) = pack_be32 (N.of_nat (length p))) as Htk.
  { rewrite <- (take_app_length' (pack_be32 (N.of_nat (length p))) p FRAME_HEADER_SIZE eq_refl), <- Hb.
    by rewrite take_app_le by lia. }
  rewrite (pym_bind_ok _ _ _ _ _ Hhd), Htk, unpack_pack
    by apply frame_length_fits, Hlen.
  rewrite Nat2N.id, (proj2 (bad_length_false _)) by done.
  rewrite read_loop_eof; [by repeat eexists|done|done|].
  apply (f_equal length) in Hb. rewrite !length_app, length_pack in Hb.
  rewrite Hb1, length_drop. destruct tail; [done|]. cbn [length] in Hb. lia.
Qed.

(** Whatever the peer sends, a frame that is returned has between 1 and
    16383 bytes and as many as its header announced, and reading stops after
    at most as many turns as there are bytes to read. *)
Theorem recv_frame_bounds {W} `{Socket W} `{!SocketLaws W} `{Codec} w p w' :
  recv_frame w = (Ok p, w') →
  0 < length p < MAX_FRAME_PAYLOAD_SIZE ∧
  ∃ header w1, _read_exact FRAME_HEADER_SIZE w = (Ok header, w1) ∧
    length header = FRAME_HEADER_SIZE ∧ length p = N.to_nat (unpack_be32 header) ∧
    ∀ fuel, length p <= fuel → read_loop fuel (length p) (length p) w1 = (Ok p, w').
Proof.
  unfold recv_frame. unfold mbind, pym_mbind.
  destruct (_read_exact FRAME_HEADER_SIZE w) as [[header|e] w1] eqn:Hhd; [|done].
  destruct (bad_length _) eqn:Hbad; [done|]. apply bad_length_false in Hbad. intros Hp.
  unfold _read_exact in Hp.
  pose proof (read_loop_length _ _ _ _ _ _ (le_n _) Hhd) as Hh.
  pose proof (read_loop_length _ _ _ _ _ _ (le_n _) Hp) as Hlen. split; [lia|].
  exists header, w1. split; [done|]. split; [done|]. split; [done|]. intros fuel Hf.
  rewrite Hlen. rewrite <- Hp. apply read_loop_fuel; lia.
Qed.
