(* ===== verification/DpdkClient.v ===== *)
(** * The datapath client

    [dpdk_client/client.py]: one request and one response per connection, the
    translation of socket errors into [DatapathTransportError], and the typed
    result of each command. *)

From S2P Require Import Prelude PyStr Errors Types DpdkModels Framing.
#[local] Open Scope string_scope.
#[local] Open Scope list_scope.

(** [uuid.uuid4().hex] *)
Class Uuid (W : Type) := { uuid_hex : pym pyexn W string }.
Class UuidLaws (W : Type) `{Uuid W} := {
  uuid_hex_digits w h w' :
    uuid_hex w = (Ok h, w') → String.length h = 32%nat ∧ str_all is_hex h = true;
  uuid_returns w : ∃ h w', uuid_hex w = (Ok h, w');
}.

Section client.
Context {W : Type} `{Socket W} `{Uuid W} `{Codec}.

(** [_default_request_id] *)
Definition _default_request_id : pym pyexn W string :=
  h ← uuid_hex;
  mret ("req-" +:+ String.substring 0 12 h).

(** [class DpdkClient]; a duration is a number of clock ticks. *)
Record DpdkClient : Type := mkDpdkClient {
  client_socket_path : string;
  client_timeout_seconds : Z;
  _request_id_factory : pym pyexn W string;
}.

(** [DpdkClient.__init__] *)
Definition new_DpdkClient (socket_path : string) (timeout_seconds : Z)
    (request_id_factory : option (pym pyexn W string)) : res pyexn DpdkClient :=
  if str_empty socket_path then
    Err (ValueError (Some "socket_path must be a non-empty string"))
  else if (timeout_seconds <=? 0)%Z then
    Err (ValueError (Some "timeout_seconds must be greater than zero"))
  else Ok (mkDpdkClient socket_path timeout_seconds (default _default_request_id request_id_factory)).

Definition transport_error (message : string) (context : pydict) : pyexn :=
  PktlabExn (new_DatapathTransportError message context).

(** The four [except] clauses of [_exchange], in their order; a protocol error
    is no [OSError] and passes. *)
Definition on_exchange_error {A} (client : DpdkClient) (request : RequestEnvelope) (e : pyexn)
    : pym pyexn W A :=
  let context :=
    [("socket_path", PyStr (client_socket_path client)); ("cmd", PyStr (request_cmd request))] in
  match e with
  | OSErr FileNotFoundError => raise (transport_error "datapath IPC socket was not found" context)
  | OSErr ConnectionRefusedError =>
      raise (transport_error "datapath IPC socket refused the connection" context)
  | OSErr SocketTimeout =>
      raise (transport_error "datapath IPC request timed out"
               (context ++ [("timeout_seconds", PyInt (client_timeout_seconds client))]))
  | OSErr (OtherOSError errno) =>
      raise (transport_error "datapath IPC transport failed"
               (context ++ [("errno", match errno with Some n => PyInt n | None => PyNone end)]))
  | _ => raise e
  end.

(** [_exchange]; the [with] statement closes the socket on every path. *)
Definition _exchange (client : DpdkClient) (request : RequestEnvelope)
    : pym pyexn W ResponseEnvelope :=
  try_except
    (sock_open;;
     finally
       (sock_connect (client_socket_path client) (client_timeout_seconds client);;
        send_request request;;
        recv_response)
       sock_close)
    (on_exchange_error client request).

Definition _typed_call {A} (client : DpdkClient) (request : RequestEnvelope)
    (payload_type : pydict → A + pyval) : pym pyexn W (CommandResult A) :=
  response ← _exchange client request;
  if decide (response_id response = request_id request) then
    match response with
    | ErrorResponse r => mret (failure (request_id request) (failure_error r))
    | SuccessResponse r =>
        match payload_type (success_payload r) with
        | inl payload => mret (success (request_id request) payload)
        | inr errors =>
            raise (PktlabExn (new_DatapathProtocolError "IPC success payload failed validation"
              [("request_id", PyStr (request_id request)); ("cmd", PyStr (request_cmd request));
               ("errors", errors)]))
        end
    end
  else
    raise (PktlabExn (new_DatapathProtocolError "IPC response id did not match the request id"
      [("request_id", PyStr (request_id request)); ("response_id", PyStr (response_id response));
       ("cmd", PyStr (request_cmd request))])).

(** The body of the eight commands. *)
Definition command {A} (mk : string → RequestEnvelope) (payload_type : pydict → A + pyval)
    (client : DpdkClient) : pym pyexn W (CommandResult A) :=
  id ← _request_id_factory client;
  request ← pym_lift (new_request mk id);
  _typed_call client request payload_type.

Definition ping : DpdkClient → pym pyexn W (CommandResult AckPayload) :=
  command PingRequest validate_ack.
Definition get_version : DpdkClient → pym pyexn W (CommandResult VersionPayload) :=
  command GetVersionRequest validate_version.
Definition get_health : DpdkClient → pym pyexn W (CommandResult HealthPayload) :=
  command GetHealthRequest validate_health.
Definition get_ports : DpdkClient → pym pyexn W (CommandResult PortsPayload) :=
  command GetPortsRequest validate_ports.
Definition get_stats : DpdkClient → pym pyexn W (CommandResult StatsPayload) :=
  command GetStatsRequest validate_stats.
Definition reset_stats : DpdkClient → pym pyexn W (CommandResult AckPayload) :=
  command ResetStatsRequest validate_ack.
Definition pause_datapath : DpdkClient → pym pyexn W (CommandResult AckPayload) :=
  command PauseDatapathRequest validate_ack.
Definition resume_datapath : DpdkClient → pym pyexn W (CommandResult AckPayload) :=
  command ResumeDatapathRequest validate_ack.
End client.
Arguments DpdkClient : clear implicits.

(** ** What a call may raise *)

(** The two classes of IPC failure. *)
Definition ipc_error (e : pyexn) : Prop := is_transport e = true ∨ is_protocol e = true.

(** Besides [JSONDecodeError], [json.loads] may raise a [ValueError], for an
    integer of too many digits, or a [RecursionError], for nesting too deep,
    and [parse_response] catches neither. *)
Definition decoder_error `{Codec} (e : pyexn) : Prop := ∃ b, json_loads b = JsonRaises e.

Definition call_error `{Codec} (e : pyexn) : Prop :=
  ipc_error e ∨ (decoder_error e ∧ ∀ o, e ≠ OSErr o).

(** ** Facts *)

Lemma substring_all p s n m : str_all p s = true → str_all p (String.substring n m s) = true.
Proof.
  revert n m. induction s as [|c s IH]; intros n m; [by destruct n, m|]. simpl.
  intros [Hc Hs]%andb_true_iff. destruct n, m; simpl; auto.
  rewrite Hc. by apply IH.
Qed.

Lemma hex_id_char c : is_hex c = true → request_id_char c = true.
Proof.
  unfold is_hex, request_id_char. unfold is_decimal, between. intros Hc.
  repeat rewrite ?orb_true_iff, ?andb_true_iff, ?N.leb_le, ?N.eqb_eq in *. lia.
Qed.

Section client_facts.
Context {W : Type} `{Socket W} `{!SocketLaws W} `{Uuid W} `{!UuidLaws W} `{Codec}.

(** The default identifiers satisfy the shared pattern. *)
Lemma default_request_id_ok w :
  ∃ id w', _default_request_id w = (Ok id, w') ∧ request_id_ok id = true.
Proof.
  destruct (uuid_returns w) as (h & w' & Hh). eexists _, w'.
  unfold _default_request_id. rewrite (pym_bind_ok _ _ _ _ _ Hh). split; [done|].
  apply uuid_hex_digits in Hh as [_ Hh]. unfold request_id_ok. rewrite str_all_app.
  apply andb_true_iff. split; [done|]. apply andb_true_iff. split; [done|].
  apply substring_all. eapply str_all_mono; [|done]. apply hex_id_char.
Qed.

Lemma parse_response_raises b e :
  parse_response b = Err e → is_protocol e = true ∨ decoder_error e.
Proof.
  unfold parse_response, validated_envelope, protocol_error.
  destruct (json_loads b) as [v| | |e'] eqn:Hj; [|by intros [= <-]; left..|].
  - repeat case_match; intros [= <-]; by left.
  - intros [= <-]. right. by exists b.
Qed.

Lemma encode_request_raises r e : encode_request r = Err e → is_protocol e = true.
Proof. unfold encode_request, _frame_payload. case_match; by intros [= <-]. Qed.

Definition os_or_protocol (e : pyexn) : Prop := (∃ o, e = OSErr o) ∨ is_protocol e = true.
Definition exchange_error (e : pyexn) : Prop := os_or_protocol e ∨ decoder_error e.

Lemma hoare_os {A} (m : pym pyexn W A) : raises_os m → raises_only os_or_protocol m.
Proof.
  intros Hm w _. destruct (m w) as [[a|e] w'] eqn:He; [done|]. left. by eapply Hm.
Qed.

Lemma send_request_raises r : raises_only os_or_protocol (send_request r).
Proof.
  unfold send_request. eapply hoare_bind with (Q' := λ _ _, True).
  - apply hoare_lift; [done|]. intros _ e _ He. right. by eapply encode_request_raises.
  - intros f. apply hoare_os, sendall_raises.
Qed.

Lemma recv_response_raises : raises_only exchange_error recv_response.
Proof.
  unfold recv_response. eapply hoare_bind with (Q' := λ _ _, True).
  - eapply hoare_weaken_err; [apply recv_frame_raises|]. by left.
  - intros b. apply hoare_lift; [done|]. intros _ e _ [He|He]%parse_response_raises; [|by right].
    left. by right.
Qed.

Lemma hoare_close {A} (m : pym pyexn W A) (P : pyexn → Prop) :
  raises_only P m → raises_only P (finally m sock_close).
Proof.
  intros Hm w _. specialize (Hm w I). unfold finally. destruct (m w) as [r w1].
  destruct (close_returns w1) as [w2 ->]. done.
Qed.

Lemma hoare_early {A} (m : pym pyexn W A) :
  raises_only os_or_protocol m → raises_only exchange_error m.
Proof. intros Hm. eapply hoare_weaken_err; [exact Hm|]. by left. Qed.

(** The exchange fails with a transport or a protocol error, or with what the
    decoder raised. *)
Lemma exchange_raises client r : raises_only call_error (_exchange client r).
Proof.
  unfold _exchange.
  eapply hoare_try with (R' := λ e _, exchange_error e).
  - eapply hoare_bind with (Q' := λ _ _, True); [apply hoare_early, hoare_os, open_raises|]. intros _.
    apply hoare_close. eapply hoare_bind with (Q' := λ _ _, True);
      [apply hoare_early, hoare_os, connect_raises|]. intros _.
    eapply hoare_bind with (Q' := λ _ _, True); [apply hoare_early, send_request_raises|]. intros _.
    apply recv_response_raises.
  - intros e w [[[o ->]|Hp]|Hd]; unfold on_exchange_error.
    + destruct o; by left; left.
    + destruct e; try done. by left; right.
    + destruct e as [| | | | | | | | |[]]; try (by right); by left; left.
Qed.

Lemma typed_call_spec {A} client r (payload_type : pydict → A + pyval) :
  hoare (λ _, True) (_typed_call client r payload_type)
    (λ result _, result_wf result ∧ result_request_id result = request_id r)
    (λ e _, call_error e).
Proof.
  unfold _typed_call. eapply hoare_bind with (Q' := λ _ _, True).
  - apply exchange_raises.
  - intros response. case_decide; [|apply hoare_raise; by left; right].
    destruct response as [s|f].
    + destruct (payload_type _); [|apply hoare_raise; by left; right].
      apply hoare_mret. auto with pk.
    + apply hoare_mret. auto with pk.
Qed.
(** A command with the default identifiers. *)
Lemma command_spec {A} mk (payload_type : pydict → A + pyval) (client : DpdkClient W) :
  _request_id_factory client = _default_request_id →
  hoare (λ _, True) (command mk payload_type client)
    (λ result _, result_wf result) (λ e _, call_error e).
Proof.
  intros Hid w _. unfold command. rewrite Hid.
  destruct (default_request_id_ok w) as (id & w' & Hw & Hok).
  rewrite (pym_bind_ok _ _ _ _ _ Hw). unfold new_request. rewrite Hok.
  rewrite (pym_bind_ok _ _ _ _ _ (eq_refl : pym_lift (Ok (mk id)) w' = (Ok (mk id), w'))).
  pose proof (typed_call_spec client (mk id) payload_type w' I) as Hs.
  destruct (_typed_call _ _ _ w') as [[result|e] w'']; [by destruct Hs|done].
Qed.
End client_facts.
