(* ===== verification/ClientProps.v ===== *)
(** * Properties of the datapath client

    What one command returns or raises, over any socket and over a byte stream,
    with a concrete codec that instantiates the parameters. *)

From S2P Require Import Prelude PyStr Errors Types DpdkModels Framing DpdkClient.
#[local] Open Scope string_scope.
#[local] Open Scope list_scope.

(** What a command makes of a response: the specification of [_typed_call]. *)
Definition answer {A} (request : RequestEnvelope) (payload_type : pydict → A + pyval)
    (response : ResponseEnvelope) : res pyexn (CommandResult A) :=
  if decide (response_id response = request_id request) then
    match response with
    | ErrorResponse r => Ok (failure (request_id request) (failure_error r))
    | SuccessResponse r =>
        match payload_type (success_payload r) with
        | inl payload => Ok (success (request_id request) payload)
        | inr errors => protocol_error "IPC success payload failed validation"
            [("request_id", PyStr (request_id request)); ("cmd", PyStr (request_cmd request));
             ("errors", errors)]
        end
    end
  else protocol_error "IPC response id did not match the request id"
         [("request_id", PyStr (request_id request)); ("response_id", PyStr (response_id response));
          ("cmd", PyStr (request_cmd request))].

(** ** Lemmas *)

Lemma exchange_stream `{Codec} client request frame p f l out rest :
  encode_request request = Ok frame → _frame_payload p = Ok f →
  segments_ok l → stream_bytes l = f ++ rest →
  ∃ l', segments_ok l' ∧ stream_bytes l' = rest ∧
    _exchange client request (mkStream l out) =
      match parse_response p with
      | Ok response => (Ok response, mkStream l' (out ++ frame))
      | Err e => on_exchange_error client request e (mkStream l' (out ++ frame))
      end.
Proof.
  intros Hreq Hf Hl Hb. apply frame_payload_ok in Hf as Hlen.
  assert (∃ l', recv_frame (mkStream l (out ++ frame)) = (Ok p, mkStream l' (out ++ frame)) ∧
    segments_ok l' ∧ stream_bytes l' = rest) as (l' & Hrecv & Hl' & Hb')
    by (by eapply recv_frame_stream).
  exists l'. split; [done|]. split; [done|].
  assert (send_request request (mkStream l out) = (Ok (), mkStream l (out ++ frame))) as Hsend.
  { unfold send_request. rewrite Hreq. done. }
  assert (recv_response (mkStream l (out ++ frame))
    = (parse_response p, mkStream l' (out ++ frame))) as Hresp.
  { unfold recv_response. by rewrite (pym_bind_ok _ _ _ _ _ Hrecv). }
  unfold _exchange, try_except, finally. cbn [sock_open sock_connect sock_close stream_socket].
  rewrite !pym_ret_bind. rewrite (pym_bind_ok _ _ _ _ _ Hsend), Hresp.
  by destruct (parse_response p).
Qed.

(** An exception of the decoder that is no [OSError] passes through the client
    as it is. *)
Lemma decoder_error_escapes `{Codec} {A} client request (payload_type : pydict → A + pyval)
    frame p f l out rest e :
  encode_request request = Ok frame → _frame_payload p = Ok f →
  segments_ok l → stream_bytes l = f ++ rest → json_loads p = JsonRaises e → (∀ o, e ≠ OSErr o) →
  ∃ l', _typed_call client request payload_type (mkStream l out) = (Err e, mkStream l' (out ++ frame)).
Proof.
  intros Hreq Hf Hl Hb Hj He.
  destruct (exchange_stream client request frame p f l out rest) as (l' & _ & _ & Hex); [done..|].
  exists l'. unfold _typed_call, mbind, pym_mbind. rewrite Hex. unfold parse_response. rewrite Hj.
  destruct e as [| | | | | | | | |o]; try done. by destruct (He o).
Qed.

(** ** Claims *)

(** C34 One command over a byte stream: the request frame is sent, and a response
    frame that arrives in any segments becomes exactly the result the
    specification [answer] gives; a response to another request is a protocol
    error. *)
Theorem typed_call_answer `{Codec} {A} client request (payload_type : pydict → A + pyval)
    frame p f l out rest response :
  encode_request request = Ok frame → _frame_payload p = Ok f →
  segments_ok l → stream_bytes l = f ++ rest → parse_response p = Ok response →
  ∃ l', _typed_call client request payload_type (mkStream l out)
    = (answer request payload_type response, mkStream l' (out ++ frame)).
Proof.
  intros Hreq Hf Hl Hb Hp.
  destruct (exchange_stream client request frame p f l out rest) as (l' & _ & _ & Hex); [done..|].
  rewrite Hp in Hex. exists l'. unfold _typed_call. rewrite (pym_bind_ok _ _ _ _ _ Hex).
  unfold answer. case_decide; [|done]. destruct response; [|done]. by destruct (payload_type _).
Qed.

(** C35 Over any socket, a command with the default identifiers returns a result
    that holds either a payload or an error, or raises a transport error, a
    protocol error, or an exception of the JSON decoder other than
    [JSONDecodeError], which nothing catches; no [OSError] and no pydantic
    error escapes. *)
Theorem command_outcomes {W} `{Socket W} `{!SocketLaws W} `{Uuid W} `{!UuidLaws W} `{Codec} {A}
    mk (payload_type : pydict → A + pyval) (client : DpdkClient W) :
  _request_id_factory client = _default_request_id →
  hoare (λ _, True) (command mk payload_type client)
    (λ result _, result_wf result) (λ e _, call_error e).
Proof.
  apply command_spec.
Qed.

(** ** Witnesses *)

(** A codec whose messages are a bare request identifier, answered with an
    acknowledgement. *)
Definition demo_ack : pydict := [("message", PyStr "pong")].
#[local] Instance demo_codec : Codec := {|
  json_dump r := String.list_ascii_of_string (request_id r);
  json_loads b :=
    JsonValue (PyDict [("id", PyStr (String.string_of_list_ascii b)); ("ok", PyBool true);
                       ("payload", PyDict demo_ack)]);
  validate_success d :=
    match dict_get "id" d, dict_get "payload" d with
    | Some (PyStr id), Some (PyDict payload) => inl (mkRawSuccess id payload)
    | _, _ => inr PyNone
    end;
  validate_error _ := inr PyNone;
  validate_ack d :=
    match dict_get "message" d with
    | Some (PyStr m) => if str_empty m then inr PyNone else inl (mkAck m)
    | _ => inr PyNone
    end;
  validate_version _ := inr PyNone;
  validate_health _ := inr PyNone;
  validate_ports _ := inr PyNone;
  validate_stats _ := inr PyNone;
|}.

Definition demo_client : DpdkClient stream := mkDpdkClient "/run/dpdkd.sock" 1000 (mret "r1").
Definition demo_payload : bytes := String.list_ascii_of_string "r1".
Definition demo_frame : bytes := pack_be32 2 ++ demo_payload.
Definition demo_arrivals : list arrival :=
  [Segment (take 3 demo_frame); Segment (drop 3 demo_frame)].

Lemma demo_arrivals_ok : segments_ok demo_arrivals.
Proof. repeat constructor; discriminate. Qed.

Lemma frame_roundtrip_witness :
  ∃ l', recv_frame (mkStream demo_arrivals []) = (Ok demo_payload, mkStream l' []).
Proof.
  destruct (frame_roundtrip demo_payload demo_frame demo_arrivals [] [] eq_refl
              demo_arrivals_ok eq_refl) as (l' & Hl' & _).
  exists l'. exact Hl'.
Defined.

Lemma truncated_frame_witness :
  ∃ e s', recv_frame (mkStream [Segment (take 3 demo_frame)] []) = (Err e, s') ∧
    is_protocol e = true.
Proof.
  apply (truncated_frame demo_payload demo_frame _ [] (drop 3 demo_frame) eq_refl).
  - repeat constructor; discriminate.
  - reflexivity.
  - discriminate.
Defined.

Lemma recv_frame_bounds_witness :
  recv_frame (mkStream demo_arrivals []) = (Ok demo_payload, mkStream [] []) ∧
  (0 < length demo_payload < MAX_FRAME_PAYLOAD_SIZE)%nat.
Proof.
  assert (recv_frame (mkStream demo_arrivals []) = (Ok demo_payload, mkStream [] [])) as Hr
    by (vm_compute; reflexivity).
  split; [exact Hr|]. apply (recv_frame_bounds _ _ _ Hr).
Defined.

Lemma typed_call_answer_witness :
  ∃ l', _typed_call demo_client (PingRequest "r1") validate_ack
          (mkStream demo_arrivals [])
    = (Ok (success "r1" (mkAck "pong")), mkStream l' demo_frame).
Proof.
  exact (typed_call_answer demo_client (PingRequest "r1") validate_ack
           demo_frame demo_payload demo_frame demo_arrivals [] []
           (SuccessResponse (mkRawSuccess "r1" demo_ack)) eq_refl eq_refl demo_arrivals_ok
           eq_refl eq_refl).
Defined.

(** A stream whose identifiers are all zero. *)
Definition zeros : string := "00000000000000000000000000000000".
#[local] Instance demo_uuid : Uuid stream := {| uuid_hex := mret zeros |}.
#[local] Instance demo_uuid_laws : UuidLaws stream.
Proof. constructor; [by intros w h w' [= <- <-]|by intros w; eexists _, _]. Qed.

Lemma command_outcomes_witness :
  hoare (λ _, True)
    (ping (mkDpdkClient "/run/dpdkd.sock" 1000 _default_request_id))
    (λ result (_ : stream), result_wf result) (λ e _, call_error e).
Proof. apply (command_outcomes). reflexivity. Defined.
