(* ===== verification/Clock.v ===== *)
(** * Polling against a deadline

    [util/time.py], and the polling loop the supervisor shares with it: check
    the monotonic clock, try, sleep, repeat.  A time is an integer number of
    clock ticks.  The loop carries fuel; under the clock's laws the number of
    turns below is always enough. *)

From S2P Require Import Prelude PyStr Errors.
#[local] Open Scope string_scope.
#[local] Open Scope Z_scope.

(** [time.monotonic] and [time.sleep] *)
Class Clock (W : Type) := {
  clock_monotonic : pym pyexn W Z;
  clock_sleep : Z → pym pyexn W unit;
}.

(** The clock reads the present time, and sleeping takes at least as long as
    asked. *)
Class ClockLaws (W : Type) `{Clock W} := {
  now : W → Z;
  monotonic_reads w : ∃ t w', clock_monotonic w = (Ok t, w') ∧ now w <= t <= now w';
  sleep_advances d w : 0 < d → ∃ w', clock_sleep d w = (Ok (), w') ∧ now w + d <= now w';
}.

(** No clock runs backwards during [m]. *)
Definition ages {W} `{ClockLaws W} {A} (m : pym pyexn W A) : Prop :=
  ∀ w r w', m w = (r, w') → now w <= now w'.

(** The clock of a component is that of its world. *)
#[export] Instance pair_clock {S W} `{Clock W} : Clock (S * W) := {|
  clock_monotonic := on_snd clock_monotonic;
  clock_sleep d := on_snd (clock_sleep d);
|}.

#[export] Program Instance pair_clock_laws {S W} `{ClockLaws W} : ClockLaws (S * W) := {|
  now s := now (snd s);
|}.
Next Obligation.
  intros S W ?? [s w]. destruct (monotonic_reads w) as (t & w' & Hw & Ht).
  exists t, (s, w'). unfold clock_monotonic, pair_clock, on_snd. by rewrite Hw.
Qed.
Next Obligation.
  intros S W ?? d [s w] Hd. destruct (sleep_advances d w Hd) as (w' & Hw & Ht).
  exists (s, w'). unfold clock_sleep, pair_clock, on_snd. by rewrite Hw.
Qed.

Section poll.
Context {W : Type} `{Clock W}.

(** [while time.monotonic() < deadline: r = body(); if r is not None: return r;
    time.sleep(interval)].  The result is [None] when the fuel ran out,
    [Some None] when the deadline passed. *)
Fixpoint poll_loop {A} (fuel : nat) (deadline interval : Z) (body : pym pyexn W (option A))
    : pym pyexn W (option (option A)) :=
  t ← clock_monotonic;
  if t <? deadline then
    match fuel with
    | O => mret None
    | S fuel =>
        r ← body;
        match r with
        | Some a => mret (Some (Some a))
        | None => clock_sleep interval;; poll_loop fuel deadline interval body
        end
    end
  else mret (Some None).

(** Turns that fit before a deadline [timeout] ahead, with one to spare. *)
Definition turns (timeout interval : Z) : nat := S (Z.to_nat (timeout / interval)).

(** The loop with its deadline; fuel that runs out counts as the deadline. *)
Definition poll_until {A} (timeout interval : Z) (body : pym pyexn W (option A))
    : pym pyexn W (option A) :=
  start ← clock_monotonic;
  r ← poll_loop (turns timeout interval) (start + timeout) interval body;
  mret (match r with Some a => a | None => None end).

(** [wait_until] *)
Definition wait_until (predicate : pym pyexn W bool) (description : string)
    (timeout_seconds interval_seconds : Z) : pym pyexn W unit :=
  if timeout_seconds <=? 0 then
    raise (ValueError (Some "timeout_seconds must be greater than zero"))
  else if interval_seconds <=? 0 then
    raise (ValueError (Some "interval_seconds must be greater than zero"))
  else
    r ← poll_until timeout_seconds interval_seconds
          (b ← predicate; mret (if b : bool then Some () else None));
    match r with
    | Some tt => mret ()
    | None =>
        raise (PktlabExn (new_PktlabError ErrorCode.TIMEOUT
          ("timed out waiting for " +:+ description)
          [("description", PyStr description); ("timeout_seconds", PyInt timeout_seconds);
           ("interval_seconds", PyInt interval_seconds)]))
    end.
End poll.

(** ** Facts *)

Section poll_facts.
Context {W : Type} `{ClockLaws W}.

Lemma poll_loop_enough {A} fuel deadline interval (body : pym pyexn W (option A)) w r w' :
  0 < interval → ages body → deadline <= now w + interval * Z.of_nat fuel →
  poll_loop fuel deadline interval body w = (Ok r, w') → r ≠ None.
Proof.
  intros Hi Hb. revert w. induction fuel as [|fuel IH]; intros w Hd; cbn [poll_loop].
  all: destruct (monotonic_reads w) as (t & w1 & Ht & Hnow);
    rewrite (pym_bind_ok _ _ _ _ _ Ht); destruct (Z.ltb_spec t deadline); try lia.
  1: by intros [= <- _].
  2: by intros [= <- _].
  unfold mbind, pym_mbind. destruct (body w1) as [[[a|]|e] w2] eqn:Hw2; [by intros [= <- _]| |done].
  apply Hb in Hw2. destruct (sleep_advances interval w2 Hi) as (w3 & -> & Hw3).
  apply IH. lia.
Qed.

(** When the deadline passed, it really did. *)
Lemma poll_loop_late {A} fuel deadline interval (body : pym pyexn W (option A)) w w' :
  poll_loop fuel deadline interval body w = (Ok (Some None), w') → deadline <= now w'.
Proof.
  revert w. induction fuel as [|fuel IH]; intros w; cbn [poll_loop].
  all: destruct (monotonic_reads w) as (t & w1 & Ht & Hnow);
    rewrite (pym_bind_ok _ _ _ _ _ Ht); destruct (Z.ltb_spec t deadline).
  - done.
  - intros [= <-]. lia.
  - unfold mbind, pym_mbind. destruct (body w1) as [[[a|]|e] w2]; [done| |done].
    destruct (clock_sleep interval w2) as [[[]|e] w3]; [apply IH|done].
  - intros [= <-]. lia.
Qed.

Lemma turns_enough timeout interval : 0 < interval → timeout <= interval * Z.of_nat (turns timeout interval).
Proof.
  intros Hi. unfold turns. rewrite Nat2Z.inj_succ.
  pose proof (Z.mul_succ_div_gt timeout interval Hi). pose proof (Z2Nat.id (timeout / interval)).
  destruct (Z.le_gt_cases 0 (timeout / interval)); [nia|].
  assert (timeout < 0) by (apply Z.nle_gt; intros ?; pose proof (Z.div_pos timeout interval); lia).
  lia.
Qed.

(** [poll_until] gives up only after the whole time. *)
Lemma poll_until_late {A} timeout interval (body : pym pyexn W (option A)) w w' :
  0 < interval → ages body → poll_until timeout interval body w = (Ok None, w') →
  now w + timeout <= now w'.
Proof.
  intros Hi Hb. unfold poll_until. destruct (monotonic_reads w) as (t & w1 & Ht & Hnow).
  rewrite (pym_bind_ok _ _ _ _ _ Ht). unfold mbind, pym_mbind.
  destruct (poll_loop _ _ _ _ w1) as [[r|e] w2] eqn:Hr; [|done].
  pose proof (turns_enough timeout interval Hi).
  assert (r ≠ None) as Hne by (eapply poll_loop_enough; [done|done| |done]; lia).
  destruct r as [[a|]|]; [done| |done]. intros [= <-]. apply poll_loop_late in Hr. lia.
Qed.

(** What the body establishes, the loop does: an invariant of failed turns. *)
Lemma hoare_poll_loop {A} fuel deadline interval (body : pym pyexn W (option A))
    (J : W → Prop) (Q : A → W → Prop) (R : pyexn → W → Prop) :
  hoare J clock_monotonic (λ _, J) R → hoare J (clock_sleep interval) (λ _, J) R →
  hoare J body (λ r w, match r with Some a => Q a w | None => J w end) R →
  hoare J (poll_loop fuel deadline interval body)
    (λ r w, match r with Some (Some a) => Q a w | _ => J w end) R.
Proof.
  intros Hm Hs Hb. induction fuel as [|fuel IH]; cbn [poll_loop].
  all: eapply hoare_bind; [exact Hm|]; intros t; cbn beta; destruct (t <? deadline);
    try (by apply hoare_mret).
  eapply hoare_bind; [exact Hb|]. intros [a|]; cbn beta.
  - by apply hoare_mret.
  - eapply hoare_bind; [exact Hs|]. intros u. exact IH.
Qed.
End poll_facts.

Lemma hoare_poll_until {W} `{Clock W} {A} timeout interval (body : pym pyexn W (option A))
    (J : W → Prop) (Q : A → W → Prop) (R : pyexn → W → Prop) :
  hoare J clock_monotonic (λ _, J) R → hoare J (clock_sleep interval) (λ _, J) R →
  hoare J body (λ r w, match r with Some a => Q a w | None => J w end) R →
  hoare J (poll_until timeout interval body)
    (λ r w, match r with Some a => Q a w | None => J w end) R.
Proof.
  intros Hm Hs Hb. unfold poll_until. eapply hoare_bind; [exact Hm|]. intros t. cbn beta.
  eapply hoare_bind; [by apply hoare_poll_loop|]. intros [[a|]|]; by apply hoare_mret.
Qed.

Lemma hoare_clock {W} `{ClockLaws W} (R : pyexn → W → Prop) :
  hoare (λ _, True) clock_monotonic (λ _ _, True) R.
Proof. intros w _. by destruct (monotonic_reads w) as (t & w' & -> & _). Qed.

Lemma hoare_sleep {W} `{ClockLaws W} d (R : pyexn → W → Prop) :
  0 < d → hoare (λ _, True) (clock_sleep d) (λ _ _, True) R.
Proof. intros Hd w _. by destruct (sleep_advances d w Hd) as (w' & -> & _). Qed.

(** ** Computations that let time pass *)

Section time.
Context {W : Type} `{ClockLaws W}.

Lemma ages_mret {A} (a : A) : ages (mret a : pym pyexn W A).
Proof. intros w r w' [= <- <-]. lia. Qed.

Lemma ages_bind {A B} (m : pym pyexn W A) (k : A → pym pyexn W B) :
  ages m → (∀ a, ages (k a)) → ages (m ≫= k).
Proof.
  intros Hm Hk w r w'. unfold mbind, pym_mbind. destruct (m w) as [[a|e] w1] eqn:Hw;
    apply Hm in Hw; [|by intros [= <- <-]].
  intros Hr%Hk. lia.
Qed.

Lemma ages_raise {A} e : ages (raise e : pym pyexn W A).
Proof. intros w r w' [= <- <-]. lia. Qed.

Lemma ages_try {A} (m : pym pyexn W A) h : ages m → (∀ e, ages (h e)) → ages (try_except m h).
Proof.
  intros Hm Hh w r w'. unfold try_except. destruct (m w) as [[a|e] w1] eqn:Hw; apply Hm in Hw.
  - by intros [= <- <-].
  - intros Hr%Hh. lia.
Qed.

Lemma ages_finally {A} (m : pym pyexn W A) c : ages m → ages c → ages (finally m c).
Proof.
  intros Hm Hc w r w'. unfold finally. destruct (m w) as [r1 w1] eqn:Hw. apply Hm in Hw.
  destruct (c w1) as [[u|e] w2] eqn:Hcw; apply Hc in Hcw; intros [= <- <-]; lia.
Qed.
End time.

(** What a polling loop returns, it has from its body, or from the clock. *)
Lemma poll_until_outcomes {W} `{ClockLaws W} {A} timeout interval (body : pym pyexn W (option A)) w :
  0 < interval → ages body →
  match poll_until timeout interval body w with
  | (Ok (Some a), w') => ∃ w1, body w1 = (Ok (Some a), w')
  | (Ok None, w') => now w + timeout <= now w'
  | (Err e, w') => ∃ w1, body w1 = (Err e, w')
  end.
Proof.
  intros Hi Hb.
  assert (hoare (λ _, True) body
    (λ r w', match r with Some a => ∃ w1, body w1 = (Ok (Some a), w') | None => True end)
    (λ e w', ∃ w1, body w1 = (Err e, w'))) as Hturn.
  { intros w1 _. destruct (body w1) as [[[a|]|e] w2] eqn:Hw; eauto. }
  pose proof (hoare_poll_until timeout interval body _ _ _ (hoare_clock _) (hoare_sleep _ _ Hi)
    Hturn w I) as Hr.
  destruct (poll_until timeout interval body w) as [[[a|]|e] w'] eqn:Hrun; [done| |done].
  by eapply poll_until_late.
Qed.

(** ** Claims *)

(** [wait_until] ends: it returns when the predicate answered true, raises what
    the predicate raised, or raises [TIMEOUT] after at least the whole timeout
    has passed; it never gives up early. *)
Theorem wait_until_outcomes {W} `{ClockLaws W} predicate description timeout interval w r w' :
  0 < timeout → 0 < interval → ages predicate →
  wait_until predicate description timeout interval w = (r, w') →
  (r = Ok () ∧ ∃ w1, predicate w1 = (Ok true, w')) ∨
  (∃ e w1, r = Err e ∧ predicate w1 = (Err e, w')) ∨
  (now w + timeout <= now w' ∧ ∃ e, r = Err (PktlabExn e) ∧ error_code e = ErrorCode.TIMEOUT).
Proof.
  intros Ht Hi Hp. unfold wait_until. rewrite (proj2 (Z.leb_gt _ _) Ht), (proj2 (Z.leb_gt _ _) Hi).
  set (body := b ← predicate; _) in *.
  assert (ages body) as Hb by (apply ages_bind; [done|]; intros b; apply ages_mret).
  pose proof (poll_until_outcomes timeout interval body w Hi Hb) as Hr.
  assert (∀ w1 r1 w2, body w1 = (r1, w2) → match r1 with
    | Ok (Some _) => predicate w1 = (Ok true, w2) | Ok None => True
    | Err e => predicate w1 = (Err e, w2) end) as Hturn.
  { intros w1 r1 w2. unfold body, mbind, pym_mbind.
    destruct (predicate w1) as [[[]|e] w3]; by intros [= <- <-]. }
  unfold mbind at 1, pym_mbind at 1.
  destruct (poll_until timeout interval body w) as [[[[]|]|e] w1]; intros [= <- <-].
  - left. split; [done|]. destruct Hr as [w2 Hr]. exists w2. exact (Hturn _ _ _ Hr).
  - right. right. split; [done|]. by eexists.
  - right. left. destruct Hr as [w2 Hr]. exists e, w2. split; [done|]. exact (Hturn _ _ _ Hr).
Qed.

(** A clock that advances by one tick per reading. *)
#[local] Instance tick_clock : Clock Z := {|
  clock_monotonic := λ t, (Ok t, t + 1);
  clock_sleep d := λ t, (Ok (), t + d);
|}.
#[local] Program Instance tick_clock_laws : ClockLaws Z := {| now t := t |}.
Next Obligation. intros w. exists w, (w + 1). split; [done|lia]. Qed.
Next Obligation. intros d w Hd. exists (w + d). split; [done|lia]. Qed.

Lemma wait_until_outcomes_witness :
  ∃ e w', wait_until (mret false) "dtap0" 10 3 0 = (Err e, w') ∧ 0 + 10 <= w'.
Proof.
  destruct (wait_until (mret false) "dtap0" 10 3 0) as [r w'] eqn:Hr.
  assert (ages (mret false : pym pyexn Z bool)) as Ha by (intros w r0 w1 [= <- <-]; apply Z.le_refl).
  destruct (wait_until_outcomes (mret false) "dtap0" 10 3 0 r w' eq_refl eq_refl Ha Hr)
    as [(_ & w1 & H)|[(e & w1 & _ & H)|(Hlate & e & He & _)]]; [discriminate H|discriminate H|].
  exists (PktlabExn e), w'. split; [rewrite He; reflexivity|exact Hlate].
Defined.
