(* ===== verification/Supervisor.v ===== *)
(** * The datapath supervisor

    [process/supervisor.py]: one child process and one IPC client, driven
    through [subprocess] and the datapath client.  Both are interfaces here;
    [IpcClient] shows that the client of [DpdkClient] implements its side. *)

From S2P Require Import Prelude PyStr Errors Types State DpdkModels Clock.
#[local] Open Scope string_scope.
#[local] Open Scope list_scope.

(** ** The world: processes and the datapath's socket *)

(** A [subprocess.Popen] object: its identity and its pid. *)
Record handle : Type := mkHandle { popen_id : nat; popen_pid : Z }.

Class Processes (W : Type) := {
  proc_spawn : list string → pym pyexn W handle;
  proc_poll : handle → pym pyexn W (option Z);
  proc_terminate : handle → pym pyexn W unit;
  proc_kill : handle → pym pyexn W unit;
  proc_wait : handle → Z → pym pyexn W Z;
  stderr_closed : handle → pym pyexn W bool;
  stderr_read : handle → pym pyexn W string;
  stderr_close : handle → pym pyexn W unit;
}.

(** The client side of the IPC socket; a client is known by its path. *)
Class Ipc (W : Type) := {
  client_factory : string → res pyexn string;
  ipc_ping : string → pym pyexn W (CommandResult AckPayload);
  ipc_get_version : string → pym pyexn W (CommandResult VersionPayload);
  ipc_get_health : string → pym pyexn W (CommandResult HealthPayload);
  ipc_get_ports : string → pym pyexn W (CommandResult PortsPayload);
  ipc_get_stats : string → pym pyexn W (CommandResult StatsPayload);
  ipc_reset_stats : string → pym pyexn W (CommandResult AckPayload);
  ipc_pause_datapath : string → pym pyexn W (CommandResult AckPayload);
  ipc_resume_datapath : string → pym pyexn W (CommandResult AckPayload);
}.

(** ** Configuration and status *)

Record SupervisorConfig : Type := mkSupervisorConfig {
  dpdkd_binary : string;
  socket_path : string;
  launch_prefix : list string;
  extra_args : list string;
  startup_timeout_seconds : Z;
  poll_interval_seconds : Z;
  shutdown_timeout_seconds : Z;
}.

(** [SupervisorConfig.__post_init__] *)
Definition new_SupervisorConfig (c : SupervisorConfig) : res pyexn SupervisorConfig :=
  refuse_if (blank (dpdkd_binary c)) "dpdkd_binary must be a non-empty string";;
  refuse_if (blank (socket_path c)) "socket_path must be a non-empty string";;
  refuse_if (existsb blank (launch_prefix c)) "launch_prefix must not contain empty elements";;
  refuse_if (existsb blank (extra_args c)) "extra_args must not contain empty elements";;
  refuse_if (startup_timeout_seconds c <=? 0)%Z "startup_timeout_seconds must be greater than zero";;
  refuse_if (poll_interval_seconds c <=? 0)%Z "poll_interval_seconds must be greater than zero";;
  refuse_if (shutdown_timeout_seconds c <=? 0)%Z
    "shutdown_timeout_seconds must be greater than zero";;
  mret c.

Record DatapathProcessStatus : Type := mkStatus {
  managed : bool;
  status_socket_path : string;
  status_pid : option Z;
  status_running : bool;
  reachable : bool;
  status_exit_code : option Z;
  status_last_error : option string;
  status_version : option VersionPayload;
  status_health : option HealthStateModel;
}.

(** The attributes of [DpdkdSupervisor]; the lock is reentrant and held by
    every public method, so a method is one step. *)
Record supervisor_state : Type := mkSupervisor {
  _process : option handle;
  _client : option string;
  _last_version : option VersionPayload;
  _last_health : option HealthStateModel;
  _last_error : option string;
  _last_exit_code : option Z;
}.

(** [DpdkdSupervisor.__init__] *)
Definition new_supervisor : supervisor_state := mkSupervisor None None None None None None.

Definition set_process (p : option handle) (s : supervisor_state) : supervisor_state :=
  mkSupervisor p (_client s) (_last_version s) (_last_health s) (_last_error s) (_last_exit_code s).
Definition set_client (c : option string) (s : supervisor_state) : supervisor_state :=
  mkSupervisor (_process s) c (_last_version s) (_last_health s) (_last_error s) (_last_exit_code s).
Definition set_last_error (e : option string) (s : supervisor_state) : supervisor_state :=
  mkSupervisor (_process s) (_client s) (_last_version s) (_last_health s) e (_last_exit_code s).
Definition set_exit (code : Z) (error : string) (s : supervisor_state) : supervisor_state :=
  mkSupervisor (_process s) (_client s) (_last_version s) (_last_health s) (Some error) (Some code).
Definition set_seen (h : HealthStateModel) (v : VersionPayload) (s : supervisor_state)
    : supervisor_state :=
  mkSupervisor (_process s) (_client s) (Some v) (Some h) None None.
Definition clear_history (s : supervisor_state) : supervisor_state :=
  mkSupervisor (_process s) (_client s) None None None None.

(** ** The methods *)

Section supervisor.
Context {W : Type} `{Clock W} `{Processes W} `{Ipc W} (config : SupervisorConfig).

Abbreviation M := (pym pyexn (supervisor_state * W)).

Definition get_s {A} (f : supervisor_state → A) : M A := gets (f ∘ fst).
Definition set_s (f : supervisor_state → supervisor_state) : M unit := modify (λ '(s, w), (f s, w)).
Definition world {A} (m : pym pyexn W A) : M A := on_snd m.

Definition process_error {A} (message : string) (context : pydict) : M A :=
  raise (PktlabExn (new_ProcessExecutionError message context)).

Definition path_context : pydict := [("socket_path", PyStr (socket_path config))].

(** [_consume_stderr_locked] *)
Definition _consume_stderr_locked (process : handle) : M string :=
  closed ← world (stderr_closed process);
  if closed : bool then mret ""
  else
    world (finally
      (content ← stderr_read process; mret (py_strip content))
      (stderr_close process)).

(** [_require_client_locked] *)
Definition _require_client_locked : M string :=
  client ← get_s _client;
  match client with
  | Some c => mret c
  | None => process_error "datapath client is not initialized" path_context
  end.

(** One of the three checks of [_refresh_ipc_state_locked]. *)
Definition check_result {A} (label : string) (r : CommandResult A) : M unit :=
  match result_error r with
  | None => mret ()
  | Some error =>
      let message := label +:+ " failed: " +:+ datapath_code_value (de_code error) +:+ ": "
                     +:+ de_message error in
      set_s (set_last_error (Some message));;
      process_error message (path_context ++ [("error", datapath_error_dump error)])
  end.

Definition _refresh_ipc_state_locked (process : handle) : M DatapathProcessStatus :=
  client ← _require_client_locked;
  ping_result ← world (ipc_ping client);
  check_result "datapath readiness ping" ping_result;;
  health_result ← world (ipc_get_health client);
  check_result "datapath health check" health_result;;
  version_result ← world (ipc_get_version client);
  check_result "datapath version check" version_result;;
  health ← pym_lift (unwrap health_result);
  version ← pym_lift (unwrap version_result);
  set_s (set_seen (payload_health health) version);;
  mret (mkStatus true (socket_path config) (Some (popen_pid process)) true true None None
          (Some version) (Some (payload_health health))).

(** [exc.message] *)
Definition exn_message (e : pyexn) : option string :=
  match e with PktlabExn e => Some (error_message e) | _ => None end.

(** [except DatapathTransportError as exc: self._last_error = exc.message; k] *)
Definition on_transport {A} (k : M A) (e : pyexn) : M A :=
  if is_transport e then set_s (set_last_error (exn_message e));; k else raise e.

(** One turn of the readiness loop, up to the sleep. *)
Definition ready_turn : M (option DatapathProcessStatus) :=
  process ← get_s _process;
  match process with
  | None => process_error "datapath process state was lost during startup" path_context
  | Some process =>
      exit_code ← world (proc_poll process);
      match exit_code with
      | Some code =>
          stderr ← _consume_stderr_locked process;
          set_s (set_exit code (or_str (Some stderr) "datapath process exited before readiness"));;
          process_error "datapath process exited before readiness was confirmed"
            [("binary_path", PyStr (dpdkd_binary config));
             ("socket_path", PyStr (socket_path config)); ("exit_code", PyInt code);
             ("stderr", if str_empty stderr then PyNone else PyStr stderr)]
      | None =>
          try_except (status ← _refresh_ipc_state_locked process; mret (Some status))
            (on_transport (mret None))
      end
  end.

Definition _wait_for_ready_locked : M DatapathProcessStatus :=
  r ← poll_until (startup_timeout_seconds config) (poll_interval_seconds config) ready_turn;
  match r with
  | Some status => mret status
  | None =>
      process_error "timed out waiting for datapath IPC readiness"
        [("binary_path", PyStr (dpdkd_binary config)); ("socket_path", PyStr (socket_path config));
         ("timeout_seconds", PyInt (startup_timeout_seconds config))]
  end.

(** A status without a live process. *)
Definition down_status (exit_code : option Z) (s : supervisor_state) : DatapathProcessStatus :=
  mkStatus true (socket_path config) None false false exit_code (_last_error s)
    (_last_version s) (_last_health s).

Definition _status_locked : M DatapathProcessStatus :=
  process ← get_s _process;
  match process with
  | None => get_s (λ s, down_status (_last_exit_code s) s)
  | Some process =>
      exit_code ← world (proc_poll process);
      match exit_code with
      | Some code =>
          stderr ← _consume_stderr_locked process;
          last_error ← get_s _last_error;
          set_s (set_exit code
            (or_str (Some stderr) (or_str last_error "datapath process exited unexpectedly")));;
          set_s (set_process None);;
          set_s (set_client None);;
          get_s (down_status (Some code))
      | None =>
          try_except (_refresh_ipc_state_locked process)
            (on_transport
              (get_s (λ s, mkStatus true (socket_path config) (Some (popen_pid process)) true false
                        None (_last_error s) (_last_version s) (_last_health s))))
      end
  end.

(** Lines 347-353: ask the child to end, then force it. *)
Definition end_child (process : handle) : M unit :=
  exit_code ← world (proc_poll process);
  match exit_code with
  | Some _ => mret ()
  | None =>
      world (proc_terminate process);;
      try_except
        (world (proc_wait process (shutdown_timeout_seconds config));; mret ())
        (λ e, match e with
              | TimeoutExpired =>
                  world (proc_kill process);;
                  world (proc_wait process (shutdown_timeout_seconds config));; mret ()
              | _ => raise e
              end)
  end.

Definition _stop_locked (clear : bool) : M unit :=
  process ← get_s _process;
  set_s (set_process None);;
  set_s (set_client None);;
  match process with
  | None => if clear then set_s clear_history else mret ()
  | Some process =>
      end_child process;;
      _consume_stderr_locked process;;
      if clear then set_s clear_history else mret ()
  end.

(** The command line of the child. *)
Definition launch_command : list string :=
  launch_prefix config ++ [dpdkd_binary config; "--socket-path"; socket_path config]
  ++ extra_args config.

(** [self._process is not None and self._process.poll() is None] *)
Definition process_alive : M bool :=
  process ← get_s _process;
  match process with
  | None => mret false
  | Some process => exit_code ← world (proc_poll process); mret (bool_decide (exit_code = None))
  end.

(** Lines 95-118: spawn a child and wait for it. *)
Definition launch : M DatapathProcessStatus :=
  set_s clear_history;;
  process ← world (proc_spawn launch_command);
  set_s (set_process (Some process));;
  client ← pym_lift (client_factory (socket_path config));
  set_s (set_client (Some client));;
  try_except _wait_for_ready_locked (λ e, _stop_locked false;; raise e).

Definition supervisor_start : M DatapathProcessStatus :=
  alive ← process_alive;
  if alive : bool then _wait_for_ready_locked else launch.

Definition supervisor_status : M DatapathProcessStatus := _status_locked.

Definition supervisor_stop : M unit := _stop_locked true.

(** The body of the five data commands. *)
Definition data_command {A} (purpose : string) (call : string → pym pyexn W (CommandResult A))
    : M (CommandResult A) :=
  status ← _status_locked;
  if reachable status then
    client ← _require_client_locked;
    world (call client)
  else
    raise (PktlabExn (new_DatapathTransportError
      ("datapath IPC is not reachable for " +:+ purpose) path_context)).

Definition supervisor_get_ports := data_command "port status" ipc_get_ports.
Definition supervisor_get_stats := data_command "stats" ipc_get_stats.
Definition supervisor_reset_stats := data_command "stats reset" ipc_reset_stats.
Definition supervisor_pause_datapath := data_command "pause" ipc_pause_datapath.
Definition supervisor_resume_datapath := data_command "resume" ipc_resume_datapath.
End supervisor.
