(* ===== verification/SupervisorProps.v ===== *)
(** * Properties of the supervisor

    The two attributes [_process] and [_client] stay together, a status says
    what it means, a failed start ends its child, and the readiness loop
    ends.  The laws below are what the supervisor needs of processes and
    of the IPC client. *)

From S2P Require Import Prelude PyStr Errors Types State DpdkModels Framing DpdkClient Clock.
From S2P Require Import Supervisor.
#[local] Open Scope string_scope.
#[local] Open Scope list_scope.

(** ** Laws of the world *)

(** An IPC call returns a payload or an error, or raises. *)
Definition ipc_call_ok {W A} (m : pym pyexn W (CommandResult A)) : Prop :=
  hoare (λ _, True) m (λ r _, result_wf r) (λ _ _, True).

Class IpcLaws (W : Type) `{Ipc W} := {
  factory_ok path : path ≠ "" → client_factory path = Ok path;
  ping_ok path : ipc_call_ok (ipc_ping path);
  version_ok path : ipc_call_ok (ipc_get_version path);
  health_ok path : ipc_call_ok (ipc_get_health path);
  call_ports_ok path : ipc_call_ok (ipc_get_ports path);
  call_stats_ok path : ipc_call_ok (ipc_get_stats path);
  call_reset_ok path : ipc_call_ok (ipc_reset_stats path);
  call_pause_ok path : ipc_call_ok (ipc_pause_datapath path);
  call_resume_ok path : ipc_call_ok (ipc_resume_datapath path);
}.

(** [exited h w]: the child has ended.  A return code says so, and nothing
    brings a child back. *)
Class ProcessLaws (W : Type) `{Processes W} := {
  exited : handle → W → Prop;
  poll_exited h w c w' : proc_poll h w = (Ok (Some c), w') → exited h w';
  wait_exited h t w c w' : proc_wait h t w = (Ok c, w') → exited h w';
  closed_exited h w r w' : stderr_closed h w = (r, w') → exited h w → exited h w';
  read_exited h w r w' : stderr_read h w = (r, w') → exited h w → exited h w';
  close_exited h w r w' : stderr_close h w = (r, w') → exited h w → exited h w';
}.

(** ** Frames *)

Section rules.
Context {W : Type}.
Implicit Types P : supervisor_state → Prop.

(** A predicate on the attributes alone. *)
Definition on_s P : supervisor_state * W → Prop := λ x, P (fst x).

Lemma hoare_get_s {A} P (f : supervisor_state → A) (Q : A → supervisor_state * W → Prop) R :
  (∀ s w, P s → Q (f s) (s, w)) → hoare (on_s P) (get_s f) Q R.
Proof. intros HQ [s w] Hs. by apply HQ. Qed.

Lemma hoare_set_s P f (Q : unit → supervisor_state * W → Prop) R :
  (∀ s w, P s → Q () (f s, w)) → hoare (on_s P) (set_s f) Q R.
Proof. intros HQ [s w] Hs. by apply HQ. Qed.

(** What the world does is no concern of the attributes. *)
Lemma hoare_world {A} P (m : pym pyexn W A) φ ψ :
  hoare (λ _, True) m (λ a _, φ a) (λ e _, ψ e) →
  hoare (on_s P) (world m) (λ a x, φ a ∧ on_s P x) (λ e x, ψ e ∧ on_s P x).
Proof.
  intros Hm [s w] Hs. specialize (Hm w I). unfold world, on_snd.
  by destruct (m w) as [[a|e] w'].
Qed.

Lemma hoare_world_any {A} P (m : pym pyexn W A) :
  hoare (on_s P) (world m) (λ _, on_s P) (λ _, on_s P).
Proof. intros [s w] Hs. unfold world, on_snd. by destruct (m w) as [[a|e] w']. Qed.
End rules.

(** A predicate on the process and its client: what [_refresh_ipc_state_locked]
    and the loop around it leave alone. *)
Definition pc (P : option handle → option string → Prop) : supervisor_state → Prop :=
  λ s, P (_process s) (_client s).

Section methods.
Context {W : Type} `{Clock W} `{Processes W} `{Ipc W} `{!IpcLaws W} (config : SupervisorConfig).

Lemma consume_frame (P : supervisor_state → Prop) h :
  hoare (on_s (W:=W) P) (_consume_stderr_locked h) (λ _, on_s P) (λ _, on_s P).
Proof.
  unfold _consume_stderr_locked. eapply hoare_bind; [apply hoare_world_any|]. intros [].
  - by apply hoare_mret.
  - apply hoare_world_any.
Qed.

Lemma check_result_frame {A} P label (r : CommandResult A) :
  hoare (on_s (W:=W) (pc P)) (check_result config label r)
    (λ _ x, result_ok r = true ∧ on_s (pc P) x) (λ _, on_s (pc P)).
Proof.
  unfold check_result, result_ok. destruct (result_error r).
  - eapply hoare_bind with (Q' := λ _, on_s (pc P)); [by apply hoare_set_s|]. intros ?.
    by apply hoare_raise.
  - by apply hoare_mret.
Qed.

Lemma ipc_frame {A} P (m : pym pyexn W (CommandResult A)) :
  ipc_call_ok m →
  hoare (on_s P) (world m) (λ r x, result_wf r ∧ on_s P x) (λ _, on_s P).
Proof.
  intros Hm. eapply hoare_weaken_err; [apply hoare_world, Hm|]. by intros e x [_ Hx].
Qed.

(** What a reachable status says, and what the attributes then hold. *)
Definition up_status (pid : Z) (st : DatapathProcessStatus) (s : supervisor_state) : Prop :=
  ∃ v h, st = mkStatus true (socket_path config) (Some pid) true true None None (Some v) (Some h) ∧
    _last_version s = Some v ∧ _last_health s = Some h ∧
    _last_error s = None ∧ _last_exit_code s = None.

Lemma unwrap_frame {A B} P (r : CommandResult A) (k : A → pym pyexn (supervisor_state * W) B) Q R :
  result_wf r → result_ok r = true → (∀ p, hoare (on_s P) (k p) Q R) →
  hoare (on_s P) (a ← pym_lift (unwrap r); k a) Q R.
Proof.
  intros Hwf Hok Hk. destruct (unwrap_ok r Hwf Hok) as (p & _ & ->). intros x Hx. by apply Hk.
Qed.

Lemma refresh_frame P h :
  hoare (on_s (pc P)) (_refresh_ipc_state_locked config h)
    (λ st x, up_status (popen_pid h) st (fst x) ∧ on_s (pc P) x) (λ _, on_s (pc P)).
Proof.
  unfold _refresh_ipc_state_locked.
  eapply hoare_bind with (Q' := λ _, on_s (pc P)).
  { unfold _require_client_locked. eapply hoare_bind with (Q' := λ _, on_s (pc P)); [by apply hoare_get_s|].
    intros [c|]; [by apply hoare_mret|]. unfold process_error. by apply hoare_raise. }
  intros client. eapply hoare_bind; [apply ipc_frame, ping_ok|]. intros ping. apply hoare_pure. intros _.
  eapply hoare_bind; [apply check_result_frame|]. intros ?. apply hoare_pure. intros _.
  eapply hoare_bind; [apply ipc_frame, health_ok|]. intros health. apply hoare_pure. intros Hh.
  eapply hoare_bind; [apply check_result_frame|]. intros ?. apply hoare_pure. intros Hh'.
  eapply hoare_bind; [apply ipc_frame, version_ok|]. intros version. apply hoare_pure. intros Hv.
  eapply hoare_bind; [apply check_result_frame|]. intros ?. apply hoare_pure. intros Hv'.
  apply unwrap_frame; [done..|]. intros hp. apply unwrap_frame; [done..|]. intros v.
  eapply hoare_bind with (Q' := λ _ x, (_last_version (fst x) = Some v ∧
    _last_health (fst x) = Some (payload_health hp) ∧ _last_error (fst x) = None ∧
    _last_exit_code (fst x) = None) ∧ on_s (pc P) x);
    [apply hoare_set_s; intros s w Hs; by repeat split|].
  intros ?. apply hoare_mret. intros x [Hx Hs]. split; [|done]. by exists v, (payload_health hp).
Qed.

Lemma on_transport_frame {A} P (k : pym pyexn (supervisor_state * W) A) Q e :
  hoare (on_s (pc P)) k Q (λ _, on_s (pc P)) →
  hoare (on_s (pc P)) (on_transport k e) Q (λ _, on_s (pc P)).
Proof.
  intros Hk. unfold on_transport. destruct (is_transport e); [|by apply hoare_raise].
  eapply hoare_bind with (Q' := λ _, on_s (pc P)); [by apply hoare_set_s|]. by intros ?.
Qed.

(** A status returned by the readiness loop or by [status] for a live child. *)
Definition ready_for (P : option handle → option string → Prop) (st : DatapathProcessStatus)
    (x : supervisor_state * W) : Prop :=
  on_s (pc P) x ∧ ∃ h, _process (fst x) = Some h ∧ up_status (popen_pid h) st (fst x).

Lemma ready_turn_frame P :
  hoare (on_s (pc P)) (ready_turn config)
    (λ r x, match r with Some st => ready_for P st x | None => on_s (pc P) x end)
    (λ _, on_s (pc P)).
Proof.
  unfold ready_turn. intros [s w] Hs.
  rewrite (pym_bind_ok _ _ _ _ _ (eq_refl : get_s _process (s, w) = (Ok (_process s), (s, w)))).
  destruct (_process s) as [h|] eqn:Hp; [|done].
  set (P' := λ p c, P p c ∧ p = Some h).
  assert (hoare (on_s (pc P')) (try_except (status ← _refresh_ipc_state_locked config h;
      mret (Some status)) (on_transport (mret None)))
    (λ r x, match r with Some st => ready_for P st x | None => on_s (pc P') x end)
    (λ _, on_s (pc P'))) as Hrefresh.
  { eapply hoare_try with (R' := λ _, on_s (pc P')).
    - eapply hoare_bind; [apply refresh_frame|]. intros st. apply hoare_mret.
      intros x [Hup [Hx Hph]]. split; [done|]. by exists h.
    - intros e. apply on_transport_frame. by apply hoare_mret. }
  assert (hoare (on_s (pc P')) (exit_code ← world (proc_poll h);
      match exit_code with
      | Some code =>
          stderr ← _consume_stderr_locked h;
          set_s (set_exit code (or_str (Some stderr) "datapath process exited before readiness"));;
          process_error "datapath process exited before readiness was confirmed"
            [("binary_path", PyStr (dpdkd_binary config));
             ("socket_path", PyStr (socket_path config)); ("exit_code", PyInt code);
             ("stderr", if str_empty stderr then PyNone else PyStr stderr)]
      | None => try_except (status ← _refresh_ipc_state_locked config h; mret (Some status))
                  (on_transport (mret None))
      end)
    (λ r x, match r with Some st => ready_for P st x | None => on_s (pc P') x end)
    (λ _, on_s (pc P'))) as Hall.
  { eapply hoare_bind; [apply hoare_world_any|]. intros [code|]; [|done].
    eapply hoare_bind; [apply consume_frame|]. intros stderr.
    eapply hoare_bind with (Q' := λ _, on_s (pc P')); [by apply hoare_set_s|].
    intros ?. unfold process_error. by apply hoare_raise. }
  specialize (Hall (s, w)). cbn beta in Hall.
  match type of Hall with _ → match ?run with _ => _ end => destruct run as [[[st|]|e] x] end;
    apply Hall; by split.
Qed.

Lemma wait_frame P :
  hoare (on_s (pc P)) (_wait_for_ready_locked config) (λ st x, ready_for P st x)
    (λ _, on_s (pc P)).
Proof.
  unfold _wait_for_ready_locked. eapply hoare_bind.
  - apply (hoare_poll_until _ _ _ (on_s (pc P)) (ready_for P)); [..|apply ready_turn_frame];
      apply hoare_world_any.
  - intros [st|]; [by apply hoare_mret|]. unfold process_error. by apply hoare_raise.
Qed.
End methods.

(** ** The public methods *)

(** The client belongs to the process, and to the configured socket. *)
Definition paired (config : SupervisorConfig) (p : option handle) (c : option string) : Prop :=
  (p = None ∧ c = None) ∨ (∃ h, p = Some h ∧ c = Some (socket_path config)).

Definition both_none (p : option handle) (c : option string) : Prop := p = None ∧ c = None.

Lemma both_none_paired config p c : both_none p c → paired config p c.
Proof. by left. Qed.

(** What a status says: no pid without a live process, no exit code with one,
    and version and health of a reachable one. *)
Definition status_wf (config : SupervisorConfig) (st : DatapathProcessStatus) : Prop :=
  managed st = true ∧ status_socket_path st = socket_path config ∧
  (status_running st = true ↔ is_Some (status_pid st)) ∧
  (is_Some (status_exit_code st) → status_running st = false) ∧
  (reachable st = true → status_running st = true ∧ is_Some (status_version st) ∧
     is_Some (status_health st) ∧ status_last_error st = None).

Lemma up_status_wf config pid st s : up_status config pid st s → status_wf config st ∧ reachable st = true.
Proof.
  intros (v & h & -> & _). split; [|done].
  split_and!; try done; try (by intros [? [=]]); intros _; simpl; eauto.
Qed.

Lemma down_status_wf config code s : status_wf config (down_status config code s).
Proof. split_and!; try done. split; [done|]. by intros [? [=]]. Qed.

Section public.
Context {W : Type} `{Clock W} `{Processes W} `{Ipc W} `{!IpcLaws W} (config : SupervisorConfig).
Context (Hpath : socket_path config ≠ "").

Abbreviation keeps P m :=
  (hoare (on_s (W:=W) (pc P)) m (λ _, on_s (pc P)) (λ _, on_s (pc P))).

Lemma keeps_world {A} P (m : pym pyexn W A) : keeps P (world m).
Proof. apply hoare_world_any. Qed.

Lemma keeps_bind {A B} P (m : pym pyexn (supervisor_state * W) A)
    (k : A → pym pyexn (supervisor_state * W) B) :
  keeps P m → (∀ a, keeps P (k a)) → keeps P (m ≫= k).
Proof. intros Hm Hk. eapply hoare_bind; [exact Hm|exact Hk]. Qed.

Lemma require_client_paired {A} (k : string → pym pyexn (supervisor_state * W) A) x :
  on_s (pc (paired config)) x → is_Some (_process (fst x)) →
  (client ← _require_client_locked config; k client) x = k (socket_path config) x.
Proof.
  intros [[Hp _]|(h & _ & Hc)] Hsome; [rewrite Hp in Hsome; by destruct Hsome|].
  unfold _require_client_locked, get_s, gets, mbind, pym_mbind. simpl. by rewrite Hc.
Qed.

Lemma keeps_history P clear : keeps P (if clear : bool then set_s clear_history else mret ()).
Proof. destruct clear; [by apply hoare_set_s|by apply hoare_mret]. Qed.

Lemma end_child_frame P h : keeps P (end_child (W:=W) config h).
Proof.
  unfold end_child. apply keeps_bind; [apply keeps_world|]. intros [code|]; [by apply hoare_mret|].
  apply keeps_bind; [apply keeps_world|]. intros _.
  eapply hoare_try with (R' := λ _, on_s (pc P)).
  - apply keeps_bind; [apply keeps_world|]. intros _. by apply hoare_mret.
  - intros e. destruct e; try (by apply hoare_raise).
    apply keeps_bind; [apply keeps_world|]. intros _.
    apply keeps_bind; [apply keeps_world|]. intros _. by apply hoare_mret.
Qed.

(** Stopping forgets the process first, so it is forgotten on every path. *)
Lemma stop_frame clear :
  hoare (on_s (λ _, True)) (_stop_locked (W:=W) config clear)
    (λ _, on_s (pc both_none)) (λ _, on_s (pc both_none)).
Proof.
  unfold _stop_locked. eapply hoare_bind with (Q' := λ _, on_s (λ _, True)); [by apply hoare_get_s|].
  intros p. eapply hoare_bind with (Q' := λ _, on_s (λ s, _process s = None)); [by apply hoare_set_s|].
  intros ?. eapply hoare_bind with (Q' := λ _, on_s (pc both_none));
    [by apply hoare_set_s; intros s w Hs|].
  intros ?. destruct p as [h|]; [|apply keeps_history].
  apply keeps_bind; [apply end_child_frame|]. intros _.
  apply keeps_bind; [apply consume_frame|]. intros _. apply keeps_history.
Qed.

(** Stopping with a cleared history leaves a supervisor as it was created. *)
Lemma stop_cleared :
  hoare (λ _, True) (_stop_locked (W:=W) config true) (λ _ x, fst x = new_supervisor) (λ _ _, True).
Proof.
  assert (hoare (on_s (pc both_none)) (set_s (W:=W) clear_history)
    (λ _ x, fst x = new_supervisor) (λ _ _, True)) as Hclear.
  { intros [s w] [Hp Hc]. simpl in *. unfold clear_history. by rewrite Hp, Hc. }
  unfold _stop_locked. eapply hoare_bind with (Q' := λ _ _, True); [by apply hoare_gets|].
  intros p. eapply hoare_bind with (Q' := λ _, on_s (λ s, _process s = None)); [by apply hoare_modify; intros [s w] _|].
  intros ?. eapply hoare_bind with (Q' := λ _, on_s (pc both_none)); [by apply hoare_set_s; intros s w Hs|].
  intros ?. destruct p as [h|]; [|exact Hclear].
  eapply hoare_bind; [eapply hoare_weaken_err; [apply end_child_frame|done]|]. intros ?. eapply hoare_bind; [eapply hoare_weaken_err; [apply consume_frame|done]|].
  intros ?. exact Hclear.
Qed.

Lemma status_frame :
  hoare (on_s (pc (paired config))) (_status_locked (W:=W) config)
    (λ st x, status_wf config st ∧ on_s (pc (paired config)) x ∧
             (status_running st = true ↔ is_Some (_process (fst x))))
    (λ _, on_s (pc (paired config))).
Proof.
  intros [s w] Hs. unfold _status_locked.
  rewrite (pym_bind_ok _ _ _ _ _ (eq_refl : get_s _process (s, w) = (Ok (_process s), (s, w)))).
  destruct (_process s) as [h|] eqn:Hp.
  2:{ split; [apply down_status_wf|]. split; [done|]. simpl. rewrite Hp. split; [done|]. by intros []. }
  set (P := λ p c, paired config p c ∧ p = Some h).
  eapply (hoare_bind (on_s (pc P)) (world (proc_poll h)) _ (λ _, on_s (pc P))
    (λ st x, status_wf config st ∧ on_s (pc (paired config)) x ∧
             (status_running st = true ↔ is_Some (_process (fst x))))
    (λ _, on_s (pc (paired config)))); [| |by split].
  { eapply hoare_weaken_err; [apply keeps_world|]. by intros e x [Hx _]. }
  intros [code|].
  - eapply hoare_bind with (Q' := λ _, on_s (pc P)).
    { eapply hoare_weaken_err; [apply consume_frame|]. by intros e x [Hx _]. }
    intros stderr. eapply hoare_bind with (Q' := λ _, on_s (pc P)); [by apply hoare_get_s|].
    intros error. eapply hoare_bind with (Q' := λ _, on_s (pc P)); [by apply hoare_set_s|].
    intros ?. eapply hoare_bind with (Q' := λ _, on_s (λ s, _process s = None)); [by apply hoare_set_s|].
    intros ?. eapply hoare_bind with (Q' := λ _, on_s (pc both_none)); [by apply hoare_set_s|].
    intros ?. apply hoare_get_s. intros s' w' Hs'. split; [apply down_status_wf|].
    split; [by apply both_none_paired|]. destruct Hs' as [Hn _]. simpl in *. rewrite Hn.
    split; [done|]. by intros [].
  - eapply hoare_try with (R' := λ _, on_s (pc P)).
    + eapply hoare_conseq; [apply (refresh_frame config P h)|done| |done].
      intros st x [Hup [Hx Hh]]. destruct (up_status_wf _ _ _ _ Hup) as [Hwf _].
      split; [done|]. split; [done|]. rewrite Hh. by destruct Hup as (? & ? & -> & _).
    + intros e. eapply hoare_weaken_err; [apply on_transport_frame|by intros e' x [Hx _]].
      apply hoare_get_s. intros s' w' [Hs' Hh]. split; [|split; [done|simpl; by rewrite Hh]].
      split_and!; try done; by intros [? [=]].
Qed.

(** A status says running exactly when the child answers a poll as alive. *)
Lemma status_polls x st x' :
  _status_locked config x = (Ok st, x') →
  status_running st = true ↔
    ∃ h w1, _process (fst x) = Some h ∧ proc_poll h (snd x) = (Ok None, w1).
Proof.
  destruct x as [s w]. unfold _status_locked. cbn [fst snd].
  rewrite (pym_bind_ok _ _ _ _ _ (eq_refl : get_s _process (s, w) = (Ok (_process s), (s, w)))).
  destruct (_process s) as [h|] eqn:Hp; [|intros [= <- <-]; split; [done|by intros (? & ? & [=] & _)]].
  unfold mbind at 1, pym_mbind at 1, world, on_snd.
  destruct (proc_poll h w) as [[[code|]|e] w1] eqn:Hpoll; [| |done].
  - intros Hrun. repeat (apply pym_bind_inv in Hrun as (? & ? & _ & Hrun)).
    unfold get_s, gets in Hrun. injection Hrun as <- _. split; [done|].
    intros (h' & w' & [= <-] & Hpoll'). rewrite Hpoll in Hpoll'. discriminate Hpoll'.
  - intros Hrun. split; [intros _; by exists h, w1|intros _]. revert Hrun. unfold try_except.
    pose proof (refresh_frame config (λ _ _, True) h (s, w1) I) as Hr.
    destruct (_refresh_ipc_state_locked config h (s, w1)) as [[st1|e] x1].
    + intros [= <- <-]. by destruct Hr as [(v & hs & -> & _) _].
    + unfold on_transport. destruct (is_transport e); [|done].
      intros Hrun. apply pym_bind_inv in Hrun as (? & ? & _ & Hrun). unfold get_s, gets in Hrun.
      by injection Hrun as <- _.
Qed.

(** What a successful start returns. *)
Definition started (st : DatapathProcessStatus) (x : supervisor_state * W) : Prop :=
  status_wf config st ∧ reachable st = true ∧ on_s (pc (paired config)) x ∧
  ∃ h, _process (fst x) = Some h ∧ status_pid st = Some (popen_pid h).

Lemma ready_started st x : ready_for config (paired config) st x → started st x.
Proof.
  intros [Hx (h & Hh & Hup)]. destruct (up_status_wf _ _ _ _ Hup) as [Hwf Hr].
  split_and!; try done. exists h. split; [done|]. by destruct Hup as (? & ? & -> & _).
Qed.

(** A launch that fails leaves the attributes as they were when the child could
    not be spawned, and forgotten otherwise. *)
Lemma launch_frame P :
  hoare (on_s (pc P)) (launch (W:=W) config) started
    (λ _ x, on_s (pc P) x ∨ on_s (pc both_none) x).
Proof.
  unfold launch.
  eapply hoare_bind with (Q' := λ _, on_s (pc P)); [by apply hoare_set_s|]. intros ?.
  eapply hoare_bind; [eapply hoare_weaken_err; [apply keeps_world|by left]|]. intros h.
  eapply hoare_bind with (Q' := λ _, on_s (λ s, _process s = Some h)); [by apply hoare_set_s|].
  intros ?. rewrite factory_ok by done.
  eapply hoare_bind with (Q' := λ c, on_s (λ s, _process s = Some h ∧ c = socket_path config)).
  { apply hoare_lift; [|done]. by intros s c Hs [= <-]. }
  intros c. eapply hoare_bind with (Q' := λ _, on_s (pc (paired config))).
  { apply hoare_set_s. intros s w [Hs ->]. right. by exists h. }
  intros ?. eapply hoare_try with (R' := λ _, on_s (λ _, True)).
  - eapply hoare_conseq; [apply (wait_frame config (paired config))|done|apply ready_started|done].
  - intros e. eapply hoare_bind; [eapply hoare_weaken_err; [apply stop_frame|by right]|].
    intros ?. apply hoare_raise. by right.
Qed.

Lemma alive_frame P :
  hoare (on_s (pc P)) (process_alive (W:=W))
    (λ b x, on_s (pc P) x ∧ (b = true → is_Some (_process (fst x)))) (λ _, on_s (pc P)).
Proof.
  unfold process_alive.
  eapply hoare_bind with (Q' := λ p, on_s (λ s, pc P s ∧ p = _process s)); [by apply hoare_get_s|].
  intros [h|]; [|by apply hoare_mret; intros x [Hx _]].
  eapply hoare_bind; [eapply hoare_weaken_err; [apply hoare_world_any|by intros e x [Hx _]]|].
  intros code. apply hoare_mret. intros x [Hx Hp]. split; [done|]. intros _. by rewrite <- Hp.
Qed.

Lemma start_frame :
  hoare (on_s (pc (paired config))) (supervisor_start (W:=W) config) started
    (λ _, on_s (pc (paired config))).
Proof.
  unfold supervisor_start. eapply hoare_bind; [apply alive_frame|]. intros b.
  apply hoare_conseq with (P := on_s (pc (paired config))) (Q := started)
    (R := λ _, on_s (pc (paired config))); [|by intros x [Hx _]|done|done].
  destruct b.
  - eapply hoare_conseq; [apply wait_frame|done|apply ready_started|done].
  - eapply hoare_weaken_err; [apply launch_frame|]. intros e x [Hx|Hx]; [done|].
    by apply both_none_paired.
Qed.

Lemma start_fresh_frame :
  hoare (on_s (pc both_none)) (supervisor_start (W:=W) config) started (λ _, on_s (pc both_none)).
Proof.
  unfold supervisor_start. eapply hoare_bind; [apply alive_frame|]. intros [].
  - intros x [[Hn _] Ha]. rewrite Hn in Ha. by destruct (Ha eq_refl).
  - apply hoare_conseq with (P := on_s (pc both_none)) (Q := started)
      (R := λ _ x, on_s (pc both_none) x ∨ on_s (pc both_none) x);
      [apply launch_frame|by intros x [Hx _]|done|by intros e x [Hx|Hx]].
Qed.

Lemma data_command_frame {A} purpose (call : string → pym pyexn W (CommandResult A)) :
  hoare (on_s (pc (paired config))) (data_command config purpose call)
    (λ _, on_s (pc (paired config))) (λ _, on_s (pc (paired config))).
Proof.
  unfold data_command. eapply hoare_bind; [apply status_frame|]. intros st.
  apply hoare_conseq with (P := on_s (pc (paired config))) (Q := λ _, on_s (pc (paired config)))
    (R := λ _, on_s (pc (paired config))); [|by intros x (_ & Hx & _)|done|done].
  destruct (reachable st); [|by apply hoare_raise].
  apply keeps_bind; [|intros c; apply keeps_world]. unfold _require_client_locked.
  apply keeps_bind; [by apply hoare_get_s|]. intros [c|]; [by apply hoare_mret|].
  unfold process_error. by apply hoare_raise.
Qed.
End public.

(** ** Ending the child *)

Section ending.
Context {W : Type} `{Clock W} `{Processes W} `{!ProcessLaws W} (config : SupervisorConfig).

(** The child [h] has ended. *)
Definition ended (h : handle) : supervisor_state * W → Prop := λ x, exited h (snd x).

(** Ending the child [h] raised [e]: asking whether it has ended, asking it to
    end, killing it, or waiting for it, where running out of time counts only
    after a kill. *)
Definition unended (h : handle) (e : pyexn) (w' : W) : Prop :=
  ∃ w, proc_poll h w = (Err e, w') ∨ proc_terminate h w = (Err e, w') ∨ proc_kill h w = (Err e, w') ∨
    ∃ t, proc_wait h t w = (Err e, w') ∧ (e = TimeoutExpired → ∃ w0 u, proc_kill h w0 = (Ok u, w)).

(** What is known of the child when a method raised. *)
Definition at_end (h : handle) (e : pyexn) (x : supervisor_state * W) : Prop :=
  ended h x ∨ unended h e (snd x).

Lemma hoare_world_snd {A} (m : pym pyexn W A) (φ : W → Prop) (ψ : A → W → Prop) (χ : pyexn → W → Prop) :
  hoare φ m ψ χ →
  hoare (λ x : supervisor_state * W, φ (snd x)) (world m) (λ a x, ψ a (snd x)) (λ e x, χ e (snd x)).
Proof.
  intros Hm [s w] Hs. specialize (Hm w Hs). unfold world, on_snd. by destruct (m w) as [[a|e] w'].
Qed.

Lemma hoare_step {A} (m : pym pyexn W A) (φ : W → Prop) (ψ : A → W → Prop) (χ : pyexn → W → Prop) :
  (∀ w a w', m w = (Ok a, w') → φ w → ψ a w') → (∀ w e w', m w = (Err e, w') → φ w → χ e w') →
  hoare φ m ψ χ.
Proof. intros Hm He w Hw. destruct (m w) as [[a|e] w'] eqn:Hr; [by eapply Hm|by eapply He]. Qed.

Lemma consume_ended h :
  hoare (ended h) (_consume_stderr_locked h) (λ _, ended h) (λ _, ended h).
Proof.
  unfold _consume_stderr_locked. eapply hoare_bind.
  { apply (hoare_world_snd _ (exited h) (λ _, exited h) (λ _, exited h)), hoare_step; intros;
      by eapply closed_exited. }
  intros []; [by apply hoare_mret|].
  apply (hoare_world_snd _ (exited h) (λ _, exited h) (λ _, exited h)).
  intros w Hw. unfold finally, mbind, pym_mbind.
  destruct (stderr_read h w) as [[c|e] w1] eqn:Hr; apply read_exited in Hr as Hx; try done;
    unfold mret, pym_mret; destruct (stderr_close h w1) as [[u|e'] w2] eqn:Hc; by eapply close_exited.
Qed.

(** Waiting, from any state the child may be in. *)
Lemma wait_ended h t (φ : W → Prop) (χ : pyexn → W → Prop) :
  (∀ w e w', proc_wait h t w = (Err e, w') → φ w → χ e w') →
  hoare (λ x : supervisor_state * W, φ (snd x)) (world (proc_wait h t);; mret ()) (λ _, ended h)
    (λ e x, χ e (snd x)).
Proof.
  intros He. eapply hoare_bind with (Q' := λ _, ended h); [|by intros ?; apply hoare_mret].
  apply (hoare_world_snd _ φ (λ _, exited h)), hoare_step; [|exact He]. intros. by eapply wait_exited.
Qed.

Lemma end_child_ended h : hoare (λ _, True) (end_child config h) (λ _, ended h) (at_end h).
Proof.
  unfold end_child. eapply hoare_bind with (Q' := λ code x, is_Some code → ended h x).
  { intros [s' w'] _. unfold world, on_snd. destruct (proc_poll h w') as [[c|e] w2] eqn:Hp.
    - intros [code ->]. by eapply poll_exited.
    - right. exists w'. by left. }
  intros [c|]; [apply hoare_mret; eauto|].
  eapply hoare_bind with (Q' := λ _ _, True); [|intros ?].
  { apply (hoare_conseq (λ _, True) _ _ (λ _ _, True) _ (λ e x, unended h e (snd x)));
      [apply (hoare_world_snd _ (λ _, True) (λ _ _, True))|done|done|by right].
    apply hoare_step; [done|]. intros w e w' Hw _. exists w. by right; left. }
  eapply hoare_try with
    (R' := λ e x, ∃ w, proc_wait h (shutdown_timeout_seconds config) w = (Err e, snd x)).
  { apply (wait_ended h _ (λ _, True)
      (λ e w', ∃ w, proc_wait h (shutdown_timeout_seconds config) w = (Err e, w'))). eauto. }
  intros e. assert (e = TimeoutExpired ∨ e ≠ TimeoutExpired) as [->|Hne] by (destruct e; auto).
  - eapply hoare_bind with (Q' := λ _ x, ∃ w0 u, proc_kill h w0 = (Ok u, snd x)).
    + apply (hoare_conseq (λ _, True) _ _ (λ _ x, ∃ w0 u, proc_kill h w0 = (Ok u, snd x)) _
        (λ e x, unended h e (snd x))); [|done|done|by right].
      apply (hoare_world_snd _ (λ _, True) (λ _ w, ∃ w0 u, proc_kill h w0 = (Ok u, w)) (unended h)).
      apply hoare_step; [eauto|]. intros w e w' Hw _. exists w. by right; right; left.
    + intros ?. eapply hoare_weaken_err; [apply (wait_ended h _ (λ w, ∃ w0 u, proc_kill h w0 = (Ok u, w))
        (unended h))|by right].
      intros w e w' Hw Hk. exists w. right; right; right. eauto.
  - destruct e; try done;
      (apply hoare_raise; intros x [w Hw]; right; exists w; right; right; right; by eexists).
Qed.

Lemma stop_ended h clear :
  hoare (on_s (λ s, _process s = Some h)) (_stop_locked config clear) (λ _, ended h) (at_end h).
Proof.
  intros [s w] Hs. unfold _stop_locked.
  rewrite (pym_bind_ok _ _ _ _ _ (eq_refl : get_s _process (s, w) = (Ok (_process s), (s, w)))).
  unfold on_s in Hs. simpl in Hs. rewrite Hs.
  eapply (hoare_bind (λ _, True) (set_s (set_process None)) _ (λ _ _, True) (λ _, ended h)
    (at_end h)); [by apply hoare_modify| |done].
  intros ?. eapply hoare_bind with (Q' := λ _ _, True); [by apply hoare_modify|]. intros ?.
  eapply hoare_bind; [apply end_child_ended|].
  intros ?. eapply hoare_bind; [eapply hoare_weaken_err; [apply consume_ended|by left]|]. intros ?.
  destruct clear; [|by apply hoare_mret]. intros [s' w'] Hx. exact Hx.
Qed.

(** *** A start *)

Context `{Ipc W} `{!IpcLaws W}.

(** The part of a start after the child [h] was spawned. *)
Definition settle : pym pyexn (supervisor_state * W) DatapathProcessStatus :=
  client ← pym_lift (client_factory (socket_path config));
  set_s (set_client (Some client));;
  try_except (_wait_for_ready_locked config) (λ e, _stop_locked config false;; raise e).

Lemma launch_spawns s w :
  launch config (s, w) =
    match proc_spawn (launch_command config) w with
    | (Ok h, w') => settle (set_process (Some h) (clear_history s), w')
    | (Err e, w') => (Err e, (clear_history s, w'))
    end.
Proof.
  unfold launch, settle. unfold mbind at 1, pym_mbind at 1. cbn [set_s modify].
  unfold mbind at 1, pym_mbind at 1, world, on_snd. by destruct (proc_spawn _ w) as [[h|e] w'].
Qed.

(** The child that was spawned is the one the supervisor keeps, or the one it
    ends. *)
Lemma settle_child h :
  socket_path config ≠ "" →
  hoare (on_s (λ s, _process s = Some h)) settle (λ _ x, _process (fst x) = Some h) (at_end h).
Proof.
  intros Hpath. unfold settle. rewrite factory_ok by done.
  eapply hoare_bind with (Q' := λ _, on_s (λ s, _process s = Some h)); [by apply hoare_lift; [intros ? ? ? [=]|]|].
  intros c. eapply hoare_bind with (Q' := λ _, on_s (pc (λ p _, p = Some h))); [by apply hoare_set_s|].
  intros ?. eapply hoare_try with (R' := λ _, on_s (pc (λ p _, p = Some h))).
  - eapply hoare_conseq; [apply (wait_frame config (λ p _, p = Some h))|done|by intros st x [Hx _]|done].
  - intros e. eapply hoare_bind; [apply (stop_ended h false)|]. intros ?. apply hoare_raise.
    intros x Hx. by left.
Qed.

Lemma start_fresh s w : _process s = None → supervisor_start config (s, w) = launch config (s, w).
Proof.
  intros Hs. unfold supervisor_start, process_alive.
  unfold mbind at 1, pym_mbind at 1. unfold mbind at 1, pym_mbind at 1. cbn. by rewrite Hs.
Qed.

Lemma start_child s w :
  socket_path config ≠ "" → _process s = None →
  match supervisor_start config (s, w) with
  | (Ok _, x') => ∃ h w1, proc_spawn (launch_command config) w = (Ok h, w1) ∧ _process (fst x') = Some h
  | (Err e, x') => proc_spawn (launch_command config) w = (Err e, snd x') ∨
      ∃ h w1, proc_spawn (launch_command config) w = (Ok h, w1) ∧ at_end h e x'
  end.
Proof.
  intros Hpath Hs. rewrite start_fresh, launch_spawns by done.
  destruct (proc_spawn _ w) as [[h|e] w1]; [|by left].
  pose proof (settle_child h Hpath (set_process (Some h) (clear_history s), w1) eq_refl) as Hc.
  destruct (settle _) as [[st|e] x']; [by exists h, w1|]. right. by exists h, w1.
Qed.
End ending.

(** ** Time *)

(** No operation of the world turns the clock back. *)
Class WorldAges (W : Type) `{ClockLaws W} `{Processes W} `{Ipc W} := {
  ages_poll h : ages (proc_poll h);
  ages_stderr_closed h : ages (stderr_closed h);
  ages_stderr_read h : ages (stderr_read h);
  ages_stderr_close h : ages (stderr_close h);
  ages_ping path : ages (ipc_ping path);
  ages_health path : ages (ipc_get_health path);
  ages_version path : ages (ipc_get_version path);
}.

Section time.
Context {W : Type} `{ClockLaws W} `{Processes W} `{Ipc W} `{!WorldAges W} (config : SupervisorConfig).

Lemma ages_world {A} (m : pym pyexn W A) : ages m → ages (world m).
Proof.
  intros Hm [s w] r [s' w']. unfold world, on_snd. destruct (m w) as [r1 w1] eqn:Hw.
  intros [= <- <- <-]. by eapply Hm.
Qed.

Lemma ages_get_s {A} (f : supervisor_state → A) : ages (get_s (W:=W) f).
Proof. intros [s w] r [s' w'] [= <- <- <-]. simpl. lia. Qed.

Lemma ages_set_s f : ages (set_s (W:=W) f).
Proof. intros [s w] r [s' w'] [= <- <- <-]. simpl. lia. Qed.

Lemma ages_lift {A} (m : res pyexn A) : ages (pym_lift m : pym pyexn (supervisor_state * W) A).
Proof. intros [s w] r [s' w'] [= <- <- <-]. simpl. lia. Qed.

Create HintDb ages.
#[local] Hint Resolve ages_mret ages_raise ages_bind ages_try ages_finally ages_world ages_get_s
  ages_set_s ages_lift : ages.
#[local] Hint Extern 1 (ages _) =>
  first [apply ages_poll | apply ages_stderr_closed | apply ages_stderr_read
        | apply ages_stderr_close | apply ages_ping | apply ages_health | apply ages_version] : ages.

Lemma ages_consume h : ages (_consume_stderr_locked (W:=W) h).
Proof.
  unfold _consume_stderr_locked. apply ages_bind; [auto with ages|]. intros []; [auto with ages|].
  apply ages_world, ages_finally; [|auto with ages]. apply ages_bind; auto with ages.
Qed.

Lemma ages_check {A} label (r : CommandResult A) : ages (check_result (W:=W) config label r).
Proof.
  unfold check_result, process_error. destruct (result_error r); auto with ages.
Qed.
#[local] Hint Resolve ages_consume ages_check : ages.

Lemma ages_refresh h : ages (_refresh_ipc_state_locked (W:=W) config h).
Proof.
  unfold _refresh_ipc_state_locked, _require_client_locked, process_error.
  apply ages_bind; [apply ages_bind; [auto with ages|]; intros []; auto with ages|].
  intros c. repeat (apply ages_bind; [auto with ages|intros ?]). auto with ages.
Qed.
#[local] Hint Resolve ages_refresh : ages.

Lemma ages_ready_turn : ages (ready_turn (W:=W) config).
Proof.
  unfold ready_turn, process_error. apply ages_bind; [auto with ages|]. intros [h|]; [|auto with ages].
  apply ages_bind; [auto with ages|]. intros [code|]; [auto with ages|].
  apply ages_try; [auto with ages|]. intros e. unfold on_transport.
  destruct (is_transport e); auto with ages.
Qed.
End time.
