(* ===== verification/SupervisorPayloads.v ===== *)
(** * What the supervisor remembers of the datapath

    The version and the health a supervisor holds were read from payloads that
    satisfy their models, and the pid it reports is the one of a process it
    spawned; a status it returns can therefore be shown to anyone who asks for
    those constraints. *)

From S2P Require Import Prelude PyStr Errors Types State DpdkModels Clock.
From S2P Require Import Supervisor SupervisorProps.
#[local] Open Scope string_scope.

(** ** Laws of payloads *)

(** The payload of a result, when there is one, satisfies [φ]. *)
Definition payload_ok {A} (φ : A → bool) (r : CommandResult A) : Prop :=
  ∀ p, result_payload r = Some p → φ p = true.

Definition pays {W A} (φ : A → bool) (m : pym pyexn W (CommandResult A)) : Prop :=
  ∀ w r w', m w = (Ok r, w') → payload_ok φ r.

(** The IPC client returns payloads that satisfy their models. *)
Class IpcPayloads (W : Type) `{Ipc W} := {
  version_pays path : pays VersionPayload_ok (ipc_get_version path);
  health_pays path : pays (HealthStateModel_ok ∘ payload_health) (ipc_get_health path);
  ports_pay path : pays PortsPayload_ok (ipc_get_ports path);
  stats_pay path : pays (DatapathStatsModel_ok ∘ payload_stats) (ipc_get_stats path);
  reset_pays path : pays AckPayload_ok (ipc_reset_stats path);
  pause_pays path : pays AckPayload_ok (ipc_pause_datapath path);
  resume_pays path : pays AckPayload_ok (ipc_resume_datapath path);
}.

(** A child has a positive pid. *)
Class PidLaws (W : Type) `{Processes W} := {
  spawn_pid argv w h w' : proc_spawn argv w = (Ok h, w') → (1 <= popen_pid h)%Z;
}.

Definition pid_ok (h : handle) : Prop := (1 <= popen_pid h)%Z.

(** What a status may show. *)
Record status_shown (st : DatapathProcessStatus) : Prop := {
  shown_socket : status_socket_path st ≠ "";
  shown_pid pid : status_pid st = Some pid → (1 <= pid)%Z;
  shown_version v : status_version st = Some v → VersionPayload_ok v = true;
  shown_health h : status_health st = Some h → HealthStateModel_ok h = true;
}.

(** The same of the attributes. *)
Record carries (s : supervisor_state) : Prop := {
  carries_pid h : _process s = Some h → pid_ok h;
  carries_version v : _last_version s = Some v → VersionPayload_ok v = true;
  carries_health h : _last_health s = Some h → HealthStateModel_ok h = true;
}.

Lemma carries_new : carries new_supervisor.
Proof. by split. Qed.

(** Assignments. *)
Lemma carries_set_process p s : (∀ h, p = Some h → pid_ok h) → carries s → carries (set_process p s).
Proof. intros Hp []. by split. Qed.
Lemma carries_set_client c s : carries s → carries (set_client c s).
Proof. by intros []. Qed.
Lemma carries_set_last_error e s : carries s → carries (set_last_error e s).
Proof. by intros []. Qed.
Lemma carries_set_exit c e s : carries s → carries (set_exit c e s).
Proof. by intros []. Qed.
Lemma carries_clear s : carries s → carries (clear_history s).
Proof. intros []. by split. Qed.
Lemma carries_seen h v s :
  HealthStateModel_ok h = true → VersionPayload_ok v = true → carries s → carries (set_seen h v s).
Proof. intros Hh Hv []. split; [done|by intros v' [= <-]|by intros h' [= <-]]. Qed.
#[local] Hint Resolve carries_set_client carries_set_last_error carries_set_exit carries_clear
  : keeping.

Lemma shown_down config code s :
  socket_path config ≠ "" → carries s → status_shown (down_status config code s).
Proof. intros Hp []. by split. Qed.

Lemma unwrap_payload {A} (φ : A → bool) (r : CommandResult A) p :
  payload_ok φ r → unwrap r = Ok p → φ p = true.
Proof. unfold unwrap. intros Hr. destruct (result_payload r) eqn:Hp; [|done]. intros [= <-]. auto. Qed.

Section payloads.
Context {W : Type} `{Clock W} `{Processes W} `{Ipc W} `{!IpcPayloads W} `{!PidLaws W}.
Context (config : SupervisorConfig) (Hpath : socket_path config ≠ "").

Abbreviation K := (keeping (on_s (W:=W) carries)).

Lemma K_set f : (∀ s, carries s → carries (f s)) → K (λ _, True) (set_s f).
Proof. intros Hf. apply keeping_modify. intros [s w] Hs. by apply Hf. Qed.

Lemma K_get {A} (φ : A → Prop) f : (∀ s, carries s → φ (f s)) → K φ (get_s f).
Proof. intros Hf. apply keeping_gets. intros [s w] Hs. by apply Hf. Qed.

Lemma K_world {A} (m : pym pyexn W A) : K (λ _, True) (world m).
Proof. intros [s w] Hs. unfold world, on_snd. by destruct (m w) as [[a|e] w']. Qed.

Lemma K_ipc {A} (φ : A → bool) (m : pym pyexn W (CommandResult A)) :
  pays φ m → K (payload_ok φ) (world m).
Proof.
  intros Hm [s w] Hs. unfold world, on_snd. destruct (m w) as [[r|e] w'] eqn:Hw; [|done].
  split; [by eapply Hm|done].
Qed.

Lemma K_spawn argv : K pid_ok (world (proc_spawn argv)).
Proof.
  intros [s w] Hs. unfold world, on_snd. destruct (proc_spawn argv w) as [[h|e] w'] eqn:Hw; [|done].
  split; [by eapply spawn_pid|done].
Qed.
#[local] Hint Resolve K_world : keeping.

(** The computations whose value nobody constrains. *)
Ltac kept :=
  repeat (first
    [ solve [eauto with keeping]
    | match goal with
      | |- keeping _ (λ _, True) (mret _) => by apply keeping_mret
      | |- keeping _ (λ _, True) (get_s _) => by apply K_get
      | |- keeping _ (λ _, True) (pym_lift _) => by apply keeping_lift
      | |- keeping _ _ (set_s _) => apply K_set; solve [auto with keeping]
      end
    | eapply keeping_seq; [|intros ?]
    | apply keeping_try; [|intros ?]
    | apply keeping_finally
    | progress cbn beta
    | case_match ]).

Lemma K_consume h : K (λ _, True) (_consume_stderr_locked h).
Proof. unfold _consume_stderr_locked. kept. Qed.

Lemma K_error {A} (φ : A → Prop) m c : K φ (process_error m c).
Proof. apply keeping_raise. Qed.

Lemma K_require : K (λ _, True) (_require_client_locked config).
Proof.
  unfold _require_client_locked. eapply keeping_seq; [by apply (K_get (λ _, True))|].
  intros [c|]; [by apply keeping_mret|apply K_error].
Qed.

Lemma K_check {A} label (r : CommandResult A) : K (λ _, True) (check_result config label r).
Proof.
  unfold check_result. destruct (result_error r); [|by apply keeping_mret].
  eapply keeping_seq; [apply K_set; auto with keeping|]. intros _. apply K_error.
Qed.
#[local] Hint Resolve K_consume K_error K_require K_check : keeping.

Lemma K_refresh h : pid_ok h → K status_shown (_refresh_ipc_state_locked config h).
Proof.
  intros Hpid. unfold _refresh_ipc_state_locked.
  eapply keeping_seq; [apply K_require|]. intros client.
  eapply keeping_seq; [apply K_world|]. intros ping.
  eapply keeping_seq; [apply K_check|]. intros _.
  eapply keeping_bind; [apply K_ipc, health_pays|]. intros health Hhealth.
  eapply keeping_seq; [apply K_check|]. intros _.
  eapply keeping_bind; [apply K_ipc, version_pays|]. intros version Hversion.
  eapply keeping_seq; [apply K_check|]. intros _.
  eapply keeping_bind; [apply keeping_lift; intros p; by apply unwrap_payload|]. intros hp Hh.
  eapply keeping_bind; [apply keeping_lift; intros p; by apply unwrap_payload|]. intros v Hv.
  eapply keeping_seq; [apply K_set; intros s; by apply carries_seen|]. intros _.
  apply keeping_mret. split; cbn; [done|by intros pid [= <-]|by intros v' [= <-]|by intros h' [= <-]].
Qed.

Lemma K_on_transport {A} (φ : A → Prop) k e : K φ k → K φ (on_transport k e).
Proof.
  intros Hk. unfold on_transport. destruct (is_transport e); [|apply keeping_raise].
  eapply keeping_seq; [apply K_set; auto with keeping|]. by intros _.
Qed.

Lemma K_process {A} (φ : A → Prop) (k : option handle → pym pyexn (supervisor_state * W) A) :
  K φ (k None) → (∀ h, pid_ok h → K φ (k (Some h))) → K φ (p ← get_s _process; k p).
Proof.
  intros Hn Hs. apply (keeping_bind _ (λ p, ∀ h, p = Some h → pid_ok h)).
  - apply K_get. by intros s [].
  - intros [h|] Hp; [by apply Hs, Hp|done].
Qed.

Lemma K_ready_turn : K (λ r, ∀ st, r = Some st → status_shown st) (ready_turn config).
Proof.
  unfold ready_turn. apply K_process; [apply K_error|]. intros h Hh.
  eapply keeping_seq; [apply K_world|]. intros [code|].
  - eapply keeping_seq; [apply K_consume|]. intros err.
    eapply keeping_seq; [apply K_set; auto with keeping|]. intros _. apply K_error.
  - apply keeping_try; [|intros e; apply K_on_transport, keeping_mret; done].
    eapply keeping_bind; [by apply K_refresh|]. intros st Hst. apply keeping_mret. by intros ? [= <-].
Qed.

Lemma K_wait : K status_shown (_wait_for_ready_locked config).
Proof.
  unfold _wait_for_ready_locked.
  apply (keeping_bind _ (λ r, ∀ st, r = Some st → status_shown st)).
  - eapply hoare_conseq.
    + apply (hoare_poll_until _ _ _ (on_s carries) (λ st x, status_shown st ∧ on_s carries x)
               (λ _, on_s carries)); [apply hoare_world_any..|].
      eapply hoare_conseq; [apply K_ready_turn|done| |done]. intros [st|] x [Hst Hx]; auto.
    + done.
    + intros [st|] x; [intros [Hst Hx]; split; [by intros ? [= <-]|done]|done].
    + done.
  - intros [st|] Hst; [apply keeping_mret; auto|apply K_error].
Qed.

Lemma K_end_child h : K (λ _, True) (end_child config h).
Proof.
  unfold end_child. eapply keeping_seq; [apply K_world|]. intros [code|]; [by apply keeping_mret|].
  eapply keeping_seq; [apply K_world|]. intros _. apply keeping_try; [kept|]. intros e. kept.
Qed.

Lemma K_clear (b : bool) : K (λ _, True) (if b then set_s clear_history else mret ()).
Proof. destruct b; kept. Qed.

Lemma K_stop clear : K (λ _, True) (_stop_locked config clear).
Proof.
  unfold _stop_locked. apply K_process.
  - eapply keeping_seq; [apply K_set; intros s; by apply carries_set_process|]. intros _.
    eapply keeping_seq; [apply K_set; auto with keeping|]. intros _. apply K_clear.
  - intros h _. eapply keeping_seq; [apply K_set; intros s; by apply carries_set_process|]. intros _.
    eapply keeping_seq; [apply K_set; auto with keeping|]. intros _.
    eapply keeping_seq; [apply K_end_child|]. intros _.
    eapply keeping_seq; [apply K_consume|]. intros _. apply K_clear.
Qed.

Lemma K_status : K status_shown (supervisor_status config).
Proof.
  unfold supervisor_status, _status_locked. apply K_process.
  - apply K_get. intros s. by apply shown_down.
  - intros h Hh. eapply keeping_seq; [apply K_world|]. intros [code|].
    + eapply keeping_seq; [apply K_consume|]. intros err.
      eapply keeping_seq; [by apply (K_get (λ _, True))|]. intros last.
      eapply keeping_seq; [apply K_set; auto with keeping|]. intros _.
      eapply keeping_seq; [apply K_set; intros s; by apply carries_set_process|]. intros _.
      eapply keeping_seq; [apply K_set; auto with keeping|]. intros _.
      apply K_get. intros s. by apply shown_down.
    + apply keeping_try; [by apply K_refresh|]. intros e. apply K_on_transport, K_get.
      intros s []. split; cbn; [done|by intros pid [= <-]|done..].
Qed.

Lemma K_start : K status_shown (supervisor_start config).
Proof.
  unfold supervisor_start. eapply keeping_seq.
  { unfold process_alive. apply (K_process (λ _, True)); [by apply keeping_mret|]. intros h _. kept. }
  intros []; [apply K_wait|]. unfold launch.
  eapply keeping_seq; [apply K_set; auto with keeping|]. intros _.
  eapply keeping_bind; [apply K_spawn|]. intros h Hh.
  eapply keeping_seq; [apply K_set; intros s; apply carries_set_process; by intros ? [= <-]|]. intros _.
  eapply keeping_seq; [by apply (keeping_lift _ (λ _, True))|]. intros c.
  eapply keeping_seq; [apply K_set; auto with keeping|]. intros _.
  apply keeping_try; [apply K_wait|]. intros e.
  eapply keeping_seq; [apply K_stop|]. intros _. apply keeping_raise.
Qed.

Lemma K_data {A} (φ : A → bool) purpose (call : string → pym pyexn W (CommandResult A)) :
  (∀ path, pays φ (call path)) → K (payload_ok φ) (data_command config purpose call).
Proof.
  intros Hc. unfold data_command. eapply keeping_seq; [apply K_status|]. intros st.
  destruct (reachable st); [|apply keeping_raise].
  eapply keeping_seq; [apply K_require|]. intros c. by apply K_ipc.
Qed.
End payloads.
