(* ===== verification/IpcClient.v ===== *)
(** * The datapath client implements the supervisor's interface

    [DpdkdSupervisor] is given a [client_factory], by default [DpdkClient]:
    the instance below is that client, and its laws are those the theorems of
    [SupervisorProps] ask for. *)

From S2P Require Import Prelude PyStr Errors Types DpdkModels Framing DpdkClient ClientProps.
From S2P Require Import Clock Supervisor SupervisorProps SupervisorPayloads.
#[local] Open Scope string_scope.

Section ipc_client.
Context {W : Type} `{Socket W} `{Uuid W} `{Codec}.

(** [timeout_seconds: float = 1.0], in ticks of a millisecond. *)
Definition DEFAULT_CLIENT_TIMEOUT : Z := 1000.

Definition default_client (path : string) : DpdkClient W :=
  mkDpdkClient path DEFAULT_CLIENT_TIMEOUT _default_request_id.

Definition dpdk_ipc : Ipc W := {|
  client_factory path :=
    match new_DpdkClient (W:=W) path DEFAULT_CLIENT_TIMEOUT None with
    | Ok c => Ok (client_socket_path c)
    | Err e => Err e
    end;
  ipc_ping path := ping (default_client path);
  ipc_get_version path := get_version (default_client path);
  ipc_get_health path := get_health (default_client path);
  ipc_get_ports path := get_ports (default_client path);
  ipc_get_stats path := get_stats (default_client path);
  ipc_reset_stats path := reset_stats (default_client path);
  ipc_pause_datapath path := pause_datapath (default_client path);
  ipc_resume_datapath path := resume_datapath (default_client path);
|}.

(** What the factory builds is the client the calls use. *)
Lemma default_client_new path :
  path ≠ "" → new_DpdkClient path DEFAULT_CLIENT_TIMEOUT None = Ok (default_client path).
Proof. by destruct path. Qed.
End ipc_client.

(** [model_validate] of the payload models checks the constraints of their
    fields. *)
Class PayloadLaws `{Codec} : Prop := {
  ack_validated d a : validate_ack d = inl a → AckPayload_ok a = true;
  version_validated d v : validate_version d = inl v → VersionPayload_ok v = true;
  health_validated d h :
    validate_health d = inl h → HealthStateModel_ok (payload_health h) = true;
  ports_validated d p : validate_ports d = inl p → PortsPayload_ok p = true;
  stats_validated d s :
    validate_stats d = inl s → DatapathStatsModel_ok (payload_stats s) = true;
}.

Lemma command_pays {W} `{Socket W} `{Codec} {A} (φ : A → bool) mk payload_type (client : DpdkClient W) :
  (∀ d a, payload_type d = inl a → φ a = true) → pays φ (command mk payload_type client).
Proof.
  intros Hv w r w'. unfold command.
  intros (id & w1 & _ & Hr)%pym_bind_inv. apply pym_bind_inv in Hr as (req & w2 & _ & Hr).
  unfold _typed_call in Hr. apply pym_bind_inv in Hr as (resp & w3 & _ & Hr).
  case_decide; [|done]. destruct resp as [resp|resp]; [|by injection Hr as <- <-; intros p [=]].
  destruct (payload_type (success_payload resp)) as [a|errors] eqn:Ha; [|done].
  injection Hr as <- <-. intros p [= <-]. by eapply Hv.
Qed.

Lemma dpdk_call {W} `{Socket W} `{!SocketLaws W} `{Uuid W} `{!UuidLaws W} `{Codec} {A} mk
    (payload_type : pydict → A + pyval) (client : DpdkClient W) :
  _request_id_factory client = _default_request_id → ipc_call_ok (command mk payload_type client).
Proof. intros Hid. eapply hoare_weaken_err; [by apply command_spec|done]. Qed.

(** C36 The client class refines the interface the supervisor is verified against:
    for a non-empty path the factory succeeds, every call that returns gives a
    result with a payload or an error, and a payload it returns satisfies the
    constraints of its model.  What the calls may raise is stated
    in [ClientProps]. *)
Theorem client_implements_ipc {W} `{Socket W} `{!SocketLaws W} `{Uuid W} `{!UuidLaws W} `{Codec}
    `{!PayloadLaws} :
  IpcLaws W (H := dpdk_ipc) ∧ IpcPayloads W (H := dpdk_ipc).
Proof.
  split; constructor; intros path.
  - intros Hp. unfold client_factory, dpdk_ipc. by rewrite default_client_new.
  - by apply dpdk_call.
  - by apply dpdk_call.
  - by apply dpdk_call.
  - by apply dpdk_call.
  - by apply dpdk_call.
  - by apply dpdk_call.
  - by apply dpdk_call.
  - by apply dpdk_call.
  - apply command_pays, version_validated.
  - apply command_pays, health_validated.
  - apply command_pays, ports_validated.
  - apply command_pays, stats_validated.
  - apply command_pays, ack_validated.
  - apply command_pays, ack_validated.
  - apply command_pays, ack_validated.
Qed.

#[local] Instance demo_payload_laws : PayloadLaws (H := demo_codec).
Proof.
  split; try done. intros d a. cbn.
  destruct (dict_get "message" d) as [[| | | |m| |]|]; try done.
  destruct (str_empty m) eqn:Hm; [done|]. intros [= <-]. unfold AckPayload_ok. cbn. by rewrite Hm.
Qed.

Lemma client_implements_ipc_witness :
  @client_factory stream (dpdk_ipc (H0 := demo_uuid) (H1 := demo_codec)) "/run/pktlab/dpdkd.sock"
  = Ok "/run/pktlab/dpdkd.sock".
Proof.
  destruct (@client_implements_ipc stream stream_socket _ demo_uuid demo_uuid_laws
    demo_codec demo_payload_laws) as [Hlaws _].
  apply (@factory_ok _ _ Hlaws). discriminate.
Defined.
