(* ===== verification/Netns.v ===== *)
(** * Network namespaces through [ip]

    [util/subprocess.py] and [util/netns.py]: every change of the host's
    network is one [ip] command.  What the command does to the host is an
    interface: facts about the network that a successful command establishes
    or removes, and the format in which [ip netns list] shows the namespaces. *)

From S2P Require Import Prelude PyStr IpAddress Errors Clock.
#[local] Open Scope string_scope.
#[local] Open Scope list_scope.

(** ** Running commands *)

(** [subprocess.run(argv, ...)]: return code, standard output and error. *)
Class Host (W : Type) := { subprocess_run : list string → pym pyexn W (Z * string * string) }.

(** [util.subprocess.CommandResult] *)
Record CompletedCommand : Type := mkCompleted {
  cmd_argv : list string;
  cmd_returncode : Z;
  cmd_stdout : string;
  cmd_stderr : string;
}.

(** [text or None] *)
Definition text_or_none (s : string) : pyval := if str_empty s then PyNone else PyStr s.

Section netns.
Context {W : Type} `{Host W}.

(** [CommandExecutor.run] *)
Definition executor_run (argv : list string) (allowed_returncodes : list Z)
    : pym pyexn W CompletedCommand :=
  '(returncode, stdout, stderr) ← subprocess_run argv;
  if decide (returncode ∈ allowed_returncodes) then
    mret (mkCompleted argv returncode stdout stderr)
  else
    raise (PktlabExn (new_ProcessExecutionError "subprocess command failed"
      [("argv", PyList (PyStr <$> argv)); ("returncode", PyInt returncode);
       ("stdout", text_or_none stdout); ("stderr", text_or_none stderr)])).

(** [NetnsRunner.run_ip] *)
Definition ip_argv (namespace : option string) (arguments : list string) : list string :=
  "ip" :: match namespace with Some ns => ["-n"; ns] | None => [] end ++ arguments.

Definition run_ip (arguments : list string) (namespace : option string)
    (allowed_returncodes : list Z) : pym pyexn W CompletedCommand :=
  executor_run (ip_argv namespace arguments) allowed_returncodes.

(** ** The commands *)

(** The changes the controller makes, as arguments of [ip]. *)
Inductive ip_change : Type :=
| NetnsAdd (ns : string)
| NetnsDel (ns : string)
| VethAdd (ns_a if_a ns_b if_b : string)
| LinkDel (ns i : string)
| BridgeAdd (ns b : string)
| AddressReplace (ns i cidr : string)
| RouteReplace (ns dst via : string)
| SetMaster (ns i b : string)
| SetUp (ns i : string).

Definition change_namespace (c : ip_change) : option string :=
  match c with
  | NetnsAdd _ | NetnsDel _ | VethAdd _ _ _ _ => None
  | LinkDel ns _ | BridgeAdd ns _ | AddressReplace ns _ _ | RouteReplace ns _ _
  | SetMaster ns _ _ | SetUp ns _ => Some ns
  end.

Definition change_arguments (c : ip_change) : list string :=
  match c with
  | NetnsAdd ns => ["netns"; "add"; ns]
  | NetnsDel ns => ["netns"; "del"; ns]
  | VethAdd ns_a if_a ns_b if_b =>
      ["link"; "add"; "name"; if_a; "netns"; ns_a; "type"; "veth"; "peer"; "name"; if_b;
       "netns"; ns_b]
  | LinkDel ns i => ["link"; "del"; "dev"; i]
  | BridgeAdd ns b => ["link"; "add"; "name"; b; "type"; "bridge"]
  | AddressReplace ns i cidr => ["address"; "replace"; cidr; "dev"; i]
  | RouteReplace ns dst via => ["route"; "replace"; dst; "via"; via]
  | SetMaster ns i b => ["link"; "set"; "dev"; i; "master"; b]
  | SetUp ns i => ["link"; "set"; "dev"; i; "up"]
  end.

Definition change (c : ip_change) : pym pyexn W unit :=
  run_ip (change_arguments c) (change_namespace c) [0%Z];; mret ().

Definition list_argv : list string := ip_argv None ["netns"; "list"].
Definition show_argv (ns i : string) : list string := ip_argv (Some ns) ["link"; "show"; "dev"; i].

(** The names [ip netns list] prints: the first word of each line. *)
Definition listed (stdout : string) : list string := omap py_first_word (py_splitlines stdout).

(** ** [NetnsRunner] *)

Definition list_namespaces : pym pyexn W (list string) :=
  result ← run_ip ["netns"; "list"] None [0%Z];
  mret (listed (cmd_stdout result)).

Definition namespace_exists (namespace : string) : pym pyexn W bool :=
  names ← list_namespaces;
  mret (bool_decide (namespace ∈ names)).

Definition ensure_namespace (namespace : string) : pym pyexn W unit :=
  exists_ ← namespace_exists namespace;
  if exists_ : bool then mret () else change (NetnsAdd namespace).

Definition delete_namespace (namespace : string) : pym pyexn W unit :=
  exists_ ← namespace_exists namespace;
  if exists_ : bool then change (NetnsDel namespace) else mret ().

Definition link_exists (namespace interface : string) : pym pyexn W bool :=
  result ← run_ip ["link"; "show"; "dev"; interface] (Some namespace) [0; 1]%Z;
  mret (cmd_returncode result =? 0)%Z.

(** [link_exists(a) and link_exists(b)]: the second test only when the first
    holds. *)
Definition ensure_veth_pair (namespace_a interface_a namespace_b interface_b : string)
    : pym pyexn W unit :=
  a ← link_exists namespace_a interface_a;
  both ← (if a : bool then link_exists namespace_b interface_b else mret false);
  if both : bool then mret ()
  else change (VethAdd namespace_a interface_a namespace_b interface_b).

Definition delete_link (namespace interface : string) : pym pyexn W unit :=
  exists_ ← link_exists namespace interface;
  if exists_ : bool then change (LinkDel namespace interface) else mret ().

Definition ensure_bridge (namespace bridge : string) : pym pyexn W unit :=
  exists_ ← link_exists namespace bridge;
  if exists_ : bool then mret () else change (BridgeAdd namespace bridge).

Definition replace_address (namespace interface cidr : string) : pym pyexn W unit :=
  change (AddressReplace namespace interface cidr).
Definition replace_route (namespace dst via : string) : pym pyexn W unit :=
  change (RouteReplace namespace dst via).
Definition attach_to_bridge (namespace interface bridge : string) : pym pyexn W unit :=
  change (SetMaster namespace interface bridge).
Definition set_link_up (namespace interface : string) : pym pyexn W unit :=
  change (SetUp namespace interface).
End netns.

(** ** What the commands print *)

(** [ip netns list] prints one line per namespace: its name, and the id the
    namespace has been assigned, if any. *)
Definition netns_line (e : string * option N) : string :=
  e.1 +:+ match e.2 with Some id => " (id: " +:+ str_of_Z (Z.of_N id) +:+ ")" | None => "" end.

Fixpoint netns_listing (entries : list (string * option N)) : string :=
  match entries with
  | [] => ""
  | e :: es => netns_line e +:+ newline +:+ netns_listing es
  end.

(** The names that survive being printed and read: not empty, no white space. *)
Definition plain (ns : string) : bool := negb (str_empty ns) && unbroken ns.

Lemma netns_line_read e :
  plain e.1 = true → listed (netns_line e +:+ newline) = [e.1].
Proof.
  destruct e as [ns id]. unfold plain. cbn [fst].
  intros [Hne%negb_true_iff Hns]%andb_true_iff. unfold listed.
  assert (one_line (netns_line (ns, id)) = true) as Hline.
  { unfold one_line, netns_line. cbn [fst snd]. rewrite str_all_app, andb_true_iff.
    split; [by apply unbroken_one_line|]. destruct id as [n|]; [|done].
    rewrite !str_all_app. apply andb_true_iff. split; [done|]. apply andb_true_iff. split; [|done].
    apply unbroken_one_line. eapply str_all_mono; [apply is_decimal_not_space|].
    apply str_of_Z_decimal. lia. }
  rewrite py_splitlines_one by done. cbn.
  rewrite py_first_word_app; [done|by destruct ns|done|]. by destruct id.
Qed.

Lemma listed_cons e es :
  listed (netns_listing (e :: es)) = listed (netns_line e +:+ newline) ++ listed (netns_listing es).
Proof. unfold listed. cbn [netns_listing]. by rewrite py_splitlines_newline, omap_app. Qed.

(** A plain name is read back, whatever other names are printed. *)
Lemma listed_entry ns entries :
  plain ns = true → ns ∈ fst <$> entries → ns ∈ listed (netns_listing entries).
Proof.
  intros Hns. induction entries as [|e es IH]; cbn [fmap list_fmap]; [by intros ?%elem_of_nil|].
  rewrite listed_cons. intros [->|Hin]%elem_of_cons; apply elem_of_app; [left|right; by apply IH].
  rewrite netns_line_read by done. left.
Qed.

(** When all names are plain, the names read are the names printed. *)
Lemma listed_plain entries :
  Forall (λ ns, plain ns = true) (fst <$> entries) → listed (netns_listing entries) = fst <$> entries.
Proof.
  induction entries as [|e es IH]; cbn [fmap list_fmap]; [done|].
  intros [He Hes]%Forall_cons. rewrite listed_cons, netns_line_read by done. cbn. f_equal. by apply IH.
Qed.

(** Only plain names are ever read. *)
Lemma listed_only_plain ns stdout : ns ∈ listed stdout → plain ns = true.
Proof.
  unfold listed, plain. intros (l & _ & Hw)%list_elem_of_omap.
  apply py_first_word_unbroken in Hw as [Hne ->]. by destruct ns.
Qed.

(** ** What the commands do *)

Inductive net_fact : Type :=
| HasNamespace (ns : string)
| HasLink (ns i : string)
| HasAddress (ns i cidr : string)
| HasRoute (ns dst via : string)
| HasMaster (ns i b : string)
| IsUp (ns i : string).

(** The namespace a fact is about. *)
Definition fact_namespace (f : net_fact) : string :=
  match f with
  | HasNamespace ns | HasLink ns _ | HasAddress ns _ _ | HasRoute ns _ _ | HasMaster ns _ _
  | IsUp ns _ => ns
  end.

(** What a change establishes. *)
Definition achieves (c : ip_change) (f : net_fact) : Prop :=
  match c with
  | NetnsAdd ns => f = HasNamespace ns
  | VethAdd ns_a if_a ns_b if_b => f = HasLink ns_a if_a ∨ f = HasLink ns_b if_b
  | BridgeAdd ns b => f = HasLink ns b
  | AddressReplace ns i cidr => f = HasAddress ns i cidr
  | RouteReplace ns dst via => f = HasRoute ns dst via
  | SetMaster ns i b => f = HasMaster ns i b
  | SetUp ns i => f = IsUp ns i
  | NetnsDel _ | LinkDel _ _ => False
  end.

(** What a change that adds something may undo: an interface has one master,
    a namespace one route to a network. *)
Definition clobbers (c : ip_change) (f : net_fact) : Prop :=
  match c with
  | RouteReplace ns dst _ => ∃ dst' via', f = HasRoute ns dst' via' ∧ ip4_network dst' = ip4_network dst
  | SetMaster ns i _ => ∃ b', f = HasMaster ns i b'
  | _ => False
  end.

(** The changes that take something away. *)
Definition deletes (c : ip_change) : bool :=
  match c with NetnsDel _ | LinkDel _ _ => true | _ => false end.

(** The documented behaviour of [ip] on return code zero. *)
Class IpLaws (W : Type) `{Host W} := {
  holds : W → net_fact → Prop;
  in_namespace w f : holds w f → holds w (HasNamespace (fact_namespace f));
  ip_added c w out err w' :
    deletes c = false →
    subprocess_run (ip_argv (change_namespace c) (change_arguments c)) w = (Ok (0%Z, out, err), w') →
    (∀ f, achieves c f → holds w' f) ∧ (∀ f, holds w f → ¬ clobbers c f → holds w' f);
  ip_removed c w out err w' :
    deletes c = true →
    subprocess_run (ip_argv (change_namespace c) (change_arguments c)) w = (Ok (0%Z, out, err), w') →
    (∀ ns, c = NetnsDel ns → ¬ holds w' (HasNamespace ns)) ∧ (∀ f, holds w' f → holds w f);
  ip_listed w out err w' :
    subprocess_run list_argv w = (Ok (0%Z, out, err), w') →
    (∀ f, holds w' f ↔ holds w f) ∧
    ∃ entries, out = netns_listing entries ∧ ∀ ns, holds w (HasNamespace ns) ↔ ns ∈ fst <$> entries;
  ip_shown ns i w rc out err w' :
    subprocess_run (show_argv ns i) w = (Ok (rc, out, err), w') →
    (∀ f, holds w' f ↔ holds w f) ∧ (rc = 0%Z → holds w (HasLink ns i));
}.

(** Commands issued by a component with state of its own. *)
#[export] Instance pair_host {S W} `{Host W} : Host (S * W) :=
  {| subprocess_run argv := on_snd (subprocess_run argv) |}.

Lemma pair_host_run {S W} `{Host W} argv (s : S) (w : W) r s' w' :
  subprocess_run argv (s, w) = (r, (s', w')) ↔ s' = s ∧ subprocess_run argv w = (r, w').
Proof.
  unfold subprocess_run at 1, pair_host, on_snd. destruct (subprocess_run argv w) as [r1 w1].
  naive_solver.
Qed.

#[export] Program Instance pair_ip_laws {S W} `{IpLaws W} : IpLaws (S * W) :=
  {| holds sw := holds (snd sw) |}.
Next Obligation. intros S W ?? sw f. apply in_namespace. Qed.
Next Obligation. intros S W ?? c [s w] out err [s' w'] Hc [_ Hr]%pair_host_run. by eapply ip_added. Qed.
Next Obligation. intros S W ?? c [s w] out err [s' w'] Hc [_ Hr]%pair_host_run. by eapply ip_removed. Qed.
Next Obligation. intros S W ?? [s w] out err [s' w'] [_ Hr]%pair_host_run. by eapply ip_listed. Qed.
Next Obligation. intros S W ?? ns i [s w] rc out err [s' w'] [_ Hr]%pair_host_run. by eapply ip_shown. Qed.

(** ** Establishing facts *)

Abbreviation facts := (net_fact → Prop).

Section laws.
Context {W : Type} `{IpLaws W}.

(** The names of all namespaces of the host can be told from a listing. *)
Definition plain_host (w : W) : Prop := ∀ ns, holds w (HasNamespace ns) → plain ns = true.

(** What the controller can know of the host: a namespace that is listed as
    the first word of another name is taken for present. *)
Definition secured (w : W) (f : net_fact) : Prop := plain_host w → holds w f.

(** A normal return of [m] secures the facts of [A], and a fact outside [C]
    that was secured before still is. *)
Definition establishes {V} (m : pym pyexn W V) (A C : facts) : Prop :=
  ∀ w v w', m w = (Ok v, w') →
    (∀ f, A f → secured w' f) ∧ (∀ f, secured w f → ¬ C f → secured w' f).

Definition nothing : facts := λ _, False.

Lemma secured_mono w w' f :
  (∀ ns, holds w (HasNamespace ns) → holds w' (HasNamespace ns)) →
  (holds w f → holds w' f) → secured w f → secured w' f.
Proof. intros Hns Hf Hs Hp. apply Hf, Hs. intros ns Hn. by apply Hp, Hns. Qed.

Lemma secured_same w w' :
  (∀ f, holds w' f ↔ holds w f) → ∀ f, secured w f → secured w' f.
Proof. intros Hf f. apply secured_mono; [intros ns|]; apply Hf. Qed.

Lemma establishes_intro {V} (m : pym pyexn W V) (A C : facts) :
  (∀ ns, ¬ C (HasNamespace ns)) →
  (∀ w v w', m w = (Ok v, w') →
    (∀ f, A f → holds w' f) ∧ (∀ f, holds w f → ¬ C f → holds w' f)) →
  establishes m A C.
Proof.
  intros HC Hm w v w' Hw. destruct (Hm _ _ _ Hw) as [HA Hk]. split; [by intros f Hf _; apply HA|].
  intros f Hf Hn. revert Hf. apply secured_mono; [intros ns Hns|intros Hf]; apply Hk; auto.
Qed.

(** What is secured on a plain host holds there, before and after. *)
Lemma establishes_holds {V} (m : pym pyexn W V) (A C : facts) w v w' :
  establishes m A C → (∀ ns, ¬ C (HasNamespace ns)) → m w = (Ok v, w') → plain_host w' →
  plain_host w ∧ (∀ f, A f → holds w' f) ∧ (∀ f, holds w f → ¬ C f → holds w' f).
Proof.
  intros Hm HC Hw Hp. destruct (Hm _ _ _ Hw) as [HA Hk]. split_and!.
  - intros ns Hns. apply Hp, Hk; [by intros _|apply HC|done].
  - intros f Hf. by apply HA.
  - intros f Hf Hn. apply Hk; [by intros _|done..].
Qed.

Lemma establishes_weaken {V} (m : pym pyexn W V) (A A' C C' : facts) :
  establishes m A C → (∀ f, A' f → A f) → (∀ f, C f → C' f) → establishes m A' C'.
Proof.
  intros Hm HA HC w v w' Hw. destruct (Hm w v w' Hw) as [H1 H2].
  split; [by intros f Hf%HA%H1|]. intros f Hf Hn. apply H2; [done|]. by intros Hc%HC.
Qed.

Lemma establishes_mret {V} (v : V) : establishes (mret v) nothing nothing.
Proof. intros w v' w' [= <- <-]. split; [by intros f []|done]. Qed.

Lemma establishes_bind {V U} (m : pym pyexn W V) (k : V → pym pyexn W U) (A1 A2 C1 C2 : facts) :
  establishes m A1 C1 → (∀ v, establishes (k v) A2 C2) →
  establishes (m ≫= k) (λ f, A2 f ∨ (A1 f ∧ ¬ C2 f)) (λ f, C1 f ∨ C2 f).
Proof.
  intros Hm Hk w u w'. unfold mbind, pym_mbind. destruct (m w) as [[v|e] w1] eqn:Hw; [|done].
  intros Hu. destruct (Hm _ _ _ Hw) as [HA HC], (Hk v _ _ _ Hu) as [HA' HC']. split.
  - intros f [Hf|[Hf Hn]]; [by apply HA'|]. apply HC'; [by apply HA|done].
  - intros f Hf Hn. apply HC'; [apply HC; [done|]|]; intros Hc; apply Hn; auto.
Qed.

(** A loop whose turns clobber nothing. *)
Lemma establishes_iter {X} (body : X → pym pyexn W unit) (A : X → facts) l :
  (∀ x, x ∈ l → establishes (body x) (A x) nothing) →
  establishes (pym_iter body l) (λ f, ∃ x, x ∈ l ∧ A x f) nothing.
Proof.
  induction l as [|x l IH]; intros Hb.
  - intros w v w' [= <- <-]. split; [|done]. intros f (x & Hx & _). by apply elem_of_nil in Hx.
  - eapply establishes_weaken.
    + eapply establishes_bind; [apply Hb; left|]. intros v. apply IH. intros y Hy. apply Hb. by right.
    + intros f (y & [->|Hy]%elem_of_cons & Hf); [right; split; [done|intros []]|left; by exists y].
    + by intros f [?|?].
Qed.

(** Two ways to the same facts. *)
Lemma establishes_or {V U} (m : pym pyexn W V) (k : V → pym pyexn W U) (A C : facts) :
  (∀ w v w', m w = (Ok v, w') →
    (∀ f, secured w f → secured w' f) ∧
    ∀ u w2, k v w' = (Ok u, w2) →
      (∀ f, A f → secured w2 f) ∧ (∀ f, secured w' f → ¬ C f → secured w2 f)) →
  establishes (m ≫= k) A C.
Proof.
  intros Hm w u w'. unfold mbind, pym_mbind. destruct (m w) as [[v|e] w1] eqn:Hw; [|done].
  intros Hu. destruct (Hm _ _ _ Hw) as [H1 H2]. destruct (H2 _ _ Hu) as [H3 H4]. split; [done|].
  intros f Hf. apply H4, H1, Hf.
Qed.

Lemma run_ip_ok arguments ns allowed w r w' :
  run_ip arguments ns allowed w = (Ok r, w') →
  subprocess_run (ip_argv ns arguments) w = (Ok (cmd_returncode r, cmd_stdout r, cmd_stderr r), w') ∧
  cmd_returncode r ∈ allowed.
Proof.
  unfold run_ip, executor_run, mbind, pym_mbind.
  destruct (subprocess_run _ w) as [[[[rc out] err]|e] w1]; [|done].
  case_decide; [|done]. by intros [= <- <-].
Qed.

Lemma change_establishes c : deletes c = false → establishes (change c) (achieves c) (clobbers c).
Proof.
  intros Hc. apply establishes_intro; [intros ns; destruct c; cbn; naive_solver|].
  intros w v w'. unfold change, mbind, pym_mbind.
  destruct (run_ip _ _ _ w) as [[r|e] w1] eqn:Hr; [|done]. intros [= _ <-].
  apply run_ip_ok in Hr as [Hr Hrc%list_elem_of_singleton]. rewrite Hrc in Hr.
  by eapply ip_added.
Qed.

Lemma link_exists_ok ns i w b w' :
  link_exists ns i w = (Ok b, w') →
  (∀ f, holds w' f ↔ holds w f) ∧ (b = true → holds w (HasLink ns i)).
Proof.
  unfold link_exists, mbind, pym_mbind.
  destruct (run_ip _ _ _ w) as [[r|e] w1] eqn:Hr; [|done]. intros [= <- <-].
  apply run_ip_ok in Hr as [Hr Hrc]. apply ip_shown in Hr as (Hf & Hyes). split; [done|].
  by rewrite Z.eqb_eq.
Qed.

Lemma namespace_exists_ok ns w b w' :
  namespace_exists ns w = (Ok b, w') →
  (∀ f, holds w' f ↔ holds w f) ∧
  (b = true → secured w (HasNamespace ns) ∧ plain ns = true) ∧
  (b = false → plain ns = true → ¬ holds w (HasNamespace ns)).
Proof.
  unfold namespace_exists, list_namespaces, mbind, pym_mbind.
  destruct (run_ip _ _ _ w) as [[r|e] w1] eqn:Hr; [|done]. intros [= <- <-].
  apply run_ip_ok in Hr as [Hr Hrc%list_elem_of_singleton]. rewrite Hrc in Hr.
  apply ip_listed in Hr as (Hf & entries & -> & Hl). split_and!; [done|..].
  - intros Hin%bool_decide_eq_true. split; [|by eapply listed_only_plain]. intros Hp.
    rewrite listed_plain in Hin; [by apply Hl|]. apply Forall_forall. intros ns' Hns'. by apply Hp, Hl.
  - intros Hin%bool_decide_eq_false Hns Hh%Hl. by apply Hin, listed_entry.
Qed.

Lemma ensure_namespace_establishes ns :
  establishes (ensure_namespace ns) (λ f, f = HasNamespace ns) nothing.
Proof.
  apply establishes_or. intros w b w' (Hf & Hb & _)%namespace_exists_ok.
  split; [by apply secured_same|]. destruct b; intros u w2 Hw2.
  - injection Hw2 as _ <-. split; [|done]. intros f ->. apply (secured_same w); [done|]. by apply Hb.
  - by apply change_establishes in Hw2 as [? ?].
Qed.

Lemma ensure_bridge_establishes ns b :
  establishes (ensure_bridge ns b) (λ f, f = HasLink ns b) nothing.
Proof.
  apply establishes_or. intros w e w' [Hf Hb]%link_exists_ok.
  split; [by apply secured_same|]. destruct e; intros u w2 Hw2.
  - injection Hw2 as _ <-. split; [|done]. intros f -> _. apply Hf. tauto.
  - by apply change_establishes in Hw2 as [? ?].
Qed.

Lemma ensure_veth_establishes ns_a if_a ns_b if_b :
  establishes (ensure_veth_pair ns_a if_a ns_b if_b)
    (λ f, f = HasLink ns_a if_a ∨ f = HasLink ns_b if_b) nothing.
Proof.
  apply establishes_or. intros w a w1 [Hf Ha]%link_exists_ok. split; [by apply secured_same|].
  assert (∀ u w0 w2, change (VethAdd ns_a if_a ns_b if_b) w0 = (Ok u, w2) →
    (∀ f, f = HasLink ns_a if_a ∨ f = HasLink ns_b if_b → secured w2 f) ∧
    (∀ f, secured w0 f → ¬ nothing f → secured w2 f)) as Hadd.
  { intros u w0 w2 Hw2. by apply change_establishes in Hw2. }
  destruct a; [|intros u; apply Hadd]. intros u w3. unfold mbind, pym_mbind.
  destruct (link_exists ns_b if_b w1) as [[b|e] w2] eqn:Hb; [|done].
  apply link_exists_ok in Hb as [Hf2 Hb]. pose proof (secured_same _ _ Hf2) as Hs. destruct b.
  - intros [= _ <-]. split; [|auto]. intros f [->| ->] _; apply Hf2; [apply Hf|]; tauto.
  - intros [HA HC]%Hadd. split; [done|]. auto.
Qed.

(** Time passing leaves the network alone; others may add to it meanwhile. *)
Class NetStable `{Clock W} := {
  monotonic_keeps : establishes clock_monotonic nothing nothing;
  sleep_keeps d : establishes (clock_sleep d) nothing nothing;
}.

(** ** Removing facts *)

(** A normal return of [m] means that no fact of [D] holds, and that [m] added
    none. *)
Definition removes {V} (m : pym pyexn W V) (D : facts) : Prop :=
  ∀ w v w', m w = (Ok v, w') → (∀ f, D f → ¬ holds w' f) ∧ (∀ f, holds w' f → holds w f).

Lemma removes_mret {V} (v : V) : removes (mret v) nothing.
Proof. intros w v' w' [= <- <-]. naive_solver. Qed.

Lemma removes_bind {V U} (m : pym pyexn W V) (k : V → pym pyexn W U) (D1 D2 : facts) :
  removes m D1 → (∀ v, removes (k v) D2) → removes (m ≫= k) (λ f, D1 f ∨ D2 f).
Proof.
  intros Hm Hk w u w'. unfold mbind, pym_mbind. destruct (m w) as [[v|e] w1] eqn:Hw; [|done].
  intros Hu. destruct (Hm _ _ _ Hw), (Hk v _ _ _ Hu). naive_solver.
Qed.

Lemma removes_iter {X} (body : X → pym pyexn W unit) (D : X → facts) l :
  (∀ x, removes (body x) (D x)) → removes (pym_iter body l) (λ f, ∃ x, x ∈ l ∧ D x f).
Proof.
  intros Hb. induction l as [|x l IH].
  - intros w v w' [= <- <-]. split; [|done]. by intros f (x & []%elem_of_nil & _).
  - intros w v w' Hw. destruct (removes_bind _ _ _ _ (Hb x) (λ _, IH) w v w' Hw) as [HD HS].
    split; [|done]. intros f (y & [->|Hy]%elem_of_cons & Hf); apply HD; [by left|right; by exists y].
Qed.

Lemma change_removes c :
  deletes c = true → removes (change c) (λ f, ∃ ns, c = NetnsDel ns ∧ f = HasNamespace ns).
Proof.
  intros Hc w v w'. unfold change, mbind, pym_mbind.
  destruct (run_ip _ _ _ w) as [[r|e] w1] eqn:Hr; [|done]. intros [= _ <-].
  apply run_ip_ok in Hr as [Hr Hrc%list_elem_of_singleton]. rewrite Hrc in Hr.
  destruct (ip_removed c w _ _ _ Hc Hr) as [Hgone Hk]. split; [|done].
  intros f (ns & Hns & ->). by apply Hgone.
Qed.

Lemma delete_namespace_removes ns :
  removes (delete_namespace ns) (λ f, plain ns = true ∧ f = HasNamespace ns).
Proof.
  intros w v w'. unfold delete_namespace. unfold mbind, pym_mbind.
  destruct (namespace_exists ns w) as [[b|e] w1] eqn:Hb; [|done].
  apply namespace_exists_ok in Hb as (Hf & _ & Hb). destruct b.
  - intros Hw'. destruct (change_removes (NetnsDel ns) eq_refl _ _ _ Hw') as [HD HS].
    split; [|naive_solver]. intros f [_ ->]. apply HD. by exists ns.
  - intros [= _ <-]. split; [|naive_solver]. intros f [Hns ->] Hh%Hf. by apply Hb.
Qed.

(** A namespace whose name is not plain is never found, so it is never
    deleted. *)
Lemma delete_namespace_keeps ns w v w' :
  plain ns = false → delete_namespace ns w = (Ok v, w') → ∀ f, holds w' f ↔ holds w f.
Proof.
  intros Hns. unfold delete_namespace, mbind, pym_mbind.
  destruct (namespace_exists ns w) as [[[]|e] w1] eqn:Hb; [| |done].
  - apply namespace_exists_ok in Hb as (_ & [_ Hp]%(λ H, H eq_refl) & _). by rewrite Hns in Hp.
  - intros [= _ <-]. by apply namespace_exists_ok in Hb as (Hf & _).
Qed.

Lemma delete_link_removes ns i : removes (delete_link ns i) nothing.
Proof.
  intros w v w'. unfold delete_link, mbind, pym_mbind.
  destruct (link_exists ns i w) as [[b|e] w1] eqn:Hb; [|done].
  apply link_exists_ok in Hb as [Hf _]. intros Hw'. split; [by intros f []|]. destruct b.
  - destruct (change_removes (LinkDel ns i) eq_refl _ _ _ Hw') as [_ HS]. naive_solver.
  - injection Hw' as _ <-. naive_solver.
Qed.
End laws.

Lemma establishes_on_snd {S W} `{IpLaws W} {V} (m : pym pyexn W V) A C :
  establishes m A C → establishes (on_snd m : pym pyexn (S * W) V) A C.
Proof.
  intros Hm [s w] v [s' w']. unfold on_snd. destruct (m w) as [r w1] eqn:Hw.
  intros [= -> -> ->]. exact (Hm _ _ _ Hw).
Qed.

Lemma removes_on_snd {S W} `{IpLaws W} {V} (m : pym pyexn W V) D :
  removes m D → removes (on_snd m : pym pyexn (S * W) V) D.
Proof.
  intros Hm [s w] v [s' w']. unfold on_snd. destruct (m w) as [r w1] eqn:Hw.
  intros [= -> -> ->]. exact (Hm _ _ _ Hw).
Qed.

#[export] Instance pair_net_stable {S W} `{NetStable W} : NetStable (W := S * W).
Proof.
  constructor; intros; apply establishes_on_snd; [apply monotonic_keeps|apply sleep_keeps].
Qed.
