(* ===== verification/SimWorld.v ===== *)
(** * A small simulated host

    A concrete world that implements the interfaces of [Clock], [Supervisor]
    and [Netns]: it shows that the laws can hold and lets the theorems be
    applied to runs that evaluate.  One child process answers on its socket
    from a given time on; spawning it adds interfaces to the network, which is
    a list of facts that [ip] commands change. *)

From S2P Require Import Prelude PyStr Errors Types State DpdkModels Framing DpdkClient Clock.
From S2P Require Import IpAddress Supervisor SupervisorProps SupervisorPayloads Netns.
#[local] Open Scope string_scope.
#[local] Open Scope Z_scope.
#[local] Open Scope list_scope.

Record sim : Type := mkSim {
  sim_now : Z;
  sim_running : bool;
  sim_ready_at : Z;
  sim_spawnable : bool;
  sim_net : list net_fact;
  sim_taps : list (string * bool);
}.

(** The interfaces the child creates: in a namespace, the first or the second. *)
Definition sim_tap_name (second : bool) : string := if second then "dtap1" else "dtap0".
Definition sim_tap_facts (s : sim) : list net_fact :=
  (λ '(ns, second), HasLink ns (sim_tap_name second)) <$> sim_taps s.

Definition sim_set_running (b : bool) (s : sim) : sim :=
  mkSim (sim_now s) b (sim_ready_at s) (sim_spawnable s) (sim_net s) (sim_taps s).
Definition sim_set_now (t : Z) (s : sim) : sim :=
  mkSim t (sim_running s) (sim_ready_at s) (sim_spawnable s) (sim_net s) (sim_taps s).
Definition sim_set_net (net : list net_fact) (s : sim) : sim :=
  mkSim (sim_now s) (sim_running s) (sim_ready_at s) (sim_spawnable s) net (sim_taps s).

#[export] Instance sim_clock : Clock sim := {|
  clock_monotonic := λ s, (Ok (sim_now s), s);
  clock_sleep d := λ s, (Ok (), sim_set_now (sim_now s + Z.max d 0) s);
|}.

#[export] Program Instance sim_clock_laws : ClockLaws sim := {| now := sim_now |}.
Next Obligation. intros w. exists (sim_now w), w. split; [done|lia]. Qed.
Next Obligation. intros d w Hd. eexists. split; [done|]. simpl. lia. Qed.

Definition sim_child : handle := mkHandle 1 4242.

#[export] Instance sim_processes : Processes sim := {|
  proc_spawn _ := λ s,
    if sim_spawnable s then
      (Ok sim_child, sim_set_running true (sim_set_net (sim_tap_facts s ++ sim_net s) s))
    else (Err (OSErr FileNotFoundError), s);
  proc_poll _ := λ s, (Ok (if sim_running s then None else Some (-15)), s);
  proc_terminate _ := λ s, (Ok (), sim_set_running false s);
  proc_kill _ := λ s, (Ok (), sim_set_running false s);
  proc_wait _ _ := λ s, if sim_running s then (Err TimeoutExpired, s) else (Ok (-15), s);
  stderr_closed _ := mret false;
  stderr_read _ := mret "";
  stderr_close _ := mret ();
|}.

#[export] Program Instance sim_process_laws : ProcessLaws sim :=
  {| exited _ s := sim_running s = false |}.
Next Obligation. intros h w c w' [= Hc <-]. by destruct (sim_running w). Qed.
Next Obligation.
  intros h t w c w'. unfold proc_wait. simpl. destruct (sim_running w) eqn:Hw; [done|].
  by intros [= <- <-].
Qed.
Next Obligation. by intros h w r w' [= <- <-]. Qed.
Next Obligation. by intros h w r w' [= <- <-]. Qed.
Next Obligation. by intros h w r w' [= <- <-]. Qed.

(** A reply once the child is up and ready. *)
Definition sim_call {A} (reply : A) : pym pyexn sim (CommandResult A) := λ s,
  if sim_running s && (sim_ready_at s <=? sim_now s) then (Ok (success "req-1" reply), s)
  else (Err (transport_error "datapath IPC socket was not found" []), s).

Definition sim_health : HealthStateModel := mkHealth DS_running "forwarding" 3 true false.
Definition sim_version : VersionPayload := mkVersion "pktlab-dpdkd" "0.1.0" "DPDK 24.11".
Definition sim_stats : DatapathStatsModel := mkStats 10 9 1 0 1 2 2 0 [].

#[export] Instance sim_ipc : Ipc sim := {|
  client_factory path := if str_empty path then Err (ValueError None) else Ok path;
  ipc_ping _ := sim_call (mkAck "pong");
  ipc_get_version _ := sim_call sim_version;
  ipc_get_health _ := sim_call (mkHealthPayload sim_health);
  ipc_get_ports _ := sim_call (mkPortsPayload [mkPortInfo "dtap0" 0 ingress port_up]);
  ipc_get_stats _ := sim_call (mkStatsPayload sim_stats);
  ipc_reset_stats _ := sim_call (mkAck "stats reset");
  ipc_pause_datapath _ := sim_call (mkAck "paused");
  ipc_resume_datapath _ := sim_call (mkAck "resumed");
|}.

Lemma sim_call_ok {A} (reply : A) : ipc_call_ok (sim_call reply).
Proof.
  intros s _. unfold sim_call. destruct (_ && _); [apply success_wf|done].
Qed.

#[export] Instance sim_ipc_laws : IpcLaws sim.
Proof.
  constructor; intros; try apply sim_call_ok. simpl. by destruct path.
Qed.

Lemma sim_call_pays {A} (φ : A → bool) (reply : A) : φ reply = true → pays φ (sim_call reply).
Proof. intros Hr s r s'. unfold sim_call. destruct (_ && _); intros [= <- <-] p. by intros [= <-]. Qed.

#[export] Instance sim_ipc_payloads : IpcPayloads sim.
Proof. constructor; intros path; by apply sim_call_pays. Qed.

#[export] Instance sim_pids : PidLaws sim.
Proof. constructor. intros argv w h w'. cbn. by destruct (sim_spawnable w); intros [= <- <-]. Qed.

Lemma sim_call_ages {A} (reply : A) : ages (sim_call reply).
Proof. intros w r w'. unfold sim_call. destruct (_ && _); intros [= <- <-]; simpl; lia. Qed.

#[export] Instance sim_ages : WorldAges sim.
Proof.
  constructor; intros; try apply sim_call_ages; intros w r w' [= <- <-]; simpl; lia.
Qed.

Definition sim_config : SupervisorConfig :=
  mkSupervisorConfig "pktlab-dpdkd" "/run/pktlab/dpdkd.sock" [] [] 5000 50 5000.

(** A host whose daemon needs 200 ticks to come up. *)
Definition sim_start : sim := mkSim 0 false 200 true [] [].

(** ** The network *)

#[export] Instance net_fact_eq_dec : EqDecision net_fact.
Proof. solve_decision. Defined.

Inductive sim_command : Type :=
| SimList
| SimShow (ns i : string)
| SimChange (c : ip_change).

(** The command an argument vector is. *)
Definition sim_decode (argv : list string) : option sim_command :=
  match argv with
  | [_; _; _] => Some SimList
  | [_; _; verb; ns] =>
      Some (SimChange (if decide (verb = "add") then NetnsAdd ns else NetnsDel ns))
  | [_; _; ns; _; verb; _; i] =>
      Some (if decide (verb = "del") then SimChange (LinkDel ns i) else SimShow ns i)
  | [_; _; ns; noun; _; x; y; z] =>
      Some (SimChange (if decide (noun = "address") then AddressReplace ns z x
                       else if decide (noun = "route") then RouteReplace ns x z
                       else SetUp ns y))
  | [_; _; ns; _; verb; _; i; _; b] =>
      Some (SimChange (if decide (verb = "add") then BridgeAdd ns i else SetMaster ns i b))
  | [_; _; _; _; if_a; _; ns_a; _; _; _; _; if_b; _; ns_b] =>
      Some (SimChange (VethAdd ns_a if_a ns_b if_b))
  | _ => None
  end.

Definition sim_achieved (c : ip_change) : list net_fact :=
  match c with
  | NetnsAdd ns => [HasNamespace ns]
  | VethAdd ns_a if_a ns_b if_b => [HasLink ns_a if_a; HasLink ns_b if_b]
  | BridgeAdd ns b => [HasLink ns b]
  | AddressReplace ns i cidr => [HasAddress ns i cidr]
  | RouteReplace ns dst via => [HasRoute ns dst via]
  | SetMaster ns i b => [HasMaster ns i b]
  | SetUp ns i => [IsUp ns i]
  | NetnsDel _ | LinkDel _ _ => []
  end.

Definition sim_clobbered (c : ip_change) (f : net_fact) : bool :=
  match c, f with
  | RouteReplace ns dst _, HasRoute ns' dst' _ =>
      bool_decide (ns' = ns) && bool_decide (ip4_network dst' = ip4_network dst)
  | SetMaster ns i _, HasMaster ns' i' _ => bool_decide (ns' = ns) && bool_decide (i' = i)
  | _, _ => false
  end.

(** [None] when the command fails: a namespace is missing. *)
Definition sim_step (c : ip_change) (net : list net_fact) : option (list net_fact) :=
  match c with
  | NetnsDel ns => Some (filter (λ f, fact_namespace f ≠ ns) net)
  | LinkDel ns i => Some (filter (λ f, f ≠ HasLink ns i) net)
  | _ =>
      let net' := sim_achieved c ++ filter (λ f, sim_clobbered c f = false) net in
      if decide (Forall (λ f, HasNamespace (fact_namespace f) ∈ net') (sim_achieved c))
      then Some net' else None
  end.

Definition sim_names (net : list net_fact) : list string :=
  omap (λ f, match f with HasNamespace ns => Some ns | _ => None end) net.

(** Every other namespace has been assigned an id. *)
Definition sim_entries (net : list net_fact) : list (string * option N) :=
  imap (λ i ns, (ns, if Nat.even i then Some (N.of_nat i) else None)) (sim_names net).

Definition sim_holds (s : sim) (f : net_fact) : Prop :=
  f ∈ sim_net s ∧ HasNamespace (fact_namespace f) ∈ sim_net s.

Definition sim_run (argv : list string) : pym pyexn sim (Z * string * string) := λ s,
  match sim_decode argv with
  | Some SimList => (Ok (0, netns_listing (sim_entries (sim_net s)), ""), s)
  | Some (SimShow ns i) =>
      if decide (HasLink ns i ∈ sim_net s ∧ HasNamespace ns ∈ sim_net s) then (Ok (0, i, ""), s)
      else (Ok (1, "", "does not exist"), s)
  | Some (SimChange c) =>
      match sim_step c (sim_net s) with
      | Some net => (Ok (0, "", ""), sim_set_net net s)
      | None => (Ok (2, "", "cannot find namespace"), s)
      end
  | None => (Ok (255, "", "usage"), s)
  end.

#[export] Instance sim_host : Host sim := {| subprocess_run := sim_run |}.

Lemma sim_decode_change c :
  sim_decode (ip_argv (change_namespace c) (change_arguments c)) = Some (SimChange c).
Proof. by destruct c. Qed.

Lemma sim_run_change c s out err s' :
  sim_run (ip_argv (change_namespace c) (change_arguments c)) s = (Ok (0, out, err), s') →
  ∃ net, sim_step c (sim_net s) = Some net ∧ s' = sim_set_net net s.
Proof.
  unfold sim_run. rewrite sim_decode_change. destruct (sim_step _ _) as [net|]; [|done].
  intros [= _ _ <-]. by exists net.
Qed.

Lemma sim_achieved_iff c f : f ∈ sim_achieved c ↔ achieves c f.
Proof. destruct c; simpl; rewrite ?elem_of_cons, ?elem_of_nil; naive_solver. Qed.

Lemma sim_clobbered_iff c f : sim_clobbered c f = true ↔ clobbers c f.
Proof.
  destruct c, f; simpl; try (split; [done|]; try done; by intros (? & ? & ? & ?)).
  - rewrite andb_true_iff, !bool_decide_eq_true. split; [intros [-> ?]; by eexists _, _|].
    by intros (? & ? & [= -> -> ->] & ?).
  - split; [done|]. by intros (? & ?).
  - split; [done|]. by intros (? & ?).
  - split; [done|]. by intros (? & ?).
  - split; [done|]. by intros (? & ?).
  - rewrite andb_true_iff, !bool_decide_eq_true. split; [intros [-> ->]; by eexists|].
    by intros (? & [= -> -> ->]).
  - split; [done|]. by intros (? & ?).
Qed.

Lemma sim_step_adds c net net' :
  deletes c = false → sim_step c net = Some net' →
  net' = sim_achieved c ++ filter (λ f, sim_clobbered c f = false) net ∧
  ∀ f, achieves c f → HasNamespace (fact_namespace f) ∈ net'.
Proof.
  intros Hd Hs.
  assert (∀ n, (if decide (Forall (λ f, HasNamespace (fact_namespace f) ∈ n) (sim_achieved c))
    then Some n else None) = Some net' →
    net' = n ∧ ∀ f, achieves c f → HasNamespace (fact_namespace f) ∈ net') as Hgo.
  { intros n. case_decide as Hall; [|done]. intros [= <-]. split; [done|].
    intros f Hf%sim_achieved_iff. by eapply Forall_forall in Hall. }
  destruct c; try done; by apply Hgo.
Qed.

Lemma sim_names_in net ns : ns ∈ sim_names net ↔ HasNamespace ns ∈ net.
Proof.
  unfold sim_names. rewrite list_elem_of_omap. split; [|by eexists].
  by intros ([] & Hf & [= ->]).
Qed.

Lemma sim_entries_names net : fst <$> sim_entries net = sim_names net.
Proof.
  unfold sim_entries. rewrite fmap_imap. generalize (sim_names net). intros l.
  apply list_eq. intros i. rewrite list_lookup_imap. by destruct (l !! i).
Qed.

#[export] Program Instance sim_ip_laws : IpLaws sim := {| holds := sim_holds |}.
Next Obligation. by intros w f [_ Hf]. Qed.
Next Obligation.
  intros c w out err w' Hd (net & Hs & ->)%sim_run_change.
  destruct (sim_step_adds c _ _ Hd Hs) as [-> Hns]. unfold sim_holds. cbn [sim_net sim_set_net].
  split.
  - intros f Hf. split; [|by apply Hns]. apply elem_of_app. left. by apply sim_achieved_iff.
  - intros f [Hf Hfn] Hc. rewrite <- sim_clobbered_iff, not_true_iff_false in Hc.
    split; apply elem_of_app; right; apply list_elem_of_filter; (split; [|done]); [done|].
    by destruct c.
Qed.
Next Obligation.
  intros c w out err w' Hd (net & Hs & ->)%sim_run_change.
  unfold sim_holds. cbn [sim_net sim_set_net].
  destruct c as [|ns| | | | | | |]; try done; injection Hs as <-; cbn [fact_namespace]; split;
    try (intros f; rewrite !list_elem_of_filter; tauto); [|done].
  intros ns' [= <-]. rewrite !list_elem_of_filter. tauto.
Qed.
Next Obligation.
  intros w out err w'. unfold list_argv, subprocess_run, sim_host, sim_run. cbn [ip_argv sim_decode app].
  intros [= <- _ <-]. split; [done|]. eexists. split; [done|]. intros ns.
  rewrite sim_entries_names, sim_names_in. unfold sim_holds. cbn [fact_namespace]. tauto.
Qed.
Next Obligation.
  intros ns i w rc out err w'. unfold show_argv, subprocess_run, sim_host, sim_run.
  cbn [ip_argv sim_decode app]. rewrite decide_False by done. unfold sim_holds. cbn [fact_namespace].
  case_decide as Hl; intros [= <- _ _ <-]; split_and!; naive_solver.
Qed.

#[export] Instance sim_net_stable : NetStable (W := sim).
Proof. split; [|intros d]; intros w v w' [= _ <-]; (split; [by intros f []|auto]). Qed.

Definition sim_plain (s : sim) : bool := forallb plain (sim_names (sim_net s)).

Lemma sim_plain_host s : sim_plain s = true → plain_host s.
Proof. unfold sim_plain. rewrite forallb_forall. intros Hp ns [Hns _]. by apply Hp, list_elem_of_In, sim_names_in. Qed.
