(* ===== verification/SupervisorClaims.v ===== *)
(** * Claims about the supervisor

    The theorems over any world that obeys the laws of [SupervisorProps],
    with witnesses on the simulated host. *)

From S2P Require Import Prelude PyStr Errors Types State DpdkModels Framing DpdkClient Clock.
From S2P Require Import Supervisor SupervisorProps SimWorld.
#[local] Open Scope string_scope.

(** ** Runs of the supervisor *)

Inductive supervisor_op : Type :=
| OpStart | OpStatus | OpStop | OpPorts | OpStats | OpReset | OpPause | OpResume.

Section runs.
Context {W : Type} `{Clock W} `{Processes W} `{Ipc W} (config : SupervisorConfig).

Definition discard {A} (m : pym pyexn (supervisor_state * W) A) : pym pyexn (supervisor_state * W) unit :=
  m;; mret ().

Definition run_supervisor_op (o : supervisor_op) : pym pyexn (supervisor_state * W) unit :=
  match o with
  | OpStart => discard (supervisor_start config)
  | OpStatus => discard (supervisor_status config)
  | OpStop => supervisor_stop config
  | OpPorts => discard (supervisor_get_ports config)
  | OpStats => discard (supervisor_get_stats config)
  | OpReset => discard (supervisor_reset_stats config)
  | OpPause => discard (supervisor_pause_datapath config)
  | OpResume => discard (supervisor_resume_datapath config)
  end.

(** The states a supervisor can be in: after any calls, whatever they returned
    or raised, and whatever the world did in between. *)
Inductive supervisor_reachable : supervisor_state * W → Prop :=
| reach_new w : supervisor_reachable (new_supervisor, w)
| reach_call o x r x' :
    supervisor_reachable x → run_supervisor_op o x = (r, x') → supervisor_reachable x'
| reach_world s w w' : supervisor_reachable (s, w) → supervisor_reachable (s, w').
End runs.

(** ** Lemmas *)

Section lemmas.
Context {W : Type} `{Clock W} `{Processes W} `{Ipc W} `{!IpcLaws W} (config : SupervisorConfig).
Context (Hpath : socket_path config ≠ "").

Lemma discard_frame {A} (m : pym pyexn (supervisor_state * W) A) Q (P R : supervisor_state * W → Prop) :
  hoare P m Q (λ _, R) → (∀ a x, Q a x → R x) → hoare P (discard m) (λ _, R) (λ _, R).
Proof.
  intros Hm HQ. unfold discard. eapply hoare_bind; [exact Hm|]. intros a. apply hoare_mret. apply HQ.
Qed.

Lemma op_frame o :
  hoare (on_s (pc (paired config))) (run_supervisor_op (W:=W) config o)
    (λ _, on_s (pc (paired config))) (λ _, on_s (pc (paired config))).
Proof.
  destruct o; simpl.
  3: { eapply hoare_conseq; [apply stop_frame|done| |]; intros ? x Hx; by apply both_none_paired. }
  1: eapply discard_frame; [by apply start_frame|by intros st x (_ & _ & Hx & _)].
  1: eapply discard_frame; [by apply status_frame|by intros st x (_ & Hx & _)].
  all: eapply discard_frame; [by apply data_command_frame|done].
Qed.

Lemma reachable_paired x : supervisor_reachable config x → on_s (W:=W) (pc (paired config)) x.
Proof.
  induction 1 as [w|o x r x' _ IH Hrun|s w w' _ IH]; [by left| |done].
  pose proof (op_frame o x IH) as Ho. rewrite Hrun in Ho. by destruct r.
Qed.
End lemmas.

(** ** Claims *)

(** C27 In every reachable state the supervisor has a client exactly when it has a
    process, and the client talks to the configured socket; so the error
    "datapath client is not initialized" never occurs. *)
Theorem client_follows_process {W} `{Clock W} `{Processes W} `{Ipc W} `{!IpcLaws W} config
    (x : supervisor_state * W) :
  socket_path config ≠ "" → supervisor_reachable config x →
  (is_Some (_process (fst x)) ↔ is_Some (_client (fst x))) ∧
  ∀ c, _client (fst x) = Some c → c = socket_path config.
Proof.
  intros Hp Hx%reachable_paired; [|done]. destruct Hx as [[-> ->]|(h & -> & ->)].
  - split; [done|]. by intros c [=].
  - split; [by split; eexists|]. by intros c [= <-].
Qed.

(** C39 A status is consistent and current: it says running exactly when the
    supervisor had a child that a poll found alive, and the supervisor then
    still holds it, and otherwise holds none; a pid is there exactly when
    running, an exit code only when not; and a reachable datapath is running
    with a version, a health report and no error. *)
Theorem status_consistent {W} `{Clock W} `{Processes W} `{Ipc W} `{!IpcLaws W} config
    (x x' : supervisor_state * W) st :
  socket_path config ≠ "" → supervisor_reachable config x →
  supervisor_status config x = (Ok st, x') →
  status_wf config st ∧ (status_running st = true ↔ is_Some (_process (fst x'))) ∧
  (status_running st = true ↔ ∃ h w1, _process (fst x) = Some h ∧ proc_poll h (snd x) = (Ok None, w1)).
Proof.
  intros Hp Hx%reachable_paired Hrun; [|done].
  pose proof (status_frame config x Hx) as Hs. apply status_polls in Hrun as Hpoll.
  unfold supervisor_status in Hrun. rewrite Hrun in Hs. by destruct Hs as (Hwf & _ & ?).
Qed.

(** C28 Starting with no process spawns one child, with the configured command.
    Success returns a reachable status with the pid of that child, which the
    supervisor now holds.  After an exception the supervisor is without a
    process and without a client, and either the child could not be spawned,
    or the one that was has ended, unless ending it raised: asking after it,
    asking it to end, killing it, or waiting for it, after a kill if the wait
    timed out. *)
Theorem start_all_or_nothing {W} `{Clock W} `{Processes W} `{!ProcessLaws W} `{Ipc W} `{!IpcLaws W} config
    (x : supervisor_state * W) :
  socket_path config ≠ "" → _process (fst x) = None → _client (fst x) = None →
  match supervisor_start config x with
  | (Ok st, x') => status_wf config st ∧ reachable st = true ∧
      ∃ h w1, proc_spawn (launch_command config) (snd x) = (Ok h, w1) ∧
        _process (fst x') = Some h ∧ status_pid st = Some (popen_pid h)
  | (Err e, x') => _process (fst x') = None ∧ _client (fst x') = None ∧
      (proc_spawn (launch_command config) (snd x) = (Err e, snd x') ∨
       ∃ h w1, proc_spawn (launch_command config) (snd x) = (Ok h, w1) ∧
         (exited h (snd x') ∨ unended h e (snd x')))
  end.
Proof.
  destruct x as [s w]. intros Hpath Hp Hc.
  pose proof (start_fresh_frame config Hpath (s, w) (conj Hp Hc)) as Hs.
  pose proof (start_child config s w Hpath Hp) as Hchild.
  destruct (supervisor_start config (s, w)) as [[st|e] x'].
  - destruct Hs as (Hwf & Hr & _ & h & Hh & Hpid), Hchild as (h' & w1 & Hsp & Hh').
    rewrite Hh in Hh'. injection Hh' as <-. split_and!; try done. by exists h, w1.
  - by destruct Hs.
Qed.

(** C29 Stopping: the process and the client are forgotten on every path, and a
    normal return means that the child has ended and the history is cleared. *)
Theorem stop_ends_child {W} `{Clock W} `{Processes W} `{Ipc W} `{!ProcessLaws W} config h
    (x : supervisor_state * W) :
  _process (fst x) = Some h →
  match supervisor_stop config x with
  | (Ok _, x') => exited h (snd x') ∧ fst x' = new_supervisor
  | (Err _, x') => _process (fst x') = None ∧ _client (fst x') = None
  end.
Proof.
  intros Hp. pose proof (stop_frame config true x I) as Hf.
  pose proof (stop_ended config h true x Hp) as He. pose proof (stop_cleared config x I) as Hc.
  unfold supervisor_stop. destruct (_stop_locked config true x) as [[u|e] x']; [|done]. by split.
Qed.

(** The data commands: from a reachable state, the call is made on the
    configured socket when the status says the datapath is reachable, and a
    transport error is raised otherwise; the client is always there. *)
Theorem data_command_spec {W} `{Clock W} `{Processes W} `{Ipc W} `{!IpcLaws W} {A} config purpose
    (call : string → pym pyexn W (CommandResult A)) (x : supervisor_state * W) :
  socket_path config ≠ "" → supervisor_reachable config x →
  data_command config purpose call x =
    match supervisor_status config x with
    | (Ok st, x') =>
        if reachable st then world (call (socket_path config)) x'
        else (Err (transport_error ("datapath IPC is not reachable for " +:+ purpose)
                     [("socket_path", PyStr (socket_path config))]), x')
    | (Err e, x') => (Err e, x')
    end.
Proof.
  intros Hp Hx%reachable_paired; [|done]. pose proof (status_frame config x Hx) as Hs.
  unfold data_command, supervisor_status. unfold mbind at 1, pym_mbind at 1.
  destruct (_status_locked config x) as [[st|e] x']; [|done].
  destruct Hs as ((_ & _ & _ & _ & Hr) & Hpair & Hrun). destruct (reachable st); [|done].
  apply require_client_paired; [done|]. by apply Hrun, Hr.
Qed.

(** C40 Waiting for readiness ends and is patient: it returns what one turn
    returned, raises what one turn raised, or raises the timeout error after
    at least the whole startup timeout. *)
Theorem readiness_patient {W} `{ClockLaws W} `{Processes W} `{Ipc W} `{!WorldAges W} config
    (x x' : supervisor_state * W) r :
  (0 < poll_interval_seconds config)%Z → _wait_for_ready_locked config x = (r, x') →
  match r with
  | Ok st => ∃ x1, ready_turn config x1 = (Ok (Some st), x')
  | Err e => (∃ x1, ready_turn config x1 = (Err e, x')) ∨
      (now x + startup_timeout_seconds config <= now x')%Z
  end.
Proof.
  intros Hi Hrun. unfold _wait_for_ready_locked in Hrun.
  pose proof (poll_until_outcomes (startup_timeout_seconds config) (poll_interval_seconds config)
    (ready_turn config) x Hi (ages_ready_turn config)) as Ho.
  unfold mbind, pym_mbind, process_error, raise, mret, pym_mret in Hrun.
  destruct (poll_until _ _ _ x) as [[[st|]|e] x1]; simplify_eq/=; [done|by right|by left].
Qed.

(** ** Witnesses *)

Definition sim_up : DatapathProcessStatus * (supervisor_state * sim) :=
  match supervisor_start sim_config (new_supervisor, sim_start) with
  | (Ok st, x) => (st, x)
  | (Err _, x) => (down_status sim_config None new_supervisor, x)
  end.

Example sim_start_reachable :
  reachable (fst sim_up) = true ∧ status_pid (fst sim_up) = Some 4242%Z ∧
  sim_now (snd (snd sim_up)) = 200%Z.
Proof. vm_compute. auto. Qed.

Lemma sim_up_reachable : supervisor_reachable sim_config (snd sim_up).
Proof.
  eapply (reach_call _ OpStart (new_supervisor, sim_start) (Ok ())); [constructor|].
  vm_compute. reflexivity.
Qed.

Lemma client_follows_process_witness :
  is_Some (_process (fst (snd sim_up))) ↔ is_Some (_client (fst (snd sim_up))).
Proof. apply (client_follows_process sim_config); [discriminate|exact sim_up_reachable]. Defined.

Lemma status_consistent_witness :
  ∃ st x', supervisor_status sim_config (snd sim_up) = (Ok st, x') ∧ status_wf sim_config st.
Proof.
  destruct (supervisor_status sim_config (snd sim_up)) as [[st|e] x'] eqn:Hs.
  - exists st, x'. split; [reflexivity|].
    apply (status_consistent sim_config _ x' st ltac:(discriminate) sim_up_reachable Hs).
  - exfalso. vm_compute in Hs. discriminate Hs.
Defined.

(** A daemon that takes longer than the start allows is ended again. *)
Definition late_start : sim := mkSim 0 false 6000 true [] [].

Lemma start_all_or_nothing_witness :
  ∃ e x', supervisor_start sim_config (new_supervisor, late_start) = (Err e, x') ∧
    (exited sim_child (snd x') ∨ unended sim_child e (snd x')).
Proof.
  destruct (supervisor_start sim_config (new_supervisor, late_start)) as [[st|e] x'] eqn:Hs.
  - exfalso. vm_compute in Hs. discriminate Hs.
  - exists e, x'. split; [reflexivity|].
    pose proof (start_all_or_nothing sim_config (new_supervisor, late_start) ltac:(discriminate) eq_refl eq_refl)
      as Hstart.
    rewrite Hs in Hstart. destruct Hstart as (_ & _ & [Hno|(h & w1 & Hspawn & Hend)]);
      [discriminate Hno|]. by injection Hspawn as <- _.
Defined.

Lemma stop_ends_child_witness :
  match supervisor_stop sim_config (snd sim_up) with
  | (Ok _, x') => exited sim_child (snd x') ∧ fst x' = new_supervisor
  | (Err _, x') => _process (fst x') = None ∧ _client (fst x') = None
  end.
Proof. apply (stop_ends_child sim_config sim_child). vm_compute. reflexivity. Defined.

Lemma data_command_spec_witness :
  supervisor_get_stats sim_config (snd sim_up) =
    match supervisor_status sim_config (snd sim_up) with
    | (Ok st, x') =>
        if reachable st then world (ipc_get_stats (socket_path sim_config)) x'
        else (Err (transport_error "datapath IPC is not reachable for stats"
                     [("socket_path", PyStr (socket_path sim_config))]), x')
    | (Err e, x') => (Err e, x')
    end.
Proof.
  exact (data_command_spec sim_config "stats" ipc_get_stats (snd sim_up) ltac:(discriminate)
           sim_up_reachable).
Defined.

Lemma readiness_patient_witness :
  ∃ e x', _wait_for_ready_locked sim_config (new_supervisor, sim_start) = (Err e, x') ∧
    ∃ x1, ready_turn sim_config x1 = (Err e, x').
Proof.
  destruct (_wait_for_ready_locked sim_config (new_supervisor, sim_start)) as [[st|e] x'] eqn:Hw.
  - exfalso. vm_compute in Hw. discriminate Hw.
  - exists e, x'. split; [reflexivity|].
    destruct (readiness_patient sim_config _ _ _ eq_refl Hw) as [Hx|Hlate]; [exact Hx|].
    exfalso. vm_compute in Hw. injection Hw as _ <-. vm_compute in Hlate. destruct (Hlate eq_refl).
Defined.
