(* ===== verification/Topology.v ===== *)
(** * Topology lifecycle helpers

    [topology/namespaces.py], [topology/links.py], [topology/taps.py] and
    [topology/routes.py]: the phases of applying and destroying a validated
    topology, each a sequence of [ip] commands, and what each establishes or
    removes on the host. *)

From S2P Require Import Prelude PyStr IpAddress Errors Types Issues.
From S2P Require Import TopologyValidation Clock Netns.
#[local] Open Scope string_scope.
#[local] Open Scope list_scope.

Definition INGRESS_BRIDGE_NAME : string := "br-in".
Definition EGRESS_BRIDGE_NAME : string := "br-out".

(** [_split_ref] *)
Definition _split_ref (value : string) : string * string :=
  let '(namespace, _, interface) := py_partition ":" value in (namespace, interface).

(** [next(port.name for port in dpdk_ports if port.role == role)] as a loop. *)
Fixpoint find_role (role : PortRole) (ports : list DpdkPortModel) : option string :=
  match ports with
  | [] => None
  | port :: ports' =>
      if decide (port_role port = role) then Some (port_name port) else find_role role ports'
  end.

Definition role_text (role : PortRole) : string :=
  match role with ingress => "ingress" | egress => "egress" end.

(** [_port_name_for_role] of [taps.py], and of [app.py]. *)
Definition _port_name_for_role (topology : ValidatedTopologyConfig) (role : PortRole)
    : res pyexn string :=
  match find_role role (config_dpdk_ports (vt_topology topology)) with
  | Some name => Ok name
  | None => Err (ValueError (Some ("expected a dpdk port with role " +:+ role_text role)))
  end.

Section topology.
Context {W : Type} `{Host W} `{Clock W} (topology : ValidatedTopologyConfig).

Definition dpdk_namespace : string := req_namespace (vt_requested_dpdk_config topology).

(** ** [namespaces.py] *)

Definition ensure_namespaces : pym pyexn W unit :=
  pym_iter (λ n, ensure_namespace (namespace_name n)) (config_namespaces (vt_topology topology)).

Definition destroy_namespaces : pym pyexn W unit :=
  pym_iter (λ n, delete_namespace (namespace_name n))
    (reverse (config_namespaces (vt_topology topology))).

(** ** [links.py] *)

(** [if ip is not None: netns.replace_address(...)] *)
Definition address_if (namespace interface : string) (ip : option string) : pym pyexn W unit :=
  match ip with
  | Some cidr => replace_address namespace interface cidr
  | None => mret ()
  end.

Definition ensure_link (link : LinkModel) : pym pyexn W unit :=
  let '(namespace_a, interface_a) := _split_ref (link_a link) in
  let '(namespace_b, interface_b) := _split_ref (link_b link) in
  ensure_veth_pair namespace_a interface_a namespace_b interface_b;;
  address_if namespace_a interface_a (link_ip_a link);;
  address_if namespace_b interface_b (link_ip_b link).

Definition ensure_links : pym pyexn W unit :=
  pym_iter ensure_link (config_links (vt_topology topology)).

Definition ensure_bridges : pym pyexn W unit :=
  ensure_bridge dpdk_namespace INGRESS_BRIDGE_NAME;;
  ensure_bridge dpdk_namespace EGRESS_BRIDGE_NAME.

Definition bring_up (link : LinkModel) : pym pyexn W unit :=
  let '(namespace_a, interface_a) := _split_ref (link_a link) in
  let '(namespace_b, interface_b) := _split_ref (link_b link) in
  set_link_up namespace_a interface_a;;
  set_link_up namespace_b interface_b.

Definition bring_link_endpoints_up : pym pyexn W unit :=
  pym_iter bring_up (config_links (vt_topology topology)).

Definition destroy_link (link : LinkModel) : pym pyexn W unit :=
  let '(namespace_a, interface_a) := _split_ref (link_a link) in
  delete_link namespace_a interface_a.

Definition destroy_links_and_bridges : pym pyexn W unit :=
  pym_iter (delete_link dpdk_namespace) [EGRESS_BRIDGE_NAME; INGRESS_BRIDGE_NAME];;
  pym_iter destroy_link (reverse (config_links (vt_topology topology))).

(** ** [taps.py] *)

Definition wait_for_link (timeout_seconds poll_interval_seconds : Z) (interface_name : string)
    : pym pyexn W unit :=
  wait_until (link_exists dpdk_namespace interface_name)
    (interface_name +:+ " in namespace " +:+ dpdk_namespace)
    timeout_seconds poll_interval_seconds.

Definition reconcile_taps (timeout_seconds poll_interval_seconds : Z) : pym pyexn W unit :=
  ingress_port_name ← pym_lift (_port_name_for_role topology ingress);
  egress_port_name ← pym_lift (_port_name_for_role topology egress);
  pym_iter (wait_for_link timeout_seconds poll_interval_seconds)
    [ingress_port_name; egress_port_name];;
  attach_to_bridge dpdk_namespace INGRESS_BRIDGE_KERNEL_INTERFACE INGRESS_BRIDGE_NAME;;
  attach_to_bridge dpdk_namespace ingress_port_name INGRESS_BRIDGE_NAME;;
  attach_to_bridge dpdk_namespace egress_port_name EGRESS_BRIDGE_NAME;;
  attach_to_bridge dpdk_namespace EGRESS_BRIDGE_KERNEL_INTERFACE EGRESS_BRIDGE_NAME;;
  pym_iter (set_link_up dpdk_namespace)
    [INGRESS_BRIDGE_KERNEL_INTERFACE; ingress_port_name; egress_port_name;
     EGRESS_BRIDGE_KERNEL_INTERFACE; INGRESS_BRIDGE_NAME; EGRESS_BRIDGE_NAME].

(** ** [routes.py] *)

Definition ensure_routes : pym pyexn W unit :=
  pym_iter (λ route, replace_route (route_namespace route) (route_dst route) (route_via route))
    (config_routes (vt_topology topology)).
End topology.
