(* ===== verification/Manager.v ===== *)
(** * The topology manager

    [topology/manager.py]: apply and destroy, serialised by one reentrant
    lock, so that a call is one computation over the manager's attribute
    [_current] and the world. *)

From S2P Require Import Prelude PyStr Errors Types Issues TopologyValidation Clock.
From S2P Require Import DpdkModels Supervisor Netns Topology.
#[local] Open Scope string_scope.
#[local] Open Scope list_scope.

Inductive TopologyOperation : Type := op_apply | op_destroy.

Record TopologyOperationResult : Type := mkOperationResult {
  tr_operation : TopologyOperation;
  tr_topology_name : option string;
  tr_config_path : option string;
  tr_applied : bool;
  tr_datapath_namespace : option string;
  tr_datapath_running : bool;
  tr_message : string;
  tr_requested_dpdk_config : option DpdkProcessConfigModel;
  tr_effective_dpdk_config : option EffectiveDpdkRuntimeModel;
}.

(** [_AppliedTopology] *)
Record AppliedTopology : Type := mkApplied {
  applied_config_path : string;
  applied_validated : ValidatedTopologyConfig;
}.

(** The arguments of [TopologyManager.__init__]: loading a YAML document is
    outside the model, validation is [TopologyValidation]'s by default, and
    the callbacks are the controller's. *)
Record ManagerConfig (W : Type) : Type := mkManagerConfig {
  load_topology : string → pym pyexn W TopologyConfigModel;
  validate_topology : TopologyConfigModel → res pyexn ValidatedTopologyConfig;
  start_datapath : option (ValidatedTopologyConfig → pym pyexn W DatapathProcessStatus);
  stop_datapath : option (pym pyexn W unit);
  tap_timeout_seconds : Z;
  tap_poll_interval_seconds : Z;
}.
Arguments load_topology {_} _ _.
Arguments validate_topology {_} _ _.
Arguments start_datapath {_} _.
Arguments stop_datapath {_} _.
Arguments tap_timeout_seconds {_} _.
Arguments tap_poll_interval_seconds {_} _.

(** [str(exc)] of an exception that is not a [PktlabError]: a text the
    interpreter or a library chose is a parameter. *)
Class ExnText := exn_text : pyexn → string.

Section manager.
Context {W : Type} `{Host W} `{Clock W} `{ExnText} (manager : ManagerConfig W).

Abbreviation M := (pym pyexn (option AppliedTopology * W)).

Definition has_applied_topology (current : option AppliedTopology) : bool :=
  match current with Some _ => true | None => false end.

Definition set_current (current : option AppliedTopology) : M unit :=
  modify (λ '(_, w), (current, w)).

Definition lab_of (validated : ValidatedTopologyConfig) : string :=
  lab_name (config_lab (vt_topology validated)).

(** [_result] *)
Definition _result (operation : TopologyOperation) (validated : ValidatedTopologyConfig)
    (config_path : string) (applied datapath_running : bool) (message : string)
    : TopologyOperationResult :=
  mkOperationResult operation (Some (lab_of validated)) (Some config_path) applied
    (Some (req_namespace (vt_requested_dpdk_config validated))) datapath_running message
    (Some (vt_requested_dpdk_config validated)) (Some (vt_effective_dpdk_config validated)).

(** [_start_datapath_locked] *)
Definition _start_datapath_locked (validated : ValidatedTopologyConfig)
    : pym pyexn W DatapathProcessStatus :=
  match start_datapath manager with
  | None =>
      raise (PktlabExn (new_PktlabError ErrorCode.STATE_CONFLICT
        "topology manager cannot start pktlab-dpdkd because no datapath start callback is configured" []))
  | Some start => start validated
  end.

(** [_stop_datapath_locked] *)
Definition _stop_datapath_locked : pym pyexn W unit :=
  match stop_datapath manager with Some stop => stop | None => mret () end.

(** [try: m] / [except PktlabError as exc: errors.append(exc)] *)
Definition collect_error (m : pym pyexn W unit) : pym pyexn W (list PktlabError) :=
  try_except (m;; mret [])
    (λ e, match e with PktlabExn exc => mret [exc] | _ => raise e end).

Definition destroy_error (validated : ValidatedTopologyConfig) (errors : list PktlabError)
    : PktlabError :=
  new_PktlabError ErrorCode.TOPOLOGY_DESTROY_ERROR "failed to destroy topology cleanly"
    [("topology_name", PyStr (lab_of validated));
     ("errors", PyList ((λ error, PyDict (to_dict error)) <$> errors))].

(** [_destroy_locked] *)
Definition _destroy_locked (validated : ValidatedTopologyConfig) : pym pyexn W unit :=
  e1 ← collect_error _stop_datapath_locked;
  e2 ← collect_error (destroy_links_and_bridges validated);
  e3 ← collect_error (destroy_namespaces validated);
  match e1 ++ e2 ++ e3 with
  | [] => mret ()
  | errors => raise (PktlabExn (destroy_error validated errors))
  end.

(** [_cleanup_failed_apply] *)
Definition _cleanup_failed_apply (validated : ValidatedTopologyConfig)
    : pym pyexn W (option PktlabError) :=
  try_except (_destroy_locked validated;; mret None)
    (λ e, match e with PktlabExn exc => mret (Some exc) | _ => raise e end).

(** [_merge_cleanup_error] *)
Definition _merge_cleanup_error (error cleanup_error : PktlabError) : PktlabError :=
  new_PktlabError (error_code error) (error_message error)
    (dict_set "cleanup_error" (PyDict (to_dict cleanup_error)) (error_context error)).

(** The phases of an apply, lines 88-100. *)
Definition build_topology (validated : ValidatedTopologyConfig)
    : pym pyexn W DatapathProcessStatus :=
  ensure_namespaces validated;;
  ensure_links validated;;
  ensure_bridges validated;;
  datapath_status ← _start_datapath_locked validated;
  reconcile_taps validated (tap_timeout_seconds manager) (tap_poll_interval_seconds manager);;
  bring_link_endpoints_up validated;;
  ensure_routes validated;;
  mret datapath_status.

(** The exception a failed apply ends with, lines 101-118. *)
Definition apply_error (config_path : string) (validated : ValidatedTopologyConfig)
    (exc : pyexn) (cleanup_error : option PktlabError) : pyexn :=
  match exc with
  | PktlabExn error =>
      match cleanup_error with
      | None => exc
      | Some cleanup_error => PktlabExn (_merge_cleanup_error error cleanup_error)
      end
  | _ =>
      PktlabExn (new_PktlabError ErrorCode.TOPOLOGY_APPLY_ERROR "failed to apply topology"
        ([("config_path", PyStr config_path); ("topology_name", PyStr (lab_of validated));
          ("detail", PyStr (exn_text exc))]
         ++ match cleanup_error with
            | None => []
            | Some cleanup_error => [("cleanup_error", PyDict (to_dict cleanup_error))]
            end))
  end.

Definition on_apply_failure (config_path : string) (validated : ValidatedTopologyConfig)
    (exc : pyexn) : pym pyexn W DatapathProcessStatus :=
  cleanup_error ← _cleanup_failed_apply validated;
  raise (apply_error config_path validated exc cleanup_error).

(** The topology in place is destroyed first, lines 83-86. *)
Definition take_down_current : M unit :=
  current ← gets fst;
  match current with
  | Some current =>
      on_snd (_destroy_locked (applied_validated current));;
      set_current None
  | None => mret ()
  end.

(** [apply] *)
Definition manager_apply (config_path : string) : M TopologyOperationResult :=
  loaded ← on_snd (load_topology manager config_path);
  validated ← pym_lift (validate_topology manager loaded);
  take_down_current;;
  datapath_status ←
    on_snd (try_except (build_topology validated) (on_apply_failure config_path validated));
  set_current (Some (mkApplied config_path validated));;
  mret (_result op_apply validated config_path true (status_running datapath_status)
          "topology applied").

(** [destroy] *)
Definition manager_destroy : M TopologyOperationResult :=
  current ← gets fst;
  match current with
  | None =>
      mret (mkOperationResult op_destroy None None false None false
              "no topology is currently applied" None None)
  | Some current =>
      on_snd (_destroy_locked (applied_validated current));;
      set_current None;;
      mret (_result op_destroy (applied_validated current) (applied_config_path current)
              false false "topology destroyed")
  end.
End manager.
