(* ===== verification/TopologyWiring.v ===== *)
(** * What the topology phases do to the host

    [wanted] is the network a topology asks for, stated on the configuration
    alone.  The lemmas show what each phase of [Topology] establishes or
    removes, under the laws of [ip]. *)

From S2P Require Import Prelude PyStr IpAddress Errors Types Issues.
From S2P Require Import TopologyValidation TopologySpec TopologyProps Clock Netns Topology.
#[local] Open Scope string_scope.
#[local] Open Scope list_scope.

(** ** The network a topology asks for *)

(** The bridge of the port with a role. *)
Definition bridge_of (role : PortRole) : string :=
  match role with ingress => INGRESS_BRIDGE_NAME | egress => EGRESS_BRIDGE_NAME end.

(** No later route of the namespace has the same destination. *)
Definition last_route (c : TopologyConfigModel) (r : RouteModel) : Prop :=
  ∃ before after, config_routes c = before ++ r :: after ∧
    ∀ r', r' ∈ after → route_namespace r' = route_namespace r →
      ip4_network (route_dst r') ≠ ip4_network (route_dst r).

Inductive wanted (c : TopologyConfigModel) : net_fact → Prop :=
| WantNamespace n :
    n ∈ config_namespaces c → wanted c (HasNamespace (namespace_name n))
| WantInterface e : e ∈ declared_interfaces c → wanted c (HasLink e.1 e.2)
| WantAddressA l e cidr :
    l ∈ config_links c → ref_of (link_a l) = Some e → link_ip_a l = Some cidr →
    wanted c (HasAddress e.1 e.2 cidr)
| WantAddressB l e cidr :
    l ∈ config_links c → ref_of (link_b l) = Some e → link_ip_b l = Some cidr →
    wanted c (HasAddress e.1 e.2 cidr)
| WantBridge role : wanted c (HasLink (dpdk_ns c) (bridge_of role))
| WantPortBridged p :
    p ∈ config_dpdk_ports c → wanted c (HasMaster (dpdk_ns c) (port_name p) (bridge_of (port_role p)))
| WantIngressBridged :
    wanted c (HasMaster (dpdk_ns c) INGRESS_BRIDGE_KERNEL_INTERFACE INGRESS_BRIDGE_NAME)
| WantEgressBridged :
    wanted c (HasMaster (dpdk_ns c) EGRESS_BRIDGE_KERNEL_INTERFACE EGRESS_BRIDGE_NAME)
| WantUp e : e ∈ declared_interfaces c → wanted c (IsUp e.1 e.2)
| WantBridgeUp role : wanted c (IsUp (dpdk_ns c) (bridge_of role))
| WantRoute r :
    last_route c r → wanted c (HasRoute (route_namespace r) (route_dst r) (route_via r)).

(** ** The helpers on a valid topology *)

Lemma split_ref value e : ref_of value = Some e → _split_ref value = e.
Proof.
  unfold ref_of, _split_ref. destruct (py_partition ":" value) as [[n []] i]; [|done].
  destruct (_ || _); [done|]. by intros [= <-].
Qed.

Lemma find_role_some role ports :
  role_count role ports = 1 → ∃ name, find_role role ports = Some name ∧
    ∀ p, p ∈ ports → port_role p = role → port_name p = name.
Proof.
  unfold role_count. induction ports as [|p ports IH]; [done|]. rewrite filter_cons. cbn [find_role].
  case_decide as Hp; simpl.
  - intros [= Hl%length_zero_iff_nil]. exists (port_name p). split; [done|].
    intros q [->|Hq]%elem_of_cons Hr; [done|]. exfalso.
    apply (not_elem_of_nil q). rewrite <- Hl. by apply list_elem_of_filter.
  - intros (name & Hf & Hn)%IH. exists name. split; [done|].
    intros q [->|Hq]%elem_of_cons Hr; [done|]. by apply Hn.
Qed.

Lemma find_role_in role ports name :
  find_role role ports = Some name → ∃ p, p ∈ ports ∧ port_role p = role ∧ port_name p = name.
Proof.
  induction ports as [|p ports IH]; [done|]. cbn [find_role]. case_decide.
  - intros [= <-]. exists p. split; [left|done].
  - intros (q & Hq & Hr & Hn)%IH. exists q. split; [by right|done].
Qed.

Section wiring.
Context {W : Type} `{NetStable W}.
Implicit Types (v : ValidatedTopologyConfig) (f : net_fact).

(** A sequence whose second part clobbers nothing. *)
Lemma establishes_seq {V U} (m : pym pyexn W V) (k : V → pym pyexn W U) (A1 A2 C : facts) :
  establishes m A1 C → (∀ u, establishes (k u) A2 nothing) →
  establishes (m ≫= k) (λ f, A1 f ∨ A2 f) C.
Proof.
  intros Hm Hk. eapply establishes_weaken; [by eapply establishes_bind| |].
  - intros f [Hf|Hf]; [right|left]; [|done]. by split; [|intros []].
  - by intros f [?|[]].
Qed.

Lemma establishes_lift {V} (m : res pyexn V) : establishes (pym_lift m : pym pyexn W V) nothing nothing.
Proof. intros w v w' [= _ <-]. split; [by intros f []|auto]. Qed.

Lemma change_adds c (A : facts) :
  deletes c = false → (∀ f, ¬ clobbers c f) → (∀ f, A f → achieves c f) →
  establishes (change c) A nothing.
Proof.
  intros Hd Hc HA. eapply establishes_weaken; [by apply change_establishes|done|].
  intros f Hf. by destruct (Hc f).
Qed.

Lemma set_link_up_establishes ns i :
  establishes (set_link_up ns i) (λ f, f = IsUp ns i) nothing.
Proof. by apply change_adds; [|intros f []|]. Qed.

Lemma address_if_establishes ns i ip :
  establishes (address_if ns i ip) (λ f, ∃ cidr, ip = Some cidr ∧ f = HasAddress ns i cidr) nothing.
Proof.
  destruct ip as [cidr|].
  - apply change_adds; [done|by intros f []|]. by intros f (? & [= ->] & ->).
  - eapply establishes_weaken; [apply establishes_mret|by intros f (? & ? & ?)|done].
Qed.

Lemma ensure_namespaces_establishes v :
  establishes (ensure_namespaces v)
    (λ f, ∃ n, n ∈ config_namespaces (vt_topology v) ∧ f = HasNamespace (namespace_name n)) nothing.
Proof. apply establishes_iter. intros n _. apply ensure_namespace_establishes. Qed.

(** What the turn of [ensure_links] for one link establishes. *)
Definition link_facts (l : LinkModel) : facts := λ f,
  ∃ a b, ref_of (link_a l) = Some a ∧ ref_of (link_b l) = Some b ∧
    (f = HasLink a.1 a.2 ∨ f = HasLink b.1 b.2 ∨
     (∃ cidr, link_ip_a l = Some cidr ∧ f = HasAddress a.1 a.2 cidr) ∨
     (∃ cidr, link_ip_b l = Some cidr ∧ f = HasAddress b.1 b.2 cidr)).

Lemma ensure_link_establishes l : establishes (ensure_link l) (link_facts l) nothing.
Proof.
  unfold ensure_link.
  destruct (_split_ref (link_a l)) as [na ia] eqn:Ha, (_split_ref (link_b l)) as [nb ib] eqn:Hb.
  eapply establishes_weaken.
  - eapply establishes_seq; [apply ensure_veth_establishes|]. intros u.
    eapply establishes_seq; [apply address_if_establishes|]. intros u'. apply address_if_establishes.
  - intros f (a & b & Hra%split_ref & Hrb%split_ref & Hf).
    rewrite Ha in Hra. rewrite Hb in Hrb. subst a b. simpl in Hf. tauto.
  - done.
Qed.

Lemma ensure_links_establishes v :
  establishes (ensure_links v) (λ f, ∃ l, l ∈ config_links (vt_topology v) ∧ link_facts l f) nothing.
Proof. apply establishes_iter. intros l _. apply ensure_link_establishes. Qed.

Lemma ensure_bridges_establishes v :
  establishes (ensure_bridges v) (λ f, ∃ role, f = HasLink (dpdk_namespace v) (bridge_of role)) nothing.
Proof.
  eapply establishes_weaken.
  - eapply establishes_seq; [apply ensure_bridge_establishes|]. intros u. apply ensure_bridge_establishes.
  - intros f [[] ->]; auto.
  - done.
Qed.

Lemma bring_up_establishes v :
  establishes (bring_link_endpoints_up v)
    (λ f, ∃ l, l ∈ config_links (vt_topology v) ∧
      ∃ e, e ∈ link_endpoints l ∧ ref_of (link_a l) ≠ None ∧ ref_of (link_b l) ≠ None ∧
        f = IsUp e.1 e.2) nothing.
Proof.
  apply establishes_iter. intros l _. unfold bring_up, link_endpoints.
  destruct (_split_ref (link_a l)) as [na ia] eqn:Ha, (_split_ref (link_b l)) as [nb ib] eqn:Hb.
  eapply establishes_weaken.
  - eapply establishes_seq; [apply set_link_up_establishes|]. intros u. apply set_link_up_establishes.
  - intros f (e & He & Hra & Hrb & ->).
    destruct (ref_of (link_a l)) as [a|] eqn:Ea, (ref_of (link_b l)) as [b|] eqn:Eb; try done.
    apply split_ref in Ea, Eb. rewrite Ha in Ea. rewrite Hb in Eb. subst a b.
    apply elem_of_app in He as [->%list_elem_of_singleton| ->%list_elem_of_singleton]; auto.
  - done.
Qed.

(** ** Waiting for the interfaces of the datapath *)

Lemma wait_for_link_establishes v timeout interval i :
  establishes (wait_for_link v timeout interval i) (λ f, f = HasLink (dpdk_namespace v) i) nothing.
Proof.
  intros w u w' Hw. set (J := λ w1, ∀ f, secured w f → secured w1 f).
  assert (∀ V (m : pym pyexn W V), establishes m nothing nothing →
    hoare J m (λ _, J) (λ _ _, True)) as Hkeep.
  { intros V m Hm w1 Hj. destruct (m w1) as [[a|e] w2] eqn:Hr; [|done].
    destruct (Hm _ _ _ Hr) as [_ Hk]. intros f Hf. apply Hk; [by apply Hj|intros []]. }
  assert (hoare J (wait_for_link v timeout interval i)
    (λ _ w1, J w1 ∧ secured w1 (HasLink (dpdk_namespace v) i)) (λ _ _, True)) as Hwait.
  { unfold wait_for_link, wait_until. destruct (_ <=? 0)%Z; [by apply hoare_raise|].
    destruct (_ <=? 0)%Z; [by apply hoare_raise|].
    eapply hoare_bind; [eapply (hoare_poll_until _ _ _ J
      (λ _ w1, J w1 ∧ secured w1 (HasLink (dpdk_namespace v) i)))|].
    - apply Hkeep, monotonic_keeps.
    - apply Hkeep, sleep_keeps.
    - intros w1 Hj. unfold mbind, pym_mbind.
      destruct (link_exists _ _ w1) as [[b|e] w2] eqn:Hl; [|done].
      apply link_exists_ok in Hl as [Hf Hb]. cbn. destruct b.
      + split; [intros f Hh; by apply (secured_same w1), Hj|]. intros _. by apply Hf, Hb.
      + intros f Hh. by apply (secured_same w1), Hj.
    - intros [[]|]; [by apply hoare_mret|by apply hoare_raise]. }
  destruct (hoare_ok _ _ _ _ _ _ _ Hwait (λ f Hf, Hf) Hw) as [Hj Hl].
  split; [by intros f ->|]. intros f Hf _. by apply Hj.
Qed.

(** ** Attaching and bringing up *)

Lemma attach_establishes ns i b :
  establishes (attach_to_bridge ns i b) (λ f, f = HasMaster ns i b)
    (λ f, ∃ b', f = HasMaster ns i b').
Proof. by apply (change_establishes (SetMaster ns i b)). Qed.

(** The four interfaces [reconcile_taps] attaches, with their bridges. *)
Definition attachments (ing eg : string) : list (string * string) :=
  [(INGRESS_BRIDGE_KERNEL_INTERFACE, INGRESS_BRIDGE_NAME); (ing, INGRESS_BRIDGE_NAME);
   (eg, EGRESS_BRIDGE_NAME); (EGRESS_BRIDGE_KERNEL_INTERFACE, EGRESS_BRIDGE_NAME)].

Definition is_master f : Prop := ∃ ns i b, f = HasMaster ns i b.

(** Attaching in sequence: an attachment stands unless a later one is of the
    same interface to another bridge. *)
Lemma attach_all_establishes ns l :
  (∀ i b b', (i, b) ∈ l → (i, b') ∈ l → b = b') →
  establishes (pym_iter (λ x, attach_to_bridge ns x.1 x.2) l)
    (λ f, ∃ x, x ∈ l ∧ f = HasMaster ns x.1 x.2)
    (λ f, ∃ x b', x ∈ l ∧ f = HasMaster ns x.1 b').
Proof.
  induction l as [|[i b] l IH]; intros Hl.
  { eapply establishes_weaken; [apply establishes_mret|by intros f (x & []%elem_of_nil & _)|done]. }
  intros w u w' Hw. cbn [pym_iter fst snd] in Hw. unfold mbind, pym_mbind in Hw.
  destruct (attach_to_bridge ns i b w) as [[[]|e] w1] eqn:Hr; [|done].
  apply attach_establishes in Hr as [HA HC].
  destruct (IH (λ j c c' H1 H2, Hl j c c' (list_elem_of_further _ _ _ H1)
    (list_elem_of_further _ _ _ H2)) _ _ _ Hw) as [HA' HC'].
  split.
  - intros f ([j c] & [[= -> ->]|Hx]%elem_of_cons & ->); [|apply HA'; by exists (j, c)].
    destruct (decide ((i, b) ∈ l)) as [Hin|Hin]; [apply HA'; by exists (i, b)|].
    apply HC'; [by apply HA|]. intros ([j c] & b' & Hx & [= <- <-]). apply Hin. cbn in *.
    assert (b = c) as ->; [|done]. eapply Hl; [left|by right].
  - intros f Hf Hn. apply HC'.
    + apply HC; [done|]. intros (b' & ->). apply Hn. exists (i, b), b'. split; [left|done].
    + intros (x & b' & Hx & ->). apply Hn. exists x, b'. split; [by right|done].
Qed.

(** Bringing several interfaces of a namespace up. *)
Lemma up_all_establishes ns l :
  establishes (pym_iter (set_link_up ns) l) (λ f, ∃ i, i ∈ l ∧ f = IsUp ns i) nothing.
Proof. apply establishes_iter. intros i _. apply set_link_up_establishes. Qed.

Lemma establishes_ext {V} (m m' : pym pyexn W V) A C :
  (∀ w, m w = m' w) → establishes m' A C → establishes m A C.
Proof. intros He Hm w v w' Hw. rewrite He in Hw. exact (Hm _ _ _ Hw). Qed.

Lemma pym_assoc {A B D} (m : pym pyexn W A) (k : A → pym pyexn W B) (h : B → pym pyexn W D) w :
  ((m ≫= k) ≫= h) w = (m ≫= λ a, k a ≫= h) w.
Proof. unfold mbind, pym_mbind. by destruct (m w) as [[a|e] w1]. Qed.

Lemma iter_cons_bind {A B} (body : A → pym pyexn W unit) x l (k : pym pyexn W B) w :
  (pym_iter body (x :: l);; k) w = (body x;; pym_iter body l;; k) w.
Proof. apply pym_assoc. Qed.

(** What [reconcile_taps] establishes, for ports named [ing] and [eg]. *)
Definition tap_facts v (ing eg : string) : facts := λ f,
  (∃ i, i ∈ [ing; eg] ∧ f = HasLink (dpdk_namespace v) i) ∨
  (∃ x, x ∈ attachments ing eg ∧ f = HasMaster (dpdk_namespace v) x.1 x.2) ∨
  (∃ i, i ∈ [INGRESS_BRIDGE_KERNEL_INTERFACE; ing; eg; EGRESS_BRIDGE_KERNEL_INTERFACE;
             INGRESS_BRIDGE_NAME; EGRESS_BRIDGE_NAME] ∧ f = IsUp (dpdk_namespace v) i).

(** No port is attached to one bridge under the name of the other's kernel
    interface. *)
Definition uncrossed (ing eg : string) : Prop :=
  ing ≠ eg ∧ ing ≠ EGRESS_BRIDGE_KERNEL_INTERFACE ∧ eg ≠ INGRESS_BRIDGE_KERNEL_INTERFACE.

Lemma attachments_agree ing eg :
  uncrossed ing eg →
  ∀ i b b', (i, b) ∈ attachments ing eg → (i, b') ∈ attachments ing eg → b = b'.
Proof.
  intros (Hne & Hi & He) i b b'. unfold attachments.
  rewrite !elem_of_cons, !elem_of_nil. unfold EGRESS_BRIDGE_KERNEL_INTERFACE,
    INGRESS_BRIDGE_KERNEL_INTERFACE in *. naive_solver.
Qed.

Lemma reconcile_taps_establishes v timeout interval ing eg :
  find_role ingress (config_dpdk_ports (vt_topology v)) = Some ing →
  find_role egress (config_dpdk_ports (vt_topology v)) = Some eg →
  uncrossed ing eg →
  establishes (reconcile_taps v timeout interval) (tap_facts v ing eg) is_master.
Proof.
  intros Hi He Hu. unfold reconcile_taps, _port_name_for_role. rewrite Hi, He.
  set (up := pym_iter (set_link_up (dpdk_namespace v)) [INGRESS_BRIDGE_KERNEL_INTERFACE; ing; eg;
    EGRESS_BRIDGE_KERNEL_INTERFACE; INGRESS_BRIDGE_NAME; EGRESS_BRIDGE_NAME]).
  apply (establishes_ext _ (pym_iter (wait_for_link v timeout interval) [ing; eg];;
    pym_iter (λ x, attach_to_bridge (dpdk_namespace v) x.1 x.2) (attachments ing eg);; up)).
  { intros w. rewrite !(pym_bind_ok (pym_lift (Ok _)) _ w _ w eq_refl). fold up.
    unfold attachments.
    destruct (pym_iter (wait_for_link v timeout interval) [ing; eg] w) as [[u|e] w1] eqn:Hw; [|by rewrite !(pym_bind_err _ _ _ _ _ Hw)].
    rewrite !(pym_bind_ok _ _ _ _ _ Hw). cbn [pym_iter fst snd]. generalize up. intros m.
    unfold mbind, pym_mbind. clear.
    destruct (attach_to_bridge _ _ _ w1) as [[]]; [|done]. cbn.
    destruct (attach_to_bridge _ _ _ _) as [[]]; [|done]. cbn.
    destruct (attach_to_bridge _ _ _ _) as [[]]; [|done]. cbn.
    destruct (attach_to_bridge _ _ _ _) as [[]]; done. }
  eapply establishes_weaken.
  - eapply establishes_bind.
    { apply (establishes_iter _ (λ i f, f = HasLink (dpdk_namespace v) i)).
      intros i _. apply wait_for_link_establishes. }
    intros u. eapply establishes_seq.
    + by apply attach_all_establishes, attachments_agree.
    + intros u'. apply up_all_establishes.
  - unfold tap_facts, attachments. intros f [(i & Hin & ->)|[Hf|Hf]]; [right|left; by left|left; by right].
    split; [by exists i|]. by intros (x & b' & _ & ?).
  - intros f [[]|(x & b' & _ & ->)]. by exists (dpdk_namespace v), x.1, b'.
Qed.

(** ** Routes *)

Definition route_fact (r : RouteModel) : net_fact :=
  HasRoute (route_namespace r) (route_dst r) (route_via r).
Definition is_route f : Prop := ∃ ns dst via, f = HasRoute ns dst via.

(** Routes are replaced in order, and the last one to a destination stands. *)
Lemma routes_establish l :
  establishes
    (pym_iter (λ r, replace_route (route_namespace r) (route_dst r) (route_via r)) l)
    (λ f, ∃ before r after, l = before ++ r :: after ∧ f = route_fact r ∧
      ∀ r', r' ∈ after → route_namespace r' = route_namespace r →
        ip4_network (route_dst r') ≠ ip4_network (route_dst r))
    (λ f, ∃ r dst via, r ∈ l ∧ f = HasRoute (route_namespace r) dst via ∧
      ip4_network dst = ip4_network (route_dst r)).
Proof.
  induction l as [|r l IH].
  { eapply establishes_weaken; [apply establishes_mret| |done].
    by intros f ([] & ? & ? & ? & _). }
  eapply establishes_weaken.
  - eapply establishes_bind; [|intros u; exact IH].
    by apply (change_establishes (RouteReplace (route_namespace r) (route_dst r) (route_via r))).
  - intros f ([|r0 before] & r1 & after & [= <- ->] & -> & Hlast).
    + right. split; [done|]. intros (r' & dst & via & Hin & [= Hns <- <-] & Heq).
      by apply (Hlast r' Hin).
    + left. by exists before, r1, after.
  - intros f [(dst & via & -> & Heq)|(r' & dst & via & Hin & -> & Heq)].
    + exists r, dst, via. split; [left|done].
    + exists r', dst, via. split; [by right|done].
Qed.

Lemma ensure_routes_establishes v :
  establishes (ensure_routes v)
    (λ f, ∃ r, last_route (vt_topology v) r ∧ f = route_fact r) is_route.
Proof.
  eapply establishes_weaken; [apply routes_establish| |].
  - intros f (r & (before & after & Hl & Hlast) & ->). by exists before, r, after.
  - intros f (r & dst & via & _ & -> & _). by exists (route_namespace r), dst, via.
Qed.

(** ** Taking a topology down *)

(** What is in the namespaces of a topology that can be found in a listing. *)
Definition below (c : TopologyConfigModel) : facts := λ f,
  fact_namespace f ∈ names_of c ∧ plain (fact_namespace f) = true.

Lemma removes_weaken {V} (m : pym pyexn W V) (D D' : facts) :
  removes m D → (∀ f, D' f → D f) → removes m D'.
Proof. intros Hm HD w v w' Hw. destruct (Hm _ _ _ Hw) as [H3 H4]. naive_solver. Qed.

Lemma destroy_namespaces_removes v : removes (destroy_namespaces v) (below (vt_topology v)).
Proof.
  intros w u w' Hw.
  destruct (removes_iter (λ n, delete_namespace (namespace_name n))
    (λ n f, plain (namespace_name n) = true ∧ f = HasNamespace (namespace_name n)) _
    (λ n, delete_namespace_removes _) _ _ _ Hw) as [HD HS].
  split; [|done]. intros f [Hf Hplain] Hh%in_namespace. unfold names_of in Hf.
  apply elem_of_list_to_set, list_elem_of_fmap in Hf as (n & Hn & Hin).
  apply (HD (HasNamespace (fact_namespace f))); [|done]. exists n. split; [by apply elem_of_reverse|].
  by rewrite <- Hn.
Qed.

Lemma destroy_links_removes v : removes (destroy_links_and_bridges v) nothing.
Proof.
  eapply removes_weaken; [|by intros f []].
  apply removes_bind with (D1 := λ _, ∃ b, b ∈ [EGRESS_BRIDGE_NAME; INGRESS_BRIDGE_NAME] ∧ False).
  - apply (removes_iter _ (λ _, nothing)). intros b. apply delete_link_removes.
  - intros u. apply (removes_iter destroy_link (λ _, nothing)). intros l. unfold destroy_link.
    destruct (_split_ref (link_a l)) as [na ia]. apply delete_link_removes.
Qed.
End wiring.
