(* ===== verification/ManagerProps.v ===== *)
(** * Properties of the topology manager

    What apply builds and destroy removes, under the laws of [ip] and for
    callbacks that leave the network of the topology alone; and what the
    manager reports when something fails. *)

From S2P Require Import Prelude PyStr IpAddress Errors Types Issues.
From S2P Require Import TopologyValidation TopologySpec TopologyProps Clock DpdkModels Supervisor.
From S2P Require Import Netns SimWorld Topology TopologyWiring Manager.
#[local] Open Scope string_scope.
#[local] Open Scope list_scope.

(** The interfaces that live and die with a datapath process. *)
Class Taps := tap : string → string → Prop.

Definition tap_fact `{Taps} (f : net_fact) : Prop :=
  match f with
  | HasLink ns i | HasAddress ns i _ | HasMaster ns i _ | IsUp ns i => tap ns i
  | HasNamespace _ | HasRoute _ _ _ => False
  end.

(** What the manager relies on: the default validator, a start callback that
    disturbs nothing on the host but the interfaces of earlier datapath
    processes, and a stop callback that adds nothing. *)
Class ManagerLaws {W} `{IpLaws W, Taps} (m : ManagerConfig W) : Prop := {
  validates c : validate_topology m c = validate_topology_config c;
  start_keeps start v : start_datapath m = Some start → establishes (start v) nothing tap_fact;
  stop_adds_nothing stop : stop_datapath m = Some stop → removes stop nothing;
}.

(** The links and the bridges of a topology are not TAPs. *)
Definition wired c `{Taps} : Prop :=
  (∀ e, e ∈ linked_interfaces c → ¬ tap e.1 e.2) ∧ ∀ role, ¬ tap (dpdk_ns c) (bridge_of role).

Definition kernel_interface (role : PortRole) : string :=
  match role with
  | ingress => INGRESS_BRIDGE_KERNEL_INTERFACE
  | egress => EGRESS_BRIDGE_KERNEL_INTERFACE
  end.
Definition opposite (role : PortRole) : PortRole :=
  match role with ingress => egress | egress => ingress end.

(** No datapath port has the name of the other side's kernel interface, which
    validation does not rule out. *)
Definition ports_uncrossed (c : TopologyConfigModel) : Prop :=
  ∀ p, p ∈ config_dpdk_ports c → port_name p ≠ kernel_interface (opposite (port_role p)).

Lemma ports_of_roles c ids :
  topology_ok c ids → ports_uncrossed c →
  ∃ ing eg, find_role ingress (config_dpdk_ports c) = Some ing ∧
    find_role egress (config_dpdk_ports c) = Some eg ∧ uncrossed ing eg ∧
    ∀ p, p ∈ config_dpdk_ports c →
      port_name p = match port_role p with ingress => ing | egress => eg end.
Proof.
  intros Hok Hc. destruct (tp_roles _ _ Hok) as [Hi He].
  apply find_role_some in Hi as (ing & Hi & Hing), He as (eg & He & Heg).
  exists ing, eg. split_and!; [done..| |].
  - destruct (find_role_in _ _ _ Hi) as (p & Hp & Hpr & Hpn).
    destruct (find_role_in _ _ _ He) as (q & Hq & Hqr & Hqn). subst ing eg. split_and!.
    + intros Heq. assert (p = q) as ->; [|congruence].
      pose proof (tp_interfaces _ _ Hok) as Hnd. apply NoDup_app in Hnd as (_ & _ & Hnd).
      pose proof (proj1 (Forall_forall _ _) (tp_ports _ _ Hok)) as Hns.
      assert (port_endpoint p = port_endpoint q) as Hpq
        by (unfold port_endpoint; by rewrite Heq, (Hns p), (Hns q)).
      apply list_elem_of_lookup in Hp as [i Hp'], Hq as [j Hq'].
      assert (i = j) as ->; [|congruence].
      eapply NoDup_lookup; [exact Hnd| |]; rewrite list_lookup_fmap; [by rewrite Hp'|].
      by rewrite Hq', Hpq.
    + specialize (Hc p Hp). by rewrite Hpr in Hc.
    + specialize (Hc q Hq). by rewrite Hqr in Hc.
  - intros p Hp. destruct (port_role p) eqn:Hr; auto.
Qed.

Section manager_props.
Context {W : Type} `{NetStable W} `{Taps} `{ExnText} (m : ManagerConfig W) `{!ManagerLaws m}.

(** ** Building *)

(** Sequencing, for parts that may clobber the same facts. *)
Lemma establishes_then {V U} (a : pym pyexn W V) (k : V → pym pyexn W U) (A1 A2 C1 C2 C : facts) :
  establishes a A1 C1 → (∀ u, establishes (k u) A2 C2) →
  (∀ f, A1 f → ¬ C2 f) → (∀ f, C1 f → C f) → (∀ f, C2 f → C f) →
  establishes (a ≫= k) (λ f, A1 f ∨ A2 f) C.
Proof.
  intros Ha Hk Hd HC1 HC2. eapply establishes_weaken; [by eapply establishes_bind| |].
  - intros f [Hf|Hf]; [right; split; [done|by apply Hd]|by left].
  - intros f [?|?]; auto.
Qed.

(** The facts a later phase may replace. *)
Definition soft (f : net_fact) : Prop := is_master f ∨ is_route f ∨ tap_fact f.

Lemma start_establishes v : establishes (_start_datapath_locked m v) nothing tap_fact.
Proof.
  unfold _start_datapath_locked. destruct (start_datapath m) as [start|] eqn:Hs.
  - by eapply start_keeps.
  - by intros w s w'.
Qed.

(** What the phases establish together. *)
Definition built v (ing eg : string) : facts := λ f,
  (∃ n, n ∈ config_namespaces (vt_topology v) ∧ f = HasNamespace (namespace_name n)) ∨
  (∃ l, l ∈ config_links (vt_topology v) ∧ link_facts l f) ∨
  (∃ role, f = HasLink (dpdk_namespace v) (bridge_of role)) ∨
  nothing f ∨ tap_facts v ing eg f ∨
  (∃ l, l ∈ config_links (vt_topology v) ∧ ∃ e, e ∈ link_endpoints l ∧
    ref_of (link_a l) ≠ None ∧ ref_of (link_b l) ≠ None ∧ f = IsUp e.1 e.2) ∨
  (∃ r, last_route (vt_topology v) r ∧ f = route_fact r) ∨ nothing f.

Lemma build_establishes c v ids ing eg :
  topology_ok c ids → v = validated_of c ids → wired c →
  find_role ingress (config_dpdk_ports c) = Some ing →
  find_role egress (config_dpdk_ports c) = Some eg →
  uncrossed ing eg →
  establishes (build_topology m v) (built v ing eg) soft.
Proof.
  intros Hok -> [Hlinked Hbridges] Hi He Hu. unfold built.
  assert (∀ f : net_fact, is_master f ∨ is_route f → soft f) as Hms by (unfold soft; tauto).
  eapply establishes_then with (C2 := soft);
    [apply ensure_namespaces_establishes|intros _| |by intros f []|done].
  2:{ by intros f (n & _ & ->) [(? & ? & ? & ?)|[(? & ? & ? & ?)|[]]]. }
  eapply establishes_then with (C2 := soft);
    [apply ensure_links_establishes|intros _| |by intros f []|done].
  2:{ intros f (l & Hl & a & b & Ha & Hb & Hf).
      assert (a ∈ linked_interfaces c ∧ b ∈ linked_interfaces c) as [Hna%Hlinked Hnb%Hlinked].
      { unfold linked_interfaces. rewrite !list_elem_of_bind. split; exists l; (split; [|done]);
          unfold link_endpoints; rewrite Ha, Hb; set_solver. }
      intros [(? & ? & ? & ->)|[(? & ? & ? & ->)|Hf']]; naive_solver. }
  eapply establishes_then with (C2 := soft);
    [apply ensure_bridges_establishes|intros _| |by intros f []|done].
  2:{ intros f (role & ->) [(? & ? & ? & ?)|[(? & ? & ? & ?)|Ht]]; [done..|]. by apply (Hbridges role). }
  eapply establishes_then with (C2 := λ f, is_master f ∨ is_route f);
    [apply start_establishes|intros status|by intros f []|unfold soft; tauto|done].
  eapply establishes_then with (C2 := is_route);
    [by apply reconcile_taps_establishes|intros _| |by left|by right].
  2:{ intros f Hf (? & ? & ? & ->). destruct Hf as [(? & ? & ?)|[(? & ? & ?)|(? & ? & ?)]]; done. }
  eapply establishes_then with (C2 := is_route);
    [apply bring_up_establishes|intros _| |by intros f []|done].
  2:{ by intros f (l & _ & e & _ & _ & _ & ->) (? & ? & ? & ?). }
  eapply establishes_then with (C2 := nothing);
    [apply ensure_routes_establishes|intros _; apply establishes_mret| |done|by intros f []].
  by intros f _ [].
Qed.

Lemma built_wanted c v ids ing eg :
  topology_ok c ids → v = validated_of c ids →
  (∀ p, p ∈ config_dpdk_ports c →
    port_name p = match port_role p with ingress => ing | egress => eg end) →
  ∀ f, wanted c f → built v ing eg f.
Proof.
  intros Hok -> Hp f Hf. unfold built. cbn [vt_topology validated_of].
  assert (∀ p, p ∈ config_dpdk_ports c → port_namespace p = dpdk_ns c) as Hns
    by apply Forall_forall, (tp_ports _ _ Hok).
  assert (∀ l, l ∈ config_links c → link_ok (names_of c) l) as Hl
    by apply Forall_forall, (tp_links _ _ Hok).
  assert (∀ e, e ∈ linked_interfaces c → ∃ l a b, l ∈ config_links c ∧ e ∈ link_endpoints l ∧
    ref_of (link_a l) = Some a ∧ ref_of (link_b l) = Some b ∧ (e = a ∨ e = b)) as Hlinked.
  { intros e (l & He & Hin)%list_elem_of_bind. destruct (Hl l Hin) as (a & b & Ha & Hb & _).
    exists l, a, b. split_and!; [done..|]. unfold link_endpoints in He. rewrite Ha, Hb in He.
    set_solver. }
  assert (dpdk_namespace (validated_of c ids) = dpdk_ns c) as Hdpdk by done.
  destruct Hf as [n Hn|e He|l e cidr Hin Hr Hip|l e cidr Hin Hr Hip|role|p Hin| | |e He|role|r Hr].
  - left. by exists n.
  - apply elem_of_app in He as [He|(p & -> & Hin)%list_elem_of_fmap].
    + destruct (Hlinked e He) as (l & a & b & Hin & _ & Ha & Hb & He'). right. left. exists l.
      split; [done|]. exists a, b. naive_solver.
    + do 4 right. left. left. exists (port_name p). unfold port_endpoint. cbn [fst snd].
      rewrite (Hns p Hin), Hdpdk, (Hp p Hin). split; [|done].
      destruct (port_role p); [left|right; left].
  - right. left. exists l. split; [done|]. destruct (Hl l Hin) as (a & b & Ha & Hb & _).
    exists a, b. naive_solver.
  - right. left. exists l. split; [done|]. destruct (Hl l Hin) as (a & b & Ha & Hb & _).
    exists a, b. naive_solver.
  - right. right. left. by exists role.
  - do 4 right. left. right. left. exists (port_name p, bridge_of (port_role p)). split; [|done].
    rewrite (Hp p Hin). unfold attachments. destruct (port_role p); cbn [bridge_of]; set_solver.
  - do 4 right. left. right. left. eexists (_, _). split; [|done]. unfold attachments. set_solver.
  - do 4 right. left. right. left. eexists (_, _). split; [|done]. unfold attachments. set_solver.
  - apply elem_of_app in He as [He|(p & -> & Hin)%list_elem_of_fmap].
    + destruct (Hlinked e He) as (l & a & b & Hin & He2 & Ha & Hb & _). do 5 right. left. exists l.
      split; [done|]. exists e. rewrite Ha, Hb. done.
    + do 4 right. left. right. right. exists (port_name p). unfold port_endpoint. cbn [fst snd].
      rewrite (Hns p Hin), Hdpdk, (Hp p Hin). split; [|done].
      destruct (port_role p); set_solver.
  - do 4 right. left. right. right. exists (bridge_of role). split; [|done].
    destruct role; cbn [bridge_of]; set_solver.
  - do 6 right. left. by exists r.
Qed.

(** ** Destroying *)

Lemma collect_error_cases (p : pym pyexn W unit) w r w' :
  collect_error p w = (r, w') →
  (p w = (Ok (), w') ∧ r = Ok []) ∨
  (∃ e, p w = (Err (PktlabExn e), w') ∧ r = Ok [e]) ∨
  (∃ e, p w = (Err e, w') ∧ is_pktlab e = false ∧ r = Err e).
Proof.
  unfold collect_error, try_except, mbind, pym_mbind. destruct (p w) as [[[]|e] w1].
  - intros [= <- <-]. by left.
  - destruct e; intros [= <- <-]; [right; left; by eexists|..]; right; right; by eexists.
Qed.

Lemma collect_error_bind {A} (p : pym pyexn W unit) (k : list PktlabError → pym pyexn W A) w a w' :
  (collect_error p ≫= k) w = (Ok a, w') →
  ∃ errors w1, k errors w1 = (Ok a, w') ∧ (errors = [] → p w = (Ok (), w1)).
Proof.
  destruct (collect_error p w) as [r w1] eqn:Hr. pose proof Hr as Hc.
  apply collect_error_cases in Hr as [[Hp ->]|[(e & Hp & ->)|(e & Hp & _ & ->)]];
    [rewrite (pym_bind_ok _ _ _ _ _ Hc)..|by rewrite (pym_bind_err _ _ _ _ _ Hc)].
  - intros Hk. by exists [], w1.
  - intros Hk. by exists [e], w1.
Qed.

(** A normal return means that every phase returned. *)
Lemma destroy_locked_ok v w u w' :
  _destroy_locked m v w = (Ok u, w') →
  ∃ w1 w2, _stop_datapath_locked m w = (Ok (), w1) ∧
    destroy_links_and_bridges v w1 = (Ok (), w2) ∧ destroy_namespaces v w2 = (Ok (), w').
Proof.
  intros (es1 & w1 & (es2 & w2 & (es3 & w3 & Hend & Hp3)%collect_error_bind & Hp2)%collect_error_bind
    & Hp1)%collect_error_bind.
  destruct (es1 ++ es2 ++ es3) as [|e es] eqn:Hes; [|done].
  apply app_nil in Hes as [-> [-> ->]%app_nil]. injection Hend as _ <-. eauto 10.
Qed.

Lemma stop_removes : removes (_stop_datapath_locked m) nothing.
Proof.
  unfold _stop_datapath_locked. destruct (stop_datapath m) as [stop|] eqn:Hs.
  - by apply stop_adds_nothing.
  - apply removes_mret.
Qed.

(** Nothing is left below the plainly named namespaces of a destroyed
    topology. *)
Lemma destroy_locked_removes v : removes (_destroy_locked m v) (below (vt_topology v)).
Proof.
  intros w u w' (w1 & w2 & Hs & Hl & Hn)%destroy_locked_ok.
  apply stop_removes in Hs as [_ Hs]. apply destroy_links_removes in Hl as [_ Hl].
  apply destroy_namespaces_removes in Hn as [HD Hn]. split; [done|]. auto.
Qed.

(** ** Applying *)

(** The first part of an apply: replacing what is applied. *)
Lemma replace_current (a : option AppliedTopology) w r cur' w' :
  take_down_current m (a, w) = (r, (cur', w')) →
  match r with
  | Ok _ => cur' = None
  | Err e => cur' = a ∧ ∃ t, a = Some t ∧ _destroy_locked m (applied_validated t) w = (Err e, w')
  end.
Proof.
  unfold take_down_current, gets, mbind at 1, pym_mbind at 1. cbn [fst].
  destruct a as [t|]; [|by intros [= <- <- <-]]. unfold mbind, pym_mbind, on_snd.
  destruct (_destroy_locked m _ w) as [[u|e] w1] eqn:Hd; intros [= <- <- <-]; [done|].
  split; [done|]. by exists t.
Qed.

(** What a run of apply goes through. *)
Lemma apply_stages path cur w r cur' w' :
  manager_apply m path (cur, w) = (r, (cur', w')) →
  (cur' = cur ∧ ∃ e, r = Err e ∧
    (load_topology m path w = (Err e, w') ∨
     (∃ c, load_topology m path w = (Ok c, w') ∧ validate_topology_config c = Err e) ∨
     (∃ c v t w0, load_topology m path w = (Ok c, w0) ∧ validate_topology_config c = Ok v ∧
        cur = Some t ∧ _destroy_locked m (applied_validated t) w0 = (Err e, w')))) ∨
  (∃ c v w0 w1, load_topology m path w = (Ok c, w0) ∧ validate_topology_config c = Ok v ∧
    match try_except (build_topology m v) (on_apply_failure m path v) w1 with
    | (Ok status, w2) => w' = w2 ∧ cur' = Some (mkApplied path v) ∧
        r = Ok (_result op_apply v path true (status_running status) "topology applied")
    | (Err e, w2) => w' = w2 ∧ cur' = None ∧ r = Err e
    end).
Proof.
  unfold manager_apply, mbind at 1, pym_mbind at 1, on_snd at 1.
  destruct (load_topology m path w) as [[c|e] w0] eqn:Hload.
  2:{ intros [= <- <- <-]. left. split; [done|]. exists e. auto. }
  unfold mbind at 1, pym_mbind at 1, pym_lift at 1. rewrite validates.
  destruct (validate_topology_config c) as [v|e] eqn:Hval.
  2:{ intros [= <- <- <-]. left. split; [done|]. exists e. eauto 6. }
  unfold mbind at 1, pym_mbind at 1.
  destruct (take_down_current m (cur, w0)) as [r1 [cur1 w1]] eqn:Hrep.
  apply replace_current in Hrep. destruct r1 as [u|e].
  2:{ destruct Hrep as [-> (t & -> & Hd)]. intros [= <- <- <-]. left. split; [done|]. exists e. eauto 12. }
  subst cur1. unfold mbind, pym_mbind, on_snd.
  intros Hr. right. exists c, v, w0, w1. split; [done|]. split; [done|].
  destruct (try_except _ _ w1) as [[status|e] w2]; by injection Hr as <- <- <-.
Qed.

(** What a successful apply leaves. *)
Lemma manager_apply_ok path cur w t cur' w' :
  manager_apply m path (cur, w) = (Ok t, (cur', w')) →
  ∃ c v w0 running, load_topology m path w = (Ok c, w0) ∧
    validate_topology_config c = Ok v ∧ cur' = Some (mkApplied path v) ∧
    t = _result op_apply v path true running "topology applied" ∧
    (ports_uncrossed c → wired c → plain_host w' → ∀ f, wanted c f → holds w' f).
Proof.
  intros [(_ & e & [=] & _)|(c & v & w0 & w1 & Hload & Hval & Hrun)]%apply_stages.
  exists c, v, w0. unfold try_except in Hrun.
  destruct (build_topology m v w1) as [[status|e] w2] eqn:Hb.
  - destruct Hrun as (-> & -> & [= ->]). exists (status_running status). split_and!; [done..|].
    intros Hc Hwired Hplain. apply validated_ok in Hval as (ids & Hok & ->).
    destruct (ports_of_roles c ids Hok Hc) as (ing & eg & Hi & He & Hu & Hp).
    destruct (build_establishes c _ ids ing eg Hok eq_refl Hwired Hi He Hu _ _ _ Hb) as [HA _].
    intros f Hf. by eapply HA; [eapply built_wanted|].
  - unfold on_apply_failure, mbind, pym_mbind in Hrun.
    destruct (_cleanup_failed_apply m v w2) as [[ce|e'] w3]; by destruct Hrun as (_ & _ & ?).
Qed.

(** What a failed apply leaves. *)
Lemma manager_apply_err path cur w e cur' w' :
  manager_apply m path (cur, w) = (Err e, (cur', w')) →
  (cur' = cur ∧
    (load_topology m path w = (Err e, w') ∨
     (∃ c, load_topology m path w = (Ok c, w') ∧ validate_topology_config c = Err e) ∨
     (∃ c v t w0, load_topology m path w = (Ok c, w0) ∧ validate_topology_config c = Ok v ∧
        cur = Some t ∧ _destroy_locked m (applied_validated t) w0 = (Err e, w')))) ∨
  (cur' = None ∧ ∃ c v w0 w1 exc w2, load_topology m path w = (Ok c, w0) ∧
    validate_topology_config c = Ok v ∧ build_topology m v w1 = (Err exc, w2) ∧
    ((e = apply_error path v exc None ∧ ∀ f, below c f → ¬ holds w' f) ∨
     (∃ cleanup, _destroy_locked m v w2 = (Err (PktlabExn cleanup), w') ∧
        e = apply_error path v exc (Some cleanup)) ∨
     (_destroy_locked m v w2 = (Err e, w') ∧ is_pktlab e = false))).
Proof.
  intros [(-> & e' & [= ->] & Hcase)|(c & v & w0 & w1 & Hload & Hval & Hrun)]%apply_stages;
    [by left|right].
  unfold try_except in Hrun. destruct (build_topology m v w1) as [[status|exc] w2] eqn:Hb.
  { by destruct Hrun as (_ & _ & ?). }
  unfold on_apply_failure, _cleanup_failed_apply, try_except, mbind, pym_mbind in Hrun.
  destruct (_destroy_locked m v w2) as [[u|e2] w3] eqn:Hd; cbn in Hrun.
  - destruct Hrun as (-> & -> & [= ->]). split; [done|]. exists c, v, w0, w1, exc, w2. rewrite Hd.
    split_and!; [done..|left]. split; [done|]. apply validated_ok in Hval as (ids & _ & ->).
    by destruct (destroy_locked_removes (validated_of c ids) _ _ _ Hd) as [HD _].
  - assert (w' = w3 ∧ cur' = None ∧ e = match e2 with
      | PktlabExn ce => apply_error path v exc (Some ce) | _ => e2 end) as (-> & -> & ->).
    { destruct e2; cbn in Hrun; by destruct Hrun as (-> & -> & [= ->]). }
    split; [done|]. exists c, v, w0, w1, exc, w2. rewrite Hd. split_and!; [done..|right].
    destruct e2; [left; by eexists|by right..].
Qed.

(** What a destroy leaves. *)
Lemma manager_destroy_ok cur w r cur' w' :
  manager_destroy m (cur, w) = (r, (cur', w')) →
  match r with
  | Ok t => cur' = None ∧ tr_applied t = false ∧ tr_datapath_running t = false ∧
      tr_topology_name t = lab_of ∘ applied_validated <$> cur ∧
      (∀ f, holds w' f → holds w f) ∧
      ∀ a, cur = Some a →
        ∀ f, below (vt_topology (applied_validated a)) f → ¬ holds w' f
  | Err e => cur' = cur ∧ is_Some cur
  end.
Proof.
  unfold manager_destroy, gets, mbind at 1, pym_mbind at 1. cbn [fst].
  destruct cur as [a|]; [|by intros [= <- <- <-]]. unfold mbind, pym_mbind, on_snd.
  destruct (_destroy_locked m _ w) as [[u|e] w1] eqn:Hd; intros [= <- <- <-]; [|done].
  destruct (destroy_locked_removes _ _ _ _ Hd) as [HD HS]. split_and!; [done..|].
  by intros ? [= <-].
Qed.

(** ** Claims *)

(** A topology that was applied is the one recorded, and the host has the
    network it asks for: namespaces, links and their addresses, both bridges
    with the kernel interfaces and the datapath ports attached to them, every
    declared interface up, and for each destination the last declared route.
    The datapath's TAPs must not be named like a link or a bridge, nor a port
    like the kernel interface of the other side. *)
Theorem apply_builds path cur w t cur' w' :
  manager_apply m path (cur, w) = (Ok t, (cur', w')) →
  ∃ c v w0 running, load_topology m path w = (Ok c, w0) ∧
    validate_topology_config c = Ok v ∧ cur' = Some (mkApplied path v) ∧
    t = _result op_apply v path true running "topology applied" ∧
    (ports_uncrossed c → wired c → plain_host w' → ∀ f, wanted c f → holds w' f).
Proof. apply manager_apply_ok. Qed.

(** C21 A failed apply never records a topology.  Either the document, its
    validation or taking down the previous topology failed, and the manager is
    as before; or building failed, nothing is recorded, and the new topology
    was taken down again: nothing is left in those of its namespaces whose
    names [ip netns list] can be searched for (not empty, no white space), or
    the failure of the cleanup is reported in the error, unless the cleanup
    raised a foreign exception. *)
Theorem apply_failure path cur w e cur' w' :
  manager_apply m path (cur, w) = (Err e, (cur', w')) →
  (cur' = cur ∧
    (load_topology m path w = (Err e, w') ∨
     (∃ c, load_topology m path w = (Ok c, w') ∧ validate_topology_config c = Err e) ∨
     (∃ c v t w0, load_topology m path w = (Ok c, w0) ∧ validate_topology_config c = Ok v ∧
        cur = Some t ∧ _destroy_locked m (applied_validated t) w0 = (Err e, w')))) ∨
  (cur' = None ∧ ∃ c v w0 w1 exc w2, load_topology m path w = (Ok c, w0) ∧
    validate_topology_config c = Ok v ∧ build_topology m v w1 = (Err exc, w2) ∧
    ((e = apply_error path v exc None ∧ ∀ f, below c f → ¬ holds w' f) ∨
     (∃ cleanup, _destroy_locked m v w2 = (Err (PktlabExn cleanup), w') ∧
        e = apply_error path v exc (Some cleanup)) ∨
     (_destroy_locked m v w2 = (Err e, w') ∧ is_pktlab e = false))).
Proof. apply manager_apply_err. Qed.

(** C22 A destroy that returns leaves nothing in those namespaces of the
    topology whose names [ip netns list] can be searched for (not empty, no
    white space), whatever other namespaces the host has; it adds nothing to
    the host, and forgets the topology.  A destroy that raises keeps it, so
    that it can be tried again. *)
Theorem destroy_outcomes cur w r cur' w' :
  manager_destroy m (cur, w) = (r, (cur', w')) →
  match r with
  | Ok t => cur' = None ∧ tr_applied t = false ∧ tr_datapath_running t = false ∧
      tr_topology_name t = lab_of ∘ applied_validated <$> cur ∧
      (∀ f, holds w' f → holds w f) ∧
      ∀ a, cur = Some a →
        ∀ f, below (vt_topology (applied_validated a)) f → ¬ holds w' f
  | Err e => cur' = cur ∧ is_Some cur
  end.
Proof. apply manager_destroy_ok. Qed.
End manager_props.

(** Destroying attempts its three phases in order whatever [PktlabError] they
    raise, and reports all of their errors in one; an exception of another
    class ends it at once, with the phases that follow not attempted. *)
Theorem destroy_attempts {W} `{Host W} (m : ManagerConfig W) v w r1 w1 r2 w2 r3 w3 :
  _stop_datapath_locked m w = (r1, w1) →
  destroy_links_and_bridges v w1 = (r2, w2) →
  destroy_namespaces v w2 = (r3, w3) →
  let reported r := match r with Ok _ => [] | Err (PktlabExn e) => [e] | Err _ => [] end in
  let foreign (r : res pyexn unit) := match r with Ok _ => false | Err e => negb (is_pktlab e) end in
  _destroy_locked m v w =
    if foreign r1 then (r1, w1)
    else if foreign r2 then (r2, w2)
    else if foreign r3 then (r3, w3)
    else (match reported r1 ++ reported r2 ++ reported r3 with
          | [] => Ok ()
          | errors => Err (PktlabExn (destroy_error v errors))
          end, w3).
Proof.
  intros Hs Hl Hn reported foreign.
  assert (∀ (p : pym pyexn W unit) w r w', p w = (r, w') → collect_error p w =
    (match r with Ok _ => Ok [] | Err (PktlabExn e) => Ok [e] | Err e => Err e end, w')) as Hc.
  { intros p w0 r w0' Hp. unfold collect_error, try_except, mbind, pym_mbind. rewrite Hp.
    by destruct r as [[]|[]]. }
  unfold _destroy_locked, mbind, pym_mbind.
  rewrite (Hc _ _ _ _ Hs). destruct r1 as [[]|[]]; cbn; try done.
  all: rewrite (Hc _ _ _ _ Hl); destruct r2 as [[]|[]]; cbn; try done.
  all: rewrite (Hc _ _ _ _ Hn); by destruct r3 as [[]|[]].
Qed.

(** ** A simulated lab *)

#[local] Instance sim_text : ExnText := λ _, "OSError".

Definition sim_taps_of (c : TopologyConfigModel) : list (string * bool) :=
  (λ p, (port_namespace p, bool_decide (port_name p = "dtap1"))) <$> config_dpdk_ports c.

Definition sim_status : DatapathProcessStatus :=
  mkStatus true "/run/pktlab/dpdkd.sock" (Some 4242%Z) true true None None None None.

(** A manager that applies [linear_basic] whatever the path; the datapath is
    the simulated child. *)
Definition sim_manager : ManagerConfig sim :=
  mkManagerConfig sim (λ _, mret linear_basic) validate_topology_config
    (Some (λ _, proc_spawn [];; mret sim_status)) (Some (proc_terminate sim_child)) 100 10.

(** The datapath's interfaces are named [dtap0] and [dtap1]. *)
#[local] Instance sim_tap_names : Taps := λ _ i, i = "dtap0" ∨ i = "dtap1".

#[local] Instance sim_manager_laws : ManagerLaws sim_manager.
Proof.
  constructor.
  - done.
  - intros start v [= <-]. apply establishes_intro; [intros ns []|].
    intros w s w'. unfold mbind, pym_mbind. cbn. destruct (sim_spawnable w); [|done].
    intros [= _ <-]. split; [by intros f []|]. intros f [Hf Hn] _. split; apply elem_of_app; by right.
  - intros stop [= <-] w u w' [= _ <-]. split; [by intros f []|done].
Qed.

(** A host without any namespace, and one on which the daemon is missing. *)
Definition sim_lab : sim := mkSim 0 false 0 true [] (sim_taps_of linear_basic).
Definition sim_no_daemon : sim := mkSim 0 false 0 false [] [].

Definition ok_result {E A S} (r : res E A * S) : bool :=
  match r with (Ok _, _) => true | (Err _, _) => false end.

Lemma apply_builds_witness :
  ∃ t cur' w', manager_apply sim_manager "lab.yaml" (None, sim_lab) = (Ok t, (cur', w')) ∧
    tr_applied t = true ∧ holds w' (HasMaster "dpdk-host" "dtap0" "br-in") ∧
    holds w' (HasRoute "tg-sink" "10.0.0.0/24" "10.0.1.254").
Proof.
  assert (ok_result (manager_apply sim_manager "lab.yaml" (None, sim_lab)) &&
    sim_plain (snd (snd (manager_apply sim_manager "lab.yaml" (None, sim_lab)))) = true)
    as [Hok Hplain]%andb_true_iff by (vm_compute; reflexivity).
  destruct (manager_apply sim_manager "lab.yaml" (None, sim_lab)) as [[t|e] [cur' w']] eqn:Hr;
    [|discriminate Hok].
  destruct (apply_builds sim_manager "lab.yaml" None sim_lab t cur' w' Hr)
    as (c & v & w0 & running & Hload & _ & _ & Ht & Hnet).
  injection Hload as <- _. exists t, cur', w'. split; [reflexivity|]. split; [rewrite Ht; reflexivity|].
  assert (ports_uncrossed linear_basic) as Hu
    by (intros p [->|[->|[]%elem_of_nil]%elem_of_cons]%elem_of_cons; discriminate).
  assert (wired linear_basic) as Hw.
  { assert (∀ e, e ∈ linked_interfaces linear_basic → bool_decide (e.2 = "dtap0" ∨ e.2 = "dtap1") = false) as Hl.
    { apply Forall_forall. vm_compute. repeat constructor. }
    split; [intros e He%Hl%bool_decide_eq_false_1 Htap; exact (He Htap)|].
    intros [] [?|?]; discriminate. }
  split; apply (Hnet Hu Hw (sim_plain_host _ Hplain)).
  - exact (WantPortBridged linear_basic (mkDpdkPort "dtap0" "dpdk-host" ingress)
      (list_elem_of_here _ _)).
  - apply (WantRoute linear_basic (mkRoute "tg-sink" "10.0.0.0/24" "10.0.1.254")).
    exists [mkRoute "tg-src" "10.0.1.0/24" "10.0.0.254"], []. split; [reflexivity|].
    intros r' []%elem_of_nil.
Defined.

(** The report of a failed cleanup. *)
Definition cleanup_of (e : pyexn) : option pyval :=
  match e with PktlabExn err => dict_get "cleanup_error" (error_context err) | _ => None end.

Lemma apply_error_cleanup `{ExnText} path v exc cleanup :
  cleanup_of (apply_error path v exc (Some cleanup)) = Some (PyDict (to_dict cleanup)).
Proof. destruct exc; try done. apply dict_get_set. Qed.

(** The spawn fails after the namespaces and links were made. *)
Lemma apply_failure_witness :
  ∃ e cur' w', manager_apply sim_manager "lab.yaml" (None, sim_no_daemon) = (Err e, (cur', w')) ∧
    cur' = None ∧ ∀ i, ¬ holds w' (HasLink "tg-src" i).
Proof.
  assert (match manager_apply sim_manager "lab.yaml" (None, sim_no_daemon) with
    | (Err e, _) => is_pktlab e = true ∧ cleanup_of e = None | _ => False end) as Hrun
    by (vm_compute; split; reflexivity).
  destruct (manager_apply sim_manager "lab.yaml" (None, sim_no_daemon)) as [[t|e] [cur' w']] eqn:Hr;
    [destruct Hrun|destruct Hrun as [Hpk Hclean]].
  exists e, cur', w'. split; [reflexivity|].
  destruct (apply_failure sim_manager "lab.yaml" None sim_no_daemon e cur' w' Hr)
    as [(-> & [Hl|[(c & Hl & Hv)|(c & v & t & w1 & _ & _ & Ht & _)]])|(-> & c & v & w0 & w1 & exc & w2 & Hl & _ & Hb & Hd)].
  - discriminate Hl.
  - injection Hl as <- _. exfalso. pose proof linear_basic_accepted as Ha. unfold accepted in Ha.
    rewrite Hv in Ha. discriminate Ha.
  - discriminate Ht.
  - split; [reflexivity|]. injection Hl as <- _. destruct Hd as [[_ Hd]|[(ce & _ & ->)|[_ Hf]]].
    + intros i. apply Hd. split; [|reflexivity]. apply (bool_decide_unpack _). vm_compute. exact I.
    + rewrite apply_error_cleanup in Hclean. discriminate Hclean.
    + rewrite Hf in Hpk. discriminate Hpk.
Defined.

(** What is applied is taken down again. *)
Definition sim_applied : option AppliedTopology * sim := snd (manager_apply sim_manager "lab.yaml" (None, sim_lab)).

Definition applied_names (cur : option AppliedTopology) : gset string :=
  match cur with Some a => names_of (vt_topology (applied_validated a)) | None => ∅ end.

Lemma destroy_outcomes_witness :
  ∃ t cur' w', manager_destroy sim_manager sim_applied = (Ok t, (cur', w')) ∧
    cur' = None ∧ ∀ i, ¬ holds w' (HasLink "tg-src" i).
Proof.
  assert (ok_result (manager_destroy sim_manager sim_applied) = true) as Hok by (vm_compute; reflexivity).
  assert (bool_decide ("tg-src" ∈ applied_names (fst sim_applied)) = true) as Hcur
    by (vm_compute; reflexivity).
  destruct sim_applied as [cur w].
  destruct (manager_destroy sim_manager (cur, w)) as [[t|e] [cur' w']] eqn:Hr; [|discriminate Hok].
  destruct (destroy_outcomes sim_manager cur w (Ok t) cur' w' Hr) as (-> & _ & _ & _ & _ & Hgone).
  exists t, None, w'. split; [reflexivity|]. split; [reflexivity|]. intros i.
  destruct cur as [a|]; [|discriminate Hcur].
  apply (Hgone a eq_refl). split; [exact (bool_decide_eq_true_1 _ Hcur)|reflexivity].
Defined.

(** The stop callback reports an error, and the network is removed all the
    same. *)
Definition stop_failed : PktlabError := new_ProcessExecutionError "datapath did not stop" [].
Definition sim_stuck_manager : ManagerConfig sim :=
  mkManagerConfig sim (λ _, mret linear_basic) validate_topology_config None
    (Some (raise (PktlabExn stop_failed))) 100 10.

Definition lab_validated : ValidatedTopologyConfig :=
  match validate_topology_config linear_basic with
  | Ok v => v
  | Err _ => validated_of linear_basic []
  end.

Lemma destroy_attempts_witness :
  ∃ w3, _destroy_locked sim_stuck_manager lab_validated (snd sim_applied) =
    (Err (PktlabExn (destroy_error lab_validated [stop_failed])), w3) ∧ sim_net w3 = [].
Proof.
  assert (fst (destroy_links_and_bridges lab_validated (snd sim_applied)) = Ok ()) as Hl2
    by (vm_compute; reflexivity).
  assert (let r := destroy_namespaces lab_validated
                     (snd (destroy_links_and_bridges lab_validated (snd sim_applied))) in
          fst r = Ok () ∧ sim_net (snd r) = []) as Hn2 by (vm_compute; split; reflexivity).
  destruct (destroy_links_and_bridges lab_validated (snd sim_applied)) as [r2 w2] eqn:Hl.
  cbn [fst snd] in *. destruct (destroy_namespaces lab_validated w2) as [r3 w3] eqn:Hn.
  cbn [fst snd] in *. destruct Hn2 as [-> Hnet]. subst r2.
  exists w3. split; [|exact Hnet].
  rewrite (destroy_attempts sim_stuck_manager lab_validated (snd sim_applied)
    (Err (PktlabExn stop_failed)) (snd sim_applied) (Ok ()) w2 (Ok ()) w3 eq_refl Hl Hn).
  reflexivity.
Defined.
