(* ===== verification/SupervisorMoves.v ===== *)
(** * What the supervisor does to its host

    Any preorder on the host that the calls on processes, on the IPC client
    and on the clock respect, the supervisor respects: starting needs all of
    them, stopping only those on processes. *)

From S2P Require Import Prelude PyStr Errors Types State DpdkModels Clock Supervisor.

(** The calls on a child that exists. *)
Class EndingRespects {W} `{Processes W} (R : relation W) : Prop := {
  er_preorder :: PreOrder R;
  er_poll h : respects R (proc_poll h);
  er_terminate h : respects R (proc_terminate h);
  er_kill h : respects R (proc_kill h);
  er_wait h t : respects R (proc_wait h t);
  er_closed h : respects R (stderr_closed h);
  er_read h : respects R (stderr_read h);
  er_close h : respects R (stderr_close h);
}.

(** The other calls the supervisor makes. *)
Class RunningRespects {W} `{Clock W, Processes W, Ipc W} (R : relation W) : Prop := {
  rr_ending :: EndingRespects R;
  rr_monotonic : respects R clock_monotonic;
  rr_sleep d : respects R (clock_sleep d);
  rr_spawn argv : respects R (proc_spawn argv);
  rr_ping path : respects R (ipc_ping path);
  rr_version path : respects R (ipc_get_version path);
  rr_health path : respects R (ipc_get_health path);
}.

(** A relation on the host, whatever the attributes. *)
Definition on_world {S W} (R : relation W) : relation (S * W) := λ x y, R (snd x) (snd y).

#[export] Instance on_world_preorder {S W} (R : relation W) `{!PreOrder R} : PreOrder (on_world (S:=S) R).
Proof. split; unfold on_world; [intros x; reflexivity|intros x y z; by etransitivity]. Qed.

#[export] Hint Extern 0 (EndingRespects _) => apply _ : respects.
#[export] Hint Extern 0 (RunningRespects _) => apply _ : respects.
#[export] Hint Extern 1 (respects _ (proc_poll _)) => apply er_poll : respects.
#[export] Hint Extern 1 (respects _ (proc_terminate _)) => apply er_terminate : respects.
#[export] Hint Extern 1 (respects _ (proc_kill _)) => apply er_kill : respects.
#[export] Hint Extern 1 (respects _ (proc_wait _ _)) => apply er_wait : respects.
#[export] Hint Extern 1 (respects _ (stderr_closed _)) => apply er_closed : respects.
#[export] Hint Extern 1 (respects _ (stderr_read _)) => apply er_read : respects.
#[export] Hint Extern 1 (respects _ (stderr_close _)) => apply er_close : respects.
#[export] Hint Extern 1 (respects _ clock_monotonic) => apply rr_monotonic : respects.
#[export] Hint Extern 1 (respects _ (clock_sleep _)) => apply rr_sleep : respects.
#[export] Hint Extern 1 (respects _ (proc_spawn _)) => apply rr_spawn : respects.
#[export] Hint Extern 1 (respects _ (ipc_ping _)) => apply rr_ping : respects.
#[export] Hint Extern 1 (respects _ (ipc_get_version _)) => apply rr_version : respects.
#[export] Hint Extern 1 (respects _ (ipc_get_health _)) => apply rr_health : respects.

Section moves.
Context {W : Type} `{Clock W, Processes W, Ipc W} (config : SupervisorConfig) (R : relation W).

Abbreviation RS := (on_world (S := supervisor_state) R).

Section ending.
Context `{!EndingRespects R}.

Lemma moves_world {A} (m : pym pyexn W A) : respects R m → respects RS (world m).
Proof. by apply respects_on_snd. Qed.

Lemma moves_set_s f : respects RS (set_s f).
Proof. apply respects_modify. intros [s w]. unfold on_world. reflexivity. Qed.

Lemma moves_get_s {A} (f : supervisor_state → A) : respects RS (get_s f).
Proof. apply respects_gets, _. Qed.
#[local] Hint Resolve moves_world moves_set_s moves_get_s : respects.

Lemma moves_consume h : respects RS (_consume_stderr_locked h).
Proof.
  unfold _consume_stderr_locked. moves. apply moves_world. moves.
Qed.
#[local] Hint Resolve moves_consume : respects.

Lemma moves_end_child h : respects RS (end_child config h).
Proof. unfold end_child. moves. Qed.
#[local] Hint Resolve moves_end_child : respects.

Lemma moves_stop clear : respects RS (_stop_locked config clear).
Proof. unfold _stop_locked. moves. Qed.
End ending.

Section running.
Context `{!RunningRespects R}.
#[local] Hint Resolve moves_world moves_set_s moves_get_s moves_consume moves_stop : respects.

Lemma moves_check {A} label (r : CommandResult A) : respects RS (check_result config label r).
Proof. unfold check_result, process_error. moves. Qed.
#[local] Hint Resolve moves_check : respects.

Lemma moves_require : respects RS (_require_client_locked config).
Proof. unfold _require_client_locked, process_error. moves. Qed.
#[local] Hint Resolve moves_require : respects.

Lemma moves_refresh h : respects RS (_refresh_ipc_state_locked config h).
Proof. unfold _refresh_ipc_state_locked. moves. Qed.
#[local] Hint Resolve moves_refresh : respects.

Lemma moves_on_transport {A} (k : pym pyexn (supervisor_state * W) A) e :
  respects RS k → respects RS (on_transport k e).
Proof. intros Hk. unfold on_transport. moves; done. Qed.
#[local] Hint Resolve moves_on_transport : respects.

Lemma moves_monotonic : respects RS clock_monotonic.
Proof. exact (moves_world _ (rr_monotonic (R := R))). Qed.
Lemma moves_sleep d : respects RS (clock_sleep d).
Proof. exact (moves_world _ (rr_sleep (R := R) d)). Qed.

Lemma moves_poll_loop {A} fuel deadline interval
    (body : pym pyexn (supervisor_state * W) (option A)) :
  respects RS body → respects RS (poll_loop fuel deadline interval body).
Proof.
  intros Hb.
  pose proof moves_monotonic as Hm. pose proof moves_sleep as Hs.
  induction fuel as [|fuel IH]; cbn [poll_loop]; moves.
Qed.

Lemma moves_wait : respects RS (_wait_for_ready_locked config).
Proof.
  unfold _wait_for_ready_locked, poll_until, process_error.
  pose proof moves_monotonic as Hm.
  assert (respects RS (ready_turn config)) as Hturn by (unfold ready_turn, process_error; moves).
  pose proof (λ d, moves_poll_loop (turns (startup_timeout_seconds config)
    (poll_interval_seconds config)) d (poll_interval_seconds config) _ Hturn) as Hl.
  moves.
Qed.
#[local] Hint Resolve moves_wait : respects.

Lemma moves_status : respects RS (supervisor_status config).
Proof. unfold supervisor_status, _status_locked. moves. Qed.

Lemma moves_start : respects RS (supervisor_start config).
Proof. unfold supervisor_start, process_alive, launch. moves. Qed.
End running.
End moves.
