(* ===== verification/ManagerMoves.v ===== *)
(** * What the manager does to its world

    Any preorder on the manager's world that running a command, the clock and
    the callbacks respect, applying and destroying respect: with the
    controller's attributes as part of the world, an invariant of theirs is
    kept by the manager because the callbacks keep it. *)

From S2P Require Import Prelude PyStr Errors Types TopologyValidation Clock DpdkModels Supervisor.
From S2P Require Import Netns Topology Manager SupervisorMoves.

Class HostRespects {W} `{Host W, Clock W} (R : relation W) : Prop := {
  hr_preorder :: PreOrder R;
  hr_run argv : respects R (subprocess_run argv);
  hr_monotonic : respects R clock_monotonic;
  hr_sleep d : respects R (clock_sleep d);
}.

#[export] Hint Extern 1 (respects _ (subprocess_run _)) => apply hr_run : respects.

Section moves.
Context {W : Type} `{Host W, Clock W, ExnText} (R : relation W) `{!HostRespects R}.
Implicit Types v : ValidatedTopologyConfig.

(** ** Commands *)

Lemma moves_run_ip args ns allowed : respects R (run_ip args ns allowed).
Proof. unfold run_ip, executor_run. moves. Qed.
#[local] Hint Resolve moves_run_ip : respects.

Lemma moves_change c : respects R (change c).
Proof. unfold change. moves. Qed.
#[local] Hint Resolve moves_change : respects.

Lemma moves_link_exists ns i : respects R (link_exists ns i).
Proof. unfold link_exists. moves. Qed.
Lemma moves_namespace_exists ns : respects R (namespace_exists ns).
Proof. unfold namespace_exists, list_namespaces. moves. Qed.
#[local] Hint Resolve moves_link_exists moves_namespace_exists : respects.

Lemma moves_ensure_namespace ns : respects R (ensure_namespace ns).
Proof. unfold ensure_namespace. moves. Qed.
Lemma moves_delete_namespace ns : respects R (delete_namespace ns).
Proof. unfold delete_namespace. moves. Qed.
Lemma moves_ensure_bridge ns b : respects R (ensure_bridge ns b).
Proof. unfold ensure_bridge. moves. Qed.
Lemma moves_delete_link ns i : respects R (delete_link ns i).
Proof. unfold delete_link. moves. Qed.
Lemma moves_veth na ia nb ib : respects R (ensure_veth_pair na ia nb ib).
Proof. unfold ensure_veth_pair. moves. Qed.
#[local] Hint Resolve moves_ensure_namespace moves_delete_namespace moves_ensure_bridge
  moves_delete_link moves_veth : respects.

(** ** Phases *)

Lemma moves_wait_for_link v timeout interval i : respects R (wait_for_link v timeout interval i).
Proof.
  unfold wait_for_link, wait_until, poll_until.
  pose proof hr_monotonic as Hm. pose proof hr_sleep as Hs.
  assert (∀ fuel d (body : pym pyexn W (option unit)), respects R body →
    respects R (poll_loop fuel d interval body)) as Hl.
  { intros fuel d body Hb. induction fuel as [|fuel IH]; cbn [poll_loop]; moves. }
  moves. apply Hl. moves.
Qed.

Lemma moves_reconcile_taps v timeout interval : respects R (reconcile_taps v timeout interval).
Proof.
  pose proof (moves_wait_for_link v timeout interval) as Hw.
  unfold reconcile_taps, attach_to_bridge, set_link_up. moves.
Qed.

Lemma moves_destroy_links v : respects R (destroy_links_and_bridges v).
Proof.
  unfold destroy_links_and_bridges, destroy_link. moves.
Qed.

Lemma moves_phases v :
  respects R (ensure_namespaces v) ∧ respects R (ensure_links v) ∧ respects R (ensure_bridges v) ∧
  respects R (bring_link_endpoints_up v) ∧ respects R (ensure_routes v) ∧
  respects R (destroy_namespaces v).
Proof.
  unfold ensure_namespaces, ensure_links, ensure_link, address_if, replace_address, ensure_bridges,
    bring_link_endpoints_up, bring_up, set_link_up, ensure_routes, replace_route, destroy_namespaces.
  split_and!; moves.
Qed.

(** ** The manager *)

Section manager.
Context (m : ManagerConfig W).
Context (Hload : ∀ path, respects R (load_topology m path)).
Context (Hstart : ∀ start v, start_datapath m = Some start → respects R (start v)).
Context (Hstop : ∀ stop, stop_datapath m = Some stop → respects R stop).

Lemma moves_collect (p : pym pyexn W unit) : respects R p → respects R (collect_error p).
Proof. intros Hp. unfold collect_error. moves. Qed.

Lemma moves_destroy_locked v : respects R (_destroy_locked m v).
Proof.
  assert (respects R (_stop_datapath_locked m)) as Hs.
  { unfold _stop_datapath_locked. destruct (stop_datapath m); moves. }
  pose proof (moves_destroy_links v) as Hl.
  destruct (moves_phases v) as (_ & _ & _ & _ & _ & Hn).
  pose proof moves_collect as Hc. unfold _destroy_locked. moves.
Qed.

Lemma moves_build v : respects R (build_topology m v).
Proof.
  assert (respects R (_start_datapath_locked m v)) as Hs.
  { unfold _start_datapath_locked. destruct (start_datapath m); moves. }
  destruct (moves_phases v) as (Hn & Hl & Hb & Hu & Hr & _).
  pose proof (moves_reconcile_taps v) as Ht. unfold build_topology. moves.
Qed.

Lemma moves_failure path v e : respects R (on_apply_failure m path v e).
Proof.
  pose proof (moves_destroy_locked v) as Hd. unfold on_apply_failure, _cleanup_failed_apply. moves.
Qed.

Lemma moves_on_snd {A} (p : pym pyexn W A) :
  respects R p → respects (on_world R) (on_snd p : pym pyexn (option AppliedTopology * W) A).
Proof. by apply respects_on_snd. Qed.
#[local] Hint Resolve moves_on_snd : respects.

Lemma moves_set_current a : respects (on_world R) (set_current a).
Proof. apply respects_modify. intros [cur w]. unfold on_world. reflexivity. Qed.
#[local] Hint Resolve moves_set_current moves_destroy_locked moves_build moves_failure : respects.

Lemma moves_apply path : respects (on_world R) (manager_apply m path).
Proof.
  unfold manager_apply, take_down_current.
  assert (∀ v, respects R (try_except (build_topology m v) (on_apply_failure m path v))) as Ht
    by (intros v; moves).
  moves.
Qed.

Lemma moves_destroy : respects (on_world R) (manager_destroy m).
Proof. unfold manager_destroy. moves. Qed.
End manager.
End moves.
