(* ===== verification/App.v ===== *)
(** * The controller runtime

    [app.py]: the controller's attributes, the datapath supervisor it owns and
    the topology manager it calls.  The manager's callbacks run on the
    controller's attributes, so the manager's world is the pair of them and
    the host; an operation is one computation over both. *)

From S2P Require Import Prelude PyStr Errors Types State Issues TopologyValidation Clock.
From S2P Require Import DpdkModels Supervisor Netns Topology Manager.
#[local] Open Scope string_scope.
#[local] Open Scope list_scope.

(** ** Configuration *)

Record ControllerConfig : Type := mkControllerConfig {
  datapath_binary : string;
  datapath_socket_path : string;
  datapath_startup_timeout_seconds : Z;
  supervise_datapath : bool;
}.

(** [ControllerConfig.__post_init__] *)
Definition new_ControllerConfig (c : ControllerConfig) : res pyexn ControllerConfig :=
  refuse_if (blank (datapath_binary c)) "datapath_binary must be a non-empty string";;
  refuse_if (blank (datapath_socket_path c)) "datapath_socket_path must be a non-empty string";;
  refuse_if (datapath_startup_timeout_seconds c <=? 0)%Z
    "datapath_startup_timeout_seconds must be greater than zero";;
  mret c.

(** ** Snapshots *)

Record ControllerHealthSnapshot : Type := mkSnapshot {
  snap_controller_service : string;
  snap_controller_version : string;
  snap_controller_state : ControllerState;
  snap_controller_message : string;
  snap_desired_state : DesiredState;
  snap_observed_state : ObservedState;
  snap_datapath_status : DatapathProcessStatus;
}.

Record DatapathRuntimeStatusSnapshot : Type := mkRuntimeStatus {
  rs_controller_snapshot : ControllerHealthSnapshot;
  rs_ports : list PortInfoModel;
}.

Record DatapathRuntimeStatsSnapshot : Type := mkRuntimeStats {
  rt_datapath_status : DatapathProcessStatus;
  rt_stats : DatapathStatsModel;
}.

Record DatapathStatsResetResult : Type := mkResetResult {
  rr_datapath_status : DatapathProcessStatus;
  rr_stats : DatapathStatsModel;
  rr_message : string;
}.

Record DatapathControlResult : Type := mkControlResult {
  cr_datapath_status : DatapathProcessStatus;
  cr_message : string;
}.

(** ** The controller's attributes *)

Record controller : Type := mkController {
  _desired_state : DesiredState;
  _observed_state : ObservedState;
  _controller_state : ControllerState;
  _controller_message : string;
  _controller_override_message : option string;
  _started : bool;
  _supervisor : option (SupervisorConfig * supervisor_state);
}.

Definition set_desired (d : DesiredState) (c : controller) : controller :=
  mkController d (_observed_state c) (_controller_state c) (_controller_message c)
    (_controller_override_message c) (_started c) (_supervisor c).
Definition set_observed (o : ObservedState) (c : controller) : controller :=
  mkController (_desired_state c) o (_controller_state c) (_controller_message c)
    (_controller_override_message c) (_started c) (_supervisor c).
Definition set_phase (s : ControllerState) (message : string) (c : controller) : controller :=
  mkController (_desired_state c) (_observed_state c) s message
    (_controller_override_message c) (_started c) (_supervisor c).
Definition set_override (o : option string) (c : controller) : controller :=
  mkController (_desired_state c) (_observed_state c) (_controller_state c) (_controller_message c)
    o (_started c) (_supervisor c).
Definition set_started (b : bool) (c : controller) : controller :=
  mkController (_desired_state c) (_observed_state c) (_controller_state c) (_controller_message c)
    (_controller_override_message c) b (_supervisor c).
Definition set_supervisor (s : option (SupervisorConfig * supervisor_state)) (c : controller)
    : controller :=
  mkController (_desired_state c) (_observed_state c) (_controller_state c) (_controller_message c)
    (_controller_override_message c) (_started c) s.

(** [f"{state}"] of a datapath state *)
Definition datapath_state_text (s : DatapathState) : string :=
  match s with
  | DS_starting => "starting" | DS_running => "running" | DS_paused => "paused"
  | DS_degraded => "degraded" | DS_stopping => "stopping" | DS_failed => "failed"
  end.

(** [_map_datapath_error_code] *)
Definition _map_datapath_error_code (code : DatapathErrorCode) : ErrorCode.t :=
  match code with
  | DE_INVALID_REQUEST => ErrorCode.INVALID_REQUEST
  | DE_INVALID_PAYLOAD => ErrorCode.INVALID_PAYLOAD
  | DE_UNKNOWN_COMMAND => ErrorCode.UNKNOWN_COMMAND
  | DE_RULE_VALIDATION_ERROR => ErrorCode.RULE_VALIDATION_ERROR
  | DE_PORT_INIT_ERROR => ErrorCode.PORT_INIT_ERROR
  | DE_STATE_CONFLICT => ErrorCode.STATE_CONFLICT
  | DE_INTERNAL_ERROR => ErrorCode.INTERNAL_ERROR
  end.

(** [_pktlab_error_from_datapath_error] *)
Definition _pktlab_error_from_datapath_error (error : DatapathErrorModel) : PktlabError :=
  new_PktlabError (_map_datapath_error_code (de_code error)) (de_message error) [].

(** [build_dpdk_runtime_args] *)
Definition build_dpdk_runtime_args (validated : ValidatedTopologyConfig) : res pyexn (list string) :=
  let effective := vt_effective_dpdk_config validated in
  ingress_port_name ← _port_name_for_role validated ingress;
  egress_port_name ← _port_name_for_role validated egress;
  mret ["--lcores"; eff_lcores effective;
        "--hugepages-mb"; str_of_Z (eff_hugepages_mb effective);
        "--burst-size"; str_of_Z (eff_burst_size effective);
        "--rx-queue-size"; str_of_Z (eff_rx_queue_size effective);
        "--tx-queue-size"; str_of_Z (eff_tx_queue_size effective);
        "--mempool-size"; str_of_Z (eff_mempool_size effective);
        "--ingress-port-name"; ingress_port_name;
        "--egress-port-name"; egress_port_name].

(** Defaults of [SupervisorConfig], of [TopologyManager] and of
    [ControllerConfig], in ticks of a millisecond. *)
Definition DEFAULT_POLL_INTERVAL : Z := 50.
Definition DEFAULT_TIMEOUT : Z := 5000.

(** [load_topology_config]: reading and parsing a YAML document. *)
Class Loader (W : Type) := load_topology_config : string → pym pyexn W TopologyConfigModel.

Section app.
Context {W : Type} `{Clock W} `{Processes W} `{Ipc W} `{Host W} `{Loader W} `{ExnText}.
Context (config : ControllerConfig).

(** Methods that leave the topology manager alone, and those that call it. *)
Abbreviation C := (pym pyexn (controller * W)).
Abbreviation M := (pym pyexn (option AppliedTopology * (controller * W))).

Definition get_c {A} (f : controller → A) : C A := gets (f ∘ fst).
Definition set_c (f : controller → controller) : C unit := modify (λ '(c, w), (f c, w)).

(** A call of the supervisor; [none] is the branch for [self._supervisor is None]. *)
Definition with_supervisor {A} (call : SupervisorConfig → pym pyexn (supervisor_state * W) A)
    (none : C A) : C A := λ '(c, w),
  match _supervisor c with
  | Some (cfg, s) =>
      let '(r, (s', w')) := call cfg (s, w) in
      (r, (set_supervisor (Some (cfg, s')) c, w'))
  | None => none (c, w)
  end.

(** [_build_supervisor_config] *)
Definition _build_supervisor_config (namespace : option string) (extra_args : list string)
    : res pyexn SupervisorConfig :=
  new_SupervisorConfig (mkSupervisorConfig (datapath_binary config) (datapath_socket_path config)
    (match namespace with Some ns => ["ip"; "netns"; "exec"; ns] | None => [] end) extra_args
    (datapath_startup_timeout_seconds config) DEFAULT_POLL_INTERVAL DEFAULT_TIMEOUT).

(** [_unmanaged_datapath_status] *)
Definition _unmanaged_datapath_status : DatapathProcessStatus :=
  mkStatus (supervise_datapath config) (datapath_socket_path config) None false false None None
    None None.

(** [_current_datapath_status_locked] *)
Definition _current_datapath_status_locked : C DatapathProcessStatus :=
  started ← get_c _started;
  if started : bool then with_supervisor supervisor_status (mret _unmanaged_datapath_status)
  else mret _unmanaged_datapath_status.

(** [_observed_from_datapath] *)
Definition _observed_from_datapath (status : DatapathProcessStatus) (topology_applied : bool)
    (effective : option EffectiveDpdkRuntimeModel) : C ObservedState :=
  captures ← get_c (active_captures ∘ _observed_state);
  pym_lift (new_ObservedState (mkObserved (health_state <$> status_health status)
    (health_applied_rule_version <$> status_health status) (status_pid status) effective captures
    topology_applied)).

(** [self._observed_state = self._observed_from_datapath(...)] *)
Definition observe (status : DatapathProcessStatus) (topology_applied : bool)
    (effective : option EffectiveDpdkRuntimeModel) : C unit :=
  o ← _observed_from_datapath status topology_applied effective;
  set_c (set_observed o).

(** The same with what the current observation says of the topology. *)
Definition reobserve (status : DatapathProcessStatus) : C unit :=
  o ← get_c _observed_state;
  observe status (topology_applied o) (effective_dpdk_config o).

(** [self._desired_state = DesiredState(...)] *)
Definition desire (d : DesiredState) : C unit :=
  d' ← pym_lift (new_DesiredState d);
  set_c (set_desired d').

(** [_desired_state_without_topology] *)
Definition _desired_state_without_topology (c : controller) : DesiredState :=
  mkDesired None None None None (if _started c then CS_running else CS_stopped) false.

(** What [_recompute_controller_health] makes of the attributes and a status. *)
Definition controller_health (c : controller) (status : DatapathProcessStatus)
    : ControllerState * string :=
  match _controller_override_message c with
  | Some message => (CS_degraded, message)
  | None =>
      if negb (_started c) && bool_decide (_controller_state c = CS_stopped) then
        (_controller_state c, "controller is not started")
      else if negb (supervise_datapath config) then
        (CS_running, "controller ready without datapath supervision")
      else if negb (desired_datapath_running (_desired_state c)) then
        if status_running status then
          (CS_degraded, "datapath process is running without an active topology")
        else (CS_running, "controller ready without active topology")
      else if negb (status_running status) then
        (CS_degraded, or_str (status_last_error status) "datapath process is not running")
      else match reachable status, status_health status with
           | true, Some health =>
               if decide (health_state health = DS_running) then (CS_running, "controller ready")
               else (CS_degraded, "datapath reported state "
                       +:+ datapath_state_text (health_state health) +:+ ": "
                       +:+ health_message health)
           | _, _ =>
               (CS_degraded, or_str (status_last_error status) "datapath IPC is not reachable")
           end
  end.

(** [_recompute_controller_health] *)
Definition _recompute_controller_health (status : DatapathProcessStatus) : C unit :=
  set_c (λ c, let '(state, message) := controller_health c status in set_phase state message c).

(** [_clear_controller_override] *)
Definition _clear_controller_override : C unit := set_c (set_override None).

(** ** The manager's callbacks *)

(** [_start_topology_datapath] *)
Definition _start_topology_datapath (validated : ValidatedTopologyConfig) : C DatapathProcessStatus :=
  if negb (supervise_datapath config) then
    raise (PktlabExn (new_PktlabError ErrorCode.STATE_CONFLICT
      "controller was started without datapath supervision, so topology apply cannot launch pktlab-dpdkd" []))
  else
    with_supervisor supervisor_stop (mret ());;
    args ← pym_lift (build_dpdk_runtime_args validated);
    cfg ← pym_lift (_build_supervisor_config
                      (Some (req_namespace (vt_requested_dpdk_config validated))) args);
    set_c (set_supervisor (Some (cfg, new_supervisor)));;
    with_supervisor supervisor_start (mret _unmanaged_datapath_status).

(** [_stop_topology_datapath] *)
Definition _stop_topology_datapath : C unit := with_supervisor supervisor_stop (mret ()).

Definition app_manager : ManagerConfig (controller * W) :=
  mkManagerConfig _ (λ path, on_snd (load_topology_config path)) validate_topology_config
    (Some _start_topology_datapath) (Some _stop_topology_datapath)
    DEFAULT_TIMEOUT DEFAULT_POLL_INTERVAL.

(** ** Life cycle *)

(** [__init__]: the supervisor is built here when the datapath is supervised. *)
Definition new_controller : res pyexn controller :=
  d ← new_DesiredState (mkDesired None None None None CS_stopped (supervise_datapath config));
  o ← new_ObservedState empty_observed;
  supervisor ← (if supervise_datapath config then
                  cfg ← _build_supervisor_config None [];
                  mret (Some (cfg, new_supervisor))
                else mret None);
  mret (mkController d o CS_stopped "controller is not started" None false supervisor).

Definition runtime_start : C unit :=
  started ← get_c _started;
  if started : bool then mret ()
  else
    _clear_controller_override;;
    set_c (set_phase CS_starting "starting controller runtime");;
    desire (mkDesired None None None None CS_running (supervise_datapath config));;
    status ← with_supervisor supervisor_start (mret _unmanaged_datapath_status);
    reobserve status;;
    set_c (set_started true);;
    _recompute_controller_health status.

Definition runtime_stop : M unit :=
  started ← on_snd (get_c _started);
  if negb started then mret ()
  else
    on_snd _clear_controller_override;;
    on_snd (set_c (set_phase CS_stopping "stopping controller runtime"));;
    current ← gets fst;
    (if has_applied_topology current then manager_destroy app_manager;; mret ()
     else on_snd _stop_topology_datapath);;
    on_snd (observe _unmanaged_datapath_status false None);;
    on_snd (desire (mkDesired None None None None CS_stopped false));;
    on_snd (set_c (set_phase CS_stopped "controller stopped"));;
    on_snd (set_c (set_started false)).

(** ** Topologies *)

(** The [except] of [apply_topology]. *)
Definition on_apply_error {A} (config_path : string) (e : pyexn) : M A :=
  status ← on_snd _current_datapath_status_locked;
  current ← gets fst;
  (if negb (has_applied_topology current) then
     d ← on_snd (get_c _desired_state_without_topology);
     on_snd (desire d);;
     on_snd (observe status false None)
   else on_snd (reobserve status));;
  on_snd (set_c (set_override (Some ("failed to apply topology from " +:+ config_path))));;
  on_snd (_recompute_controller_health status);;
  raise e.

Definition apply_topology (config_path : string) : M TopologyOperationResult :=
  if blank config_path then raise (ValueError (Some "config_path must be a non-empty string"))
  else
    on_snd _clear_controller_override;;
    on_snd (set_c (set_phase CS_reconciling ("applying topology from " +:+ config_path)));;
    result ← try_except (manager_apply app_manager config_path) (on_apply_error config_path);
    on_snd _clear_controller_override;;
    on_snd (desire (mkDesired (tr_config_path result) (tr_topology_name result) None
              (tr_requested_dpdk_config result) CS_running (tr_applied result)));;
    status ← on_snd _current_datapath_status_locked;
    on_snd (observe status (tr_applied result) (tr_effective_dpdk_config result));;
    on_snd (_recompute_controller_health status);;
    mret result.

(** The [except] of [destroy_topology]. *)
Definition on_destroy_error {A} (e : pyexn) : M A :=
  status ← on_snd _current_datapath_status_locked;
  on_snd (reobserve status);;
  on_snd (set_c (set_override (Some "failed to destroy topology")));;
  on_snd (_recompute_controller_health status);;
  raise e.

Definition destroy_topology : M TopologyOperationResult :=
  on_snd _clear_controller_override;;
  on_snd (set_c (set_phase CS_reconciling "destroying topology"));;
  result ← try_except (manager_destroy app_manager) on_destroy_error;
  on_snd _stop_topology_datapath;;
  on_snd _clear_controller_override;;
  d ← on_snd (get_c _desired_state_without_topology);
  on_snd (desire d);;
  status ← on_snd _current_datapath_status_locked;
  on_snd (observe status false None);;
  on_snd (_recompute_controller_health status);;
  mret result.

(** ** Queries and datapath commands *)

Definition __version__ : string := "0.1.0".

Definition health_snapshot : C ControllerHealthSnapshot :=
  status ← _current_datapath_status_locked;
  live ← get_c (λ c, _started c && match _supervisor c with Some _ => true | None => false end);
  (if live : bool then reobserve status;; _recompute_controller_health status else mret ());;
  get_c (λ c, mkSnapshot "pktlab-ctrld" __version__ (_controller_state c) (_controller_message c)
                (_desired_state c) (_observed_state c) status).

(** [if not result.ok: raise self._pktlab_error_from_datapath_error(...)] *)
Definition raise_if_failed {A} (r : CommandResult A) : C unit :=
  match result_error r with
  | Some error => raise (PktlabExn (_pktlab_error_from_datapath_error error))
  | None => mret ()
  end.

Definition datapath_status_snapshot : C DatapathRuntimeStatusSnapshot :=
  snapshot ← health_snapshot;
  ports ← (if reachable (snap_datapath_status snapshot) then
             with_supervisor (λ cfg, r ← supervisor_get_ports cfg; mret (Some r)) (mret None)
           else mret None);
  ports ← match ports with
          | Some r => raise_if_failed r;; p ← pym_lift (unwrap r); mret (payload_ports p)
          | None => mret []
          end;
  mret (mkRuntimeStatus snapshot ports).

Definition not_supervising {A} : C A :=
  raise (PktlabExn (new_PktlabError ErrorCode.STATE_CONFLICT
    "controller is not supervising a datapath process" [])).

Definition datapath_stats_snapshot : C DatapathRuntimeStatsSnapshot :=
  status ← _current_datapath_status_locked;
  r ← with_supervisor supervisor_get_stats not_supervising;
  raise_if_failed r;;
  p ← pym_lift (unwrap r);
  mret (mkRuntimeStats status (payload_stats p)).

Definition reset_datapath_stats : C DatapathStatsResetResult :=
  reset ← with_supervisor supervisor_reset_stats not_supervising;
  raise_if_failed reset;;
  status ← _current_datapath_status_locked;
  r ← with_supervisor supervisor_get_stats not_supervising;
  raise_if_failed r;;
  p ← pym_lift (unwrap r);
  ack ← pym_lift (unwrap reset);
  mret (mkResetResult status (payload_stats p) (ack_message ack)).

(** [_run_datapath_control_command] *)
Definition _run_datapath_control_command
    (command : SupervisorConfig → pym pyexn (supervisor_state * W) (CommandResult AckPayload))
    : C DatapathControlResult :=
  r ← with_supervisor command not_supervising;
  raise_if_failed r;;
  status ← _current_datapath_status_locked;
  reobserve status;;
  _recompute_controller_health status;;
  ack ← pym_lift (unwrap r);
  mret (mkControlResult status (ack_message ack)).

Definition runtime_pause_datapath : C DatapathControlResult :=
  _run_datapath_control_command supervisor_pause_datapath.
Definition runtime_resume_datapath : C DatapathControlResult :=
  _run_datapath_control_command supervisor_resume_datapath.
End app.
