(* ===== verification/AppProps.v ===== *)
(** * Properties of the controller runtime

    What the callbacks the manager is given do to the host and to the
    controller's attributes, what the manager leaves of the attributes, and
    the last sections of applying and destroying as computations of their
    own. *)

From S2P Require Import Prelude PyStr IpAddress Errors Types State Issues.
From S2P Require Import TopologyValidation TopologySpec TopologyProps Clock DpdkModels.
From S2P Require Import Supervisor SupervisorProps SupervisorMoves Netns Topology TopologyWiring.
From S2P Require Import Manager ManagerProps ManagerMoves App.
#[local] Open Scope string_scope.
#[local] Open Scope list_scope.

(** ** A host on which the datapath minds its own business *)

(** A step may take away interfaces of the datapath, and nothing else. *)
Definition keeps_net {W} `{IpLaws W, Taps} : relation W :=
  λ w w', ∀ f, holds w f → ¬ tap_fact f → holds w' f.
(** A step adds nothing to the network. *)
Definition adds_no_net {W} `{IpLaws W} : relation W := λ w w', ∀ f, holds w' f → holds w f.

#[export] Instance keeps_net_preorder {W} `{IpLaws W, Taps} : PreOrder (keeps_net (W:=W)).
Proof. split; [by intros w f|]. intros w1 w2 w3 H12 H23 f Hf Hn. auto. Qed.

Class QuietHost (W : Type) `{Clock W, Processes W, Ipc W, IpLaws W, Taps, Loader W} : Prop := {
  qh_running :: RunningRespects (W:=W) keeps_net;
  qh_ending :: EndingRespects (W:=W) adds_no_net;
}.

Section app_props.
Context {W : Type} `{Clock W} `{Processes W} `{Ipc W} `{Host W} `{Loader W} `{ExnText}.
Context (config : ControllerConfig).

(** ** The supervisor inside the controller *)

Lemma with_supervisor_moves {A} (R : relation W) `{!PreOrder R} call none :
  (∀ cfg, respects (on_world R) (call cfg)) → respects (on_world R) none →
  respects (on_world R) (with_supervisor (A:=A) call none).
Proof.
  intros Hc Hn [c w] r [c' w']. unfold with_supervisor.
  destruct (_supervisor c) as [[cfg s]|]; [|by apply Hn].
  destruct (call cfg (s, w)) as [r1 [s1 w1]] eqn:Hr. apply Hc in Hr. by intros [= _ _ <-].
Qed.

(** The attributes other than the supervisor stay. *)
Definition same_view : relation (controller * W) := λ x y, ∃ s, fst y = set_supervisor s (fst x).

#[export] Instance same_view_preorder : PreOrder same_view.
Proof.
  split; [intros [[] w]; by eexists|]. intros [c1 w1] [c2 w2] [c3 w3] [s2 Hs2] [s3 Hs3]. simpl in *.
  exists s3. by rewrite Hs3, Hs2.
Qed.

Lemma with_supervisor_view {A} call none :
  respects same_view none → respects same_view (with_supervisor (A:=A) call none).
Proof.
  intros Hn [c w] r [c' w']. unfold with_supervisor.
  destruct (_supervisor c) as [[cfg s]|]; [|by apply Hn].
  destruct (call cfg (s, w)) as [r1 [s1 w1]]. intros [= _ <- _]. by eexists.
Qed.

Lemma current_status_view : respects same_view (_current_datapath_status_locked config).
Proof.
  pose proof (@with_supervisor_view) as Hv.
  unfold _current_datapath_status_locked, get_c. moves.
Qed.

Lemma set_c_moves (R : relation W) `{!PreOrder R} f :
  respects (on_world R) (set_c (W:=W) f).
Proof. apply respects_modify. intros [c w]. unfold on_world. reflexivity. Qed.

Lemma current_status_moves R `{!RunningRespects R} :
  respects (on_world R) (_current_datapath_status_locked config).
Proof.
  unfold _current_datapath_status_locked, get_c. moves.
  apply with_supervisor_moves; [apply _| |moves]. intros cfg. apply moves_status, _.
Qed.

Lemma stop_callback_moves R `{!EndingRespects R} :
  respects (on_world R) (_stop_topology_datapath (W:=W)).
Proof.
  apply with_supervisor_moves; [apply _| |moves]. intros cfg. apply moves_stop, _.
Qed.

Lemma start_callback_moves R `{!RunningRespects R} v :
  respects (on_world R) (_start_topology_datapath config v).
Proof.
  pose proof (set_c_moves R) as Hset.
  assert (∀ none, respects (on_world R) none →
    respects (on_world R) (with_supervisor supervisor_start none)) as Hstart.
  { intros none Hn. apply with_supervisor_moves; [apply _| |done]. intros cfg. apply moves_start, _. }
  pose proof (stop_callback_moves R) as Hstop. unfold _stop_topology_datapath in Hstop.
  unfold _start_topology_datapath. moves.
Qed.

(** The manager, too, changes no other attribute. *)
Lemma on_snd_view {A} (m : pym pyexn W A) : respects same_view (on_snd m).
Proof. intros [c w] r [c' w'] [-> _]%on_snd_inv. exists (_supervisor c). by destruct c. Qed.

#[local] Instance same_view_host : HostRespects (W := controller * W) same_view.
Proof. constructor; [apply _|intros; apply on_snd_view..]. Qed.

Lemma set_supervisor_view s : respects same_view (set_c (W:=W) (set_supervisor s)).
Proof. apply respects_modify. intros [c w]. by eexists. Qed.

Lemma start_callback_view v : respects same_view (_start_topology_datapath config v).
Proof.
  pose proof (@with_supervisor_view) as Hv. pose proof set_supervisor_view as Hs.
  unfold _start_topology_datapath. moves.
Qed.

Lemma manager_view path :
  respects (on_world same_view) (manager_apply (app_manager config) path) ∧
  respects (on_world same_view) (manager_destroy (app_manager config)).
Proof.
  assert (respects same_view (_stop_topology_datapath (W:=W))) as Hstop
    by (apply with_supervisor_view; moves).
  split; [apply moves_apply|apply moves_destroy]; try apply _.
  - intros p. apply on_snd_view.
  - intros start v [= <-]. apply start_callback_view.
  - by intros stop [= <-].
  - by intros stop [= <-].
Qed.

(** ** Assignments *)

(** The observation a status gives. *)
Definition observation (c : controller) (status : DatapathProcessStatus) (applied : bool)
    (effective : option EffectiveDpdkRuntimeModel) : ObservedState :=
  mkObserved (health_state <$> status_health status)
    (health_applied_rule_version <$> status_health status) (status_pid status) effective
    (active_captures (_observed_state c)) applied.

Lemma desire_cases d (c : controller) (w : W) :
  (desired_valid d ∧ desire d (c, w) = (Ok (), (set_desired d c, w))) ∨
  (¬ desired_valid d ∧ ∃ e, desire d (c, w) = (Err e, (c, w))).
Proof.
  unfold desire, mbind, pym_mbind, pym_lift. destruct (new_DesiredState d) as [d'|e] eqn:Hd.
  - apply new_DesiredState_ok in Hd as [-> Hd]. by left.
  - right. split; [|by eexists]. intros Hv. pose proof (conj (eq_refl d) Hv) as Hok.
    apply new_DesiredState_ok in Hok. congruence.
Qed.

Lemma observe_cases status applied effective (c : controller) (w : W) :
  let o := observation c status applied effective in
  (observed_valid o ∧ observe status applied effective (c, w) = (Ok (), (set_observed o c, w))) ∨
  (¬ observed_valid o ∧ ∃ e, observe status applied effective (c, w) = (Err e, (c, w))).
Proof.
  intros o. unfold observe, _observed_from_datapath, get_c, gets, mbind, pym_mbind, pym_lift.
  change (new_ObservedState (mkObserved _ _ _ _ _ _)) with (new_ObservedState o). destruct (new_ObservedState o) as [o'|e] eqn:Ho.
  - apply new_ObservedState_ok in Ho as [-> Ho]. by left.
  - right. split; [|by eexists].
    intros Hv. pose proof (conj (eq_refl o) Hv) as Hok. apply new_ObservedState_ok in Hok. congruence.
Qed.
End app_props.

(** ** The controller's manager *)

#[export] Instance app_manager_laws {W} `{Clock W, Processes W, Ipc W, IpLaws W, Taps, Loader W}
    `{!QuietHost W} config : ManagerLaws (app_manager config).
Proof.
  constructor.
  - done.
  - intros start v [= <-]. apply establishes_intro; [intros ns []|]. intros w r w' Hr.
    apply (start_callback_moves config keeps_net v) in Hr. split; [by intros f []|]. apply Hr.
  - intros stop [= <-] w r w' Hr.
    apply (stop_callback_moves adds_no_net) in Hr. split; [by intros f []|]. apply Hr.
Qed.

(** ** The parts of the operations on topologies *)

Section bookkeeping.
Context {W : Type} `{Clock W} `{Processes W} `{Ipc W} `{Host W} `{Loader W} `{ExnText}.
Context (config : ControllerConfig).

Abbreviation M := (pym pyexn (option AppliedTopology * (controller * W))).

(** The attributes while an operation on the topology runs. *)
Definition reconciling (message : string) (c : controller) : controller :=
  set_phase CS_reconciling message (set_override None c).

(** What [apply_topology] does once the manager returned. *)
Definition applied_bookkeeping (result : TopologyOperationResult) : M TopologyOperationResult :=
  on_snd _clear_controller_override;;
  on_snd (desire (mkDesired (tr_config_path result) (tr_topology_name result) None
            (tr_requested_dpdk_config result) CS_running (tr_applied result)));;
  status ← on_snd (_current_datapath_status_locked config);
  on_snd (observe status (tr_applied result) (tr_effective_dpdk_config result));;
  on_snd (_recompute_controller_health config status);;
  mret result.

(** What [destroy_topology] does once the datapath is stopped. *)
Definition destroyed_settle (result : TopologyOperationResult) : M TopologyOperationResult :=
  on_snd _clear_controller_override;;
  d ← on_snd (get_c _desired_state_without_topology);
  on_snd (desire d);;
  status ← on_snd (_current_datapath_status_locked config);
  on_snd (observe status false None);;
  on_snd (_recompute_controller_health config status);;
  mret result.

(** What it does once the manager returned. *)
Definition destroyed_bookkeeping (result : TopologyOperationResult) : M TopologyOperationResult :=
  on_snd _stop_topology_datapath;; destroyed_settle result.
End bookkeeping.
