(* ===== verification/SimController.v ===== *)
(** * A simulated controller

    The controller runtime on the simulated host of [SimWorld]: the instances
    that make it a quiet host, and states of a run that starts the controller,
    applies a topology and has it in place. *)

From S2P Require Import Prelude PyStr IpAddress Errors Types State Issues.
From S2P Require Import TopologyValidation TopologySpec TopologyProps Clock DpdkModels.
From S2P Require Import Supervisor SupervisorMoves Netns SimWorld Topology Manager ManagerProps.
From S2P Require Import App AppProps.
#[local] Open Scope string_scope.
#[local] Open Scope list_scope.

#[export] Instance app_text : ExnText := λ _, "OSError".
#[export] Instance app_taps : Taps := λ _ i, i = "dtap0" ∨ i = "dtap1".
#[export] Instance app_loader : Loader sim := λ path,
  if decide (path = "missing.yaml") then raise (OSErr FileNotFoundError) else mret linear_basic.

#[export] Instance app_quiet : QuietHost sim.
Proof.
  assert (∀ A (m : pym pyexn sim A),
    (∀ s r s', m s = (r, s') → sim_net s' = sim_net s) → respects keeps_net m ∧ respects adds_no_net m) as Hsame.
  { intros A m Hm. split; intros s r s' Hr f; unfold holds; cbn; unfold sim_holds;
      by rewrite (Hm _ _ _ Hr). }
  assert (∀ A (reply : A), respects keeps_net (sim_call reply)) as Hcall.
  { intros A reply. apply Hsame. intros s r s'. unfold sim_call. by destruct (_ && _); intros [= _ <-]. }
  assert (∀ R : relation sim, (R = keeps_net ∨ R = adds_no_net) → PreOrder R → EndingRespects R) as Hend.
  { intros R HR Hpre. constructor; [done|..]; intros; destruct HR as [-> | ->]; apply Hsame;
      intros s r s'; cbn; unfold mret, pym_mret; try (by intros [= _ <-]); by destruct (sim_running s); intros [= _ <-]. }
  constructor; [constructor|].
  - apply Hend; [by left|apply _].
  - apply Hsame. by intros s r s' [= _ <-].
  - intros d. apply Hsame. by intros s r s' [= _ <-].
  - intros argv s r s'. cbn. destruct (sim_spawnable s); intros [= _ <-]; [|done].
    intros f [Hf Hn] _. split; apply elem_of_app; by right.
  - intros path. apply Hcall.
  - intros path. apply Hcall.
  - intros path. apply Hcall.
  - apply Hend; [by right|]. split; [intros s f Hf; exact Hf|]. intros s1 s2 s3 H12 H23 f Hf. auto.
Qed.

Definition app_config : ControllerConfig :=
  mkControllerConfig "pktlab-dpdkd" "/run/pktlab/dpdkd.sock" 5000 true.

Definition app_new : controller :=
  match new_controller app_config with
  | Ok c => c
  | Err _ => mkController empty_desired empty_observed CS_stopped "" None false None
  end.

Lemma app_new_ok : new_controller app_config = Ok app_new.
Proof. vm_compute. reflexivity. Qed.

(** A host without namespaces, whose daemon is up at once. *)
Definition app_host : sim := mkSim 0 false 0 true [] (sim_taps_of linear_basic).

(** Started, with the topology applied, and on a host where the daemon cannot
    be spawned any more. *)
Definition app_state : option AppliedTopology * (controller * sim) :=
  snd (on_snd (runtime_start app_config) (None, (app_new, app_host))).
Definition app_applied : option AppliedTopology * (controller * sim) :=
  snd (apply_topology app_config "lab.yaml" app_state).

(** The laboratory's topology is one whose network can be built. *)
Lemma linear_uncrossed : ports_uncrossed linear_basic.
Proof. intros p [->|[->|[]%elem_of_nil]%elem_of_cons]%elem_of_cons; discriminate. Qed.
Lemma linear_wired : wired linear_basic.
Proof.
  assert (∀ e, e ∈ linked_interfaces linear_basic →
    bool_decide (e.2 = "dtap0" ∨ e.2 = "dtap1") = false) as Hl.
  { apply Forall_forall. vm_compute. repeat constructor. }
  split; [intros e He%Hl%bool_decide_eq_false_1 Htap; exact (He Htap)|].
  intros [] [?|?]; discriminate.
Qed.

(** The child's interfaces are TAPs: bringing them changes nothing else. *)
Lemma sim_taps_add s f :
  ¬ tap_fact f → holds (sim_set_net (sim_tap_facts s ++ sim_net s) s) f ↔ holds s f.
Proof.
  assert (∀ f, ¬ tap_fact f → f ∉ sim_tap_facts s) as Hout.
  { intros f' Ht Hf. apply Ht. apply list_elem_of_fmap in Hf as ([ns []] & -> & _); [by right|by left]. }
  intros Ht. pose proof (Hout f Ht). pose proof (Hout (HasNamespace (fact_namespace f)) (λ F, F)).
  unfold holds, sim_ip_laws, sim_holds. cbn [sim_net sim_set_net]. rewrite !elem_of_app. tauto.
Qed.
