(* ===== verification/AppInvariant.v ===== *)
(** * Invariants of the controller runtime

    The controller's attributes in every reachable state, whatever the calls
    returned or raised; and the agreement between the manager's record and the
    observed state as long as calls return. *)

From S2P Require Import Prelude PyStr Errors Types State Issues TopologyValidation Clock DpdkModels.
From S2P Require Import Supervisor SupervisorProps SupervisorPayloads SupervisorMoves Netns.
From S2P Require Import SimWorld Topology.
From S2P Require Import Manager ManagerMoves App AppProps SimController.
#[local] Open Scope string_scope.

(** ** Operations *)

Inductive runtime_op : Type :=
| RunStart | RunStop | RunApply (path : string) | RunDestroy | RunHealth | RunStatus | RunStats
| RunReset | RunPause | RunResume.

Section runs.
Context {W : Type} `{Clock W} `{Processes W} `{Ipc W} `{Host W} `{Loader W} `{ExnText}.
Context (config : ControllerConfig).

Abbreviation M := (pym pyexn (option AppliedTopology * (controller * W))).

Definition forget {A} (m : M A) : M unit := m;; mret ().

Definition run_runtime_op (o : runtime_op) : M unit :=
  match o with
  | RunStart => on_snd (runtime_start config)
  | RunStop => runtime_stop config
  | RunApply path => forget (apply_topology config path)
  | RunDestroy => forget (destroy_topology config)
  | RunHealth => forget (on_snd (health_snapshot config))
  | RunStatus => forget (on_snd (datapath_status_snapshot config))
  | RunStats => forget (on_snd (datapath_stats_snapshot config))
  | RunReset => forget (on_snd (reset_datapath_stats config))
  | RunPause => forget (on_snd (runtime_pause_datapath config))
  | RunResume => forget (on_snd (runtime_resume_datapath config))
  end.

Inductive runtime_reachable : option AppliedTopology * (controller * W) → Prop :=
| run_new c w : new_controller config = Ok c → runtime_reachable (None, (c, w))
| run_call o x r x' :
    runtime_reachable x → run_runtime_op o x = (r, x') → runtime_reachable x'
| run_world cur c w w' : runtime_reachable (cur, (c, w)) → runtime_reachable (cur, (c, w')).

(** ** The invariant *)

(** A supervisor of this controller: it talks to the controller's socket, has
    a client exactly when it has a process, and remembers valid payloads. *)
Definition supervisor_ok (cfg : SupervisorConfig) (s : supervisor_state) : Prop :=
  dpdkd_binary cfg = datapath_binary config ∧ socket_path cfg = datapath_socket_path config ∧
  pc (paired cfg) s ∧ carries s.

Record controller_ok (c : controller) : Prop := {
  co_supervised : is_Some (_supervisor c) ↔ supervise_datapath config = true;
  co_supervisor cfg s : _supervisor c = Some (cfg, s) → supervisor_ok cfg s;
  co_desired : desired_valid (_desired_state c);
  co_observed : observed_valid (_observed_state c);
  co_message : _controller_message c ≠ "";
  co_override : _controller_override_message c ≠ Some "";
}.

(** Steps that keep it. *)
Definition keeps_ok : relation (controller * W) :=
  λ x y, controller_ok (fst x) → controller_ok (fst y).

#[export] Instance keeps_ok_preorder : PreOrder keeps_ok.
Proof. split; unfold keeps_ok; [by intros x|]. intros x y z. auto. Qed.

Context `{!IpcLaws W} `{!IpcPayloads W} `{!PidLaws W}.
Context (Hpath : datapath_socket_path config ≠ "").

(** A method of the supervisor, and what a value it returns satisfies. *)
Definition method_ok {A} (φ : A → Prop) (call : SupervisorConfig → pym pyexn (supervisor_state * W) A)
    : Prop :=
  ∀ cfg, socket_path cfg ≠ "" → ∀ x r x', call cfg x = (r, x') →
    on_s (pc (paired cfg)) x → on_s carries x →
    (on_s (pc (paired cfg)) x' ∧ on_s carries x') ∧ ∀ a, r = Ok a → φ a.

Lemma method_hoare {A} (φ : A → Prop) (call : SupervisorConfig → pym pyexn (supervisor_state * W) A) :
  (∀ cfg, socket_path cfg ≠ "" → keeping (on_s carries) φ (call cfg)) →
  (∀ cfg, socket_path cfg ≠ "" → ∃ Q : A → _ → Prop,
    hoare (on_s (pc (paired cfg))) (call cfg) Q (λ _, on_s (pc (paired cfg))) ∧
    ∀ a x, Q a x → on_s (pc (paired cfg)) x) →
  method_ok φ call.
Proof.
  intros Hk Hc cfg Hp x r x' Hr Hx Hx2. destruct (Hc cfg Hp) as (Q & Hh & HQ). specialize (Hh x Hx).
  destruct (keeping_run _ _ _ _ _ _ (Hk cfg Hp) Hx2 Hr) as [Hcar Hφ]. split; [split; [|done]|done].
  rewrite Hr in Hh. destruct r as [a|e]; [by apply (HQ a)|done].
Qed.

Lemma supervisor_methods :
  method_ok status_shown supervisor_start ∧ method_ok status_shown supervisor_status ∧
  method_ok (λ _, True) supervisor_stop ∧
  method_ok (payload_ok PortsPayload_ok) supervisor_get_ports ∧
  method_ok (payload_ok (DatapathStatsModel_ok ∘ payload_stats)) supervisor_get_stats ∧
  method_ok (payload_ok AckPayload_ok) supervisor_reset_stats ∧
  method_ok (payload_ok AckPayload_ok) supervisor_pause_datapath ∧
  method_ok (payload_ok AckPayload_ok) supervisor_resume_datapath.
Proof.
  split_and!; (apply method_hoare; intros cfg Hp).
  1: by apply K_start.
  2: by apply K_status.
  3: apply K_stop.
  4: by apply K_data, ports_pay.
  5: by apply K_data, stats_pay.
  6: by apply K_data, reset_pays.
  7: by apply K_data, pause_pays.
  8: by apply K_data, resume_pays.
  1: eexists; split; [by apply start_frame|by intros st x (_ & _ & Hx & _)].
  1: eexists; split; [by apply status_frame|by intros st x (_ & Hx & _)].
  1: { exists (λ _, on_s (pc (paired cfg))). split; [|done].
       eapply hoare_conseq; [apply stop_frame|done| |]; intros ? x Hx; by apply both_none_paired. }
  all: eexists; split; [by apply data_command_frame|done].
Qed.

(** A call of the supervisor, from a controller that satisfies the invariant. *)
Lemma with_supervisor_run {A} (φ : A → Prop) call none c (w : W) r c' w' :
  method_ok φ call → with_supervisor call none (c, w) = (r, (c', w')) → controller_ok c →
  none (c, w) = (r, (c', w')) ∨ (controller_ok c' ∧ ∀ a, r = Ok a → φ a).
Proof.
  intros Hc. unfold with_supervisor. destruct (_supervisor c) as [[cfg s]|] eqn:Hs; [|by left].
  destruct (call cfg (s, w)) as [r1 [s1 w1]] eqn:Hr. intros [= -> <- _]  Hco. right.
  destruct Hco as [Hsup Hok Hd Ho Hm Hov]. destruct (Hok cfg s Hs) as (Hb & Hsock & Hpair & Hcar).
  destruct (Hc cfg ltac:(by rewrite Hsock) _ _ _ Hr Hpair Hcar) as [[Hpair' Hcar'] Hφ].
  split; [|done]. constructor; [| |done..].
  - rewrite <- Hsup, Hs. cbn. by split; eexists.
  - by intros cfg' s' [= <- <-].
Qed.

Lemma with_supervisor_keeps {A} (φ : A → Prop) call none :
  method_ok φ call → respects keeps_ok none → respects keeps_ok (with_supervisor call none).
Proof.
  intros Hc Hn [c w] r [c' w'] Hr Hco.
  destruct (with_supervisor_run _ _ _ _ _ _ _ _ Hc Hr Hco) as [Hr'|[Hco' _]]; [|done].
  by apply (Hn _ _ _ Hr').
Qed.

(** An assignment that touches neither the supervisor nor the two states. *)
Lemma set_phase_keeps s m : m ≠ "" → respects keeps_ok (set_c (W:=W) (set_phase s m)).
Proof. intros Hm. apply respects_modify. by intros [[] w] []. Qed.
Lemma set_override_keeps o : o ≠ Some "" → respects keeps_ok (set_c (W:=W) (set_override o)).
Proof. intros Ho. apply respects_modify. by intros [[] w] []. Qed.
Lemma set_started_keeps b : respects keeps_ok (set_c (W:=W) (set_started b)).
Proof. apply respects_modify. by intros [[] w] []. Qed.

Lemma or_str_text o d : d ≠ "" → or_str o d ≠ "".
Proof. intros Hd. unfold or_str. destruct o; [by case_decide|done]. Qed.

(** The message is never empty. *)
Lemma controller_health_message c status :
  _controller_override_message c ≠ Some "" → snd (controller_health config c status) ≠ "".
Proof.
  intros Ho. unfold controller_health. destruct (_controller_override_message c) as [m|].
  { cbn. intros ->. done. }
  repeat case_match; cbn [snd]; first [by apply or_str_text|discriminate].
Qed.

Lemma recompute_keeps status : respects keeps_ok (_recompute_controller_health (W:=W) config status).
Proof.
  apply respects_modify. intros [c w] Hc. cbn [fst] in *.
  pose proof (controller_health_message c status (co_override _ Hc)) as Hm.
  destruct (controller_health config c status) as [st m]. by destruct c, Hc.
Qed.

Lemma desire_keeps d : respects keeps_ok (desire (W:=W) d).
Proof.
  intros [c w] r [c' w']. destruct (desire_cases d c w) as [[Hv ->]|(_ & e & ->)]; intros [= _ <- _].
  - intros Hc. destruct c, Hc. cbn in *. by constructor.
  - by intros Hc.
Qed.

Lemma observe_keeps status applied eff : respects keeps_ok (observe (W:=W) status applied eff).
Proof.
  intros [c w] r [c' w'].
  destruct (observe_cases status applied eff c w) as [[Hv ->]|(_ & e & ->)]; intros [= _ <- _].
  - intros Hc. destruct c, Hc. cbn in *. by constructor.
  - by intros Hc.
Qed.

Lemma world_keeps {A} (m : pym pyexn W A) : respects keeps_ok (on_snd m).
Proof. intros [c w] r [c' w'] [-> _]%on_snd_inv. by intros Hc. Qed.

#[local] Hint Resolve set_started_keeps recompute_keeps desire_keeps observe_keeps world_keeps : respects.
#[local] Hint Extern 1 (respects _ (with_supervisor _ _)) =>
  eapply with_supervisor_keeps; [eassumption|] : respects.
#[local] Hint Extern 1 (respects _ (set_c (set_phase _ _))) =>
  apply set_phase_keeps; discriminate : respects.
#[local] Hint Extern 1 (respects _ (set_c (set_override _))) =>
  apply set_override_keeps; discriminate : respects.

Lemma get_c_keeps {A} (f : controller → A) : respects keeps_ok (get_c (W:=W) f).
Proof. apply respects_gets, _. Qed.
#[local] Hint Resolve get_c_keeps : respects.

Lemma reobserve_keeps status : respects keeps_ok (reobserve (W:=W) status).
Proof. unfold reobserve. moves. Qed.

Lemma status_keeps : respects keeps_ok (_current_datapath_status_locked config).
Proof.
  destruct supervisor_methods as (_ & Hst & _). unfold _current_datapath_status_locked. moves.
Qed.

Lemma stop_callback_keeps : respects keeps_ok (_stop_topology_datapath (W:=W)).
Proof. destruct supervisor_methods as (_ & _ & Hs & _). unfold _stop_topology_datapath. moves. Qed.
#[local] Hint Resolve reobserve_keeps status_keeps stop_callback_keeps : respects.

Lemma new_supervisor_config_eq c c' : new_SupervisorConfig c = Ok c' → c' = c.
Proof.
  unfold new_SupervisorConfig. rewrite !refuse_if_bind. by intros (_ & _ & _ & _ & _ & _ & _ & [= <-]).
Qed.

(** The callback replaces the supervisor, and only when there is one. *)
Lemma start_callback_keeps v : respects keeps_ok (_start_topology_datapath config v).
Proof.
  destruct supervisor_methods as (Hst & _ & Hs & _). unfold _start_topology_datapath.
  destruct (supervise_datapath config) eqn:Hsup; cbn [negb]; [|moves].
  apply respects_bind; [apply _|moves|intros _]. apply respects_bind; [apply _|moves|intros args].
  intros x r x'. unfold mbind at 1, pym_mbind at 1, pym_lift at 1.
  destruct (_build_supervisor_config _ _ _) as [cfg|e] eqn:Hcfg; [|by intros [= _ <-]].
  intros Hx. eapply respects_bind in Hx; [exact Hx|apply _| |intros _; moves].
  apply respects_modify. intros [c w] []. apply new_supervisor_config_eq in Hcfg as ->.
  constructor; [|by intros cfg s [= <- <-]; split_and!; [..|left|apply carries_new]|done..].
  rewrite Hsup. by split; [|eexists].
Qed.
#[local] Hint Resolve start_callback_keeps : respects.

#[export] Instance keeps_ok_host : HostRespects (W := controller * W) keeps_ok.
Proof. constructor; [apply _|intros; apply world_keeps..]. Qed.

Abbreviation keeps_ok_m := (on_world (S := option AppliedTopology) keeps_ok).

Lemma manager_keeps path :
  respects keeps_ok_m (manager_apply (app_manager config) path) ∧
  respects keeps_ok_m (manager_destroy (app_manager config)).
Proof.
  split; [apply moves_apply|apply moves_destroy]; try apply _.
  - intros p. apply world_keeps.
  - intros start v [= <-]. apply start_callback_keeps.
  - intros stop [= <-]. apply stop_callback_keeps.
  - intros stop [= <-]. apply stop_callback_keeps.
Qed.

Lemma on_snd_keeps {A} (m : pym pyexn (controller * W) A) :
  respects keeps_ok m → respects keeps_ok_m (on_snd m).
Proof. by apply respects_on_snd. Qed.
#[local] Hint Resolve on_snd_keeps : respects.

Lemma gets_keeps {A} (f : option AppliedTopology * (controller * W) → A) :
  respects keeps_ok_m (gets f : M A).
Proof. apply respects_gets, _. Qed.
#[local] Hint Resolve gets_keeps : respects.

Lemma start_keeps_ok : respects keeps_ok (runtime_start config).
Proof.
  destruct supervisor_methods as (Hst & _). unfold runtime_start, _clear_controller_override. moves.
Qed.

Lemma health_keeps : respects keeps_ok (health_snapshot config).
Proof. unfold health_snapshot. moves. Qed.

Lemma raise_if_failed_keeps {A} (r : CommandResult A) : respects keeps_ok (raise_if_failed (W:=W) r).
Proof. unfold raise_if_failed. moves. Qed.
#[local] Hint Resolve start_keeps_ok health_keeps raise_if_failed_keeps : respects.

Lemma not_supervising_keeps {A} : respects keeps_ok (not_supervising (W:=W) (A:=A)).
Proof. unfold not_supervising. moves. Qed.
#[local] Hint Resolve not_supervising_keeps : respects.

Lemma ports_method_ok :
  method_ok (λ o, ∀ r, o = Some r → payload_ok PortsPayload_ok r)
    (λ cfg, r ← supervisor_get_ports cfg; mret (Some r)).
Proof.
  destruct supervisor_methods as (_ & _ & _ & Hp & _). intros cfg Hc x r x'. unfold mbind, pym_mbind.
  destruct (supervisor_get_ports cfg x) as [[a|e] x1] eqn:Hr; intros [= <- <-] Hx Hx2;
    destruct (Hp cfg Hc _ _ _ Hr Hx Hx2) as [Hx' Ha]; split; try done.
  intros o [= <-] r' [= <-]. by apply Ha.
Qed.

Lemma status_snapshot_keeps : respects keeps_ok (datapath_status_snapshot config).
Proof. pose proof ports_method_ok. unfold datapath_status_snapshot. moves. Qed.

Lemma stats_keeps : respects keeps_ok (datapath_stats_snapshot config).
Proof.
  destruct supervisor_methods as (_ & _ & _ & _ & Hg & _). unfold datapath_stats_snapshot. moves.
Qed.

Lemma reset_keeps : respects keeps_ok (reset_datapath_stats config).
Proof.
  destruct supervisor_methods as (_ & _ & _ & _ & Hg & Hr & _). unfold reset_datapath_stats. moves.
Qed.

Lemma control_keeps command : method_ok (payload_ok AckPayload_ok) command →
  respects keeps_ok (_run_datapath_control_command config command).
Proof. intros Hc. unfold _run_datapath_control_command. moves. Qed.
#[local] Hint Resolve status_snapshot_keeps stats_keeps reset_keeps control_keeps : respects.

Lemma forget_keeps {A} (m : M A) : respects keeps_ok_m m → respects keeps_ok_m (forget m).
Proof. intros Hm. unfold forget. moves. Qed.

Lemma op_keeps o : respects keeps_ok_m (run_runtime_op o).
Proof.
  destruct supervisor_methods as (_ & _ & _ & _ & _ & _ & Hpa & Hre).
  destruct (manager_keeps "") as [_ Hd].
  pose proof (λ path, proj1 (manager_keeps path)) as Ha.
  destruct o; cbn [run_runtime_op]; try apply forget_keeps;
    unfold runtime_stop, apply_topology, destroy_topology, on_apply_error, on_destroy_error,
      _clear_controller_override, runtime_pause_datapath, runtime_resume_datapath; moves.
Qed.

(** The parts of the operations on topologies, each of which a lock protects. *)
Lemma sections_keep path e t :
  (∀ A, respects keeps_ok_m (on_apply_error (A:=A) config path e)) ∧
  (∀ A, respects keeps_ok_m (on_destroy_error (A:=A) config e)) ∧
  respects keeps_ok_m (applied_bookkeeping config t) ∧
  respects keeps_ok_m (destroyed_settle config t) ∧
  (∀ s m, m ≠ "" → respects keeps_ok_m (on_snd (_clear_controller_override (W:=W));;
                                        on_snd (set_c (set_phase s m)) : M ())).
Proof.
  split_and!; unfold on_apply_error, on_destroy_error, applied_bookkeeping, destroyed_settle,
    _clear_controller_override.
  1-2: intros A; moves.
  1-2: moves.
  intros s m Hm. apply respects_bind; [apply _|moves|intros ?].
  by apply on_snd_keeps, set_phase_keeps.
Qed.

Lemma new_controller_ok c : new_controller config = Ok c → controller_ok c.
Proof.
  unfold new_controller. cbn [mbind res_mbind new_ObservedState].
  destruct (new_DesiredState _) as [d|] eqn:Hd; [|done].
  destruct (new_ObservedState _) as [o|] eqn:Ho; [|done]. cbn.
  apply new_DesiredState_ok in Hd as [-> Hd]. apply new_ObservedState_ok in Ho as [-> Ho].
  destruct (supervise_datapath config) eqn:Hs.
  - destruct (_build_supervisor_config config None []) as [cfg|] eqn:Hcfg; [|done].
    apply new_supervisor_config_eq in Hcfg as ->. intros [= <-]. constructor; [|..|done|done|done|done].
    + rewrite Hs. by split; [|eexists].
    + intros cfg s [= <- <-]. split_and!; [done|done|by left|apply carries_new].
  - intros [= <-]. constructor; [|done..]. rewrite Hs. by split; [intros [? ?]|].
Qed.

Lemma reachable_ok x : runtime_reachable x → controller_ok (fst (snd x)).
Proof.
  induction 1 as [c w Hc|o x r x' _ IH Hrun|cur c w w' _ IH]; [by apply new_controller_ok| |done].
  by apply op_keeps in Hrun; apply Hrun.
Qed.
End runs.

(** ** Claims *)

(** C5 In every reachable state, whatever earlier calls returned or raised: there
    is a supervisor exactly when the datapath is supervised, it runs the
    configured binary on the configured socket with a client exactly when it
    has a process, what it remembers of the datapath satisfies the payload
    models, the desired and the observed state satisfy the constraints their
    constructors check, and the controller's message is not empty. *)
Theorem runtime_invariant {W} `{Clock W} `{Processes W} `{Ipc W} `{Host W} `{Loader W} `{ExnText}
    `{!IpcLaws W} `{!IpcPayloads W} `{!PidLaws W} config
    (x : option AppliedTopology * (controller * W)) :
  datapath_socket_path config ≠ "" → runtime_reachable config x →
  let c := fst (snd x) in
  (is_Some (_supervisor c) ↔ supervise_datapath config = true) ∧
  (∀ cfg s, _supervisor c = Some (cfg, s) →
    dpdkd_binary cfg = datapath_binary config ∧ socket_path cfg = datapath_socket_path config ∧
    (is_Some (_process s) ↔ is_Some (_client s)) ∧ carries s) ∧
  desired_valid (_desired_state c) ∧ observed_valid (_observed_state c) ∧
  _controller_message c ≠ "".
Proof.
  intros Hp Hx. destruct (reachable_ok config Hp x Hx) as [Hsup Hok Hd Ho Hm _].
  split; [done|]. split; [|done].
  intros cfg s (Hb & Hs & Hpair & Hcar)%Hok. split_and!; [done|done| |done].
  destruct Hpair as [[-> ->]|(h & -> & ->)]; [done|]. by split; eexists.
Qed.

Lemma runtime_invariant_witness :
  let c := fst (snd app_applied) in
  is_Some (_supervisor c) ∧ desired_valid (_desired_state c) ∧ observed_valid (_observed_state c) ∧
  _controller_message c ≠ "".
Proof.
  assert (runtime_reachable app_config app_applied) as Hr.
  { apply (run_call app_config (RunApply "lab.yaml") app_state (Ok ()) app_applied).
    - apply (run_call app_config RunStart (None, (app_new, app_host)) (Ok ()) app_state).
      + apply run_new, app_new_ok.
      + vm_compute. reflexivity.
    - vm_compute. reflexivity. }
  destruct (runtime_invariant app_config app_applied ltac:(discriminate) Hr) as (Hs & _ & Hv).
  split; [apply Hs; reflexivity|exact Hv].
Defined.
