(* ===== verification/AppClaims.v ===== *)
(** * Claims about the controller runtime

    What applying and destroying a topology means for the host and for the
    controller's attributes, on success and on failure; and the health
    the controller reports. *)

From S2P Require Import Prelude PyStr IpAddress Errors Types State Issues.
From S2P Require Import TopologyValidation TopologySpec TopologyProps Clock DpdkModels.
From S2P Require Import Supervisor SupervisorProps SupervisorMoves Netns SimWorld Topology.
From S2P Require Import TopologyWiring Manager ManagerProps ManagerMoves App AppProps SimController.
From S2P Require Import AppInvariant.
#[local] Open Scope string_scope.
#[local] Open Scope list_scope.

Section runs.
Context {W : Type} `{Clock W} `{Processes W} `{Ipc W} `{Host W} `{Loader W} `{ExnText}.
Context (config : ControllerConfig).

Abbreviation M := (pym pyexn (option AppliedTopology * (controller * W))).

(** The handlers end in a raise. *)
Lemma apply_handler_raises {A} path e x t x' :
  on_apply_error (A:=A) config path e x ≠ (Ok t, x').
Proof.
  unfold on_apply_error. do 2 (intros (? & ? & _ & Hx)%pym_bind_inv; revert Hx).
  do 3 (intros (? & ? & _ & Hx)%pym_bind_inv; revert Hx). done.
Qed.

Lemma destroy_handler_raises {A} e x t x' : on_destroy_error (A:=A) config e x ≠ (Ok t, x').
Proof.
  unfold on_destroy_error. do 4 (intros (? & ? & _ & Hx)%pym_bind_inv; revert Hx). done.
Qed.

Lemma apply_topology_run path cur c w :
  blank path = false →
  apply_topology config path (cur, (c, w)) =
    match manager_apply (app_manager config) path
            (cur, (reconciling ("applying topology from " +:+ path) c, w)) with
    | (Ok result, x) => applied_bookkeeping config result x
    | (Err e, x) => on_apply_error config path e x
    end.
Proof.
  intros Hb. unfold apply_topology. rewrite Hb.
  transitivity ((result ← try_except (manager_apply (app_manager config) path)
    (on_apply_error config path); applied_bookkeeping config result)
    (cur, (reconciling ("applying topology from " +:+ path) c, w))); [reflexivity|].
  unfold try_except, mbind, pym_mbind. destruct (manager_apply _ _ _) as [[t|e] x]; [done|].
  destruct (on_apply_error config path e x) as [[t|e'] x'] eqn:He; [|done].
  by destruct (apply_handler_raises _ _ _ _ _ He).
Qed.

(** ** The bookkeeping of a successful apply *)

Lemma view_fields c w c' (w' : W) : same_view (c, w) (c', w') →
  _desired_state c' = _desired_state c ∧ _observed_state c' = _observed_state c ∧
  _controller_state c' = _controller_state c ∧ _started c' = _started c ∧
  _controller_override_message c' = _controller_override_message c.
Proof. intros [s Hs]. simpl in Hs. subst c'. by destruct c. Qed.

(** Recomputing the health twice is recomputing it once. *)
Lemma health_idempotent c status state message :
  controller_health config c status = (state, message) →
  controller_health config (set_phase state message c) status = (state, message).
Proof.
  destruct c as [d o cs cm om st sup]. unfold controller_health. cbn.
  destruct om as [m|]; [done|]. destruct st; cbn; [done|].
  case_bool_decide as Hcs; cbn; [by intros [= <- <-]; rewrite Hcs|].
  intros Hh. assert (state ≠ CS_stopped) as Hne.
  { intros ->. revert Hh. by repeat case_match. }
  by rewrite (bool_decide_eq_false_2 _ Hne).
Qed.

Lemma applied_bookkeeping_ok t cur c w t' cur' c' w' :
  applied_bookkeeping config t (cur, (c, w)) = (Ok t', (cur', (c', w'))) →
  t' = t ∧ cur' = cur ∧
  let d := mkDesired (tr_config_path t) (tr_topology_name t) None (tr_requested_dpdk_config t)
             CS_running (tr_applied t) in
  desired_valid d ∧ _desired_state c' = d ∧ _controller_override_message c' = None ∧
  ∃ status c1, _current_datapath_status_locked config (set_desired d (set_override None c), w) =
      (Ok status, (c1, w')) ∧
    _observed_state c' = observation c status (tr_applied t) (tr_effective_dpdk_config t) ∧
    (_controller_state c', _controller_message c') = controller_health config c' status.
Proof.
  intros (u & [cur1 [c1 w1]] & [-> [= _ <- <-]]%on_snd_inv & Hx)%pym_bind_inv. revert Hx.
  intros (u' & [cur2 [c2 w2]] & [-> Hd]%on_snd_inv & Hx)%pym_bind_inv. revert Hx.
  set (d := mkDesired _ _ _ _ _ _) in *.
  destruct (desire_cases d (set_override None c) w) as [[Hv Hd2]|(_ & e & Hd2)];
    rewrite Hd2 in Hd; [injection Hd as _ <- <-|discriminate Hd].
  intros (status & [cur3 [c3 w3]] & [-> Hs]%on_snd_inv & Hx)%pym_bind_inv. revert Hx.
  pose proof (current_status_view config _ _ _ Hs) as Hview.
  intros (u'' & [cur4 [c4 w4]] & [-> Ho]%on_snd_inv & Hx)%pym_bind_inv. revert Hx.
  destruct (observe_cases status (tr_applied t) (tr_effective_dpdk_config t) c3 w3)
    as [[_ Ho2]|(_ & e & Ho2)]; rewrite Ho2 in Ho; [injection Ho as _ <- <-|discriminate Ho].
  intros (u3 & [cur5 [c5 w5]] & [-> Hr]%on_snd_inv & [= <- <- <- <-])%pym_bind_inv.
  unfold _recompute_controller_health, set_c, modify in Hr. injection Hr as _ <- <-.
  apply view_fields in Hview as (Vd & Vo & _ & _ & Vm).
  destruct (controller_health config _ status) as [state message] eqn:Hh.
  split; [done|]. split; [done|]. split; [done|]. split; [exact Vd|]. split; [exact Vm|].
  exists status, c3. split; [done|]. split.
  - unfold observation. by rewrite Vo.
  - symmetry. by apply health_idempotent.
Qed.

(** ** The handler of a failed apply *)

(** The attributes are still those of an operation under way. *)
Definition under_way (c : controller) : Prop :=
  _controller_state c = CS_reconciling ∧ _controller_override_message c = None.

Lemma view_under_way c w c' (w' : W) : same_view (c, w) (c', w') → under_way c → under_way c'.
Proof. intros (_ & _ & Hs & _ & Hm)%view_fields. unfold under_way. by rewrite Hs, Hm. Qed.

(** The common end of both handlers. *)
Definition degraded (message : string) (c : controller) : controller :=
  set_phase CS_degraded message (set_override (Some message) c).

Lemma report_failure {A} message status e cur c w :
  (on_snd (set_c (set_override (Some message)));;
   on_snd (_recompute_controller_health config status);; raise e : M A) (cur, (c, w)) =
  (Err e, (cur, (degraded message c, w))).
Proof. reflexivity. Qed.

(** Recording what the datapath says fails: its status cannot be asked for, or
    gives no valid observation. *)
Definition observing_fails (c : controller) (w : W) (applied : bool)
    (effective : option EffectiveDpdkRuntimeModel) (e : pyexn) : Prop :=
  (∃ x, _current_datapath_status_locked config (c, w) = (Err e, x)) ∨
  ∃ status c1 w1, _current_datapath_status_locked config (c, w) = (Ok status, (c1, w1)) ∧
    ¬ observed_valid (observation c1 status applied effective).

Lemma apply_handler_cases path e0 cur c w e cur' c' w' :
  under_way c →
  on_apply_error (A := TopologyOperationResult) config path e0 (cur, (c, w)) = (Err e, (cur', (c', w'))) →
  cur' = cur ∧
  ((under_way c' ∧
    if has_applied_topology cur then
      observing_fails c w (topology_applied (_observed_state c)) (effective_dpdk_config (_observed_state c)) e
    else observing_fails c w false None e) ∨
   e = e0 ∧ _controller_state c' = CS_degraded ∧
   _controller_message c' = "failed to apply topology from " +:+ path ∧
   topology_applied (_observed_state c') =
     (has_applied_topology cur && topology_applied (_observed_state c)) ∧
   _desired_state c' =
     if has_applied_topology cur then _desired_state c else _desired_state_without_topology c).
Proof.
  intros Hu. unfold on_apply_error. unfold mbind at 1, pym_mbind at 1, on_snd at 1.
  destruct (_current_datapath_status_locked config (c, w)) as [[status|e1] [c1 w1]] eqn:Hs;
    pose proof Hs as Hq; apply (current_status_view config) in Hs.
  2:{ intros [= -> <- <- <-]. split; [done|left]. split; [by eapply view_under_way|].
      destruct cur; left; by eexists. }
  pose proof (view_under_way _ _ _ _ Hs Hu) as Hu1.
  apply view_fields in Hs as (Vd & Vo & _ & Vst & _).
  unfold mbind at 1, pym_mbind at 1, gets at 1. cbn [fst].
  destruct cur as [a|]; cbn [has_applied_topology negb andb].
  - unfold mbind at 1, pym_mbind at 1, on_snd at 1. unfold reobserve, mbind at 1, pym_mbind at 1.
    cbn [get_c gets compose fst].
    destruct (observe_cases status (topology_applied (_observed_state c1))
      (effective_dpdk_config (_observed_state c1)) c1 w1) as [[_ ->]|(Hn & e1 & ->)].
    + rewrite report_failure. intros [= <- <- <- <-]. split; [done|right]. cbn. by rewrite Vo, Vd.
    + intros [= <- <- <- <-]. split; [done|left]. split; [done|]. right. exists status, c1, w1.
      split; [done|]. by rewrite <- Vo.
  - unfold mbind at 1, pym_mbind at 1. unfold mbind at 1, pym_mbind at 1, on_snd at 1.
    cbn [get_c gets compose fst]. unfold mbind at 1, pym_mbind at 1, on_snd at 1.
    destruct (desire_cases (_desired_state_without_topology c1) c1 w1) as [[_ ->]|(Hn & _)];
      [|by destruct Hn; split_and!].
    unfold on_snd at 1.
    destruct (observe_cases status false None (set_desired (_desired_state_without_topology c1) c1) w1)
      as [[_ ->]|(Hn & e1 & ->)].
    + rewrite report_failure. intros [= <- <- <- <-]. split; [done|right]. cbn.
      unfold _desired_state_without_topology. by rewrite Vst.
    + intros [= <- <- <- <-]. split; [done|left]. split; [done|]. right. by exists status, c1, w1.
Qed.

(** A successful apply whose bookkeeping raises. *)
Lemma applied_bookkeeping_err t cur c w e cur' c' w' :
  under_way c →
  applied_bookkeeping config t (cur, (c, w)) = (Err e, (cur', (c', w'))) →
  cur' = cur ∧ under_way c' ∧
  let d := mkDesired (tr_config_path t) (tr_topology_name t) None (tr_requested_dpdk_config t)
             CS_running (tr_applied t) in
  (¬ desired_valid d ∨
   observing_fails (set_desired d (set_override None c)) w (tr_applied t) (tr_effective_dpdk_config t) e).
Proof.
  intros Hu. unfold applied_bookkeeping.
  unfold mbind at 1, pym_mbind at 1, on_snd at 1. unfold mbind at 1, pym_mbind at 1, on_snd at 1.
  cbn [_clear_controller_override set_c modify].
  assert (under_way (set_override None c)) as Hu0 by (destruct Hu; by split).
  set (d := mkDesired (tr_config_path t) (tr_topology_name t) None
    (tr_requested_dpdk_config t) CS_running (tr_applied t)).
  destruct (desire_cases d (set_override None c) w)
    as [[_ ->]|(Hd & e1 & ->)]; [|intros [= <- <- <- <-]; split; [done|]; split; [done|]; by left].
  unfold mbind at 1, pym_mbind at 1, on_snd at 1.
  destruct (_current_datapath_status_locked config _) as [[status|e1] [c1 w1]] eqn:Hs;
    pose proof Hs as Hq; apply (current_status_view config) in Hs; apply view_under_way in Hs;
    [|done| |done].
  2:{ intros [= <- <- <- <-]. split; [done|]. split; [done|]. right. left. by eexists. }
  unfold mbind at 1, pym_mbind at 1, on_snd at 1.
  destruct (observe_cases status (tr_applied t) (tr_effective_dpdk_config t) c1 w1)
    as [[_ ->]|(Hn & e1 & ->)]; [done|].
  intros [= <- <- <- <-]. split; [done|]. split; [done|]. right. right. by exists status, c1, w1.
Qed.

(** ** Destroying *)

(** After the stop callback the supervisor, if any, has no history. *)
Definition at_rest (x : controller * W) : Prop :=
  ∀ cfg s, _supervisor (fst x) = Some (cfg, s) → s = new_supervisor.

Lemma stop_callback_rests x u x' :
  _stop_topology_datapath x = (Ok u, x') → at_rest x'.
Proof.
  destruct x as [c w]. unfold _stop_topology_datapath, with_supervisor.
  destruct (_supervisor c) as [[cfg s]|] eqn:Hs.
  - pose proof (stop_cleared (W:=W) cfg (s, w) I) as Hc. unfold supervisor_stop.
    destruct (_stop_locked cfg true (s, w)) as [r [s1 w1]]. intros [= -> <-]. simpl in Hc. subst s1.
    by intros cfg' s' [= _ <-].
  - intros [= _ <-] cfg s. simpl. by rewrite Hs.
Qed.

Lemma status_at_rest c w r c' w' :
  at_rest (c, w) → _current_datapath_status_locked config (c, w) = (r, (c', w')) →
  w' = w ∧ at_rest (c', w').
Proof.
  intros Hr. unfold _current_datapath_status_locked, mbind, pym_mbind, get_c, gets. cbn [compose fst].
  destruct (_started c); [|by intros [= _ <- <-]]. unfold with_supervisor. cbn [fst].
  destruct (_supervisor c) as [[cfg s]|] eqn:Hs; [|by intros [= _ <- <-]].
  rewrite (Hr _ _ Hs). intros [= _ <- <-]. split; [done|]. by intros cfg' s' [= _ <-].
Qed.

Lemma destroy_topology_run cur c w :
  destroy_topology config (cur, (c, w)) =
    match manager_destroy (app_manager config) (cur, (reconciling "destroying topology" c, w)) with
    | (Ok result, x) => destroyed_bookkeeping config result x
    | (Err e, x) => on_destroy_error config e x
    end.
Proof.
  transitivity ((result ← try_except (manager_destroy (app_manager config)) (on_destroy_error config);
    destroyed_bookkeeping config result) (cur, (reconciling "destroying topology" c, w))); [reflexivity|].
  unfold try_except, mbind, pym_mbind. destruct (manager_destroy _ _) as [[t|e] x]; [done|].
  destruct (on_destroy_error config e x) as [[t|e'] x'] eqn:He; [|done].
  by destruct (destroy_handler_raises _ _ _ _ He).
Qed.

Lemma destroy_handler_cases e0 cur c w e cur' c' w' :
  under_way c →
  on_destroy_error (A := TopologyOperationResult) config e0 (cur, (c, w)) = (Err e, (cur', (c', w'))) →
  cur' = cur ∧ topology_applied (_observed_state c') = topology_applied (_observed_state c) ∧
  (under_way c' ∨
   e = e0 ∧ _controller_state c' = CS_degraded ∧
   _controller_message c' = "failed to destroy topology" ∧ _desired_state c' = _desired_state c).
Proof.
  intros Hu. unfold on_destroy_error. unfold mbind at 1, pym_mbind at 1, on_snd at 1.
  destruct (_current_datapath_status_locked config (c, w)) as [[status|e1] [c1 w1]] eqn:Hs;
    apply (current_status_view config) in Hs; pose proof (view_under_way _ _ _ _ Hs Hu) as Hu1;
    apply view_fields in Hs as (Vd & Vo & _ & _ & _).
  2:{ intros [= -> <- <- <-]. rewrite Vo. split; [done|]. split; [done|]. by left. }
  unfold mbind at 1, pym_mbind at 1, on_snd at 1. unfold reobserve, mbind at 1, pym_mbind at 1.
  cbn [get_c gets compose fst].
  destruct (observe_cases status (topology_applied (_observed_state c1))
    (effective_dpdk_config (_observed_state c1)) c1 w1) as [[_ ->]|(_ & e1 & ->)].
  - rewrite report_failure. intros [= <- <- <- <-]. cbn. rewrite Vo, Vd. split; [done|]. split; [done|]. by right.
  - intros [= <- <- <- <-]. rewrite Vo. split; [done|]. split; [done|]. by left.
Qed.

Lemma destroyed_bookkeeping_err t cur c w e cur' c' w' :
  under_way c →
  destroyed_bookkeeping config t (cur, (c, w)) = (Err e, (cur', (c', w'))) → under_way c'.
Proof.
  intros Hu. unfold destroyed_bookkeeping, destroyed_settle. unfold mbind at 1, pym_mbind at 1, on_snd at 1.
  assert (respects same_view (_stop_topology_datapath (W:=W))) as Hsv
    by (apply with_supervisor_view; moves).
  destruct (_stop_topology_datapath (c, w)) as [[u|e1] [c1 w1]] eqn:Hs; apply Hsv in Hs;
    apply view_under_way in Hs; try done; [|by intros [= _ _ <- _]].
  unfold mbind at 1, pym_mbind at 1, on_snd at 1. unfold mbind at 1, pym_mbind at 1, on_snd at 1.
  cbn [_clear_controller_override set_c modify get_c gets].
  assert (under_way (set_override None c1)) as Hu0 by (destruct Hs; by split).
  unfold mbind at 1, pym_mbind at 1, on_snd at 1. cbn [compose fst].
  destruct (desire_cases (_desired_state_without_topology (set_override None c1))
    (set_override None c1) w1) as [[_ ->]|(_ & e1 & ->)]; [|by intros [= _ _ <- _]].
  unfold mbind at 1, pym_mbind at 1, on_snd at 1.
  destruct (_current_datapath_status_locked config _) as [[status|e1] [c2 w2]] eqn:Hst;
    apply (current_status_view config) in Hst; apply view_under_way in Hst; [|done| |done].
  2:{ by intros [= _ _ <- _]. }
  unfold mbind at 1, pym_mbind at 1, on_snd at 1.
  destruct (observe_cases status false None c2 w2) as [[_ ->]|(_ & e1 & ->)];
    [done|by intros [= _ _ <- _]].
Qed.

Lemma destroyed_bookkeeping_ok t cur c w t' cur' c' w' :
  destroyed_bookkeeping config t (cur, (c, w)) = (Ok t', (cur', (c', w'))) →
  t' = t ∧ cur' = cur ∧ _desired_state c' = _desired_state_without_topology c ∧
  _controller_override_message c' = None ∧ topology_applied (_observed_state c') = false ∧
  effective_dpdk_config (_observed_state c') = None ∧
  (∃ c1, _stop_topology_datapath (c, w) = (Ok (), (c1, w'))) ∧ at_rest (c', w').
Proof.
  intros ([] & [cur0 [c0 w0]] & [-> Hstop]%on_snd_inv & Hx)%pym_bind_inv. revert Hx.
  pose proof (stop_callback_rests _ _ _ Hstop) as Hrest.
  assert (respects same_view (_stop_topology_datapath (W:=W))) as Hsv
    by (apply with_supervisor_view; moves).
  apply Hsv in Hstop as Hv0. apply view_fields in Hv0 as (_ & _ & _ & Vst0 & _).
  intros (u & [cur1 [c1 w1]] & [-> [= _ <- <-]]%on_snd_inv & Hx)%pym_bind_inv. revert Hx.
  intros (d & [cur2 [c2 w2]] & [-> Hg]%on_snd_inv & Hx)%pym_bind_inv. revert Hx.
  unfold get_c, gets in Hg. injection Hg as <- <- <-.
  intros (u1 & [cur3 [c3 w3]] & [-> Hd]%on_snd_inv & Hx)%pym_bind_inv. revert Hx.
  change (desire (_desired_state_without_topology (set_override None c0)) (set_override None c0, w0)
    = (Ok u1, (c3, w3))) in Hd.
  destruct (desire_cases (_desired_state_without_topology (set_override None c0))
    (set_override None c0) w0) as [[_ Hd2]|(_ & e & Hd2)];
    rewrite Hd2 in Hd; [injection Hd as _ <- <-|discriminate Hd].
  intros (status & [cur4 [c4 w4]] & [-> Hs]%on_snd_inv & Hx)%pym_bind_inv. revert Hx.
  pose proof (current_status_view config _ _ _ Hs) as Hview.
  apply status_at_rest in Hs as [-> Hrest4]; [|exact Hrest].
  intros (u2 & [cur5 [c5 w5]] & [-> Ho]%on_snd_inv & Hx)%pym_bind_inv. revert Hx.
  destruct (observe_cases status false None c4 w0) as [[_ Ho2]|(_ & e & Ho2)];
    rewrite Ho2 in Ho; [injection Ho as _ <- <-|discriminate Ho].
  intros (u3 & [cur6 [c6 w6]] & [-> Hr]%on_snd_inv & [= <- <- <- <-])%pym_bind_inv.
  unfold _recompute_controller_health, set_c, modify in Hr. injection Hr as _ <- <-.
  apply view_fields in Hview as (Vd & _ & _ & _ & Vm).
  destruct (controller_health config _ status) as [state message].
  split; [done|]. split; [done|]. split.
  { cbn. rewrite Vd. unfold _desired_state_without_topology. cbn. by rewrite Vst0. }
  split; [exact Vm|]. split; [done|]. split; [done|]. split; [by exists c0|exact Hrest4].
Qed.
End runs.

(** ** The manager's record and the observed state *)

Section agreement.
Context {W : Type} `{Clock W, Processes W, Ipc W, IpLaws W, Taps, Loader W, !QuietHost W}.
Context `{!NetStable (W := W)} `{ExnText}.
Context (config : ControllerConfig).

Abbreviation state := (option AppliedTopology * (controller * W))%type.

(** The manager holds a topology exactly when the observed state says so. *)
Definition agree (x : state) : Prop :=
  has_applied_topology (fst x) = topology_applied (_observed_state (fst (snd x))).

(** Steps that leave what is observed of the topology alone. *)
Definition same_applied : relation (controller * W) := λ x y,
  topology_applied (_observed_state (fst y)) = topology_applied (_observed_state (fst x)).

#[local] Instance same_applied_preorder : PreOrder same_applied.
Proof. split; unfold same_applied; [by intros x|]. by intros x y z -> ->. Qed.

Lemma view_applied {A} (m : pym pyexn (controller * W) A) : respects same_view m → respects same_applied m.
Proof. intros Hm [c w] r [c' w'] (_ & Ho & _)%Hm%view_fields. unfold same_applied. cbn. by rewrite Ho. Qed.

Lemma with_supervisor_applied {A} call (none : pym pyexn (controller * W) A) :
  respects same_view none → respects same_applied (with_supervisor call none).
Proof. intros Hn. by apply view_applied, with_supervisor_view. Qed.

Lemma set_applied (f : controller → controller) :
  (∀ c, topology_applied (_observed_state (f c)) = topology_applied (_observed_state c)) →
  respects same_applied (set_c (W:=W) f).
Proof. intros Hf. apply respects_modify. intros [c w]. apply Hf. Qed.

Lemma get_c_applied {A} (f : controller → A) : respects same_applied (get_c (W:=W) f).
Proof. apply respects_gets, _. Qed.

Lemma reobserve_applied status : respects same_applied (reobserve (W:=W) status).
Proof.
  intros [c w] r [c' w']. unfold reobserve, mbind, pym_mbind. cbn [get_c gets compose fst].
  destruct (observe_cases status (topology_applied (_observed_state c))
    (effective_dpdk_config (_observed_state c)) c w) as [[_ ->]|(_ & e & ->)]; by intros [= _ <- _].
Qed.

Lemma recompute_applied status : respects same_applied (_recompute_controller_health (W:=W) config status).
Proof. apply set_applied. intros c. by destruct (controller_health config c status). Qed.

Lemma status_applied : respects same_applied (_current_datapath_status_locked config).
Proof. apply view_applied, current_status_view. Qed.
#[local] Hint Resolve with_supervisor_applied get_c_applied reobserve_applied recompute_applied
  status_applied : respects.

(** The operations that leave the topology alone. *)
Definition plain_op (o : runtime_op) : bool :=
  match o with RunStop | RunApply _ | RunDestroy => false | _ => true end.

Lemma plain_op_agrees o x r x' :
  plain_op o = true → run_runtime_op config o x = (r, x') → agree x → agree x'.
Proof.
  intros Hp. assert (∀ A (m : pym pyexn (controller * W) A), respects same_applied m →
    ∀ y s y', on_snd m y = (s, y') → agree y → agree y') as Hsnd.
  { intros A m Hm [cur [c w]] s [cur' [c' w']] [-> Hr]%on_snd_inv Ha. apply Hm in Hr.
    unfold agree, same_applied in *. cbn in *. by rewrite Ha, Hr. }
  assert (∀ A (m : pym pyexn (controller * W) A), respects same_applied m →
    ∀ y s y', forget (on_snd m) y = (s, y') → agree y → agree y') as Hforget.
  { intros A m Hm y s y'. unfold forget, mbind, pym_mbind.
    destruct (on_snd m y) as [[a|e] y1] eqn:Hy; intros [= _ <-]; by eapply Hsnd. }
  assert (∀ s m, respects same_applied (set_c (W:=W) (set_phase s m))) as Hphase
    by (intros; by apply set_applied; intros []).
  assert (∀ m, respects same_applied (set_c (W:=W) (set_override m))) as Hover
    by (intros; by apply set_applied; intros []).
  assert (∀ b, respects same_applied (set_c (W:=W) (set_started b))) as Hstarted
    by (intros; by apply set_applied; intros []).
  assert (∀ d, respects same_applied (desire (W:=W) d)) as Hdesire.
  { intros d. unfold desire. moves. by apply set_applied; intros []. }
  assert (∀ A (r : CommandResult A), respects same_applied (raise_if_failed (W:=W) r)) as Hfail
    by (intros; unfold raise_if_failed; moves).
  assert (∀ A, respects same_view (not_supervising (W:=W) (A:=A))) as Hnot
    by (intros; unfold not_supervising; moves).
  assert (∀ A (a : A), respects same_view (mret a : pym pyexn (controller * W) A)) as Hret
    by (intros; moves).
  assert (respects same_applied (health_snapshot config)) as Hhealth by (unfold health_snapshot; moves).
  destruct o; try discriminate Hp; cbn [run_runtime_op].
  1: apply Hsnd; unfold runtime_start, _clear_controller_override; moves.
  all: apply Hforget; try done; unfold datapath_status_snapshot, datapath_stats_snapshot,
    reset_datapath_stats, runtime_pause_datapath, runtime_resume_datapath,
    _run_datapath_control_command; moves.
Qed.

Lemma destroy_result_cases cur w r cur' w' :
  manager_destroy (app_manager config) (cur, w) = (r, (cur', w')) →
  match r with Ok _ => cur' = None | Err _ => cur' = cur end.
Proof. intros Hm%manager_destroy_ok; [|apply _..]. destruct r; by destruct Hm. Qed.

(** An operation on the topology agrees afterwards, unless it leaves the
    controller reconciling. *)
Lemma apply_agrees path x r x' :
  apply_topology config path x = (r, x') → agree x →
  _controller_state (fst (snd x')) ≠ CS_reconciling → agree x'.
Proof.
  destruct x as [cur [c w]], x' as [cur' [c' w']]. intros Hrun Ha Hst. cbn in Hst.
  destruct (blank path) eqn:Hb.
  { unfold apply_topology in Hrun. rewrite Hb in Hrun. by injection Hrun as _ <- <- <-. }
  rewrite apply_topology_run in Hrun by done.
  destruct (manager_apply _ _ _) as [[t|e0] [cur1 [c1 w1]]] eqn:Hm;
    destruct (manager_view config path) as [Hview _];
    apply Hview in Hm as Hv; unfold on_world in Hv; cbn [snd] in Hv;
    pose proof (view_under_way _ _ _ _ Hv (conj eq_refl eq_refl)) as Hu;
    apply view_fields in Hv as (_ & Vo & _).
  - destruct r as [t'|e].
    + destruct (manager_apply_ok _ _ _ _ _ _ _ Hm) as (c0 & v & w0 & b & _ & _ & -> & -> & _).
      apply applied_bookkeeping_ok in Hrun as (_ & -> & _ & _ & _ & status & c2 & _ & Ho & _).
      unfold agree. cbn. by rewrite Ho.
    + apply applied_bookkeeping_err in Hrun as (_ & [Hs _] & _); done.
  - destruct r as [t'|e]; [by apply apply_handler_raises in Hrun|].
    apply apply_handler_cases in Hrun as [-> [[[Hs _] _]|(_ & _ & _ & Hap & _)]]; [done| |done].
    unfold agree in *. cbn in *. rewrite Hap, Vo. cbn. rewrite <- Ha.
    destruct cur1 as [a|]; [|done]. cbn.
    destruct (apply_stages _ _ _ _ _ _ _ Hm) as [(<- & _)|(c0 & v & w0 & w2 & _ & _ & Hrun)]; [done|].
    destruct (try_except _ _ w2) as [[st|e1] w3]; by destruct Hrun as (_ & ? & ?).
Qed.

Lemma destroy_agrees x r x' :
  destroy_topology config x = (r, x') → agree x →
  _controller_state (fst (snd x')) ≠ CS_reconciling → agree x'.
Proof.
  destruct x as [cur [c w]], x' as [cur' [c' w']]. intros Hrun Ha Hst. cbn in Hst.
  rewrite destroy_topology_run in Hrun.
  destruct (manager_destroy _ _) as [[t|e0] [cur1 [c1 w1]]] eqn:Hm;
    destruct (manager_view config "") as [_ Hview];
    apply Hview in Hm as Hv; unfold on_world in Hv; cbn [snd] in Hv;
    pose proof (view_under_way _ _ _ _ Hv (conj eq_refl eq_refl)) as Hu;
    apply view_fields in Hv as (_ & Vo & _); apply destroy_result_cases in Hm as ->.
  - destruct r as [t'|e].
    + apply destroyed_bookkeeping_ok in Hrun as (_ & -> & _ & _ & Ho & _). unfold agree. cbn. by rewrite Ho.
    + by apply destroyed_bookkeeping_err in Hrun as [? _].
  - destruct r as [t'|e]; [by apply destroy_handler_raises in Hrun|].
    apply destroy_handler_cases in Hrun as (-> & Ho & _); [|done]. unfold agree in *. cbn in *.
    by rewrite Ho, Vo.
Qed.

(** Recording that the controller stopped cannot fail. *)
Definition record_stop : pym pyexn state unit :=
  on_snd (observe (_unmanaged_datapath_status config) false None);;
  on_snd (desire (mkDesired None None None None CS_stopped false));;
  on_snd (set_c (set_phase CS_stopped "controller stopped"));;
  on_snd (set_c (set_started false)).

Lemma stopped_bookkeeping cur c w :
  ∃ c', record_stop (cur, (c, w)) = (Ok (), (cur, (c', w))) ∧
    topology_applied (_observed_state c') = false.
Proof. by eexists. Qed.

Lemma stop_agrees x r x' : runtime_stop config x = (r, x') → agree x → agree x'.
Proof.
  destruct x as [cur [c w]], x' as [cur' [c' w']]. intros Hrun Ha. unfold runtime_stop in Hrun.
  unfold mbind at 1, pym_mbind at 1, on_snd at 1 in Hrun. cbn [get_c gets compose fst] in Hrun.
  destruct (_started c); cbn [negb] in Hrun; [|by injection Hrun as _ <- <- <-].
  set (c1 := set_phase CS_stopping "stopping controller runtime" (set_override None c)).
  change ((current ← gets fst;
    (if has_applied_topology current then manager_destroy (app_manager config);; mret ()
     else on_snd _stop_topology_datapath);;
    record_stop) (cur, (c1, w)) = (r, (cur', (c', w')))) in Hrun.
  unfold mbind at 1, pym_mbind at 1 in Hrun. cbn [gets fst] in Hrun.
  assert (agree (cur, (c1, w))) as Ha1 by exact Ha. clearbody c1. clear Ha.
  unfold agree in *. cbn in *.
  destruct (has_applied_topology cur) eqn:Hcur.
  - unfold mbind at 1, pym_mbind at 1 in Hrun. unfold mbind at 1, pym_mbind at 1 in Hrun.
    destruct (manager_destroy _ _) as [[t|e] [cur1 [c2 w2]]] eqn:Hm;
      destruct (manager_view config "") as [_ Hview]; apply Hview in Hm as Hv;
      apply view_fields in Hv as (_ & Vo & _); apply destroy_result_cases in Hm as ->.
    + change (record_stop (None, (c2, w2)) = (r, (cur', (c', w')))) in Hrun.
      destruct (stopped_bookkeeping None c2 w2) as (c3 & Hb & Ho).
      rewrite Hb in Hrun. injection Hrun as _ <- <- <-. by rewrite Ho.
    + injection Hrun as _ <- <- <-. by rewrite Hcur, Vo.
  - destruct cur as [a|]; [done|]. unfold mbind at 1, pym_mbind at 1, on_snd at 1 in Hrun.
    assert (respects same_view (_stop_topology_datapath (W:=W))) as Hsv
      by (apply with_supervisor_view; moves).
    destruct (_stop_topology_datapath (c1, w)) as [[u|e] [c2 w2]] eqn:Hs;
      apply Hsv, view_fields in Hs as (_ & Vo & _).
    + destruct (stopped_bookkeeping None c2 w2) as (c3 & Hb & Ho). rewrite Hb in Hrun.
      injection Hrun as _ <- <- <-. by rewrite Ho.
    + injection Hrun as _ <- <- <-. by rewrite Vo.
Qed.

(** Runs in which every operation's bookkeeping completes. *)
Inductive orderly : state → Prop :=
| orderly_new c w : new_controller config = Ok c → orderly (None, (c, w))
| orderly_call o x r x' :
    orderly x → run_runtime_op config o x = (r, x') →
    _controller_state (fst (snd x')) ≠ CS_reconciling → orderly x'
| orderly_world cur c w w' : orderly (cur, (c, w)) → orderly (cur, (c, w')).

Lemma forget_inv {A} (m : pym pyexn state A) x r x' :
  forget m x = (r, x') → ∃ r', m x = (r', x').
Proof. unfold forget, mbind, pym_mbind. destruct (m x) as [[a|e] x1]; intros [= _ <-]; eauto. Qed.

Lemma orderly_agree x : orderly x → agree x.
Proof.
  induction 1 as [c w Hc|o x r x' _ IH Hrun Hst|cur c w w' _ IH]; [| |done].
  - unfold new_controller in Hc. cbn in Hc. destruct (supervise_datapath config); [|by injection Hc as <-].
    destruct (_build_supervisor_config config None []); [|done]. by injection Hc as <-.
  - destruct (plain_op o) eqn:Hp; [by eapply plain_op_agrees|].
    destruct o; try discriminate Hp; cbn [run_runtime_op] in Hrun.
    + by eapply stop_agrees.
    + apply forget_inv in Hrun as [r' Hrun]. by eapply apply_agrees.
    + apply forget_inv in Hrun as [r' Hrun]. by eapply destroy_agrees.
Qed.
End agreement.

(** ** What returned operations leave *)

Section returned.
Context {W : Type} `{Clock W, Processes W, Ipc W, IpLaws W, Taps, Loader W, !QuietHost W}.
Context `{!NetStable (W := W)} `{ExnText}.
Context (config : ControllerConfig).

Lemma apply_topology_built path cur c w t cur' c' w' :
  apply_topology config path (cur, (c, w)) = (Ok t, (cur', (c', w'))) →
  ∃ topology v w0, load_topology_config path w = (Ok topology, w0) ∧
    validate_topology_config topology = Ok v ∧ cur' = Some (mkApplied path v) ∧
    _desired_state c' = mkDesired (Some path) (Some (lab_of v)) None
      (Some (vt_requested_dpdk_config v)) CS_running true ∧
    topology_applied (_observed_state c') = true ∧
    effective_dpdk_config (_observed_state c') = Some (vt_effective_dpdk_config v) ∧
    (∃ status, (_controller_state c', _controller_message c') = controller_health config c' status ∧
      dpdkd_pid (_observed_state c') = status_pid status) ∧
    (ports_uncrossed topology → wired topology → plain_host w' →
      ∀ f, wanted topology f → ¬ tap_fact f → holds w' f).
Proof.
  intros Hrun. destruct (blank path) eqn:Hb.
  { unfold apply_topology in Hrun. by rewrite Hb in Hrun. }
  rewrite apply_topology_run in Hrun by done.
  destruct (manager_apply _ _ _) as [[t1|e] [cur1 [c1 w1]]] eqn:Hm.
  2:{ by apply apply_handler_raises in Hrun. }
  destruct (manager_apply_ok _ _ _ _ _ _ _ Hm)
    as (topology & v & [c0 w0] & running & Hload & Hval & Hcur & -> & Hnet).
  apply on_snd_inv in Hload as [-> Hload]. destruct (manager_view config path) as [Hview _].
  apply Hview in Hm. unfold on_world in Hm. cbn [snd] in Hm.
  apply applied_bookkeeping_ok in Hrun as (_ & -> & _ & Hd & _ & status & c2 & Hs & Ho & Hh).
  exists topology, v, w0. split_and!; [done..|by rewrite Ho|by rewrite Ho| |].
  - exists status. by rewrite Ho.
  - intros Hu Hw Hp f Hf Hn. apply (current_status_moves config keeps_net) in Hs. apply Hs; [|done].
    apply (Hnet Hu Hw); [|done]. intros ns Hns. apply Hp, Hs; [exact Hns|intros []].
Qed.

Lemma destroy_topology_cleared cur c w t cur' c' w' :
  destroy_topology config (cur, (c, w)) = (Ok t, (cur', (c', w'))) →
  cur' = None ∧ _desired_state c' = _desired_state_without_topology c ∧
  topology_applied (_observed_state c') = false ∧ effective_dpdk_config (_observed_state c') = None ∧
  ∀ a, cur = Some a →
    ∀ f, below (vt_topology (applied_validated a)) f → ¬ holds w' f.
Proof.
  rewrite destroy_topology_run.
  destruct (manager_destroy _ _) as [[t1|e] [cur1 [c1 w1]]] eqn:Hm.
  2:{ by intros ?%destroy_handler_raises. }
  intros (_ & -> & Hd & _ & Ha & He & (c2 & Hstop) & _)%destroyed_bookkeeping_ok.
  destruct (manager_view config "") as [_ Hview]. apply Hview in Hm as Hv.
  apply view_fields in Hv as (_ & _ & _ & Vst & _). cbn in Vst.
  apply (stop_callback_moves adds_no_net) in Hstop.
  destruct (manager_destroy_ok _ _ _ _ _ _ Hm) as (-> & _ & _ & _ & _ & Hgone).
  split_and!; [done| |done..|].
  - rewrite Hd. unfold _desired_state_without_topology. by rewrite Vst.
  - intros a Ha2 f Hf Hh. by apply (Hgone a Ha2 f Hf), Hstop.
Qed.
End returned.

(** ** Claims *)

Section claims.
Context {W : Type} `{Clock W, Processes W, Ipc W, IpLaws W, Taps, Loader W, !QuietHost W}.
Context `{!NetStable (W := W)} `{ExnText}.
Context (config : ControllerConfig).

(** C2 When [apply_topology] returns, the document loaded is a valid topology; the
    manager has recorded it; the desired state requests it with its datapath,
    the observed state says it is applied with the derived runtime; and the
    reported health is the one the latest status calls for.  When moreover no
    datapath port is named like the kernel interface of the other side, no
    link or bridge is named like an interface of the datapath (validation
    checks neither), and no namespace of the host has white space in its name,
    every fact of the topology's network outside the datapath's interfaces
    holds on the host. *)
Theorem apply_topology_end_to_end path cur c w t cur' c' w' :
  apply_topology config path (cur, (c, w)) = (Ok t, (cur', (c', w'))) →
  ∃ topology v w0, load_topology_config path w = (Ok topology, w0) ∧
    validate_topology_config topology = Ok v ∧ cur' = Some (mkApplied path v) ∧
    _desired_state c' = mkDesired (Some path) (Some (lab_of v)) None
      (Some (vt_requested_dpdk_config v)) CS_running true ∧
    topology_applied (_observed_state c') = true ∧
    effective_dpdk_config (_observed_state c') = Some (vt_effective_dpdk_config v) ∧
    (∃ status, (_controller_state c', _controller_message c') = controller_health config c' status ∧
      dpdkd_pid (_observed_state c') = status_pid status) ∧
    (ports_uncrossed topology → wired topology → plain_host w' →
      ∀ f, wanted topology f → ¬ tap_fact f → holds w' f).
Proof. apply apply_topology_built. Qed.

(** C3 When [apply_topology] raises, either the path was blank and nothing changed;
    or the manager failed, its exception is the one raised, and the
    controller is degraded with a message that names the document, its
    observed and desired state agreeing with what the manager still holds; or
    recording the outcome itself raised, after the manager succeeded or in the
    handler of its failure, because the desired state was refused, the
    datapath's status could not be asked for or its observation was refused,
    and the controller is left reconciling. *)
Theorem apply_topology_failure path cur c w e cur' c' w' :
  apply_topology config path (cur, (c, w)) = (Err e, (cur', (c', w'))) →
  (blank path = true ∧ cur' = cur ∧ c' = c ∧ w' = w) ∨
  (blank path = false ∧ ∃ r c1 w1, manager_apply (app_manager config) path
      (cur, (reconciling ("applying topology from " +:+ path) c, w)) = (r, (cur', (c1, w1))) ∧
    match r with
    | Ok t =>
        under_way c' ∧
        let d := mkDesired (tr_config_path t) (tr_topology_name t) None (tr_requested_dpdk_config t)
                   CS_running (tr_applied t) in
        (¬ desired_valid d ∨
         observing_fails config (set_desired d (set_override None c1)) w1 (tr_applied t)
           (tr_effective_dpdk_config t) e)
    | Err e0 =>
        (e = e0 ∧ _controller_state c' = CS_degraded ∧
         _controller_message c' = "failed to apply topology from " +:+ path ∧
         topology_applied (_observed_state c') =
           (has_applied_topology cur' && topology_applied (_observed_state c)) ∧
         _desired_state c' =
           if has_applied_topology cur' then _desired_state c else _desired_state_without_topology c) ∨
        (under_way c' ∧
         if has_applied_topology cur' then
           observing_fails config c1 w1 (topology_applied (_observed_state c))
             (effective_dpdk_config (_observed_state c)) e
         else observing_fails config c1 w1 false None e)
    end).
Proof.
  intros Hrun. destruct (blank path) eqn:Hb.
  { unfold apply_topology in Hrun. rewrite Hb in Hrun. left. by injection Hrun as _ <- <- <-. }
  right. split; [done|]. rewrite apply_topology_run in Hrun by done.
  destruct (manager_apply _ _ _) as [[t1|e0] [cur1 [c1 w1]]] eqn:Hm;
    destruct (manager_view config path) as [Hview _];
    apply Hview in Hm as Hv; unfold on_world in Hv; cbn [snd] in Hv;
    pose proof (view_under_way _ _ _ _ Hv (conj eq_refl eq_refl)) as Hu.
  - apply applied_bookkeeping_err in Hrun as (-> & ? & ?); [|done]. by exists (Ok t1), c1, w1.
  - apply apply_handler_cases in Hrun as [-> Hcase]; [|done]. exists (Err e0), c1, w1. split; [done|].
    apply view_fields in Hv as (Vd & Vo & _ & Vst & _). cbn in Vd, Vo, Vst.
    rewrite Vo, Vd in Hcase. destruct Hcase as [?|(? & ? & ? & ? & Hd)]; [by right|left].
    split_and!; [done..|]. rewrite Hd. unfold _desired_state_without_topology. by rewrite Vst.
Qed.

(** C4 When [destroy_topology] returns, no topology is recorded, requested or
    observed, and nothing is left on the host in those namespaces of the one
    that was applied whose names [ip netns list] can be searched for (not
    empty, no white space). *)
Theorem destroy_topology_end_to_end cur c w t cur' c' w' :
  destroy_topology config (cur, (c, w)) = (Ok t, (cur', (c', w'))) →
  cur' = None ∧ _desired_state c' = _desired_state_without_topology c ∧
  topology_applied (_observed_state c') = false ∧ effective_dpdk_config (_observed_state c') = None ∧
  ∀ a, cur = Some a →
    ∀ f, below (vt_topology (applied_validated a)) f → ¬ holds w' f.
Proof. apply destroy_topology_cleared. Qed.

(** C6 As long as no operation ends with the controller reconciling, which
    happens only when its own bookkeeping raises, the manager holds a topology
    exactly when the observed state says that one is applied. *)
Theorem record_and_observation_agree (x : option AppliedTopology * (controller * W)) :
  orderly config x →
  has_applied_topology (fst x) = topology_applied (_observed_state (fst (snd x))).
Proof. apply orderly_agree. Qed.
End claims.

(** A lab whose name is blanks only passes validation, but no apply of it
    returns: the desired state refuses the name after the topology was built. *)
Lemma blank_lab_never_returns {W} `{Clock W, Processes W, Ipc W, IpLaws W, Taps, Loader W, !QuietHost W}
    `{!NetStable (W := W)} `{ExnText} config path topology cur c (w w0 : W) :
  load_topology_config path w = (Ok topology, w0) →
  blank (lab_name (config_lab topology)) = true →
  ∀ t x', apply_topology config path (cur, (c, w)) ≠ (Ok t, x').
Proof.
  intros Hload Hlab t [cur' [c' w']] Hrun. destruct (blank path) eqn:Hb.
  { unfold apply_topology in Hrun. by rewrite Hb in Hrun. }
  rewrite apply_topology_run in Hrun by done.
  destruct (manager_apply _ _ _) as [[t1|e] [cur1 [c1 w1]]] eqn:Hm;
    [|by apply apply_handler_raises in Hrun].
  destruct (manager_apply_ok _ _ _ _ _ _ _ Hm) as (top & v & [c0 w2] & b & Hl & Hval & _ & -> & _).
  apply on_snd_inv in Hl as [_ Hl]. cbn in Hl. assert (top = topology) as -> by congruence.
  apply applied_bookkeeping_ok in Hrun as (_ & _ & (_ & Hname & _) & _).
  apply validated_ok in Hval as (ids & _ & ->). cbn in Hname.
  specialize (Hname _ eq_refl). unfold lab_of in Hname. cbn in Hname. congruence.
Qed.

(** C25 The controller reports itself running exactly when nothing failed before,
    it was started or its state is any other than stopped, and the datapath is
    as desired: unsupervised, down when none is wanted, or reachable and
    forwarding when one is. *)
Theorem health_running_iff config c status :
  fst (controller_health config c status) = CS_running ↔
  _controller_override_message c = None ∧
  (_started c = true ∨ _controller_state c ≠ CS_stopped) ∧
  (supervise_datapath config = false ∨
   (desired_datapath_running (_desired_state c) = false ∧ status_running status = false) ∨
   (desired_datapath_running (_desired_state c) = true ∧ status_running status = true ∧
    reachable status = true ∧
    ∃ h, status_health status = Some h ∧ health_state h = DS_running)).
Proof.
  unfold controller_health. destruct (_controller_override_message c); [naive_solver|].
  destruct (negb (_started c) && bool_decide (_controller_state c = CS_stopped)) eqn:Hidle.
  { apply andb_true_iff in Hidle as [?%negb_true_iff ?%bool_decide_eq_true]. cbn.
    split; [congruence|]. intros (_ & [?|?] & _); congruence. }
  assert (_started c = true ∨ _controller_state c ≠ CS_stopped) as Hup.
  { apply andb_false_iff in Hidle as [?%negb_false_iff|?%bool_decide_eq_false]; auto. }
  destruct (supervise_datapath config); cbn [negb fst]; [|by split; [auto|]].
  destruct (desired_datapath_running (_desired_state c)), (status_running status); cbn [negb fst];
    [|by split; [|intros (_ & _ & [?|[[? ?]|(? & ? & ?)]])]..|].
  2:{ split; [|done]. intros _. split; [done|]. split; [done|]. by right; left. }
  destruct (reachable status), (status_health status) as [h|]; cbn [negb fst];
    [|by split; [|intros (_ & _ & [?|[[? ?]|(? & ? & ? & ? & ? & ?)]])]..].
  clear Hidle. case_decide as Hh; cbn [fst].
  - split; [|done]. intros _. split; [done|]. split; [done|]. right. right. eauto 10.
  - split; [done|]. by intros (_ & _ & [?|[[? ?]|(_ & _ & _ & h' & [= <-] & ?)]]).
Qed.

(** A controller that was never started and is asked to destroy a topology
    reports itself running afterwards. *)
Lemma never_started_reports_running :
  let x := snd (destroy_topology app_config (None, (app_new, app_host))) in
  _started (fst (snd x)) = false ∧ _controller_state (fst (snd x)) = CS_running ∧
  _controller_message (fst (snd x)) = "controller ready without active topology".
Proof. vm_compute. done. Qed.

(** ** Witnesses *)

Lemma apply_topology_end_to_end_witness :
  ∃ t cur' c' w', apply_topology app_config "lab.yaml" app_state = (Ok t, (cur', (c', w'))) ∧
    topology_applied (_observed_state c') = true ∧ _controller_state c' = CS_running ∧
    holds w' (HasMaster "dpdk-host" "veth-in-k" "br-in").
Proof.
  assert (match apply_topology app_config "lab.yaml" app_state with
    | (Ok _, (_, (c', w'))) => _controller_state c' = CS_running ∧ sim_plain w' = true
    | _ => False end) as Hok by (vm_compute; split; reflexivity).
  destruct app_state as [cur [c w]].
  destruct (apply_topology app_config "lab.yaml" (cur, (c, w))) as [[t|e] [cur' [c' w']]] eqn:Hr;
    [|destruct Hok].
  exists t, cur', c', w'. split; [reflexivity|].
  destruct (apply_topology_end_to_end app_config "lab.yaml" cur c w t cur' c' w' Hr)
    as (topology & v & w0 & Hload & _ & _ & _ & Happ & _ & _ & Hnet).
  destruct Hok as [Hok Hplain].
  split; [exact Happ|]. split; [exact Hok|]. injection Hload as <- _. apply Hnet.
  - exact linear_uncrossed.
  - exact linear_wired.
  - exact (sim_plain_host w' Hplain).
  - apply WantIngressBridged.
  - intros [?|?]; discriminate.
Defined.

(** The document cannot be read while a topology is applied. *)
Lemma apply_topology_failure_witness :
  ∃ e cur' c' w', apply_topology app_config "missing.yaml" app_applied = (Err e, (cur', (c', w'))) ∧
    _controller_message c' = "failed to apply topology from missing.yaml" ∧
    topology_applied (_observed_state c') = true.
Proof.
  assert (match apply_topology app_config "missing.yaml" app_applied with
    | (Err _, (Some _, (c', _))) => _controller_state c' = CS_degraded | _ => False end) as Hrun
    by (vm_compute; reflexivity).
  assert (topology_applied (_observed_state (fst (snd app_applied))) = true) as Happ
    by (vm_compute; reflexivity).
  destruct app_applied as [cur [c w]].
  destruct (apply_topology app_config "missing.yaml" (cur, (c, w))) as [[t|e] [cur' [c' w']]] eqn:Hr;
    [destruct Hrun|].
  exists e, cur', c', w'. split; [reflexivity|].
  destruct (apply_topology_failure app_config "missing.yaml" cur c w e cur' c' w' Hr)
    as [(Hb & _)|(_ & [t1|e1] & c1 & w1 & _ & Hcase)]; [discriminate Hb|..].
  - destruct Hcase as [[Hs _] _]. destruct cur'; [rewrite Hs in Hrun; discriminate Hrun|destruct Hrun].
  - destruct Hcase as [(_ & _ & Hm & Ha & _)|[[Hs _] _]].
    + split; [exact Hm|]. rewrite Ha. destruct cur'; [exact Happ|destruct Hrun].
    + destruct cur'; [rewrite Hs in Hrun; discriminate Hrun|destruct Hrun].
Defined.

Lemma destroy_topology_end_to_end_witness :
  ∃ t cur' c' w', destroy_topology app_config app_applied = (Ok t, (cur', (c', w'))) ∧
    cur' = None ∧ ∀ i, ¬ holds w' (HasLink "tg-src" i).
Proof.
  assert (ok_result (destroy_topology app_config app_applied) = true) as Hok by (vm_compute; reflexivity).
  assert (bool_decide ("tg-src" ∈ applied_names (fst app_applied)) = true) as Hcur
    by (vm_compute; reflexivity).
  destruct app_applied as [cur [c w]].
  destruct (destroy_topology app_config (cur, (c, w))) as [[t|e] [cur' [c' w']]] eqn:Hr;
    [|discriminate Hok].
  destruct (destroy_topology_end_to_end app_config cur c w t cur' c' w' Hr) as (-> & _ & _ & _ & Hgone).
  exists t, None, c', w'. split; [reflexivity|]. split; [reflexivity|]. intros i.
  destruct cur as [a|]; [|discriminate Hcur].
  apply (Hgone a eq_refl). split; [exact (bool_decide_eq_true_1 _ Hcur)|reflexivity].
Defined.

Lemma app_applied_orderly : orderly app_config app_applied.
Proof.
  apply (orderly_call app_config (RunApply "lab.yaml") app_state (Ok ()) app_applied).
  - apply (orderly_call app_config RunStart (None, (app_new, app_host)) (Ok ()) app_state).
    + apply orderly_new, app_new_ok.
    + vm_compute. reflexivity.
    + vm_compute. discriminate.
  - vm_compute. reflexivity.
  - vm_compute. discriminate.
Qed.

Lemma record_and_observation_agree_witness :
  has_applied_topology (fst app_applied) = topology_applied (_observed_state (fst (snd app_applied))) ∧
  has_applied_topology (fst app_applied) = true.
Proof.
  split; [exact (record_and_observation_agree app_config app_applied app_applied_orderly)|].
  vm_compute. reflexivity.
Defined.
