(* ===== verification/Launch.v ===== *)
(** * The datapath's command line

    [build_dpdk_runtime_args] and [_build_supervisor_config] of [app.py] on a
    validated topology: what is launched, and when the configuration of the
    supervisor refuses it. *)

From S2P Require Import Prelude PyStr IpAddress Errors Types State Issues RuntimeProfile.
From S2P Require Import TopologyValidation TopologySpec TopologyProps Clock DpdkModels.
From S2P Require Import Supervisor Netns Topology TopologyWiring Manager App SimController.
#[local] Open Scope string_scope.
#[local] Open Scope list_scope.

(** ** Blank strings *)

Lemma py_lstrip_empty s : py_lstrip s = "" ↔ str_all py_isspace s = true.
Proof.
  induction s as [|c s IH]; simpl; [done|]. destruct (py_isspace c); simpl; [done|]. by split.
Qed.

Lemma py_rstrip_empty s : py_rstrip s = "" ↔ str_all py_isspace s = true.
Proof.
  induction s as [|c s IH]; simpl; [done|].
  destruct (str_empty (py_rstrip s)) eqn:Hr, (py_isspace c); simpl.
  - split; [|done]. intros _. apply IH. by destruct (py_rstrip s).
  - by split.
  - split; [done|]. intros Hs%IH. by rewrite Hs in Hr.
  - by split.
Qed.

Lemma py_lstrip_head c s s' : py_lstrip s = String c s' → py_isspace c = false.
Proof.
  induction s as [|d s IH]; simpl; [done|]. destruct (py_isspace d) eqn:Hd; [done|]. by intros [= <- _].
Qed.

Lemma blank_iff s : blank s = true ↔ str_all py_isspace s = true.
Proof.
  unfold blank, py_strip. split.
  - destruct (py_lstrip s) as [|c s'] eqn:Hl; [by intros _; apply py_lstrip_empty|].
    intros He. assert (py_rstrip (String c s') = "") as Hr by (by destruct (py_rstrip _)).
    apply py_rstrip_empty in Hr. simpl in Hr. by rewrite (py_lstrip_head _ _ _ Hl) in Hr.
  - intros Hs%py_lstrip_empty. by rewrite Hs.
Qed.

Lemma str_of_Z_not_blank z : (0 <= z)%Z → blank (str_of_Z z) = false.
Proof. intros Hz. unfold blank. rewrite str_of_Z_strip by done. by apply str_of_Z_not_empty. Qed.

Lemma py_split_spaces s : str_all py_isspace s = true → py_split "," s = [s].
Proof.
  induction s as [|c s IH]; simpl; [done|]. intros [Hc Hs]%andb_true_iff. rewrite (IH Hs).
  destruct (Ascii.eqb_spec c ",") as [->|]; [discriminate Hc|done].
Qed.

Lemma lcore_spec_not_blank value ids : lcore_spec value ids → blank value = false.
Proof.
  intros (Hne & _). destruct (blank value) eqn:Hb; [|done]. destruct Hne.
  apply blank_iff in Hb as Hs. unfold lcore_tokens. rewrite py_split_spaces by done.
  unfold blank in Hb. simpl. rewrite filter_cons, decide_False; [done|].
  destruct (py_strip value); [intros Hn; by apply Hn|done].
Qed.

(** ** The arguments *)

(** The options for a runtime profile and the names of the two ports. *)
Definition runtime_args (e : EffectiveDpdkRuntimeModel) (ingress_port egress_port : string)
    : list string :=
  ["--lcores"; eff_lcores e; "--hugepages-mb"; str_of_Z (eff_hugepages_mb e);
   "--burst-size"; str_of_Z (eff_burst_size e); "--rx-queue-size"; str_of_Z (eff_rx_queue_size e);
   "--tx-queue-size"; str_of_Z (eff_tx_queue_size e);
   "--mempool-size"; str_of_Z (eff_mempool_size e);
   "--ingress-port-name"; ingress_port; "--egress-port-name"; egress_port].

Lemma args_blank e ing eg :
  blank (eff_lcores e) = false → (0 <= eff_hugepages_mb e)%Z → (0 <= eff_burst_size e)%Z →
  (0 <= eff_rx_queue_size e)%Z → (0 <= eff_tx_queue_size e)%Z → (0 <= eff_mempool_size e)%Z →
  existsb blank (runtime_args e ing eg) = blank ing || blank eg.
Proof.
  intros Hl Hh Hb Hr Ht Hm. unfold runtime_args. cbn [existsb].
  rewrite Hl, !str_of_Z_not_blank by done. simpl. by rewrite orb_false_r.
Qed.

Lemma new_supervisor_config_spec binary sock prefix args startup poll shutdown :
  blank binary = false → blank sock = false → (0 < startup)%Z → (0 < poll)%Z → (0 < shutdown)%Z →
  let cfg := mkSupervisorConfig binary sock prefix args startup poll shutdown in
  new_SupervisorConfig cfg =
    if existsb blank prefix
    then Err (ValueError (Some "launch_prefix must not contain empty elements"))
    else if existsb blank args
    then Err (ValueError (Some "extra_args must not contain empty elements"))
    else Ok cfg.
Proof.
  intros Hb Hs H1 H2 H3 cfg. unfold new_SupervisorConfig, refuse_if. cbn -[blank].
  rewrite Hb, Hs. cbn -[blank]. destruct (existsb blank prefix); [done|]. cbn -[blank].
  destruct (existsb blank args); [done|]. cbn -[blank].
  by rewrite !(proj2 (Z.leb_gt _ _)).
Qed.

(** ** Claims *)

(** C26 For a validated topology the arguments of the datapath are the resolved
    profile and the names of the ingress and the egress port.  The supervisor's
    configuration accepts the launch exactly when neither the namespace nor one
    of the two ports has a name of blanks only (validation accepts those), and
    then the child is launched inside the datapath namespace on the
    controller's socket; otherwise it is refused with the [ValueError] of the
    first offending part. *)
Theorem datapath_launch config topology v :
  new_ControllerConfig config = Ok config → validate_topology_config topology = Ok v →
  ∃ p q, p ∈ config_dpdk_ports topology ∧ port_role p = ingress ∧
    q ∈ config_dpdk_ports topology ∧ port_role q = egress ∧
    let args := runtime_args (vt_effective_dpdk_config v) (port_name p) (port_name q) in
    build_dpdk_runtime_args v = Ok args ∧
    match _build_supervisor_config config (Some (dpdk_ns topology)) args with
    | Ok cfg =>
        (blank (dpdk_ns topology) = false ∧ blank (port_name p) = false ∧ blank (port_name q) = false) ∧
        launch_command cfg =
          ["ip"; "netns"; "exec"; dpdk_ns topology; datapath_binary config;
           "--socket-path"; datapath_socket_path config] ++ args
    | Err e =>
        (blank (dpdk_ns topology) = true ∧
          e = ValueError (Some "launch_prefix must not contain empty elements")) ∨
        (blank (dpdk_ns topology) = false ∧ (blank (port_name p) = true ∨ blank (port_name q) = true) ∧
          e = ValueError (Some "extra_args must not contain empty elements"))
    end.
Proof.
  intros Hcfg (ids & Hok & ->)%validated_ok.
  unfold new_ControllerConfig in Hcfg.
  rewrite !refuse_if_bind, Z.leb_gt in Hcfg. destruct Hcfg as (Hb & Hs & Ht & _).
  destruct (tp_roles _ _ Hok) as [Hi He].
  apply find_role_some in Hi as (ing & Hi & _), He as (eg & He & _).
  destruct (find_role_in _ _ _ Hi) as (p & Hp & Hpr & <-).
  destruct (find_role_in _ _ _ He) as (q & Hq & Hqr & <-).
  exists p, q. split_and!; [done..|].
  intros args. split.
  { unfold build_dpdk_runtime_args, _port_name_for_role. cbn [vt_topology validated_of].
    by rewrite Hi, He. }
  unfold _build_supervisor_config. rewrite new_supervisor_config_spec by done.
  assert (existsb blank args = blank (port_name p) || blank (port_name q)) as Hargs.
  { subst args. destruct (tp_runtime _ _ Hok) as [Hl _ Hrx Htx Hbu _ Hm _ Hh _].
    apply args_blank; cbn [vt_effective_dpdk_config validated_of profile_of eff_lcores
      eff_hugepages_mb eff_burst_size eff_rx_queue_size eff_tx_queue_size eff_mempool_size];
      [by eapply lcore_spec_not_blank|..]; try lia.
    - destruct (hugepages_needed_bounds (mempool_of (processes_dpdkd (config_processes topology))
        (Z.of_nat (length (config_dpdk_ports topology))))) as (_ & ? & _). lia.
    - pose proof (recommended_mempool_bounds (Z.of_nat (length (config_dpdk_ports topology)))
        (rx_of (processes_dpdkd (config_processes topology)))
        (tx_of (processes_dpdkd (config_processes topology)))). unfold MIN_MEMPOOL_SIZE in *. lia. }
  rewrite Hargs. cbn [existsb]. rewrite !orb_false_r. cbn -[blank].
  destruct (blank (dpdk_ns topology)); [by left|].
  destruct (blank (port_name p)) eqn:Hbp; [by right; auto|].
  destruct (blank (port_name q)) eqn:Hbq; [by right; auto|]. done.
Qed.

Lemma datapath_launch_witness :
  ∃ v cfg, validate_topology_config linear_basic = Ok v ∧
    launch_command cfg = ["ip"; "netns"; "exec"; "dpdk-host"; "pktlab-dpdkd"; "--socket-path";
      "/run/pktlab/dpdkd.sock"] ++ runtime_args (vt_effective_dpdk_config v) "dtap0" "dtap1".
Proof.
  destruct (accepted_some linear_basic) as [v Hv]; [exact linear_basic_accepted|].
  destruct (datapath_launch app_config linear_basic v eq_refl Hv)
    as (p & q & Hp & Hpr & Hq & Hqr & _ & Hlaunch).
  assert (∀ r, r ∈ config_dpdk_ports linear_basic →
    port_name r = match port_role r with ingress => "dtap0" | egress => "dtap1" end) as Hnames
    by (intros r [->|[->|[]%elem_of_nil]%elem_of_cons]%elem_of_cons; reflexivity).
  pose proof (Hnames p Hp) as Hn. rewrite Hpr in Hn. pose proof (Hnames q Hq) as Hm. rewrite Hqr in Hm.
  rewrite Hn, Hm in Hlaunch. exists v.
  destruct (_build_supervisor_config _ _ _) as [cfg|e].
  - exists cfg. split; [exact Hv|exact (proj2 Hlaunch)].
  - destruct Hlaunch as [[Hb _]|(_ & [Hb|Hb] & _)]; discriminate Hb.
Defined.
