(* ===== verification/ConfigLoader.v ===== *)
(** * Loading configuration documents

    [config/topology.py] and [config/rules.py]: a YAML document is read, must
    be a mapping, and is validated into the shared model; every failure the
    loader foresees is a [ConfigParseError].  The file system, the YAML parser
    and pydantic's validation of a mapping are interfaces. *)

From S2P Require Import Prelude PyStr Errors Types Manager App.
#[local] Open Scope string_scope.
#[local] Open Scope list_scope.

(** ** The libraries *)

Class Files (W : Type) := {
  (** [str(Path(path))] *)
  path_text : string → string;
  read_text : string → pym pyexn W string;
}.

(** A part of the [loc] of a pydantic error. *)
Inductive loc_part : Type :=
| LocName (name : string)
| LocIndex (index : Z).

(** One of [exc.errors()]. *)
Record pydantic_error : Type := mkPydanticError {
  err_loc : list loc_part;
  err_type : string;
  err_msg : string;
}.

(** The value of [yaml.safe_load], as far as the loaders look at it, or what
    it raises. *)
Inductive yaml_outcome (mapping : Type) : Type :=
| YamlNone
| YamlMapping (m : mapping)
| YamlOther (type_name : string)
| YamlError (text : string)
| YamlRaises (e : pyexn).
Arguments YamlNone {_}.
Arguments YamlMapping {_} _.
Arguments YamlOther {_} _.
Arguments YamlError {_} _.
Arguments YamlRaises {_} _.

Class Yaml := {
  yaml_mapping : Type;
  safe_load : string → yaml_outcome yaml_mapping;
  validate_topology_model : yaml_mapping → TopologyConfigModel + list pydantic_error;
  validate_ruleset_model : yaml_mapping → RulesetModel + list pydantic_error;
}.

(** What pydantic promises of a model it returns. *)
Class YamlLaws `{Yaml} : Prop := {
  topology_model_ok m c : validate_topology_model m = inl c → TopologyConfigModel_ok c = true;
  ruleset_model_ok m r : validate_ruleset_model m = inl r → RulesetModel_ok r = true;
}.

Definition parse_error {A} (message : string) (context : pydict) : res pyexn A :=
  Err (PktlabExn (new_ConfigParseError message context)).

(** ** [config/topology.py] *)

(** [str(part)] *)
Definition loc_text (part : loc_part) : string :=
  match part with LocName name => name | LocIndex index => str_of_Z index end.

Definition _serialize_pydantic_errors (errors : list pydantic_error) : list pyval :=
  (λ item, PyDict
    [("path", PyStr (or_str (Some (py_join "." (loc_text <$> err_loc item))) "$"));
     ("code", PyStr (err_type item)); ("message", PyStr (err_msg item))]) <$> errors.

Section loaders.
Context `{Yaml}.

Definition _load_yaml_mapping (text source document_name : string) : res pyexn yaml_mapping :=
  match safe_load text with
  | YamlError detail =>
      parse_error (document_name +:+ " YAML could not be parsed")
        [("source", PyStr source); ("detail", PyStr detail)]
  | YamlRaises e => Err e
  | YamlNone => parse_error (document_name +:+ " is empty") [("source", PyStr source)]
  | YamlOther root_type =>
      parse_error (document_name +:+ " must be a mapping at the document root")
        [("source", PyStr source); ("root_type", PyStr root_type)]
  | YamlMapping payload => Ok payload
  end.

Definition parse_topology_config_text (text source : string) : res pyexn TopologyConfigModel :=
  payload ← _load_yaml_mapping text source "topology config";
  match validate_topology_model payload with
  | inl config => mret config
  | inr errors =>
      parse_error "topology config structure is invalid"
        [("source", PyStr source); ("issues", PyList (_serialize_pydantic_errors errors))]
  end.

(** ** [config/rules.py], which repeats the helpers *)

Definition rules_load_yaml_mapping : string → string → string → res pyexn yaml_mapping :=
  _load_yaml_mapping.
Definition rules_serialize_pydantic_errors : list pydantic_error → list pyval :=
  _serialize_pydantic_errors.

Definition parse_rules_config_text (text source : string) : res pyexn RulesetModel :=
  payload ← rules_load_yaml_mapping text source "rules config";
  match validate_ruleset_model payload with
  | inl ruleset => mret ruleset
  | inr errors =>
      parse_error "rules config structure is invalid"
        [("source", PyStr source); ("issues", PyList (rules_serialize_pydantic_errors errors))]
  end.

(** ** Documents on disk *)

Context {W : Type} `{Files W} `{ExnText}.

(** The [except OSError] of both loaders. *)
Definition on_read_error {A} (message : string) (source_path : string) (e : pyexn) : pym pyexn W A :=
  match e with
  | OSErr _ =>
      raise (PktlabExn (new_ConfigParseError message
        [("source", PyStr (path_text source_path)); ("detail", PyStr (exn_text e))]))
  | _ => raise e
  end.

Definition load_topology_config (path : string) : pym pyexn W TopologyConfigModel :=
  text ← try_except (read_text path) (on_read_error "unable to read topology config" path);
  pym_lift (parse_topology_config_text text (path_text path)).

Definition load_rules_config (path : string) : pym pyexn W RulesetModel :=
  text ← try_except (read_text path) (on_read_error "unable to read rules config" path);
  pym_lift (parse_rules_config_text text (path_text path)).

(** The loader the topology manager is given. *)
#[export] Instance file_loader : Loader W | 100 := load_topology_config.

(** ** Facts *)

(** A [ConfigParseError] about the document [source]. *)
Definition config_error (source : string) (e : pyexn) : Prop :=
  ∃ err, e = PktlabExn err ∧ error_cls err = CConfigParseError ∧
    error_code err = ErrorCode.CONFIG_PARSE_ERROR ∧
    dict_get "source" (error_context err) = Some (PyStr source).

(** What the two libraries raise of their own accord: neither an [OSError] nor
    a [YAMLError]. *)
Definition library_error (path : string) (e : pyexn) : Prop :=
  (∃ w w', read_text path w = (Err e, w') ∧ ∀ o, e ≠ OSErr o) ∨
  (∃ text, safe_load text = YamlRaises e).

Lemma load_mapping_raises text source document e :
  _load_yaml_mapping text source document = Err e →
  config_error source e ∨ ∃ t, safe_load t = YamlRaises e.
Proof.
  unfold _load_yaml_mapping, parse_error. destruct (safe_load text) eqn:Hy; intros [= <-];
    first [by right; eexists | by left; eexists; split_and!].
Qed.

Lemma parse_topology_raises text source e :
  parse_topology_config_text text source = Err e →
  config_error source e ∨ ∃ t, safe_load t = YamlRaises e.
Proof.
  unfold parse_topology_config_text, mbind, res_mbind.
  destruct (_load_yaml_mapping _ _ _) as [m|e'] eqn:Hm.
  - destruct (validate_topology_model m); [done|]. intros [= <-]. left. by eexists; split_and!.
  - intros [= <-]. by eapply load_mapping_raises.
Qed.

Lemma read_raises {A} message path e' (w : W) (r : res pyexn A) w' :
  on_read_error message path e' w = (r, w') →
  w' = w ∧ ∃ e, r = Err e ∧ (config_error (path_text path) e ∨ (e = e' ∧ ∀ o, e' ≠ OSErr o)).
Proof.
  unfold on_read_error. destruct e'; intros [= <- <-]; (split; [reflexivity|]); eexists;
    (split; [reflexivity|]); first [by right | by left; eexists; split_and!].
Qed.

Lemma load_topology_raises path (w : W) e w' :
  load_topology_config path w = (Err e, w') →
  config_error (path_text path) e ∨ library_error path e.
Proof.
  unfold load_topology_config, try_except. unfold mbind, pym_mbind.
  destruct (read_text path w) as [[text|e'] w1] eqn:Hr.
  - intros [= Hp <-]. apply parse_topology_raises in Hp as [Hc|Hy]; [by left|by right; right].
  - destruct (on_read_error _ path e' w1) as [[?|?] w2] eqn:He;
      apply read_raises in He as (-> & e1 & [= ->] & [Hc|[-> Ho]]); intros [= -> <-]; [by left|].
    right. left. by exists w, w1.
Qed.

Lemma load_topology_ok `{!YamlLaws} path (w : W) c w' :
  load_topology_config path w = (Ok c, w') → TopologyConfigModel_ok c = true.
Proof.
  unfold load_topology_config. intros (text & w1 & _ & Hp)%pym_bind_inv. injection Hp as Hp _.
  unfold parse_topology_config_text, mbind, res_mbind in Hp.
  destruct (_load_yaml_mapping _ _ _) as [m|] eqn:Hm; [|done]. destruct (validate_topology_model m) eqn:Hv; [|done]. injection Hp as <-.
  by eapply topology_model_ok.
Qed.
End loaders.
