(* ===== verification/ApiModels.v ===== *)
(** * REST models

    [api/models.py]: the response bodies of the controller's HTTP API and how
    each is made from a snapshot or a result of the runtime.  A constructor
    checks the constraints of its fields; [*_dump] is the JSON object a body
    is sent as. *)

From S2P Require Import Prelude PyStr Errors PyJson Types State DpdkModels Supervisor Manager App.
#[local] Open Scope string_scope.
#[local] Open Scope list_scope.

(** A model with the constraints [ok] of its fields. *)
Definition checked {A} (ok : A → bool) (a : A) : res pyexn A :=
  if ok a then Ok a else Err PydanticValidationError.

Lemma checked_ok {A} (ok : A → bool) a a' : checked ok a = Ok a' ↔ a' = a ∧ ok a = true.
Proof. unfold checked. destruct (ok a); naive_solver. Qed.

(** ** Records *)

Record ControllerHealthModel : Type := mkControllerHealth {
  ch_service : string;
  ch_version : string;
  ch_state : ControllerState;
  ch_message : string;
}.
Definition ControllerHealthModel_ok (m : ControllerHealthModel) : bool :=
  bool_decide (ch_service m = "pktlab-ctrld") && min_length_1 (ch_version m)
  && min_length_1 (ch_message m).

Record DatapathHealthModel : Type := mkDatapathHealth {
  dh_managed : bool;
  dh_reachable : bool;
  dh_socket_path : string;
  dh_pid : option Z;
  dh_exit_code : option Z;
  dh_last_error : option string;
  dh_service : option string;
  dh_version : option string;
  dh_dpdk_version : option string;
  dh_state : option DatapathState;
  dh_message : option string;
  dh_applied_rule_version : option Z;
  dh_ports_ready : bool;
  dh_paused : bool;
}.
Definition DatapathHealthModel_ok (m : DatapathHealthModel) : bool :=
  min_length_1 (dh_socket_path m) && opt_all (Z.leb 1) (dh_pid m)
  && opt_all (λ s, bool_decide (s = "pktlab-dpdkd")) (dh_service m)
  && opt_all (Z.leb 0) (dh_applied_rule_version m).

Record DatapathPortModel : Type := mkDatapathPort {
  dp_name : string;
  dp_port_id : Z;
  dp_role : PortRole;
  dp_state : DatapathPortStateValue;
}.
Definition DatapathPortModel_ok (m : DatapathPortModel) : bool :=
  min_length_1 (dp_name m) && (0 <=? dp_port_id m)%Z.

Record DatapathStatsModel : Type := mkDatapathStats {
  ds_rx_packets : Z;
  ds_tx_packets : Z;
  ds_drop_packets : Z;
  ds_drop_parse_errors : Z;
  ds_drop_no_match : Z;
  ds_rx_bursts : Z;
  ds_tx_bursts : Z;
  ds_unsent_packets : Z;
  ds_rule_hits : list (string * Z);
}.
Definition DatapathStatsModel_ok (m : DatapathStatsModel) : bool :=
  forallb (Z.leb 0)
    [ds_rx_packets m; ds_tx_packets m; ds_drop_packets m; ds_drop_parse_errors m;
     ds_drop_no_match m; ds_rx_bursts m; ds_tx_bursts m; ds_unsent_packets m].

Record HealthResponseModel : Type := mkHealthResponse {
  hr_controller : ControllerHealthModel;
  hr_datapath : DatapathHealthModel;
}.

Record DatapathStatusResponseModel : Type := mkStatusResponse {
  sr_controller : ControllerHealthModel;
  sr_datapath : DatapathHealthModel;
  sr_ports : list DatapathPortModel;
}.

Record DatapathStatsResponseModel : Type := mkStatsResponse {
  ss_datapath : DatapathHealthModel;
  ss_stats : DatapathStatsModel;
}.

Record DatapathStatsResetResponseModel : Type := mkStatsResetResponse {
  sx_datapath : DatapathHealthModel;
  sx_stats : DatapathStatsModel;
  sx_message : string;
}.
Definition DatapathStatsResetResponseModel_ok (m : DatapathStatsResetResponseModel) : bool :=
  min_length_1 (sx_message m).

Record DatapathControlResponseModel : Type := mkControlResponse {
  cc_datapath : DatapathHealthModel;
  cc_message : string;
}.
Definition DatapathControlResponseModel_ok (m : DatapathControlResponseModel) : bool :=
  min_length_1 (cc_message m).

Record TopologyApplyRequestModel : Type := mkApplyRequest { ar_config_path : string }.
Definition TopologyApplyRequestModel_ok (m : TopologyApplyRequestModel) : bool :=
  min_length_1 (ar_config_path m).

Record TopologyOperationResponseModel : Type := mkOperationResponse {
  or_operation : TopologyOperation;
  or_topology_name : option string;
  or_config_path : option string;
  or_applied : bool;
  or_datapath_namespace : option string;
  or_datapath_running : bool;
  or_message : string;
}.
Definition TopologyOperationResponseModel_ok (m : TopologyOperationResponseModel) : bool :=
  min_length_1 (or_message m).

(** ** From the runtime's snapshots and results *)

(** [_datapath_health_model_from_status] *)
Definition _datapath_health_model_from_status (st : DatapathProcessStatus)
    : res pyexn DatapathHealthModel :=
  let datapath_health := status_health st in
  let datapath_version := status_version st in
  checked DatapathHealthModel_ok
    (mkDatapathHealth (managed st) (reachable st) (status_socket_path st) (status_pid st)
      (status_exit_code st) (status_last_error st)
      (version_service <$> datapath_version) (version_version <$> datapath_version)
      (version_dpdk_version <$> datapath_version)
      (health_state <$> datapath_health) (health_message <$> datapath_health)
      (health_applied_rule_version <$> datapath_health)
      (default false (health_ports_ready <$> datapath_health))
      (default false (health_paused <$> datapath_health))).

(** [ControllerHealthModel(version=..., state=..., message=...)] *)
Definition controller_health_model (snapshot : ControllerHealthSnapshot)
    : res pyexn ControllerHealthModel :=
  checked ControllerHealthModel_ok
    (mkControllerHealth "pktlab-ctrld" (snap_controller_version snapshot)
      (snap_controller_state snapshot) (snap_controller_message snapshot)).

(** [HealthResponseModel.from_snapshot] *)
Definition health_from_snapshot (snapshot : ControllerHealthSnapshot) : res pyexn HealthResponseModel :=
  controller ← controller_health_model snapshot;
  datapath ← _datapath_health_model_from_status (snap_datapath_status snapshot);
  mret (mkHealthResponse controller datapath).

(** [DatapathPortModel(name=..., ...)] *)
Definition port_model (port : PortInfoModel) : res pyexn DatapathPortModel :=
  checked DatapathPortModel_ok
    (mkDatapathPort (info_name port) (info_port_id port) (info_role port) (info_state port)).

Fixpoint port_models (ports : list PortInfoModel) : res pyexn (list DatapathPortModel) :=
  match ports with
  | [] => mret []
  | port :: ports' => p ← port_model port; ps ← port_models ports'; mret (p :: ps)
  end.

(** [DatapathStatusResponseModel.from_snapshot] *)
Definition status_from_snapshot (snapshot : DatapathRuntimeStatusSnapshot)
    : res pyexn DatapathStatusResponseModel :=
  health ← health_from_snapshot (rs_controller_snapshot snapshot);
  ports ← port_models (rs_ports snapshot);
  mret (mkStatusResponse (hr_controller health) (hr_datapath health) ports).

(** [DatapathStatsModel.model_validate(stats.model_dump(mode="json"))]: both
    models have the same fields. *)
Definition stats_model (s : DpdkModels.DatapathStatsModel) : res pyexn DatapathStatsModel :=
  checked DatapathStatsModel_ok
    (mkDatapathStats (st_rx_packets s) (st_tx_packets s) (st_drop_packets s)
      (st_drop_parse_errors s) (st_drop_no_match s) (st_rx_bursts s) (st_tx_bursts s)
      (st_unsent_packets s) (st_rule_hits s)).

(** [DatapathStatsResponseModel.from_snapshot] *)
Definition stats_from_snapshot (snapshot : DatapathRuntimeStatsSnapshot)
    : res pyexn DatapathStatsResponseModel :=
  datapath ← _datapath_health_model_from_status (rt_datapath_status snapshot);
  stats ← stats_model (rt_stats snapshot);
  mret (mkStatsResponse datapath stats).

(** [DatapathStatsResetResponseModel.from_result] *)
Definition reset_from_result (result : DatapathStatsResetResult)
    : res pyexn DatapathStatsResetResponseModel :=
  datapath ← _datapath_health_model_from_status (rr_datapath_status result);
  stats ← stats_model (rr_stats result);
  checked DatapathStatsResetResponseModel_ok (mkStatsResetResponse datapath stats (rr_message result)).

(** [DatapathControlResponseModel.from_result] *)
Definition control_from_result (result : DatapathControlResult)
    : res pyexn DatapathControlResponseModel :=
  datapath ← _datapath_health_model_from_status (cr_datapath_status result);
  checked DatapathControlResponseModel_ok (mkControlResponse datapath (cr_message result)).

(** [TopologyOperationResponseModel.from_result] *)
Definition operation_from_result (result : TopologyOperationResult)
    : res pyexn TopologyOperationResponseModel :=
  checked TopologyOperationResponseModel_ok
    (mkOperationResponse (tr_operation result) (tr_topology_name result) (tr_config_path result)
      (tr_applied result) (tr_datapath_namespace result) (tr_datapath_running result)
      (tr_message result)).

(** ** The JSON objects that are sent

    Every field is present, in the order of the class; an unset one is
    [null]. *)

Definition controller_state_text (s : ControllerState) : string :=
  match s with
  | CS_stopped => "stopped" | CS_starting => "starting" | CS_running => "running"
  | CS_degraded => "degraded" | CS_reconciling => "reconciling" | CS_stopping => "stopping"
  | CS_failed => "failed"
  end.
Definition port_role_text (r : PortRole) : string :=
  match r with ingress => "ingress" | egress => "egress" end.
Definition port_state_text (s : DatapathPortStateValue) : string :=
  match s with port_up => "up" | port_down => "down" end.
Definition operation_text (o : TopologyOperation) : string :=
  match o with op_apply => "apply" | op_destroy => "destroy" end.

Definition controller_health_dump (m : ControllerHealthModel) : pydict :=
  [("service", PyStr (ch_service m)); ("version", PyStr (ch_version m));
   ("state", PyStr (controller_state_text (ch_state m))); ("message", PyStr (ch_message m))].

Definition datapath_health_dump (m : DatapathHealthModel) : pydict :=
  [("managed", PyBool (dh_managed m)); ("reachable", PyBool (dh_reachable m));
   ("socket_path", PyStr (dh_socket_path m)); ("pid", opt_val PyInt (dh_pid m));
   ("exit_code", opt_val PyInt (dh_exit_code m)); ("last_error", opt_val PyStr (dh_last_error m));
   ("service", opt_val PyStr (dh_service m)); ("version", opt_val PyStr (dh_version m));
   ("dpdk_version", opt_val PyStr (dh_dpdk_version m));
   ("state", opt_val (PyStr ∘ datapath_state_text) (dh_state m));
   ("message", opt_val PyStr (dh_message m));
   ("applied_rule_version", opt_val PyInt (dh_applied_rule_version m));
   ("ports_ready", PyBool (dh_ports_ready m)); ("paused", PyBool (dh_paused m))].

Definition port_dump (m : DatapathPortModel) : pydict :=
  [("name", PyStr (dp_name m)); ("port_id", PyInt (dp_port_id m));
   ("role", PyStr (port_role_text (dp_role m))); ("state", PyStr (port_state_text (dp_state m)))].

Definition stats_dump (m : DatapathStatsModel) : pydict :=
  [("rx_packets", PyInt (ds_rx_packets m)); ("tx_packets", PyInt (ds_tx_packets m));
   ("drop_packets", PyInt (ds_drop_packets m));
   ("drop_parse_errors", PyInt (ds_drop_parse_errors m));
   ("drop_no_match", PyInt (ds_drop_no_match m)); ("rx_bursts", PyInt (ds_rx_bursts m));
   ("tx_bursts", PyInt (ds_tx_bursts m)); ("unsent_packets", PyInt (ds_unsent_packets m));
   ("rule_hits", PyDict ((λ '(rule, hits), (rule, PyInt hits)) <$> ds_rule_hits m))].

Definition health_response_dump (m : HealthResponseModel) : pydict :=
  [("controller", PyDict (controller_health_dump (hr_controller m)));
   ("datapath", PyDict (datapath_health_dump (hr_datapath m)))].

Definition status_response_dump (m : DatapathStatusResponseModel) : pydict :=
  [("controller", PyDict (controller_health_dump (sr_controller m)));
   ("datapath", PyDict (datapath_health_dump (sr_datapath m)));
   ("ports", PyList (PyDict ∘ port_dump <$> sr_ports m))].

Definition stats_response_dump (m : DatapathStatsResponseModel) : pydict :=
  [("datapath", PyDict (datapath_health_dump (ss_datapath m)));
   ("stats", PyDict (stats_dump (ss_stats m)))].

Definition stats_reset_dump (m : DatapathStatsResetResponseModel) : pydict :=
  [("datapath", PyDict (datapath_health_dump (sx_datapath m)));
   ("stats", PyDict (stats_dump (sx_stats m))); ("message", PyStr (sx_message m))].

Definition control_dump (m : DatapathControlResponseModel) : pydict :=
  [("datapath", PyDict (datapath_health_dump (cc_datapath m))); ("message", PyStr (cc_message m))].

Definition operation_dump (m : TopologyOperationResponseModel) : pydict :=
  [("operation", PyStr (operation_text (or_operation m)));
   ("topology_name", opt_val PyStr (or_topology_name m));
   ("config_path", opt_val PyStr (or_config_path m)); ("applied", PyBool (or_applied m));
   ("datapath_namespace", opt_val PyStr (or_datapath_namespace m));
   ("datapath_running", PyBool (or_datapath_running m)); ("message", PyStr (or_message m))].
