(* ===== verification/Api.v ===== *)
(** * The HTTP API

    [api/routes_health.py], [api/routes_datapath.py], [api/routes_topology.py]
    and [api/app.py]: one handler per endpoint, the HTTP status an error is
    reported with, and the life of the application around the controller's.
    FastAPI calls the handlers and sends what they return or raise. *)

From S2P Require Import Prelude PyStr Errors Types State Clock DpdkModels.
From S2P Require Import Supervisor Netns Manager App ApiModels.
#[local] Open Scope string_scope.
#[local] Open Scope list_scope.

(** What a handler raises: FastAPI's [HTTPException], or an exception nobody
    translated. *)
Inductive api_exn : Type :=
| HTTPException (status_code : Z) (detail : pydict)
| Escaped (e : pyexn).

(** [routes_datapath._to_http_exception] *)
Definition datapath_to_http_exception (error : PktlabError) : api_exn :=
  let http_status :=
    match error_code error with
    | ErrorCode.STATE_CONFLICT => 409
    | ErrorCode.DATAPATH_TRANSPORT_ERROR | ErrorCode.PROCESS_ERROR | ErrorCode.TIMEOUT => 503
    | _ => 500
    end%Z in
  HTTPException http_status (to_dict error).

(** [routes_topology._to_http_exception] *)
Definition topology_to_http_exception (error : PktlabError) : api_exn :=
  let http_status :=
    match error_code error with
    | ErrorCode.TOPOLOGY_VALIDATION_ERROR | ErrorCode.CONFIG_PARSE_ERROR => 422
    | ErrorCode.STATE_CONFLICT => 409
    | _ => 500
    end%Z in
  HTTPException http_status (to_dict error).

(** A call of the controller inside a handler: [None] where the handler has no
    [except PktlabError]. *)
Definition handling {S A} (to_http : option (PktlabError → api_exn)) (m : pym pyexn S A)
    : pym api_exn S A := λ s,
  match m s with
  | (Ok a, s') => (Ok a, s')
  | (Err e, s') =>
      (Err (match to_http, e with
            | Some to_http, PktlabExn error => to_http error
            | _, _ => Escaped e
            end), s')
  end.

(** [return Model.from_...(value)] *)
Definition respond {S A R} (from : A → res pyexn R) (a : A) : pym api_exn S R := λ s,
  (match from a with Ok r => Ok r | Err e => Err (Escaped e) end, s).

Section api.
Context {W : Type} `{Clock W} `{Processes W} `{Ipc W} `{Host W} `{Loader W} `{ExnText}.
Context (config : ControllerConfig).

Abbreviation S := (option AppliedTopology * (controller * W))%type.
Abbreviation route := (pym api_exn S).

(** ** [routes_health.py] *)

Definition get_health : route HealthResponseModel :=
  snapshot ← handling None (on_snd (health_snapshot config));
  respond health_from_snapshot snapshot.

(** ** [routes_datapath.py] *)

Definition get_datapath_status : route DatapathStatusResponseModel :=
  snapshot ← handling (Some datapath_to_http_exception) (on_snd (datapath_status_snapshot config));
  respond status_from_snapshot snapshot.

Definition get_datapath_stats : route DatapathStatsResponseModel :=
  snapshot ← handling (Some datapath_to_http_exception) (on_snd (datapath_stats_snapshot config));
  respond stats_from_snapshot snapshot.

Definition route_reset_stats : route DatapathStatsResetResponseModel :=
  result ← handling (Some datapath_to_http_exception) (on_snd (reset_datapath_stats config));
  respond reset_from_result result.

Definition route_pause : route DatapathControlResponseModel :=
  result ← handling (Some datapath_to_http_exception) (on_snd (runtime_pause_datapath config));
  respond control_from_result result.

Definition route_resume : route DatapathControlResponseModel :=
  result ← handling (Some datapath_to_http_exception) (on_snd (runtime_resume_datapath config));
  respond control_from_result result.

(** ** [routes_topology.py] *)

Definition route_apply (payload : TopologyApplyRequestModel) : route TopologyOperationResponseModel :=
  result ← handling (Some topology_to_http_exception) (apply_topology config (ar_config_path payload));
  respond operation_from_result result.

Definition route_destroy : route TopologyOperationResponseModel :=
  result ← handling (Some topology_to_http_exception) (destroy_topology config);
  respond operation_from_result result.

(** ** [app.py] *)

(** [lifespan]: the application runs between the start and the stop of the
    controller. *)
Definition lifespan (serve : pym pyexn S ()) : pym pyexn S () :=
  on_snd (runtime_start config);;
  finally serve (runtime_stop config).

(** ** The routing table: the decorators and the routers' prefixes *)

Inductive endpoint : Type :=
| EpHealth | EpStatus | EpStats | EpReset | EpPause | EpResume
| EpApply (payload : TopologyApplyRequestModel) | EpDestroy.

Definition endpoint_method (e : endpoint) : string :=
  match e with
  | EpHealth | EpStatus | EpStats => "GET"
  | EpReset | EpPause | EpResume | EpApply _ | EpDestroy => "POST"
  end.

Definition endpoint_path (e : endpoint) : string :=
  match e with
  | EpHealth => "/health"
  | EpStatus => "/datapath" +:+ "/status"
  | EpStats => "/datapath" +:+ "/stats"
  | EpReset => "/datapath" +:+ "/stats/reset"
  | EpPause => "/datapath" +:+ "/pause"
  | EpResume => "/datapath" +:+ "/resume"
  | EpApply _ => "/topology" +:+ "/apply"
  | EpDestroy => "/topology" +:+ "/destroy"
  end.

(** The JSON object a handler's answer is sent as. *)
Definition sending {A} (dump : A → pydict) (m : route A) : route pydict :=
  a ← m; mret (dump a).

Definition endpoint_handler (e : endpoint) : route pydict :=
  match e with
  | EpHealth => sending health_response_dump get_health
  | EpStatus => sending status_response_dump get_datapath_status
  | EpStats => sending stats_response_dump get_datapath_stats
  | EpReset => sending stats_reset_dump route_reset_stats
  | EpPause => sending control_dump route_pause
  | EpResume => sending control_dump route_resume
  | EpApply payload => sending operation_dump (route_apply payload)
  | EpDestroy => sending operation_dump route_destroy
  end.

(** Requests are served one after the other; what a handler raises ends its
    request, not the application. *)
Definition serve_requests (requests : list endpoint) : pym pyexn S () := λ x,
  (Ok (), fold_left (λ x e, snd (endpoint_handler e x)) requests x).
End api.
