(* ===== verification/ApiProps.v ===== *)
(** * Properties of the HTTP API

    Every endpoint answers with what its operation of the runtime did: a value
    the runtime returned always fits the response model, and an error is
    translated by its code. *)

From S2P Require Import Prelude PyStr Errors Types State Issues TopologyValidation Clock DpdkModels.
From S2P Require Import Supervisor SupervisorProps SupervisorPayloads Netns SimWorld Topology.
From S2P Require Import Manager App AppProps SimController AppInvariant PyJson ApiModels Api.
#[local] Open Scope string_scope.
#[local] Open Scope list_scope.

(** ** Values that fit the response models *)

Lemma andb_4 a b c d : a = true → b = true → c = true → d = true → a && b && c && d = true.
Proof. by intros -> -> -> ->. Qed.

Lemma health_model_fits st :
  status_shown st → ∃ m, _datapath_health_model_from_status st = Ok m ∧ DatapathHealthModel_ok m = true.
Proof.
  intros [Hs Hp Hv Hh]. unfold _datapath_health_model_from_status. cbn zeta.
  match goal with |- ∃ m, checked _ ?m0 = _ ∧ _ => assert (DatapathHealthModel_ok m0 = true) as Hok end.
  { apply andb_4; cbn.
    - by apply min_length_1_ne.
    - destruct (status_pid st) as [pid|]; [|done]. cbn. apply Z.leb_le. by apply Hp.
    - destruct (status_version st) as [v|]; [|done]. specialize (Hv v eq_refl).
      by apply andb_true_iff in Hv as [[Hv _]%andb_true_iff _].
    - destruct (status_health st) as [h|]; [|done]. apply (Hh h eq_refl). }
  eexists. split; [by apply checked_ok|exact Hok].
Qed.

Lemma stats_model_fits s :
  DpdkModels.DatapathStatsModel_ok s = true → ∃ m, stats_model s = Ok m.
Proof. intros Hs. eexists. by apply checked_ok. Qed.

Lemma port_models_fit ports :
  forallb PortInfoModel_ok ports = true → ∃ ms, port_models ports = Ok ms.
Proof.
  induction ports as [|p ports IH]; cbn; [by eexists|]. intros [Hp Hps]%andb_true_iff.
  destruct (IH Hps) as [ms Hms]. rewrite Hms.
  assert (∃ m, port_model p = Ok m) as [m ->] by (eexists; by apply checked_ok).
  by eexists.
Qed.

(** ** What the runtime's operations return *)

(** The snapshot behind the health endpoint. *)
Definition snapshot_fits (s : ControllerHealthSnapshot) : Prop :=
  status_shown (snap_datapath_status s) ∧ snap_controller_version s = __version__ ∧
  snap_controller_message s ≠ "".

Definition stats_fit (s : DpdkModels.DatapathStatsModel) : Prop :=
  DpdkModels.DatapathStatsModel_ok s = true.

Section values.
Context {W : Type} `{Clock W} `{Processes W} `{Ipc W} `{Host W} `{Loader W} `{ExnText}.
Context (config : ControllerConfig).
Context `{!IpcLaws W} `{!IpcPayloads W} `{!PidLaws W}.
Context (Hpath : datapath_socket_path config ≠ "").

Abbreviation C := (pym pyexn (controller * W)).
Abbreviation P := (λ x : controller * W, controller_ok config (fst x)).

Lemma keeps_keeping {A} (m : C A) : respects (keeps_ok config) m → keeping P (λ _, True) m.
Proof.
  intros Hm x Hx. destruct (m x) as [[a|e] x'] eqn:Hr; [split; [done|]|]; by apply (Hm _ _ _ Hr).
Qed.

Lemma K_with {A} (φ : A → Prop) call (none : C A) :
  method_ok φ call → keeping P φ none → keeping P φ (with_supervisor call none).
Proof.
  intros Hc Hn [c w] Hx. destruct (with_supervisor call none (c, w)) as [r [c' w']] eqn:Hr.
  destruct (with_supervisor_run config Hpath _ _ _ _ _ _ _ _ Hc Hr Hx) as [Hr'|[Hok Ha]].
  - destruct (keeping_run _ _ _ _ _ _ Hn Hx Hr') as [Hok Ha]. destruct r; [split; auto|done].
  - destruct r; [split; auto|done].
Qed.

Lemma unmanaged_shown : status_shown (_unmanaged_datapath_status config).
Proof. by split. Qed.

Lemma current_status_shown : keeping P status_shown (_current_datapath_status_locked config).
Proof.
  unfold _current_datapath_status_locked.
  eapply keeping_seq; [by apply (keeping_gets _ (λ _, True))|]. intros [].
  - apply K_with; [apply supervisor_methods; done|]. apply keeping_mret, unmanaged_shown.
  - apply keeping_mret, unmanaged_shown.
Qed.

Lemma snapshot_value : keeping P snapshot_fits (health_snapshot config).
Proof.
  unfold health_snapshot. eapply keeping_bind; [apply current_status_shown|]. intros st Hst.
  eapply keeping_seq; [by apply (keeping_gets _ (λ _, True))|]. intros live.
  eapply keeping_seq.
  - apply keeps_keeping. destruct live; [|apply respects_mret, _].
    apply respects_bind; [apply _|by apply reobserve_keeps|intros _; apply recompute_keeps].
  - intros _. apply keeping_gets. intros [c w] Hc. split_and!; [done..|]. apply Hc.
Qed.

(** [raise_if_failed] and [unwrap] of a result with a valid payload. *)
Lemma K_unwrap {A B} (φ : A → bool) (ψ : B → Prop) (r : CommandResult A) (k : A → C B) :
  payload_ok φ r → (∀ a, φ a = true → keeping P ψ (k a)) →
  keeping P ψ (raise_if_failed r;; p ← pym_lift (unwrap r); k p).
Proof.
  intros Hr Hk. eapply keeping_seq; [apply keeps_keeping, raise_if_failed_keeps|]. intros _.
  eapply keeping_bind; [|exact Hk]. apply keeping_lift. intros a. by apply unwrap_payload.
Qed.

Lemma status_value :
  keeping P (λ s, snapshot_fits (rs_controller_snapshot s) ∧
                  forallb PortInfoModel_ok (rs_ports s) = true) (datapath_status_snapshot config).
Proof.
  unfold datapath_status_snapshot. eapply keeping_bind; [apply snapshot_value|]. intros s Hs.
  apply (keeping_bind _ (λ o, ∀ r, o = Some r → payload_ok PortsPayload_ok r)).
  - destruct (reachable _); [|by apply keeping_mret].
    apply K_with; [by apply ports_method_ok|by apply keeping_mret].
  - intros o Ho. apply (keeping_bind _ (λ ports, forallb PortInfoModel_ok ports = true)).
    + destruct o as [r|]; [|by apply keeping_mret]. eapply K_unwrap; [by apply Ho|].
      intros p Hp. by apply keeping_mret.
    + intros ports Hports. by apply keeping_mret.
Qed.

Lemma K_not_supervising {A} (φ : A → Prop) : keeping P φ not_supervising.
Proof. apply keeping_raise. Qed.

Lemma stats_value :
  keeping P (λ s, status_shown (rt_datapath_status s) ∧ stats_fit (rt_stats s))
    (datapath_stats_snapshot config).
Proof.
  unfold datapath_stats_snapshot. eapply keeping_bind; [apply current_status_shown|]. intros st Hst.
  eapply keeping_bind; [apply K_with; [by apply supervisor_methods|apply K_not_supervising]|].
  intros r Hr. eapply K_unwrap; [exact Hr|]. intros p Hp. by apply keeping_mret.
Qed.

Lemma reset_value :
  keeping P (λ s, status_shown (rr_datapath_status s) ∧ stats_fit (rr_stats s) ∧ rr_message s ≠ "")
    (reset_datapath_stats config).
Proof.
  unfold reset_datapath_stats.
  eapply keeping_bind; [apply K_with; [by apply supervisor_methods|apply K_not_supervising]|].
  intros ack Hack. eapply keeping_seq; [apply keeps_keeping, raise_if_failed_keeps|]. intros _.
  eapply keeping_bind; [apply current_status_shown|]. intros st Hst.
  eapply keeping_bind; [apply K_with; [by apply supervisor_methods|apply K_not_supervising]|].
  intros r Hr. eapply K_unwrap; [exact Hr|]. intros p Hp.
  eapply keeping_bind; [apply keeping_lift; intros a; by apply unwrap_payload|]. intros a Ha.
  apply keeping_mret. split_and!; [done..|]. cbn. intros Hm. unfold AckPayload_ok in Ha.
  by rewrite Hm in Ha.
Qed.

Lemma control_value command : method_ok (payload_ok AckPayload_ok) command →
  keeping P (λ s, status_shown (cr_datapath_status s) ∧ cr_message s ≠ "")
    (_run_datapath_control_command config command).
Proof.
  intros Hc. unfold _run_datapath_control_command.
  eapply keeping_bind; [apply K_with; [exact Hc|apply K_not_supervising]|]. intros r Hr.
  eapply keeping_seq; [apply keeps_keeping, raise_if_failed_keeps|]. intros _.
  eapply keeping_bind; [apply current_status_shown|]. intros st Hst.
  eapply keeping_seq; [apply keeps_keeping; by apply reobserve_keeps|]. intros _.
  eapply keeping_seq; [apply keeps_keeping, recompute_keeps|]. intros _.
  eapply keeping_bind; [apply keeping_lift; intros a; by apply unwrap_payload|]. intros a Ha.
  apply keeping_mret. split_and!; [done|]. cbn. intros Hm. unfold AckPayload_ok in Ha.
  by rewrite Hm in Ha.
Qed.

Lemma pause_value :
  keeping P (λ s, status_shown (cr_datapath_status s) ∧ cr_message s ≠ "")
    (runtime_pause_datapath config).
Proof. apply control_value, supervisor_methods. Qed.

Lemma resume_value :
  keeping P (λ s, status_shown (cr_datapath_status s) ∧ cr_message s ≠ "")
    (runtime_resume_datapath config).
Proof. apply control_value, supervisor_methods. Qed.
End values.

(** ** Messages of the topology operations *)

Section operations.
Context {W : Type} `{Clock W} `{Processes W} `{Ipc W} `{Host W} `{Loader W} `{ExnText}.
Context (config : ControllerConfig).

Abbreviation M := (pym pyexn (option AppliedTopology * (controller * W))).
Abbreviation T := (λ _ : option AppliedTopology * (controller * W), True).

Lemma keeping_any {A} (m : M A) : keeping T (λ _, True) m.
Proof. intros x _. by destruct (m x) as [[a|e] x']. Qed.

(** A computation that ends in a value is judged by it. *)
Ltac ends := repeat first
  [ apply keeping_raise | by apply keeping_mret
  | eapply keeping_seq; [apply keeping_any|intros ?] | case_match ].

Lemma operation_message path :
  keeping T (λ t, tr_message t ≠ "") (apply_topology config path) ∧
  keeping T (λ t, tr_message t ≠ "") (destroy_topology config).
Proof.
  unfold apply_topology, destroy_topology. split.
  - destruct (blank path); [apply keeping_raise|]. do 2 (eapply keeping_seq; [apply keeping_any|intros _]).
    apply (keeping_bind _ (λ t, tr_message t ≠ "")); [|intros t Ht; ends].
    apply keeping_try; [unfold manager_apply; ends|intros e; unfold on_apply_error; ends].
  - do 2 (eapply keeping_seq; [apply keeping_any|intros _]).
    apply (keeping_bind _ (λ t, tr_message t ≠ "")); [|intros t Ht; ends].
    apply keeping_try; [unfold manager_destroy; ends|intros e; unfold on_destroy_error; ends].
Qed.
End operations.

(** ** Endpoints and the operations behind them *)

(** What the operations of the runtime return. *)
Inductive runtime_value : Type :=
| VHealth (s : ControllerHealthSnapshot)
| VStatus (s : DatapathRuntimeStatusSnapshot)
| VStats (s : DatapathRuntimeStatsSnapshot)
| VReset (r : DatapathStatsResetResult)
| VControl (r : DatapathControlResult)
| VOperation (t : TopologyOperationResult).

(** The document that shows a value. *)
Definition document (v : runtime_value) : res pyexn pydict :=
  match v with
  | VHealth s => m ← health_from_snapshot s; mret (health_response_dump m)
  | VStatus s => m ← status_from_snapshot s; mret (status_response_dump m)
  | VStats s => m ← stats_from_snapshot s; mret (stats_response_dump m)
  | VReset r => m ← reset_from_result r; mret (stats_reset_dump m)
  | VControl r => m ← control_from_result r; mret (control_dump m)
  | VOperation t => m ← operation_from_result t; mret (operation_dump m)
  end.

Section endpoints.
Context {W : Type} `{Clock W} `{Processes W} `{Ipc W} `{Host W} `{Loader W} `{ExnText}.
Context (config : ControllerConfig).

Abbreviation M := (pym pyexn (option AppliedTopology * (controller * W))).

(** The operation of the runtime behind an endpoint. *)
Definition endpoint_value (e : endpoint) : M runtime_value :=
  match e with
  | EpHealth => s ← on_snd (health_snapshot config); mret (VHealth s)
  | EpStatus => s ← on_snd (datapath_status_snapshot config); mret (VStatus s)
  | EpStats => s ← on_snd (datapath_stats_snapshot config); mret (VStats s)
  | EpReset => r ← on_snd (reset_datapath_stats config); mret (VReset r)
  | EpPause => r ← on_snd (runtime_pause_datapath config); mret (VControl r)
  | EpResume => r ← on_snd (runtime_resume_datapath config); mret (VControl r)
  | EpApply payload => t ← apply_topology config (ar_config_path payload); mret (VOperation t)
  | EpDestroy => t ← destroy_topology config; mret (VOperation t)
  end.

(** How its errors are reported. *)
Definition endpoint_error (e : endpoint) (err : pyexn) : api_exn :=
  match e, err with
  | EpHealth, _ => Escaped err
  | (EpApply _ | EpDestroy), PktlabExn error => topology_to_http_exception error
  | _, PktlabExn error => datapath_to_http_exception error
  | _, _ => Escaped err
  end.

(** The answer of an endpoint for the outcome of its operation. *)
Definition answers (e : endpoint) (outcome : res pyexn runtime_value) (answer : res api_exn pydict)
    : Prop :=
  match outcome, answer with
  | Ok v, Ok doc => document v = Ok doc
  | Err err, Err exc => exc = endpoint_error e err
  | _, _ => False
  end.

(** One handler: the call, the translation of its error, the model. *)
Lemma handler_answers {A R} e to_http (m : M A) (val : A → runtime_value) (from : A → res pyexn R)
    (dump : R → pydict) (φ : A → Prop) x answer x' :
  endpoint_value e = (a ← m; mret (val a)) →
  (∀ err, endpoint_error e err = match to_http, err with
                                 | Some f, PktlabExn error => f error
                                 | _, _ => Escaped err
                                 end) →
  (∀ a, document (val a) = (r ← from a; mret (dump r))) →
  (∀ a, φ a → ∃ r, from a = Ok r) →
  (∀ a x1, m x = (Ok a, x1) → φ a) →
  sending dump (a ← handling to_http m; respond from a) x = (answer, x') →
  ∃ outcome, endpoint_value e x = (outcome, x') ∧ answers e outcome answer.
Proof.
  intros -> Herr Hdoc Hfit Hφ. unfold sending, mbind, pym_mbind, handling, respond, answers.
  destruct (m x) as [[a|err] x1] eqn:Hm.
  - destruct (Hfit a (Hφ _ _ eq_refl)) as [r Hr]. rewrite Hr. intros [= <- <-].
    exists (Ok (val a)). split; [done|]. by rewrite Hdoc, Hr.
  - intros [= <- <-]. exists (Err err). split; [done|]. by rewrite Herr.
Qed.
End endpoints.

Lemma on_snd_value {S W A} (P : W → Prop) (φ : A → Prop) (m : pym pyexn W A) (s : S) w :
  keeping P φ m → P w → ∀ a x, on_snd m (s, w) = (Ok a, x) → φ a.
Proof.
  intros Hm Hw a [s' w'] [-> Hr]%on_snd_inv. by eapply (keeping_run P φ m w (Ok a) w').
Qed.

(** ** Values that fit the response models of the endpoints *)

Lemma health_fits s : snapshot_fits s → ∃ m, health_from_snapshot s = Ok m.
Proof.
  intros (Hst & Hv & Hm). destruct (health_model_fits _ Hst) as (d & Hd & _).
  unfold health_from_snapshot, controller_health_model, checked, ControllerHealthModel_ok.
  cbn [ch_service ch_version ch_message]. rewrite Hv, (min_length_1_ne _ Hm).
  unfold mbind, res_mbind. cbn. rewrite Hd. by eexists.
Qed.

Lemma status_fits s :
  snapshot_fits (rs_controller_snapshot s) ∧ forallb PortInfoModel_ok (rs_ports s) = true →
  ∃ m, status_from_snapshot s = Ok m.
Proof.
  intros [Hs Hp]. destruct (health_fits _ Hs) as [m Hm]. destruct (port_models_fit _ Hp) as [ps Hps].
  unfold status_from_snapshot. rewrite Hm. unfold mbind, res_mbind. rewrite Hps. by eexists.
Qed.

Lemma stats_fits s :
  status_shown (rt_datapath_status s) ∧ stats_fit (rt_stats s) → ∃ m, stats_from_snapshot s = Ok m.
Proof.
  intros [Hs Hst]. destruct (health_model_fits _ Hs) as (d & Hd & _).
  destruct (stats_model_fits _ Hst) as [m Hm].
  unfold stats_from_snapshot. rewrite Hd. unfold mbind, res_mbind. rewrite Hm. by eexists.
Qed.

Lemma reset_fits s :
  status_shown (rr_datapath_status s) ∧ stats_fit (rr_stats s) ∧ rr_message s ≠ "" →
  ∃ m, reset_from_result s = Ok m.
Proof.
  intros (Hs & Hst & Hmsg). destruct (health_model_fits _ Hs) as (d & Hd & _).
  destruct (stats_model_fits _ Hst) as [m Hm].
  unfold reset_from_result. rewrite Hd. unfold mbind, res_mbind. rewrite Hm. eexists.
  apply checked_ok. split; [done|]. by apply min_length_1_ne.
Qed.

Lemma control_fits r : status_shown (cr_datapath_status r) ∧ cr_message r ≠ "" →
  ∃ m, control_from_result r = Ok m.
Proof.
  intros [Hst Hm]. destruct (health_model_fits _ Hst) as (d & Hd & _).
  unfold control_from_result. rewrite Hd. eexists. apply checked_ok. split; [done|].
  by apply min_length_1_ne.
Qed.

Lemma operation_fits t : tr_message t ≠ "" → ∃ m, operation_from_result t = Ok m.
Proof. intros Hm. eexists. apply checked_ok. split; [done|]. by apply min_length_1_ne. Qed.

Section answers.
Context {W : Type} `{Clock W} `{Processes W} `{Ipc W} `{Host W} `{Loader W} `{ExnText}.
Context `{!IpcLaws W} `{!IpcPayloads W} `{!PidLaws W} (config : ControllerConfig).
Context (Hpath : datapath_socket_path config ≠ "").

Lemma endpoint_answers e x answer x' :
  controller_ok config (fst (snd x)) → endpoint_handler config e x = (answer, x') →
  ∃ outcome, endpoint_value config e x = (outcome, x') ∧ answers e outcome answer.
Proof.
  destruct x as [cur [c w]]. intros Hc Hrun.
  destruct e; (eapply handler_answers; [..|exact Hrun]; [reflexivity|by intros []|reflexivity|..]).
  - apply health_fits.
  - eapply on_snd_value; [by apply snapshot_value|exact Hc].
  - apply status_fits.
  - eapply on_snd_value; [by apply status_value|exact Hc].
  - apply stats_fits.
  - eapply on_snd_value; [by apply stats_value|exact Hc].
  - apply reset_fits.
  - eapply on_snd_value; [by apply reset_value|exact Hc].
  - apply control_fits.
  - eapply on_snd_value; [by apply pause_value|exact Hc].
  - apply control_fits.
  - eapply on_snd_value; [by apply resume_value|exact Hc].
  - apply operation_fits.
  - intros t x1 Ht. by apply (proj2 (keeping_run _ _ _ _ _ _ (proj1 (operation_message config _)) I Ht)).
  - apply operation_fits.
  - intros t x1 Ht. by apply (proj2 (keeping_run _ _ _ _ _ _ (proj2 (operation_message config "")) I Ht)).
Qed.
End answers.
