(* ===== verification/ApiSpec.v ===== *)
(** * The documented answers of the API

    What [schemas/ctrld-api.openapi.yaml] and the README of the controller
    promise, written from the values of the runtime and not through the models
    and the routes of the code: the fields of every document, and the HTTP
    status of every error code. *)

From S2P Require Import Prelude PyStr Errors PyJson Types State Clock DpdkModels Supervisor Netns.
From S2P Require Import Manager App ApiModels Api ApiProps.
#[local] Open Scope string_scope.
#[local] Open Scope list_scope.

(** ** Names of states *)

Definition controller_state_name (s : ControllerState) : string :=
  match s with
  | CS_stopped => "stopped"
  | CS_starting => "starting"
  | CS_running => "running"
  | CS_degraded => "degraded"
  | CS_reconciling => "reconciling"
  | CS_stopping => "stopping"
  | CS_failed => "failed"
  end.
Definition datapath_state_name (s : DatapathState) : string :=
  match s with
  | DS_starting => "starting"
  | DS_running => "running"
  | DS_paused => "paused"
  | DS_degraded => "degraded"
  | DS_stopping => "stopping"
  | DS_failed => "failed"
  end.
Definition role_name (r : PortRole) : string :=
  match r with ingress => "ingress" | egress => "egress" end.
Definition port_state_name (s : DatapathPortStateValue) : string :=
  match s with port_up => "up" | port_down => "down" end.
Definition operation_name (o : TopologyOperation) : string :=
  match o with op_apply => "apply" | op_destroy => "destroy" end.

(** ** Documents *)

(** A field that may be [null]. *)
Definition text_field (o : option string) : pyval :=
  match o with Some s => PyStr s | None => PyNone end.
Definition number_field (o : option Z) : pyval :=
  match o with Some z => PyInt z | None => PyNone end.

Definition controller_fields (s : ControllerHealthSnapshot) : pydict :=
  [("service", PyStr "pktlab-ctrld"); ("version", PyStr (snap_controller_version s));
   ("state", PyStr (controller_state_name (snap_controller_state s)));
   ("message", PyStr (snap_controller_message s))].

Definition datapath_fields (st : DatapathProcessStatus) : pydict :=
  let version := status_version st in
  let health := status_health st in
  [("managed", PyBool (managed st)); ("reachable", PyBool (reachable st));
   ("socket_path", PyStr (status_socket_path st)); ("pid", number_field (status_pid st));
   ("exit_code", number_field (status_exit_code st));
   ("last_error", text_field (status_last_error st));
   ("service", text_field (version_service <$> version));
   ("version", text_field (version_version <$> version));
   ("dpdk_version", text_field (version_dpdk_version <$> version));
   ("state", text_field (datapath_state_name ∘ health_state <$> health));
   ("message", text_field (health_message <$> health));
   ("applied_rule_version", number_field (health_applied_rule_version <$> health));
   ("ports_ready", PyBool (match health with Some h => health_ports_ready h | None => false end));
   ("paused", PyBool (match health with Some h => health_paused h | None => false end))].

Definition port_fields (p : PortInfoModel) : pydict :=
  [("name", PyStr (info_name p)); ("port_id", PyInt (info_port_id p));
   ("role", PyStr (role_name (info_role p))); ("state", PyStr (port_state_name (info_state p)))].

Definition counter_fields (s : DpdkModels.DatapathStatsModel) : pydict :=
  [("rx_packets", PyInt (st_rx_packets s)); ("tx_packets", PyInt (st_tx_packets s));
   ("drop_packets", PyInt (st_drop_packets s)); ("drop_parse_errors", PyInt (st_drop_parse_errors s));
   ("drop_no_match", PyInt (st_drop_no_match s)); ("rx_bursts", PyInt (st_rx_bursts s));
   ("tx_bursts", PyInt (st_tx_bursts s)); ("unsent_packets", PyInt (st_unsent_packets s));
   ("rule_hits", PyDict ((λ h, (h.1, PyInt h.2)) <$> st_rule_hits s))].

(** The document that shows a value of the runtime. *)
Definition sent (v : runtime_value) : pydict :=
  match v with
  | VHealth s =>
      [("controller", PyDict (controller_fields s));
       ("datapath", PyDict (datapath_fields (snap_datapath_status s)))]
  | VStatus s =>
      let c := rs_controller_snapshot s in
      [("controller", PyDict (controller_fields c));
       ("datapath", PyDict (datapath_fields (snap_datapath_status c)));
       ("ports", PyList (PyDict ∘ port_fields <$> rs_ports s))]
  | VStats s =>
      [("datapath", PyDict (datapath_fields (rt_datapath_status s)));
       ("stats", PyDict (counter_fields (rt_stats s)))]
  | VReset r =>
      [("datapath", PyDict (datapath_fields (rr_datapath_status r)));
       ("stats", PyDict (counter_fields (rr_stats r))); ("message", PyStr (rr_message r))]
  | VControl r =>
      [("datapath", PyDict (datapath_fields (cr_datapath_status r))); ("message", PyStr (cr_message r))]
  | VOperation t =>
      [("operation", PyStr (operation_name (tr_operation t)));
       ("topology_name", text_field (tr_topology_name t));
       ("config_path", text_field (tr_config_path t)); ("applied", PyBool (tr_applied t));
       ("datapath_namespace", text_field (tr_datapath_namespace t));
       ("datapath_running", PyBool (tr_datapath_running t)); ("message", PyStr (tr_message t))]
  end.

(** ** Errors *)

#[export] Instance endpoint_eq_dec : EqDecision endpoint.
Proof. unfold EqDecision, Decision. repeat decide equality. Defined.

(** The statuses of the error codes an endpoint distinguishes; any other code
    is an unexpected failure, 500. *)
Definition documented_statuses (e : endpoint) : list (ErrorCode.t * Z) :=
  match e with
  | EpHealth => []
  | EpStatus | EpStats | EpReset | EpPause | EpResume =>
      [(ErrorCode.STATE_CONFLICT, 409%Z); (ErrorCode.DATAPATH_TRANSPORT_ERROR, 503%Z);
       (ErrorCode.PROCESS_ERROR, 503%Z); (ErrorCode.TIMEOUT, 503%Z)]
  | EpApply _ | EpDestroy =>
      [(ErrorCode.TOPOLOGY_VALIDATION_ERROR, 422%Z); (ErrorCode.CONFIG_PARSE_ERROR, 422%Z);
       (ErrorCode.STATE_CONFLICT, 409%Z)]
  end.

Fixpoint status_among (statuses : list (ErrorCode.t * Z)) (code : ErrorCode.t) : Z :=
  match statuses with
  | [] => 500
  | (c, status) :: rest => if decide (c = code) then status else status_among rest code
  end.

Definition error_status (e : endpoint) (code : ErrorCode.t) : Z :=
  status_among (documented_statuses e) code.

(** The detail of an error: code, message, and the context when there is one. *)
Definition error_fields (error : PktlabError) : pydict :=
  [("code", PyStr (ErrorCode.value (error_code error))); ("message", PyStr (error_message error))]
  ++ match error_context error with [] => [] | context => [("context", PyDict context)] end.

(** The answer to a request, for the outcome of its operation: the document of
    the value; the status and the detail of a typed error; any other exception
    escapes, and every exception of [GET /health] does. *)
Inductive answered (e : endpoint) : res pyexn runtime_value → res api_exn pydict → Prop :=
| answered_value v : answered e (Ok v) (Ok (sent v))
| answered_error error :
    e ≠ EpHealth →
    answered e (Err (PktlabExn error))
      (Err (HTTPException (error_status e (error_code error)) (error_fields error)))
| answered_escape err :
    e = EpHealth ∨ is_pktlab err = false → answered e (Err err) (Err (Escaped err)).

(** ** The code meets it *)

Lemma datapath_fields_sent st m :
  _datapath_health_model_from_status st = Ok m → datapath_health_dump m = datapath_fields st.
Proof.
  intros [-> _]%checked_ok. unfold datapath_health_dump, datapath_fields. cbn.
  destruct (status_health st) as [[[] hm hv hp hq]|]; by destruct (status_version st).
Qed.

Lemma controller_fields_sent s m :
  controller_health_model s = Ok m → controller_health_dump m = controller_fields s.
Proof.
  intros [-> _]%checked_ok. unfold controller_health_dump, controller_fields. cbn.
  by destruct (snap_controller_state s).
Qed.

Lemma health_fields_sent s m :
  health_from_snapshot s = Ok m →
  controller_health_dump (hr_controller m) = controller_fields s ∧
  datapath_health_dump (hr_datapath m) = datapath_fields (snap_datapath_status s).
Proof.
  unfold health_from_snapshot, mbind, res_mbind.
  destruct (controller_health_model s) as [c|] eqn:Hc; [|done].
  destruct (_datapath_health_model_from_status _) as [d|] eqn:Hd; [|done]. intros [= <-].
  split; [by apply controller_fields_sent|by apply datapath_fields_sent].
Qed.

Lemma ports_fields_sent ports ms :
  port_models ports = Ok ms → PyDict ∘ port_dump <$> ms = PyDict ∘ port_fields <$> ports.
Proof.
  revert ms. induction ports as [|p ports IH]; cbn [port_models]; intros ms; [by intros [= <-]|].
  unfold mbind, res_mbind. destruct (port_model p) as [m|] eqn:Hm; [|done].
  destruct (port_models ports) as [ms'|] eqn:Hms; [|done]. intros [= <-].
  apply checked_ok in Hm as [-> _]. cbn. rewrite (IH ms' eq_refl). unfold port_dump, port_fields. cbn.
  destruct (info_role p), (info_state p); done.
Qed.

Lemma counter_fields_sent s m : stats_model s = Ok m → stats_dump m = counter_fields s.
Proof.
  intros [-> _]%checked_ok. unfold stats_dump, counter_fields. cbn. do 9 f_equal.
  f_equal. f_equal. apply list_fmap_ext. by intros ? [].
Qed.

(** The models of the code give the documents. *)
Lemma document_sent v doc : document v = Ok doc → doc = sent v.
Proof.
  destruct v as [s|s|s|r|r|t]; cbn [document sent]; unfold mbind, res_mbind.
  - destruct (health_from_snapshot s) as [m|] eqn:Hm; [|done]. intros [= <-].
    apply health_fields_sent in Hm as [Hc Hd]. unfold health_response_dump. by rewrite Hc, Hd.
  - destruct (status_from_snapshot s) as [m|] eqn:Hm; [|done]. intros [= <-].
    unfold status_from_snapshot, mbind, res_mbind in Hm.
    destruct (health_from_snapshot _) as [h|] eqn:Hh; [|done].
    destruct (port_models _) as [ps|] eqn:Hp; [|done]. injection Hm as <-.
    apply health_fields_sent in Hh as [Hc Hd]. apply ports_fields_sent in Hp.
    unfold status_response_dump. cbn [sr_controller sr_datapath sr_ports]. by rewrite Hc, Hd, Hp.
  - destruct (stats_from_snapshot s) as [m|] eqn:Hm; [|done]. intros [= <-].
    unfold stats_from_snapshot, mbind, res_mbind in Hm.
    destruct (_datapath_health_model_from_status _) as [d|] eqn:Hd; [|done].
    destruct (stats_model _) as [st|] eqn:Hs; [|done]. injection Hm as <-.
    unfold stats_response_dump. cbn [ss_datapath ss_stats].
    by rewrite (datapath_fields_sent _ _ Hd), (counter_fields_sent _ _ Hs).
  - destruct (reset_from_result r) as [m|] eqn:Hm; [|done]. intros [= <-].
    unfold reset_from_result, mbind, res_mbind in Hm.
    destruct (_datapath_health_model_from_status _) as [d|] eqn:Hd; [|done].
    destruct (stats_model _) as [st|] eqn:Hs; [|done]. apply checked_ok in Hm as [-> _].
    unfold stats_reset_dump. cbn [sx_datapath sx_stats sx_message].
    by rewrite (datapath_fields_sent _ _ Hd), (counter_fields_sent _ _ Hs).
  - destruct (control_from_result r) as [m|] eqn:Hm; [|done]. intros [= <-].
    unfold control_from_result, mbind, res_mbind in Hm.
    destruct (_datapath_health_model_from_status _) as [d|] eqn:Hd; [|done].
    apply checked_ok in Hm as [-> _]. unfold control_dump. cbn [cc_datapath cc_message].
    by rewrite (datapath_fields_sent _ _ Hd).
  - destruct (operation_from_result t) as [m|] eqn:Hm; [|done]. intros [= <-].
    apply checked_ok in Hm as [-> _]. unfold operation_dump. cbn. by destruct (tr_operation t).
Qed.

(** The routes report errors by the table. *)
Lemma routes_by_table e error :
  e ≠ EpHealth →
  endpoint_error e (PktlabExn error) = HTTPException (error_status e (error_code error)) (error_fields error).
Proof.
  intros He. assert (error_fields error = to_dict error) as -> by done.
  destruct e; try done; cbn [endpoint_error];
    unfold datapath_to_http_exception, topology_to_http_exception; f_equal; by destruct (error_code error).
Qed.

Lemma error_reported e err : answered e (Err err) (Err (endpoint_error e err)).
Proof.
  destruct (is_pktlab err) eqn:Hp.
  - destruct err as [error| | | | | | | | |]; try discriminate Hp.
    destruct (decide (e = EpHealth)) as [->|He]; [by apply answered_escape; left|].
    rewrite routes_by_table by done. by apply answered_error.
  - replace (endpoint_error e err) with (Escaped err); [apply answered_escape; by right|].
    by destruct e, err.
Qed.

Lemma answers_documented e outcome answer : answers e outcome answer → answered e outcome answer.
Proof.
  unfold answers. destruct outcome as [v|err], answer as [doc|exc]; try done.
  - intros ->%document_sent. apply answered_value.
  - intros ->. apply error_reported.
Qed.
