(* ===== verification/ApiClaims.v ===== *)
(** * Claims about the HTTP API

    What every endpoint answers, and how a configuration document that cannot
    be used is reported. *)

From S2P Require Import Prelude PyStr IpAddress Errors Types State Issues.
From S2P Require Import TopologyValidation TopologySpec TopologyProps Clock DpdkModels.
From S2P Require Import Supervisor SupervisorProps SupervisorPayloads SupervisorMoves Netns SimWorld.
From S2P Require Import Topology Manager ManagerProps App ConfigLoader AppProps SimController.
From S2P Require Import AppInvariant AppClaims ApiModels Api ApiProps ApiSpec.
#[local] Open Scope string_scope.
#[local] Open Scope list_scope.

(** ** Answers *)

(** C8 In every reachable state, every endpoint answers with the outcome of its
    operation of the runtime, in the state that operation leaves: a value is
    sent as the documented document, field by field; a typed error gives the
    documented status of its code (409 for a state conflict; 503 for
    transport, process and timeout errors of a datapath endpoint; 422 for an
    invalid document or topology on a topology endpoint; 500 for the rest)
    with code, message and context as detail; any other exception escapes the
    handler, and so does every exception of [GET /health], which translates
    none. *)
Theorem api_answers {W} `{Clock W} `{Processes W} `{Ipc W} `{Host W} `{Loader W} `{ExnText}
    `{!IpcLaws W} `{!IpcPayloads W} `{!PidLaws W} config e
    (x : option AppliedTopology * (controller * W)) answer x' :
  datapath_socket_path config ≠ "" → runtime_reachable config x →
  endpoint_handler config e x = (answer, x') →
  ∃ outcome, endpoint_value config e x = (outcome, x') ∧ answered e outcome answer.
Proof.
  intros Hp Hx Hrun. apply endpoint_answers in Hrun as (outcome & Hv & Ha); [|done|by apply reachable_ok].
  exists outcome. split; [done|]. by apply answers_documented.
Qed.

Lemma app_state_reachable : runtime_reachable app_config app_state.
Proof.
  apply (run_call app_config RunStart (None, (app_new, app_host)) (Ok ()) app_state).
  - apply run_new, app_new_ok.
  - vm_compute. reflexivity.
Qed.

Lemma api_answers_witness :
  ∃ outcome, endpoint_value app_config (EpApply (mkApplyRequest "lab.yaml")) app_state
      = (outcome, app_applied) ∧
    answered (EpApply (mkApplyRequest "lab.yaml")) outcome
      (fst (endpoint_handler app_config (EpApply (mkApplyRequest "lab.yaml")) app_state)).
Proof.
  apply (api_answers app_config _ app_state); [discriminate|apply app_state_reachable|].
  vm_compute. reflexivity.
Defined.

(** ** Documents that cannot be used *)

Lemma validation_error_code c err :
  validate_topology_config c = Err (PktlabExn err) →
  error_code err = ErrorCode.TOPOLOGY_VALIDATION_ERROR.
Proof.
  intros [He|(issues & _ & [= ->])]%raise_if_issues_err; [|done].
  pose proof (safe_collect_topology c) as Hs. rewrite He in Hs. destruct Hs as [|[|]]; discriminate.
Qed.

(** The document at [path] cannot be used: it is not readable, not a YAML
    mapping of the right structure, or not a valid topology. *)
Definition unusable {W} `{Files W, Yaml, ExnText} (path : string) (w : W) (err : PktlabError) (w0 : W)
    : Prop :=
  load_topology_config path w = (Err (PktlabExn err), w0) ∧ ¬ library_error path (PktlabExn err) ∨
  ∃ c, load_topology_config path w = (Ok c, w0) ∧ validate_topology_config c = Err (PktlabExn err).

Lemma unusable_422 {W} `{Files W, Yaml, ExnText} path (w : W) err w0 :
  unusable path w err w0 → topology_to_http_exception err = HTTPException 422 (to_dict err).
Proof.
  unfold topology_to_http_exception. intros [[Hl Hn]|(c & _ & Hv)].
  - apply load_topology_raises in Hl as [(err' & [= <-] & _ & -> & _)|Hl]; done.
  - by rewrite (validation_error_code _ _ Hv).
Qed.

(** Reporting a failed apply only asks for the status. *)
Lemma apply_error_moves {W} `{Clock W, Processes W, Ipc W, Host W, Loader W, ExnText} config
    (R : relation W) `{!RunningRespects R} {A} path e :
  respects (on_world (on_world R)) (on_apply_error (A:=A) config path e).
Proof.
  assert (∀ A (m : pym pyexn (controller * W) A), respects (on_world R) m →
    respects (on_world (on_world R)) (on_snd (S := option AppliedTopology) m)) as Hsnd.
  { intros B m. by apply respects_on_snd. }
  pose proof (set_c_moves R) as Hset. pose proof (current_status_moves config R) as Hst.
  unfold on_apply_error, desire, reobserve, observe, _observed_from_datapath,
    _recompute_controller_health, get_c. moves; apply Hsnd; moves.
Qed.


(** ** Witness: an empty document *)

(** A file system with one empty file, and a parser that finds nothing in it
    and a scalar in any other text. *)
#[local] Instance demo_files : Files sim := {|
  path_text p := p;
  read_text p := if decide (p = "empty.yaml") then mret "" else raise (OSErr FileNotFoundError);
|}.
#[local] Instance demo_yaml : Yaml := {|
  yaml_mapping := Empty_set;
  safe_load text := if str_empty text then YamlNone else YamlOther "str";
  validate_topology_model m := match m with end;
  validate_ruleset_model m := match m with end;
|}.
#[local] Instance demo_quiet : QuietHost sim (H5 := file_loader).
Proof. destruct app_quiet. by constructor. Qed.

Definition empty_document : PktlabError :=
  new_ConfigParseError "topology config is empty" [("source", PyStr "empty.yaml")].

Lemma empty_document_unusable w : unusable "empty.yaml" w empty_document w.
Proof.
  left. split; [reflexivity|]. intros [(w1 & w2 & Hr & _)|[t Ht]]; [discriminate Hr|].
  unfold safe_load, demo_yaml in Ht. by destruct (str_empty t).
Qed.

