(* ===== verification/ApiLife.v ===== *)
(** * The life of the application

    Starting, serving requests and stopping: after an orderly shutdown no
    topology, no process and no network in the findable namespaces of the lab
    is left, whatever the requests in between did. *)

From S2P Require Import Prelude PyStr IpAddress Errors Types State Issues.
From S2P Require Import TopologyValidation TopologySpec TopologyProps Clock DpdkModels.
From S2P Require Import Supervisor SupervisorProps SupervisorMoves Netns SimWorld Topology TopologyWiring.
From S2P Require Import Manager ManagerProps ManagerMoves App AppProps SimController AppInvariant.
From S2P Require Import AppClaims ApiModels Api.
#[local] Open Scope string_scope.
#[local] Open Scope list_scope.

(** ** Only starting and stopping change whether the controller is started *)

Section started.
Context {W : Type} `{Clock W} `{Processes W} `{Ipc W} `{Host W} `{Loader W} `{ExnText}.
Context (config : ControllerConfig).

Abbreviation M := (pym pyexn (option AppliedTopology * (controller * W))).

Definition same_started : relation (controller * W) := λ x y, _started (fst y) = _started (fst x).
#[local] Instance same_started_preorder : PreOrder same_started.
Proof. split; unfold same_started; [by intros x|]. by intros x y z -> ->. Qed.

Lemma view_started {A} (m : pym pyexn (controller * W) A) :
  respects same_view m → respects same_started m.
Proof. intros Hm [c w] r [c' w'] (_ & _ & _ & Hs & _)%Hm%view_fields. exact Hs. Qed.

Lemma set_c_started f : (∀ c, _started (f c) = _started c) → respects same_started (set_c (W:=W) f).
Proof. intros Hf. apply respects_modify. intros [c w]. apply Hf. Qed.

Lemma recompute_started status :
  respects same_started (_recompute_controller_health (W:=W) config status).
Proof. apply set_c_started. intros c. by destruct (controller_health config c status). Qed.

Lemma desire_started d : respects same_started (desire (W:=W) d).
Proof.
  intros [c w] r [c' w'].
  by destruct (desire_cases d c w) as [[_ ->]|(_ & e & ->)]; intros [= _ <- _].
Qed.

Lemma observe_started status applied eff : respects same_started (observe (W:=W) status applied eff).
Proof.
  intros [c w] r [c' w'].
  by destruct (observe_cases status applied eff c w) as [[_ ->]|(_ & e & ->)]; intros [= _ <- _].
Qed.

Lemma status_started : respects same_started (_current_datapath_status_locked config).
Proof. apply view_started, current_status_view. Qed.

Lemma with_supervisor_started {A} call (none : pym pyexn (controller * W) A) :
  respects same_view none → respects same_started (with_supervisor call none).
Proof. intros Hn. by apply view_started, with_supervisor_view. Qed.

#[local] Hint Resolve recompute_started desire_started observe_started status_started : respects.
#[local] Hint Extern 1 (respects _ (set_c _)) => apply set_c_started; reflexivity : respects.
#[local] Hint Extern 1 (respects _ (with_supervisor _ _)) =>
  apply with_supervisor_started; moves : respects.

Lemma get_c_started {A} (f : controller → A) : respects same_started (get_c (W:=W) f).
Proof. apply respects_gets, _. Qed.
#[local] Hint Resolve get_c_started : respects.

Lemma reobserve_started status : respects same_started (reobserve (W:=W) status).
Proof. unfold reobserve. moves. Qed.
#[local] Hint Resolve reobserve_started : respects.

Lemma health_started : respects same_started (health_snapshot config).
Proof. unfold health_snapshot. moves. Qed.
#[local] Hint Resolve health_started : respects.

Lemma queries_started :
  respects same_started (datapath_status_snapshot config) ∧
  respects same_started (datapath_stats_snapshot config) ∧
  respects same_started (reset_datapath_stats config) ∧
  respects same_started (runtime_pause_datapath config) ∧
  respects same_started (runtime_resume_datapath config).
Proof.
  assert (∀ A, respects same_started (not_supervising (W:=W) (A:=A))) as Hn
    by (intros A; unfold not_supervising; moves).
  split_and!; unfold datapath_status_snapshot, datapath_stats_snapshot, reset_datapath_stats,
    runtime_pause_datapath, runtime_resume_datapath, _run_datapath_control_command,
    raise_if_failed, not_supervising; moves.
Qed.

Abbreviation same_started_m := (on_world (S := option AppliedTopology) same_started).

Lemma topology_started path :
  respects same_started_m (apply_topology config path) ∧
  respects same_started_m (destroy_topology config).
Proof.
  destruct (manager_view (W:=W) config path) as [Ha Hd].
  assert (∀ A (m : M A), respects (on_world same_view) m → respects same_started_m m) as Hview.
  { intros A m Hm [cur [c w]] r [cur' [c' w']] (_ & _ & _ & Hs & _)%Hm%view_fields. exact Hs. }
  apply Hview in Ha, Hd.
  assert (∀ A (m : pym pyexn (controller * W) A), respects same_started m →
    respects same_started_m (on_snd m)) as Hsnd by (intros A m; by apply respects_on_snd).
  split; unfold apply_topology, destroy_topology, on_apply_error, on_destroy_error,
    _clear_controller_override, _stop_topology_datapath; moves.
Qed.

(** A handler leaves the state its call of the runtime leaves. *)
Lemma handler_state {A B} (dump : B → pydict) to_http (m : M A) (from : A → res pyexn B) x :
  snd (sending dump (a ← handling to_http m; respond from a) x) = snd (m x).
Proof.
  unfold sending, mbind, pym_mbind, handling, respond. destruct (m x) as [[a|e] x1]; [|done].
  by destruct (from a).
Qed.

Lemma handler_started e x :
  _started (fst (snd (snd (endpoint_handler config e x)))) = _started (fst (snd x)).
Proof.
  destruct (queries_started) as (Hs & Ht & Hr & Hp & Hu).
  assert (∀ A (m : pym pyexn (controller * W) A), respects same_started m →
    ∀ x, _started (fst (snd (snd (on_snd (S := option AppliedTopology) m x)))) = _started (fst (snd x)))
    as Hsnd.
  { intros A m Hm [cur y]. unfold on_snd. destruct (m y) as [r y'] eqn:Hy. by apply Hm in Hy. }
  destruct (topology_started (match e with EpApply p => ar_config_path p | _ => "" end)) as [Ha Hd].
  destruct e; cbn [endpoint_handler];
    unfold get_health, get_datapath_status, get_datapath_stats, route_reset_stats, route_pause,
      route_resume, route_apply, route_destroy; rewrite handler_state; try by apply Hsnd.
  - apply Hsnd, health_started.
  - destruct (apply_topology config _ x) as [r x'] eqn:Hx. exact (Ha _ _ _ Hx).
  - destruct (destroy_topology config x) as [r x'] eqn:Hx. exact (Hd _ _ _ Hx).
Qed.

Lemma serve_started requests x u x' :
  serve_requests config requests x = (u, x') → _started (fst (snd x')) = _started (fst (snd x)).
Proof.
  unfold serve_requests. intros [= _ <-]. revert x.
  induction requests as [|e requests IH]; intros x; [done|]. cbn. by rewrite IH, handler_started.
Qed.

(** Starting a controller that returns leaves it started. *)
Lemma start_started c w u c' w' :
  runtime_start config (c, w) = (Ok u, (c', w')) → _started c' = true.
Proof.
  intros (b & [c1 w1] & Hg & Hrun)%pym_bind_inv. injection Hg as <- <- <-. cbn in Hrun.
  destruct (_started c) eqn:Hs; [injection Hrun as _ <- _; exact Hs|].
  do 5 (apply pym_bind_inv in Hrun as (? & ? & _ & Hrun)).
  apply pym_bind_inv in Hrun as (v & [c9 w9] & Hset & Hrun). unfold set_c, modify in Hset.
  apply recompute_started in Hrun. unfold same_started in Hrun. cbn in Hrun. rewrite Hrun.
  match type of Hset with context [match ?x with (c, w) => _ end] => destruct x end.
  by injection Hset as _ <- _.
Qed.
End started.

(** ** Stopping *)

Section stopping.
Context {W : Type} `{Clock W, Processes W, Ipc W, IpLaws W, Taps, Loader W, !QuietHost W}.
Context `{!NetStable (W := W)} `{ExnText}.
Context (config : ControllerConfig).

(** Removing links and namespaces does not touch the controller. *)
Definition same_controller : relation (controller * W) := λ x y, fst y = fst x.
#[local] Instance same_controller_host : HostRespects (W := controller * W) same_controller.
Proof.
  constructor.
  - split; unfold same_controller; [by intros x|]. intros x y z Hxy Hyz. congruence.
  - intros argv [c w] r [c' w'] [-> _]%on_snd_inv. done.
  - intros [c w] r [c' w'] [-> _]%on_snd_inv. done.
  - intros d [c w] r [c' w'] [-> _]%on_snd_inv. done.
Qed.

Lemma manager_destroy_rests cur c w t cur' c' w' :
  has_applied_topology cur = true →
  manager_destroy (app_manager config) (cur, (c, w)) = (Ok t, (cur', (c', w'))) → at_rest (c', w').
Proof.
  destruct cur as [a|]; [|done]. intros _. unfold manager_destroy.
  intros (cur0 & x0 & [= <- <-] & Hrun)%pym_bind_inv.
  apply pym_bind_inv in Hrun as (u & [cur1 x1] & [_ Hd]%on_snd_inv & Hrun).
  apply pym_bind_inv in Hrun as (u' & x2 & [= _ <-] & [= _ _ <-]).
  apply (destroy_locked_ok (app_manager config)) in Hd as ([c1 w1] & [c2 w2] & Hs & Hl & Hn).
  pose proof (stop_callback_rests _ _ _ Hs) as Hrest.
  apply (moves_destroy_links same_controller) in Hl.
  apply (moves_phases same_controller) in Hn.
  unfold same_controller in *. cbn in Hl, Hn. intros cfg s Hsup. apply (Hrest cfg s). cbn in *.
  congruence.
Qed.

(** What an orderly stop leaves. *)
Record stopped (cur : option AppliedTopology) (x : option AppliedTopology * (controller * W)) : Prop := {
  stopped_record : fst x = None;
  stopped_flag : _started (fst (snd x)) = false;
  stopped_state : _controller_state (fst (snd x)) = CS_stopped;
  stopped_desired : _desired_state (fst (snd x)) = mkDesired None None None None CS_stopped false;
  stopped_observed : topology_applied (_observed_state (fst (snd x))) = false;
  stopped_rest : at_rest (snd x);
  stopped_net a : cur = Some a →
    ∀ f, below (vt_topology (applied_validated a)) f → ¬ holds (snd (snd x)) f;
}.

(** The end of [stop], once nothing is running. *)
Lemma stop_bookkeeping c (w : W) u x' :
  (on_snd (observe (_unmanaged_datapath_status config) false None);;
   on_snd (desire (mkDesired None None None None CS_stopped false));;
   on_snd (set_c (W:=W) (set_phase CS_stopped "controller stopped"));;
   on_snd (set_c (W:=W) (set_started false))) (@None AppliedTopology, (c, w)) = (Ok u, x') →
  ∃ o, topology_applied o = false ∧
    x' = (None, (set_started false (set_phase CS_stopped "controller stopped"
                   (set_desired (mkDesired None None None None CS_stopped false)
                      (set_observed o c))), w)).
Proof.
  intros (u1 & [cur1 [c1 w1]] & [-> Ho]%on_snd_inv & Hrun)%pym_bind_inv.
  destruct (observe_cases (_unmanaged_datapath_status config) false None c w) as [[_ Ho2]|(_ & e & Ho2)];
    rewrite Ho2 in Ho; [injection Ho as _ <- <-|discriminate Ho].
  apply pym_bind_inv in Hrun as (u2 & [cur2 [c2 w2]] & [-> Hd]%on_snd_inv & Hrun).
  destruct (desire_cases (mkDesired None None None None CS_stopped false)
    (set_observed (observation c (_unmanaged_datapath_status config) false None) c) w)
    as [[_ Hd2]|(_ & e & Hd2)]; rewrite Hd2 in Hd; [injection Hd as _ <- <-|discriminate Hd].
  injection Hrun as _ <-. exists (observation c (_unmanaged_datapath_status config) false None). by split.
Qed.

Lemma stop_outcome cur c w u x' :
  _started c = true → runtime_stop config (cur, (c, w)) = (Ok u, x') → stopped cur x'.
Proof.
  intros Hst. unfold runtime_stop. intros (b & x0 & Hg & Hrun)%pym_bind_inv.
  injection Hg as <- <-. cbn in Hrun. rewrite Hst in Hrun.
  apply pym_bind_inv in Hrun as (u1 & x1 & Hset1 & Hrun). injection Hset1 as _ <-.
  apply pym_bind_inv in Hrun as (u2 & x2 & Hset2 & Hrun). injection Hset2 as _ <-.
  apply pym_bind_inv in Hrun as (cur0 & x3 & Hcur & Hrun). injection Hcur as <- <-. cbn [fst] in Hrun.
  apply pym_bind_inv in Hrun as (u4 & [cur4 [c4 w4]] & Hend & Hrun).
  assert (cur4 = None ∧ at_rest (c4, w4) ∧ ∀ a, cur = Some a →
    ∀ f, below (vt_topology (applied_validated a)) f → ¬ holds w4 f) as (-> & Hrest & Hnet).
  { destruct (has_applied_topology cur) eqn:Hcur.
    - apply pym_bind_inv in Hend as (t & [cur5 [c5 w5]] & Hd & Hret). injection Hret as _ <- <- <-.
      pose proof (manager_destroy_rests _ _ _ _ _ _ _ Hcur Hd) as Hrest.
      by destruct (manager_destroy_ok _ _ _ _ _ _ Hd) as (-> & _ & _ & _ & _ & Hgone).
    - destruct cur; [done|]. apply on_snd_inv in Hend as [-> Hs]. split; [done|]. split; [|done].
      by apply stop_callback_rests in Hs. }
  apply stop_bookkeeping in Hrun as (o & Ho & ->).
  by constructor.
Qed.
End stopping.

(** ** Claims *)

(** C10 When the application ends orderly, whatever requests it served: no topology
    is recorded, requested or observed, the controller is stopped, its
    supervisor has no process, and of a topology that was applied at that time
    nothing is left on the host in the namespaces whose names [ip netns list]
    can be searched for (not empty, no white space). *)
Theorem shutdown_leaves_nothing {W}
    `{Clock W, Processes W, Ipc W, IpLaws W, Taps, Loader W, !QuietHost W, !NetStable (W := W), ExnText}
    config requests c w x' :
  new_controller config = Ok c →
  lifespan config (serve_requests config requests) (None, (c, w)) = (Ok (), x') →
  ∃ x, serve_requests config requests (snd (on_snd (runtime_start config) (None, (c, w)))) = (Ok (), x) ∧
    stopped (fst x) x'.
Proof.
  intros Hnew (u & [cur1 [c1 w1]] & Hstart & Hrun)%pym_bind_inv. rewrite Hstart. cbn [snd].
  apply on_snd_inv in Hstart as [-> Hstart]. apply start_started in Hstart as Hst.
  unfold finally in Hrun.
  destruct (serve_requests config requests (None, (c1, w1))) as [r [cur2 [c2 w2]]] eqn:Hserve.
  apply serve_started in Hserve as Hst2. cbn in Hst2. rewrite Hst in Hst2.
  destruct (runtime_stop config (cur2, (c2, w2))) as [[v|e] x3] eqn:Hstop; [|done].
  injection Hrun as -> <-. exists (cur2, (c2, w2)). split; [done|].
  by eapply stop_outcome.
Qed.

Lemma shutdown_leaves_nothing_witness :
  ∃ x x', serve_requests app_config [EpApply (mkApplyRequest "lab.yaml"); EpStatus]
      (snd (on_snd (runtime_start app_config) (None, (app_new, app_host)))) = (Ok (), x) ∧
    has_applied_topology (fst x) = true ∧ stopped (fst x) x'.
Proof.
  destruct (lifespan app_config (serve_requests app_config [EpApply (mkApplyRequest "lab.yaml"); EpStatus])
    (None, (app_new, app_host))) as [r x'] eqn:Hrun.
  assert (r = Ok ()) as ->.
  { transitivity (fst (lifespan app_config (serve_requests app_config
      [EpApply (mkApplyRequest "lab.yaml"); EpStatus]) (None, (app_new, app_host))));
      [by rewrite Hrun|vm_compute; reflexivity]. }
  destruct (shutdown_leaves_nothing app_config _ app_new app_host x' app_new_ok Hrun) as (x & Hx & Hs).
  exists x, x'. split; [exact Hx|]. split; [|exact Hs].
  assert (x = snd (serve_requests app_config [EpApply (mkApplyRequest "lab.yaml"); EpStatus]
    (snd (on_snd (runtime_start app_config) (None, (app_new, app_host)))))) as -> by (by rewrite Hx).
  vm_compute. reflexivity.
Defined.
