(* ===== verification/CtlClient.v ===== *)
(** * The controller client of pktlabctl

    [pktlabctl/client.py]: the models of the controller's answers, one request
    per command, and the single error every foreseen failure becomes.  httpx
    and pydantic are interfaces: an exchange has an outcome, and a model
    accepts a JSON object or explains why it does not. *)

From S2P Require Import Prelude PyStr Errors State PyJson.
#[local] Open Scope string_scope.
#[local] Open Scope list_scope.

(** [class ControllerClientError(RuntimeError)], [SystemExit] with a message or
    a status, or another exception. *)
Inductive ctl_exn : Type :=
| ControllerClientError (message : string)
| SystemExit (message : string)
| SystemExitStatus (status : Z)
| CtlExn (e : pyexn).

(** ** Models

    A record per model, the constraints of its own fields, and its
    [model_dump(mode="json")]. *)

Record ControllerStatusModel : Type := mkControllerStatus {
  cs_service : string;
  cs_version : string;
  cs_state : string;
  cs_message : string;
}.
Definition ControllerStatusModel_ok (m : ControllerStatusModel) : bool :=
  min_length_1 (cs_service m) && min_length_1 (cs_version m) && min_length_1 (cs_state m) && min_length_1 (cs_message m).
Definition controller_status_dump (m : ControllerStatusModel) : pydict :=
  [("service", PyStr (cs_service m)); ("version", PyStr (cs_version m));
   ("state", PyStr (cs_state m)); ("message", PyStr (cs_message m))].

Record DatapathStatusModel : Type := mkDatapathStatus {
  dps_managed : bool;
  dps_reachable : bool;
  dps_socket_path : string;
  dps_pid : option Z;
  dps_exit_code : option Z;
  dps_last_error : option string;
  dps_service : option string;
  dps_version : option string;
  dps_dpdk_version : option string;
  dps_state : option string;
  dps_message : option string;
  dps_applied_rule_version : option Z;
  dps_ports_ready : bool;
  dps_paused : bool;
}.
Definition DatapathStatusModel_ok (m : DatapathStatusModel) : bool :=
  min_length_1 (dps_socket_path m) && opt_all (Z.leb 1) (dps_pid m)
  && opt_all (Z.leb 0) (dps_applied_rule_version m).
Definition datapath_status_dump (m : DatapathStatusModel) : pydict :=
  [("managed", PyBool (dps_managed m)); ("reachable", PyBool (dps_reachable m));
   ("socket_path", PyStr (dps_socket_path m)); ("pid", opt_val PyInt (dps_pid m));
   ("exit_code", opt_val PyInt (dps_exit_code m));
   ("last_error", opt_val PyStr (dps_last_error m)); ("service", opt_val PyStr (dps_service m));
   ("version", opt_val PyStr (dps_version m));
   ("dpdk_version", opt_val PyStr (dps_dpdk_version m)); ("state", opt_val PyStr (dps_state m));
   ("message", opt_val PyStr (dps_message m));
   ("applied_rule_version", opt_val PyInt (dps_applied_rule_version m));
   ("ports_ready", PyBool (dps_ports_ready m)); ("paused", PyBool (dps_paused m))].

Record HealthResponseModel : Type := mkHealthAnswer {
  ha_controller : ControllerStatusModel;
  ha_datapath : DatapathStatusModel;
}.
Definition HealthResponseModel_ok (m : HealthResponseModel) : bool :=
  ControllerStatusModel_ok (ha_controller m) && DatapathStatusModel_ok (ha_datapath m).
Definition health_dump (m : HealthResponseModel) : pydict :=
  [("controller", PyDict (controller_status_dump (ha_controller m)));
   ("datapath", PyDict (datapath_status_dump (ha_datapath m)))].

Record DatapathPortModel : Type := mkPort {
  port_name : string;
  port_id : Z;
  port_role : string;
  port_state : string;
}.
Definition DatapathPortModel_ok (m : DatapathPortModel) : bool :=
  min_length_1 (port_name m) && (0 <=? port_id m)%Z && min_length_1 (port_role m) && min_length_1 (port_state m).
Definition port_dump (m : DatapathPortModel) : pydict :=
  [("name", PyStr (port_name m)); ("port_id", PyInt (port_id m));
   ("role", PyStr (port_role m)); ("state", PyStr (port_state m))].

Record DatapathStatusResponseModel : Type := mkStatusAnswer {
  sa_controller : ControllerStatusModel;
  sa_datapath : DatapathStatusModel;
  sa_ports : list DatapathPortModel;
}.
Definition DatapathStatusResponseModel_ok (m : DatapathStatusResponseModel) : bool :=
  ControllerStatusModel_ok (sa_controller m) && DatapathStatusModel_ok (sa_datapath m)
  && forallb DatapathPortModel_ok (sa_ports m).
Definition status_dump (m : DatapathStatusResponseModel) : pydict :=
  [("controller", PyDict (controller_status_dump (sa_controller m)));
   ("datapath", PyDict (datapath_status_dump (sa_datapath m)));
   ("ports", PyList (PyDict ∘ port_dump <$> sa_ports m))].

Record DatapathStatsModel : Type := mkCounters {
  rx_packets : Z;
  tx_packets : Z;
  drop_packets : Z;
  drop_parse_errors : Z;
  drop_no_match : Z;
  rx_bursts : Z;
  tx_bursts : Z;
  unsent_packets : Z;
  rule_hits : list (string * Z);
}.
Definition DatapathStatsModel_ok (m : DatapathStatsModel) : bool :=
  forallb (Z.leb 0)
    [rx_packets m; tx_packets m; drop_packets m; drop_parse_errors m; drop_no_match m;
     rx_bursts m; tx_bursts m; unsent_packets m].
Definition counters_dump (m : DatapathStatsModel) : pydict :=
  [("rx_packets", PyInt (rx_packets m)); ("tx_packets", PyInt (tx_packets m));
   ("drop_packets", PyInt (drop_packets m)); ("drop_parse_errors", PyInt (drop_parse_errors m));
   ("drop_no_match", PyInt (drop_no_match m)); ("rx_bursts", PyInt (rx_bursts m));
   ("tx_bursts", PyInt (tx_bursts m)); ("unsent_packets", PyInt (unsent_packets m));
   ("rule_hits", PyDict ((λ '(rule, hits), (rule, PyInt hits)) <$> rule_hits m))].

Record DatapathStatsResponseModel : Type := mkStatsAnswer {
  st_datapath : DatapathStatusModel;
  st_stats : DatapathStatsModel;
}.
Definition DatapathStatsResponseModel_ok (m : DatapathStatsResponseModel) : bool :=
  DatapathStatusModel_ok (st_datapath m) && DatapathStatsModel_ok (st_stats m).
Definition stats_dump (m : DatapathStatsResponseModel) : pydict :=
  [("datapath", PyDict (datapath_status_dump (st_datapath m)));
   ("stats", PyDict (counters_dump (st_stats m)))].

Record DatapathStatsResetResponseModel : Type := mkResetAnswer {
  re_datapath : DatapathStatusModel;
  re_stats : DatapathStatsModel;
  re_message : string;
}.
Definition DatapathStatsResetResponseModel_ok (m : DatapathStatsResetResponseModel) : bool :=
  DatapathStatusModel_ok (re_datapath m) && DatapathStatsModel_ok (re_stats m)
  && min_length_1 (re_message m).
Definition reset_dump (m : DatapathStatsResetResponseModel) : pydict :=
  [("datapath", PyDict (datapath_status_dump (re_datapath m)));
   ("stats", PyDict (counters_dump (re_stats m))); ("message", PyStr (re_message m))].

Record DatapathControlResponseModel : Type := mkControlAnswer {
  co_datapath : DatapathStatusModel;
  co_message : string;
}.
Definition DatapathControlResponseModel_ok (m : DatapathControlResponseModel) : bool :=
  DatapathStatusModel_ok (co_datapath m) && min_length_1 (co_message m).
Definition control_dump (m : DatapathControlResponseModel) : pydict :=
  [("datapath", PyDict (datapath_status_dump (co_datapath m))); ("message", PyStr (co_message m))].

Record TopologyOperationResponseModel : Type := mkOperationAnswer {
  op_operation : string;
  op_topology_name : option string;
  op_config_path : option string;
  op_applied : bool;
  op_datapath_namespace : option string;
  op_datapath_running : bool;
  op_message : string;
}.
Definition TopologyOperationResponseModel_ok (m : TopologyOperationResponseModel) : bool :=
  min_length_1 (op_operation m) && min_length_1 (op_message m).
Definition operation_dump (m : TopologyOperationResponseModel) : pydict :=
  [("operation", PyStr (op_operation m)); ("topology_name", opt_val PyStr (op_topology_name m));
   ("config_path", opt_val PyStr (op_config_path m)); ("applied", PyBool (op_applied m));
   ("datapath_namespace", opt_val PyStr (op_datapath_namespace m));
   ("datapath_running", PyBool (op_datapath_running m)); ("message", PyStr (op_message m))].

(** ** The libraries *)

(** [model_validate] of each model: the instance, or the text of the
    [ValidationError]. *)
Class Schemas := {
  read_health : pydict → HealthResponseModel + string;
  read_status : pydict → DatapathStatusResponseModel + string;
  read_stats : pydict → DatapathStatsResponseModel + string;
  read_reset : pydict → DatapathStatsResetResponseModel + string;
  read_control : pydict → DatapathControlResponseModel + string;
  read_operation : pydict → TopologyOperationResponseModel + string;
}.

(** pydantic reads back what an instance that satisfies its constraints is
    dumped as. *)
Definition reads_dump {A} (read : pydict → A + string) (dump : A → pydict) (ok : A → bool) : Prop :=
  ∀ m, ok m = true → read (dump m) = inl m.

Class SchemaLaws `{Schemas} : Prop := {
  health_read : reads_dump read_health health_dump HealthResponseModel_ok;
  status_read : reads_dump read_status status_dump DatapathStatusResponseModel_ok;
  stats_read : reads_dump read_stats stats_dump DatapathStatsResponseModel_ok;
  reset_read : reads_dump read_reset reset_dump DatapathStatsResetResponseModel_ok;
  control_read : reads_dump read_control control_dump DatapathControlResponseModel_ok;
  operation_read : reads_dump read_operation operation_dump TopologyOperationResponseModel_ok;
}.

(** [response.json()] *)
Inductive http_body : Type :=
| BodyJson (v : pyval)
| BodyNotJson
| BodyRaises (e : pyexn).

(** [client.request(...)] and [response.raise_for_status()]: a successful
    response, [HTTPStatusError], another [HTTPError], or an exception of
    another class. *)
Inductive http_outcome : Type :=
| HttpResponse (body : http_body)
| HttpStatusError (status_code : Z) (body : http_body)
| HttpError (text : string)
| HttpRaises (e : pyexn).

Class Http (W : Type) :=
  http_request : string → Z → string → string → option pydict → W → http_outcome * W.

(** ** The client *)

Fixpoint rstrip_slash (s : string) : string :=
  match s with
  | "" => ""
  | String c s' =>
      let r := rstrip_slash s' in
      if str_empty r && (N_of_ascii c =? 47)%N then "" else String c r
  end.

Record ControllerClient : Type := mkControllerClient {
  base_url : string;
  client_timeout : Z;
}.

(** [timeout_seconds: float = 2.0], in ticks of a millisecond. *)
Definition DEFAULT_CTL_TIMEOUT : Z := 2000.

(** [ControllerClient.__init__] *)
Definition new_ControllerClient (url : string) (timeout_seconds : Z) : res pyexn ControllerClient :=
  if blank url then Err (ValueError (Some "base_url must be a non-empty string"))
  else if (timeout_seconds <=? 0)%Z then
    Err (ValueError (Some "timeout_seconds must be greater than zero"))
  else Ok (mkControllerClient (rstrip_slash url) timeout_seconds).

Section client.
Context {W : Type} `{Http W} `{Schemas}.

Definition client_error {A} (message : string) : pym ctl_exn W A :=
  raise (ControllerClientError message).

(** The [detail] of an error response, as the message shows it. *)
Definition error_detail (body : http_body) : string :=
  match body with
  | BodyJson (PyDict payload) =>
      match dict_get "detail" payload with
      | None | Some PyNone => ""
      | Some raw_detail => ": " +:+ py_str raw_detail
      end
  | _ => ""
  end.

Definition _request_json (client : ControllerClient) (method path : string)
    (json_body : option pydict) : pym ctl_exn W pydict :=
  outcome ← (λ w, let '(o, w') :=
               http_request (base_url client) (client_timeout client) method path json_body w in
             (Ok o, w'));
  match outcome with
  | HttpStatusError status_code body =>
      client_error ("controller returned HTTP " +:+ str_of_Z status_code +:+ " for " +:+ path
                    +:+ error_detail body)
  | HttpError text => client_error ("controller request failed for " +:+ path +:+ ": " +:+ text)
  | HttpRaises e => raise (CtlExn e)
  | HttpResponse (BodyJson (PyDict payload)) => mret payload
  | HttpResponse (BodyJson _) => client_error "controller returned a non-object JSON payload"
  | HttpResponse BodyNotJson => client_error "controller returned invalid JSON"
  | HttpResponse (BodyRaises e) => raise (CtlExn e)
  end.

(** The body of the eight methods. *)
Definition fetch {A} (client : ControllerClient) (method path : string) (json_body : option pydict)
    (model_validate : pydict → A + string) (document : string) : pym ctl_exn W A :=
  response ← _request_json client method path json_body;
  match model_validate response with
  | inl model => mret model
  | inr text =>
      client_error ("controller " +:+ document +:+ " response did not match the expected schema: "
                    +:+ text)
  end.

Definition client_get_health (c : ControllerClient) : pym ctl_exn W HealthResponseModel :=
  fetch c "GET" "/health" None read_health "health".
Definition client_get_datapath_status (c : ControllerClient)
    : pym ctl_exn W DatapathStatusResponseModel :=
  fetch c "GET" "/datapath/status" None read_status "datapath status".
Definition client_get_datapath_stats (c : ControllerClient)
    : pym ctl_exn W DatapathStatsResponseModel :=
  fetch c "GET" "/datapath/stats" None read_stats "datapath stats".
Definition client_reset_datapath_stats (c : ControllerClient)
    : pym ctl_exn W DatapathStatsResetResponseModel :=
  fetch c "POST" "/datapath/stats/reset" (Some []) read_reset "datapath stats-reset".
Definition client_pause_datapath (c : ControllerClient) : pym ctl_exn W DatapathControlResponseModel :=
  fetch c "POST" "/datapath/pause" (Some []) read_control "datapath pause".
Definition client_resume_datapath (c : ControllerClient)
    : pym ctl_exn W DatapathControlResponseModel :=
  fetch c "POST" "/datapath/resume" (Some []) read_control "datapath resume".
Definition client_apply_topology (c : ControllerClient) (config_path : string)
    : pym ctl_exn W TopologyOperationResponseModel :=
  if blank config_path then
    raise (CtlExn (ValueError (Some "config_path must be a non-empty string")))
  else
    fetch c "POST" "/topology/apply" (Some [("config_path", PyStr config_path)]) read_operation
      "topology apply".
Definition client_destroy_topology (c : ControllerClient)
    : pym ctl_exn W TopologyOperationResponseModel :=
  fetch c "POST" "/topology/destroy" (Some []) read_operation "topology destroy".
End client.
