(* ===== verification/CtlOutput.v ===== *)
(** * Rendering of pktlabctl

    [pktlabctl/output.py]: the text of an answer, for people and as JSON. *)

From stdpp Require Import sorting.
From S2P Require Import Prelude PyStr Errors PyJson CtlClient.
#[local] Open Scope string_scope.
#[local] Open Scope list_scope.

Definition yes_no (b : bool) : string := if b then "yes" else "no".
Definition lines_text (lines : list string) : string := py_join newline lines.

(** [if value:] of an optional string: absent and empty are false. *)
Definition truthy (o : option string) : option string :=
  match o with Some s => if str_empty s then None else Some s | None => None end.
(** [lines.append(...)] when there is a value. *)
Definition line_if {A} (o : option A) (line : A → string) : list string :=
  match o with Some a => [line a] | None => [] end.

(** [json.dumps(payload.model_dump(mode="json"), indent=2, sort_keys=True)] *)
Definition render_json (dump : pydict) : string := json_dumps 0 (PyDict dump).

(** ** Status *)

Definition service_line (d : DatapathStatusModel) : list string :=
  match truthy (dps_service d), truthy (dps_version d) with
  | Some service, Some version =>
      ["  service: " +:+ service +:+ " " +:+ version
       +:+ match truthy (dps_dpdk_version d) with
           | Some dpdk => " (DPDK " +:+ dpdk +:+ ")"
           | None => ""
           end]
  | _, _ => []
  end.

Definition render_human_status (payload : DatapathStatusResponseModel) : string :=
  let controller := sa_controller payload in
  let datapath := sa_datapath payload in
  lines_text (
    ["controller: " +:+ cs_state controller +:+ " (" +:+ cs_message controller +:+ ")";
     "  service: " +:+ cs_service controller +:+ " " +:+ cs_version controller;
     "datapath: " +:+ (if dps_reachable datapath then "reachable" else "unreachable");
     "  managed: " +:+ yes_no (dps_managed datapath);
     "  socket: " +:+ dps_socket_path datapath;
     "  pid: " +:+ match dps_pid datapath with Some pid => str_of_Z pid | None => "n/a" end]
    ++ line_if (dps_state datapath) (λ s, "  state: " +:+ s)
    ++ line_if (truthy (dps_message datapath)) (λ m, "  message: " +:+ m)
    ++ service_line datapath
    ++ line_if (dps_applied_rule_version datapath) (λ v, "  applied_rule_version: " +:+ str_of_Z v)
    ++ ["  ports_ready: " +:+ yes_no (dps_ports_ready datapath);
        "  paused: " +:+ yes_no (dps_paused datapath)]
    ++ line_if (dps_exit_code datapath) (λ c, "  exit_code: " +:+ str_of_Z c)
    ++ line_if (truthy (dps_last_error datapath)) (λ e, "  error: " +:+ e)
    ++ match sa_ports payload with
       | [] => []
       | ports =>
           "ports:" ::
           ((λ port, "  " +:+ port_role port +:+ ": " +:+ port_name port +:+ " (id="
              +:+ str_of_Z (port_id port) +:+ ", state=" +:+ port_state port +:+ ")") <$> ports)
       end).

Definition render_status (payload : DatapathStatusResponseModel) (json_output : bool) : string :=
  if json_output then render_json (status_dump payload) else render_human_status payload.

(** ** Counters *)

(** The keys of [rule_hits] with their numbers; [None] is the [ValueError] of
    [int] on a key that is no number. *)
Fixpoint numbered (hits : list (string * Z)) : option (list (Z * (string * Z))) :=
  match hits with
  | [] => Some []
  | (rule, n) :: hits' =>
      number ← py_int_text rule; rest ← numbered hits'; Some ((number, (rule, n)) :: rest)
  end.

Definition number_le (a b : Z * (string * Z)) : Prop := (fst a <= fst b)%Z.
#[export] Instance number_le_dec a b : Decision (number_le a b).
Proof. unfold number_le. apply _. Defined.

(** [sorted(stats.rule_hits, key=int)] *)
Definition sorted_rules (hits : list (string * Z)) : res pyexn (list (string * Z)) :=
  match numbered hits with
  | Some rules => Ok (snd <$> merge_sort number_le rules)
  | None => Err (ValueError None)
  end.

Definition rule_lines (stats : DatapathStatsModel) : res pyexn (list string) :=
  match rule_hits stats with
  | [] => mret ["  rule_hits: none"]
  | hits =>
      rules ← sorted_rules hits;
      mret ("  rule_hits:" :: ((λ '(rule, n), "    " +:+ rule +:+ ": " +:+ str_of_Z n) <$> rules))
  end.

Definition _render_human_stats_lines (datapath : DatapathStatusModel) (stats : DatapathStatsModel)
    (heading : string) : res pyexn string :=
  rules ← rule_lines stats;
  mret (lines_text (
    [heading +:+ ": " +:+ default "unknown" (dps_state datapath);
     "  socket: " +:+ dps_socket_path datapath;
     "  rx_packets: " +:+ str_of_Z (rx_packets stats);
     "  tx_packets: " +:+ str_of_Z (tx_packets stats);
     "  drop_packets: " +:+ str_of_Z (drop_packets stats);
     "  drop_parse_errors: " +:+ str_of_Z (drop_parse_errors stats);
     "  drop_no_match: " +:+ str_of_Z (drop_no_match stats);
     "  rx_bursts: " +:+ str_of_Z (rx_bursts stats);
     "  tx_bursts: " +:+ str_of_Z (tx_bursts stats);
     "  unsent_packets: " +:+ str_of_Z (unsent_packets stats)]
    ++ rules)).

Definition render_human_stats (payload : DatapathStatsResponseModel) : res pyexn string :=
  _render_human_stats_lines (st_datapath payload) (st_stats payload) "datapath stats".

Definition render_stats (payload : DatapathStatsResponseModel) (json_output : bool)
    : res pyexn string :=
  if json_output then mret (render_json (stats_dump payload)) else render_human_stats payload.

Definition render_human_stats_reset (payload : DatapathStatsResetResponseModel) : res pyexn string :=
  counters ← _render_human_stats_lines (re_datapath payload) (re_stats payload)
               "post-reset counters";
  mret (lines_text (("datapath stats reset: " +:+ re_message payload) :: py_splitlines counters)).

Definition render_stats_reset (payload : DatapathStatsResetResponseModel) (json_output : bool)
    : res pyexn string :=
  if json_output then mret (render_json (reset_dump payload)) else render_human_stats_reset payload.

(** ** Control and topology *)

Definition render_human_datapath_control (action : string) (payload : DatapathControlResponseModel)
    : string :=
  let datapath := co_datapath payload in
  lines_text (
    ["datapath " +:+ action +:+ ": " +:+ co_message payload;
     "  state: " +:+ default "unknown" (dps_state datapath);
     "  socket: " +:+ dps_socket_path datapath;
     "  reachable: " +:+ yes_no (dps_reachable datapath);
     "  ports_ready: " +:+ yes_no (dps_ports_ready datapath);
     "  paused: " +:+ yes_no (dps_paused datapath)]
    ++ line_if (truthy (dps_message datapath)) (λ m, "  message: " +:+ m)).

Definition render_datapath_control (action : string) (payload : DatapathControlResponseModel)
    (json_output : bool) : string :=
  if json_output then render_json (control_dump payload)
  else render_human_datapath_control action payload.

Definition render_topology_result (payload : TopologyOperationResponseModel) (json_output : bool)
    : string :=
  if json_output then render_json (operation_dump payload)
  else lines_text (
    ["topology " +:+ op_operation payload +:+ ": " +:+ op_message payload;
     "  applied: " +:+ yes_no (op_applied payload);
     "  datapath_running: " +:+ yes_no (op_datapath_running payload)]
    ++ line_if (op_topology_name payload) (λ t, "  topology: " +:+ t)
    ++ line_if (op_config_path payload) (λ p, "  config_path: " +:+ p)
    ++ line_if (op_datapath_namespace payload) (λ n, "  datapath_namespace: " +:+ n)).
