(* ===== verification/CtlCommands.v ===== *)
(** * The commands of pktlabctl

    [pktlabctl/commands] and [pktlabctl/cli.py]: a command fetches an answer,
    prints it and returns 0, or prints the client's error and returns 1; the
    parsed arguments choose the command.  [CtlMain] reads them from the command
    line. *)

From S2P Require Import Prelude PyStr Errors State Manager PyJson CtlClient CtlOutput.
#[local] Open Scope string_scope.
#[local] Open Scope list_scope.

(** What was written to the two streams. *)
Record console : Type := mkConsole { stdout : string; stderr : string }.

(** [isinstance(exc, ValueError)] *)
Definition is_value_error (e : pyexn) : bool :=
  match e with ValueError _ | PydanticValidationError => true | _ => false end.

Section commands.
Context {W : Type} `{Http W} `{Schemas} `{ExnText}.

Abbreviation K := (pym ctl_exn (console * W)).

Definition write_stdout (text : string) : K () :=
  modify (λ '(c, w), (mkConsole (stdout c +:+ text) (stderr c), w)).
Definition write_stderr (text : string) : K () :=
  modify (λ '(c, w), (mkConsole (stdout c) (stderr c +:+ text), w)).

(** [except ControllerClientError], and [except (ControllerClientError,
    ValueError)]: the text of an exception the command catches. *)
Definition catch_client_error (e : ctl_exn) : option string :=
  match e with ControllerClientError message => Some message | _ => None end.
Definition catch_value_error (e : ctl_exn) : option string :=
  match e with
  | ControllerClientError message => Some message
  | CtlExn (ValueError (Some message)) => Some message
  | CtlExn e => if is_value_error e then Some (exn_text e) else None
  | SystemExit _ | SystemExitStatus _ => None
  end.

(** The body of the commands. *)
Definition run_command {A} (caught : ctl_exn → option string) (controller_url : string)
    (call : ControllerClient → pym ctl_exn W A) (render : A → res pyexn string) : K Z :=
  payload ← try_except
    (client ← pym_lift (match new_ControllerClient controller_url DEFAULT_CTL_TIMEOUT with
                        | Ok c => Ok c
                        | Err e => Err (CtlExn e)
                        end);
     a ← on_snd (call client); mret (Some a))
    (λ exc, match caught exc with
            | Some text => write_stderr ("pktlabctl: " +:+ text +:+ newline);; mret None
            | None => raise exc
            end);
  match payload with
  | None => mret 1%Z
  | Some payload =>
      text ← pym_lift (match render payload with Ok t => Ok t | Err e => Err (CtlExn e) end);
      write_stdout text;;
      write_stdout newline;;
      mret 0%Z
  end.

Definition run_status (url : string) (json_output : bool) : K Z :=
  run_command catch_client_error url client_get_datapath_status
    (λ payload, Ok (render_status payload json_output)).
Definition run_stats_show (url : string) (json_output : bool) : K Z :=
  run_command catch_client_error url client_get_datapath_stats
    (λ payload, render_stats payload json_output).
Definition run_stats_reset (url : string) (json_output : bool) : K Z :=
  run_command catch_client_error url client_reset_datapath_stats
    (λ payload, render_stats_reset payload json_output).
Definition run_datapath_pause (url : string) (json_output : bool) : K Z :=
  run_command catch_client_error url client_pause_datapath
    (λ payload, Ok (render_datapath_control "pause" payload json_output)).
Definition run_datapath_resume (url : string) (json_output : bool) : K Z :=
  run_command catch_client_error url client_resume_datapath
    (λ payload, Ok (render_datapath_control "resume" payload json_output)).
Definition run_topology_apply (url config_path : string) (json_output : bool) : K Z :=
  run_command catch_value_error url (λ c, client_apply_topology c config_path)
    (λ payload, Ok (render_topology_result payload json_output)).
Definition run_topology_destroy (url : string) (json_output : bool) : K Z :=
  run_command catch_client_error url client_destroy_topology
    (λ payload, Ok (render_topology_result payload json_output)).

(** ** [cli.py] *)

(** The parsed arguments: an option of a subcommand that was not given is
    absent. *)
Record Namespace : Type := mkNamespace {
  controller_url : string;
  json_output : bool;
  command : string;
  stats_command : option string;
  datapath_command : option string;
  topology_command : option string;
  arg_config_path : string;
}.

(** The commands and their subcommands.  A command, and its subcommand where it
    has some, is required, and no other word is accepted; the attribute of
    another command's subparsers is never set.  [CtlMain] shows that the parser
    accepts nothing else. *)
Definition parser_commands : list (string * list string) :=
  [("status", []); ("stats", ["show"; "reset"]); ("datapath", ["pause"; "resume"]);
   ("topology", ["apply"; "destroy"])].

Definition subcommand_of (args : Namespace) (name : string) : option string :=
  if decide (name = "stats") then stats_command args
  else if decide (name = "datapath") then datapath_command args
  else if decide (name = "topology") then topology_command args
  else None.

Definition parser_accepts (args : Namespace) : bool :=
  existsb (λ '(name, subcommands),
      bool_decide (command args = name) &&
      match subcommands with
      | [] => true
      | _ => existsb (λ sub, bool_decide (subcommand_of args name = Some sub)) subcommands
      end) parser_commands
  && forallb (λ '(name, _),
      bool_decide (command args = name) || bool_decide (subcommand_of args name = None))
    parser_commands.

(** [main], after the arguments were parsed. *)
Definition cli_main (args : Namespace) : K Z :=
  let url := controller_url args in
  let json := json_output args in
  let unsupported := raise (SystemExit ("unsupported command: " +:+ command args)) in
  if decide (command args = "status") then run_status url json
  else if decide (command args = "stats") then
    if decide (stats_command args = Some "show") then run_stats_show url json
    else if decide (stats_command args = Some "reset") then run_stats_reset url json
    else unsupported
  else if decide (command args = "datapath") then
    if decide (datapath_command args = Some "pause") then run_datapath_pause url json
    else if decide (datapath_command args = Some "resume") then run_datapath_resume url json
    else unsupported
  else if decide (command args = "topology") then
    if decide (topology_command args = Some "apply") then
      run_topology_apply url (arg_config_path args) json
    else if decide (topology_command args = Some "destroy") then run_topology_destroy url json
    else unsupported
  else unsupported.
End commands.
