(* ===== verification/CtlProps.v ===== *)
(** * The client reads what the API sends

    The models of pktlabctl mirror those of the controller's API: every
    document the API sends is the dump of a valid instance of the client's
    model, with enumerations as their text. *)

From S2P Require Import Prelude PyStr Errors PyJson Types State DpdkModels Supervisor Manager App.
From S2P Require Import ApiModels Api ApiProps CtlClient.
#[local] Open Scope string_scope.
#[local] Open Scope list_scope.

(** ** The client's view of the API's models *)

Definition mirror_controller (m : ApiModels.ControllerHealthModel) : ControllerStatusModel :=
  mkControllerStatus (ch_service m) (ch_version m) (controller_state_text (ch_state m)) (ch_message m).

Definition mirror_datapath (m : ApiModels.DatapathHealthModel) : DatapathStatusModel :=
  mkDatapathStatus (dh_managed m) (dh_reachable m) (dh_socket_path m) (dh_pid m) (dh_exit_code m)
    (dh_last_error m) (dh_service m) (dh_version m) (dh_dpdk_version m)
    (datapath_state_text <$> dh_state m) (dh_message m) (dh_applied_rule_version m)
    (dh_ports_ready m) (dh_paused m).

Definition mirror_port (m : ApiModels.DatapathPortModel) : DatapathPortModel :=
  mkPort (dp_name m) (dp_port_id m) (port_role_text (dp_role m)) (port_state_text (dp_state m)).

Definition mirror_counters (m : ApiModels.DatapathStatsModel) : DatapathStatsModel :=
  mkCounters (ds_rx_packets m) (ds_tx_packets m) (ds_drop_packets m) (ds_drop_parse_errors m)
    (ds_drop_no_match m) (ds_rx_bursts m) (ds_tx_bursts m) (ds_unsent_packets m) (ds_rule_hits m).

Definition mirror_health (m : ApiModels.HealthResponseModel) : HealthResponseModel :=
  mkHealthAnswer (mirror_controller (hr_controller m)) (mirror_datapath (hr_datapath m)).

Definition mirror_status (m : ApiModels.DatapathStatusResponseModel) : DatapathStatusResponseModel :=
  mkStatusAnswer (mirror_controller (sr_controller m)) (mirror_datapath (sr_datapath m))
    (mirror_port <$> sr_ports m).

Definition mirror_stats (m : ApiModels.DatapathStatsResponseModel) : DatapathStatsResponseModel :=
  mkStatsAnswer (mirror_datapath (ss_datapath m)) (mirror_counters (ss_stats m)).

Definition mirror_reset (m : ApiModels.DatapathStatsResetResponseModel)
    : DatapathStatsResetResponseModel :=
  mkResetAnswer (mirror_datapath (sx_datapath m)) (mirror_counters (sx_stats m)) (sx_message m).

Definition mirror_control (m : ApiModels.DatapathControlResponseModel)
    : DatapathControlResponseModel :=
  mkControlAnswer (mirror_datapath (cc_datapath m)) (cc_message m).

Definition mirror_operation (m : ApiModels.TopologyOperationResponseModel)
    : TopologyOperationResponseModel :=
  mkOperationAnswer (operation_text (or_operation m)) (or_topology_name m) (or_config_path m)
    (or_applied m) (or_datapath_namespace m) (or_datapath_running m) (or_message m).

(** ** The same documents *)

Lemma datapath_dumps m : datapath_health_dump m = datapath_status_dump (mirror_datapath m).
Proof. destruct m. unfold datapath_status_dump. cbn. by rewrite opt_val_fmap. Qed.

Lemma health_dumps m : health_response_dump m = health_dump (mirror_health m).
Proof. unfold health_response_dump. by rewrite datapath_dumps. Qed.

Lemma status_dumps m : status_response_dump m = status_dump (mirror_status m).
Proof.
  unfold status_response_dump, status_dump. rewrite datapath_dumps. cbn. by rewrite <- list_fmap_compose.
Qed.

Lemma stats_dumps m : stats_response_dump m = stats_dump (mirror_stats m).
Proof. unfold stats_response_dump. by rewrite datapath_dumps. Qed.

Lemma reset_dumps m : stats_reset_dump m = reset_dump (mirror_reset m).
Proof. unfold stats_reset_dump. by rewrite datapath_dumps. Qed.

Lemma control_dumps m : ApiModels.control_dump m = control_dump (mirror_control m).
Proof. unfold ApiModels.control_dump. by rewrite datapath_dumps. Qed.

(** ** Valid instances *)

Lemma res_bind_ok {A B} (m : res pyexn A) (k : A → res pyexn B) b :
  m ≫= k = Ok b ↔ ∃ a, m = Ok a ∧ k a = Ok b.
Proof. unfold mbind, res_mbind. destruct m; naive_solver. Qed.

Lemma controller_mirror_ok s m :
  controller_health_model s = Ok m → ControllerStatusModel_ok (mirror_controller m) = true.
Proof.
  intros [-> Hok]%checked_ok. apply andb_true_iff in Hok as [[_ Hv]%andb_true_iff Hm].
  unfold ControllerStatusModel_ok. cbn in *. rewrite Hv, Hm.
  by destruct (snap_controller_state s).
Qed.

Lemma datapath_mirror_ok st m :
  _datapath_health_model_from_status st = Ok m → DatapathStatusModel_ok (mirror_datapath m) = true.
Proof.
  intros [-> Hok]%checked_ok. apply andb_true_iff in Hok as [Hok Hrule].
  apply andb_true_iff in Hok as [Hok _]. apply andb_true_iff. by split.
Qed.

Lemma port_mirror_ok p m : port_model p = Ok m → DatapathPortModel_ok (mirror_port m) = true.
Proof.
  intros [-> Hok]%checked_ok. unfold DatapathPortModel_ok, ApiModels.DatapathPortModel_ok in *.
  cbn in *. rewrite Hok. by destruct (info_role p), (info_state p).
Qed.

Lemma ports_mirror_ok ports ms :
  port_models ports = Ok ms → forallb DatapathPortModel_ok (mirror_port <$> ms) = true.
Proof.
  revert ms. induction ports as [|p ports IH]; intros ms; [by intros [= <-]|]. cbn [port_models].
  intros (m & Hm & (ms' & Hms & [= <-])%res_bind_ok)%res_bind_ok.
  cbn. by rewrite (port_mirror_ok _ _ Hm), (IH _ Hms).
Qed.

Lemma counters_mirror_ok s m : stats_model s = Ok m → DatapathStatsModel_ok (mirror_counters m) = true.
Proof. by intros [-> Hok]%checked_ok. Qed.

Lemma health_mirror_ok s m :
  health_from_snapshot s = Ok m → HealthResponseModel_ok (mirror_health m) = true.
Proof.
  intros (c & Hc & (d & Hd & [= <-])%res_bind_ok)%res_bind_ok. unfold HealthResponseModel_ok. cbn.
  by rewrite (controller_mirror_ok _ _ Hc), (datapath_mirror_ok _ _ Hd).
Qed.

(** ** What the client makes of a document *)

Section reads.
Context `{Schemas} `{!SchemaLaws}.

(** The client accepts [doc] as its view of the model that shows [v]. *)
Definition client_reads (v : runtime_value) (doc : pydict) : Prop :=
  match v with
  | VHealth s => ∃ m, health_from_snapshot s = Ok m ∧ read_health doc = inl (mirror_health m)
  | VStatus s => ∃ m, status_from_snapshot s = Ok m ∧ read_status doc = inl (mirror_status m)
  | VStats s => ∃ m, stats_from_snapshot s = Ok m ∧ read_stats doc = inl (mirror_stats m)
  | VReset r => ∃ m, reset_from_result r = Ok m ∧ read_reset doc = inl (mirror_reset m)
  | VControl r => ∃ m, control_from_result r = Ok m ∧ read_control doc = inl (mirror_control m)
  | VOperation t =>
      ∃ m, operation_from_result t = Ok m ∧ read_operation doc = inl (mirror_operation m)
  end.

Lemma documents_read v doc : document v = Ok doc → client_reads v doc.
Proof.
  destruct v; cbn [document]; intros (m & Hm & [= <-])%res_bind_ok; exists m; (split; [done|]).
  - rewrite health_dumps. by apply health_read, (health_mirror_ok s).
  - rewrite status_dumps. apply status_read.
    apply res_bind_ok in Hm as (h & Hh & (ps & Hps & [= <-])%res_bind_ok).
    apply health_mirror_ok, andb_true_iff in Hh as [Hc Hd].
    unfold DatapathStatusResponseModel_ok. cbn in *. by rewrite Hc, Hd, (ports_mirror_ok _ _ Hps).
  - rewrite stats_dumps. apply stats_read.
    apply res_bind_ok in Hm as (d & Hd & (c & Hc & [= <-])%res_bind_ok).
    apply andb_true_iff. split; [exact (datapath_mirror_ok _ _ Hd)|exact (counters_mirror_ok _ _ Hc)].
  - rewrite reset_dumps. apply reset_read.
    apply res_bind_ok in Hm as (d & Hd & (c & Hc & [-> Hmsg]%checked_ok)%res_bind_ok).
    apply andb_true_iff. split; [|exact Hmsg]. apply andb_true_iff.
    split; [exact (datapath_mirror_ok _ _ Hd)|exact (counters_mirror_ok _ _ Hc)].
  - rewrite control_dumps. apply control_read.
    apply res_bind_ok in Hm as (d & Hd & [-> Hmsg]%checked_ok).
    apply andb_true_iff. split; [exact (datapath_mirror_ok _ _ Hd)|exact Hmsg].
  - apply (operation_read (mirror_operation m)). apply checked_ok in Hm as [-> Hmsg].
    apply andb_true_iff. split; [by cbn; destruct (tr_operation t)|exact Hmsg].
Qed.
End reads.
