(* ===== verification/CtlServed.v ===== *)
(** * pktlabctl in front of the API

    How answers of the API reach the client, and what a command reports of the
    operation behind its endpoint. *)

From S2P Require Import Prelude PyStr Errors PyJson Types State Issues TopologyValidation Clock.
From S2P Require Import DpdkModels Supervisor SupervisorProps SupervisorPayloads Netns SimWorld.
From S2P Require Import Topology Manager App AppProps SimController AppInvariant.
From S2P Require Import ApiModels Api ApiProps CtlClient CtlOutput CtlCommands CtlProps.
#[local] Open Scope string_scope.
#[local] Open Scope list_scope.

(** ** The API behind the client *)

(** How an answer of a handler reaches the client: a document, the detail of
    an [HTTPException], or the server's plain text for another exception. *)
Definition http_answer (answer : res api_exn pydict) : http_outcome :=
  match answer with
  | Ok doc => HttpResponse (BodyJson (PyDict doc))
  | Err (HTTPException status detail) =>
      HttpStatusError status (BodyJson (PyDict [("detail", PyDict detail)]))
  | Err (Escaped _) => HttpStatusError 500 BodyNotJson
  end.

(** The bodies an endpoint accepts: only an apply reads one. *)
Definition body_accepted (e : endpoint) (body : option pydict) : Prop :=
  match e with
  | EpApply payload =>
      body = Some [("config_path", PyStr (ar_config_path payload))] ∧
      TopologyApplyRequestModel_ok payload = true
  | _ => True
  end.

Section served.
Context {W : Type} `{ClockLaws W} `{Processes W} `{Ipc W} `{Host W} `{Loader W} `{ExnText}.
Context (config : ControllerConfig).

Abbreviation S := (option AppliedTopology * (controller * W))%type.

(** The API is served at the addresses [at_url]: a request gets the answer of
    its handler, unless the client gives up waiting for it, with httpx's
    [TimeoutException], which it does not when the answer comes within its
    timeout; nothing is said of the state it then leaves behind. *)
Class Served `{Http S} (at_url : string → Prop) : Prop := {
  served url timeout e body x answer x' :
    at_url url → body_accepted e body → endpoint_handler config e x = (answer, x') →
    let request := http_request url timeout (endpoint_method e) (endpoint_path e) body x in
    request = (http_answer answer, x') ∨
    (¬ (now (snd (snd x')) - now (snd (snd x)) < timeout)%Z ∧ ∃ text x2, request = (HttpError text, x2));
}.
End served.

(** ** Commands and endpoints *)

(** The endpoint a command asks. *)
Definition cli_endpoint (args : Namespace) : option endpoint :=
  if decide (command args = "status") then Some EpStatus
  else if decide (command args = "stats") then
    if decide (stats_command args = Some "show") then Some EpStats
    else if decide (stats_command args = Some "reset") then Some EpReset else None
  else if decide (command args = "datapath") then
    if decide (datapath_command args = Some "pause") then Some EpPause
    else if decide (datapath_command args = Some "resume") then Some EpResume else None
  else if decide (command args = "topology") then
    if decide (topology_command args = Some "apply") then
      Some (EpApply (mkApplyRequest (arg_config_path args)))
    else if decide (topology_command args = Some "destroy") then Some EpDestroy else None
  else None.

(** The body it sends. *)
Definition command_body (e : endpoint) : option pydict :=
  match e with
  | EpHealth | EpStatus | EpStats => None
  | EpReset | EpPause | EpResume | EpDestroy => Some []
  | EpApply payload => Some [("config_path", PyStr (ar_config_path payload))]
  end.

Lemma command_body_accepted e :
  (∀ payload, e = EpApply payload → blank (ar_config_path payload) = false) →
  body_accepted e (command_body e).
Proof.
  destruct e as [| | | | | |[path]|]; try done. intros Hp. split; [done|]. specialize (Hp _ eq_refl).
  cbn in Hp. apply min_length_1_ne. cbn. intros ->. discriminate Hp.
Qed.

(** Whatever the parser accepts is dispatched: the last line of [main] is never
    reached. *)
Lemma accepted_dispatched args : parser_accepts args = true → is_Some (cli_endpoint args).
Proof.
  intros [Hc _]%andb_true_iff. apply existsb_exists in Hc as ([name subs] & Hin & Hc).
  apply andb_true_iff in Hc as [Hname%bool_decide_eq_true Hsub].
  destruct args as [url json c stats dp topo path]. cbn in Hname. subst c.
  destruct Hin as [Hin|[Hin|[Hin|[Hin|[]]]]]; injection Hin as <- <-; [by eexists|..];
    apply orb_true_iff in Hsub as [Hs%bool_decide_eq_true|[Hs%bool_decide_eq_true|?]%orb_true_iff];
    try done; vm_compute in Hs; subst; by eexists.
Qed.

(** The text of a value of the runtime: the rendering of its model. *)
Definition shown (e : endpoint) (v : runtime_value) (json : bool) : res pyexn string :=
  match v with
  | VHealth s => m ← health_from_snapshot s; mret ""
  | VStatus s => m ← status_from_snapshot s; mret (render_status (mirror_status m) json)
  | VStats s => m ← stats_from_snapshot s; render_stats (mirror_stats m) json
  | VReset r => m ← reset_from_result r; render_stats_reset (mirror_reset m) json
  | VControl r =>
      m ← control_from_result r;
      mret (render_datapath_control (match e with EpPause => "pause" | _ => "resume" end)
              (mirror_control m) json)
  | VOperation t =>
      m ← operation_from_result t; mret (render_topology_result (mirror_operation m) json)
  end.

(** The message about an answer that is an error. *)
Definition http_error_text (path : string) (exc : api_exn) : string :=
  match exc with
  | HTTPException status detail =>
      "controller returned HTTP " +:+ str_of_Z status +:+ " for " +:+ path +:+ ": "
      +:+ py_repr (PyDict detail)
  | Escaped _ => "controller returned HTTP 500 for " +:+ path
  end.

Section cli.
Context {W : Type} `{ClockLaws W} `{Processes W} `{Ipc W} `{Host W} `{Loader W} `{ExnText}.
Context `{!IpcLaws W} `{!IpcPayloads W} `{!PidLaws W} `{Schemas} `{!SchemaLaws}.
Context (config : ControllerConfig) (Hpath : datapath_socket_path config ≠ "").

Abbreviation S := (option AppliedTopology * (controller * W))%type.
Context `{Http S}.

(** What a command leaves: the exit code and the streams, or an exception. *)
Definition reported (e : endpoint) (json : bool) (outcome : res pyexn runtime_value) (con : console)
    (x' : S) : res ctl_exn Z * (console * S) :=
  match outcome with
  | Ok v =>
      match shown e v json with
      | Ok text => (Ok 0%Z, (mkConsole ((stdout con +:+ text) +:+ newline) (stderr con), x'))
      | Err err => (Err (CtlExn err), (con, x'))
      end
  | Err err =>
      (Ok 1%Z, (mkConsole (stdout con)
        (stderr con +:+ ("pktlabctl: " +:+ http_error_text (endpoint_path e) (endpoint_error e err)
                         +:+ newline)), x'))
  end.

(** One exchange: the model the client reads, or its error. *)
Lemma fetch_served {A} client e body (read : pydict → A + string) name x outcome answer x'
    (expect : A → Prop) :
  endpoint_value config e x = (outcome, x') → answers e outcome answer →
  http_request (base_url client) (client_timeout client) (endpoint_method e) (endpoint_path e) body x
    = (http_answer answer, x') →
  (∀ v doc, outcome = Ok v → document v = Ok doc → ∃ a, read doc = inl a ∧ expect a) →
  match outcome with
  | Ok _ => ∃ a, expect a ∧
      fetch client (endpoint_method e) (endpoint_path e) body read name x = (Ok a, x')
  | Err err =>
      fetch client (endpoint_method e) (endpoint_path e) body read name x
      = (Err (ControllerClientError (http_error_text (endpoint_path e) (endpoint_error e err))), x')
  end.
Proof.
  intros Hval Hans Hhttp Hread. unfold fetch, _request_json, mbind, pym_mbind. rewrite Hhttp.
  destruct outcome as [v|err], answer as [doc|exc]; try done; cbn in Hans.
  - destruct (Hread v doc eq_refl Hans) as (a & Ha & Hexp). exists a. split; [done|].
    cbn. unfold mret, pym_mret. by rewrite Ha.
  - subst exc. destruct (endpoint_error e err); cbn; [|by rewrite str_app_nil_r].
    done.
Qed.

Lemma run_command_fetched {A} caught url (call : ControllerClient → pym ctl_exn S A) render con x r x' :
  blank url = false → call (mkControllerClient (rstrip_slash url) DEFAULT_CTL_TIMEOUT) x = (r, x') →
  run_command caught url call render (con, x) =
    match r with
    | Ok a =>
        match render a with
        | Ok text => (Ok 0%Z, (mkConsole ((stdout con +:+ text) +:+ newline) (stderr con), x'))
        | Err e => (Err (CtlExn e), (con, x'))
        end
    | Err exc =>
        match caught exc with
        | Some text =>
            (Ok 1%Z, (mkConsole (stdout con)
                        (stderr con +:+ ("pktlabctl: " +:+ text +:+ newline)), x'))
        | None => (Err exc, (con, x'))
        end
    end.
Proof.
  intros Hb Hc. unfold run_command, new_ControllerClient. rewrite Hb. cbn [Z.leb].
  unfold try_except, mbind, pym_mbind, pym_lift, on_snd, mret, pym_mret. cbn. rewrite Hc.
  destruct r as [a|exc]; cbn; [by destruct (render a)|]. by destruct (caught exc).
Qed.

(** One command over one endpoint. *)
Lemma command_reports {A} (caught : ctl_exn → option string) url e body
    (read : pydict → A + string) name render json con x outcome answer x' :
  (∀ m, caught (ControllerClientError m) = Some m) →
  blank url = false → endpoint_value config e x = (outcome, x') → answers e outcome answer →
  http_request (rstrip_slash url) DEFAULT_CTL_TIMEOUT (endpoint_method e) (endpoint_path e) body x
    = (http_answer answer, x') →
  (∀ v doc, outcome = Ok v → document v = Ok doc → ∃ a, read doc = inl a ∧ shown e v json = render a) →
  run_command caught url
    (λ client, fetch client (endpoint_method e) (endpoint_path e) body read name) render (con, x)
  = reported e json outcome con x'.
Proof.
  intros Hcaught Hb Hval Hans Hhttp Hread.
  pose proof (fetch_served (mkControllerClient (rstrip_slash url) DEFAULT_CTL_TIMEOUT) e body read name x
    outcome answer x' (λ a, ∀ v, outcome = Ok v → shown e v json = render a) Hval Hans Hhttp) as Hf.
  destruct outcome as [v|err].
  - destruct Hf as (a & Ha & Hf).
    { intros v' doc [= <-] Hd. destruct (Hread v doc eq_refl Hd) as (a & Hr & Hs).
      exists a. split; [done|]. by intros v' [= <-]. }
    rewrite (run_command_fetched _ _ _ _ _ _ _ _ Hb Hf). cbn. by rewrite (Ha v eq_refl).
  - rewrite (run_command_fetched _ _ _ _ _ _ _ _ Hb (Hf ltac:(done))). cbn. by rewrite Hcaught.
Qed.

Lemma client_caught m : catch_client_error (ControllerClientError m) = Some m.
Proof. done. Qed.

(** The value of an endpoint. *)
Lemma value_of {A} (m : pym pyexn S A) (val : A → runtime_value) x outcome x' v :
  (a ← m; mret (val a)) x = (outcome, x') → outcome = Ok v → ∃ a, v = val a.
Proof. intros Hm ->. apply pym_bind_inv in Hm as (a & x1 & _ & [= <- _]). by exists a. Qed.

(** The client gives up. *)
Lemma command_gives_up {A} (caught : ctl_exn → option string) url method path body
    (read : pydict → A + string) name render con x text x2 :
  (∀ m, caught (ControllerClientError m) = Some m) → blank url = false →
  http_request (rstrip_slash url) DEFAULT_CTL_TIMEOUT method path body x = (HttpError text, x2) →
  run_command caught url (λ client, fetch client method path body read name) render (con, x)
  = (Ok 1%Z, (mkConsole (stdout con)
       (stderr con +:+ ("pktlabctl: " +:+ ("controller request failed for " +:+ path +:+ ": " +:+ text)
                        +:+ newline)), x2)).
Proof.
  intros Hcaught Hb Hhttp.
  assert (fetch (mkControllerClient (rstrip_slash url) DEFAULT_CTL_TIMEOUT) method path body read name x
    = (Err (ControllerClientError ("controller request failed for " +:+ path +:+ ": " +:+ text)), x2)) as Hf.
  { unfold fetch, _request_json, mbind, pym_mbind. cbn [base_url client_timeout]. by rewrite Hhttp. }
  rewrite (run_command_fetched _ _ _ _ _ _ _ _ Hb Hf). cbn. by rewrite Hcaught.
Qed.

Lemma cli_gives_up args e con x text x2 :
  cli_endpoint args = Some e → blank (controller_url args) = false →
  (∀ payload, e = EpApply payload → blank (ar_config_path payload) = false) →
  http_request (rstrip_slash (controller_url args)) DEFAULT_CTL_TIMEOUT (endpoint_method e) (endpoint_path e)
    (command_body e) x = (HttpError text, x2) →
  cli_main args (con, x) =
    (Ok 1%Z, (mkConsole (stdout con)
       (stderr con +:+ ("pktlabctl: " +:+ ("controller request failed for " +:+ endpoint_path e +:+ ": " +:+ text)
                        +:+ newline)), x2)).
Proof.
  intros He Hb Hpay Hhttp. unfold cli_endpoint in He. unfold cli_main.
  assert (∀ {A} caught (read : pydict → A + string) name render,
    (∀ m, caught (ControllerClientError m) = Some m) →
    run_command caught (controller_url args)
      (λ client, fetch client (endpoint_method e) (endpoint_path e) (command_body e) read name) render (con, x)
    = (Ok 1%Z, (mkConsole (stdout con)
       (stderr con +:+ ("pktlabctl: " +:+ ("controller request failed for " +:+ endpoint_path e +:+ ": " +:+ text)
                        +:+ newline)), x2))) as Hgives.
  { intros A caught read name render Hc. by apply command_gives_up. }
  repeat (case_decide; [|]); simplify_eq/=.
  1: by apply (Hgives _ _ read_status).
  1: by apply (Hgives _ _ read_stats).
  1: by apply (Hgives _ _ read_reset).
  1, 2: by apply (Hgives _ _ read_control).
  2: by apply (Hgives _ _ read_operation).
  specialize (Hpay _ eq_refl). cbn in Hpay. unfold run_topology_apply, client_apply_topology.
  rewrite Hpay. by apply (Hgives _ _ read_operation).
Qed.

Lemma cli_reports args e con x outcome answer x' :
  cli_endpoint args = Some e → blank (controller_url args) = false →
  (∀ payload, e = EpApply payload → blank (ar_config_path payload) = false) →
  endpoint_value config e x = (outcome, x') → answers e outcome answer →
  http_request (rstrip_slash (controller_url args)) DEFAULT_CTL_TIMEOUT (endpoint_method e) (endpoint_path e)
    (command_body e) x = (http_answer answer, x') →
  cli_main args (con, x) = reported e (json_output args) outcome con x'.
Proof.
  intros He Hb Hpay Hval Hans Hhttp. unfold cli_endpoint in He. unfold cli_main.
  assert (∀ {A} caught (read : pydict → A + string) name render,
    (∀ m, caught (ControllerClientError m) = Some m) →
    (∀ v doc, outcome = Ok v → document v = Ok doc →
       ∃ a, read doc = inl a ∧ shown e v (json_output args) = render a) →
    run_command caught (controller_url args)
      (λ client, fetch client (endpoint_method e) (endpoint_path e) (command_body e) read name) render (con, x)
    = reported e (json_output args) outcome con x') as Hreports.
  { intros A caught read name render Hc Hread. by eapply command_reports. }
  repeat (case_decide; [|]); simplify_eq/=.
  - apply (Hreports _ _ read_status); [done|]. intros v doc Hv Hd.
    destruct (value_of _ _ _ _ _ _ Hval Hv) as [s ->].
    destruct (documents_read _ _ Hd) as (m & Hm & Hr). exists (mirror_status m). split; [done|].
    cbn. by rewrite Hm.
  - apply (Hreports _ _ read_stats); [done|]. intros v doc Hv Hd.
    destruct (value_of _ _ _ _ _ _ Hval Hv) as [s ->].
    destruct (documents_read _ _ Hd) as (m & Hm & Hr). exists (mirror_stats m). split; [done|].
    cbn. by rewrite Hm.
  - apply (Hreports _ _ read_reset); [done|]. intros v doc Hv Hd.
    destruct (value_of _ _ _ _ _ _ Hval Hv) as [s ->].
    destruct (documents_read _ _ Hd) as (m & Hm & Hr). exists (mirror_reset m). split; [done|].
    cbn. by rewrite Hm.
  - apply (Hreports _ _ read_control); [done|]. intros v doc Hv Hd.
    destruct (value_of _ _ _ _ _ _ Hval Hv) as [s ->].
    destruct (documents_read _ _ Hd) as (m & Hm & Hr). exists (mirror_control m). split; [done|].
    cbn. by rewrite Hm.
  - apply (Hreports _ _ read_control); [done|]. intros v doc Hv Hd.
    destruct (value_of _ _ _ _ _ _ Hval Hv) as [s ->].
    destruct (documents_read _ _ Hd) as (m & Hm & Hr). exists (mirror_control m). split; [done|].
    cbn. by rewrite Hm.
  - specialize (Hpay _ eq_refl). cbn in Hpay. unfold run_topology_apply, client_apply_topology.
    rewrite Hpay. apply (Hreports _ _ read_operation); [done|].
    intros v doc Hv Hd. destruct (value_of _ _ _ _ _ _ Hval Hv) as [t ->].
    destruct (documents_read _ _ Hd) as (m & Hm & Hr). exists (mirror_operation m). split; [done|].
    cbn. by rewrite Hm.
  - apply (Hreports _ _ read_operation); [done|]. intros v doc Hv Hd.
    destruct (value_of _ _ _ _ _ _ Hval Hv) as [t ->].
    destruct (documents_read _ _ Hd) as (m & Hm & Hr). exists (mirror_operation m). split; [done|].
    cbn. by rewrite Hm.
Qed.

(** A command in front of a served controller reports its operation, or gives
    up when the answer does not come in time. *)
Lemma cli_served at_url `{!Served config at_url} args e con x outcome x' :
  cli_endpoint args = Some e → blank (controller_url args) = false →
  (∀ payload, e = EpApply payload → blank (ar_config_path payload) = false) →
  at_url (rstrip_slash (controller_url args)) →
  controller_ok config (fst (snd x)) → endpoint_value config e x = (outcome, x') →
  cli_main args (con, x) = reported e (json_output args) outcome con x' ∨
  (¬ (now (snd (snd x')) - now (snd (snd x)) < DEFAULT_CTL_TIMEOUT)%Z ∧ ∃ text x2,
    cli_main args (con, x) =
      (Ok 1%Z, (mkConsole (stdout con)
         (stderr con +:+ ("pktlabctl: " +:+
            ("controller request failed for " +:+ endpoint_path e +:+ ": " +:+ text) +:+ newline)), x2))).
Proof.
  intros He Hb Hpay Hurl Hok Hval.
  destruct (endpoint_handler config e x) as [answer x1] eqn:Hrun.
  destruct (endpoint_answers config Hpath e x answer x1 Hok Hrun) as (outcome' & Hval' & Hans).
  rewrite Hval in Hval'. injection Hval' as <- <-.
  pose proof (command_body_accepted e Hpay) as Hbody.
  destruct (served config _ DEFAULT_CTL_TIMEOUT _ _ _ _ _ Hurl Hbody Hrun) as [Hhttp|[Hlate (text & x2 & Hhttp)]].
  - left. by eapply cli_reports.
  - right. split; [done|]. exists text, x2. by apply cli_gives_up.
Qed.
End cli.
