(* ===== verification/CtlSpec.v ===== *)
(** * What pktlabctl prints

    The text of a command's answer, written from the value the runtime
    returned: the document of [ApiSpec] as JSON, or a list of lines. *)

From stdpp Require Import sorting.
From S2P Require Import Prelude PyStr Errors PyJson Types State Clock DpdkModels Supervisor Netns.
From S2P Require Import SupervisorProps SupervisorPayloads Manager App AppInvariant ApiModels Api ApiProps ApiSpec.
From S2P Require Import CtlClient CtlOutput CtlCommands CtlProps CtlServed.
#[local] Open Scope string_scope.
#[local] Open Scope list_scope.

(** ** Lines *)

Definition joined (lines : list string) : string := py_join newline lines.

(** A line for a value that is there, and for a text that is not empty. *)
Definition optional (label : string) (o : option string) : list string :=
  match o with Some s => [label +:+ s] | None => [] end.
Definition non_empty (o : option string) : option string :=
  match o with Some "" | None => None | Some s => Some s end.

Definition flag_line (label : string) (b : bool) : string :=
  label +:+ (if b then "yes" else "no").

Definition program_line (v : VersionPayload) : list string :=
  if str_empty (version_service v) || str_empty (version_version v) then []
  else ["  service: " +:+ version_service v +:+ " " +:+ version_version v
        +:+ (if str_empty (version_dpdk_version v) then ""
             else " (DPDK " +:+ version_dpdk_version v +:+ ")")].

Definition port_line (p : PortInfoModel) : string :=
  "  " +:+ role_name (info_role p) +:+ ": " +:+ info_name p +:+ " (id=" +:+ str_of_Z (info_port_id p)
  +:+ ", state=" +:+ port_state_name (info_state p) +:+ ")".

Definition status_lines (s : DatapathRuntimeStatusSnapshot) : list string :=
  let c := rs_controller_snapshot s in
  let st := snap_datapath_status c in
  let health := status_health st in
  ["controller: " +:+ controller_state_name (snap_controller_state c) +:+ " ("
     +:+ snap_controller_message c +:+ ")";
   "  service: pktlab-ctrld " +:+ snap_controller_version c;
   (if reachable st then "datapath: reachable" else "datapath: unreachable");
   flag_line "  managed: " (managed st);
   "  socket: " +:+ status_socket_path st;
   "  pid: " +:+ match status_pid st with Some pid => str_of_Z pid | None => "n/a" end]
  ++ optional "  state: " (datapath_state_name ∘ health_state <$> health)
  ++ optional "  message: " (non_empty (health_message <$> health))
  ++ match status_version st with Some v => program_line v | None => [] end
  ++ optional "  applied_rule_version: " (str_of_Z ∘ health_applied_rule_version <$> health)
  ++ [flag_line "  ports_ready: " (match health with Some h => health_ports_ready h | None => false end);
      flag_line "  paused: " (match health with Some h => health_paused h | None => false end)]
  ++ optional "  exit_code: " (str_of_Z <$> status_exit_code st)
  ++ optional "  error: " (non_empty (status_last_error st))
  ++ match rs_ports s with [] => [] | ports => "ports:" :: (port_line <$> ports) end.

(** *** Counters *)

(** Rules by number, as a permutation of those counted. *)
Definition by_number (rules : list (string * Z)) : Prop :=
  ∃ numbers, mapM (py_int_text ∘ fst) rules = Some numbers ∧ Sorted Z.le numbers.

Definition hit_lines (hits : list (string * Z)) (lines : list string) : Prop :=
  match hits with
  | [] => lines = ["  rule_hits: none"]
  | _ => ∃ rules, rules ≡ₚ hits ∧ by_number rules ∧
      lines = "  rule_hits:" :: ((λ h, "    " +:+ h.1 +:+ ": " +:+ str_of_Z h.2) <$> rules)
  end.

Definition counter_lines (heading : string) (st : DatapathProcessStatus)
    (s : DpdkModels.DatapathStatsModel) (hits : list string) : list string :=
  [heading +:+ ": " +:+ match status_health st with
                        | Some h => datapath_state_name (health_state h)
                        | None => "unknown"
                        end;
   "  socket: " +:+ status_socket_path st;
   "  rx_packets: " +:+ str_of_Z (st_rx_packets s);
   "  tx_packets: " +:+ str_of_Z (st_tx_packets s);
   "  drop_packets: " +:+ str_of_Z (st_drop_packets s);
   "  drop_parse_errors: " +:+ str_of_Z (st_drop_parse_errors s);
   "  drop_no_match: " +:+ str_of_Z (st_drop_no_match s);
   "  rx_bursts: " +:+ str_of_Z (st_rx_bursts s);
   "  tx_bursts: " +:+ str_of_Z (st_tx_bursts s);
   "  unsent_packets: " +:+ str_of_Z (st_unsent_packets s)] ++ hits.

(** *** Control and topology *)

Definition control_lines (action : string) (r : DatapathControlResult) : list string :=
  let st := cr_datapath_status r in
  let health := status_health st in
  ["datapath " +:+ action +:+ ": " +:+ cr_message r;
   "  state: " +:+ match health with Some h => datapath_state_name (health_state h) | None => "unknown" end;
   "  socket: " +:+ status_socket_path st;
   flag_line "  reachable: " (reachable st);
   flag_line "  ports_ready: " (match health with Some h => health_ports_ready h | None => false end);
   flag_line "  paused: " (match health with Some h => health_paused h | None => false end)]
  ++ optional "  message: " (non_empty (health_message <$> health)).

Definition operation_lines (t : TopologyOperationResult) : list string :=
  ["topology " +:+ operation_name (tr_operation t) +:+ ": " +:+ tr_message t;
   flag_line "  applied: " (tr_applied t);
   flag_line "  datapath_running: " (tr_datapath_running t)]
  ++ optional "  topology: " (tr_topology_name t)
  ++ optional "  config_path: " (tr_config_path t)
  ++ optional "  datapath_namespace: " (tr_datapath_namespace t).

(** ** The text of an answer *)

(** The word a control command reports. *)
Definition action_of (e : endpoint) : string := match e with EpPause => "pause" | _ => "resume" end.

Definition printed (e : endpoint) (v : runtime_value) (json : bool) (text : string) : Prop :=
  if json then text = json_dumps 0 (PyDict (sent v))
  else match v with
       | VHealth _ => False
       | VStatus s => text = joined (status_lines s)
       | VStats s => ∃ hits, hit_lines (st_rule_hits (rt_stats s)) hits ∧
           text = joined (counter_lines "datapath stats" (rt_datapath_status s) (rt_stats s) hits)
       | VReset r => ∃ hits, hit_lines (st_rule_hits (rr_stats r)) hits ∧
           text = joined (("datapath stats reset: " +:+ rr_message r) ::
             py_splitlines (joined (counter_lines "post-reset counters" (rr_datapath_status r)
               (rr_stats r) hits)))
       | VControl r => text = joined (control_lines (action_of e) r)
       | VOperation t => text = joined (operation_lines t)
       end.

(** The rules a command would have to order by number. *)
Definition hits_of (v : runtime_value) : list (string * Z) :=
  match v with
  | VStats s => st_rule_hits (rt_stats s)
  | VReset r => st_rule_hits (rr_stats r)
  | _ => []
  end.
Definition numbered_rules (v : runtime_value) : Prop :=
  Forall (λ h, is_Some (py_int_text h.1)) (hits_of v).

(** The message about an operation that raised. *)
Definition refusal (e : endpoint) (err : pyexn) : string :=
  match err with
  | PktlabExn error =>
      "controller returned HTTP " +:+ str_of_Z (error_status e (error_code error)) +:+ " for "
      +:+ endpoint_path e +:+ ": " +:+ py_repr (PyDict (error_fields error))
  | _ => "controller returned HTTP 500 for " +:+ endpoint_path e
  end.

(** ** The code prints it *)

Lemma truthy_non_empty o : truthy o = non_empty o.
Proof. by destruct o as [[]|]. Qed.

(** The mirrored model of a status. *)
Definition client_status (st : DatapathProcessStatus) : DatapathStatusModel :=
  mkDatapathStatus (managed st) (reachable st) (status_socket_path st) (status_pid st)
    (status_exit_code st) (status_last_error st) (version_service <$> status_version st)
    (version_version <$> status_version st) (version_dpdk_version <$> status_version st)
    (datapath_state_name ∘ health_state <$> status_health st) (health_message <$> status_health st)
    (health_applied_rule_version <$> status_health st)
    (match status_health st with Some h => health_ports_ready h | None => false end)
    (match status_health st with Some h => health_paused h | None => false end).

Lemma mirror_client_status st m :
  _datapath_health_model_from_status st = Ok m → mirror_datapath m = client_status st.
Proof.
  intros [-> _]%checked_ok. unfold mirror_datapath, client_status. cbn.
  destruct (status_health st) as [[[] hm hv hp hq]|]; by destruct (status_version st).
Qed.

Definition client_controller (s : ControllerHealthSnapshot) : ControllerStatusModel :=
  mkControllerStatus "pktlab-ctrld" (snap_controller_version s)
    (controller_state_name (snap_controller_state s)) (snap_controller_message s).

Lemma mirror_client_controller s m :
  controller_health_model s = Ok m → mirror_controller m = client_controller s.
Proof.
  intros [-> _]%checked_ok. unfold mirror_controller, client_controller. cbn.
  by destruct (snap_controller_state s).
Qed.

Definition client_port (p : PortInfoModel) : DatapathPortModel :=
  mkPort (info_name p) (info_port_id p) (role_name (info_role p)) (port_state_name (info_state p)).

Lemma mirror_client_ports ports ms :
  port_models ports = Ok ms → mirror_port <$> ms = client_port <$> ports.
Proof.
  revert ms. induction ports as [|p ports IH]; cbn [port_models]; intros ms; [by intros [= <-]|].
  unfold mbind, res_mbind. destruct (port_model p) as [m|] eqn:Hm; [|done].
  destruct (port_models ports) as [ms'|] eqn:Hms; [|done]. intros [= <-].
  apply checked_ok in Hm as [-> _]. cbn. rewrite (IH ms' eq_refl). unfold mirror_port, client_port. cbn.
  by destruct (info_role p), (info_state p).
Qed.

Definition client_counters (s : DpdkModels.DatapathStatsModel) : DatapathStatsModel :=
  mkCounters (st_rx_packets s) (st_tx_packets s) (st_drop_packets s) (st_drop_parse_errors s)
    (st_drop_no_match s) (st_rx_bursts s) (st_tx_bursts s) (st_unsent_packets s) (st_rule_hits s).

Lemma mirror_client_counters s m : stats_model s = Ok m → mirror_counters m = client_counters s.
Proof. by intros [-> _]%checked_ok. Qed.

Lemma service_printed st :
  service_line (client_status st) = match status_version st with Some v => program_line v | None => [] end.
Proof.
  unfold service_line, program_line, client_status. cbn.
  destruct (status_version st) as [[service version dpdk]|]; [|done]. cbn.
  destruct service, version; try done. cbn. by destruct dpdk.
Qed.

Lemma status_printed s m :
  status_from_snapshot s = Ok m → render_human_status (mirror_status m) = joined (status_lines s).
Proof.
  unfold status_from_snapshot, health_from_snapshot, mbind, res_mbind.
  destruct (controller_health_model _) as [c|] eqn:Hc; [|done].
  destruct (_datapath_health_model_from_status _) as [d|] eqn:Hd; [|done].
  destruct (port_models _) as [ps|] eqn:Hp; [|done]. intros [= <-].
  apply mirror_client_controller in Hc. apply mirror_client_status in Hd. apply mirror_client_ports in Hp.
  unfold render_human_status, joined, lines_text, mirror_status. cbn [sr_controller sr_datapath sr_ports].
  rewrite Hc, Hd, Hp. f_equal. cbn [sa_controller sa_datapath sa_ports].
  rewrite service_printed, !truthy_non_empty. unfold status_lines, client_status.
  assert (match client_port <$> rs_ports s with
      | [] => []
      | ports => "ports:" :: ((λ port, "  " +:+ CtlClient.port_role port +:+ ": " +:+ CtlClient.port_name port
          +:+ " (id=" +:+ str_of_Z (CtlClient.port_id port) +:+ ", state=" +:+ CtlClient.port_state port
          +:+ ")") <$> ports)
      end = match rs_ports s with [] => [] | ports => "ports:" :: (port_line <$> ports) end) as ->.
  { destruct (rs_ports s) as [|p ports]; [done|]. cbn [fmap list_fmap]. do 2 f_equal.
    by rewrite <- list_fmap_compose. }
  destruct (reachable _), (status_pid _), (status_health _), (status_exit_code _); reflexivity.
Qed.

(** *** Counters *)

Lemma numbered_ok hits rules :
  numbered hits = Some rules → snd <$> rules = hits ∧ mapM (py_int_text ∘ fst) hits = Some (fst <$> rules).
Proof.
  revert rules. induction hits as [|[rule n] hits IH]; cbn; intros rules; [by intros [= <-]|].
  destruct (py_int_text rule) as [number|]; [|done]. cbn. destruct (numbered hits) as [rest|]; [|done].
  intros [= <-]. destruct (IH rest eq_refl) as [Hs Hm]. cbn. by rewrite Hs, Hm.
Qed.

Lemma numbered_some hits :
  is_Some (numbered hits) ↔ Forall (λ h, is_Some (py_int_text h.1)) hits.
Proof.
  induction hits as [|[rule n] hits IH]; cbn; [split; [done|by eexists]|]. rewrite Forall_cons, <- IH. cbn.
  destruct (py_int_text rule), (numbered hits); cbn; split;
    try (by intros [? [=]]); try (by intros [[? [=]] _]); try (by intros [_ [? [=]]]); eauto.
Qed.

#[local] Instance number_le_total : Total number_le.
Proof. intros a b. unfold number_le. lia. Qed.
#[local] Instance number_le_trans : Transitive number_le.
Proof. intros a b c. unfold number_le. lia. Qed.

Lemma mapM_perm_sorted (rules : list (Z * (string * Z))) :
  Forall (λ r, py_int_text r.2.1 = Some r.1) rules → Sorted number_le rules →
  by_number (snd <$> rules).
Proof.
  intros Hr Hs. exists (fst <$> rules). split.
  - induction Hr as [|[z [rule n]] rules Hz _ IH]; cbn in *; [done|]. rewrite Hz. cbn.
    rewrite IH; [done|]. by inversion Hs.
  - clear Hr. induction Hs as [|a rules _ IH Hhd]; constructor; [done|].
    inversion Hhd; constructor; done.
Qed.

Lemma numbered_keys hits rules :
  numbered hits = Some rules → Forall (λ r, py_int_text r.2.1 = Some r.1) rules.
Proof.
  revert rules. induction hits as [|[rule n] hits IH]; cbn; intros rules; [by intros [= <-]|].
  destruct (py_int_text rule) as [number|] eqn:Hn; [|done]. cbn.
  destruct (numbered hits) as [rest|]; [|done]. intros [= <-]. constructor; [done|]. by apply IH.
Qed.

Lemma rules_printed s :
  match rule_lines (client_counters s) with
  | Ok lines => hit_lines (st_rule_hits s) lines
  | Err e => e = ValueError None ∧ ¬ Forall (λ h, is_Some (py_int_text h.1)) (st_rule_hits s)
  end.
Proof.
  unfold rule_lines. cbn [rule_hits client_counters]. destruct (st_rule_hits s) as [|h hits] eqn:Hh; [done|].
  rewrite <- Hh. unfold sorted_rules, mbind, res_mbind.
  destruct (numbered (st_rule_hits s)) as [rules|] eqn:Hn; cbn.
  - unfold hit_lines. rewrite Hh, <- Hh. exists (snd <$> merge_sort number_le rules). split_and!.
    + rewrite merge_sort_Permutation. by rewrite (proj1 (numbered_ok _ _ Hn)).
    + apply mapM_perm_sorted; [|apply Sorted_merge_sort, _].
      rewrite merge_sort_Permutation. by eapply numbered_keys.
    + f_equal. apply list_fmap_ext. by intros ? [].
  - split; [done|]. rewrite <- numbered_some, Hn. by intros [].
Qed.

Lemma counters_printed st s heading :
  _render_human_stats_lines (client_status st) (client_counters s) heading =
    (hits ← rule_lines (client_counters s); mret (joined (counter_lines heading st s hits))).
Proof.
  unfold _render_human_stats_lines, mbind, res_mbind. destruct (rule_lines _) as [lines|]; [|done].
  unfold counter_lines, client_status. cbn [dps_state]. by destruct (status_health st).
Qed.

(** *** Every answer *)

Lemma json_printed e v doc : document v = Ok doc → printed e v true (render_json doc).
Proof. by intros ->%document_sent. Qed.

Lemma counters_shown st s heading (k : string → string) :
  match text ← _render_human_stats_lines (client_status st) (client_counters s) heading; mret (k text) with
  | Ok text => ∃ hits, hit_lines (st_rule_hits s) hits ∧ text = k (joined (counter_lines heading st s hits))
  | Err err => ¬ Forall (λ h, is_Some (py_int_text h.1)) (st_rule_hits s) ∧ err = ValueError None
  end.
Proof.
  rewrite counters_printed. pose proof (rules_printed s) as Hr. unfold mbind, res_mbind.
  destruct (rule_lines _) as [hits|err]; [by exists hits|]. by destruct Hr.
Qed.

Lemma res_bind_of {A B} (m : res pyexn A) (k : A → res pyexn B) a : m = Ok a → m ≫= k = k a.
Proof. by intros ->. Qed.

Lemma stats_shown e s json doc :
  document (VStats s) = Ok doc →
  match shown e (VStats s) json with
  | Ok text => printed e (VStats s) json text
  | Err err => json = false ∧ ¬ numbered_rules (VStats s) ∧ err = ValueError None
  end.
Proof.
  intros Hd. pose proof (json_printed e _ _ Hd) as Hj. cbn [document shown] in *.
  apply res_bind_ok in Hd as (m & Hm & [= <-]). rewrite (res_bind_of _ _ _ Hm).
  rewrite stats_dumps in Hj. destruct json; [exact Hj|].
  apply res_bind_ok in Hm as (d & Hd & (c & Hc & [= <-])%res_bind_ok).
  pose proof (counters_shown (rt_datapath_status s) (rt_stats s) "datapath stats" id) as Hs.
  unfold render_stats, render_human_stats, mirror_stats. cbn [st_datapath st_stats ss_datapath ss_stats].
  rewrite (mirror_client_status _ _ Hd), (mirror_client_counters _ _ Hc).
  unfold mbind, res_mbind in Hs. by destruct (_render_human_stats_lines _ _ _).
Qed.

Lemma reset_shown e r json doc :
  document (VReset r) = Ok doc →
  match shown e (VReset r) json with
  | Ok text => printed e (VReset r) json text
  | Err err => json = false ∧ ¬ numbered_rules (VReset r) ∧ err = ValueError None
  end.
Proof.
  intros Hd. pose proof (json_printed e _ _ Hd) as Hj. cbn [document shown] in *.
  apply res_bind_ok in Hd as (m & Hm & [= <-]). rewrite (res_bind_of _ _ _ Hm).
  rewrite reset_dumps in Hj. destruct json; [exact Hj|].
  apply res_bind_ok in Hm as (d & Hd & (c & Hc & [-> _]%checked_ok)%res_bind_ok).
  pose proof (counters_shown (rr_datapath_status r) (rr_stats r) "post-reset counters"
    (λ text, joined (("datapath stats reset: " +:+ rr_message r) :: py_splitlines text))) as Hs.
  unfold render_stats_reset, render_human_stats_reset, mirror_reset.
  cbn [re_datapath re_stats re_message sx_datapath sx_stats sx_message].
  rewrite (mirror_client_status _ _ Hd), (mirror_client_counters _ _ Hc).
  unfold mbind, res_mbind in *. by destruct (_render_human_stats_lines _ _ _).
Qed.

Lemma control_shown e r m :
  control_from_result r = Ok m →
  render_human_datapath_control (action_of e) (mirror_control m) = joined (control_lines (action_of e) r).
Proof.
  intros (d & Hd & [-> _]%checked_ok)%res_bind_ok.
  unfold render_human_datapath_control, mirror_control, joined, lines_text.
  cbn [co_datapath co_message cc_datapath cc_message]. rewrite (mirror_client_status _ _ Hd).
  rewrite truthy_non_empty. unfold control_lines, client_status.
  by destruct (status_health _).
Qed.

(** What a command shows of a value is the text above; only a rule that is no
    number keeps it from showing one. *)
Lemma shown_printed e v json doc :
  document v = Ok doc → (∀ s, v ≠ VHealth s) →
  match shown e v json with
  | Ok text => printed e v json text
  | Err err => json = false ∧ ¬ numbered_rules v ∧ err = ValueError None
  end.
Proof.
  intros Hd Hh. pose proof (json_printed e _ _ Hd) as Hj.
  destruct v as [s|s|s|r|r|t]; [by destruct (Hh s)| |by eapply stats_shown|by eapply reset_shown|..];
    cbn [document shown] in *; apply res_bind_ok in Hd as (m & Hm & [= <-]); rewrite (res_bind_of _ _ _ Hm).
  - rewrite status_dumps in Hj. destruct json; [exact Hj|]. by apply status_printed.
  - rewrite control_dumps in Hj. destruct json; [exact Hj|]. by apply (control_shown e).
  - destruct json; [exact Hj|]. apply checked_ok in Hm as [-> _].
    cbn. by destruct (tr_operation t), (tr_topology_name t), (tr_config_path t), (tr_datapath_namespace t).
Qed.

(** ** What a command leaves *)

(** A value: its text on the output and the exit code 0, or, when a rule to
    order is no number, the [ValueError] of [int]; an exception: one line on
    the error stream and the exit code 1. *)
Definition told (e : endpoint) (json : bool) (outcome : res pyexn runtime_value) (con : console)
    (r : res ctl_exn Z) (con' : console) : Prop :=
  match outcome with
  | Ok v =>
      (∃ text, printed e v json text ∧ r = Ok 0%Z ∧
         stdout con' = (stdout con +:+ text) +:+ newline ∧ stderr con' = stderr con) ∨
      (json = false ∧ ¬ numbered_rules v ∧ r = Err (CtlExn (ValueError None)) ∧ con' = con)
  | Err err =>
      r = Ok 1%Z ∧ stdout con' = stdout con ∧
      stderr con' = stderr con +:+ ("pktlabctl: " +:+ refusal e err +:+ newline)
  end.

Lemma refusal_text e err :
  e ≠ EpHealth → http_error_text (endpoint_path e) (endpoint_error e err) = refusal e err.
Proof.
  intros He. destruct err as [error| | | | | | | | |]; [by rewrite routes_by_table|by destruct e..].
Qed.

Section commands.
Context {W : Type} `{ClockLaws W} `{Processes W} `{Ipc W} `{Host W} `{Loader W} `{ExnText}.
Context `{!IpcLaws W} `{!IpcPayloads W} `{!PidLaws W} `{Schemas}.
Context (config : ControllerConfig) (Hpath : datapath_socket_path config ≠ "").

Lemma endpoint_no_health e x v x' :
  e ≠ EpHealth → endpoint_value config e x = (Ok v, x') → ∀ s, v ≠ VHealth s.
Proof. intros He Hv s ->. destruct e; try done; by destruct (value_of _ _ _ _ _ _ Hv eq_refl) as [? [=]]. Qed.

Lemma endpoint_documented e x v x' :
  controller_ok config (fst (snd x)) → endpoint_value config e x = (Ok v, x') → ∃ doc, document v = Ok doc.
Proof.
  intros Hok Hv. destruct (endpoint_handler config e x) as [answer x1] eqn:Hrun.
  destruct (endpoint_answers config Hpath e x answer x1 Hok Hrun) as (outcome & Hv' & Ha).
  rewrite Hv in Hv'. injection Hv' as <- <-. destruct answer as [doc|]; [|done]. by exists doc.
Qed.

Lemma reported_told e json outcome x x' con r con' x2 :
  e ≠ EpHealth → controller_ok config (fst (snd x)) → endpoint_value config e x = (outcome, x') →
  reported (W:=W) e json outcome con x' = (r, (con', x2)) →
  x2 = x' ∧ told e json outcome con r con'.
Proof.
  intros He Hok Hv. unfold reported, told. destruct outcome as [v|err].
  - destruct (endpoint_documented _ _ _ _ Hok Hv) as [doc Hd].
    pose proof (shown_printed e v json doc Hd (endpoint_no_health _ _ _ _ He Hv)) as Hs.
    destruct (shown e v json) as [text|err].
    + intros [= <- <- <-]. split; [done|]. left. by exists text.
    + destruct Hs as (Hj & Hn & ->). intros [= <- <- <-]. split; [done|]. by right.
  - rewrite refusal_text by done. intros [= <- <- <-]. done.
Qed.
End commands.

Lemma cli_no_health args : cli_endpoint args ≠ Some EpHealth.
Proof. unfold cli_endpoint. repeat case_decide; done. Qed.
