(* ===== verification/SimHttp.v ===== *)
(** * A simulated exchange between pktlabctl and the API

    Readers of the client's models that obey pydantic's law, and an HTTP
    server over the simulated controller of [SimController]: the interfaces of
    [CtlClient] and [CtlServed] have an instance, and commands evaluate. *)

From S2P Require Import Prelude PyStr Errors PyJson Types State Clock Supervisor Netns SimWorld.
From S2P Require Import Topology Manager App AppProps SimController.
From S2P Require Import ApiModels Api CtlClient CtlServed.
#[local] Open Scope string_scope.
#[local] Open Scope list_scope.

(** ** Readers *)

Definition as_str (v : pyval) : option string := match v with PyStr s => Some s | _ => None end.
Definition as_int (v : pyval) : option Z := match v with PyInt z => Some z | _ => None end.
Definition as_bool (v : pyval) : option bool := match v with PyBool b => Some b | _ => None end.
Definition as_dict (v : pyval) : option pydict := match v with PyDict d => Some d | _ => None end.
Definition as_list (v : pyval) : option (list pyval) := match v with PyList l => Some l | _ => None end.
Definition as_opt {A} (f : pyval → option A) (v : pyval) : option (option A) :=
  match v with PyNone => Some None | _ => Some <$> f v end.

Definition field {A} (f : pyval → option A) (k : string) (d : pydict) : option A :=
  v ← dict_get k d; f v.

Definition sub {A} (f : pydict → option A) (v : pyval) : option A := d ← as_dict v; f d.

Definition read_controller (d : pydict) : option ControllerStatusModel :=
  service ← field as_str "service" d; version ← field as_str "version" d;
  state ← field as_str "state" d; message ← field as_str "message" d;
  Some (mkControllerStatus service version state message).

Definition read_datapath (d : pydict) : option DatapathStatusModel :=
  managed ← field as_bool "managed" d; reachable ← field as_bool "reachable" d;
  socket_path ← field as_str "socket_path" d; pid ← field (as_opt as_int) "pid" d;
  exit_code ← field (as_opt as_int) "exit_code" d;
  last_error ← field (as_opt as_str) "last_error" d;
  service ← field (as_opt as_str) "service" d; version ← field (as_opt as_str) "version" d;
  dpdk_version ← field (as_opt as_str) "dpdk_version" d; state ← field (as_opt as_str) "state" d;
  message ← field (as_opt as_str) "message" d;
  applied_rule_version ← field (as_opt as_int) "applied_rule_version" d;
  ports_ready ← field as_bool "ports_ready" d; paused ← field as_bool "paused" d;
  Some (mkDatapathStatus managed reachable socket_path pid exit_code last_error service version
          dpdk_version state message applied_rule_version ports_ready paused).

Definition read_port (d : pydict) : option DatapathPortModel :=
  name ← field as_str "name" d; port_id ← field as_int "port_id" d;
  role ← field as_str "role" d; state ← field as_str "state" d;
  Some (mkPort name port_id role state).

Definition read_hits (d : pydict) : option (list (string * Z)) :=
  mapM (λ '(rule, v), pair rule <$> as_int v) d.

Definition read_counters (d : pydict) : option CtlClient.DatapathStatsModel :=
  rx ← field as_int "rx_packets" d; tx ← field as_int "tx_packets" d;
  drop ← field as_int "drop_packets" d; parse ← field as_int "drop_parse_errors" d;
  no_match ← field as_int "drop_no_match" d; rxb ← field as_int "rx_bursts" d;
  txb ← field as_int "tx_bursts" d; unsent ← field as_int "unsent_packets" d;
  hits ← field (sub read_hits) "rule_hits" d;
  Some (mkCounters rx tx drop parse no_match rxb txb unsent hits).

(** A reader that refuses an instance whose fields break a constraint. *)
Definition reading {A} (f : pydict → option A) (ok : A → bool) (d : pydict) : A + string :=
  match f d with
  | Some a => if ok a then inl a else inr "constraint violated"
  | None => inr "field missing or of the wrong type"
  end.

#[export] Instance sim_schemas : Schemas := {|
  read_health := reading (λ d,
    c ← field (sub read_controller) "controller" d; p ← field (sub read_datapath) "datapath" d;
    Some (mkHealthAnswer c p)) HealthResponseModel_ok;
  read_status := reading (λ d,
    c ← field (sub read_controller) "controller" d; p ← field (sub read_datapath) "datapath" d;
    ports ← field (λ v, l ← as_list v; mapM (sub read_port) l) "ports" d;
    Some (mkStatusAnswer c p ports)) DatapathStatusResponseModel_ok;
  read_stats := reading (λ d,
    p ← field (sub read_datapath) "datapath" d; s ← field (sub read_counters) "stats" d;
    Some (mkStatsAnswer p s)) DatapathStatsResponseModel_ok;
  read_reset := reading (λ d,
    p ← field (sub read_datapath) "datapath" d; s ← field (sub read_counters) "stats" d;
    m ← field as_str "message" d; Some (mkResetAnswer p s m)) DatapathStatsResetResponseModel_ok;
  read_control := reading (λ d,
    p ← field (sub read_datapath) "datapath" d; m ← field as_str "message" d;
    Some (mkControlAnswer p m)) DatapathControlResponseModel_ok;
  read_operation := reading (λ d,
    o ← field as_str "operation" d; t ← field (as_opt as_str) "topology_name" d;
    p ← field (as_opt as_str) "config_path" d; a ← field as_bool "applied" d;
    n ← field (as_opt as_str) "datapath_namespace" d; r ← field as_bool "datapath_running" d;
    m ← field as_str "message" d; Some (mkOperationAnswer o t p a n r m))
    TopologyOperationResponseModel_ok;
|}.

(** ** Their law *)

Lemma field_here {A} (f : pyval → option A) k v d : field f k ((k, v) :: d) = f v.
Proof. unfold field. cbn. by rewrite decide_True. Qed.
Lemma field_there {A} (f : pyval → option A) k k' v d :
  k' ≠ k → field f k ((k', v) :: d) = field f k d.
Proof. intros Hk. unfold field. cbn. by rewrite decide_False. Qed.

Lemma as_opt_str o : as_opt as_str (opt_val PyStr o) = Some o.
Proof. by destruct o. Qed.
Lemma as_opt_int o : as_opt as_int (opt_val PyInt o) = Some o.
Proof. by destruct o. Qed.

Lemma some_bind {A B} (a : A) (k : A → option B) : Some a ≫= k = k a.
Proof. done. Qed.

Lemma sub_dict {A} (f : pydict → option A) d : sub f (PyDict d) = f d.
Proof. done. Qed.

Create Rewrite HintDb fields.
#[local] Hint Rewrite @field_here as_opt_str as_opt_int @some_bind @sub_dict : fields.
#[local] Hint Rewrite @field_there using discriminate : fields.

(** Look the fields of a dumped model up, one after the other. *)
Ltac fields := repeat (progress (autorewrite with fields; cbn [as_str as_int as_bool as_dict as_list])).

Lemma read_controller_dump m : read_controller (controller_status_dump m) = Some m.
Proof. unfold read_controller, controller_status_dump. fields. by destruct m. Qed.

Lemma read_datapath_dump m : read_datapath (datapath_status_dump m) = Some m.
Proof. unfold read_datapath, datapath_status_dump. fields. by destruct m. Qed.

Lemma read_port_dump m : read_port (CtlClient.port_dump m) = Some m.
Proof. unfold read_port, CtlClient.port_dump. fields. by destruct m. Qed.

Lemma read_ports_dump ports :
  mapM (sub read_port) (PyDict ∘ CtlClient.port_dump <$> ports) = Some ports.
Proof. apply mapM_fmap_Some. intros m. cbn. apply read_port_dump. Qed.

Lemma read_hits_dump hits : read_hits ((λ '(rule, n), (rule, PyInt n)) <$> hits) = Some hits.
Proof. apply mapM_fmap_Some. by intros [rule n]. Qed.

#[local] Hint Rewrite read_hits_dump : fields.

Lemma read_counters_dump m : read_counters (counters_dump m) = Some m.
Proof. unfold read_counters, counters_dump. fields. by destruct m. Qed.

#[local] Hint Rewrite read_controller_dump read_datapath_dump read_ports_dump read_counters_dump
  : fields.

Lemma reading_dump {A} (f : pydict → option A) ok dump :
  (∀ m, f (dump m) = Some m) → reads_dump (reading f ok) dump ok.
Proof. intros Hf m Hm. unfold reading. by rewrite Hf, Hm. Qed.

#[export] Instance sim_schema_laws : SchemaLaws.
Proof.
  constructor; apply reading_dump; intros m;
    unfold health_dump, status_dump, CtlClient.stats_dump, reset_dump, control_dump,
      CtlClient.operation_dump; fields; by destruct m.
Qed.

(** ** The server *)

(** The endpoint of a request. *)
Definition route_request (method path : string) (body : option pydict) : option endpoint :=
  if decide (method = "GET") then
    if decide (path = "/health") then Some EpHealth
    else if decide (path = "/datapath/status") then Some EpStatus
    else if decide (path = "/datapath/stats") then Some EpStats else None
  else if decide (path = "/datapath/stats/reset") then Some EpReset
  else if decide (path = "/datapath/pause") then Some EpPause
  else if decide (path = "/datapath/resume") then Some EpResume
  else if decide (path = "/topology/destroy") then Some EpDestroy
  else if decide (path = "/topology/apply") then
    match body with
    | Some [(k, PyStr p)] =>
        if decide (k = "config_path") then Some (EpApply (mkApplyRequest p)) else None
    | _ => None
    end
  else None.

(** One address; a late answer is a timeout. *)
Definition sim_url : string := "http://127.0.0.1:8080".

#[export] Instance sim_http : Http (option AppliedTopology * (controller * sim)) :=
  λ url timeout method path body x,
    if decide (url = sim_url) then
      match route_request method path body with
      | Some e =>
          let '(answer, x') := endpoint_handler app_config e x in
          if (sim_now (snd (snd x')) - sim_now (snd (snd x)) <? timeout)%Z then (http_answer answer, x')
          else (HttpError "timed out", x')
      | None => (HttpStatusError 404 (BodyJson (PyDict [("detail", PyStr "Not Found")])), x)
      end
    else (HttpError "connection refused", x).

Lemma route_request_ok e body :
  body_accepted e body → route_request (endpoint_method e) (endpoint_path e) body = Some e.
Proof. destruct e as [| | | | | |[p]|]; try done. by intros [-> _]. Qed.

#[export] Instance sim_served : Served app_config (λ url, url = sim_url).
Proof.
  constructor. intros url timeout e body x answer x' -> Hbody Hrun.
  unfold http_request, sim_http. rewrite decide_True by done.
  rewrite (route_request_ok _ _ Hbody), Hrun. cbn [now sim_clock_laws].
  destruct (_ <? timeout)%Z eqn:Ht; [by left|right]. apply Z.ltb_ge in Ht. split; [lia|by eexists _, _].
Qed.
