(* ===== verification/CtlClaims.v ===== *)
(** * Claims about pktlabctl

    The tool in front of the controller's API: it reads what the API sends,
    and what it prints and returns is what the runtime did. *)

From S2P Require Import Prelude PyStr Errors PyJson Types State Issues TopologyValidation Clock.
From S2P Require Import DpdkModels Supervisor SupervisorProps SupervisorPayloads Netns SimWorld.
From S2P Require Import Topology Manager App AppProps SimController AppInvariant AppClaims.
From S2P Require Import ApiModels Api ApiProps ApiClaims CtlClient CtlOutput CtlCommands CtlProps.
From S2P Require Import CtlServed CtlSpec SimHttp.
#[local] Open Scope string_scope.
#[local] Open Scope list_scope.

(** C20 The two sides agree on every document: whatever value the runtime returned,
    the client's model reads the document that shows it, and what it reads is
    the API's model field by field, with enumerations as their text. *)
Theorem schemas_agree `{Schemas} `{!SchemaLaws} v doc :
  document v = Ok doc → client_reads v doc.
Proof. apply documents_read. Qed.

Lemma schemas_agree_witness :
  client_reads (VOperation (mkOperationResult op_apply (Some "linear-basic") (Some "lab.yaml")
      true (Some "dp") true "topology applied" None None))
    [("operation", PyStr "apply"); ("topology_name", PyStr "linear-basic");
     ("config_path", PyStr "lab.yaml"); ("applied", PyBool true);
     ("datapath_namespace", PyStr "dp"); ("datapath_running", PyBool true);
     ("message", PyStr "topology applied")].
Proof. apply schemas_agree. vm_compute. reflexivity. Defined.

(** C9 A command whose URL is served, with neither URL nor path blank, leaves
    the state its operation of the runtime left and tells what came of it, in
    the text of [CtlSpec], which is written from the runtime's value and the
    table of statuses: a returned value is printed on the output, as lines or
    as JSON, with exit code 0; an exception becomes one line on the error
    stream, the HTTP status of its error code with its fields, with exit code
    1. Two things can come between. Without [--json], a rule identifier that
    is no number makes [int] raise [ValueError], and nothing is printed. And
    when the answer does not come within the client's two seconds the command
    may give up: it then prints that the request failed and exits with 1,
    whatever the operation did. *)
Theorem cli_reports_runtime {W} `{ClockLaws W} `{Processes W} `{Ipc W} `{Host W} `{Loader W} `{ExnText}
    `{!IpcLaws W} `{!IpcPayloads W} `{!PidLaws W} `{Schemas} `{!SchemaLaws} config
    `{Http (option AppliedTopology * (controller * W))} at_url `{!Served config at_url}
    args e con x outcome x' r con' x2 :
  datapath_socket_path config ≠ "" → runtime_reachable config x →
  cli_endpoint args = Some e → blank (controller_url args) = false →
  (∀ payload, e = EpApply payload → blank (ar_config_path payload) = false) →
  at_url (rstrip_slash (controller_url args)) →
  endpoint_value config e x = (outcome, x') → cli_main args (con, x) = (r, (con', x2)) →
  (x2 = x' ∧ told e (json_output args) outcome con r con') ∨
  (¬ (now (snd (snd x')) - now (snd (snd x)) < DEFAULT_CTL_TIMEOUT)%Z ∧
   r = Ok 1%Z ∧ stdout con' = stdout con ∧ ∃ text, stderr con' = stderr con +:+
     ("pktlabctl: " +:+ ("controller request failed for " +:+ endpoint_path e +:+ ": " +:+ text) +:+ newline)).
Proof.
  intros Hp Hx He Hb Hpay Hurl Hval Hrun. pose proof (reachable_ok config Hp x Hx) as Hok.
  destruct (cli_served config Hp at_url args e con x outcome x' He Hb Hpay Hurl Hok Hval)
    as [Hrep|[Hlate (text & x3 & Hup)]].
  - left. rewrite Hrep in Hrun. apply (reported_told config Hp e _ _ x _ _ _ _ _); try done.
    intros ->. by apply cli_no_health in He.
  - right. rewrite Hup in Hrun. injection Hrun as <- <- <-. split_and!; [done..|]. by exists text.
Qed.

Definition apply_args : Namespace :=
  mkNamespace "http://127.0.0.1:8080/" false "topology" None None (Some "apply") "lab.yaml".

Definition told_operation : TopologyOperationResult :=
  match fst (endpoint_value app_config (EpApply (mkApplyRequest "lab.yaml")) app_state) with
  | Ok (VOperation t) => t
  | _ => mkOperationResult op_destroy None None false None false "" None None
  end.

Lemma cli_reports_runtime_witness :
  (∀ r con' x2, cli_main apply_args (mkConsole "" "", app_state) = (r, (con', x2)) →
    r = Ok 0%Z ∧ stdout con' = joined (operation_lines told_operation) +:+ newline) ∧
  joined (operation_lines told_operation) =
    joined ["topology apply: topology applied"; "  applied: yes"; "  datapath_running: yes";
            "  topology: linear-basic"; "  config_path: lab.yaml"; "  datapath_namespace: dpdk-host"].
Proof.
  split; [|vm_compute; reflexivity]. intros r con' x2 Hrun.
  destruct (endpoint_value app_config (EpApply (mkApplyRequest "lab.yaml")) app_state) as [outcome x'] eqn:Hv.
  assert (outcome = Ok (VOperation told_operation)) as ->.
  { apply (f_equal fst) in Hv. cbn [fst] in Hv. rewrite <- Hv. vm_compute. reflexivity. }
  assert (now (snd (snd x')) - now (snd (snd app_state)) < DEFAULT_CTL_TIMEOUT)%Z as Htime.
  { apply (f_equal snd) in Hv. cbn [snd] in Hv. rewrite <- Hv. vm_compute. reflexivity. }
  destruct (cli_reports_runtime app_config (λ url, url = sim_url) apply_args
    (EpApply (mkApplyRequest "lab.yaml")) (mkConsole "" "") app_state (Ok (VOperation told_operation)) x' r con' x2)
    as [[_ [(text & Htext & -> & Hout & _)|[_ [Hnone _]]]]|[Hlate _]];
    [discriminate|apply app_state_reachable|reflexivity|reflexivity|by intros ? [= <-]|reflexivity
     |exact Hv|exact Hrun|..].
  - split; [reflexivity|]. cbn in Htext. subst text. exact Hout.
  - destruct Hnone. constructor.
  - by destruct (Hlate Htime).
Defined.

(** ** An apply that outlasts the client *)

(** The started controller on a host whose daemon needs three seconds to come
    up, within the controller's own limit of five. *)
Definition slow_state : option AppliedTopology * (controller * sim) :=
  let '(cur, (c, w)) := app_state in
  (cur, (c, mkSim (sim_now w) (sim_running w) 3000 (sim_spawnable w) (sim_net w) (sim_taps w))).

Lemma slow_state_reachable : runtime_reachable app_config slow_state.
Proof.
  pose proof app_state_reachable as Hr. unfold slow_state.
  destruct app_state as [cur [c w]]. by apply (run_world app_config cur c w).
Qed.

(** The apply succeeds, but the command has given up on it: it exits with 1
    and says that the request failed. *)
Lemma slow_apply_reported_failed :
  (∃ t, fst (apply_topology app_config "lab.yaml" slow_state) = Ok t) ∧
  fst (cli_main apply_args (mkConsole "" "", slow_state)) = Ok 1%Z ∧
  stderr (fst (snd (cli_main apply_args (mkConsole "" "", slow_state)))) =
    "pktlabctl: controller request failed for /topology/apply: timed out" +:+ newline.
Proof.
  split; [|by split; vm_compute].
  assert (is_Some (match fst (apply_topology app_config "lab.yaml" slow_state) with
                   | Ok t => Some t | Err _ => None end)) as [t Ht] by (vm_compute; by eexists).
  exists t. by destruct (fst (apply_topology app_config "lab.yaml" slow_state)); simplify_eq/=.
Qed.
