(* ===== verification/CtlMain.v ===== *)
(** * The entry point of pktlabctl

    [cli.py] and [main.py] of [pktlabctl] from the command line on: the parser
    is built from the environment and reads the arguments, whose attributes
    choose the command.  A rejected command line is reported and ends the
    process before anything is requested. *)

From stdpp Require Import gmap.
From S2P Require Import Prelude PyStr Errors PyJson State Manager ArgParse ArgProps.
From S2P Require Import Types Issues TopologyValidation Clock DpdkModels Supervisor Netns Topology App.
From S2P Require Import ApiModels Api CtlClient CtlOutput CtlCommands CtlServed SimHttp.
#[local] Open Scope string_scope.
#[local] Open Scope list_scope.

(** [os.environ] *)
Class Environ := getenv : string → option string.

Definition DEFAULT_CONTROLLER_URL : string := "http://127.0.0.1:8080".

(** A parser without options or subparsers of its own. *)
Definition plain_parser (prog : string) : parser := Parser prog [help_action] "" [].

Definition controller_url_action (default : string) : action :=
  mkAction ["--controller-url"] "controller_url" (Store TypeStr None) false (VStr default).
Definition json_action : action := mkAction ["--json"] "json_output" StoreTrue false (VBool false).
Definition file_action : action := mkAction ["-f"; "--file"] "config_path" (Store TypeStr None) true VNone.

Definition top_actions `{Environ} : list action :=
  [help_action; controller_url_action (default DEFAULT_CONTROLLER_URL (getenv "PKTLAB_CTRLD_URL")); json_action].

Definition top_subparsers : list (string * parser) :=
  [("status", plain_parser "pktlabctl status");
   ("stats", Parser "pktlabctl stats" [help_action] "stats_command"
      [("show", plain_parser "pktlabctl stats show"); ("reset", plain_parser "pktlabctl stats reset")]);
   ("datapath", Parser "pktlabctl datapath" [help_action] "datapath_command"
      [("pause", plain_parser "pktlabctl datapath pause");
       ("resume", plain_parser "pktlabctl datapath resume")]);
   ("topology", Parser "pktlabctl topology" [help_action] "topology_command"
      [("apply", Parser "pktlabctl topology apply" [help_action; file_action] "" []);
       ("destroy", plain_parser "pktlabctl topology destroy")])].

(** [build_parser] *)
Definition build_parser `{Environ} : parser := Parser "pktlabctl" top_actions "command" top_subparsers.

(** The texts [argparse] formats: the usage of a parser and its help. *)
Class ParserTexts := {
  usage_text : string → string;
  help_text : string → string;
}.

(** ** The attributes as the program reads them *)

Definition text_attr (m : attributes) (k : string) : option string :=
  match m !! k with Some (VStr s) => Some s | _ => None end.
Definition flag_attr (m : attributes) (k : string) : bool := bool_decide (m !! k = Some (VBool true)).

(** An attribute that is a list has no [strip]. *)
Definition list_attr (m : attributes) (k : string) : bool := bool_decide (m !! k = Some VEmptyList).

Definition namespace_of (m : attributes) : Namespace :=
  mkNamespace (default "" (text_attr m "controller_url")) (flag_attr m "json_output")
    (default "" (text_attr m "command")) (text_attr m "stats_command") (text_attr m "datapath_command")
    (text_attr m "topology_command") (default "" (text_attr m "config_path")).

Section main.
Context {W : Type} `{Http W} `{Schemas} `{ExnText} `{Environ} `{FloatLiteral} `{ParserTexts}.

Abbreviation K := (pym ctl_exn (console * W)).

(** [parser.print_help(); parser.exit()] and [parser.error(message)]. *)
Definition exit_parser {A} (e : parse_exit) : K A :=
  match e with
  | ExitHelp prog => write_stdout (help_text prog)
  | ExitError prog err =>
      write_stderr (usage_text prog +:+ prog +:+ ": error: " +:+ arg_error_text err +:+ newline)
  end;;
  raise (SystemExitStatus (exit_status e)).

(** [main] of [cli.py].  A URL or a path that is a list raises where the client
    strips it. *)
Definition main (argv : list string) : K Z :=
  match parse_args build_parser argv with
  | Err e => exit_parser e
  | Ok m =>
      let args := namespace_of m in
      if list_attr m "controller_url" then raise (CtlExn AttributeError)
      else if list_attr m "config_path" && negb (blank (controller_url args)) then
        raise (CtlExn AttributeError)
      else cli_main args
  end.

(** [main] of [main.py] *)
Definition entry (argv : list string) : K Z := main argv.
End main.

(** [raise SystemExit(main())], to the status of the process: a message and a
    traceback go with 1. *)
Definition process_status (r : res ctl_exn Z) : Z :=
  match r with Ok status | Err (SystemExitStatus status) => status | Err _ => 1 end.

(** ** Every accepted command line is dispatched *)

Section accepted.
Context `{Environ} `{FloatLiteral}.

Lemma plain_attrs prog args m unknown k :
  parse_known_args (plain_parser prog) args = Ok (m, unknown) → k ≠ "help" → m !! k = None.
Proof. intros Hr Hk. eapply parse_known_none; [exact Hr|]. by intros [->|[]%elem_of_nil]%elem_of_cons. Qed.

(** A parser whose only option is [-h], in front of parsers without
    subparsers, whose options set the attributes [keys]. *)
Lemma group_attrs (keys : list string) prog d subparsers args m unknown :
  subparsers ≠ [] →
  Forall (λ '(_, q), ∃ prog' actions, q = Parser prog' actions "" [] ∧ dest <$> actions ⊆ "help" :: keys)
    subparsers →
  parse_known_args (Parser prog [help_action] d subparsers) args = Ok (m, unknown) →
  ∃ word, word ∈ fst <$> subparsers ∧
    ∀ k, k ∉ "help" :: keys → m !! k = ({[d := VStr word]} : attributes) !! k.
Proof.
  intros Hne Hsub Hr.
  apply parse_known_sub in Hr as (word & q & rest & v & u & Hin & Hq & Hm); [|done].
  exists word. split; [by apply (list_elem_of_fmap_2 fst _ (word, q))|]. intros k Hk.
  apply (proj1 (Forall_forall _ _) Hsub) in Hin as (prog' & actions & -> & Hacts).
  rewrite Hm, lookup_union.
  - assert (v !! k = None) as -> by (eapply parse_known_none; [exact Hq|]; intros Ha; by apply Hk, Hacts).
    by rewrite (left_id None _).
  - intros [->|[]%elem_of_nil]%elem_of_cons. apply Hk. by left.
Qed.

(** The attributes of the commands, from a list of those that are not. *)
Definition command_keys : list string := ["command"; "stats_command"; "datapath_command"; "topology_command"].

Lemma keys_apart k : k ∈ command_keys → k ∉ ["help"; "controller_url"; "json_output"].
Proof.
  assert (Forall (.∉ ["help"; "controller_url"; "json_output"]) command_keys) as Hk
    by (by apply (bool_decide_unpack _)).
  by apply (proj1 (Forall_forall _ _) Hk).
Qed.

Lemma accepts_eq m m' :
  (∀ k, k ∈ command_keys → m !! k = m' !! k) →
  parser_accepts (namespace_of m) = parser_accepts (namespace_of m').
Proof.
  intros Hm. unfold parser_accepts, namespace_of, subcommand_of, text_attr. cbn.
  assert (∀ k, k ∈ command_keys → m !! k = m' !! k) as Hk by done.
  rewrite !(Hk "command"), !(Hk "stats_command"), !(Hk "datapath_command"), !(Hk "topology_command")
    by (by apply (bool_decide_unpack _)).
  done.
Qed.

Lemma parsed_accepted argv m :
  parse_args build_parser argv = Ok m → parser_accepts (namespace_of m) = true.
Proof.
  intros (word & q & rest & v & u & Hin & Hq & Hm)%parse_args_ok%parse_known_sub; [|done].
  assert (∀ m', (∀ k, k ∈ command_keys → v !! k = m' !! k) →
    parser_accepts (namespace_of (m' ∪ {["command" := VStr word]})) = true →
    parser_accepts (namespace_of m) = true) as Hgo.
  { intros m' Hv <-. apply accepts_eq. intros k Hk. rewrite Hm, !lookup_union, (Hv k Hk); [done|].
    by apply keys_apart. }
  assert (∀ keys prog d subparsers, q = Parser prog [help_action] d subparsers → subparsers ≠ [] →
    Forall (λ '(_, q), ∃ prog' actions, q = Parser prog' actions "" [] ∧ dest <$> actions ⊆ "help" :: keys)
      subparsers → Forall (.∉ "help" :: keys) command_keys →
    Forall (λ w, parser_accepts (namespace_of ({[d := VStr w]} ∪ {["command" := VStr word]})) = true)
      (fst <$> subparsers) → parser_accepts (namespace_of m) = true) as Hgroup.
  { intros keys prog d subparsers -> Hne Hsub Hkeys Hacc.
    apply (group_attrs keys) in Hq as (w & Hw & Hk); [|done..].
    apply (Hgo {[d := VStr w]}); [|by apply (proj1 (Forall_forall _ _) Hacc)].
    intros k Hkin. apply Hk. by apply (proj1 (Forall_forall _ _) Hkeys). }
  assert (∀ prog, ∃ prog' actions, plain_parser prog = Parser prog' actions "" [] ∧
    dest <$> actions ⊆ ["help"]) as Hplain by (intros prog; by eexists _, _).
  repeat apply elem_of_cons in Hin as [[= -> ->]|Hin]; [..|by apply elem_of_nil in Hin].
  - apply (Hgo ∅); [|vm_compute; reflexivity]. intros k Hk. eapply plain_attrs; [exact Hq|].
    intros ->. revert Hk. by apply (bool_decide_unpack _).
  - apply (Hgroup [] _ _ _ eq_refl); [done|repeat constructor; apply Hplain|by apply (bool_decide_unpack _)|].
    by apply (bool_decide_unpack _).
  - apply (Hgroup [] _ _ _ eq_refl); [done|repeat constructor; apply Hplain|by apply (bool_decide_unpack _)|].
    by apply (bool_decide_unpack _).
  - apply (Hgroup ["config_path"] _ _ _ eq_refl);
      [done| |by apply (bool_decide_unpack _)|by apply (bool_decide_unpack _)].
    repeat constructor; eexists _, _; (split; [reflexivity|]); [done|].
    intros k [->|[]%elem_of_nil]%elem_of_cons. by left.
Qed.
End accepted.

(** ** The command line of a command *)

(** The words of a command. *)
Definition command_words (args : Namespace) : list string :=
  match subcommand_of args (command args) with
  | Some sub => sub :: (if decide (sub = "apply") then ["--file=" +:+ arg_config_path args] else [])
  | None => []
  end.

Definition command_line (args : Namespace) : list string :=
  ("--controller-url=" +:+ controller_url args) :: (if json_output args then ["--json"] else []) ++
  command args :: command_words args.

(** An apply has a path, no other command has. *)
Definition path_if_apply (args : Namespace) : Prop :=
  topology_command args = Some "apply" ∨ arg_config_path args = "".

(** What the parser accepts, one by one. *)
Definition command_shapes : list (string * option string * option string * option string) :=
  [("status", None, None, None); ("stats", Some "show", None, None); ("stats", Some "reset", None, None);
   ("datapath", None, Some "pause", None); ("datapath", None, Some "resume", None);
   ("topology", None, None, Some "apply"); ("topology", None, None, Some "destroy")].

Lemma accepts_shape args :
  parser_accepts args = true →
  (command args, stats_command args, datapath_command args, topology_command args) ∈ command_shapes.
Proof.
  destruct args as [url json c stats dp topo path]. unfold parser_accepts, parser_commands.
  cbn [existsb forallb command stats_command datapath_command topology_command].
  rewrite !andb_true_iff, !orb_true_iff, !andb_true_iff, !orb_true_iff, !bool_decide_eq_true.
  intros [Hc (_ & Hstats & Hdp & Htopo & _)].
  change (subcommand_of _ "stats") with stats in *. change (subcommand_of _ "datapath") with dp in *.
  change (subcommand_of _ "topology") with topo in *.
  destruct Hc as [[-> _]|[[-> Hs]|[[-> Hs]|[[-> Hs]|?]]]]; [..|done];
    destruct Hstats as [?|Hstats]; try done; destruct Hdp as [?|Hdp]; try done;
    destruct Htopo as [?|Htopo]; try done; subst; try by apply (bool_decide_unpack _).
  all: destruct Hs as [Hs|[Hs|?]]; try done; rewrite Hs; by apply (bool_decide_unpack _).
Qed.

Section lines.
Context `{Environ} `{FloatLiteral}.

Lemma top_line url json word q rest values items :
  url ≠ "--" → find_parser top_subparsers word = Some q →
  word ≠ "--" → parse_optional top_actions word = Ok None → classify top_actions rest = Ok items →
  parse_known_args q rest = Ok (values, []) →
  parse_args build_parser
      (("--controller-url=" +:+ url) :: (if json : bool then ["--json"] else []) ++ word :: rest) =
    Ok (values ∪ <["command" := VStr word]> (<["json_output" := VBool json]> {["controller_url" := VStr url]})).
Proof.
  intros Hurl Hq Hw Hn Hc Hr.
  set (url_action := controller_url_action (default DEFAULT_CONTROLLER_URL (getenv "PKTLAB_CTRLD_URL"))).
  unfold parse_args, build_parser.
  destruct (parse_known_unfold "pktlabctl" top_actions "command" top_subparsers
    (("--controller-url=" +:+ url) :: (if json : bool then ["--json"] else []) ++ word :: rest))
    as (sub & -> & Hsub).
  unfold parse_with at 1. rewrite (reading_explicit _ _ _ _ _ "--controller-url" url_action TypeStr None url (VStr url));
    [|reflexivity..|unfold get_values; by rewrite decide_False].
  destruct json; cbn [app]; [rewrite (reading_flag _ _ _ _ _ "--json" json_action) by done|];
    rewrite (reading_sub _ _ _ _ _ _ _ _ _ Hw Hn Hc) by done; unfold take_subparser, mbind, res_mbind;
    rewrite Hsub, Hq; cbn [fmap option_fmap option_map]; rewrite Hr; (etransitivity; [reflexivity|]);
    do 2 f_equal; apply map_eq; intros k; rewrite <- insert_empty; cbn [attrs set_attr see]; unfold defaults;
    cbn -[lookup insert empty]; rewrite !lookup_insert, ?lookup_empty; repeat case_decide; simplify_eq;
    by rewrite ?lookup_insert_ne.
Qed.

Lemma plain_line prog : parse_known_args (plain_parser prog) [] = Ok (∅, []).
Proof. reflexivity. Qed.

Lemma file_line path :
  path ≠ "--" →
  parse_known_args (Parser "pktlabctl topology apply" [help_action; file_action] "" []) ["--file=" +:+ path] =
    Ok ({["config_path" := VStr path]}, []).
Proof.
  intros Hp. destruct (parse_known_unfold "pktlabctl topology apply" [help_action; file_action] "" []
    ["--file=" +:+ path]) as (sub & -> & _).
  unfold parse_with. rewrite (reading_explicit _ _ _ _ _ "--file" file_action TypeStr None path (VStr path));
    [|reflexivity..|unfold get_values; by rewrite decide_False].
  etransitivity; [reflexivity|]. by do 2 f_equal.
Qed.

(** A line of one more word, or with the file. *)
Lemma group_line prog d subparsers word q rest values items :
  find_parser subparsers word = Some q → word ≠ "--" → parse_optional [help_action] word = Ok None →
  classify [help_action] rest = Ok items → parse_known_args q rest = Ok (values, []) →
  parse_known_args (Parser prog [help_action] d subparsers) (word :: rest) =
    Ok (values ∪ {[d := VStr word]}, []).
Proof.
  intros Hq Hw Hn Hc Hr.
  destruct (parse_known_unfold prog [help_action] d subparsers (word :: rest)) as (sub & -> & Hsub).
  assert (subparsers ≠ []) as Hne by (intros ->; discriminate Hq).
  unfold parse_with. rewrite (reading_sub _ _ _ _ _ _ _ _ _ Hw Hn Hc).
  - unfold take_subparser, mbind, res_mbind. rewrite Hsub, Hq. cbn [fmap option_fmap option_map].
    rewrite Hr. cbn. do 3 f_equal. unfold defaults. cbn. rewrite decide_False by (by destruct subparsers).
    by rewrite insert_insert_eq.
  - cbn. rewrite bool_decide_false by (by destruct subparsers). done.
Qed.

Lemma command_line_parsed args :
  parser_accepts args = true → path_if_apply args → controller_url args ≠ "--" → arg_config_path args ≠ "--" →
  ∃ m, parse_args build_parser (command_line args) = Ok m ∧ namespace_of m = args ∧
    list_attr m "controller_url" = false ∧ list_attr m "config_path" = false.
Proof.
  intros Hacc%accepts_shape Hpath Hurl Hp.
  destruct args as [url json c stats dp topo path]. unfold path_if_apply in Hpath. cbn in *.
  assert (∀ word q rest values items, find_parser top_subparsers word = Some q →
    word ≠ "--" → parse_optional top_actions word = Ok None → classify top_actions rest = Ok items →
    parse_known_args q rest = Ok (values, []) →
    (∀ m, m = values ∪ <["command" := VStr word]> (<["json_output" := VBool json]> {["controller_url" := VStr url]}) →
      namespace_of m = mkNamespace url json c stats dp topo path ∧
      list_attr m "controller_url" = false ∧ list_attr m "config_path" = false) →
    ∃ m, parse_args build_parser
        (("--controller-url=" +:+ url) :: (if json then ["--json"] else []) ++ word :: rest) = Ok m ∧
      namespace_of m = mkNamespace url json c stats dp topo path ∧
      list_attr m "controller_url" = false ∧ list_attr m "config_path" = false) as Hgo.
  { intros word q rest values items Hq Hw Hn Hc Hr Hm. eexists.
    split; [by apply (top_line url json word q rest values items)|]. by apply Hm. }
  unfold command_line, command_words. cbn [subcommand_of controller_url json_output command].
  repeat apply (proj1 (elem_of_cons _ _ _)) in Hacc as [[= -> -> -> ->]|Hacc]; [..|by apply elem_of_nil in Hacc].
  1: { destruct Hpath as [?| ->]; [done|].
       apply (Hgo _ (plain_parser "pktlabctl status") [] ∅ []); try done.
       intros m ->. by destruct json; vm_compute. }
  5: { destruct (classify_other top_actions ("--file=" +:+ path)) as [items1 Hi1]; [reflexivity|].
       destruct (classify_other [help_action] ("--file=" +:+ path)) as [items2 Hi2]; [reflexivity|].
       assert (∀ l items, classify top_actions l = Ok items →
         classify top_actions ("apply" :: l) = Ok (("apply", ClassArgument) :: items)) as Happly
         by (intros l items Hl; cbn [classify]; by rewrite Hl).
       apply (Hgo "topology" _ ["apply"; "--file=" +:+ path]
         ({["config_path" := VStr path]} ∪ {["topology_command" := VStr "apply"]})
         (("apply", ClassArgument) :: items1) eq_refl); [done|reflexivity| | |].
       - by apply Happly.
       - eapply group_line; [reflexivity|done|reflexivity|exact Hi2|by apply file_line].
       - intros m ->. by destruct json; vm_compute. }
  all: destruct Hpath as [?| ->]; [done|].
  all: let one word := (eapply (Hgo _ _ [word] (∅ ∪ {[_ := VStr word]}) [(word, ClassArgument)]);
    [reflexivity|done|reflexivity|reflexivity|
     eapply group_line; [reflexivity|done|reflexivity|reflexivity|apply plain_line]|
     intros m ->; by destruct json; vm_compute]) in
    first [one "show"|one "reset"|one "pause"|one "resume"|one "destroy"].
Qed.
End lines.

(** ** What a command can end with *)

Section outcomes.
Context {W : Type} `{Http W} `{Schemas} `{ExnText}.

Definition no_exit (e : ctl_exn) : Prop :=
  match e with SystemExit _ | SystemExitStatus _ => False | _ => True end.

Lemma fetch_raises {A} c method path body (read : pydict → A + string) name :
  raises_only no_exit (fetch (W:=W) c method path body read name).
Proof.
  intros w _. unfold fetch, _request_json, client_error, mbind, pym_mbind, mret, pym_mret.
  destruct (http_request _ _ _ _ _ _) as [o w']. destruct o as [b|? ?|?|?]; cbn; try done.
  destruct b as [[| | | | | |d]| |]; cbn; try done. by destruct (read d).
Qed.

Lemma run_command_ends {A} caught url (call : ControllerClient → pym ctl_exn W A) render :
  (∀ c, raises_only no_exit (call c)) →
  hoare (λ _, True) (run_command caught url call render) (λ r _, r = 0%Z ∨ r = 1%Z) (λ e _, no_exit e).
Proof.
  intros Hcall [con w] _. unfold run_command, try_except, mbind, pym_mbind, mret, pym_mret, pym_lift, on_snd.
  destruct (new_ControllerClient url DEFAULT_CTL_TIMEOUT) as [c|e]; cbn.
  - specialize (Hcall c w I). destruct (call c w) as [[a|e] w']; cbn.
    + destruct (render a); cbn; auto.
    + destruct (caught e); cbn; auto.
  - destruct (caught (CtlExn e)); cbn; auto.
Qed.

Lemma cli_main_ends args :
  is_Some (cli_endpoint args) →
  hoare (λ _, True) (cli_main (W:=W) args) (λ r _, r = 0%Z ∨ r = 1%Z) (λ e _, no_exit e).
Proof.
  unfold cli_endpoint, cli_main. intros He.
  repeat case_decide; try (by destruct He); apply run_command_ends; intros c; try apply fetch_raises.
  unfold client_apply_topology. destruct (blank _); [by intros w _|]. apply fetch_raises.
Qed.
End outcomes.

(** ** Claims *)

(** C14 The words of a command are read back as its arguments: the URL and the
    path, whatever characters they have, arrive in the command as they were
    given, and the command runs on them.  The one text that does not is [--]. *)
Theorem main_reads_command_line {W} `{Http W} `{Schemas} `{ExnText} `{Environ} `{FloatLiteral} `{ParserTexts}
    args x :
  parser_accepts args = true → path_if_apply args → controller_url args ≠ "--" → arg_config_path args ≠ "--" →
  (∃ m, parse_args build_parser (command_line args) = Ok m ∧ namespace_of m = args) ∧
  main (W:=W) (command_line args) x = cli_main args x.
Proof.
  intros Hacc Hpath Hurl Hp.
  destruct (command_line_parsed args Hacc Hpath Hurl Hp) as (m & Hm & Hns & Hl1 & Hl2).
  split; [by exists m|]. unfold main. by rewrite Hm, Hl1, Hl2, Hns.
Qed.

(** C12 Every command line is refused or dispatched.  A refused one ends the
    process with 2, a request for help with 0, each with its text on its own
    stream and before anything is requested; any other names an endpoint of
    the API, whose command ends with 0 or 1 or an exception that is no exit:
    the last line of the dispatch, for an unsupported command, is dead. *)
Theorem main_refuses_or_dispatches {W} `{Http W} `{Schemas} `{ExnText} `{Environ} `{FloatLiteral}
    `{ParserTexts} argv con (w : W) :
  let '(r, (con', w')) := main argv (con, w) in
  match parse_args build_parser argv with
  | Err (ExitHelp prog) =>
      r = Err (SystemExitStatus 0) ∧ w' = w ∧
      con' = mkConsole (stdout con +:+ help_text prog) (stderr con)
  | Err (ExitError prog e) =>
      r = Err (SystemExitStatus 2) ∧ w' = w ∧
      con' = mkConsole (stdout con)
        (stderr con +:+ (usage_text prog +:+ prog +:+ ": error: " +:+ arg_error_text e +:+ newline))
  | Ok m =>
      is_Some (cli_endpoint (namespace_of m)) ∧
      (r = Ok 0%Z ∨ r = Ok 1%Z ∨ ∃ e, r = Err e ∧ no_exit e)
  end.
Proof.
  destruct (main argv (con, w)) as [r [con' w']] eqn:Hr. unfold main in Hr.
  destruct (parse_args build_parser argv) as [m|[prog|prog e]] eqn:Hp; [|by injection Hr as <- <- <-..].
  apply parsed_accepted, accepted_dispatched in Hp. split; [done|].
  assert (hoare (λ _, True) (raise (CtlExn AttributeError) : pym ctl_exn (console * W) Z)
    (λ r _, r = 0%Z ∨ r = 1%Z) (λ e _, no_exit e)) as Hattr by (by intros ? _).
  assert (hoare (λ _, True) (if list_attr m "controller_url" then raise (CtlExn AttributeError)
      else if list_attr m "config_path" && negb (blank (controller_url (namespace_of m))) then
        raise (CtlExn AttributeError) else cli_main (W:=W) (namespace_of m))
    (λ r _, r = 0%Z ∨ r = 1%Z) (λ e _, no_exit e)) as Hends
    by (repeat case_match; [done..|by apply cli_main_ends]).
  specialize (Hends (con, w) I). rewrite Hr in Hends.
  destruct r as [z|e]; [destruct Hends as [-> | ->]; auto|]. right. right. by exists e.
Qed.
