(* ===== verification/CtrldMain.v ===== *)
(** * The entry point of the controller

    [main.py]: the options of [pktlab-ctrld], with defaults from the
    environment, and the configuration they come to. *)

From stdpp Require Import gmap.
From S2P Require Import Prelude PyStr Errors PyJson Types State Supervisor ArgParse ArgProps App CtlMain.
#[local] Open Scope string_scope.
#[local] Open Scope list_scope.

Definition DEFAULT_CONTROLLER_HOST : string := "127.0.0.1".
Definition DEFAULT_CONTROLLER_PORT : Z := 8080.
Definition DEFAULT_DPDKD_BINARY : string := "build/dpdkd/pktlab-dpdkd".
Definition DEFAULT_DPDKD_SOCKET_PATH : string := "/run/pktlab/dpdkd.sock".

Definition LOG_LEVELS : list string := ["critical"; "error"; "warning"; "info"; "debug"; "trace"].

Section main.
Context `{Environ, FloatLiteral}.

(** [int(...)] and [float(...)] of a default from the environment. *)
Definition or_ValueError {A} (o : option A) : res pyexn A :=
  match o with Some a => Ok a | None => Err (ValueError None) end.

Definition text_option (name attr : string) (choices : option (list string)) (value : string) : action :=
  mkAction [name] attr (Store TypeStr choices) false (VStr value).

Definition host_action : action :=
  text_option "--host" "host" None (default DEFAULT_CONTROLLER_HOST (getenv "PKTLAB_CTRLD_HOST")).
Definition port_action (port : Z) : action :=
  mkAction ["--port"] "port" (Store TypeInt None) false (VInt port).
Definition bin_action : action :=
  text_option "--dpdkd-bin" "dpdkd_bin" None (default DEFAULT_DPDKD_BINARY (getenv "PKTLAB_DPDKD_BIN")).
Definition socket_action : action :=
  text_option "--dpdkd-socket-path" "dpdkd_socket_path" None
    (default DEFAULT_DPDKD_SOCKET_PATH (getenv "PKTLAB_DPDKD_SOCKET_PATH")).
Definition timeout_action (timeout : Z) : action :=
  mkAction ["--startup-timeout-seconds"] "startup_timeout_seconds" (Store TypeFloat None) false
    (VSeconds timeout).
Definition supervise_action : action :=
  mkAction ["--no-supervise-datapath"] "no_supervise_datapath" StoreTrue false (VBool false).
Definition level_action : action :=
  text_option "--log-level" "log_level" (Some LOG_LEVELS) (default "warning" (getenv "PKTLAB_CTRLD_LOG_LEVEL")).

Definition port_text : string := default (str_of_Z DEFAULT_CONTROLLER_PORT) (getenv "PKTLAB_CTRLD_PORT").
Definition timeout_text : string := default "5.0" (getenv "PKTLAB_DPDKD_STARTUP_TIMEOUT").

Definition ctrld_actions (port timeout : Z) : list action :=
  [help_action; host_action; port_action port; bin_action; socket_action; timeout_action timeout;
   supervise_action; level_action].

(** [build_parser]: the defaults are computed before any argument is read. *)
Definition build_parser : res pyexn parser :=
  port ← or_ValueError (int_literal port_text);
  timeout ← or_ValueError (float_literal timeout_text);
  Ok (Parser "pktlab-ctrld" (ctrld_actions port timeout) "" []).

(** [ControllerConfig(...)] of the attributes.  The text [--] is read as a
    list, which has no [strip] and does not compare with a number; the checks
    before it come first. *)
Definition config_of (m : attributes) : res pyexn ControllerConfig :=
  let supervise := negb (flag_attr m "no_supervise_datapath") in
  match m !! "dpdkd_bin", m !! "dpdkd_socket_path", m !! "startup_timeout_seconds" with
  | Some (VStr b), Some (VStr s), Some (VSeconds t) => new_ControllerConfig (mkControllerConfig b s t supervise)
  | Some (VStr b), Some (VStr s), _ =>
      new_ControllerConfig (mkControllerConfig b s 1 supervise);; Err (TypeError None)
  | Some (VStr b), _, _ => new_ControllerConfig (mkControllerConfig b "-" 1 supervise);; Err AttributeError
  | _, _, _ => Err AttributeError
  end.

(** The arguments of [uvicorn.run]: the application over a controller, and
    where and how it is served. *)
Record service : Type := mkService {
  svc_config : ControllerConfig;
  svc_controller : controller;
  svc_host : arg_value;
  svc_port : arg_value;
  svc_log_level : arg_value;
}.

(** The parser's exit, or an exception nothing catches. *)
Inductive main_exn : Type :=
| MainExit (e : parse_exit)
| MainRaises (e : pyexn).

Definition raises {A} (r : res pyexn A) : res main_exn A :=
  match r with Ok a => Ok a | Err e => Err (MainRaises e) end.

(** [main], up to the call of [uvicorn.run]. *)
Definition main (argv : list string) : res main_exn service :=
  p ← raises build_parser;
  match parse_args p argv with
  | Err e => Err (MainExit e)
  | Ok m =>
      config ← raises (config_of m);
      c ← raises (new_controller config);
      let get k := default VNone (m !! k) in
      Ok (mkService config c (get "host") (get "port") (get "log_level"))
  end.
End main.

(** ** Options *)

(** What may be given on the command line; a duration with its text. *)
Record options : Type := mkOptions {
  given_host : option string;
  given_port : option Z;
  given_bin : option string;
  given_socket : option string;
  given_timeout : option (string * Z);
  given_no_supervise : bool;
  given_level : option string;
}.

Definition options_words (o : options) : list string :=
  given_words "--host" id (given_host o) ++ given_words "--port" str_of_Z (given_port o) ++
  given_words "--dpdkd-bin" id (given_bin o) ++ given_words "--dpdkd-socket-path" id (given_socket o) ++
  given_words "--startup-timeout-seconds" fst (given_timeout o) ++
  given_words "--log-level" id (given_level o) ++
  (if given_no_supervise o then ["--no-supervise-datapath"] else []).

Section options.
Context `{Environ, FloatLiteral}.

(** The options are texts their types read. *)
Record readable (o : options) : Prop := {
  r_host s : given_host o = Some s → s ≠ "--";
  r_port z : given_port o = Some z → (0 ≤ z)%Z ∧ (String.length (str_of_Z z) ≤ MAX_STR_DIGITS)%nat;
  r_bin s : given_bin o = Some s → s ≠ "--";
  r_socket s : given_socket o = Some s → s ≠ "--";
  r_timeout p : given_timeout o = Some p → fst p ≠ "--" ∧ float_literal (fst p) = Some (snd p);
  r_level s : given_level o = Some s → s ∈ LOG_LEVELS;
}.

Lemma strip_by_id p s : str_all (λ c, negb (p c)) s = true → strip_by p s = s.
Proof.
  unfold strip_by. assert (∀ s, str_all (λ c, negb (p c)) s = true → rstrip_by p s = s) as Hr.
  { intros t. induction t as [|c t IH]; cbn; [done|]. intros [Hc%negb_true_iff Ht]%andb_true_iff.
    by rewrite (IH Ht), Hc. }
  intros Hs. assert (lstrip_by p s = s) as ->; [|by apply Hr].
  destruct s as [|c s]; [done|]. cbn in *. apply andb_true_iff in Hs as [Hc%negb_true_iff _]. by rewrite Hc.
Qed.

Lemma plain_digits_decimal s b :
  str_all is_decimal s = true → (b = true ∨ s ≠ "") → plain_digits b s = Some s.
Proof.
  revert b. induction s as [|c s IH]; intros b; cbn; [by intros _ [->|?]|].
  intros [Hc Hs]%andb_true_iff _. rewrite Hc, IH by auto. done.
Qed.

Lemma int_literal_str_of_Z z :
  (0 ≤ z)%Z → (String.length (str_of_Z z) ≤ MAX_STR_DIGITS)%nat → int_literal (str_of_Z z) = Some z.
Proof.
  intros Hz Hl. pose proof (str_of_Z_decimal z Hz) as Hd. pose proof (str_of_Z_not_empty z Hz) as Hne.
  assert (∀ b c, is_decimal c = true → int_space b c = false) as Hspace.
  { intros b c Hc. pose proof (is_decimal_not_space c Hc) as Hn%negb_true_iff.
    destruct b; [|exact Hn]. unfold int_space, py_isspace in *. apply orb_false_iff.
    destruct (Ascii.eqb_spec c " ") as [->|]; [discriminate Hc|].
    split; [|done]. by repeat apply orb_false_iff in Hn as [Hn _]. }
  unfold int_literal. rewrite strip_by_id by (eapply str_all_mono; [|exact Hd]; intros c Hc; cbn; by rewrite Hspace).
  destruct (str_of_Z z) as [|c s] eqn:Hs; [done|].
  assert (is_decimal c = true) as Hc by (cbn in Hd; by apply andb_true_iff in Hd as [? _]).
  destruct (Ascii.eqb_spec c "-") as [->|]; [discriminate Hc|].
  destruct (Ascii.eqb_spec c "+") as [->|]; [discriminate Hc|].
  rewrite <- Hs in *. rewrite plain_digits_decimal by (auto; right; by rewrite Hs).
  unfold mbind, option_bind. rewrite py_int_str_of_Z by done. f_equal. lia.
Qed.

(** The value of an option: given, from the environment, or built in. *)
Definition host_of (o : options) : string :=
  default (default DEFAULT_CONTROLLER_HOST (getenv "PKTLAB_CTRLD_HOST")) (given_host o).
Definition bin_of (o : options) : string :=
  default (default DEFAULT_DPDKD_BINARY (getenv "PKTLAB_DPDKD_BIN")) (given_bin o).
Definition socket_of (o : options) : string :=
  default (default DEFAULT_DPDKD_SOCKET_PATH (getenv "PKTLAB_DPDKD_SOCKET_PATH")) (given_socket o).
Definition level_of (o : options) : string :=
  default (default "warning" (getenv "PKTLAB_CTRLD_LOG_LEVEL")) (given_level o).

Lemma text_value a choices s :
  s ≠ "--" → (∀ l, choices = Some l → s ∈ l) → get_values a TypeStr choices (id s) = Ok (VStr s).
Proof.
  intros Hne Hl. unfold get_values. rewrite decide_False by done. cbn.
  destruct choices as [l|]; [|done]. cbn. by rewrite decide_True by (by apply Hl).
Qed.

(** What the words do to a run. *)
Definition options_run (o : options) (port timeout : Z) (p : progress) : progress :=
  if_given supervise_action (if given_no_supervise o then Some (VBool true) else None)
    (if_given level_action (VStr <$> given_level o)
      (if_given (timeout_action timeout) (VSeconds ∘ snd <$> given_timeout o)
        (if_given socket_action (VStr <$> given_socket o)
          (if_given bin_action (VStr <$> given_bin o)
            (if_given (port_action port) (VInt <$> given_port o)
              (if_given host_action (VStr <$> given_host o) p)))))).

Lemma options_read o port timeout sub p :
  readable o →
  reading "pktlab-ctrld" (ctrld_actions port timeout) "" [] sub (options_words o) p =
    Ok (options_run o port timeout p).
Proof.
  intros [Hh Hp Hb Hs Ht Hl]. unfold options_words, options_run.
  rewrite (reading_given _ _ _ _ _ "--host" host_action TypeStr None id VStr)
    by (try reflexivity; intros s ?%Hh; by apply text_value).
  rewrite (reading_given _ _ _ _ _ "--port" (port_action port) TypeInt None str_of_Z VInt).
  2-4: reflexivity.
  2: { intros z [Hz Hlen]%Hp. unfold get_values, get_value, convert. rewrite (int_literal_str_of_Z z Hz Hlen).
       rewrite decide_False; [done|]. intros Hd. pose proof (str_of_Z_decimal z Hz) as Hdec. by rewrite Hd in Hdec. }
  rewrite (reading_given _ _ _ _ _ "--dpdkd-bin" bin_action TypeStr None id VStr)
    by (try reflexivity; intros s ?%Hb; by apply text_value).
  rewrite (reading_given _ _ _ _ _ "--dpdkd-socket-path" socket_action TypeStr None id VStr)
    by (try reflexivity; intros s ?%Hs; by apply text_value).
  rewrite (reading_given _ _ _ _ _ "--startup-timeout-seconds" (timeout_action timeout) TypeFloat None fst
    (VSeconds ∘ snd)).
  2-4: reflexivity.
  2: { intros [text ticks] [Hne Hf]%Ht. unfold get_values, get_value, convert. cbn in *.
       rewrite decide_False, Hf by done. done. }
  rewrite (reading_given _ _ _ _ _ "--log-level" level_action TypeStr (Some LOG_LEVELS) id VStr).
  2-4: reflexivity.
  2: { intros s Hin%Hl. apply text_value; [|by intros ? [= <-]]. intros ->. revert Hin.
       by apply (bool_decide_unpack _). }
  destruct (given_no_supervise o); [|by rewrite reading_nil].
  rewrite (reading_flag _ _ _ _ _ "--no-supervise-datapath" supervise_action) by done. by rewrite reading_nil.
Qed.

Lemma options_run_rest o port timeout p :
  pending p = false → extras p ++ sub_extras p = [] →
  pending (options_run o port timeout p) = false ∧
  extras (options_run o port timeout p) ++ sub_extras (options_run o port timeout p) = [].
Proof.
  intros Hp Hx. unfold options_run. rewrite !pending_if_given. split; [done|].
  assert (∀ a v q, extras q ++ sub_extras q = [] →
    extras (if_given a v q) ++ sub_extras (if_given a v q) = []) as Hgo by (by intros a [v|] q).
  by do 7 apply Hgo.
Qed.

Lemma options_parsed o p port timeout :
  readable o → int_literal port_text = Some port → float_literal timeout_text = Some timeout →
  build_parser = Ok p →
  ∃ m, parse_args p (options_words o) = Ok m ∧
    m !! "host" = Some (VStr (host_of o)) ∧ m !! "port" = Some (VInt (default port (given_port o))) ∧
    m !! "dpdkd_bin" = Some (VStr (bin_of o)) ∧ m !! "dpdkd_socket_path" = Some (VStr (socket_of o)) ∧
    m !! "startup_timeout_seconds" = Some (VSeconds (default timeout (snd <$> given_timeout o))) ∧
    m !! "no_supervise_datapath" = Some (VBool (given_no_supervise o)) ∧
    m !! "log_level" = Some (VStr (level_of o)).
Proof.
  intros Ho Hport Htime. unfold build_parser. rewrite Hport, Htime. cbn. intros [= <-].
  set (actions := ctrld_actions port timeout).
  destruct (parse_known_unfold "pktlab-ctrld" actions "" [] (options_words o)) as (sub & Hparse & _).
  unfold parse_args. rewrite Hparse. unfold parse_with, mbind, res_mbind. cbn [fmap list_fmap].
  unfold actions. rewrite options_read by done. set (p0 := mkProgress _ _ _ _ _).
  destruct (options_run_rest o port timeout p0) as [Hpend Hextras]; [done..|].
  destruct (finish_keeps "pktlab-ctrld" "" (ctrld_actions port timeout) (options_run o port timeout p0))
    as (m & Hm & Hk).
  { repeat constructor; cbn; try done; by intros t choices text [= <- _]. }
  { done. }
  rewrite Hm, Hextras. exists m. split; [done|]. rewrite !Hk. unfold options_run, p0.
  unfold host_of, bin_of, socket_of, level_of.
  split_and!; rewrite ?attrs_given_other by done; rewrite attrs_given_same by done;
    rewrite ?attrs_given_other by done.
  - by destruct (given_host o).
  - by destruct (given_port o).
  - by destruct (given_bin o).
  - by destruct (given_socket o).
  - by destruct (given_timeout o).
  - by destruct (given_no_supervise o).
  - by destruct (given_level o).
Qed.
End options.

(** ** What is served *)

Section service.
Context `{Environ, FloatLiteral}.

Lemma new_config_ok config config' :
  new_ControllerConfig config = Ok config' →
  config' = config ∧ blank (datapath_binary config) = false ∧ blank (datapath_socket_path config) = false ∧
  (0 < datapath_startup_timeout_seconds config)%Z.
Proof.
  unfold new_ControllerConfig, refuse_if, mbind, res_mbind, mret, res_mret.
  destruct (blank (datapath_binary config)); [done|]. destruct (blank (datapath_socket_path config)); [done|].
  destruct (Z.leb_spec (datapath_startup_timeout_seconds config) 0); [done|]. by intros [= <-].
Qed.

(** A controller can be built on every configuration. *)
Lemma new_controller_total config config' :
  new_ControllerConfig config = Ok config' → ∃ c, new_controller config' = Ok c.
Proof.
  intros (-> & Hb & Hs & Ht)%new_config_ok. unfold new_controller.
  assert (∃ d, new_DesiredState (mkDesired None None None None CS_stopped (supervise_datapath config)) = Ok d)
    as [d ->] by (destruct (supervise_datapath config); by eexists).
  assert (∃ o, new_ObservedState empty_observed = Ok o) as [o ->] by by eexists.
  unfold mbind, res_mbind. destruct (supervise_datapath config); [|by eexists].
  unfold _build_supervisor_config, new_SupervisorConfig. cbn. rewrite Hb, Hs. cbn.
  rewrite (proj2 (Z.leb_gt _ _) Ht). cbn. by eexists.
Qed.

Lemma ctrld_distinct port timeout : NoDup (dest <$> ctrld_actions port timeout).
Proof.
  change (NoDup ["help"; "host"; "port"; "dpdkd_bin"; "dpdkd_socket_path"; "startup_timeout_seconds";
                 "no_supervise_datapath"; "log_level"]).
  by apply (bool_decide_unpack _).
Qed.

Lemma not_blank_not_empty s : blank s = false → s ≠ "".
Proof. by intros Hs ->. Qed.

Lemma config_of_ok m config :
  config_of m = Ok config → blank (datapath_binary config) = false ∧
  blank (datapath_socket_path config) = false ∧ (0 < datapath_startup_timeout_seconds config)%Z ∧
  new_ControllerConfig config = Ok config.
Proof.
  unfold config_of.
  assert (∀ c e, (new_ControllerConfig c;; Err e : res pyexn ControllerConfig) ≠ Ok config) as Hne
    by (intros c e; unfold mbind, res_mbind; by destruct (new_ControllerConfig c)).
  repeat case_match; try done; try (by intros ?%Hne); intros Hc;
    destruct (new_config_ok _ _ Hc) as (-> & ? & ? & ?); auto.
Qed.
End service.

(** ** Claims *)

(** C37 The options of the controller: each value is the one given on the command
    line, or else the environment's, or else the built-in one; they make the
    configuration and the arguments of the server, and the configuration is
    checked before anything runs.  A level from the environment is not
    checked against the choices. *)
Theorem options_over_environment `{Environ, FloatLiteral} o port timeout :
  readable o → int_literal port_text = Some port → float_literal timeout_text = Some timeout →
  match new_ControllerConfig (mkControllerConfig (bin_of o) (socket_of o)
          (default timeout (snd <$> given_timeout o)) (negb (given_no_supervise o))) with
  | Err e => main (options_words o) = Err (MainRaises e)
  | Ok config =>
      ∃ c, new_controller config = Ok c ∧
        main (options_words o) =
          Ok (mkService config c (VStr (host_of o)) (VInt (default port (given_port o))) (VStr (level_of o)))
  end.
Proof.
  intros Ho Hport Htime. destruct build_parser as [p|e] eqn:Hp.
  2:{ unfold build_parser in Hp. by rewrite Hport, Htime in Hp. }
  destruct (options_parsed o p port timeout Ho Hport Htime Hp)
    as (m & Hm & Hhost & Hpt & Hbin & Hsock & Htm & Hsup & Hlev).
  assert (config_of m = new_ControllerConfig (mkControllerConfig (bin_of o) (socket_of o)
    (default timeout (snd <$> given_timeout o)) (negb (given_no_supervise o)))) as Hc.
  { unfold config_of, flag_attr. rewrite Hbin, Hsock, Htm, Hsup. by destruct (given_no_supervise o). }
  unfold main, raises, mbind, res_mbind. rewrite Hp, Hm, Hc.
  destruct (new_ControllerConfig _) as [config|e] eqn:Hconfig; [|done].
  destruct (new_controller_total _ _ Hconfig) as [c Hnew]. exists c. split; [done|].
  by rewrite Hnew, Hhost, Hpt, Hlev.
Qed.

(** C24 Whatever the command line and the environment, when the controller gets
    as far as serving: its configuration is one that the controller was built
    on, with a binary, a socket and a positive startup timeout, as the
    theorems about the controller require; the port is a number, the host a
    text, and the level one of the choices or the environment's (or each the
    empty list that [--] is read as). *)
Theorem service_ready `{Environ, FloatLiteral} argv s :
  main argv = Ok s →
  new_controller (svc_config s) = Ok (svc_controller s) ∧
  datapath_binary (svc_config s) ≠ "" ∧ datapath_socket_path (svc_config s) ≠ "" ∧
  (0 < datapath_startup_timeout_seconds (svc_config s))%Z ∧
  (svc_host s = VEmptyList ∨ ∃ h, svc_host s = VStr h) ∧
  (svc_port s = VEmptyList ∨ ∃ z, svc_port s = VInt z) ∧
  (svc_log_level s = VEmptyList ∨ ∃ l, svc_log_level s = VStr l ∧
     (l ∈ LOG_LEVELS ∨ getenv "PKTLAB_CTRLD_LOG_LEVEL" = Some l)).
Proof.
  unfold main, raises, mbind, res_mbind. destruct build_parser as [p|e] eqn:Hp; [|done].
  destruct (parse_args p argv) as [m|e] eqn:Hm; [|done].
  destruct (config_of m) as [config|e] eqn:Hc; [|done].
  destruct (new_controller config) as [c|e] eqn:Hnew; [|done]. intros [= <-].
  destruct (config_of_ok _ _ Hc) as (Hb & Hs & Ht & _). cbn.
  apply parse_args_ok in Hm. unfold build_parser in Hp.
  destruct (int_literal port_text) as [port|]; [|done]. destruct (float_literal timeout_text) as [timeout|]; [|done].
  injection Hp as <-.
  assert (∀ a, a ∈ ctrld_actions port timeout → kind a ≠ Help → ∃ v, m !! dest a = Some v ∧ fits a v) as Hfits
    by (intros a Ha Hk; eapply parse_known_typed; [apply ctrld_distinct|exact Hm|done|done]).
  split; [done|]. split; [by apply not_blank_not_empty|]. split; [by apply not_blank_not_empty|]. split; [done|].
  destruct (Hfits host_action) as (v1 & Hv1 & Hf1); [by right; left|done|].
  destruct (Hfits (port_action port)) as (v2 & Hv2 & Hf2); [by do 2 right; left|done|].
  destruct (Hfits level_action) as (v3 & Hv3 & Hf3); [by do 7 right; left|done|].
  cbn in Hv1, Hv2, Hv3. rewrite Hv1, Hv2, Hv3. cbn.
  split_and!.
  - destruct Hf1 as [->|[->|[(t & _ & [= <-])|(t & [= <-] & _)]]]; eauto.
  - destruct Hf2 as [->|[->|[(t & ? & _)|(t & Hi & _)]]]; eauto; [done|]. cbn in Hi.
    destruct (int_literal t); [injection Hi as <-; eauto|done].
  - assert (∀ l, VStr l = default_value level_action → l ∈ LOG_LEVELS ∨
      getenv "PKTLAB_CTRLD_LOG_LEVEL" = Some l) as Hdef.
    { intros l [= ->]. destruct (getenv "PKTLAB_CTRLD_LOG_LEVEL"); [by right|left]. by apply (bool_decide_unpack _). }
    destruct Hf3 as [->|[->|[(t & Hd & [= <-])|(t & [= <-] & Hin)]]].
    + right. eexists. split; [done|]. by apply Hdef.
    + by left.
    + right. exists t. split; [done|]. by apply Hdef.
    + right. exists t. split; [done|]. left. by apply (Hin _ eq_refl).
Qed.

(** A default that does not convert ends every start, also one that gives the
    option, and one that only asks for help. *)
Lemma bad_environment_unusable `{Environ, FloatLiteral} argv :
  int_literal port_text = None ∨ float_literal timeout_text = None →
  main argv = Err (MainRaises (ValueError None)).
Proof.
  unfold main, build_parser, raises, or_ValueError, mbind, res_mbind.
  destruct (int_literal port_text); intros [Hn|Hn]; try done; by rewrite Hn.
Qed.

(** ** An environment *)

#[local] Instance lab_environ : Environ := λ k,
  if decide (k = "PKTLAB_DPDKD_BIN") then Some "/usr/sbin/pktlab-dpdkd"
  else if decide (k = "PKTLAB_CTRLD_PORT") then Some " 9000 "
  else if decide (k = "PKTLAB_CTRLD_LOG_LEVEL") then Some "verbose" else None.
#[local] Instance lab_float : FloatLiteral := λ text,
  if decide (text = "5.0") then Some 5000%Z else if decide (text = "2.5") then Some 2500%Z else None.

Definition lab_options : options :=
  mkOptions (Some "0.0.0.0") None None (Some "/tmp/dpdkd.sock") (Some ("2.5", 2500%Z)) true None.

Lemma lab_readable : readable lab_options.
Proof. constructor; intros ? [= <-]; by split || done. Qed.

(** The level of the environment passes, though it is none of the choices. *)
Lemma options_over_environment_witness :
  ∃ c, new_controller (mkControllerConfig "/usr/sbin/pktlab-dpdkd" "/tmp/dpdkd.sock" 2500 false) = Ok c ∧
    main ["--host=0.0.0.0"; "--dpdkd-socket-path=/tmp/dpdkd.sock"; "--startup-timeout-seconds=2.5";
          "--no-supervise-datapath"] =
      Ok (mkService (mkControllerConfig "/usr/sbin/pktlab-dpdkd" "/tmp/dpdkd.sock" 2500 false) c
            (VStr "0.0.0.0") (VInt 9000) (VStr "verbose")).
Proof. exact (options_over_environment lab_options 9000 5000 lab_readable eq_refl eq_refl). Defined.

Lemma service_ready_witness :
  ∃ s, main ["--port"; "80"; "--log-level=debug"] = Ok s ∧
    datapath_socket_path (svc_config s) ≠ "" ∧ (0 < datapath_startup_timeout_seconds (svc_config s))%Z.
Proof.
  destruct (main ["--port"; "80"; "--log-level=debug"]) as [s|e] eqn:Hm; [|vm_compute in Hm; discriminate Hm].
  exists s. split; [reflexivity|].
  destruct (service_ready _ s Hm) as (_ & _ & Hs & Ht & _). by split.
Defined.
