(* ===== verification/EndToEnd.v ===== *)
(** * From the shell to the network

    [pktlabctl] as a process in front of the served controller: what its exit
    status says about the topology on the host. *)

From S2P Require Import Prelude PyStr Errors PyJson Types State Issues TopologyValidation TopologySpec.
From S2P Require Import TopologyProps Clock DpdkModels Supervisor SupervisorProps SupervisorPayloads.
From S2P Require Import Netns SimWorld Topology TopologyWiring Manager ManagerProps App AppProps.
From S2P Require Import SimController AppInvariant AppClaims ApiModels Api ApiProps ApiClaims ArgParse.
From S2P Require Import CtlClient CtlOutput CtlCommands CtlProps CtlServed SimHttp CtlClaims CtlMain.
#[local] Open Scope string_scope.
#[local] Open Scope list_scope.

Section shell.
Context {W : Type} `{ClockLaws W, Processes W, Ipc W, IpLaws W, Taps, Loader W, !QuietHost W}.
Context `{!NetStable (W := W), ExnText, !IpcLaws W, !IpcPayloads W, !PidLaws W}.
Context `{Schemas, !SchemaLaws, Environ, FloatLiteral, ParserTexts}.
Context (config : ControllerConfig).

Abbreviation S := (option AppliedTopology * (controller * W))%type.
Context `{Http S} (at_url : string → Prop) `{!Served config at_url}.

(** A command line on a controller that can be reached and is served at the
    URL. *)
Record served_command (args : Namespace) (x : S) : Prop := {
  sc_socket : datapath_socket_path config ≠ "";
  sc_reachable : runtime_reachable config x;
  sc_accepted : parser_accepts args = true;
  sc_path : path_if_apply args;
  sc_texts : controller_url args ≠ "--" ∧ arg_config_path args ≠ "--";
  sc_url : blank (controller_url args) = false ∧ at_url (rstrip_slash (controller_url args));
  sc_file : topology_command args = Some "apply" → blank (arg_config_path args) = false;
}.

(** The process ends as its command reports the operation, or, when it gave up
    waiting, with 1. *)
Lemma shell_reports args con x :
  served_command args x →
  ∃ e outcome x', cli_endpoint args = Some e ∧ endpoint_value config e x = (outcome, x') ∧
    (main (command_line args) (con, x) = reported e (json_output args) outcome con x' ∨
     ∃ con1 x1, main (command_line args) (con, x) = (Ok 1%Z, (con1, x1))).
Proof.
  intros [Hs Hr Ha Hp [Hu Hf] [Hb Hat] Hfile].
  destruct (accepted_dispatched args Ha) as [e He].
  destruct (endpoint_value config e x) as [outcome x'] eqn:Hv. exists e, outcome, x'. split; [done|]. split; [done|].
  destruct (command_line_parsed args Ha Hp Hu Hf) as (m & Hm & Hns & Hl1 & Hl2).
  unfold main. rewrite Hm, Hl1, Hl2, Hns. cbn.
  assert (∀ payload, e = EpApply payload → blank (ar_config_path payload) = false) as Hpay;
    [|destruct (cli_served config Hs at_url args e con x outcome x' He Hb Hpay Hat (reachable_ok config Hs x Hr) Hv)
        as [Hrep|[_ (text & x2 & Hup)]]; [by left|right; by eexists _, _]].
  intros payload ->. apply accepts_shape in Ha. destruct args as [url json c stats dp topo path]. cbn in *.
  repeat apply (proj1 (elem_of_cons _ _ _)) in Ha as [[= -> -> -> ->]|Ha]; [..|by apply elem_of_nil in Ha];
    try discriminate He.
  injection He as <-. by apply Hfile.
Qed.

Lemma reported_zero e json outcome con x' r con' x1 :
  reported (W:=W) e json outcome con x' = (r, (con', x1)) → process_status r = 0%Z →
  r = Ok 0%Z ∧ x1 = x' ∧ stderr con' = stderr con ∧
    ∃ v text, outcome = Ok v ∧ shown e v json = Ok text ∧ stdout con' = (stdout con +:+ text) +:+ newline.
Proof.
  unfold reported. destruct outcome as [v|err]; [destruct (shown e v json) as [text|err] eqn:Ht|];
    intros [= <- <- <-]; cbn; try done. intros _. split_and!; [done..|]. by exists v, text.
Qed.

Lemma apply_value path x v x' :
  endpoint_value config (EpApply (mkApplyRequest path)) x = (Ok v, x') → ∃ t, apply_topology config path x = (Ok t, x').
Proof. cbn. intros (t & x1 & Ht & [= <- <-])%pym_bind_inv. by exists t. Qed.

Lemma destroy_value x v x' :
  endpoint_value config EpDestroy x = (Ok v, x') → ∃ t, destroy_topology config x = (Ok t, x').
Proof. cbn. intros (t & x1 & Ht & [= <- <-])%pym_bind_inv. by exists t. Qed.

(** The operation behind the two words. *)
Lemma topology_endpoint args e :
  parser_accepts args = true → cli_endpoint args = Some e →
  (topology_command args = Some "apply" → e = EpApply (mkApplyRequest (arg_config_path args))) ∧
  (topology_command args = Some "destroy" → e = EpDestroy).
Proof.
  intros Ha%accepts_shape He. destruct args as [url json c stats dp topo path]. cbn in *.
  repeat apply (proj1 (elem_of_cons _ _ _)) in Ha as [[= -> -> -> ->]|Ha]; [..|by apply elem_of_nil in Ha];
    cbn in He; injection He as <-; by split.
Qed.

(** C1 Exit status 0 can be trusted. Of a command whose controller can be
    reached and is served at the URL, with neither URL nor path blank or [--]:
    when [pktlabctl topology apply] ends with 0, the document it names is a
    valid topology, recorded and observed as applied; and when no port of it
    is named like the kernel interface of the other side, no link or bridge of
    it like an interface of the datapath (validation checks neither), and no
    namespace of the host has white space in its name, every wire, address and
    route of the document outside the datapath's interfaces is on the host.
    When [pktlabctl topology destroy] ends with 0, nothing is recorded or
    observed, and nothing is left in those namespaces of the topology there
    was whose names [ip netns list] can be searched for (not empty, no white
    space). In both cases nothing was written to the error stream. A command
    that gave up waiting does not end with 0. *)
Theorem exit_status_tells args con x r con' x' :
  served_command args x → entry (command_line args) (con, x) = (r, (con', x')) → process_status r = 0%Z →
  stderr con' = stderr con ∧
  (topology_command args = Some "apply" →
    ∃ topology v w0, load_topology_config (arg_config_path args) (snd (snd x)) = (Ok topology, w0) ∧
      validate_topology_config topology = Ok v ∧ fst x' = Some (mkApplied (arg_config_path args) v) ∧
      topology_applied (_observed_state (fst (snd x'))) = true ∧
      (ports_uncrossed topology → wired topology → plain_host (snd (snd x')) →
        ∀ f, wanted topology f → ¬ tap_fact f → holds (snd (snd x')) f)) ∧
  (topology_command args = Some "destroy" →
    fst x' = None ∧ topology_applied (_observed_state (fst (snd x'))) = false ∧
    ∀ a, fst x = Some a → ∀ f, below (vt_topology (applied_validated a)) f → ¬ holds (snd (snd x')) f).
Proof.
  intros Hserved Hrun Hzero. destruct (shell_reports args con x Hserved) as (e & outcome & x1 & He & Hv & [Hmain|(con1 & x2 & Hmain)]);
    unfold entry in Hrun; rewrite Hmain in Hrun; [|by injection Hrun as <- _].
  destruct (reported_zero _ _ _ _ _ _ _ _ Hrun Hzero) as (_ & -> & Herr & v & text & -> & _).
  destruct (topology_endpoint args e (sc_accepted _ _ Hserved) He) as [Hap Hde].
  destruct x as [cur [c w]], x1 as [cur1 [c1 w1]]. split; [exact Herr|]. split.
  - intros ->%Hap. apply apply_value in Hv as [t Ht].
    destruct (apply_topology_built config _ _ _ _ _ _ _ _ Ht)
      as (topology & v' & w0 & Hl & Hval & Hcur & _ & Happ & _ & _ & Hnet). by exists topology, v', w0.
  - intros ->%Hde. apply destroy_value in Hv as [t Ht].
    by destruct (destroy_topology_cleared config _ _ _ _ _ _ _ Ht) as (-> & _ & Happ & _ & Hgone).
Qed.
End shell.

(** ** A simulated shell *)

#[local] Instance sim_environ : Environ := λ _, None.
#[local] Instance sim_float : FloatLiteral := λ text, if decide (text = "5.0") then Some 5000%Z else None.
#[local] Instance sim_texts : ParserTexts := {| usage_text prog := "usage: " +:+ prog; help_text prog := prog |}.

Lemma exit_status_tells_witness :
  ∃ con' x', entry (command_line apply_args) (mkConsole "" "", app_state) = (Ok 0%Z, (con', x')) ∧
    stderr con' = "" ∧ holds (snd (snd x')) (HasMaster "dpdk-host" "veth-in-k" "br-in").
Proof.
  assert (fst (entry (command_line apply_args) (mkConsole "" "", app_state)) = Ok 0%Z) as Hok
    by (vm_compute; reflexivity).
  assert (sim_plain (snd (snd (snd (snd (entry (command_line apply_args) (mkConsole "" "", app_state)))))) = true)
    as Hplain by (vm_compute; reflexivity).
  assert (served_command app_config (λ url, url = sim_url) apply_args app_state) as Hserved.
  { constructor; [discriminate|apply app_state_reachable|reflexivity|by left|split; discriminate
      |split; reflexivity|reflexivity]. }
  destruct (entry _ _) as [r [con' x']] eqn:Hrun. cbn in Hok, Hplain. exists con', x'.
  destruct (exit_status_tells app_config (λ url, url = sim_url) apply_args (mkConsole "" "") app_state r con' x'
    Hserved Hrun) as (Herr & Happly & _); [by rewrite Hok|].
  destruct (Happly eq_refl) as (topology & v & w0 & Hload & _ & _ & _ & Hnet).
  split; [by rewrite Hok|]. split; [exact Herr|].
  assert (topology = linear_basic) as -> by (by injection Hload as <- _).
  apply Hnet; [exact linear_uncrossed|exact linear_wired|by apply sim_plain_host|apply WantIngressBridged
    |intros [?|?]; discriminate].
Defined.

Lemma main_reads_command_line_witness :
  main (command_line apply_args) (mkConsole "" "", app_state) = cli_main apply_args (mkConsole "" "", app_state).
Proof. by apply main_reads_command_line; [reflexivity|left|done|done]. Defined.
