(* ===== verification/Interference.v ===== *)
(** * Interference

    A thread that works on the host is not alone: between two of its calls
    other threads do something.  [disturbed E X] is the world [X] with a state
    [E] of the others, who act before each call of the thread; code written
    against the interfaces of the world runs in it unchanged, and one theorem
    about the manager covers every interleaving of its calls with theirs. *)

From S2P Require Import Prelude PyStr Errors Types Issues TopologyValidation TopologySpec TopologyProps.
From S2P Require Import Clock DpdkModels Supervisor.
From S2P Require Import Netns Topology TopologyWiring Manager ManagerProps SupervisorMoves ManagerMoves.
From S2P Require Import PyStr State SimWorld App AppProps SimController.
#[local] Open Scope string_scope.
#[local] Open Scope list_scope.

(** What the others do when they get the chance. *)
Class Interference (E X : Type) := interfere : E → X → E * X.

Record disturbed (E X : Type) : Type := Disturbed { others : E; inner : X }.
Arguments Disturbed {_ _} _ _.
Arguments others {_ _} _.
Arguments inner {_ _} _.

Section disturbed.
Context {E X : Type} `{Interference E X}.

(** A call of the thread: the others first. *)
Definition calling {A} (m : pym pyexn X A) : pym pyexn (disturbed E X) A := λ d,
  let '(e, x) := interfere (others d) (inner d) in
  let '(r, x') := m x in (r, Disturbed e x').

#[export] Instance disturbed_host `{Host X} : Host (disturbed E X) :=
  {| subprocess_run argv := calling (subprocess_run argv) |}.
#[export] Instance disturbed_clock `{Clock X} : Clock (disturbed E X) :=
  {| clock_monotonic := calling clock_monotonic; clock_sleep d := calling (clock_sleep d) |}.

(** The manager's callbacks hold the controller's lock: the others wait. *)
Definition disturbed_manager (m : ManagerConfig X) : ManagerConfig (disturbed E X) :=
  mkManagerConfig _ (λ path, calling (load_topology m path)) (validate_topology m)
    ((λ start v, calling (start v)) <$> start_datapath m) (calling <$> stop_datapath m)
    (tap_timeout_seconds m) (tap_poll_interval_seconds m).

Lemma calling_run {A} (m : pym pyexn X A) d r d' :
  calling m d = (r, d') →
  ∃ e x x', interfere (others d) (inner d) = (e, x) ∧ m x = (r, x') ∧ d' = Disturbed e x'.
Proof.
  unfold calling. destruct (interfere _ _) as [e x] eqn:He. destruct (m x) as [r1 x'] eqn:Hm.
  intros [= <- <-]. by exists e, x, x'.
Qed.

(** What the others and every call of the thread respect, its runs respect. *)
Definition on_both (RE : relation E) (R : relation X) : relation (disturbed E X) := λ d d',
  RE (others d) (others d') ∧ R (inner d) (inner d').

#[export] Instance on_both_preorder RE R `{!PreOrder RE, !PreOrder R} : PreOrder (on_both RE R).
Proof.
  split; [by intros d; split|]. intros d1 d2 d3 [E12 R12] [E23 R23].
  split; by etransitivity.
Qed.

Section respects.
Context (RE : relation E) (R : relation X) `{!PreOrder RE, !PreOrder R}.
Context (Hothers : ∀ e x e' x', interfere e x = (e', x') → RE e e' ∧ R x x').

Lemma calling_respects {A} (m : pym pyexn X A) : respects R m → respects (on_both RE R) (calling m).
Proof.
  intros Hm d r d' (e & x & x' & [HE HR]%Hothers & Hr & ->)%calling_run. split; [done|].
  etransitivity; [exact HR|]. by eapply Hm.
Qed.

Lemma disturbed_respects `{Host X, Clock X, !HostRespects R} : HostRespects (on_both RE R).
Proof.
  constructor; [apply _|intros..]; apply calling_respects; [apply hr_run|apply hr_monotonic|apply hr_sleep].
Qed.

Lemma disturbed_manager_respects `{Host X, Clock X, !HostRespects R, ExnText} (m : ManagerConfig X) path :
  (∀ path, respects R (load_topology m path)) →
  (∀ start v, start_datapath m = Some start → respects R (start v)) →
  (∀ stop, stop_datapath m = Some stop → respects R stop) →
  respects (on_world (on_both RE R)) (manager_apply (disturbed_manager m) path) ∧
  respects (on_world (on_both RE R)) (manager_destroy (disturbed_manager m)).
Proof.
  intros Hl Hs Ht. pose proof disturbed_respects.
  split; [apply moves_apply|apply moves_destroy]; try done.
  - intros p. by apply calling_respects.
  - intros start v (s & Hm & ->)%fmap_Some. apply calling_respects. by apply (Hs _ _ Hm).
  - intros stop (s & Hm & ->)%fmap_Some. apply calling_respects. by apply (Ht _ Hm).
  - intros stop (s & Hm & ->)%fmap_Some. apply calling_respects. by apply (Ht _ Hm).
Qed.
End respects.
End disturbed.

(** ** The network under interference *)

(** The others leave the network alone, except that the interfaces of the
    datapath come and go. *)
Definition same_net {X} `{IpLaws X, Taps} : relation X := λ x x',
  ∀ f, ¬ tap_fact f → holds x f ↔ holds x' f.

#[export] Instance same_net_preorder {X} `{IpLaws X, Taps} : PreOrder (same_net (X:=X)).
Proof. split; [by intros x f|]. intros x y z Hxy Hyz f Hf. by rewrite (Hxy f Hf), (Hyz f Hf). Qed.

Class Harmless (E X : Type) `{Interference E X, IpLaws X, Taps} : Prop :=
  harmless e x : same_net x (snd (interfere e x)).

Section net.
Context {E X : Type} `{Harmless E X}.

Lemma interfered e x e' x' : interfere e x = (e', x') → same_net x x'.
Proof. intros He. pose proof (harmless e x) as Hh. by rewrite He in Hh. Qed.

Lemma same_namespaces (x x' : X) ns :
  same_net x x' → holds x (HasNamespace ns) ↔ holds x' (HasNamespace ns).
Proof. intros Hs. apply Hs. intros []. Qed.

(** A fact about a TAP is worth no more than its namespace: the datapath may
    end at any time. *)
#[export] Program Instance disturbed_ip_laws : IpLaws (disturbed E X) := {|
  holds d f := holds (inner d) (HasNamespace (fact_namespace f)) ∧ (¬ tap_fact f → holds (inner d) f)
|}.
Next Obligation. intros d f [Hn _]. by split. Qed.
Next Obligation.
  intros c d out err d' Hc (e & x & x' & He%interfered & Hr & ->)%calling_run. cbn [inner].
  destruct (ip_added c x _ _ _ Hc Hr) as [Ha Hk]. split.
  - intros f Hf%Ha. split; [by apply in_namespace|done].
  - intros f [Hn Hf] Hcl. split.
    + apply Hk; [by apply (same_namespaces _ _ _ He)|]. destruct c; cbn; naive_solver.
    + intros Ht. apply Hk; [by apply He, Hf|done].
Qed.
Next Obligation.
  intros c d out err d' Hc (e & x & x' & He%interfered & Hr & ->)%calling_run. cbn [inner].
  destruct (ip_removed c x _ _ _ Hc Hr) as [Hgone Hk]. split.
  - intros ns Hns [_ Hh]. apply (Hgone ns Hns), Hh. intros [].
  - intros f [Hn Hf]. split; [by apply (same_namespaces _ _ _ He), Hk|].
    intros Ht. by apply (He _ Ht), Hk, Hf.
Qed.
Next Obligation.
  intros d out err d' (e & x & x' & He%interfered & Hr & ->)%calling_run. cbn [inner].
  destruct (ip_listed x _ _ _ Hr) as (Hf & entries & -> & Hl). split.
  - intros f. rewrite Hf, <- (same_namespaces _ _ _ He). split; intros [Hn Hh]; (split; [done|]).
    + intros Ht. by apply (He _ Ht), Hf, Hh.
    + intros Ht. by apply Hf, (He _ Ht), Hh.
  - exists entries. split; [done|]. intros ns. rewrite <- Hl, <- (same_namespaces _ _ _ He). tauto.
Qed.
Next Obligation.
  intros ns i d rc out err d' (e & x & x' & He%interfered & Hr & ->)%calling_run. cbn [inner].
  destruct (ip_shown ns i x _ _ _ _ Hr) as [Hf Hl]. split.
  - intros f. rewrite Hf, <- (same_namespaces _ _ _ He). split; intros [Hn Hh]; (split; [done|]).
    + intros Ht. by apply (He _ Ht), Hf, Hh.
    + intros Ht. by apply Hf, (He _ Ht), Hh.
  - intros Hl'%Hl. split; [|intros Ht; by apply (He _ Ht)].
    by apply (same_namespaces _ _ _ He), (in_namespace _ _ Hl').
Qed.
End net.

(** ** What the record means *)

(** The network of an applied topology is on the host: every fact it asks for
    outside the interfaces of the datapath, if no port is crossed, no link or
    bridge is named like a TAP, and all namespaces can be told from a listing. *)
Definition network_of {W} `{IpLaws W, Taps} (a : AppliedTopology) (w : W) : Prop :=
  let c := vt_topology (applied_validated a) in
  ports_uncrossed c → wired c → plain_host w → ∀ f, wanted c f → ¬ tap_fact f → holds w f.

(** Nothing of it is, in the namespaces that can be found in a listing. *)
Definition gone {W} `{IpLaws W} (a : AppliedTopology) (w : W) : Prop :=
  ∀ f, below (vt_topology (applied_validated a)) f → ¬ holds w f.

Lemma network_moves {W} `{IpLaws W, Taps} a (w w' : W) : same_net w w' → network_of a w → network_of a w'.
Proof.
  intros Hs Hn Hu Hw Hp f Hf Ht. apply (Hs f Ht), (Hn Hu Hw); [|done..].
  intros ns Hns. apply Hp, (Hs (HasNamespace ns)); [intros []|done].
Qed.

(** ** Takedowns that raise *)

Definition raises {E A X} (r : res E A * X) : bool :=
  match r with (Err _, _) => true | _ => false end.

(** Does an apply go as far as taking the previous topology down, and fail
    there? *)
Definition takedown_raises {W} `{Host W, Clock W} (m : ManagerConfig W) (path : string)
    (x : option AppliedTopology * W) : bool :=
  match load_topology m path (snd x) with
  | (Ok c, w) =>
      match validate_topology m c with
      | Ok _ => raises (take_down_current m (fst x, w))
      | Err _ => false
      end
  | _ => false
  end.

Section record.
Context {W : Type} `{NetStable W} `{Taps} `{ExnText} (m : ManagerConfig W) `{!ManagerLaws m}.

(** How an apply that raises ends: before it did anything, or with the
    previous topology not taken down; or building failed, nothing is recorded,
    and what was built was taken down, unless that failed, which is reported
    or raised. *)
Definition apply_raised path cur w e cur' w' : Prop :=
  (cur' = cur ∧ takedown_raises m path (cur, w) = false ∧
    (load_topology m path w = (Err e, w') ∨
     ∃ c, load_topology m path w = (Ok c, w') ∧ validate_topology_config c = Err e)) ∨
  (cur' = cur ∧ takedown_raises m path (cur, w) = true) ∨
  (cur' = None ∧ ∃ c v w0 w1 exc w2, load_topology m path w = (Ok c, w0) ∧
    validate_topology_config c = Ok v ∧ build_topology m v w1 = (Err exc, w2) ∧
    ((e = apply_error path v exc None ∧ gone (mkApplied path v) w') ∨
     (∃ cleanup, _destroy_locked m v w2 = (Err (PktlabExn cleanup), w') ∧
        e = apply_error path v exc (Some cleanup)) ∨
     (_destroy_locked m v w2 = (Err e, w') ∧ is_pktlab e = false))).

Lemma apply_record path cur w r cur' w' :
  manager_apply m path (cur, w) = (r, (cur', w')) →
  match r with
  | Ok _ => ∃ a, cur' = Some a ∧ applied_config_path a = path ∧ network_of a w'
  | Err e => apply_raised path cur w e cur' w'
  end.
Proof.
  intros Hrun. destruct r as [t|e].
  - apply manager_apply_ok in Hrun as (c & v & w0 & running & _ & Hv & -> & _ & Hnet); [|done].
    eexists. split; [done|]. split; [done|]. apply validated_ok in Hv as (ids & _ & ->).
    intros Hu Hw Hp f Hf _. by apply Hnet.
  - unfold apply_raised, takedown_raises. cbn [fst snd].
    apply manager_apply_err in Hrun as [[-> Hcase]|(-> & c & v & w0 & w1 & exc & w2 & Hl & Hv & Hb & Hcase)];
      [| |done].
    + destruct Hcase as [Hl|[(c & Hl & Hv)|(c & v & t & w0 & Hl & Hv & -> & Hd)]].
      * left. rewrite Hl. by eauto.
      * left. rewrite Hl, (validates (m := m)), Hv. eauto 6.
      * right. left. rewrite Hl, (validates (m := m)), Hv. split; [done|].
        unfold take_down_current, gets, mbind, pym_mbind, on_snd. cbn [fst]. by rewrite Hd.
    + do 2 right. split; [done|]. exists c, v, w0, w1, exc, w2. split_and!; [done..|].
      pose proof Hv as (ids & _ & ->)%validated_ok. exact Hcase.
Qed.

(** A destroy raises when the topology is not taken down, and only then. *)
Lemma destroy_record cur w r cur' w' :
  manager_destroy m (cur, w) = (r, (cur', w')) →
  match r with
  | Ok _ => cur' = None ∧ ∀ a, cur = Some a → gone a w'
  | Err e => cur' = cur ∧ ∃ a, cur = Some a ∧ _destroy_locked m (applied_validated a) w = (Err e, w')
  end.
Proof.
  intros Hrun. destruct r as [t|e].
  - apply manager_destroy_ok in Hrun as (-> & _ & _ & _ & _ & Hgone); [|done]. by split.
  - revert Hrun. unfold manager_destroy, gets, mbind at 1, pym_mbind at 1. cbn [fst].
    destruct cur as [a|]; [|done]. unfold mbind, pym_mbind, on_snd.
    destruct (_destroy_locked m _ w) as [[u|e1] w1] eqn:Hd; [done|]. intros [= -> <- <-].
    split; [done|]. by exists a.
Qed.
End record.

(** ** The manager among other threads *)

Section manager.
Context {E X : Type} `{Interference E X, IpLaws X, Taps, !Harmless E X}.

Abbreviation D := (disturbed E X).

Lemma disturbed_holds (d : D) f : ¬ tap_fact f → holds d f ↔ holds (inner d) f.
Proof. intros Ht. split; [intros [_ Hf]; by apply Hf|]. intros Hf. by split; [apply in_namespace|]. Qed.

Lemma disturbed_same_net (d d' : D) : same_net d d' ↔ same_net (inner d) (inner d').
Proof.
  split; intros Hs f Ht; specialize (Hs f Ht).
  - by rewrite !(disturbed_holds _ _ Ht) in Hs.
  - by rewrite !(disturbed_holds _ _ Ht).
Qed.

Lemma disturbed_plain (d : D) : plain_host d ↔ plain_host (inner d).
Proof.
  assert (∀ ns, holds d (HasNamespace ns) ↔ holds (inner d) (HasNamespace ns)) as Hd
    by (intros ns; apply disturbed_holds; intros []).
  split; intros Hp ns Hns%Hd; by apply Hp.
Qed.

Lemma disturbed_network a (d : D) : network_of a d → network_of a (inner d).
Proof.
  intros Hn Hu Hw Hp%disturbed_plain f Hf Ht.
  exact (proj1 (disturbed_holds d f Ht) (Hn Hu Hw Hp f Hf Ht)).
Qed.

Lemma disturbed_gone a (d : D) : gone a d → gone a (inner d).
Proof.
  intros Hg f Hf Hh%in_namespace. apply (Hg (HasNamespace (fact_namespace f)) Hf).
  apply disturbed_holds; [intros []|exact Hh].
Qed.

Lemma calling_same_net {A} (p : pym pyexn X A) : respects same_net p → respects same_net (calling (E:=E) p).
Proof.
  intros Hp d r d' (e & x & x' & He%interfered & Hr & ->)%calling_run. apply disturbed_same_net.
  cbn [inner]. etransitivity; [exact He|]. by eapply Hp.
Qed.

(** What a call establishes survives; a TAP is not counted on. *)
Lemma calling_establishes {A} (p : pym pyexn X A) (C : facts) :
  establishes p nothing C → (∀ f, C f → tap_fact f) → establishes (calling (E:=E) p) nothing nothing.
Proof.
  intros Hp HC d a d' (e & x & x' & He%interfered & Hr & ->)%calling_run.
  split; [by intros f []|]. intros f Hf _ Hplain%disturbed_plain. cbn [inner] in Hplain.
  assert (∀ ns, ¬ C (HasNamespace ns)) as Hns by (intros ns []%HC).
  destruct (establishes_holds _ _ _ _ _ _ Hp Hns Hr Hplain) as (Hx & _ & Hk).
  destruct Hf as [Hn Hf].
  { apply disturbed_plain. intros ns Hh. by apply Hx, (same_namespaces _ _ _ He). }
  split; cbn [inner].
  - apply Hk; [by apply (same_namespaces _ _ _ He)|apply Hns].
  - intros Ht. apply Hk; [by apply He, Hf|]. by intros ?%HC.
Qed.

Lemma calling_removes {A} (p : pym pyexn X A) : removes p nothing → removes (calling (E:=E) p) nothing.
Proof.
  intros Hp d a d' (e & x & x' & He%interfered & Hr & ->)%calling_run.
  destruct (Hp _ _ _ Hr) as [_ Hk]. split; [by intros f []|]. intros f [Hn Hf]. split; cbn [inner] in *.
  - by apply (same_namespaces _ _ _ He), Hk.
  - intros Ht. by apply (He _ Ht), Hk, Hf.
Qed.

#[export] Instance disturbed_net_stable `{Clock X, !NetStable (W := X)} : NetStable (W := D).
Proof.
  constructor; intros; apply (calling_establishes _ nothing); try (by intros f []);
    [apply monotonic_keeps|apply sleep_keeps].
Qed.

Section laws.
Context `{Clock X, !NetStable (W := X), ExnText}.
Context (m : ManagerConfig X) `{!ManagerLaws m}.

#[export] Instance disturbed_manager_laws :
  ManagerLaws (disturbed_manager (E:=E) m).
Proof.
  constructor.
  - apply (validates (m := m)).
  - intros start v (s & Hm & ->)%fmap_Some. eapply establishes_weaken.
    + by apply (calling_establishes _ tap_fact); [apply (start_keeps (m := m))|].
    + done.
    + by intros f [].
  - intros stop (s & Hm & ->)%fmap_Some. by apply calling_removes, (stop_adds_nothing (m := m)).
Qed.

Abbreviation dm := (disturbed_manager (E:=E) m).

Lemma disturbed_apply_record path cur (d : D) r cur' d' :
  manager_apply dm path (cur, d) = (r, (cur', d')) →
  match r with
  | Ok _ => ∃ a, cur' = Some a ∧ applied_config_path a = path ∧ network_of a (inner d')
  | Err e => apply_raised dm path cur d e cur' d'
  end.
Proof.
  intros Hrun. apply apply_record in Hrun; [|apply _]. destruct r as [t|e]; [|done].
  destruct Hrun as (a & -> & Ha & Hn%disturbed_network). by exists a.
Qed.

Lemma disturbed_destroy_record cur (d : D) r cur' d' :
  manager_destroy dm (cur, d) = (r, (cur', d')) →
  match r with
  | Ok _ => cur' = None ∧ ∀ a, cur = Some a → gone a (inner d')
  | Err e => cur' = cur ∧ ∃ a, cur = Some a ∧ _destroy_locked dm (applied_validated a) d = (Err e, d')
  end.
Proof.
  intros Hrun. apply destroy_record in Hrun; [|apply _]. destruct r as [t|e]; [|done].
  destruct Hrun as [-> Hg]. split; [done|]. intros a Ha. exact (disturbed_gone _ _ (Hg a Ha)).
Qed.

(** A document that does not load or is refused leaves the network alone. *)
Lemma apply_raised_early path cur (d : D) e cur' d' :
  respects same_net (load_topology m path) → apply_raised dm path cur d e cur' d' →
  cur' = None ∨ (cur' = cur ∧ takedown_raises dm path (cur, d) = true) ∨
  (cur' = cur ∧ takedown_raises dm path (cur, d) = false ∧ same_net (inner d) (inner d')).
Proof.
  intros Hload [(-> & Ht & Hl)|[?|[? _]]]; [|auto..]. do 2 right. split_and!; [done..|].
  apply disturbed_same_net. apply (calling_same_net (load_topology m path)) in Hload.
  destruct Hl as [Hl|(c & Hl & _)]; by eapply Hload.
Qed.
End laws.
End manager.


(** A daemon that brings its interfaces while time passes. *)
#[local] Instance late_taps : Interference nat (controller * sim) := λ e '(c, s),
  (S e, (c, if Nat.even e then sim_set_now (sim_now s + 1) s
            else sim_set_net (sim_tap_facts s ++ sim_net s) s)).

#[local] Instance late_taps_harmless : Harmless nat (controller * sim).
Proof.
  intros e [c s] f Ht. unfold interfere, late_taps. cbn [snd].
  destruct (Nat.even e); [done|]. symmetry. by apply sim_taps_add.
Qed.

