(* ===== verification/Interleaving.v ===== *)
(** * Concurrent requests

    FastAPI runs the handlers in threads.  The controller's lock and the
    manager's lock protect sections of an operation, not all of it: applying
    and destroying announce themselves, let the manager work, and then write
    what it did into the controller's attributes, each in a section of its
    own.  A run of several requests is any interleaving of their sections.

    An operation of the manager makes many calls of the host under the
    manager's lock, which the controller's sections do not take: between two
    of its calls other threads may run theirs.  Another operation of the
    manager waits; so does a [stop] that sees a topology recorded, since it
    destroys it, but one that sees none only stops the supervisor, and runs
    between the manager's calls like any other section. *)

From stdpp Require Import relations.
From S2P Require Import Prelude PyStr Errors Types State Issues TopologyValidation Clock DpdkModels.
From S2P Require Import Supervisor SupervisorProps SupervisorPayloads SupervisorMoves Netns.
From S2P Require Import SimWorld Topology Manager ManagerMoves App AppProps SimController AppInvariant.
From S2P Require Import AppClaims TopologySpec TopologyWiring ManagerProps SupervisorMoves Interference.
#[local] Open Scope string_scope.
#[local] Open Scope list_scope.

(** ** Requests and their sections *)

(** An operation on the topology, or one that holds the controller's lock
    from beginning to end. *)
Inductive request : Type :=
| ReqApply (path : string)
| ReqDestroy
| ReqAtomic (o : runtime_op).

(** How far the thread of a request has come. *)
Inductive thread : Type :=
| Requested (q : request)
| Announced (q : request)
| Managed (q : request) (r : res pyexn TopologyOperationResult)
| Halted (t : TopologyOperationResult)
| Finished (r : res pyexn ()).

Section interleaving.
Context {W : Type} `{Clock W} `{Processes W} `{Ipc W} `{Host W} `{Loader W} `{ExnText}.
Context (config : ControllerConfig).

Abbreviation S := (option AppliedTopology * (controller * W))%type.
Abbreviation M := (pym pyexn S).

Definition announce (message : string) : M () :=
  on_snd _clear_controller_override;; on_snd (set_c (set_phase CS_reconciling message)).

(** The last section of an operation. *)
Definition finishing (m : M TopologyOperationResult) (x : S) : thread * S :=
  let '(r, x') := forget m x in (Finished r, x').

(** The next section of a thread, as one step. *)
Definition section (t : thread) (x : S) : thread * S :=
  match t with
  | Requested (ReqApply path) | Requested (ReqAtomic (RunApply path)) =>
      if blank path then
        (Finished (Err (ValueError (Some "config_path must be a non-empty string"))), x)
      else (Announced (ReqApply path), snd (announce ("applying topology from " +:+ path) x))
  | Requested (ReqDestroy | ReqAtomic RunDestroy) =>
      (Announced ReqDestroy, snd (announce "destroying topology" x))
  | Requested (ReqAtomic o) => let '(r, x') := run_runtime_op config o x in (Finished r, x')
  | Announced (ReqApply path) =>
      let '(r, x') := manager_apply (app_manager config) path x in (Managed (ReqApply path) r, x')
  | Announced ReqDestroy =>
      let '(r, x') := manager_destroy (app_manager config) x in (Managed ReqDestroy r, x')
  | Managed (ReqApply path) (Ok t) => finishing (applied_bookkeeping config t) x
  | Managed (ReqApply path) (Err e) => finishing (on_apply_error config path e) x
  | Managed ReqDestroy (Ok t) =>
      let '(r, x') := on_snd _stop_topology_datapath x in
      (match r with Ok _ => Halted t | Err e => Finished (Err e) end, x')
  | Managed ReqDestroy (Err e) => finishing (on_destroy_error config e) x
  | Halted t => finishing (destroyed_settle config t) x
  | _ => (t, x)
  end.

(** The sections that wait while the manager's lock is held; stopping calls
    the manager only when it sees a topology recorded. *)
Definition calls_manager (t : thread) (seen : option AppliedTopology) : bool :=
  match t with
  | Announced _ => true
  | Requested (ReqAtomic RunStop) => has_applied_topology seen
  | _ => false
  end.

(** What other threads do between two calls of the manager: some of them, in
    some order, take a section.  The manager's record is read without its
    lock, so what they see of it is theirs to choose. *)
Definition move : Type := nat * option AppliedTopology.

Fixpoint run_moves (moves : list move) (ts : list thread) (x : controller * W)
    : list thread * (controller * W) :=
  match moves with
  | [] => (ts, x)
  | (i, seen) :: moves' =>
      match ts !! i with
      | Some t =>
          if calls_manager t seen then run_moves moves' ts x
          else
            let '(t', (_, x')) := section t (seen, x) in
            run_moves moves' (<[i := t']> ts) x'
      | None => run_moves moves' ts x
      end
  end.

(** One list of moves for each call of the manager. *)
#[export] Instance thread_interference : Interference (list (list move) * list thread) (controller * W) :=
  λ '(batches, ts) x,
    let '(ts', x') := run_moves (default [] (head batches)) ts x in ((tail batches, ts'), x').

(** An operation of the manager, with the others in between. *)
Definition manager_among_others (q : request)
    : pym pyexn (option AppliedTopology * disturbed (list (list move) * list thread) (controller * W))
        TopologyOperationResult :=
  match q with
  | ReqApply path | ReqAtomic (RunApply path) =>
      manager_apply (disturbed_manager (app_manager config)) path
  | _ => manager_destroy (disturbed_manager (app_manager config))
  end.

(** One step of several threads, or of the world. *)
Inductive interleaves (drift : relation W) : list thread * S → list thread * S → Prop :=
| inter_section ts i t t' x x' :
    ts !! i = Some t → section t x = (t', x') → interleaves drift (ts, x) (<[i:=t']> ts, x')
| inter_manager ts i q batches cur x r cur' batches' ts' x' :
    ts !! i = Some (Announced q) →
    manager_among_others q (cur, Disturbed (batches, ts) x) =
      (r, (cur', Disturbed (batches', ts') x')) →
    interleaves drift (ts, (cur, x)) (<[i := Managed q r]> ts', (cur', x'))
| inter_world ts cur c w w' :
    drift w w' → interleaves drift (ts, (cur, (c, w))) (ts, (cur, (c, w'))).

(** The threads step in the order of a schedule: a section, or an operation of
    the manager with the moves of the others during its calls. *)
Inductive turn : Type :=
| Turn (i : nat)
| Work (i : nat) (batches : list (list move)).

Definition take_turn (a : turn) (s : list thread * S) : list thread * S :=
  let '(ts, (cur, x)) := s in
  match a with
  | Turn i =>
      match ts !! i with
      | Some t => let '(t', x') := section t (cur, x) in (<[i:=t']> ts, x')
      | None => s
      end
  | Work i batches =>
      match ts !! i with
      | Some (Announced q) =>
          let '(r, (cur', d)) := manager_among_others q (cur, Disturbed (batches, ts) x) in
          (<[i := Managed q r]> (snd (others d)), (cur', inner d))
      | _ => s
      end
  end.

Definition run_schedule (schedule : list turn) (s : list thread * S) : list thread * S :=
  fold_left (λ s a, take_turn a s) schedule s.

Lemma take_turn_interleaves drift a s :
  take_turn a s = s ∨ interleaves drift s (take_turn a s).
Proof.
  destruct s as [ts [cur x]]. destruct a as [i|i batches]; cbn [take_turn];
    destruct (ts !! i) as [t|] eqn:Ht; [|by left| |by left].
  - destruct (section t (cur, x)) as [t' x'] eqn:Hs. right. by eapply inter_section.
  - destruct t as [|q| | |]; [by left| |by left..].
    destruct (manager_among_others _ _) as [r [cur' [[bs ts'] x']]] eqn:Hr. right.
    by eapply inter_manager.
Qed.

Lemma run_schedule_interleaves drift schedule s : rtc (interleaves drift) s (run_schedule schedule s).
Proof.
  revert s. induction schedule as [|a schedule IH]; intros s; [done|]. cbn [run_schedule fold_left].
  destruct (take_turn_interleaves drift a s) as [Heq|Hstep]; [rewrite Heq; apply IH|].
  eapply rtc_l; [exact Hstep|apply IH].
Qed.

(** ** One thread alone *)

Definition sections (n : nat) (t : thread) (x : S) : thread * S :=
  Nat.iter n (λ '(t, x), section t x) (t, x).

(** Sections of one thread in a row are steps of the interleaving. *)
Lemma sections_interleave drift n t x t' x' ts i :
  ts !! i = Some t → sections n t x = (t', x') → rtc (interleaves drift) (ts, x) (<[i:=t']> ts, x').
Proof.
  intros Hi. revert t' x'. induction n as [|n IH]; intros t' x' Hs.
  - injection Hs as <- <-. by rewrite list_insert_id.
  - unfold sections in *. rewrite Nat.iter_succ in Hs. destruct (Nat.iter n _ _) as [t1 x1] eqn:Hn.
    eapply rtc_r; [by apply (IH t1 x1)|]. rewrite <- (list_insert_insert_eq ts i t' t1).
    apply inter_section with t1; [|done]. apply list_lookup_insert_eq. by apply lookup_lt_Some in Hi.
Qed.

Lemma sections_apply path x :
  sections 3 (Requested (ReqApply path)) x =
  (let '(r, x') := run_runtime_op config (RunApply path) x in (Finished r, x')).
Proof.
  destruct x as [cur [c w]]. unfold sections. cbn [Nat.iter nat_rect section run_runtime_op].
  destruct (blank path) eqn:Hb.
  { unfold forget, apply_topology. rewrite Hb. reflexivity. }
  unfold forget, mbind, pym_mbind. rewrite apply_topology_run by done.
  change (snd (announce _ _)) with (cur, (reconciling ("applying topology from " +:+ path) c, w)).
  cbn [section].
  destruct (manager_apply _ _ _) as [[t|e] x1]; cbn; unfold finishing, forget, mbind, pym_mbind.
  - by destruct (applied_bookkeeping config t x1) as [[?|?] ?].
  - by destruct (on_apply_error config path e x1) as [[?|?] ?].
Qed.

Lemma sections_destroy x :
  sections 4 (Requested ReqDestroy) x =
  (let '(r, x') := run_runtime_op config RunDestroy x in (Finished r, x')).
Proof.
  destruct x as [cur [c w]]. unfold sections. cbn [Nat.iter nat_rect section run_runtime_op].
  unfold forget at 1, mbind at 1, pym_mbind at 1. rewrite destroy_topology_run.
  change (snd (announce _ _)) with (cur, (reconciling "destroying topology" c, w)).
  cbn [section].
  destruct (manager_destroy _ _) as [[t|e] x1]; cbn.
  - unfold destroyed_bookkeeping, mbind at 1, pym_mbind at 1.
    destruct (on_snd _stop_topology_datapath x1) as [[u|e] x2]; cbn; [|done].
    unfold finishing, forget, mbind, pym_mbind.
    by destruct (destroyed_settle config t x2) as [[?|?] ?].
  - unfold finishing, forget, mbind, pym_mbind. by destruct (on_destroy_error config e x1) as [[?|?] ?].
Qed.

Lemma sections_atomic o x :
  (∀ path, o ≠ RunApply path) → o ≠ RunDestroy →
  sections 1 (Requested (ReqAtomic o)) x =
  (let '(r, x') := run_runtime_op config o x in (Finished r, x')).
Proof. intros Ha Hd. destruct o as [| |path| | | | | | |]; try done. by destruct (Ha path). Qed.

(** ** The invariant survives every interleaving *)

Context `{!IpcLaws W} `{!IpcPayloads W} `{!PidLaws W}.
Context (Hpath : datapath_socket_path config ≠ "").

Abbreviation ok x := (controller_ok config (fst (snd x))).

Lemma keeps_run {A} (m : M A) x r x' :
  respects (on_world (keeps_ok config)) m → m x = (r, x') → ok x → ok x'.
Proof. intros Hm Hx. by apply (Hm _ _ _ Hx). Qed.

Lemma finishing_keeps m x t' x' :
  respects (on_world (keeps_ok config)) m → finishing m x = (t', x') → ok x → ok x'.
Proof.
  intros Hm. unfold finishing. destruct (forget m x) as [r x1] eqn:Hr. intros [= _ <-].
  eapply keeps_run; [|exact Hr]. by apply forget_keeps.
Qed.

Lemma section_keeps t x t' x' : section t x = (t', x') → ok x → ok x'.
Proof.
  assert (∀ path e r, (∀ A, respects (on_world (keeps_ok config)) (on_apply_error (A:=A) config path e)) ∧
    (∀ A, respects (on_world (keeps_ok config)) (on_destroy_error (A:=A) config e)) ∧
    respects (on_world (keeps_ok config)) (applied_bookkeeping config r) ∧
    respects (on_world (keeps_ok config)) (destroyed_settle config r) ∧
    ∀ s m, m ≠ "" → respects (on_world (keeps_ok config)) (on_snd (_clear_controller_override (W:=W));;
      on_snd (set_c (set_phase s m)) : M ())) as Hs by (intros; by apply sections_keep).
  assert (∀ m x, m ≠ "" → ok x → ok (snd (announce m x))) as Ha.
  { intros m y Hm Hy. destruct (announce m y) as [r y'] eqn:Hy'.
    destruct (Hs "" (ValueError None) (mkOperationResult op_destroy None None false None false "" None None))
      as (_ & _ & _ & _ & Hph).
    by apply (keeps_run _ _ _ _ (Hph CS_reconciling m Hm) Hy'). }
  assert (∀ o, section (Requested (ReqAtomic o)) x =
      (let '(r, x1) := run_runtime_op config o x in (Finished r, x1)) →
    section (Requested (ReqAtomic o)) x = (t', x') → ok x → ok x') as Hatomic.
  { intros o ->. destruct (run_runtime_op config o x) as [r x1] eqn:Hr. intros [= _ <-].
    by apply (keeps_run _ _ _ _ (op_keeps config Hpath o) Hr). }
  assert (∀ path, section (Requested (ReqApply path)) x = (t', x') → ok x → ok x') as Happly.
  { intros path. cbn [section]. destruct (blank path); intros [= _ <-]; [done|]. by apply Ha. }
  assert (section (Requested ReqDestroy) x = (t', x') → ok x → ok x') as Hdestroy
    by (intros [= _ <-]; by apply Ha).
  destruct t as [[path| |o]|[path| |o]|[path| |o] [t|e]|t|r];
    [by apply Happly|exact Hdestroy|
     destruct o; try (by apply Hatomic); [by eapply Happly|exact Hdestroy]|..]; cbn [section].
  - destruct (manager_apply _ path x) as [r x1] eqn:Hr. intros [= _ <-].
    by apply (keeps_run _ _ _ _ (proj1 (manager_keeps config Hpath path)) Hr).
  - destruct (manager_destroy _ x) as [r x1] eqn:Hr. intros [= _ <-].
    by apply (keeps_run _ _ _ _ (proj2 (manager_keeps config Hpath "")) Hr).
  - by intros [= _ <-].
  - by apply finishing_keeps, (Hs path (ValueError None) t).
  - by apply finishing_keeps, (Hs path e (mkOperationResult op_apply None None false None false "" None None)).
  - destruct (on_snd _stop_topology_datapath x) as [r x1] eqn:Hr. intros [= _ <-].
    eapply keeps_run; [|exact Hr]. by apply on_snd_keeps, stop_callback_keeps.
  - by apply finishing_keeps, (Hs "" e (mkOperationResult op_apply None None false None false "" None None)).
  - by intros [= _ <-].
  - by intros [= _ <-].
  - by apply finishing_keeps, (Hs "" (ValueError None) t).
  - by intros [= _ <-].
Qed.

(** What the sections respect, whatever they see of the record, the moves
    respect, and with the callbacks an operation of the manager among them. *)
Section among.
Context (R : relation (controller * W)) `{!PreOrder R}.
Context (Hsection : ∀ t seen x t' seen' x',
  calls_manager t seen = false → section t (seen, x) = (t', (seen', x')) → R x x').

Lemma moves_respect moves ts x ts' x' :
  run_moves moves ts x = (ts', x') → length ts' = length ts ∧ R x x'.
Proof.
  revert ts x. induction moves as [|[i seen] moves IH]; intros ts x; cbn [run_moves].
  { by intros [= <- <-]. }
  destruct (ts !! i) as [t|]; [|by apply IH]. destruct (calls_manager t seen) eqn:Ht; [by apply IH|].
  destruct (section t (seen, x)) as [t' [seen' x1]] eqn:Hs. intros [Hlen HR]%IH.
  rewrite length_insert in Hlen. split; [done|]. etransitivity; [by eapply Hsection|done].
Qed.

Lemma among_respects `{!HostRespects R} q cur batches ts x r cur' batches' ts' x' :
  (∀ path, respects R (load_topology (app_manager config) path)) →
  (∀ v, respects R (_start_topology_datapath config v)) → respects R (_stop_topology_datapath (W:=W)) →
  manager_among_others q (cur, Disturbed (batches, ts) x) =
    (r, (cur', Disturbed (batches', ts') x')) →
  length ts' = length ts ∧ R x x'.
Proof.
  intros Hl Hstart Hstop.
  set (RE := (λ e e', length (snd e') = length (snd e)) : relation (list (list move) * list thread)).
  assert (PreOrder RE).
  { split; unfold RE; [done|]. intros e1 e2 e3. congruence. }
  assert (∀ path, respects (on_world (on_both RE R))
      (manager_apply (disturbed_manager (app_manager config)) path) ∧
    respects (on_world (on_both RE R)) (manager_destroy (disturbed_manager (app_manager config)))) as Hm.
  { intros path. apply disturbed_manager_respects; try done.
    - intros [bs ts1] y e' y'. unfold interfere, thread_interference.
      destruct (run_moves _ ts1 y) as [ts2 y2] eqn:Hr. intros [= <- <-]. by apply moves_respect in Hr.
    - intros start v [= <-]. apply Hstart.
    - by intros stop [= <-]. }
  intros Hr. destruct q as [path| |[| |path| | | | | | |]]; cbn [manager_among_others] in Hr;
    first [apply (proj2 (Hm "")) in Hr|apply (proj1 (Hm path)) in Hr]; exact Hr.
Qed.
End among.

Lemma manager_keeps_ok q cur batches ts x r cur' batches' ts' x' :
  manager_among_others q (cur, Disturbed (batches, ts) x) =
    (r, (cur', Disturbed (batches', ts') x')) →
  controller_ok config (fst x) → controller_ok config (fst x').
Proof.
  intros Hr. apply (among_respects (keeps_ok config)) in Hr as [_ Hr]; [exact Hr|..].
  - intros t seen y t1 seen1 y1 _ Hs. exact (section_keeps _ _ _ _ Hs).
  - apply _.
  - intros path. apply world_keeps.
  - intros v. by apply start_callback_keeps.
  - by apply stop_callback_keeps.
Qed.

Lemma interleaves_keeps drift s s' : rtc (interleaves drift) s s' → ok (snd s) → ok (snd s').
Proof.
  induction 1 as [|s s1 s2 Hstep _ IH]; [done|]. intros Hok. apply IH.
  destruct Hstep as [ts i t t' x x' _ Hs|ts i q bs cur x r cur' bs' ts' x' _ Hr|]; [..|done].
  - by eapply section_keeps.
  - by eapply manager_keeps_ok.
Qed.
End interleaving.

(** ** Claims *)

(** C11 Requests that run in threads: a request alone takes exactly its sections to
    the result of the operation, and in every interleaving of any number of
    requests, whose sections also run between the calls of a manager at work
    (another operation of the manager waits, and so does a stop that sees a
    topology recorded), and with the world changing in any way in between, the
    controller satisfies the invariant of the sequential runs. *)
Theorem interleaving_safe {W} `{Clock W} `{Processes W} `{Ipc W} `{Host W} `{Loader W} `{ExnText}
    `{!IpcLaws W} `{!IpcPayloads W} `{!PidLaws W} drift config c (w : W) (requests : list request) ts
    (x : option AppliedTopology * (controller * W)) :
  datapath_socket_path config ≠ "" → new_controller config = Ok c →
  rtc (interleaves config drift) (Requested <$> requests, (None, (c, w))) (ts, x) →
  (∀ path, sections config 3 (Requested (ReqApply path)) x =
    let '(r, x') := run_runtime_op config (RunApply path) x in (Finished r, x')) ∧
  sections config 4 (Requested ReqDestroy) x =
    (let '(r, x') := run_runtime_op config RunDestroy x in (Finished r, x')) ∧
  let c' := fst (snd x) in
  (is_Some (_supervisor c') ↔ supervise_datapath config = true) ∧
  (∀ cfg s, _supervisor c' = Some (cfg, s) →
    dpdkd_binary cfg = datapath_binary config ∧ socket_path cfg = datapath_socket_path config ∧
    (is_Some (_process s) ↔ is_Some (_client s)) ∧ carries s) ∧
  desired_valid (_desired_state c') ∧ observed_valid (_observed_state c') ∧
  _controller_message c' ≠ "".
Proof.
  intros Hp Hnew Hsteps. split; [intros path; apply sections_apply|]. split; [apply sections_destroy|].
  apply (interleaves_keeps config Hp) in Hsteps; [|by apply new_controller_ok].
  cbn in Hsteps. destruct Hsteps as [Hsup Hok Hd Ho Hm _]. split; [done|]. split; [|done].
  intros cfg s (Hb & Hs & Hpair & Hcar)%Hok. split_and!; [done|done| |done].
  destruct Hpair as [[-> ->]|(h & -> & ->)]; [done|]. by split; eexists.
Qed.

(** The schedule of the race below, from a new controller. *)
Definition race_requests : list request := [ReqAtomic RunStart; ReqApply "lab.yaml"; ReqDestroy].
Definition race_schedule : list turn := Turn <$> [0; 1; 1; 2; 2; 2; 2; 1]%nat.
Definition race_end : list thread * (option AppliedTopology * (controller * sim)) :=
  run_schedule app_config race_schedule (Requested <$> race_requests, (None, (app_new, app_host))).

Lemma interleaving_safe_witness :
  is_Some (_supervisor (fst (snd (snd race_end)))) ∧
  _controller_message (fst (snd (snd race_end))) ≠ "".
Proof.
  destruct race_end as [ts x] eqn:He.
  destruct (interleaving_safe (λ _ _, False) app_config app_new app_host race_requests ts x) as (_ & _ & Hs & _ & _ & _ & Hm).
  - discriminate.
  - apply app_new_ok.
  - rewrite <- He. apply run_schedule_interleaves.
  - split; [by apply Hs|exact Hm].
Defined.

Section overlap.
Context {W : Type} `{Clock W, Processes W, Ipc W, IpLaws W, Taps, Loader W, !QuietHost W}.
Context `{!NetStable (W := W), ExnText} (config : ControllerConfig).
Implicit Types x : option AppliedTopology * (controller * W).

(** One thread's sections around the whole of another's. *)
Lemma overlap_run drift ts i j ti tj ti' n1 n2 n3 x x1 x2 x3 :
  ts !! i = Some ti → ts !! j = Some tj → i ≠ j →
  sections config n1 ti x = (ti', x1) → sections config n2 tj x1 = (Finished (Ok ()), x2) →
  sections config n3 ti' x2 = (Finished (Ok ()), x3) →
  ∃ ts', rtc (interleaves config drift) (ts, x) (ts', x3) ∧
    ts' !! i = Some (Finished (Ok ())) ∧ ts' !! j = Some (Finished (Ok ())).
Proof.
  intros Hi Hj Hne Hs1 Hs2 Hs3. pose proof (lookup_lt_Some _ _ _ Hi). pose proof (lookup_lt_Some _ _ _ Hj).
  eexists. split.
  - etransitivity; [by apply (sections_interleave config drift n1 ti x ti' x1 ts i Hi Hs1)|]. etransitivity.
    + eapply (sections_interleave _ _ _ _ _ _ _ _ j); [|exact Hs2]. by rewrite list_lookup_insert_ne.
    + eapply (sections_interleave _ _ _ _ _ _ _ _ i); [|exact Hs3].
      rewrite list_lookup_insert_ne by done. by apply list_lookup_insert_eq.
  - rewrite list_lookup_insert_eq by (rewrite !length_insert; done). split; [done|].
    rewrite list_lookup_insert_ne by done. rewrite list_lookup_insert_eq; [done|]. by rewrite length_insert.
Qed.

Lemma finishing_ok (m : pym pyexn _ TopologyOperationResult) x x' :
  finishing m x = (Finished (Ok ()), x') → ∃ t, m x = (Ok t, x').
Proof.
  unfold finishing, forget, mbind, pym_mbind. destruct (m x) as [[t|e] x1]; [|done].
  intros [= <-]. by exists t.
Qed.

Lemma forget_ok {A} (m : pym pyexn (option AppliedTopology * (controller * W)) A) x x' :
  (let '(r, x1) := forget m x in (Finished r, x1)) = (Finished (Ok ()), x') → ∃ a, m x = (Ok a, x').
Proof.
  unfold forget, mbind, pym_mbind. destruct (m x) as [[a|e] x1]; [|done]. intros [= <-]. by exists a.
Qed.

Lemma sections_apply_managed path cur c (w : W) q t x1 :
  sections config 2 (Requested (ReqApply path)) (cur, (c, w)) = (Managed q (Ok t), x1) →
  manager_apply (app_manager config) path
    (cur, (reconciling ("applying topology from " +:+ path) c, w)) = (Ok t, x1).
Proof.
  unfold sections. cbn [Nat.iter nat_rect section]. destruct (blank path); [done|].
  change (snd (announce _ _)) with (cur, (reconciling ("applying topology from " +:+ path) c, w)).
  cbn [section]. destruct (manager_apply _ _ _) as [r x2]. by intros [= _ -> ->].
Qed.

Lemma sections_destroy_rest t x x' :
  sections config 2 (Managed ReqDestroy (Ok t)) x = (Finished (Ok ()), x') →
  ∃ t', destroyed_bookkeeping config t x = (Ok t', x').
Proof.
  unfold sections. cbn [Nat.iter nat_rect section]. unfold destroyed_bookkeeping, mbind at 1, pym_mbind at 1.
  destruct (on_snd _stop_topology_datapath x) as [[u|e] x1]; cbn [section]; [|done].
  intros [t' Ht]%finishing_ok. by exists t'.
Qed.

(** An apply recorded after the destroy of its topology. *)
Lemma late_apply path t x x1 x2 x3 :
  sections config 2 (Requested (ReqApply path)) x = (Managed (ReqApply path) (Ok t), x1) →
  sections config 4 (Requested ReqDestroy) x1 = (Finished (Ok ()), x2) →
  section config (Managed (ReqApply path) (Ok t)) x2 = (Finished (Ok ()), x3) →
  let shown := fst (snd x3) in
  fst x3 = None ∧ (∃ a, fst x1 = Some a ∧ gone a (snd (snd x2))) ∧
  topology_applied (_observed_state shown) = true ∧
  topology_config_path (_desired_state shown) = Some path ∧
  desired_datapath_running (_desired_state shown) = true.
Proof.
  destruct x as [cur [c w]], x1 as [cur1 [c1 w1]], x2 as [cur2 [c2 w2]], x3 as [cur3 [c3 w3]].
  intros Hm%sections_apply_managed. rewrite sections_destroy. cbn [run_runtime_op section].
  intros [t2 Hd]%forget_ok [t3 Hb]%finishing_ok.
  apply manager_apply_ok in Hm as (top & v & w0 & running & _ & _ & -> & -> & _); [|apply _].
  apply destroy_topology_cleared in Hd as (-> & _ & _ & _ & Hgone).
  apply applied_bookkeeping_ok in Hb as (_ & -> & _ & Hd & _ & status & c4 & _ & Ho & _).
  cbn [fst snd]. rewrite Hd, Ho. split_and!; [done| |done..]. eexists. split; [done|]. exact (Hgone _ eq_refl).
Qed.

(** A destroy that settles after a later apply. *)
Lemma late_destroy path t x x1 x2 x3 :
  sections config 2 (Requested ReqDestroy) x = (Managed ReqDestroy (Ok t), x1) →
  sections config 3 (Requested (ReqApply path)) x1 = (Finished (Ok ()), x2) →
  sections config 2 (Managed ReqDestroy (Ok t)) x2 = (Finished (Ok ()), x3) →
  let shown := fst (snd x3) in
  (∃ a, fst x3 = Some a ∧ applied_config_path a = path) ∧
  topology_applied (_observed_state shown) = false ∧
  topology_config_path (_desired_state shown) = None ∧
  desired_datapath_running (_desired_state shown) = false ∧
  ∀ cfg s, _supervisor shown = Some (cfg, s) → _process s = None.
Proof.
  destruct x as [cur [c w]], x1 as [cur1 [c1 w1]], x2 as [cur2 [c2 w2]], x3 as [cur3 [c3 w3]].
  intros _. rewrite sections_apply. cbn [run_runtime_op].
  intros [t2 Ha]%forget_ok [t3 Hd]%sections_destroy_rest.
  apply apply_topology_built in Ha as (top & v & w0 & _ & _ & -> & _).
  apply destroyed_bookkeeping_ok in Hd as (_ & -> & Hd & _ & Ho & _ & _ & Hrest).
  cbn [fst snd]. rewrite Hd, Ho. split_and!; [by eexists|done..|]. intros cfg s Hs.
  by rewrite (Hrest cfg s Hs).
Qed.
End overlap.


(** Both races, from the started controller. *)
Definition race_pair : list thread := [Requested (ReqApply "lab.yaml"); Requested ReqDestroy].

