(* ===== verification/ConcurrentRecord.v ===== *)
(** * The record of concurrent requests

    However the requests interleave: as long as no takedown raised, the
    topology the manager has recorded is the one whose network is on the
    host. *)

From stdpp Require Import relations.
From S2P Require Import Prelude PyStr Errors Types State Issues TopologyValidation TopologySpec TopologyProps Clock.
From S2P Require Import DpdkModels Supervisor SupervisorMoves Netns SimWorld Topology TopologyWiring.
From S2P Require Import Manager ManagerProps ManagerMoves App AppProps SimController AppInvariant.
From S2P Require Import AppClaims Interference Interleaving.
#[local] Open Scope string_scope.
#[local] Open Scope list_scope.

(** A host on which nothing that is done with the datapath changes the network
    of a topology: a daemon brings its TAPs and takes them with it. *)
Class CalmHost (W : Type) `{Clock W, Processes W, Ipc W, IpLaws W, Taps, Loader W} : Prop := {
  calm_running :: RunningRespects (W:=W) same_net;
  calm_ending :: EndingRespects (W:=W) adds_no_net;
  calm_load path : respects same_net (load_topology_config (W:=W) path);
  calm_ports path : respects same_net (ipc_get_ports (W:=W) path);
  calm_stats path : respects same_net (ipc_get_stats (W:=W) path);
  calm_reset path : respects same_net (ipc_reset_stats (W:=W) path);
  calm_pause path : respects same_net (ipc_pause_datapath (W:=W) path);
  calm_resume path : respects same_net (ipc_resume_datapath (W:=W) path);
}.

Lemma respects_weaken {W A} (R R' : relation W) (m : pym pyexn W A) :
  (∀ x y, R x y → R' x y) → respects R m → respects R' m.
Proof. intros HR Hm x r x' Hr. by eapply HR, Hm. Qed.

#[export] Instance calm_quiet `{CalmHost W} : QuietHost W.
Proof.
  assert (∀ x y : W, same_net x y → keeps_net x y) as HR by (intros x y Hs f Hf Ht; by apply Hs).
  split; [|apply _]. constructor; [constructor; [apply _|..]|..]; intros;
    eapply respects_weaken; try exact HR; moves.
Qed.

Section record.
Context {W : Type} `{CalmHost W, !NetStable (W := W), ExnText}.
Context (config : ControllerConfig).

Abbreviation S := (option AppliedTopology * (controller * W))%type.
Abbreviation M := (pym pyexn S).
Abbreviation R := (on_world (S := controller) (same_net (X := W))).

(** Neither the record nor the topology's network changes. *)
Definition steady : relation S := λ x x', fst x' = fst x ∧ R (snd x) (snd x').

#[export] Instance steady_preorder : PreOrder steady.
Proof.
  split; [by intros x|]. intros x y z [Hxy Rxy] [Hyz Ryz]. split; [congruence|].
  unfold on_world in *. by etransitivity.
Qed.

Lemma steady_on_snd {A} (m : pym pyexn (controller * W) A) : respects R m → respects steady (on_snd m).
Proof.
  intros Hm [cur x] r [cur' x'] [-> Hr]%on_snd_inv. split; [done|]. by eapply Hm.
Qed.

Lemma gets_steady {A} (f : S → A) : respects steady (gets f : M A).
Proof. apply respects_gets, _. Qed.

(** ** The controller's methods *)

Lemma set_c_steady f : respects R (set_c (W:=W) f).
Proof. by apply set_c_moves, _. Qed.
Lemma get_c_steady {A} (f : controller → A) : respects R (get_c (W:=W) f).
Proof. apply respects_gets, _. Qed.
Lemma status_steady : respects R (_current_datapath_status_locked config).
Proof. exact (current_status_moves config same_net). Qed.
Lemma stop_steady : respects R (_stop_topology_datapath (W:=W)).
Proof. exact (stop_callback_moves same_net). Qed.
#[local] Hint Resolve set_c_steady get_c_steady status_steady stop_steady steady_on_snd gets_steady : respects.

Lemma desire_steady d : respects R (desire (W:=W) d).
Proof. unfold desire. moves. Qed.
Lemma observe_steady st b e : respects R (observe (W:=W) st b e).
Proof. unfold observe, _observed_from_datapath. moves. Qed.
Lemma recompute_steady st : respects R (_recompute_controller_health (W:=W) config st).
Proof. unfold _recompute_controller_health. moves. Qed.
#[local] Hint Resolve desire_steady observe_steady recompute_steady : respects.
Lemma reobserve_steady st : respects R (reobserve (W:=W) st).
Proof. unfold reobserve. moves. Qed.
#[local] Hint Resolve reobserve_steady : respects.

Lemma data_steady {A} cfg purpose (call : string → pym pyexn W (CommandResult A)) :
  (∀ path, respects same_net (call path)) →
  respects (on_world (S:=supervisor_state) same_net) (data_command cfg purpose call).
Proof.
  intros Hc. pose proof (moves_status cfg same_net) as Hs. unfold supervisor_status in Hs.
  pose proof (moves_require cfg same_net) as Hq.
  assert (∀ path, respects (on_world (S:=supervisor_state) same_net) (world (call path))) as Hw
    by (intros path; by apply moves_world).
  unfold data_command. moves.
Qed.

Lemma with_steady {A} call none :
  (∀ cfg, respects (on_world (S:=supervisor_state) same_net) (call cfg)) → respects R none →
  respects R (with_supervisor (W:=W) (A:=A) call none).
Proof. by apply with_supervisor_moves, _. Qed.

Lemma raise_if_failed_steady {A} (r : CommandResult A) : respects R (raise_if_failed (W:=W) r).
Proof. unfold raise_if_failed. moves. Qed.
Lemma not_supervising_steady {A} : respects R (not_supervising (W:=W) (A:=A)).
Proof. unfold not_supervising. moves. Qed.
#[local] Hint Resolve raise_if_failed_steady not_supervising_steady : respects.

Lemma health_steady : respects R (health_snapshot config).
Proof. unfold health_snapshot. moves. Qed.
#[local] Hint Resolve health_steady : respects.

Lemma supervisor_steady cfg :
  respects (on_world same_net) (supervisor_get_ports (W:=W) cfg) ∧
  respects (on_world same_net) (supervisor_get_stats (W:=W) cfg) ∧
  respects (on_world same_net) (supervisor_reset_stats (W:=W) cfg) ∧
  respects (on_world same_net) (supervisor_pause_datapath (W:=W) cfg) ∧
  respects (on_world same_net) (supervisor_resume_datapath (W:=W) cfg) ∧
  respects (on_world same_net) (supervisor_start (W:=W) cfg).
Proof.
  split_and!; try (apply data_steady; intros path);
    [apply calm_ports|apply calm_stats|apply calm_reset|apply calm_pause|apply calm_resume|].
  apply moves_start, _.
Qed.

(** The operations that leave the manager alone. *)
Definition leaves_manager (o : runtime_op) : bool :=
  match o with RunStop | RunApply _ | RunDestroy => false | _ => true end.

Lemma op_steady o : leaves_manager o = true → respects steady (run_runtime_op config o).
Proof.
  assert (∀ A (m : M A), respects steady m → respects steady (forget m)) as Hf
    by (intros A m Hm; unfold forget; moves).
  assert (respects R (runtime_start config)) as Hstart.
  { pose proof (with_steady supervisor_start (mret (_unmanaged_datapath_status config))) as Hw.
    unfold runtime_start, _clear_controller_override. moves. apply Hw; [|moves].
    intros cfg. by apply supervisor_steady. }
  assert (respects R (datapath_status_snapshot config)) as Hstatus.
  { unfold datapath_status_snapshot. moves. apply with_steady; [|moves]. intros cfg.
    apply respects_bind; [apply _|by apply supervisor_steady|intros ?; moves]. }
  assert (∀ A call, (∀ cfg, respects (on_world same_net) (call cfg)) →
    respects R (with_supervisor (W:=W) (A:=CommandResult A) call not_supervising)) as Hdata
    by (intros A call Hc; apply with_steady; [done|moves]).
  pose proof supervisor_steady as Hsup.
  destruct o; try done; intros _; cbn [run_runtime_op]; try apply Hf; apply steady_on_snd; try done;
    unfold health_snapshot, datapath_stats_snapshot, reset_datapath_stats, runtime_pause_datapath,
      runtime_resume_datapath, _run_datapath_control_command; moves;
    apply Hdata; intros cfg; by apply Hsup.
Qed.

Lemma handlers_steady path e t :
  (∀ A, respects steady (on_apply_error (A:=A) config path e)) ∧
  (∀ A, respects steady (on_destroy_error (A:=A) config e)) ∧
  respects steady (applied_bookkeeping config t) ∧
  respects steady (destroyed_settle config t) ∧
  respects steady (on_snd (_stop_topology_datapath (W:=W)) : M ()) ∧
  ∀ m, respects steady (on_snd (_clear_controller_override (W:=W));;
                        on_snd (set_c (set_phase CS_reconciling m)) : M ()).
Proof.
  split_and!; unfold on_apply_error, on_destroy_error, applied_bookkeeping, destroyed_settle,
    _clear_controller_override; [intros A|intros A| | | |intros m]; moves.
Qed.

(** Stopping without a topology stops the supervisor, no more. *)
Lemma stop_none_steady cw r x' : runtime_stop config (None, cw) = (r, x') → steady (None, cw) x'.
Proof.
  assert (hoare (λ y, steady (None, cw) y) (runtime_stop config)
    (λ _ y, steady (None, cw) y) (λ _ y, steady (None, cw) y)) as Hstop.
  { assert (∀ A (m : M A), respects steady m →
      hoare (λ y, steady (None, cw) y) m (λ _ y, steady (None, cw) y) (λ _ y, steady (None, cw) y)) as Hsteady.
    { intros A m Hm y Hy. destruct (m y) as [[a|e] y'] eqn:Hr; apply Hm in Hr; by etransitivity. }
    unfold runtime_stop, _clear_controller_override.
    eapply hoare_bind; [apply Hsteady; moves|intros [|]]; cbn [negb]; [|apply Hsteady; moves].
    do 2 (eapply hoare_bind; [apply Hsteady; moves|intros ?]).
    eapply hoare_bind; [by apply (hoare_gets (λ y, steady (None, cw) y) fst
      (λ current y, steady (None, cw) y ∧ fst y = current))|intros current].
    eapply hoare_bind; [|intros ?; apply Hsteady; moves].
    intros y [Hy <-]. destruct Hy as [Hcur Hy]. rewrite Hcur. cbn [has_applied_topology fst].
    apply (Hsteady _ (on_snd (_stop_topology_datapath (W:=W)))); [moves|]. by split. }
  intros Hrun. specialize (Hstop (None, cw) (reflexivity _)). rewrite Hrun in Hstop. by destruct r.
Qed.

Lemma section_steady t x t' x' :
  calls_manager t (fst x) = false → section config t x = (t', x') → steady x x'.
Proof.
  pose proof handlers_steady as Hh.
  assert (∀ m x, steady x (snd (announce m x))) as Ha.
  { intros m y. destruct (announce m y) as [r y'] eqn:Hy.
    destruct (Hh "" (ValueError None) (mkOperationResult op_destroy None None false None false "" None None))
      as (_ & _ & _ & _ & _ & Hm). by apply (Hm m y r y'). }
  assert (∀ (m : M TopologyOperationResult), respects steady m → finishing m x = (t', x') → steady x x') as Hf.
  { intros m Hm. unfold finishing, forget, mbind, pym_mbind.
    destruct (m x) as [[a|e] x1] eqn:Hr; intros [= _ <-]; by eapply Hm. }
  assert (∀ o, leaves_manager o = true →
    (let '(r, x') := run_runtime_op config o x in (Finished r, x')) = (t', x') → steady x x') as Ho.
  { intros o Hl. destruct (run_runtime_op config o x) as [r x1] eqn:Hr. intros [= _ <-].
    by eapply op_steady. }
  destruct t as [[path| |o]|q|[path| |o] [t|e]|t|r]; try done; intros Hc; cbn [section].
  - destruct (blank path); intros [= _ <-]; [done|apply Ha].
  - intros [= _ <-]. apply Ha.
  - destruct o as [| |path| | | | | | |]; try done; try by apply Ho.
    + destruct x as [[a|] cw]; [done|]. cbn [run_runtime_op].
      destruct (runtime_stop config (None, cw)) as [r x1] eqn:Hr. intros [= _ <-].
      by eapply stop_none_steady.
    + destruct (blank path); intros [= _ <-]; [done|apply Ha].
    + intros [= _ <-]. apply Ha.
  - by apply Hf, (Hh path (ValueError None) t).
  - by apply Hf, (Hh path e (mkOperationResult op_apply None None false None false "" None None)).
  - destruct (on_snd _stop_topology_datapath x) as [r x1] eqn:Hr. intros [= _ <-].
    destruct (Hh "" (ValueError None) t) as (_ & _ & _ & _ & Hstop & _). by apply Hstop in Hr.
  - by apply Hf, (Hh "" e (mkOperationResult op_apply None None false None false "" None None)).
  - by intros [= _ <-].
  - by intros [= _ <-].
  - by apply Hf, (Hh "" (ValueError None) t).
  - by intros [= _ <-].
Qed.

(** Sections of other threads are harmless. *)
#[local] Instance threads : Interference (list (list move) * list thread) (controller * W) :=
  thread_interference config.
#[local] Instance threads_harmless : Harmless (list (list move) * list thread) (controller * W).
Proof.
  intros [batches ts] y. unfold interfere, threads, thread_interference.
  destruct (run_moves _ _ ts y) as [ts' y'] eqn:Hr. cbn [snd].
  apply (moves_respect config R) in Hr as [_ Hr]; [exact Hr|].
  intros t seen z t1 seen1 z1 Ht Hs. by apply (section_steady _ (seen, z) _ _ Ht) in Hs as [_ Hs].
Qed.

(** ** Takedowns *)

(** Does an operation of the manager fail to take a topology down? *)
Definition manager_takedown_raises {X} `{Host X, Clock X} (m : ManagerConfig X) (q : request)
    (x : option AppliedTopology * X) : bool :=
  match q with
  | ReqApply path | ReqAtomic (RunApply path) => takedown_raises m path x
  | _ => raises (manager_destroy m x)
  end.

(** Does a section?  Stopping does when it raises with the record kept. *)
Definition section_takedown_raises (t : thread) (x : S) : bool :=
  match t with
  | Announced q => manager_takedown_raises (app_manager config) q x
  | Requested (ReqAtomic RunStop) =>
      let r := runtime_stop config x in raises r && has_applied_topology (fst (snd r))
  | _ => false
  end.

Definition recorded (x : S) : Prop := ∀ a, fst x = Some a → network_of a (snd x).

Lemma recorded_none x : fst x = None → recorded x.
Proof. intros Hx a. by rewrite Hx. Qed.

Lemma recorded_steady x x' : steady x x' → recorded x → recorded x'.
Proof.
  intros [Hcur Hnet] Hx a Ha. rewrite Hcur in Ha. eapply network_moves; [|by apply Hx]. exact Hnet.
Qed.

(** Stopping takes the topology down, if there is one. *)
Lemma stop_record x r x' :
  runtime_stop config x = (r, x') →
  fst x' = None ∨ steady x x' ∨ ∃ e, r = Err e ∧ is_Some (fst x').
Proof.
  set (J := λ y, fst y = None ∨ steady x y).
  set (F := λ (e : pyexn) y, J y ∨ is_Some (fst y)).
  assert (∀ A (m : M A), respects steady m → hoare J m (λ _, J) F) as Hsteady.
  { intros A m Hm y Hy. destruct (m y) as [[a|e] y'] eqn:Hr; apply Hm in Hr as [Hcur Hnet];
      [|left]; (destruct Hy as [Hy|Hy]; [left; congruence|right; by etransitivity]). }
  assert (∀ current, hoare (λ y, J y ∧ fst y = current)
    (if has_applied_topology current then manager_destroy (app_manager config);; mret ()
     else on_snd _stop_topology_datapath) (λ _, J) F) as Hend.
  { intros current [cur cw] [Hy <-]. cbn [fst]. destruct (has_applied_topology cur).
    - unfold mbind, pym_mbind.
      destruct (manager_destroy _ _) as [[t|e] [cur' cw']] eqn:Hd; apply destroy_record in Hd; try apply _;
        [left; by destruct Hd|right; destruct Hd as (-> & a & -> & _); by eexists].
    - apply (Hsteady _ (on_snd (_stop_topology_datapath (W:=W)))); [moves|exact Hy]. }
  assert (hoare J (runtime_stop config) (λ _, J) F) as Hstop.
  { unfold runtime_stop, _clear_controller_override.
    eapply hoare_bind; [apply Hsteady; moves|intros [|]]; cbn [negb]; [|apply Hsteady; moves].
    do 2 (eapply hoare_bind; [apply Hsteady; moves|intros ?]).
    eapply hoare_bind; [by apply (hoare_gets J fst (λ current y, J y ∧ fst y = current))|intros current].
    eapply hoare_bind; [apply Hend|intros ?]. apply Hsteady. moves. }
  intros Hrun. specialize (Hstop x (or_intror (reflexivity x))). rewrite Hrun in Hstop.
  destruct r as [u|e]; [destruct Hstop; auto|]. destruct Hstop as [[?|?]|?]; eauto.
Qed.

(** ** Every step *)

(** A step in which no takedown raises, on a calm host. *)
Inductive calm_step : list thread * S → list thread * S → Prop :=
| calm_section ts i t t' x x' :
    ts !! i = Some t → section config t x = (t', x') → section_takedown_raises t x = false →
    calm_step (ts, x) (<[i:=t']> ts, x')
| calm_manager ts i q batches cur x r cur' batches' ts' x' :
    ts !! i = Some (Announced q) →
    manager_among_others config q (cur, Disturbed (batches, ts) x) =
      (r, (cur', Disturbed (batches', ts') x')) →
    manager_takedown_raises (disturbed_manager (app_manager config)) q
      (cur, Disturbed (batches, ts) x) = false →
    calm_step (ts, (cur, x)) (<[i := Managed q r]> ts', (cur', x'))
| calm_world ts cur c w w' : same_net w w' → calm_step (ts, (cur, (c, w))) (ts, (cur, (c, w'))).

(** It is a step of the interleaving. *)
Lemma calm_step_interleaves s s' : calm_step s s' → interleaves config same_net s s'.
Proof. destruct 1; [by eapply inter_section|by eapply inter_manager|by apply inter_world]. Qed.

(** What an operation of the manager comes to when no takedown raises. *)
Definition managed_outcome (x : S) (x' : S) : Prop :=
  (∃ a, fst x' = Some a ∧ network_of a (snd x')) ∨ fst x' = None ∨
  (fst x' = fst x ∧ R (snd x) (snd x')).

Lemma outcome_recorded x x' : managed_outcome x x' → recorded x → recorded x'.
Proof.
  intros [(a & Ha & Hn)|[Hn|Hs]] Hx; [|by apply recorded_none|by eapply recorded_steady].
  intros b Hb. rewrite Ha in Hb. by injection Hb as <-.
Qed.

Lemma load_steady path : respects R (load_topology (app_manager config) path).
Proof. intros [c w] r [c' w'] [-> Hr]%on_snd_inv. exact (calm_load path w r w' Hr). Qed.

Lemma alone_outcome q x r x' :
  section config (Announced q) x = (Managed q r, x') →
  manager_takedown_raises (app_manager config) q x = false → managed_outcome x x'.
Proof.
  destruct x as [cur cw], x' as [cur' cw']. destruct q as [path| |o]; cbn [section manager_takedown_raises].
  - destruct (manager_apply _ _ _) as [r1 [cur1 cw1]] eqn:Hm. intros [= <- <- <-] Ht.
    apply apply_record in Hm; [|apply _]. destruct r1 as [t|e]; [destruct Hm as (a & ? & _ & ?); left; by exists a|].
    destruct Hm as [(-> & _ & Hl)|[[_ ?]|[? _]]]; [do 2 right|congruence|by right; left].
    split; [done|]. destruct Hl as [Hl|(c & Hl & _)]; by apply load_steady in Hl.
  - intros Hs Hr. unfold raises in Hr.
    destruct (manager_destroy _ _) as [[t|e] [cur1 cw1]] eqn:Hm; [|done]. injection Hs as _ <- <-.
    apply destroy_record in Hm; [|apply _]. right. left. by destruct Hm.
  - done.
Qed.

Lemma among_outcome q cur batches ts y r cur' batches' ts' y' :
  manager_among_others config q (cur, Disturbed (batches, ts) y) =
    (r, (cur', Disturbed (batches', ts') y')) →
  manager_takedown_raises (disturbed_manager (app_manager config)) q (cur, Disturbed (batches, ts) y) = false →
  managed_outcome (cur, y) (cur', y').
Proof.
  assert (∀ path, manager_apply (disturbed_manager (app_manager config)) path
      (cur, Disturbed (batches, ts) y) = (r, (cur', Disturbed (batches', ts') y')) →
    takedown_raises (disturbed_manager (app_manager config)) path (cur, Disturbed (batches, ts) y) = false →
    managed_outcome (cur, y) (cur', y')) as Ha.
  { intros path Hm Ht. apply (disturbed_apply_record (app_manager config)) in Hm.
    destruct r as [t|e]; [destruct Hm as (a & ? & _ & ?); left; by exists a|].
    apply apply_raised_early in Hm as [?|[[_ ?]|(? & _ & ?)]];
      [by right; left|congruence|by do 2 right|apply load_steady]. }
  assert (manager_destroy (disturbed_manager (app_manager config))
      (cur, Disturbed (batches, ts) y) = (r, (cur', Disturbed (batches', ts') y')) →
    raises (manager_destroy (disturbed_manager (app_manager config)) (cur, Disturbed (batches, ts) y)) = false →
    managed_outcome (cur, y) (cur', y')) as Hd.
  { intros Hm Hr. unfold raises in Hr. rewrite Hm in Hr. destruct r as [t|e]; [|done].
    apply (disturbed_destroy_record (app_manager config)) in Hm. right. left. by destruct Hm. }
  destruct q as [path| |[| |path| | | | | | |]]; cbn [manager_among_others manager_takedown_raises];
    first [exact (Ha _)|exact Hd].
Qed.

Lemma calm_step_recorded s s' : calm_step s s' → recorded (snd s) → recorded (snd s').
Proof.
  destruct 1 as [ts i t t' x x' Hi Hs Ht|ts i q bs cur y r cur' bs' ts' y' Hi Hr Ht|ts cur c w w' Hdrift];
    cbn [fst snd].
  - destruct (calls_manager t (fst x)) eqn:Hc; [|by apply recorded_steady, (section_steady _ _ _ _ Hc Hs)].
    destruct t as [[path| |[]]|q| | |]; try done.
    + cbn [section section_takedown_raises] in *.
      destruct (run_runtime_op config RunStop x) as [r x1] eqn:Hr. injection Hs as <- <-.
      cbn [run_runtime_op] in Hr. rewrite Hr in Ht.
      apply stop_record in Hr as [Hn|[Hs|(e & -> & [a Ha])]];
        [intros _; by apply recorded_none|by apply recorded_steady|].
      cbn in Ht. by rewrite Ha in Ht.
    + assert ((∃ r, t' = Managed q r) ∨ x' = x) as [[r ->]| ->]; [..|done].
      { cbn [section] in Hs. destruct q; [destruct (manager_apply _ _ _)|destruct (manager_destroy _ _)|];
          injection Hs as <- <-; eauto. }
      apply outcome_recorded. by eapply alone_outcome.
  - apply outcome_recorded. by eapply among_outcome.
  - apply recorded_steady. by split.
Qed.

(** A schedule in which no turn fails to take a topology down. *)
Definition calm_turn (a : turn) (s : list thread * S) : bool :=
  let '(ts, (cur, x)) := s in
  match a with
  | Turn i => match ts !! i with Some t => negb (section_takedown_raises t (cur, x)) | None => true end
  | Work i batches =>
      match ts !! i with
      | Some (Announced q) =>
          negb (manager_takedown_raises (disturbed_manager (app_manager config)) q
            (cur, Disturbed (batches, ts) x))
      | _ => true
      end
  end.

Fixpoint calm_schedule (schedule : list turn) (s : list thread * S) : bool :=
  match schedule with
  | [] => true
  | a :: schedule' => calm_turn a s && calm_schedule schedule' (take_turn config a s)
  end.

Lemma calm_turn_step a s :
  calm_turn a s = true → take_turn config a s = s ∨ calm_step s (take_turn config a s).
Proof.
  destruct s as [ts [cur x]]. destruct a as [i|i batches]; cbn [take_turn calm_turn];
    destruct (ts !! i) as [t|] eqn:Ht; [|by left| |by left].
  - intros Hc%negb_true_iff. destruct (section config t (cur, x)) as [t' x'] eqn:Hs. right.
    by eapply calm_section.
  - destruct t as [|q| | |]; [by left| |by left..]. intros Hc%negb_true_iff.
    destruct (manager_among_others _ _ _) as [r [cur' [[bs ts'] x']]] eqn:Hr. right.
    by eapply calm_manager.
Qed.

Lemma calm_schedule_run schedule s :
  calm_schedule schedule s = true → rtc calm_step s (run_schedule config schedule s).
Proof.
  revert s. induction schedule as [|a schedule IH]; intros s; [done|]. cbn [calm_schedule].
  intros [Hc%calm_turn_step Hs%IH]%andb_true_iff. cbn [run_schedule fold_left].
  destruct Hc as [Heq|Hstep]; [by rewrite Heq in *|]. by eapply rtc_l.
Qed.
End record.

(** ** Claims *)

(** C7 The record means the network: however the sections of any number of
    requests interleave, also between the calls of a manager at work, and
    while the datapath comes and goes on a host that otherwise leaves the
    network alone, as long as no step of an apply, a destroy or a stop raised
    while taking a topology down, every wire, address and route outside the
    datapath's interfaces of the topology the manager has recorded is on the
    host.  This for topologies no port of which is named like the kernel
    interface of the other side and no link or bridge of which is named like
    an interface of the datapath, on a host whose namespaces have no white
    space in their names. *)
Theorem record_means_network {W} `{CalmHost W, !NetStable (W := W), ExnText} config c (w : W)
    (requests : list request) ts cur c' w' a :
  rtc (calm_step config) (Requested <$> requests, (None, (c, w))) (ts, (cur, (c', w'))) →
  cur = Some a →
  let topology := vt_topology (applied_validated a) in
  ports_uncrossed topology → wired topology → plain_host w' →
  ∀ f, wanted topology f → ¬ tap_fact f → holds w' f.
Proof.
  intros Hsteps Ha.
  assert (∀ s s', rtc (calm_step config) s s' → recorded (snd s) → recorded (snd s')) as Hall.
  { induction 1 as [|s s1 s2 Hstep _ IH]; [done|]. intros Hs. by apply IH, (calm_step_recorded config s). }
  apply Hall in Hsteps; [|by apply recorded_none]. exact (Hsteps a Ha).
Qed.

(** ** A simulated run *)

#[local] Instance sim_calm : CalmHost sim.
Proof.
  assert (∀ A (m : pym pyexn sim A),
    (∀ s r s', m s = (r, s') → sim_net s' = sim_net s) → respects same_net m ∧ respects adds_no_net m) as Hsame.
  { intros A m Hm. split; intros s r s' Hr f; unfold holds; cbn; unfold sim_holds;
      by rewrite (Hm _ _ _ Hr). }
  assert (∀ A (reply : A), respects same_net (sim_call reply)) as Hcall.
  { intros A reply. apply Hsame. intros s r s'. unfold sim_call. by destruct (_ && _); intros [= _ <-]. }
  assert (∀ R : relation sim, (R = same_net ∨ R = adds_no_net) → PreOrder R → EndingRespects R) as Hend.
  { intros R HR Hpre. constructor; [done|..]; intros; destruct HR as [-> | ->]; apply Hsame;
      intros s r s'; cbn; unfold mret, pym_mret; try (by intros [= _ <-]); by destruct (sim_running s); intros [= _ <-]. }
  split; try (intros path; apply Hcall); [constructor| |].
  - apply Hend; [by left|apply _].
  - apply Hsame. by intros s r s' [= _ <-].
  - intros d. apply Hsame. by intros s r s' [= _ <-].
  - intros argv s r s'. cbn. destruct (sim_spawnable s); intros [= _ <-]; [|done].
    intros f Ht. symmetry. exact (sim_taps_add s f Ht).
  - intros path. apply Hcall.
  - intros path. apply Hcall.
  - intros path. apply Hcall.
  - apply Hend; [by right|]. split; [intros s f Hf; exact Hf|]. intros s1 s2 s3 H12 H23 f Hf. auto.
  - intros path s r s'. unfold load_topology_config, app_loader.
    case_decide; intros [= _ <-]; done.
Qed.

(** A start, an apply, and a health request answered between the calls of the
    manager at work. *)
Definition calm_requests : list request :=
  [ReqAtomic RunStart; ReqApply "lab.yaml"; ReqAtomic RunHealth].
Definition calm_turns : list turn := [Turn 0; Turn 1; Work 1 [[]; []; [(2%nat, None)]]; Turn 1].
Definition calm_start : list thread * (option AppliedTopology * (controller * sim)) :=
  (Requested <$> calm_requests, (None, (app_new, app_host))).
Definition calm_end := run_schedule app_config calm_turns calm_start.

Lemma record_means_network_witness :
  fst calm_end = [Finished (Ok ()); Finished (Ok ()); Finished (Ok ())] ∧
  holds (snd (snd (snd calm_end))) (HasMaster "dpdk-host" "veth-in-k" "br-in").
Proof.
  assert (rtc (calm_step app_config) calm_start calm_end) as Hrun
    by (apply calm_schedule_run; vm_compute; reflexivity).
  assert (fst calm_end = [Finished (Ok ()); Finished (Ok ()); Finished (Ok ())]) as Hends
    by (vm_compute; reflexivity).
  assert ((vt_topology ∘ applied_validated <$> fst (snd calm_end)) = Some linear_basic) as Hrec
    by (vm_compute; reflexivity).
  assert (sim_plain (snd (snd (snd calm_end))) = true) as Hplain by (vm_compute; reflexivity).
  split; [exact Hends|]. destruct calm_end as [ts [cur [c w]]]. cbn [fst snd] in *.
  apply fmap_Some in Hrec as (a & Ha & Htop).
  pose proof (record_means_network app_config app_new app_host calm_requests ts cur c w a Hrun Ha) as Hnet.
  change (vt_topology (applied_validated a)) with ((vt_topology ∘ applied_validated) a) in Hnet.
  rewrite <- Htop in Hnet. apply Hnet.
  - exact linear_uncrossed.
  - exact linear_wired.
  - exact (sim_plain_host w Hplain).
  - apply WantIngressBridged.
  - intros [?|?]; discriminate.
Defined.
