(* ===== verification/Locks.v ===== *)
(** * The locks of the controller

    Three reentrant locks: the topology manager's, the controller's and the
    supervisor's.  An operation is the sequence of its acquisitions and
    releases.  Operations that take the locks in one order never block each
    other for good; [ControllerRuntime.stop] takes the first two in the
    opposite order. *)

From stdpp Require Import relations.
From S2P Require Import Prelude.

Inductive lock : Type := LManager | LController | LSupervisor.
#[export] Instance lock_eq_dec : EqDecision lock.
Proof. solve_decision. Defined.

Inductive action : Type := Acquire (l : lock) | Release (l : lock).

(** ** The operations of the source *)

(** [with lock: ...] *)
Definition with_lock (l : lock) (body : list action) : list action := Acquire l :: body ++ [Release l].

(** A section of the controller with some calls of its supervisor: the
    operations that are one such section, and the callbacks given to the
    manager. *)
Definition controller_section (calls : nat) : list action :=
  with_lock LController (concat (replicate calls (with_lock LSupervisor []))).

(** An operation of the manager with its calls of the callbacks. *)
Definition manager_section (callbacks : list nat) : list action :=
  with_lock LManager (concat (controller_section <$> callbacks)).

(** [datapath_status_snapshot]: [health_snapshot] takes the controller's lock
    again. *)
Definition status_locks (calls ports : nat) : list action :=
  with_lock LController
    (controller_section calls ++ concat (replicate ports (with_lock LSupervisor []))).

(** [apply_topology]: announce, let the manager work, record. *)
Definition apply_locks (callbacks : list nat) (calls : nat) : list action :=
  controller_section 0 ++ manager_section callbacks ++ controller_section calls.

(** [destroy_topology]: the same, and the datapath is stopped in between. *)
Definition destroy_locks (callbacks : list nat) (calls : nat) : list action :=
  controller_section 0 ++ manager_section callbacks ++ controller_section 1
  ++ controller_section calls.

(** [stop]: the manager works while the controller's lock is held. *)
Definition stop_locks (callbacks : list nat) : list action :=
  with_lock LController (manager_section callbacks).

(** ** Threads *)

(** The locks a thread holds, the last acquired first, and what it has left
    to do. *)
Record locker : Type := mkLocker { held : list lock; todo : list action }.

Definition fresh (actions : list action) : locker := mkLocker [] actions.

(** A lock is given to a thread when no other thread holds it. *)
Inductive lock_step : list locker → list locker → Prop :=
| step_acquire ts i h l p :
    ts !! i = Some (mkLocker h (Acquire l :: p)) →
    (∀ j t, j ≠ i → ts !! j = Some t → l ∉ held t) →
    lock_step ts (<[i := mkLocker (l :: h) p]> ts)
| step_release ts i h l p :
    ts !! i = Some (mkLocker (l :: h) (Release l :: p)) →
    lock_step ts (<[i := mkLocker h p]> ts).

(** The first step of a thread, when no lock it wants is held. *)
Lemma acquires i h l p ts ts' :
  ts !! i = Some (mkLocker h (Acquire l :: p)) →
  Forall (λ t, l ∉ held t) (delete i ts) →
  <[i := mkLocker (l :: h) p]> ts = ts' → lock_step ts ts'.
Proof.
  intros Hi Hfree <-. apply step_acquire; [done|]. intros j t Hj Ht.
  rewrite Forall_lookup in Hfree. destruct (decide (j < i)).
  - apply (Hfree j). by rewrite list_lookup_delete_lt.
  - apply (Hfree (pred j)). rewrite list_lookup_delete_ge by lia.
    by replace (S (pred j)) with j by lia.
Qed.

Lemma releases i h l p ts ts' :
  ts !! i = Some (mkLocker (l :: h) (Release l :: p)) →
  <[i := mkLocker h p]> ts = ts' → lock_step ts ts'.
Proof. intros Hi <-. by eapply step_release. Qed.

Definition all_done (ts : list locker) : Prop := ∀ i t, ts !! i = Some t → todo t = [].

(** No thread can go on, and some have work left. *)
Definition deadlocked (ts : list locker) : Prop := ¬ all_done ts ∧ ∀ ts', ¬ lock_step ts ts'.

(** ** The order *)

Definition rank (l : lock) : nat :=
  match l with LManager => 0 | LController => 1 | LSupervisor => 2 end.

(** Locks are released in reverse, and a lock that is not held yet comes after
    those that are. *)
Fixpoint ordered (h : list lock) (p : list action) : bool :=
  match p with
  | [] => bool_decide (h = [])
  | Acquire l :: p' =>
      (bool_decide (l ∈ h) || forallb (λ k, rank k <? rank l) h) && ordered (l :: h) p'
  | Release l :: p' =>
      match h with k :: h' => bool_decide (k = l) && ordered h' p' | [] => false end
  end.

Lemma ordered_with h l body rest :
  (l ∈ h ∨ ∀ k, k ∈ h → rank k < rank l) →
  (∀ rest', ordered (l :: h) rest' = true → ordered (l :: h) (body ++ rest') = true) →
  ordered h rest = true → ordered h (with_lock l body ++ rest) = true.
Proof.
  intros Hl Hbody Hrest. unfold with_lock. cbn. apply andb_true_iff. split.
  - apply orb_true_iff. destruct Hl as [Hl|Hl]; [left; by apply bool_decide_eq_true|right].
    apply forallb_forall. intros k Hk. apply Nat.ltb_lt, Hl. by apply list_elem_of_In.
  - rewrite <- app_assoc. apply Hbody. cbn. by rewrite bool_decide_eq_true_2.
Qed.

Lemma ordered_calls h calls rest :
  (∀ k, k ∈ h → rank k < 2) → ordered h rest = true →
  ordered h (concat (replicate calls (with_lock LSupervisor [])) ++ rest) = true.
Proof.
  intros Hh Hrest. induction calls as [|n IH]; [done|].
  apply (ordered_with h LSupervisor [] (concat (replicate n (with_lock LSupervisor [])) ++ rest));
    [by right|done|exact IH].
Qed.

Lemma ordered_controller h calls rest :
  (∀ k, k ∈ h → rank k < 2) → (LController ∈ h ∨ ∀ k, k ∈ h → rank k < 1) → ordered h rest = true →
  ordered h (controller_section calls ++ rest) = true.
Proof.
  intros Hh Hl Hrest. apply ordered_with; [exact Hl| |done]. intros rest' Hr.
  apply ordered_calls; [|done]. intros k [->|Hk]%elem_of_cons; [cbn; lia|by apply Hh].
Qed.

Lemma ordered_manager callbacks rest :
  ordered [] rest = true → ordered [] (manager_section callbacks ++ rest) = true.
Proof.
  apply ordered_with; [right; by intros k ?%not_elem_of_nil|]. intros rest' Hr.
  induction callbacks as [|n ns IH]; [done|]. cbn [fmap list_fmap concat]. rewrite <- app_assoc.
  apply ordered_controller; [..|exact IH]; [|right];
    intros k Hk%list_elem_of_singleton; subst; cbn; lia.
Qed.

(** A section of the controller by a thread that holds nothing. *)
Lemma ordered_section calls rest :
  ordered [] rest = true → ordered [] (controller_section calls ++ rest) = true.
Proof. apply ordered_controller; [|right]; by intros k ?%not_elem_of_nil. Qed.

Lemma ordered_status calls ports : ordered [] (status_locks calls ports) = true.
Proof.
  rewrite <- (app_nil_r (status_locks calls ports)).
  apply ordered_with; [right; by intros k ?%not_elem_of_nil| |done].
  assert (∀ k, k ∈ [LController] → rank k < 2) as Hk.
  { intros k Hk%list_elem_of_singleton. subst. cbn. lia. }
  intros rest Hr. rewrite <- app_assoc. apply ordered_controller; [exact Hk|left; by left|].
  by apply ordered_calls.
Qed.

(** The operations that keep the order. *)
Inductive orderly_request : list action → Prop :=
| orderly_idle : orderly_request []
| orderly_section calls : orderly_request (controller_section calls)
| orderly_status calls ports : orderly_request (status_locks calls ports)
| orderly_apply callbacks calls : orderly_request (apply_locks callbacks calls)
| orderly_destroy callbacks calls : orderly_request (destroy_locks callbacks calls).

Lemma request_ordered p : orderly_request p → ordered [] p = true.
Proof.
  intros [ |calls|calls ports|callbacks calls|callbacks calls]; [done|..].
  - rewrite <- (app_nil_r (controller_section calls)). by apply ordered_section.
  - apply ordered_status.
  - apply ordered_section, ordered_manager. rewrite <- (app_nil_r (controller_section calls)).
    by apply ordered_section.
  - apply ordered_section, ordered_manager, ordered_section.
    rewrite <- (app_nil_r (controller_section calls)). by apply ordered_section.
Qed.

(** ** Progress *)

(** Every thread keeps the order, and no lock is held by two threads. *)
Record locks_ok (ts : list locker) : Prop := {
  lo_ordered i t : ts !! i = Some t → ordered (held t) (todo t) = true;
  lo_exclusive i j t u l : ts !! i = Some t → ts !! j = Some u → i ≠ j → l ∈ held t → l ∉ held u;
}.

Lemma lookup_stepped (ts : list locker) i t j u :
  ts !! i = Some t → ∀ t', <[i := t']> ts !! j = Some u → (j = i ∧ u = t') ∨ (j ≠ i ∧ ts !! j = Some u).
Proof.
  intros Hi t' Hj. destruct (decide (j = i)) as [->|Hne].
  - rewrite list_lookup_insert_eq in Hj by (by eapply lookup_lt_Some). left. by simplify_eq.
  - rewrite list_lookup_insert_ne in Hj by done. by right.
Qed.

Lemma step_ok ts ts' : locks_ok ts → lock_step ts ts' → locks_ok ts'.
Proof.
  intros [Ho He] Hstep. destruct Hstep as [ts i h l p Hi Hfree|ts i h l p Hi].
  - pose proof (Ho _ _ Hi) as Hord. cbn in Hord. apply andb_true_iff in Hord as [_ Hord]. split.
    + intros j u [[-> ->]|[_ Hj]]%(lookup_stepped _ _ _ _ _ Hi); [done|by eapply Ho].
    + intros j k t u m [[-> ->]|[Hj Hjt]]%(lookup_stepped _ _ _ _ _ Hi)
        [[-> ->]|[Hk Hku]]%(lookup_stepped _ _ _ _ _ Hi) Hne Hm; [done|..]; cbn in *.
      * apply elem_of_cons in Hm as [->|Hm]; [by eapply Hfree|]. by apply (He _ _ _ _ m Hi Hku).
      * intros [->|Hm']%elem_of_cons; [by eapply (Hfree j)|]. by apply (He _ _ _ _ m Hjt Hi Hj).
      * by apply (He _ _ _ _ m Hjt Hku).
  - pose proof (Ho _ _ Hi) as Hord. cbn in Hord. apply andb_true_iff in Hord as [_ Hord]. split.
    + intros j u [[-> ->]|[_ Hj]]%(lookup_stepped _ _ _ _ _ Hi); [done|by eapply Ho].
    + intros j k t u m [[-> ->]|[Hj Hjt]]%(lookup_stepped _ _ _ _ _ Hi)
        [[-> ->]|[Hk Hku]]%(lookup_stepped _ _ _ _ _ Hi) Hne Hm; [done|..]; cbn in *.
      * apply (He _ _ _ _ m Hi Hku); [done|]. by right.
      * intros Hm'. apply (He _ _ _ _ m Hjt Hi Hj Hm). by right.
      * by apply (He _ _ _ _ m Hjt Hku).
Qed.

(** Another thread holds the lock. *)
Definition taken (ts : list locker) (i : nat) (l : lock) : bool :=
  existsb (λ j, bool_decide (j ≠ i)
    && from_option (λ u, bool_decide (l ∈ held u)) false (ts !! j)) (seq 0 (length ts)).

Lemma taken_spec ts i l :
  taken ts i l = true ↔ ∃ j u, j ≠ i ∧ ts !! j = Some u ∧ l ∈ held u.
Proof.
  unfold taken. rewrite existsb_exists. split.
  - intros (j & _ & [Hj Hu]%andb_true_iff). apply bool_decide_eq_true in Hj.
    destruct (ts !! j) as [u|] eqn:Hlook; [|done]. apply bool_decide_eq_true in Hu. by exists j, u.
  - intros (j & u & Hj & Hu & Hl). exists j. split.
    + apply in_seq. apply lookup_lt_Some in Hu. lia.
    + rewrite Hu. apply andb_true_iff. by split; apply bool_decide_eq_true.
Qed.

(** A thread that cannot go on waits for a lock that another thread holds. *)
Lemma blocked ts i t :
  locks_ok ts → (∀ ts', ¬ lock_step ts ts') → ts !! i = Some t → todo t ≠ [] →
  ∃ l p j u, todo t = Acquire l :: p ∧ j ≠ i ∧ ts !! j = Some u ∧ l ∈ held u.
Proof.
  intros [Ho _] Hstuck Hi Hne. destruct t as [h [|[l|l] p]]; [done|..].
  - exists l, p. cbn. destruct (taken ts i l) eqn:Htaken.
    + apply taken_spec in Htaken as (j & u & Hj & Hu & Hl). by exists j, u.
    + destruct (Hstuck (<[i := mkLocker (l :: h) p]> ts)). apply step_acquire; [done|].
      intros j u Hj Hu Hl. apply not_true_iff_false in Htaken. apply Htaken, taken_spec. by exists j, u.
  - pose proof (Ho _ _ Hi) as Hord. cbn in Hord. destruct h as [|k h]; [done|].
    apply andb_true_iff in Hord as [->%bool_decide_eq_true _].
    destruct (Hstuck (<[i := mkLocker h p]> ts)). by eapply step_release.
Qed.

(** The lock it waits for comes after the locks it holds, so the holder waits
    for a later one still. *)
Lemma no_deadlock ts : locks_ok ts → ¬ deadlocked ts.
Proof.
  intros Hok [Hnot Hstuck].
  assert (∀ n i t, ts !! i = Some t → (∃ l, l ∈ held t ∧ 3 - rank l ≤ n) → False) as Hhold.
  { induction n as [|n IH]; intros i t Hi (l & Hl & Hn); [destruct l; cbn in Hn; lia|].
    pose proof (lo_ordered _ Hok _ _ Hi) as Hord.
    assert (todo t ≠ []) as Hne.
    { intros Hnil. rewrite Hnil in Hord. cbn in Hord. apply bool_decide_eq_true in Hord.
      rewrite Hord in Hl. by apply not_elem_of_nil in Hl. }
    destruct (blocked ts i t Hok Hstuck Hi Hne) as (k & p & j & u & Ht & Hj & Hu & Hk).
    apply (IH j u Hu). exists k. split; [done|]. rewrite Ht in Hord. cbn in Hord.
    apply andb_true_iff in Hord as [[Hin|Hlt]%orb_true_iff _].
    - apply bool_decide_eq_true in Hin. by destruct (lo_exclusive _ Hok _ _ _ _ k Hi Hu (not_eq_sym Hj) Hin).
    - rewrite forallb_forall in Hlt. specialize (Hlt l (proj1 (list_elem_of_In _ _) Hl)).
      apply Nat.ltb_lt in Hlt. lia. }
  apply Hnot. intros i t Hi. destruct (decide (todo t = [])) as [|Hne]; [done|].
  destruct (blocked ts i t Hok Hstuck Hi Hne) as (k & p & j & u & Ht & Hj & Hu & Hk).
  destruct (Hhold 3 j u Hu). exists k. split; [done|lia].
Qed.

(** Each step does one action. *)
Definition remaining (ts : list locker) : nat := sum_list_with (length ∘ todo) ts.

Lemma remaining_insert ts i t u :
  ts !! i = Some t → length (todo t) = S (length (todo u)) →
  remaining ts = S (remaining (<[i := u]> ts)).
Proof.
  unfold remaining. revert i. induction ts as [|t' ts IH]; intros [|i] Hi Hlen; cbn in *; simplify_eq.
  - rewrite Hlen. reflexivity.
  - rewrite (IH i Hi Hlen). apply Nat.add_succ_r.
Qed.

Lemma step_remaining ts ts' : lock_step ts ts' → remaining ts = S (remaining ts').
Proof. by intros [? i h l p Hi _|? i h l p Hi]; eapply remaining_insert. Qed.

Lemma fresh_ok ps : Forall orderly_request ps → locks_ok (fresh <$> ps).
Proof.
  intros Hps. split.
  - intros i t (p & -> & Hp)%list_lookup_fmap_Some. cbn. apply request_ordered.
    by eapply Forall_lookup_1.
  - intros i j t u l (p & -> & _)%list_lookup_fmap_Some _ _ Hl. by apply not_elem_of_nil in Hl.
Qed.

Lemma reached_ok ts ts' : rtc lock_step ts ts' → locks_ok ts → locks_ok ts'.
Proof. induction 1; eauto using step_ok. Qed.

(** C13  No requests block each other for good: threads that run sections of
    the controller, [apply_topology] and [destroy_topology], any number of
    each, never reach a state in which some have work left and none can go on,
    and they can take no more steps than the locks they take and release. *)
Theorem requests_never_deadlock ps ts :
  Forall orderly_request ps → rtc lock_step (fresh <$> ps) ts →
  ¬ deadlocked ts ∧ ∀ ts', lock_step ts ts' → remaining ts' < remaining ts.
Proof.
  intros Hps Hreach. split.
  - by eapply no_deadlock, reached_ok, fresh_ok.
  - intros ts' Hstep. rewrite (step_remaining _ _ Hstep). lia.
Qed.

(** Applying and destroying at once, when the first has begun. *)
Lemma requests_never_deadlock_witness :
  ¬ deadlocked
      [mkLocker [LController] (Release LController :: manager_section [1] ++ controller_section 1);
       fresh (destroy_locks [1] 1)].
Proof.
  refine (proj1 (requests_never_deadlock [apply_locks [1] 1; destroy_locks [1] 1] _ _ _)).
  - repeat constructor.
  - eapply rtc_once, (acquires 0 [] LController); [done| |reflexivity].
    repeat constructor. apply not_elem_of_nil.
Defined.

(** Stopping the controller takes the locks the other way round: with an
    [apply_topology] on the way it can block for good. *)
Lemma stop_can_deadlock :
  ∃ ts, rtc lock_step [fresh (stop_locks [1]); fresh (apply_locks [1] 1)] ts ∧ deadlocked ts.
Proof.
  exists [mkLocker [LController] (manager_section [1] ++ [Release LController]);
     mkLocker [LManager] (tail (manager_section [1]) ++ controller_section 1)]. split.
  - eapply rtc_l, rtc_l, rtc_l, rtc_once.
    + eapply (acquires 1 [] LController); [done| |reflexivity].
      repeat constructor. apply not_elem_of_nil.
    + eapply (releases 1 [] LController); [done|reflexivity].
    + eapply (acquires 0 [] LController); [done| |reflexivity].
      repeat constructor. apply not_elem_of_nil.
    + eapply (acquires 1 [] LManager); [done| |reflexivity].
      repeat constructor. by intros ?%list_elem_of_singleton.
  - split.
    + intros Hdone. specialize (Hdone 0 _ eq_refl). done.
    + intros ts' Hstep. inversion Hstep as [? i h l p Hi Hfree|? i h l p Hi]; subst;
        destruct i as [|[|i]]; cbn in Hi; simplify_eq.
      * apply (Hfree 1 _ ltac:(done) eq_refl). by left.
      * apply (Hfree 0 _ ltac:(done) eq_refl). by left.
Qed.
